(* ===== verification/_CoqProject ===== *)
-Q . S2P
Prelude.v
Mem.v
Lib.v
Fs.v
Paging.v
Kstate.v
Pc.v
Screen.v
Terminal.v
Pic.v
Rtc.v
Keyboard.v
Files.v
Process.v
Parse.v
Sched.v
Exec.v
Load.v
System.v
Lock.v
Idt.v
Boot.v
User.v
Support.v
Client.v
Blink.v
Fish.v
Emul.v
Grep.v
Ls.v
Conform.v
Guard.v
Sigtest.v
Syserr.v
Demo.v
Progdemo.v
