(* ===== verification/Prelude.v ===== *)
(** * Verification of the ECE 391 operating system

    The repository is a small operating system for a 32-bit PC (src/student-distrib): a
    kernel that is booted by a multiboot loader, keeps a read-only file system in memory,
    runs up to six user programs in three text terminals, and switches between the
    terminals on the timer's interrupt, and the programs that run on it (src/syscalls,
    src/fish).  The
    development translates the kernel's C, and the inline assembly it contains, into
    executable definitions over one machine state and proves what each part promises; the
    programs are translated over an interface of system calls, which the kernel implements.

    ** The machine

    - [Prelude] (this file): machine integers as [Z] with the conversions of C written out,
      loops ([for_up] for counted loops, [while32] for loops without a bound in the code:
      it runs at most 2^32 rounds, more than any loop over 32-bit values that ends can
      take, and [while32_total] turns a decreasing measure into a result), and the list
      lemmas the components share.
    - [Mem]: physical memory as a finite map from addresses to bytes, seen through an address
      translation ([Xlat]); little-endian loads and stores; frame predicates ([unch],
      [uniq_range], [sep_range]).
    - [Kstate]: the kernel's state: memory, MMU, devices, the saved registers the code reads
      and writes (ESP, EBP, IF), and the globals of each source file, as records with the
      source's field names.  Pointers to globals ([running_term_ptr], [screen_x_ptr],
      [kbd_buf]) are indices, so that aliasing is as in the code.
    - [Pc]: a concrete machine behind the class [Ports] ([inb], [outb]).  The drivers'
      theorems are proved against the classes [PicDev], [PicFrame] and [RtcDev], which
      state the data sheets' behaviour; [Pc] instantiates them.

    ** The components

    - [Lib] (lib.c): strings, numbers, block copies, with the string instructions of the
      inline assembly as loops over memory.
    - [Fs] (fs.c): the file-system image, directory lookup, [read_data], the operations
      behind descriptors.
    - [Paging] (paging.c, the CR3 routines of lib.c): page-directory and page-table entries
      as packed bit fields; [translate] is the processor's walk through the copy of the
      tables that the last CR3 load left in the TLB.
    - [Screen] (lib.c: [nb_putc], [printf], scrolling, the cursor, [clear], and
      [test_interrupts], whose only call is commented out).
    - [Terminal] (terminal.c): three terminals, switching, reading and writing.
    - [Pic] (i8259.c), [Rtc] (rtc.c, pit.c's programming of the timer), [Keyboard]
      (keyboard.c): the device drivers.
    - [Files] (syscall_handler.c: [read], [write], [open], [close], [getargs]).
    - [Process] (syscall_handler.c: pids and PCBs, [parse_args], [execute], [halt],
      [vidmap], [schedule]; pit.c and interrupt_handler.c: the interrupt handlers;
      syscall_handler_entry.S: dispatch).  A handler ends in an [outcome]: it returns, it
      resumes a caller on another kernel stack with [leave; ret], or it enters user code
      with [iret].  [None] stands for what the code cannot survive: a jump through an unset
      operation table or a loop that does not end.
    - [Idt] (idt.c, exception_handler.c), [Boot] (kernel.c).
    - [Lock] (lib.c: spin locks and atomic counters): the assembly as lists of instructions
      that threads execute interleaved.  No other component uses them.

    ** The programs

    - [User] (ece391syscall.S, ece391support.c, and the programs hello, counter, cat, ls, grep,
      pingpong, testprint and shell): functions in a state monad over the class [Usys], a
      state with memory and the trap [int $0x80].
    - [Support]: the programs' string routines against the kernel's.
    - [Client], [Grep], [Ls]: the classes [Tty], [FileIO] and [DirIO] state what a program may
      rely on (its memory, descriptors 0 and 1, arguments, files, the directory); the
      programs' theorems are proved against them.
    - [Conform]: the kernel is an instance of [Usys] and of these classes: its trap is
      [syscall_entry], and the promises are proved from the theorems of the components.
    - [Syserr] (ece391syserr.c): the test program of the system calls, run on the kernel.
    - [Guard]: what the descriptor calls can write, for a buffer in the program's page.
    - [Sigtest] (ece391sigtest.c): the signal test and its handlers.  A run ends with a result
      or in a page fault at an address ([Done], [Fault]); each access of the program's own code
      checks that its bytes have a page.  The class [NoSignals] says what the kernel does
      instead of signals.
    - [Blink] (src/fish/blink.S and the allocator of fish.c): the linked list of blinking
      characters.  Nodes are elements of an array, pointers are indices, the list segment
      [seg] and the invariant [fish_ok] relate the links to a list, [shows] the contents.
    - [Fish] (src/fish/fish.c): the fish program.  Its machine [fish_usys] is any machine of
      a program with the list beside its memory, so that it is written with the loops and
      calls of [User]; the class [FrameIO] states what it relies on (two frames, the clock,
      the mapped screen), and [pond_io] is a small machine that keeps it.
    - [Emul] (ece391emulate.c, the same file in src/syscalls and src/fish): the system calls
      as the programs have them under Linux.  Linux and the C library are the class [Libc].

    ** What is proved

    - [Parse], [Exec], [Load]: [parse_args] splits a command; [execute] finds the file, loads
      it into the new process's page, passes its arguments and enters it at the address in
      its header; what [execute] refuses, and with which answer, on commands within the bounds
      of the parser ([execute_refuses]); [vidmap].
    - [Sched]: a timer tick keeps every context and moves to the next terminal, and three
      ticks come back to the first.
    - [System]: an abstract machine of three stacks of tasks; every system call, interrupt
      and stretch of user code of the kernel is a step of it ([kernel_step_simulates]), so
      every state reachable from boot is well-formed ([reachable_processes_ok]), and
      [execute] followed by the program's [halt] is a call and its return.
    - [Files], [Fs], [Guard]: descriptor calls never use an unset operation table and, for a
      buffer in the program's page, write nothing of the kernel's page but a local
      ([descriptor_calls_safe]); [open] takes the lowest free descriptor, files are read slice by slice and to their end; lookup implements the abstract
      directory; the exact error conditions.
    - [Screen], [Terminal]: [nb_putc] implements an abstract screen; output stays on the
      writer's terminal; switching keeps every terminal's contents.
    - [Keyboard]: the handler's invariant for every scan code; a typed line is what the
      reader gets.
    - [Paging], [Pic], [Rtc], [Idt], [Boot]: the address map, one program page per process,
      the interrupt lines and vectors, the clock's rates, exceptions, and the whole of
      [entry] from the loader's hand-over to the initial state of [System].
    - [Lock]: at most one thread holds a lock whatever the interleaving, its interrupts are
      off, its flags come back, and a free lock is taken in nine steps.
    - [Client], [Ls], [Grep]: hello, counter, cat and ls do what they are for; the shell traps
      with exactly the typed line and reports its status ([shell_obeys]); grep, which cuts a
      file into lines in a buffer of 1024 bytes, prints exactly the lines that match.
    - [Syserr]: the kernel passes every test of the test program.
    - [Blink]: every command on the linked nodes refines its description on a list
      ([ioctl_refines]), after any number of ticks every character is on or off, in its node
      and on the screen, as its age and its two lengths say ([tasklet_blinks]), and from the
      start any ticks and calls within the interface ([event_ok]; not a character at location
      0) end and leave the array well formed ([events_well_formed]).
    - [Fish]: the program runs to its end; the characters it adds are those of the two frames,
      line by line ([frame_cells]), and its list at the end is given by the descriptions of
      its commands ([fish_runs]).
    - [Emul]: [execute] splits a command into the vector of its words inside its buffers,
      [getargs] joins the vector again, a directory entry is read with its padding.
    - [Sigtest]: on this kernel the signal test faults at address 0, its null store, with the
      name read and nothing printed behind its question ([sigtest_faults]).
    - Some theorems state what the code does where that is not what it means to do
      ([read_data_negative_count], [read_data_exact_block], [rtc_signal_shared],
      [hidden_reader_gets_visible_line], [kernel_page_open_to_user], [zero_location_hangs],
      [sync_char_off], [getargs_overruns]).
    - [Demo] and [Progdemo] hold concrete states and apply the theorems about system calls
      and programs to them; the other files end with their own.

    ** Bounds and assumptions

    - The addresses of globals, of locals in a kernel stack frame and of entry points are
      the compiler's and the linker's: parameters ([FsLayout], [PgLayout], [Frames],
      [EntryAddrs], [GdtSyms]), with the disjointness a theorem needs as a hypothesis.
    - [ks_user], the step of user code in [System], changes memory and registers at will but
      not the kernel's globals and page tables, which the model keeps apart from memory,
      although the page tables would let a program write them ([kernel_page_open_to_user]).
    - In the same way a store of a system call through a program's pointer changes memory and
      nothing else: [read] does not check its buffer, and on the real machine a buffer at the
      address of a PCB or of a global overwrites it.  [Guard] shows that a buffer inside the
      program's page does not reach the kernel's page, so there the separation loses nothing.
    - The busy waits end when an interrupt changes what they test: [terminal_read] answers
      [None] as long as its line is not there, and [rtc_read] is the state in which the wait
      begins, [rtc_read_poll] the rest of the call.
    - A program's loop that has not ended after 2^32 rounds answers [None], as does a call that
      does not return to its caller; the theorems about programs show results, not [None]
      ([shell_obeys] also says that a call that does not return leaves the shell waiting).
    - The addresses of a program's literals ([Rodata]) and of its local arrays are parameters.
      [past_args] gives the bytes that [getargs] reads behind its 128-byte array; nothing is
      assumed of them.
    - Interrupts arrive between system calls and in the waits; a handler that has executed
      [cli] is not interrupted.

    ** Not modelled

    - The register saves of the entry assembly and the startup code of boot.S and
      x86_desc.S, whose effect is the state [entry] is given.
    - The port macros of lib.h for words and double words, and the prototypes and macros of
      the headers that no code uses.
    - The bytes of a [mp1_blink_struct]: the list's nodes are records, and a copy of a structure
      is a copy of its fields.  The machine of [Fish] is not shown to be the kernel: its reads of
      the clock wait for interrupts, which are no part of one trap, and its stores to the screen
      go through a page that the class [Tty] does not describe.
    - In ece391emulate.c, the startup code in front of [main].
    - Nothing is left out of the programs, but the theorems about grep, pingpong and the
      shell are about their parts: grep's search of one file, one picture, one command; the
      last two do not end, and grep's main visits executables, which are no text. *)

From stdpp Require Export base numbers gmap list.
From stdpp Require Import options.

(** Statements about machine integers are read in [Z_scope]. *)
#[export] Set Default Goal Selector "!".
Open Scope Z_scope.

(** ** Machine integers

    A C object of width [w] is a [Z]; [u8]/[u16]/[u32] and [s8]/[s32] are the
    conversions C performs when a value is stored in such an object. *)

Definition u8 (z : Z) : Z := z mod 256.
Definition u16 (z : Z) : Z := z mod 65536.
Definition u32 (z : Z) : Z := z mod 4294967296.

Definition s8 (z : Z) : Z := (z + 128) mod 256 - 128.
Definition s32 (z : Z) : Z := (z + 2147483648) mod 4294967296 - 2147483648.

(** [bits w z]: assignment to an unsigned bit-field of width [w]. *)
Definition bits (w z : Z) : Z := z mod 2 ^ w.

(** C truth values. *)
Definition b2z (b : bool) : Z := if b then 1 else 0.
Definition nz (z : Z) : bool := negb (z =? 0).

Create HintDb ints.
Create Rewrite HintDb ints.

Lemma u8_bound z : 0 ≤ u8 z < 256.
Proof. apply Z.mod_pos_bound. lia. Qed.

Lemma u16_bound z : 0 ≤ u16 z < 65536.
Proof. apply Z.mod_pos_bound. lia. Qed.

Lemma u32_bound z : 0 ≤ u32 z < 4294967296.
Proof. apply Z.mod_pos_bound. lia. Qed.

Lemma s8_bound z : -128 ≤ s8 z < 128.
Proof. unfold s8. pose proof (Z.mod_pos_bound (z + 128) 256). lia. Qed.

Lemma s32_bound z : -2147483648 ≤ s32 z < 2147483648.
Proof. unfold s32. pose proof (Z.mod_pos_bound (z + 2147483648) 4294967296). lia. Qed.

Lemma bits_bound w z : 0 ≤ w → 0 ≤ bits w z < 2 ^ w.
Proof. intros. apply Z.mod_pos_bound. lia. Qed.

Lemma u8_small z : 0 ≤ z < 256 → u8 z = z.
Proof. apply Z.mod_small. Qed.

Lemma u16_small z : 0 ≤ z < 65536 → u16 z = z.
Proof. apply Z.mod_small. Qed.

Lemma u32_small z : 0 ≤ z < 4294967296 → u32 z = z.
Proof. apply Z.mod_small. Qed.

Lemma s32_small z : -2147483648 ≤ z < 2147483648 → s32 z = z.
Proof. intros. unfold s32. rewrite Z.mod_small; lia. Qed.

Lemma bits_small w z : 0 ≤ z < 2 ^ w → bits w z = z.
Proof. apply Z.mod_small. Qed.

Lemma u8_idem z : u8 (u8 z) = u8 z.
Proof. apply u8_small, u8_bound. Qed.

Lemma u32_idem z : u32 (u32 z) = u32 z.
Proof. apply u32_small, u32_bound. Qed.

Lemma u32_add_l a b : u32 (u32 a + b) = u32 (a + b).
Proof. unfold u32. apply Zplus_mod_idemp_l. Qed.

Lemma u32_add_r a b : u32 (a + u32 b) = u32 (a + b).
Proof. unfold u32. apply Zplus_mod_idemp_r. Qed.

Lemma u32_eq_iff a b : u32 a = u32 b ↔ (a - b) mod 4294967296 = 0.
Proof. unfold u32. split; intros; Z.div_mod_to_equations; lia. Qed.

(** Two addresses less than the address-space size apart are different. *)
Lemma u32_near a b : -4294967296 < a - b < 4294967296 → u32 a = u32 b → a = b.
Proof. rewrite u32_eq_iff. intros. Z.div_mod_to_equations. lia. Qed.

Lemma s8_inj a b : 0 ≤ a < 256 → 0 ≤ b < 256 → s8 a = s8 b → a = b.
Proof. unfold s8. intros. Z.div_mod_to_equations. lia. Qed.

#[export] Hint Resolve u8_bound u16_bound u32_bound : ints.
#[export] Hint Rewrite u8_idem u32_idem u32_add_l u32_add_r : ints.

(** ** Tactics *)

(** Bring the range of every machine-integer conversion in sight to [lia]. *)
Ltac int_bounds :=
  repeat match goal with
  | |- context [u8 ?z] => lazymatch goal with
      | H : 0 ≤ u8 z < 256 |- _ => fail | _ => pose proof (u8_bound z) end
  | _ : context [u8 ?z] |- _ => lazymatch goal with
      | H : 0 ≤ u8 z < 256 |- _ => fail | _ => pose proof (u8_bound z) end
  | |- context [u32 ?z] => lazymatch goal with
      | H : 0 ≤ u32 z < 4294967296 |- _ => fail | _ => pose proof (u32_bound z) end
  | _ : context [u32 ?z] |- _ => lazymatch goal with
      | H : 0 ≤ u32 z < 4294967296 |- _ => fail | _ => pose proof (u32_bound z) end
  end.

Ltac zlia := int_bounds; lia.

(** Case analysis on the boolean tests of the code. *)
Ltac case_test :=
  match goal with
  | |- context [?a =? ?b] => destruct (Z.eqb_spec a b)
  | |- context [?a <? ?b] => destruct (Z.ltb_spec a b)
  | |- context [?a <=? ?b] => destruct (Z.leb_spec a b)
  | H : context [?a =? ?b] |- _ => destruct (Z.eqb_spec a b)
  | H : context [?a <? ?b] |- _ => destruct (Z.ltb_spec a b)
  | H : context [?a <=? ?b] |- _ => destruct (Z.leb_spec a b)
  end.

Ltac case_tests := repeat (case_test; simpl in *; try lia).

(** ** Lists *)

Lemma nth_fmap {A B} (f : A → B) (l : list A) i da db :
  (i < length l)%nat → nth i (f <$> l) db = f (nth i l da).
Proof.
  intros [x Hx]%lookup_lt_is_Some_2. rewrite !nth_lookup, list_lookup_fmap.
  by rewrite Hx.
Qed.

(** A decidable fact checked for every number of a range. *)
Lemma forallb_seqZ (f : Z → bool) lo n i :
  forallb f (seqZ lo n) = true → lo ≤ i < lo + n → f i = true.
Proof.
  rewrite forallb_forall. intros H Hi. apply H, list_elem_of_In, elem_of_seqZ. lia.
Qed.

(** ** Loops

    [loop k step a] runs [step] until it answers [inr], at most [2 ^ k] times.
    A C [while] over a 32-bit counter or address is [while32], which allows
    [2 ^ 32] rounds: a loop whose state only depends on such a counter and that
    has not left by then never does.  [None] stands for that divergence. *)

Section loop.
Context {A B : Type} (step : A → A + B).

Fixpoint loop (k : nat) (a : A) : A + B :=
  match k with
  | O => step a
  | S k => match loop k a with inl a' => loop k a' | inr b => inr b end
  end.

Fixpoint rounds (n : nat) (a : A) : A + B :=
  match n with
  | O => inl a
  | S n => match step a with inl a' => rounds n a' | inr b => inr b end
  end.

Definition while32 (a : A) : option B :=
  match loop 32 a with inl _ => None | inr b => Some b end.

Lemma rounds_add n m a :
  rounds (n + m) a =
  match rounds n a with inl a' => rounds m a' | inr b => inr b end.
Proof.
  revert a. induction n as [|n IH]; intros a; [done|].
  simpl. by destruct (step a).
Qed.

Lemma loop_rounds k a : loop k a = rounds (2 ^ k) a.
Proof.
  revert a. induction k as [|k IH]; intros a; simpl.
  - by destruct (step a).
  - rewrite Nat.add_0_r, rounds_add, IH. by destruct (rounds _ a).
Qed.

Lemma rounds_more n m a b :
  (n ≤ m)%nat → rounds n a = inr b → rounds m a = inr b.
Proof.
  intros Hle Hn. replace m with (n + (m - n))%nat by lia.
  by rewrite rounds_add, Hn.
Qed.

Lemma while32_rounds n a b :
  Z.of_nat n ≤ 2 ^ 32 → rounds n a = inr b → while32 a = Some b.
Proof.
  intros Hn Hr. unfold while32. rewrite loop_rounds.
  rewrite (rounds_more n _ a b); [done| |done].
  apply Nat2Z.inj_le. rewrite Nat2Z.inj_pow. exact Hn.
Qed.

(** Partial correctness of a [while]. *)
Lemma while32_pres (P : A → Prop) (Q : B → Prop) a b :
  (∀ x, P x → match step x with inl y => P y | inr c => Q c end) →
  P a → while32 a = Some b → Q b.
Proof.
  intros Hstep. unfold while32. generalize 32%nat as k.
  assert (∀ k a, P a → match loop k a with inl y => P y | inr c => Q c end) as H.
  { intros k. induction k as [|k IH]; intros x Hx; simpl; [by apply Hstep|].
    specialize (IH x Hx) as H1. destruct (loop k x) as [y|c]; [by apply IH|done]. }
  intros k Ha. specialize (H k a Ha). destruct (loop k a); [done|]. by intros [= <-].
Qed.

(** Total correctness of a [while]: an invariant with a rank that strictly decreases and
    starts below [2 ^ 32]. *)
Lemma while32_ranked (P : Z → A → Prop) (Q : B → Prop) n a :
  (∀ n x, P n x → 0 ≤ n ∧
     match step x with
     | inl y => ∃ n', n' < n ∧ P n' y
     | inr b => Q b
     end) →
  P n a → n < 2 ^ 32 → ∃ b, while32 a = Some b ∧ Q b.
Proof.
  intros Hstep Ha Hn.
  assert (∃ r b, Z.of_nat r ≤ n + 1 ∧ rounds r a = inr b ∧ Q b) as (r & b & Hr & Er & HQ).
  { clear Hn. remember (Z.to_nat n) as f eqn:Hf.
    revert n a Ha Hf. induction f as [f IH] using lt_wf_ind; intros n a Ha ->.
    destruct (Hstep n a Ha) as [Hpos Hs].
    destruct (step a) as [y|b] eqn:E.
    - destruct Hs as (n' & Hlt & Hy). destruct (Hstep n' y Hy) as [Hposy _].
      destruct (IH (Z.to_nat n') ltac:(lia) n' y Hy eq_refl) as (r & b & ? & ? & ?).
      exists (S r), b. simpl. rewrite E. split_and!; [lia|done|done].
    - exists 1%nat, b. simpl. rewrite E. split_and!; [lia|done|done]. }
  exists b. split; [|done]. eapply while32_rounds; [|done]. lia.
Qed.

(** The rank as a measure of the state. *)
Lemma while32_total (P : A → Prop) (Q : B → Prop) (mu : A → Z) a :
  (∀ x, P x → 0 ≤ mu x ∧
     match step x with
     | inl y => P y ∧ mu y < mu x
     | inr b => Q b
     end) →
  P a → mu a < 2 ^ 32 → ∃ b, while32 a = Some b ∧ Q b.
Proof.
  intros Hstep Ha. apply (while32_ranked (λ n x, n = mu x ∧ P x)); [|done].
  intros n x [-> Hx]. destruct (Hstep x Hx) as [H0 Hs]. split; [done|].
  destruct (step x) as [y|b]; [|done]. destruct Hs. by exists (mu y).
Qed.
End loop.

(** A loop that leaves at once. *)
Lemma while32_now {A B} (step : A → A + B) a b : step a = inr b → while32 step a = Some b.
Proof. intros E. apply (while32_rounds _ 1); [lia|]. simpl. by rewrite E. Qed.

(** Two loops in lock step. *)
Lemma while32_sim {A B C D} (f : A → A + B) (g : C → C + D) (R : A → C → Prop) (S : B → D → Prop) a c :
  (∀ a c, R a c → match f a, g c with
                  | inl a', inl c' => R a' c' | inr b, inr d => S b d | _, _ => False end) →
  R a c → option_Forall2 S (while32 f a) (while32 g c).
Proof.
  intros Hstep Hac. unfold while32. generalize 32%nat as n. intros n.
  assert (∀ n a c, R a c → match loop f n a, loop g n c with
    | inl a', inl c' => R a' c' | inr b, inr d => S b d | _, _ => False end) as H.
  { clear -Hstep. intros n. induction n as [|n IH]; intros a c Hac; simpl; [by apply Hstep|].
    specialize (IH a c Hac) as H1. destruct (loop f n a), (loop g n c); try done. by apply IH. }
  specialize (H n a c Hac). destruct (loop f n a), (loop g n c); try done; by constructor.
Qed.

(** A [while] whose number of rounds has a bound [n] known beforehand: the
    result is the state in which the condition first fails. *)
Section while_n.
Context {A : Type} (cond : A → bool) (body : A → A).

Fixpoint while_n (n : nat) (a : A) : A :=
  match n with
  | O => a
  | S n => if cond a then while_n n (body a) else a
  end.

Lemma while_n_inv (P : A → Prop) (mu : A → Z) n a :
  P a → mu a ≤ Z.of_nat n →
  (∀ x, P x → cond x = true → 0 < mu x ∧ mu (body x) < mu x ∧ P (body x)) →
  P (while_n n a) ∧ cond (while_n n a) = false.
Proof.
  intros Ha Hmu Hstep. revert a Ha Hmu.
  induction n as [|n IH]; intros a Ha Hmu; simpl.
  - split; [done|]. destruct (cond a) eqn:E; [|done].
    destruct (Hstep a Ha E). lia.
  - destruct (cond a) eqn:E; [|done].
    destruct (Hstep a Ha E) as (? & ? & ?). apply IH; [done|lia].
Qed.

Lemma while_n_pres (P : A → Prop) n a :
  (∀ x, P x → cond x = true → P (body x)) → P a → P (while_n n a).
Proof.
  intros Hstep. revert a. induction n as [|n IH]; intros a Ha; simpl; [done|].
  destruct (cond a) eqn:E; auto.
Qed.
End while_n.

(** A counted loop [for (i = lo; i < hi; i++)]. *)
Section for_up.
Context {A : Type} (body : Z → A → A).

Fixpoint for_n (n : nat) (i : Z) (a : A) : A :=
  match n with
  | O => a
  | S n => for_n n (i + 1) (body i a)
  end.

Definition for_up (lo hi : Z) (a : A) : A := for_n (Z.to_nat (hi - lo)) lo a.

Lemma for_up_inv (P : Z → A → Prop) lo hi a :
  lo ≤ hi → P lo a →
  (∀ i x, lo ≤ i < hi → P i x → P (i + 1) (body i x)) →
  P hi (for_up lo hi a).
Proof.
  intros Hle H0 Hstep. unfold for_up.
  remember (Z.to_nat (hi - lo)) as n eqn:Hn.
  revert lo a Hle H0 Hstep Hn. induction n as [|n IH]; intros lo a Hle H0 Hstep Hn; simpl.
  - by replace hi with lo by lia.
  - apply IH; [lia|apply Hstep; [lia|done]| |lia].
    intros i x ? ?. apply Hstep; [lia|done].
Qed.

Lemma for_up_snoc lo hi a :
  lo ≤ hi → for_up lo (hi + 1) a = body hi (for_up lo hi a).
Proof.
  intros Hle. unfold for_up.
  remember (Z.to_nat (hi - lo)) as n eqn:Hn.
  replace (Z.to_nat (hi + 1 - lo)) with (S n) by lia.
  revert lo a Hle Hn. induction n as [|n IH]; intros lo a Hle Hn.
  - simpl. by replace hi with lo by lia.
  - change (for_n (S (S n)) lo a) with (for_n (S n) (lo + 1) (body lo a)).
    change (for_n (S n) lo a) with (for_n n (lo + 1) (body lo a)).
    apply IH; lia.
Qed.

Lemma for_up_nil lo hi a : hi ≤ lo → for_up lo hi a = a.
Proof. intros. unfold for_up. by replace (Z.to_nat (hi - lo)) with 0%nat by lia. Qed.
End for_up.

(** A loop that works inside a larger state. *)
Lemma for_up_map {A B} (h : A → B) (f : Z → A → A) (g : Z → B → B) lo hi a :
  (∀ i a, lo ≤ i < hi → g i (h a) = h (f i a)) →
  for_up g lo hi (h a) = h (for_up f lo hi a).
Proof.
  intros H. destruct (decide (lo ≤ hi)); [|by rewrite !for_up_nil by lia].
  apply (for_up_inv g (λ i b, b = h (for_up f lo i a))); [done|by rewrite for_up_nil|].
  intros i b Hi ->. by rewrite H, for_up_snoc by lia.
Qed.

(** [for (i = lo; i < hi; i++) if (test(i)) return i;], the answer [None] when
    the loop runs to its end. *)
Section find_up.
Context (test : Z → bool).

Fixpoint find_n (n : nat) (i : Z) : option Z :=
  match n with
  | O => None
  | S n => if test i then Some i else find_n n (i + 1)
  end.

Definition find_up (lo hi : Z) : option Z := find_n (Z.to_nat (hi - lo)) lo.

Lemma find_up_Some lo hi i :
  find_up lo hi = Some i ↔
  lo ≤ i < hi ∧ test i = true ∧ ∀ j, lo ≤ j < i → test j = false.
Proof.
  unfold find_up. remember (Z.to_nat (hi - lo)) as n eqn:Hn.
  revert lo Hn. induction n as [|n IH]; intros lo Hn; simpl.
  { split; [done|lia]. }
  destruct (test lo) eqn:E.
  - split.
    + intros [= <-]. split_and!; try done; lia.
    + intros (Hr & Ht & Hj). destruct (decide (i = lo)) as [->|]; [done|].
      rewrite Hj in E by lia. done.
  - rewrite IH by lia. split; intros (Hr & Ht & Hj); split_and!; try lia; try done.
    + intros j ?. destruct (decide (j = lo)) as [->|]; [done|]. apply Hj. lia.
    + destruct (decide (i = lo)) as [->|]; [congruence|lia].
    + intros j ?. apply Hj. lia.
Qed.

Lemma find_up_None lo hi :
  find_up lo hi = None ↔ ∀ j, lo ≤ j < hi → test j = false.
Proof.
  unfold find_up. remember (Z.to_nat (hi - lo)) as n eqn:Hn.
  revert lo Hn. induction n as [|n IH]; intros lo Hn; simpl.
  { split; [intros; lia|done]. }
  destruct (test lo) eqn:E.
  - split; [done|]. intros H. rewrite H in E by lia. done.
  - rewrite IH by lia. split; intros H j ?.
    + destruct (decide (j = lo)) as [->|]; [done|]. apply H. lia.
    + apply H. lia.
Qed.
End find_up.

Lemma find_up_ext f g lo hi : (∀ i, f i = g i) → find_up f lo hi = find_up g lo hi.
Proof.
  intros H. unfold find_up. generalize (Z.to_nat (hi - lo)) as n. intros n. revert lo.
  induction n as [|n IH]; intros lo; simpl; [done|]. by rewrite H, IH.
Qed.
