(* ===== verification/Mem.v ===== *)
(** * Byte memory seen through an address translation

    The kernel works on bytes of physical memory that it names by 32-bit virtual
    addresses.  [mem] is the physical memory, a finite map from cells to bytes in
    which an absent cell reads as 0 (RAM is zeroed by the emulator); the class
    [Xlat] is the translation in force while a routine runs, from a 32-bit
    virtual address to the physical cell.  [ld8]/[st8] and [ld32]/[st32] are the
    byte and the little-endian double-word accesses of the processor.

    [written m d n f m'] is the contract of the routines that fill a buffer: the
    [n] bytes at [d] are [f 0 .. f (n-1)] and no other cell has changed. *)

From S2P Require Import Prelude.

Abbreviation mem := (gmap Z Z).

Class Xlat := xlat : Z → Z.

(** The identity translation of the kernel before paging is on. *)
Definition flat : Xlat := λ a, a.

Create HintDb mem.
Create Rewrite HintDb mem.

Section mem.
Context {X : Xlat}.
Implicit Types (m : mem) (a b d s n i k v : Z).

(** The physical cell behind a C pointer expression: pointer arithmetic wraps
    at 32 bits. *)
Definition cell (a : Z) : Z := xlat (u32 a).

Definition ld8 (m : mem) (a : Z) : Z := u8 (default 0 (m !! cell a)).
Definition st8 (m : mem) (a v : Z) : mem := <[cell a := u8 v]> m.

Definition ld32 (m : mem) (a : Z) : Z :=
  ld8 m a + 256 * ld8 m (a + 1) + 65536 * ld8 m (a + 2)
  + 16777216 * ld8 m (a + 3).

Definition st32 (m : mem) (a v : Z) : mem :=
  st8 (st8 (st8 (st8 m a v) (a + 1) (v / 256)) (a + 2) (v / 65536))
      (a + 3) (v / 16777216).

(** The bytes [m[a], ..., m[a+n-1]]. *)
Definition load_bytes (m : mem) (a n : Z) : list Z :=
  (λ i, ld8 m (a + i)) <$> seqZ 0 n.

Lemma cell_u32 a : cell (u32 a) = cell a.
Proof. unfold cell. by rewrite u32_idem. Qed.

Lemma cell_add_u32 a i : cell (u32 a + i) = cell (a + i).
Proof. unfold cell. by rewrite u32_add_l. Qed.

Lemma ld8_bound m a : 0 ≤ ld8 m a < 256.
Proof. apply u8_bound. Qed.

Lemma ld8_u32 m a : ld8 m (u32 a) = ld8 m a.
Proof. unfold ld8. by rewrite cell_u32. Qed.

Lemma ld8_add_u32 m a i : ld8 m (u32 a + i) = ld8 m (a + i).
Proof. unfold ld8. by rewrite cell_add_u32. Qed.

Lemma u8_ld8 m a : u8 (ld8 m a) = ld8 m a.
Proof. apply u8_small, ld8_bound. Qed.

Lemma cell_eq a b : u32 a = u32 b → cell a = cell b.
Proof. unfold cell. by intros ->. Qed.

Lemma ld8_eq m a b : u32 a = u32 b → ld8 m a = ld8 m b.
Proof. intros H. unfold ld8. by rewrite (cell_eq a b). Qed.

Lemma st8_eq m a b v w : u32 a = u32 b → u8 v = u8 w → st8 m a v = st8 m b w.
Proof. intros Ha Hv. unfold st8. by rewrite (cell_eq a b), Hv. Qed.

Lemma ld8_st8_eq m a v b : cell a = cell b → ld8 (st8 m a v) b = u8 v.
Proof.
  intros H. unfold ld8, st8. rewrite H, lookup_insert_eq. simpl. apply u8_idem.
Qed.

Lemma ld8_st8_ne m a v b : cell a ≠ cell b → ld8 (st8 m a v) b = ld8 m b.
Proof. intros H. unfold ld8, st8. by rewrite lookup_insert_ne. Qed.

Lemma ld32_bound m a : 0 ≤ ld32 m a < 4294967296.
Proof.
  unfold ld32. pose proof (ld8_bound m a). pose proof (ld8_bound m (a + 1)).
  pose proof (ld8_bound m (a + 2)). pose proof (ld8_bound m (a + 3)). lia.
Qed.

Lemma length_load_bytes m a n : length (load_bytes m a n) = Z.to_nat n.
Proof. unfold load_bytes. by rewrite length_fmap, length_seqZ. Qed.

Lemma load_bytes_app m a n k :
  0 ≤ n → 0 ≤ k → load_bytes m a (n + k) = load_bytes m a n ++ load_bytes m (a + n) k.
Proof.
  intros. unfold load_bytes. rewrite seqZ_app, fmap_app by lia. f_equal.
  replace (0 + n) with (n + 0) by lia.
  rewrite <- (fmap_add_seqZ n 0 k), <- list_fmap_compose. apply list_fmap_ext.
  intros i x _. simpl. f_equal. lia.
Qed.

Lemma lookup_load_bytes m a n i :
  0 ≤ i < n → load_bytes m a n !! Z.to_nat i = Some (ld8 m (a + i)).
Proof.
  intros Hi. unfold load_bytes. rewrite list_lookup_fmap.
  rewrite (lookup_seqZ_lt 0 n (Z.to_nat i)) by lia. simpl. do 2 f_equal. lia.
Qed.

(** ** Frames *)

(** Every cell outside [P] is as before. *)
Definition unch (P : Z → Prop) (m m' : mem) : Prop :=
  ∀ p, ¬ P p → m' !! p = m !! p.

Definition in_range (d n p : Z) : Prop := ∃ i, 0 ≤ i < n ∧ p = cell (d + i).

(** No cell of the first buffer is one of the second. *)
Definition sep_range (d n s k : Z) : Prop :=
  ∀ i j, 0 ≤ i < n → 0 ≤ j < k → cell (d + i) ≠ cell (s + j).

(** The [n] bytes at [d] are [n] different cells. *)
Definition uniq_range (d n : Z) : Prop :=
  ∀ i j, 0 ≤ i < n → 0 ≤ j < n → cell (d + i) = cell (d + j) → i = j.

Lemma unch_refl P m : unch P m m.
Proof. by intros p _. Qed.

Lemma unch_trans P m1 m2 m3 : unch P m1 m2 → unch P m2 m3 → unch P m1 m3.
Proof. intros H1 H2 p Hp. by rewrite (H2 p Hp), (H1 p Hp). Qed.

Lemma unch_mono (P Q : Z → Prop) m m' :
  (∀ p, P p → Q p) → unch P m m' → unch Q m m'.
Proof. intros HPQ H p Hp. apply H. auto. Qed.

Lemma unch_st8 (P : Z → Prop) m a v : P (cell a) → unch P m (st8 m a v).
Proof.
  intros Ha p Hp. unfold st8. rewrite lookup_insert_ne; [done|]. congruence.
Qed.

Lemma unch_ld8 P m m' a : unch P m m' → ¬ P (cell a) → ld8 m' a = ld8 m a.
Proof. intros H Ha. unfold ld8. by rewrite H. Qed.

Lemma unch_ld32 P m m' a :
  unch P m m' → (∀ i, 0 ≤ i < 4 → ¬ P (cell (a + i))) → ld32 m' a = ld32 m a.
Proof.
  intros H Ha. unfold ld32.
  assert (∀ i, 0 ≤ i < 4 → ld8 m' (a + i) = ld8 m (a + i)) as E.
  { intros i Hi. eapply unch_ld8; [done|]. by apply Ha. }
  pose proof (E 0 ltac:(lia)) as E0. rewrite Z.add_0_r in E0.
  by rewrite E0, !E by lia.
Qed.

Lemma in_range_mono d n n' p : n ≤ n' → in_range d n p → in_range d n' p.
Proof. intros ? (i & ? & ->). exists i. split; [lia|done]. Qed.

Lemma sep_range_not_in d n s k j :
  sep_range d n s k → 0 ≤ j < k → ¬ in_range d n (cell (s + j)).
Proof. intros H Hj (i & Hi & E). by eapply H. Qed.

Lemma sep_range_mono d n s k n' k' :
  sep_range d n s k → n' ≤ n → k' ≤ k → sep_range d n' s k'.
Proof. intros H ?? i j ??. apply H; lia. Qed.

Lemma uniq_range_mono d n n' : uniq_range d n → n' ≤ n → uniq_range d n'.
Proof. intros H ? i j ?? ?. apply H; [lia|lia|done]. Qed.

Lemma uniq_sub d n a k : uniq_range d n → 0 ≤ a → a + k ≤ n → uniq_range (d + a) k.
Proof.
  intros H ?? i j ?? E. rewrite <- !Z.add_assoc in E. apply H in E; lia.
Qed.

Lemma uniq_sub_sep d n a k b l :
  uniq_range d n → 0 ≤ a → 0 ≤ b → a + k ≤ n → b + l ≤ n →
  a + k ≤ b ∨ b + l ≤ a → sep_range (d + a) k (d + b) l.
Proof.
  intros H ?? ?? ? i j ?? E. rewrite <- !Z.add_assoc in E. apply H in E; lia.
Qed.

Lemma sep_sub d n s k a n' b k' :
  sep_range d n s k → 0 ≤ a → a + n' ≤ n → 0 ≤ b → b + k' ≤ k →
  sep_range (d + a) n' (s + b) k'.
Proof. intros H ?? ?? i j ??. rewrite <- !Z.add_assoc. apply H; lia. Qed.

Lemma in_range_sub d n a k p :
  0 ≤ a → a + k ≤ n → in_range (d + a) k p → in_range d n p.
Proof. intros ?? (i & ? & ->). exists (a + i). split; [lia|]. f_equal. lia. Qed.

Lemma unch_ld8_sep d n m m' a k i :
  unch (in_range d n) m m' → sep_range d n a k → 0 ≤ i < k →
  ld8 m' (a + i) = ld8 m (a + i).
Proof. intros H Hs Hi. eapply unch_ld8; [done|]. by eapply sep_range_not_in. Qed.

Lemma unch_ld32_sep d n m m' a :
  unch (in_range d n) m m' → sep_range d n a 4 → ld32 m' a = ld32 m a.
Proof.
  intros H Hs. eapply unch_ld32; [done|]. intros i Hi.
  by eapply sep_range_not_in.
Qed.

Lemma unch_st32 m a v : unch (in_range a 4) m (st32 m a v).
Proof.
  unfold st32. repeat (eapply unch_trans; [|apply unch_st8]); [apply unch_refl|..];
    [exists 0|exists 1|exists 2|exists 3]; (split; [lia|f_equal; lia]).
Qed.

Lemma ld32_st32_eq m a v : uniq_range a 4 → ld32 (st32 m a v) a = u32 v.
Proof.
  intros Hu.
  assert (∀ i j, 0 ≤ i < 4 → 0 ≤ j < 4 → i ≠ j → cell (a + i) ≠ cell (a + j)) as Hne.
  { intros i j ?? Hij E. by apply Hij, Hu. }
  pose proof (Hne 0 1). pose proof (Hne 0 2). pose proof (Hne 0 3).
  rewrite !Z.add_0_r in *.
  unfold ld32, st32.
  rewrite !(ld8_st8_ne _ (a + 3)), !(ld8_st8_ne _ (a + 2) _ a),
    !(ld8_st8_ne _ (a + 2) _ (a + 1)), !(ld8_st8_ne _ (a + 1) _ a)
    by (first [apply not_eq_sym; auto with lia | apply Hne; lia]).
  rewrite !ld8_st8_eq by done. unfold u8, u32. Z.div_mod_to_equations. lia.
Qed.

(** ** Filling a buffer *)

Definition written (m : mem) (d n : Z) (f : Z → Z) (m' : mem) : Prop :=
  (∀ i, 0 ≤ i < n → ld8 m' (d + i) = f i) ∧ unch (in_range d n) m m'.

Lemma written_nil m d f : written m d 0 f m.
Proof. split; [lia|apply unch_refl]. Qed.

Lemma written_snoc m d k f m1 v :
  0 ≤ k → uniq_range d (k + 1) → u8 v = f k → written m d k f m1 →
  written m d (k + 1) f (st8 m1 (d + k) v).
Proof.
  intros Hk Hu Hv [Hf Hun]. split.
  - intros i Hi. destruct (decide (i = k)) as [->|Hne].
    + by rewrite ld8_st8_eq.
    + rewrite ld8_st8_ne; [apply Hf; lia|].
      intros E. apply Hne. symmetry. apply Hu; [lia|lia|done].
  - eapply unch_trans.
    + eapply unch_mono; [|exact Hun]. intros p. apply in_range_mono. lia.
    + apply unch_st8. exists k. split; [lia|done].
Qed.

Lemma written_st32 m d k f m1 v :
  0 ≤ k → uniq_range d (k + 4) → written m d k f m1 →
  u8 v = f k → u8 (v / 256) = f (k + 1) → u8 (v / 65536) = f (k + 2) →
  u8 (v / 16777216) = f (k + 3) →
  written m d (k + 4) f (st32 m1 (d + k) v).
Proof.
  intros Hk Hu Hw H0 H1 H2 H3. unfold st32.
  replace (k + 4) with (k + 1 + 1 + 1 + 1) by lia.
  rewrite <- !Z.add_assoc with (n := d).
  replace (k + 2) with (k + 1 + 1) in * by lia.
  replace (k + 3) with (k + 1 + 1 + 1) in * by lia.
  repeat (apply written_snoc; [lia | eapply uniq_range_mono; [exact Hu|lia] | done | ]).
  done.
Qed.

Lemma u8_ld32 m a :
  u8 (ld32 m a) = ld8 m a ∧ u8 (ld32 m a / 256) = ld8 m (a + 1) ∧
  u8 (ld32 m a / 65536) = ld8 m (a + 2) ∧ u8 (ld32 m a / 16777216) = ld8 m (a + 3).
Proof.
  unfold ld32, u8. pose proof (ld8_bound m a). pose proof (ld8_bound m (a + 1)).
  pose proof (ld8_bound m (a + 2)). pose proof (ld8_bound m (a + 3)).
  split_and!; Z.div_mod_to_equations; lia.
Qed.

Lemma written_ext m d n f g m' :
  (∀ i, 0 ≤ i < n → f i = g i) → written m d n f m' → written m d n g m'.
Proof. intros E [H1 H2]. split; [|done]. intros i Hi. by rewrite H1, E. Qed.

Lemma written_shift m d k n f g m1 m2 :
  0 ≤ k → 0 ≤ n → uniq_range d (k + n) →
  written m d k f m1 → written m1 (d + k) n g m2 →
  (∀ i, 0 ≤ i < n → g i = f (k + i)) → written m d (k + n) f m2.
Proof.
  intros Hk Hn Hu [H1 U1] [H2 U2] E. split.
  - intros i Hi. destruct (decide (i < k)) as [Hlt|Hge].
    + rewrite (unch_ld8 _ _ _ _ U2); [apply H1; lia|].
      intros (j & Hj & Ec). rewrite <- Z.add_assoc in Ec.
      apply Hu in Ec; lia.
    + replace (d + i) with (d + k + (i - k)) by lia. rewrite H2, E by lia.
      f_equal. lia.
  - eapply unch_trans.
    + eapply unch_mono; [|exact U1]. intros p. apply in_range_mono. lia.
    + eapply unch_mono; [|exact U2]. intros p (j & Hj & ->).
      exists (k + j). split; [lia|]. f_equal. lia.
Qed.

Lemma written_other m d n f m' a :
  written m d n f m' → ¬ in_range d n (cell a) → ld8 m' a = ld8 m a.
Proof. intros [_ U]. by apply unch_ld8. Qed.

Lemma written_load_bytes m d n f m' :
  written m d n f m' → load_bytes m' d n = f <$> seqZ 0 n.
Proof.
  intros [H _]. unfold load_bytes. apply list_fmap_ext.
  intros i x Hx%lookup_seqZ. apply H. lia.
Qed.

(** ** C strings *)

(** A NUL-terminated string at [s] with the bytes [l]. *)
Definition cstring (m : mem) (s : Z) (l : list Z) : Prop :=
  (∀ (i : nat) x, l !! i = Some x → ld8 m (s + Z.of_nat i) = x ∧ x ≠ 0) ∧
  ld8 m (s + Z.of_nat (length l)) = 0.

Lemma cstring_nth m s l i :
  cstring m s l → 0 ≤ i < Z.of_nat (length l) → ld8 m (s + i) ≠ 0.
Proof.
  intros [H _] Hi.
  destruct (lookup_lt_is_Some_2 l (Z.to_nat i) ltac:(lia)) as [x Hx].
  destruct (H _ _ Hx) as [E Hx0]. rewrite Z2Nat.id in E by lia. congruence.
Qed.

Lemma cstring_load m s l :
  cstring m s l → load_bytes m s (Z.of_nat (length l)) = l.
Proof.
  intros [H _]. apply list_eq. intros i. unfold load_bytes.
  rewrite list_lookup_fmap.
  destruct (l !! i) as [x|] eqn:E.
  - pose proof (lookup_lt_Some _ _ _ E).
    rewrite lookup_seqZ_lt by lia. rewrite Z.add_0_l.
    cbn [fmap option_fmap option_map]. by destruct (H i x E) as [-> _].
  - apply lookup_ge_None in E. rewrite lookup_seqZ_ge by lia. done.
Qed.

Lemma load_cstring m a l (n : nat) :
  Forall (λ c, 0 < c < 256) l → (length l < n)%nat →
  take (S (length l)) (load_bytes m a (Z.of_nat n)) = l ++ [0] → cstring m a l.
Proof.
  intros Hc Hn E. assert (∀ (i : nat) x, (l ++ [0]) !! i = Some x → ld8 m (a + Z.of_nat i) = x) as H.
  { intros i x Hx. pose proof (lookup_lt_Some _ _ _ Hx) as Hi. rewrite length_app in Hi. simpl in Hi.
    rewrite <- E, lookup_take_lt in Hx by lia. unfold load_bytes in Hx.
    rewrite list_lookup_fmap, lookup_seqZ_lt in Hx by lia. by injection Hx. }
  split.
  - intros i x Hx. split; [|rewrite Forall_forall in Hc; specialize (Hc x (list_elem_of_lookup_2 _ _ _ Hx)); lia].
    apply H. by apply lookup_app_l_Some.
  - apply (H (length l)). by rewrite list_lookup_middle.
Qed.

Lemma cstring_unch P m m' s l :
  unch P m m' → (∀ i, 0 ≤ i ≤ Z.of_nat (length l) → ¬ P (cell (s + i))) →
  cstring m s l → cstring m' s l.
Proof.
  intros U Hd [H H0]. split.
  - intros i x Hx. pose proof (lookup_lt_Some _ _ _ Hx).
    rewrite (unch_ld8 P m m'); [by apply H|done|apply Hd; lia].
  - rewrite (unch_ld8 P m m'); [done|done|apply Hd; lia].
Qed.
End mem.

#[export] Hint Resolve ld8_bound unch_refl written_nil : mem.
#[export] Hint Rewrite @ld8_u32 @ld8_add_u32 @u8_ld8 : mem.

(** ** The identity translation separates what arithmetic separates *)

Lemma flat_uniq d n : 0 ≤ n ≤ 4294967296 → uniq_range (X := flat) d n.
Proof.
  intros Hn i j Hi Hj E. unfold cell, xlat, flat in E.
  apply u32_near in E; lia.
Qed.

Lemma flat_sep d n s k :
  0 ≤ d → d + n ≤ 4294967296 → 0 ≤ s → s + k ≤ 4294967296 →
  d + n ≤ s ∨ s + k ≤ d → sep_range (X := flat) d n s k.
Proof.
  intros ????? i j ?? E. unfold cell, xlat, flat in E.
  apply u32_near in E; lia.
Qed.

(** Bytes stored one after another, without paging. *)
Definition put_bytes (m : mem) (a : Z) (l : list Z) : mem :=
  fst (foldl (λ '(m, a) c, (st8 (X := flat) m a c, a + 1)) (m, a) l).
