(* ===== verification/Lib.v ===== *)
(** * The string and memory routines of lib.c

    Each routine of [student-distrib/lib.c] is a function on the byte memory of
    [Mem].  The [asm] bodies of [memset], [memcpy] and [memmove] are followed
    instruction group by instruction group: the byte loop up to a 4-byte aligned
    destination, the [rep stosl]/[rep movsl] over the double words, the byte loop
    over the tail.  A routine that looks for a NUL has an [option] result, [None]
    when no NUL exists in the whole address space. *)

From S2P Require Import Prelude Mem.

Section lib.
Context {X : Xlat}.
Implicit Types (m : mem) (s d buf n i : Z).

(** ** Strings *)

Definition strlen (m : mem) (s : Z) : option Z :=
  while32 (λ len, if ld8 m (s + len) =? 0 then inr len else inl (u32 (len + 1))) 0.

(** [tmp = s[end]; s[end] = s[beg]; s[beg] = tmp;] *)
Definition swap_bytes (m : mem) (s beg end_ : Z) : mem :=
  let tmp := ld8 m (s + end_) in
  let m := st8 m (s + end_) (ld8 m (s + beg)) in
  st8 m (s + beg) tmp.

Definition strrev (m : mem) (s : Z) : option mem :=
  match strlen m s with
  | None => None
  | Some len =>
      while32 (λ '(beg, end_, m),
          if beg <? end_
          then inl (beg + 1, end_ - 1, swap_bytes m s beg end_)
          else inr m)
        (0, s32 (u32 (len - 1)), m)
  end.

(** [static int8_t lookup[] = "0123456789ABCDEFGHIJKLMNOPQRSTUVWXYZ"]; the
    entry 36 is the terminating NUL. *)
Definition itoa_lookup : list Z := seqZ 48 10 ++ seqZ 65 26 ++ [0].

Definition lookup_char (i : Z) : Z := nth (Z.to_nat i) itoa_lookup 0.

(** One round of the digit loop: [i = newval % radix; *newbuf = lookup[i];
    newbuf++; newval /= radix;] *)
Definition itoa_step (radix : Z) (st : Z * Z * mem) : Z * Z * mem + Z * mem :=
  let '(newval, newbuf, m) := st in
  if 0 <? newval
  then inl (newval / u32 radix, newbuf + 1,
            st8 m newbuf (lookup_char (newval mod u32 radix)))
  else inr (newbuf, m).

Definition itoa (m : mem) (value buf radix : Z) : option mem :=
  if value =? 0 then Some (st8 (st8 m buf 48) (buf + 1) 0)
  else
    match while32 (itoa_step radix) (value, buf, m) with
    | None => None
    | Some (newbuf, m) => strrev (st8 m newbuf 0) buf
    end.

Definition strncmp (m : mem) (s1 s2 n : Z) : Z :=
  match find_up (λ i, negb (ld8 m (s1 + i) =? ld8 m (s2 + i))
                      || (ld8 m (s1 + i) =? 0)) 0 n with
  | Some i => s8 (ld8 m (s1 + i)) - s8 (ld8 m (s2 + i))
  | None => 0
  end.

Definition strcpy (m : mem) (dest src : Z) : option mem :=
  while32 (λ '(i, m),
      if ld8 m (src + i) =? 0 then inr (st8 m (dest + i) 0)
      else inl (i + 1, st8 m (dest + i) (ld8 m (src + i))))
    (0, m).

Definition strncpy (m : mem) (dest src n : Z) : mem :=
  let '(i, m) :=
    while_n (λ '(i, m), negb (ld8 m (src + i) =? 0) && (i <? n))
            (λ '(i, m), (i + 1, st8 m (dest + i) (ld8 m (src + i))))
            (Z.to_nat n) (0, m) in
  for_up (λ i m, st8 m (dest + i) 0) i n m.

(** ** Block operations *)

(** The [.memset_top] loop: bytes until [ecx] is 0 or [edi] is aligned.  Three
    rounds are enough, since each moves [edi] to the next address. *)
Definition memset_top (al : Z) : Z * Z * mem → Z * Z * mem :=
  while_n (λ '(edi, ecx, m), nz ecx && nz (Z.land edi 3))
          (λ '(edi, ecx, m), (u32 (edi + 1), ecx - 1, st8 m edi al)) 3.

(** [rep stosl], [rep stosw] and the [.memset_bottom] byte loop. *)
Definition stosl (eax count edi : Z) (m : mem) : Z * mem :=
  for_up (λ _ '(edi, m), (u32 (edi + 4), st32 m edi eax)) 0 count (edi, m).

Definition stosw (eax count edi : Z) (m : mem) : Z * mem :=
  for_up (λ _ '(edi, m),
            (u32 (edi + 2), st8 (st8 m edi eax) (edi + 1) (eax / 256)))
         0 count (edi, m).

Definition stosb (al count edi : Z) (m : mem) : Z * mem :=
  for_up (λ _ '(edi, m), (u32 (edi + 1), st8 m edi al)) 0 count (edi, m).

Definition memset (m : mem) (s c n : Z) : mem :=
  let c := Z.land c 255 in
  let eax := Z.lor (Z.shiftl c 24) (Z.lor (Z.shiftl c 16) (Z.lor (Z.shiftl c 8) c)) in
  let '(edi, ecx, m) := memset_top eax (s, n, m) in
  let edx := Z.land ecx 3 in
  let '(edi, m) := stosl eax (Z.shiftr ecx 2) edi m in
  snd (stosb eax edx edi m).

Definition memset_word (m : mem) (s c n : Z) : mem := snd (stosw (u32 c) n s m).

Definition memset_dword (m : mem) (s c n : Z) : mem := snd (stosl (u32 c) n s m).

Definition memcpy_top : Z * Z * Z * mem → Z * Z * Z * mem :=
  while_n (λ '(esi, edi, ecx, m), nz ecx && nz (Z.land edi 3))
          (λ '(esi, edi, ecx, m),
             (u32 (esi + 1), u32 (edi + 1), ecx - 1, st8 m edi (ld8 m esi))) 3.

Definition movsl (count esi edi : Z) (m : mem) : Z * Z * mem :=
  for_up (λ _ '(esi, edi, m),
            (u32 (esi + 4), u32 (edi + 4), st32 m edi (ld32 m esi)))
         0 count (esi, edi, m).

(** [rep movsb] and the byte loops, [step] being 1 or, with [std], -1. *)
Definition movsb (step count esi edi : Z) (m : mem) : Z * Z * mem :=
  for_up (λ _ '(esi, edi, m),
            (u32 (esi + step), u32 (edi + step), st8 m edi (ld8 m esi)))
         0 count (esi, edi, m).

Definition memcpy (m : mem) (dest src n : Z) : mem :=
  let '(esi, edi, ecx, m) := memcpy_top (src, dest, n, m) in
  let edx := Z.land ecx 3 in
  let '(esi, edi, m) := movsl (Z.shiftr ecx 2) esi edi m in
  snd (movsb 1 edx esi edi m).

Definition memmove (m : mem) (dest src n : Z) : mem :=
  if u32 dest <=? u32 src then snd (movsb 1 n src dest m)
  else snd (movsb (-1) n (u32 (src + n - 1)) (u32 (dest + n - 1)) m).

(** ** Copying *)

Section copy.
Context (m : mem) (d s n : Z).
Hypothesis Huniq : uniq_range d n.
Hypothesis Hsep : sep_range d n s n.

(** [k] bytes are copied and the two pointers stand [k] bytes further. *)
Definition copied (k : Z) (st : Z * Z * mem) : Prop :=
  let '(esi, edi, m') := st in
  0 ≤ k ≤ n ∧ u32 esi = u32 (s + k) ∧ u32 edi = u32 (d + k) ∧
  written m d k (λ i, ld8 m (s + i)) m'.

Lemma u32_step a b i : u32 a = u32 b → u32 (u32 (a + i)) = u32 (b + i).
Proof. intros H. by rewrite u32_idem, <- u32_add_l, H, u32_add_l. Qed.

Lemma copied_src k esi edi m' j :
  copied k (esi, edi, m') → 0 ≤ j → k + j < n →
  ld8 m' (esi + j) = ld8 m (s + (k + j)).
Proof.
  intros (Hk & Hs & _ & Hw) Hj Hkj.
  rewrite <- ld8_u32, <- u32_add_l, Hs, u32_add_l, ld8_u32, <- Z.add_assoc.
  eapply written_other; [exact Hw|].
  eapply sep_range_not_in; [|split; [|exact Hkj]; lia].
  eapply sep_range_mono; [done|lia|lia].
Qed.

Lemma copied_byte k esi edi m' :
  copied k (esi, edi, m') → k < n →
  copied (k + 1) (u32 (esi + 1), u32 (edi + 1), st8 m' edi (ld8 m' esi)).
Proof.
  intros Hc Hk. pose proof (copied_src k esi edi m' 0 Hc) as Hb.
  destruct Hc as (Hkn & Hs & Hd & Hw).
  split_and!; [lia|lia| | |].
  - rewrite (u32_step esi (s + k)) by done. f_equal. lia.
  - rewrite (u32_step edi (d + k)) by done. f_equal. lia.
  - rewrite (st8_eq _ edi (d + k) _ (ld8 m' esi)) by done.
    apply written_snoc; [lia| | |done].
    + eapply uniq_range_mono; [done|lia].
    + rewrite u8_ld8. rewrite !Z.add_0_r in Hb. apply Hb; lia.
Qed.

Lemma copied_dword k esi edi m' :
  copied k (esi, edi, m') → k + 4 ≤ n →
  copied (k + 4) (u32 (esi + 4), u32 (edi + 4), st32 m' edi (ld32 m' esi)).
Proof.
  intros Hc Hk.
  pose proof (λ j, copied_src k esi edi m' j Hc) as Hb.
  destruct Hc as (Hkn & Hs & Hd & Hw).
  destruct (u8_ld32 m' esi) as (E0 & E1 & E2 & E3).
  split_and!; [lia|lia| | |].
  - rewrite (u32_step esi (s + k)) by done. f_equal. lia.
  - rewrite (u32_step edi (d + k)) by done. f_equal. lia.
  - assert (st32 m' edi (ld32 m' esi) = st32 m' (d + k) (ld32 m' esi)) as ->.
    { assert (∀ j, u32 (edi + j) = u32 (d + k + j)) as Ej.
      { intros j. by rewrite <- u32_add_l, Hd, u32_add_l. }
      unfold st32. by rewrite (st8_eq m' edi (d + k) _ (ld32 m' esi)),
        !(λ m j v, st8_eq m (edi + j) (d + k + j) v v (Ej j) eq_refl). }
    apply written_st32; [lia| |done| | | |].
    + eapply uniq_range_mono; [done|lia].
    + rewrite E0. specialize (Hb 0). rewrite !Z.add_0_r in Hb. apply Hb; lia.
    + rewrite E1. apply Hb; lia.
    + rewrite E2. apply Hb; lia.
    + rewrite E3. apply Hb; lia.
Qed.

Lemma movsl_copied count k esi edi m' :
  0 ≤ count → k + 4 * count ≤ n → copied k (esi, edi, m') →
  copied (k + 4 * count) (movsl count esi edi m').
Proof.
  intros Hc Hn Hk. unfold movsl.
  apply (for_up_inv _ (λ i st, copied (k + 4 * i) st)); [done| |].
  - by rewrite Z.mul_0_r, Z.add_0_r.
  - intros i [[esi1 edi1] m1] Hi Hst.
    replace (k + 4 * (i + 1)) with (k + 4 * i + 4) by lia.
    apply copied_dword; [done|lia].
Qed.

Lemma movsb_copied count k esi edi m' :
  0 ≤ count → k + count ≤ n → copied k (esi, edi, m') →
  copied (k + count) (movsb 1 count esi edi m').
Proof.
  intros Hc Hn Hk. unfold movsb.
  apply (for_up_inv _ (λ i st, copied (k + i) st)); [done| |].
  - by rewrite Z.add_0_r.
  - intros i [[esi1 edi1] m1] Hi Hst.
    rewrite Z.add_assoc. apply copied_byte; [done|lia].
Qed.

Lemma memcpy_top_copied :
  0 ≤ n →
  ∃ k esi edi m', memcpy_top (s, d, n, m) = (esi, edi, n - k, m') ∧
    copied k (esi, edi, m').
Proof.
  intros Hn. unfold memcpy_top.
  apply (while_n_pres _ _ (λ st, ∃ k esi edi m',
           st = (esi, edi, n - k, m') ∧ copied k (esi, edi, m'))).
  - intros ? (k & esi & edi & m' & -> & Hk) Hcond.
    exists (k + 1). do 3 eexists. split; [by rewrite Z.sub_add_distr|].
    unfold nz in Hcond. apply copied_byte; [done|].
    destruct Hk as (? & _). destruct (Z.eqb_spec (n - k) 0); [done|lia].
  - exists 0. do 3 eexists. rewrite Z.sub_0_r. split; [done|].
    split_and!; [lia|done|by rewrite Z.add_0_r..|apply written_nil].
Qed.
End copy.

(** [memcpy] of disjoint buffers copies the [n] bytes and nothing else. *)
Lemma memcpy_written m d s n :
  0 ≤ n → uniq_range d n → sep_range d n s n →
  written m d n (λ i, ld8 m (s + i)) (memcpy m d s n).
Proof.
  intros Hn Hu Hs. unfold memcpy.
  destruct (memcpy_top_copied m d s n Hu Hs Hn) as (k & esi & edi & m1 & -> & H1).
  assert (0 ≤ k ≤ n) as Hk by apply H1.
  change (Z.land (n - k) 3) with (Z.land (n - k) (Z.ones 2)).
  rewrite Z.land_ones, Z.shiftr_div_pow2 by lia. change (2 ^ 2) with 4.
  pose proof (Z.div_mod (n - k) 4 ltac:(lia)).
  pose proof (Z.mod_pos_bound (n - k) 4 ltac:(lia)).
  pose proof (movsl_copied m d s n Hu Hs ((n - k) / 4) k esi edi m1
    ltac:(lia) ltac:(lia) H1) as H2.
  destruct (movsl _ esi edi m1) as [[esi2 edi2] m2].
  pose proof (movsb_copied m d s n Hu Hs ((n - k) mod 4)
    (k + 4 * ((n - k) / 4)) esi2 edi2 m2
    ltac:(lia) ltac:(lia) H2) as H3.
  destruct (movsb _ _ esi2 edi2 m2) as [[esi3 edi3] m3]. simpl.
  destruct H3 as (_ & _ & _ & H3).
  by replace (k + 4 * ((n - k) / 4) + (n - k) mod 4) with n in H3 by lia.
Qed.

(** ** Overlapping copies *)

Section move.
Context (m : mem) (d s n : Z).
Hypothesis Hn : 0 ≤ n.
Hypothesis Hd : 0 ≤ d ∧ d + n ≤ 4294967296.
Hypothesis Hs : 0 ≤ s ∧ s + n ≤ 4294967296.
Hypothesis Huniq : uniq_range d n.
(** The two buffers may overlap, but only where their addresses do. *)
Hypothesis Hlin :
  ∀ i j, 0 ≤ i < n → 0 ≤ j < n → cell (d + i) = cell (s + j) → d + i = s + j.

(** The forward copy after [k] bytes, and the backward copy, which has done
    the last [k] bytes. *)
Definition moved_fwd (k : Z) (st : Z * Z * mem) : Prop :=
  let '(esi, edi, m') := st in
  u32 esi = u32 (s + k) ∧ u32 edi = u32 (d + k) ∧
  written m d k (λ i, ld8 m (s + i)) m'.

Definition moved_bwd (k : Z) (st : Z * Z * mem) : Prop :=
  let '(esi, edi, m') := st in
  u32 esi = u32 (s + n - 1 - k) ∧ u32 edi = u32 (d + n - 1 - k) ∧
  (∀ i, n - k ≤ i < n → ld8 m' (d + i) = ld8 m (s + i)) ∧
  unch (in_range (d + (n - k)) k) m m'.

Lemma movsb_forward : d ≤ s → moved_fwd n (movsb 1 n s d m).
Proof.
  intros Hds. unfold movsb. apply (for_up_inv _ moved_fwd); [done| |].
  { unfold moved_fwd. rewrite !Z.add_0_r. auto with mem. }
  intros k [[esi edi] m1] Hk (Es & Ed & Hw). split_and!.
  - rewrite (u32_step esi (s + k)) by done. f_equal. lia.
  - rewrite (u32_step edi (d + k)) by done. f_equal. lia.
  - rewrite (st8_eq _ edi (d + k) _ (ld8 m1 esi)) by done.
    apply written_snoc; [lia| | |done].
    + eapply uniq_range_mono; [done|lia].
    + rewrite u8_ld8, (ld8_eq _ esi (s + k)) by done.
      eapply written_other; [done|]. intros (i & Hi & E).
      symmetry in E. apply Hlin in E; lia.
Qed.

Lemma movsb_backward :
  s < d → moved_bwd n (movsb (-1) n (u32 (s + n - 1)) (u32 (d + n - 1)) m).
Proof.
  intros Hds. unfold movsb. apply (for_up_inv _ moved_bwd); [done| |].
  { unfold moved_bwd. rewrite !u32_idem, !Z.sub_0_r.
    split_and!; [done..|lia|auto with mem]. }
  intros k [[esi edi] m1] Hk (Es & Ed & Hw & Hun). split_and!.
  - rewrite (u32_step esi (s + n - 1 - k)) by done. f_equal. lia.
  - rewrite (u32_step edi (d + n - 1 - k)) by done. f_equal. lia.
  - intros i Hi.
    rewrite (st8_eq _ edi (d + (n - 1 - k)) _ (ld8 m1 esi))
      by (rewrite ?Ed; f_equal; lia).
    destruct (decide (i = n - 1 - k)) as [->|Hne].
    + rewrite ld8_st8_eq, u8_ld8 by done.
      rewrite (ld8_eq _ esi (s + (n - 1 - k))) by (rewrite Es; f_equal; lia).
      eapply unch_ld8; [done|]. intros (j & Hj & E). symmetry in E.
      rewrite <- Z.add_assoc in E. apply Hlin in E; lia.
    + rewrite ld8_st8_ne; [apply Hw; lia|].
      intros E. apply Huniq in E; lia.
  - eapply unch_trans.
    + eapply unch_mono; [|exact Hun]. intros p (j & Hj & ->).
      exists (j + 1). split; [lia|]. f_equal. lia.
    + apply unch_st8. exists 0. split; [lia|]. apply cell_eq.
      rewrite Ed. f_equal. lia.
Qed.

Lemma memmove_written : written m d n (λ i, ld8 m (s + i)) (memmove m d s n).
Proof.
  unfold memmove. destruct (decide (n = 0)) as [->|].
  { case_tests; apply written_nil. }
  rewrite !(u32_small d), !(u32_small s) by lia.
  case_test.
  - pose proof (movsb_forward ltac:(lia)) as Hmv.
    destruct (movsb _ _ _ _ _) as [[esi edi] m1]. apply Hmv.
  - pose proof (movsb_backward ltac:(lia)) as Hmv.
    destruct (movsb _ _ _ _ _) as [[esi edi] m1]. destruct Hmv as (_ & _ & Hw & Hun).
    split; [intros i Hi; apply Hw; lia|].
    eapply unch_mono; [|exact Hun]. intros p (j & Hj & ->).
    exists j. split; [lia|]. f_equal. lia.
Qed.
End move.

(** ** Filling *)

(** The byte replicated four times by [memset]. *)
Lemma memset_eax c :
  0 ≤ c < 256 →
  let eax := Z.lor (Z.shiftl c 24) (Z.lor (Z.shiftl c 16) (Z.lor (Z.shiftl c 8) c)) in
  u8 eax = c ∧ u8 (eax / 256) = c ∧ u8 (eax / 65536) = c ∧ u8 (eax / 16777216) = c.
Proof.
  intros Hc eax.
  assert (forallb (λ c,
      let eax := Z.lor (Z.shiftl c 24) (Z.lor (Z.shiftl c 16) (Z.lor (Z.shiftl c 8) c)) in
      (u8 eax =? c) && (u8 (eax / 256) =? c) && (u8 (eax / 65536) =? c)
      && (u8 (eax / 16777216) =? c)) (seqZ 0 256) = true) as H by (vm_compute; done).
  rewrite forallb_forall in H. specialize (H c).
  rewrite !andb_true_iff, !Z.eqb_eq in H.
  destruct H as [[[? ?] ?] ?]; [|done]. apply list_elem_of_In, elem_of_seqZ. lia.
Qed.

Section fill.
Context (m : mem) (d n c eax : Z).
Hypothesis Huniq : uniq_range d n.
Hypothesis Heax : u8 eax = c ∧ u8 (eax / 256) = c ∧ u8 (eax / 65536) = c ∧
                  u8 (eax / 16777216) = c.

Definition filled (k : Z) (st : Z * mem) : Prop :=
  let '(edi, m') := st in
  0 ≤ k ≤ n ∧ u32 edi = u32 (d + k) ∧ written m d k (λ _, c) m'.

Lemma filled_byte k edi m' :
  filled k (edi, m') → k < n → filled (k + 1) (u32 (edi + 1), st8 m' edi eax).
Proof.
  intros (Hk & Ed & Hw) Hkn. split_and!; [lia|lia| |].
  - rewrite (u32_step edi (d + k)) by done. f_equal. lia.
  - rewrite (st8_eq _ edi (d + k) _ eax) by done.
    apply written_snoc; [lia|eapply uniq_range_mono; [done|lia]|apply Heax|done].
Qed.

Lemma filled_dword k edi m' :
  filled k (edi, m') → k + 4 ≤ n → filled (k + 4) (u32 (edi + 4), st32 m' edi eax).
Proof.
  intros (Hk & Ed & Hw) Hkn. split_and!; [lia|lia| |].
  - rewrite (u32_step edi (d + k)) by done. f_equal. lia.
  - assert (st32 m' edi eax = st32 m' (d + k) eax) as ->.
    { assert (∀ j, u32 (edi + j) = u32 (d + k + j)) as Ej.
      { intros j. by rewrite <- u32_add_l, Ed, u32_add_l. }
      unfold st32. by rewrite (st8_eq m' edi (d + k) _ eax),
        !(λ m j v, st8_eq m (edi + j) (d + k + j) v v (Ej j) eq_refl). }
    apply written_st32; [lia|eapply uniq_range_mono; [done|lia]|done|apply Heax..].
Qed.

Lemma stosl_filled count k edi m' :
  0 ≤ count → k + 4 * count ≤ n → filled k (edi, m') →
  filled (k + 4 * count) (stosl eax count edi m').
Proof.
  intros Hc Hn Hk. unfold stosl.
  apply (for_up_inv _ (λ i st, filled (k + 4 * i) st)); [done| |].
  - by rewrite Z.mul_0_r, Z.add_0_r.
  - intros i [edi1 m1] Hi Hst.
    replace (k + 4 * (i + 1)) with (k + 4 * i + 4) by lia.
    apply filled_dword; [done|lia].
Qed.

Lemma stosb_filled count k edi m' :
  0 ≤ count → k + count ≤ n → filled k (edi, m') →
  filled (k + count) (stosb eax count edi m').
Proof.
  intros Hc Hn Hk. unfold stosb.
  apply (for_up_inv _ (λ i st, filled (k + i) st)); [done| |].
  - by rewrite Z.add_0_r.
  - intros i [edi1 m1] Hi Hst. rewrite Z.add_assoc.
    apply filled_byte; [done|lia].
Qed.

Lemma memset_top_filled :
  0 ≤ n →
  ∃ k edi m', memset_top eax (d, n, m) = (edi, n - k, m') ∧ filled k (edi, m').
Proof.
  intros Hn. unfold memset_top.
  apply (while_n_pres _ _ (λ st, ∃ k edi m',
           st = (edi, n - k, m') ∧ filled k (edi, m'))).
  - intros ? (k & edi & m' & -> & Hk) Hcond.
    exists (k + 1). do 2 eexists. split; [by rewrite Z.sub_add_distr|].
    unfold nz in Hcond. apply filled_byte; [done|].
    destruct Hk as (? & _). destruct (Z.eqb_spec (n - k) 0); [done|lia].
  - exists 0. do 2 eexists. rewrite Z.sub_0_r. split; [done|].
    split_and!; [lia|done|by rewrite Z.add_0_r|apply written_nil].
Qed.
End fill.

Lemma memset_written m d c n :
  0 ≤ n → uniq_range d n → written m d n (λ _, u8 c) (memset m d c n).
Proof.
  intros Hn Hu. unfold memset.
  change (Z.land c 255) with (Z.land c (Z.ones 8)). rewrite Z.land_ones by lia.
  change (c mod 2 ^ 8) with (u8 c).
  pose proof (memset_eax (u8 c) (u8_bound c)) as He. cbv zeta in He.
  set (eax := Z.lor _ _) in *.
  destruct (memset_top_filled m d n (u8 c) eax Hu He Hn) as (k & edi & m1 & -> & H1).
  assert (0 ≤ k ≤ n) as Hk by apply H1.
  change (Z.land (n - k) 3) with (Z.land (n - k) (Z.ones 2)).
  rewrite Z.land_ones, Z.shiftr_div_pow2 by lia. change (2 ^ 2) with 4.
  pose proof (Z.div_mod (n - k) 4 ltac:(lia)).
  pose proof (Z.mod_pos_bound (n - k) 4 ltac:(lia)).
  pose proof (stosl_filled m d n (u8 c) eax Hu He ((n - k) / 4) k edi m1
    ltac:(lia) ltac:(lia) H1) as H2.
  destruct (stosl _ _ edi m1) as [edi2 m2].
  pose proof (stosb_filled m d n (u8 c) eax Hu He ((n - k) mod 4)
    (k + 4 * ((n - k) / 4)) edi2 m2 ltac:(lia) ltac:(lia) H2) as H3.
  destruct (stosb _ _ edi2 m2) as [edi3 m3]. simpl. destruct H3 as (_ & _ & H3).
  by replace (k + 4 * ((n - k) / 4) + (n - k) mod 4) with n in H3 by lia.
Qed.

(** ** Strings *)

Lemma strlen_cstring m s l :
  cstring m s l → Z.of_nat (length l) < 4294967296 →
  strlen m s = Some (Z.of_nat (length l)).
Proof.
  intros Hl Hlen. unfold strlen.
  destruct (while32_total
    (λ len, if ld8 m (s + len) =? 0 then inr len else inl (u32 (len + 1)))
    (λ len, 0 ≤ len ≤ Z.of_nat (length l)) (λ r, r = Z.of_nat (length l))
    (λ len, Z.of_nat (length l) - len) 0) as (r & -> & ->); [|lia|lia|done].
  intros len Hr. split; [lia|]. case_test.
  - destruct (decide (len = Z.of_nat (length l))); [done|].
    exfalso. eapply (cstring_nth m s l len); [done|lia|done].
  - assert (len ≠ Z.of_nat (length l)) by (intros ->; by destruct Hl).
    rewrite u32_small by lia. lia.
Qed.

(** [strncmp] answers 0 exactly when the two strings agree on the first [n]
    characters, or up to and including the end of the first string. *)
Lemma strncmp_zero m s1 s2 n :
  strncmp m s1 s2 n = 0 ↔
  ∀ i, 0 ≤ i < n → (∀ j, 0 ≤ j < i → ld8 m (s1 + j) ≠ 0) →
       ld8 m (s1 + i) = ld8 m (s2 + i).
Proof.
  unfold strncmp. destruct (find_up _ 0 n) as [i|] eqn:E.
  - apply find_up_Some in E as (Hi & Ht & Hj).
    assert (∀ j, 0 ≤ j < i → ld8 m (s1 + j) = ld8 m (s2 + j) ∧ ld8 m (s1 + j) ≠ 0)
      as Hpre.
    { intros j Hji. specialize (Hj j Hji).
      apply orb_false_iff in Hj as [?%negb_false_iff ?].
      rewrite Z.eqb_eq, Z.eqb_neq in *. done. }
    split.
    + intros Hz. assert (ld8 m (s1 + i) = ld8 m (s2 + i)) as Heq.
      { apply s8_inj; [apply ld8_bound..|lia]. }
      rewrite Heq, Z.eqb_refl in Ht. simpl in Ht. apply Z.eqb_eq in Ht.
      intros k Hk Hnz. destruct (Z.lt_trichotomy k i) as [|[->|]].
      * apply Hpre; lia.
      * done.
      * exfalso. apply (Hnz i); [lia|]. congruence.
    + intros H. rewrite H; [lia|lia|]. intros j ?. by apply Hpre.
  - rewrite find_up_None in E. split; [|done]. intros _ i Hi _.
    specialize (E i Hi). apply orb_false_iff in E as [?%negb_false_iff _].
    by apply Z.eqb_eq.
Qed.

Lemma strcpy_written m d s l :
  cstring m s l → Z.of_nat (length l) < 4294967295 →
  uniq_range d (Z.of_nat (length l) + 1) →
  sep_range d (Z.of_nat (length l) + 1) s (Z.of_nat (length l) + 1) →
  ∃ m', strcpy m d s = Some m' ∧
    written m d (Z.of_nat (length l) + 1) (λ i, ld8 m (s + i)) m'.
Proof.
  intros Hl Hlen Hu Hsep. unfold strcpy. set (L := Z.of_nat (length l)) in *.
  apply (while32_total _
    (λ '(i, m1), 0 ≤ i ≤ L ∧ written m d i (λ i, ld8 m (s + i)) m1) _
    (λ '(i, m1), L - i)); [|by split; [lia|apply written_nil]|lia].
  intros [i m1] [Hi Hw]. split; [lia|].
  assert (ld8 m1 (s + i) = ld8 m (s + i)) as Eb.
  { eapply written_other; [done|]. eapply sep_range_not_in;
      [eapply sep_range_mono; [exact Hsep|lia|exact (Z.le_refl _)]|lia]. }
  rewrite Eb. case_test.
  - assert (i = L) as ->.
    { destruct (decide (i = L)); [done|]. exfalso.
      eapply (cstring_nth m s l i); [done|lia|done]. }
    apply written_snoc; [lia|done| |done]. by rewrite u8_small.
  - assert (i ≠ L) by (intros ->; by destruct Hl).
    split; [|lia]. split; [lia|]. apply written_snoc; [lia| | |done].
    + eapply uniq_range_mono; [done|lia].
    + apply u8_ld8.
Qed.

Lemma cstring_copy m d s l m' n :
  cstring m s l → Z.of_nat (length l) < n →
  written m d n (λ i, ld8 m (s + i)) m' → cstring m' d l.
Proof.
  intros [Hl H0] Hn [Hw _]. split.
  - intros i x Hx. pose proof (lookup_lt_Some _ _ _ Hx).
    rewrite Hw by lia. by apply Hl.
  - by rewrite Hw by lia.
Qed.

(** What [strncpy] leaves at index [i]: the source up to its NUL, then zeros. *)
Definition strncpy_byte (m : mem) (s i : Z) : Z :=
  match find_up (λ j, ld8 m (s + j) =? 0) 0 i with
  | Some _ => 0
  | None => ld8 m (s + i)
  end.

Lemma strncpy_byte_before m s i :
  (∀ j, 0 ≤ j < i → ld8 m (s + j) ≠ 0) → strncpy_byte m s i = ld8 m (s + i).
Proof.
  intros H. unfold strncpy_byte.
  rewrite (proj2 (find_up_None _ 0 i)); [done|].
  intros j Hj. by apply Z.eqb_neq, H.
Qed.

Lemma strncpy_byte_after m s i j :
  0 ≤ j ≤ i → ld8 m (s + j) = 0 → strncpy_byte m s i = 0.
Proof.
  intros Hj H0. unfold strncpy_byte. destruct (find_up _ 0 i) eqn:E; [done|].
  rewrite find_up_None in E. destruct (decide (j = i)) as [->|]; [done|].
  specialize (E j ltac:(lia)). by apply Z.eqb_neq in E.
Qed.

Lemma strncpy_written m d s n :
  0 ≤ n → uniq_range d n → sep_range d n s n →
  written m d n (strncpy_byte m s) (strncpy m d s n).
Proof.
  intros Hn Hu Hsep. unfold strncpy.
  assert (∀ i m1, 0 ≤ i < n → written m d i (strncpy_byte m s) m1 →
            ld8 m1 (s + i) = ld8 m (s + i)) as Hsrc.
  { intros i m1 Hi Hw. eapply written_other; [done|]. eapply sep_range_not_in;
      [eapply sep_range_mono; [exact Hsep|lia|exact (Z.le_refl _)]|lia]. }
  destruct (while_n_inv
    (λ '(i, m), negb (ld8 m (s + i) =? 0) && (i <? n))
    (λ '(i, m), (i + 1, st8 m (d + i) (ld8 m (s + i))))
    (λ '(i, m1), 0 ≤ i ≤ n ∧ (∀ j, 0 ≤ j < i → ld8 m (s + j) ≠ 0) ∧
                 written m d i (strncpy_byte m s) m1)
    (λ '(i, _), n - i) (Z.to_nat n) (0, m)) as [HP Hc]; [|lia| |].
  { split_and!; [lia|lia|lia|apply written_nil]. }
  { intros [i m1] (Hi & Hnz & Hw) Hcond.
    apply andb_true_iff in Hcond as [Hb Hlt].
    apply negb_true_iff, Z.eqb_neq in Hb. apply Z.ltb_lt in Hlt.
    rewrite (Hsrc i m1) in Hb |- * by (lia || done). split_and!; try lia.
    - intros j Hj. destruct (decide (j = i)) as [->|]; [done|]. apply Hnz. lia.
    - apply written_snoc; [lia|eapply uniq_range_mono; [done|lia]| |done].
      by rewrite u8_ld8, strncpy_byte_before. }
  destruct (while_n _ _ _ (0, m)) as [i m1]. destruct HP as (Hi & Hnz & Hw).
  apply (for_up_inv _ (λ k m', written m d k (strncpy_byte m s) m')); [lia|done|].
  intros k m2 Hk Hw2.
  apply written_snoc; [lia|eapply uniq_range_mono; [done|lia]| |done].
  apply andb_false_iff in Hc as [Hz|Hge]; [|apply Z.ltb_ge in Hge; lia].
  apply negb_false_iff, Z.eqb_eq in Hz. rewrite (Hsrc i m1) in Hz by (lia || done).
  by rewrite (strncpy_byte_after m s k i) by (lia || done).
Qed.

(** ** Reversal and number conversion *)

Lemma ld8_swap m s n b e i :
  uniq_range s n → 0 ≤ b < n → 0 ≤ e < n → 0 ≤ i < n →
  ld8 (swap_bytes m s b e) (s + i) =
  ld8 m (s + (if decide (i = b) then e else if decide (i = e) then b else i)).
Proof.
  intros Hu Hb He Hi. unfold swap_bytes.
  destruct (decide (i = b)) as [->|Hib].
  { by rewrite ld8_st8_eq, u8_ld8. }
  rewrite ld8_st8_ne by (intros E; apply Hu in E; lia).
  destruct (decide (i = e)) as [->|Hie].
  - by rewrite ld8_st8_eq, u8_ld8.
  - by rewrite ld8_st8_ne by (intros E; apply Hu in E; lia).
Qed.

Lemma unch_swap m s n b e :
  0 ≤ b < n → 0 ≤ e < n → unch (in_range s n) m (swap_bytes m s b e).
Proof.
  intros Hb He. unfold swap_bytes. eapply unch_trans; apply unch_st8;
    [by exists e|by exists b].
Qed.

Section reverse.
Context (m : mem) (s : Z) (L : Z).
Hypothesis HL : 0 ≤ L.
Hypothesis Huniq : uniq_range s L.

(** The outer [beg] pairs are exchanged, the inner ones are not yet. *)
Definition reversing (st : Z * Z * mem) : Prop :=
  let '(b, e, m') := st in
  e = L - 1 - b ∧ 0 ≤ b ≤ e + 1 ∧
  (∀ i, 0 ≤ i < L →
    ld8 m' (s + i) = ld8 m (s + (if (i <? b) || (e <? i) then L - 1 - i else i))) ∧
  unch (in_range s L) m m'.

Lemma reversing_step b e m' :
  reversing (b, e, m') → b < e → reversing (b + 1, e - 1, swap_bytes m' s b e).
Proof.
  intros (-> & Hb & Hi & Hun) Hlt. split_and!; [lia|lia|lia| |].
  - intros i Hr. rewrite (ld8_swap _ _ L) by (done || lia). rewrite Hi.
    + do 2 f_equal. repeat case_decide; subst; case_tests.
    + repeat case_decide; lia.
  - eapply unch_trans; [done|]. apply unch_swap; lia.
Qed.
End reverse.

Lemma strrev_written m s l :
  cstring m s l → Z.of_nat (length l) < 2147483648 →
  uniq_range s (Z.of_nat (length l) + 1) →
  ∃ m', strrev m s = Some m' ∧ cstring m' s (rev l) ∧
    unch (in_range s (Z.of_nat (length l))) m m'.
Proof.
  intros Hl Hlen Hu. unfold strrev. rewrite (strlen_cstring m s l) by (done || lia).
  set (L := Z.of_nat (length l)) in *.
  assert (s32 (u32 (L - 1)) = L - 1) as ->.
  { destruct (decide (L = 0)) as [->|]; [done|].
    rewrite u32_small, s32_small; lia. }
  assert (uniq_range s L) as Hu' by (eapply uniq_range_mono; [done|lia]).
  destruct (while32_total (λ '(beg, end_, m),
          if beg <? end_ then inl (beg + 1, end_ - 1, swap_bytes m s beg end_)
          else inr m)
        (reversing m s L)
        (λ m', (∀ i, 0 ≤ i < L → ld8 m' (s + i) = ld8 m (s + (L - 1 - i))) ∧
               unch (in_range s L) m m')
        (λ '(b, e, _), e + 1 - b) (0, L - 1, m)) as (m' & -> & Hrev & Hun); [| |lia|].
  - intros [[b e] m1] Hr. split; [destruct Hr; lia|]. case_test.
    + split; [apply reversing_step; (done || lia)|lia].
    + destruct Hr as (-> & Hb & Hi & Hun). split; [|done].
      intros i Hr. rewrite Hi by done. do 2 f_equal. case_tests.
  - split_and!; [lia|lia|lia| |apply unch_refl].
    intros i Hi. do 2 f_equal. case_tests.
  - exists m'. split; [done|split; [|done]]. split.
    + intros i x Hx. pose proof (lookup_lt_Some _ _ _ Hx) as Hix.
      rewrite length_rev in Hix.
      change (rev l) with (reverse l) in Hx || rewrite rev_alt in Hx.
      rewrite Hrev by lia.
      destruct Hl as [Hl _]. specialize (Hl (length l - S i)%nat x).
      rewrite Nat2Z.inj_sub, Nat2Z.inj_succ in Hl by lia.
      replace (L - 1 - Z.of_nat i) with (Z.of_nat (length l) - Z.succ (Z.of_nat i)) by lia.
      apply Hl. rewrite <- Hx. symmetry. apply reverse_lookup. lia.
    + rewrite length_rev. rewrite (unch_ld8 _ _ _ _ Hun); [apply Hl|].
      intros (i & Hi & E). apply Hu in E; lia.
Qed.

(** The number a list of digits denotes, most significant digit first, and
    least significant digit first. *)
Definition digits_value (radix : Z) (ds : list Z) : Z :=
  foldl (λ acc x, acc * radix + x) 0 ds.

Definition digits_value_le (radix : Z) (ds : list Z) : Z :=
  foldr (λ x acc, x + radix * acc) 0 ds.

Lemma digits_value_rev radix ds :
  digits_value radix (rev ds) = digits_value_le radix ds.
Proof.
  unfold digits_value. induction ds as [|x ds IH]; simpl; [done|].
  rewrite foldl_app, IH. simpl. lia.
Qed.

Lemma digits_value_le_snoc radix ds x :
  digits_value_le radix (ds ++ [x]) =
  digits_value_le radix ds + radix ^ Z.of_nat (length ds) * x.
Proof.
  unfold digits_value_le. induction ds as [|y ds IH]; [simpl; lia|].
  cbn [foldr app length]. rewrite IH, Nat2Z.inj_succ, Z.pow_succ_r by lia. ring.
Qed.

Lemma lookup_char_nonzero x : 0 ≤ x < 36 → 0 < lookup_char x < 256.
Proof.
  intros Hx.
  assert (forallb (λ x, (0 <? lookup_char x) && (lookup_char x <? 256)) (seqZ 0 36)
          = true) as H by (vm_compute; done).
  rewrite forallb_forall in H. specialize (H x).
  rewrite andb_true_iff, !Z.ltb_lt in H. apply H, list_elem_of_In, elem_of_seqZ. lia.
Qed.

Section itoa.
Context (m : mem) (value buf radix : Z).
Hypothesis Hv : 0 < value < 4294967296.
Hypothesis Hr : 2 ≤ radix ≤ 36.
Hypothesis Huniq : uniq_range buf 33.

(** The digits produced so far, least significant first, and what is left. *)
Definition converting (st : Z * Z * mem) : Prop :=
  let '(v, p, m') := st in
  ∃ ds, p = buf + Z.of_nat (length ds) ∧ (length ds ≤ 32)%nat ∧
    Forall (λ x, 0 ≤ x < radix) ds ∧ 0 ≤ v ∧
    value = digits_value_le radix ds + radix ^ Z.of_nat (length ds) * v ∧
    (v = 0 → ∃ x, last ds = Some x ∧ x ≠ 0) ∧
    written m buf (Z.of_nat (length ds)) (λ i, lookup_char (nth (Z.to_nat i) ds 0)) m'.

Lemma digits_value_le_nonneg ds :
  Forall (λ x, 0 ≤ x < radix) ds → 0 ≤ digits_value_le radix ds.
Proof.
  unfold digits_value_le.
  induction 1 as [|x ds Hx _ IH]; simpl; [lia|]. nia.
Qed.

Lemma converting_room v ds :
  Forall (λ x, 0 ≤ x < radix) ds → 0 < v →
  value = digits_value_le radix ds + radix ^ Z.of_nat (length ds) * v →
  (length ds < 32)%nat.
Proof.
  intros Hds Hpos Heq. pose proof (digits_value_le_nonneg ds Hds).
  assert (2 ^ Z.of_nat (length ds) ≤ radix ^ Z.of_nat (length ds))
    by (apply Z.pow_le_mono_l; lia).
  assert (2 ^ Z.of_nat (length ds) < 2 ^ 32) as Hlt by nia.
  apply Z.pow_lt_mono_r_iff in Hlt; lia.
Qed.

Lemma converting_step v p m' :
  converting (v, p, m') → 0 < v →
  converting (v / radix, p + 1, st8 m' p (lookup_char (v mod radix))).
Proof.
  intros (ds & -> & Hlen & Hds & _ & Heq & _ & Hw) Hpos.
  pose proof (Z.mod_pos_bound v radix ltac:(lia)) as Hx.
  pose proof (Z.div_mod v radix ltac:(lia)) as Hdm.
  pose proof (converting_room v ds Hds Hpos Heq).
  exists (ds ++ [v mod radix]). rewrite length_app. simpl.
  rewrite Nat2Z.inj_add. split_and!; [lia|lia| | | | |].
  - by apply Forall_app_2; [done|constructor].
  - apply Z.div_pos; lia.
  - rewrite digits_value_le_snoc, Z.pow_add_r by lia. nia.
  - intros E. exists (v mod radix). split; [apply last_snoc|]. rewrite E in Hdm. lia.
  - apply written_snoc; [lia|eapply uniq_range_mono; [done|lia]| |].
    + rewrite Nat2Z.id, app_nth2, Nat.sub_diag by lia. simpl.
      apply u8_small. pose proof (lookup_char_nonzero (v mod radix)). lia.
    + eapply written_ext; [|done]. intros i Hi. simpl.
      rewrite app_nth1 by lia. done.
Qed.

Lemma itoa_loop :
  ∃ m' ds,
    while32 (itoa_step radix) (value, buf, m) =
    Some (buf + Z.of_nat (length ds), m') ∧
    (length ds ≤ 32)%nat ∧ Forall (λ x, 0 ≤ x < radix) ds ∧
    value = digits_value_le radix ds ∧ (∃ x, last ds = Some x ∧ x ≠ 0) ∧
    written m buf (Z.of_nat (length ds)) (λ i, lookup_char (nth (Z.to_nat i) ds 0)) m'.
Proof.
  destruct (while32_total (itoa_step radix) converting
    (λ '(p, m'), converting (0, p, m')) (λ '(v, _, _), v) (value, buf, m))
    as ([p m'] & -> & ds & -> & Hlen & Hds & _ & Heq & Hlast & Hw).
  - intros [[v p] m'] Hc. split; [destruct Hc as (? & ? & ? & ? & ? & _); lia|].
    unfold itoa_step. rewrite u32_small by lia. case_test.
    + split; [by apply converting_step|]. apply Z.div_lt; lia.
    + by replace 0 with v by (destruct Hc as (? & ? & ? & ? & ? & _); lia).
  - exists []. simpl. split_and!; try lia; [by constructor|].
    apply written_nil.
  - lia.
  - exists m', ds. split_and!; try done; [lia|by apply Hlast].
Qed.
End itoa.

(** [itoa] writes the NUL-terminated numeral of [value] in base [radix]: reading
    the digits back gives [value], and there is no leading zero. *)
Lemma itoa_numeral m value buf radix :
  0 ≤ value < 4294967296 → 2 ≤ radix ≤ 36 → uniq_range buf 33 →
  ∃ m' ds, itoa m value buf radix = Some m' ∧
    cstring m' buf (lookup_char <$> ds) ∧
    Forall (λ x, 0 ≤ x < radix) ds ∧ (0 < length ds ≤ 32)%nat ∧
    digits_value radix ds = value ∧ (value ≠ 0 → head ds ≠ Some 0) ∧
    unch (in_range buf 33) m m'.
Proof.
  intros Hv Hr Hu. unfold itoa. destruct (Z.eqb_spec value 0) as [->|Hnz].
  - assert (written m buf 2 (λ i, if i =? 0 then 48 else 0)
              (st8 (st8 m buf 48) (buf + 1) 0)) as [Hw Hun].
    { replace (st8 m buf 48) with (st8 m (buf + 0) 48) by (by rewrite Z.add_0_r).
      change 2 with (0 + 1 + 1). change (buf + 1) with (buf + (0 + 1)).
      repeat (apply written_snoc; [lia|eapply uniq_range_mono; [done|lia]|done|]).
      apply written_nil. }
    eexists _, [0]. split_and!; [done| |constructor; [lia|constructor]|simpl; lia..|done|done|].
    + split; [|apply (Hw 1); lia]. intros [|i] x Hx; [|done]. injection Hx as <-.
      change (Z.of_nat 0) with 0. rewrite (Hw 0) by lia. done.
    + eapply unch_mono; [|exact Hun]. intros p. apply in_range_mono. lia.
  - destruct (itoa_loop m value buf radix ltac:(lia) Hr Hu)
      as (m1 & ds & -> & Hlen & Hds & Heq & (x & Hlast & Hx) & Hw).
    set (m2 := st8 m1 (buf + Z.of_nat (length ds)) 0).
    assert (written m buf (Z.of_nat (length ds) + 1)
              (λ i, nth (Z.to_nat i) ((lookup_char <$> ds) ++ [0]) 0) m2) as Hw2.
    { apply written_snoc; [lia|eapply uniq_range_mono; [done|lia]| |].
      - rewrite Nat2Z.id, app_nth2, length_fmap, Nat.sub_diag; [done|].
        rewrite length_fmap. lia.
      - eapply written_ext; [|done]. intros i Hi. simpl.
        rewrite app_nth1 by (rewrite length_fmap; lia).
        symmetry. apply nth_fmap. lia. }
    assert (cstring m2 buf (lookup_char <$> ds)) as Hc.
    { destruct Hw2 as [Hw2 _]. split.
      - intros i y Hy. pose proof (lookup_lt_Some _ _ _ Hy) as Hi.
        rewrite length_fmap in Hi. rewrite Hw2 by lia. rewrite Nat2Z.id.
        rewrite app_nth1 by (rewrite length_fmap; lia).
        rewrite (nth_lookup_Some _ _ _ _ Hy). split; [done|].
        apply list_lookup_fmap_Some in Hy as (z & -> & Hz).
        rewrite Forall_lookup in Hds. specialize (Hds _ _ Hz).
        pose proof (lookup_char_nonzero z). lia.
      - rewrite length_fmap, Hw2 by lia. rewrite Nat2Z.id, app_nth2;
          rewrite length_fmap; [by rewrite Nat.sub_diag|lia]. }
    destruct (strrev_written m2 buf (lookup_char <$> ds) Hc) as (m' & Hm' & Hc' & Hun).
    { rewrite length_fmap. lia. }
    { rewrite length_fmap. eapply uniq_range_mono; [done|lia]. }
    exists m', (rev ds). split_and!; [done| | | | | | |].
    + by replace (lookup_char <$> rev ds) with (rev (lookup_char <$> ds))
        by (symmetry; apply map_rev).
    + by apply Forall_rev.
    + rewrite length_rev. destruct ds; [done|simpl in *; lia].
    + rewrite length_rev. lia.
    + rewrite digits_value_rev. done.
    + intros _ E. rewrite rev_alt in E. change (head (reverse ds) = Some 0) in E.
      rewrite head_reverse in E. congruence.
    + eapply unch_trans; [|eapply unch_mono; [|exact Hun]].
      * eapply unch_mono; [|apply Hw2]. intros p. apply in_range_mono. lia.
      * intros p. rewrite length_fmap. apply in_range_mono. lia.
Qed.

(** ** Properties *)

(** [memcpy], with its byte loop up to alignment, its double-word moves and its
    byte tail, is a byte-for-byte copy: afterwards the destination holds the
    former bytes of the source and no other cell has changed. *)
Theorem memcpy_bytes m d s n :
  0 ≤ n → uniq_range d n → sep_range d n s n →
  load_bytes (memcpy m d s n) d n = load_bytes m s n ∧
  unch (in_range d n) m (memcpy m d s n).
Proof.
  intros Hn Hu Hs. pose proof (memcpy_written m d s n Hn Hu Hs) as Hw.
  split; [by apply written_load_bytes in Hw|apply Hw].
Qed.

(** [memmove] picks its direction so that overlapping buffers are copied as if
    through a temporary: the destination ends with the former bytes of the
    source wherever the two ranges overlap, and nothing else changes. *)
Theorem memmove_bytes m d s n :
  0 ≤ n → 0 ≤ d ∧ d + n ≤ 4294967296 → 0 ≤ s ∧ s + n ≤ 4294967296 →
  uniq_range d n →
  (∀ i j, 0 ≤ i < n → 0 ≤ j < n → cell (d + i) = cell (s + j) → d + i = s + j) →
  load_bytes (memmove m d s n) d n = load_bytes m s n ∧
  unch (in_range d n) m (memmove m d s n).
Proof.
  intros Hn Hd Hs Hu Hlin. pose proof (memmove_written m d s n Hn Hd Hs Hu Hlin) as Hw.
  split; [by apply written_load_bytes in Hw|apply Hw].
Qed.

(** Reading a numeral back, digit by digit from the left. *)
Definition digit_of_char (c : Z) : Z := if c <? 65 then c - 48 else c - 55.

Definition numeral_value (radix : Z) (l : list Z) : Z :=
  digits_value radix (digit_of_char <$> l).

Lemma digit_of_lookup_char x : 0 ≤ x < 36 → digit_of_char (lookup_char x) = x.
Proof.
  intros Hx.
  assert (forallb (λ x, digit_of_char (lookup_char x) =? x) (seqZ 0 36) = true) as H
    by (vm_compute; done).
  apply Z.eqb_eq, (forallb_seqZ _ 0 36 x H). lia.
Qed.

Lemma numeral_value_digits radix ds :
  radix ≤ 36 → Forall (λ x, 0 ≤ x < radix) ds →
  numeral_value radix (lookup_char <$> ds) = digits_value radix ds.
Proof.
  intros Hr Hds. unfold numeral_value. f_equal. rewrite <- list_fmap_compose.
  rewrite <- (list_fmap_id ds) at 2. apply list_fmap_ext. intros i x Hx.
  rewrite Forall_lookup in Hds. specialize (Hds _ _ Hx).
  simpl. apply digit_of_lookup_char. lia.
Qed.

(** C40: [itoa] terminates and prints a numeral that reads back as the value, for
    every radix from 2 to 36 and every 32-bit value, without a leading zero and in
    at most 33 bytes including the terminator. *)
Theorem itoa_roundtrip m value buf radix :
  0 ≤ value < 4294967296 → 2 ≤ radix ≤ 36 → uniq_range buf 33 →
  ∃ m' l, itoa m value buf radix = Some m' ∧ cstring m' buf l ∧
    numeral_value radix l = value ∧ (0 < length l ≤ 32)%nat ∧
    (value ≠ 0 → head l ≠ Some 48) ∧ unch (in_range buf 33) m m'.
Proof.
  intros Hv Hr Hu.
  destruct (itoa_numeral m value buf radix Hv Hr Hu)
    as (m' & ds & E & Hc & Hds & Hlen & Hval & Hhd & Hun).
  exists m', (lookup_char <$> ds). split_and!; try done; rewrite ?length_fmap; try lia.
  - by rewrite numeral_value_digits by (done || lia).
  - intros Hnz Hh. specialize (Hhd Hnz). destruct ds as [|x ds]; [done|].
    simpl in *. injection Hh as Hh. apply Hhd. inversion Hds; subst.
    rewrite <- (digit_of_lookup_char x) by lia. by rewrite Hh.
Qed.
End lib.

(** ** Witnesses, in the flat address space *)

(** "abcdefg" at address 101. *)
Definition demo_text : mem :=
  list_to_map (zip (seqZ 101 7) (seqZ 97 7)).

Lemma memcpy_bytes_witness :
  load_bytes (X := flat) (memcpy (X := flat) demo_text 203 101 7) 203 7 = seqZ 97 7.
Proof.
  etransitivity; [|vm_compute; reflexivity].
  apply (memcpy_bytes (X := flat) demo_text 203 101 7); [lia|apply flat_uniq; lia|].
  apply flat_sep; lia.
Defined.

Lemma memmove_bytes_witness :
  load_bytes (X := flat) (memmove (X := flat) demo_text 103 101 7) 103 7 = seqZ 97 7.
Proof.
  etransitivity; [|vm_compute; reflexivity].
  apply (memmove_bytes (X := flat) demo_text 103 101 7); [lia..|apply flat_uniq; lia|].
  intros i j Hi Hj E. unfold cell, xlat, flat in E. apply u32_near in E; lia.
Defined.

Lemma itoa_roundtrip_witness :
  ∃ m' l, itoa (X := flat) ∅ 391 100 10 = Some m' ∧ cstring (X := flat) m' 100 l ∧
    numeral_value 10 l = 391.
Proof.
  destruct (itoa_roundtrip (X := flat) ∅ 391 100 10) as (m' & l & H1 & H2 & H3 & _);
    [lia|lia|apply flat_uniq; lia|].
  exists m', l. exact (conj H1 (conj H2 H3)).
Defined.
