(* ===== verification/Fs.v ===== *)
(** * The in-memory file system (fs.c, fs.h)

    The image is the array [fs_blocks] of 124 blocks of 4 KB: the boot block, the
    inodes, the data blocks.  [boot_block] is the kernel's copy of the first one.
    Everything is read from memory at the addresses the code computes: field
    offsets are those of [fs_stats_t] (64 bytes), [dentry_t] (64 bytes: filename 0,
    type 32, nr_inode 36, reserved 40) and [inode_t] (length 0, inodes[] from 4).
    The addresses of the two globals are the class [FsLayout]; the address of a
    caller's [dentry_t] local is an argument. *)

From S2P Require Import Prelude Mem Lib.

Definition BLOCK_SIZE : Z := 1024 * 4.
Definition MAX_FILES : Z := 63.
Definition FILENAME_MAX_CHAR : Z := 32.
Definition DIR_ENTRY_RESERVED_BYTE : Z := 24.
Definition TOTAL_BLOCK : Z := 1 + 64 + 59.

Definition USER_RTC : Z := 0.
Definition DIR : Z := 1.
Definition REGULAR : Z := 2.

Definition OERROR : Z := 0.
Definition IN_USE : Z := 1.
Definition FREE : Z := 2.

(** The tables of file operations filled in by [fs_init]; [op_ptr] holds the
    address of one of them, or whatever the slot held before. *)
Inductive op_table :=
  | dir_ops | regular_file_ops | rtc_ops | stdin_ops | stdout_ops | op_unset.

#[export] Instance op_table_eq_dec : EqDecision op_table.
Proof. solve_decision. Defined.

(** The routines those tables point to, and the contents [fs_init] gives them. *)
Inductive routine :=
  | r_dir_read | r_dir_write | r_dir_open | r_dir_close
  | r_file_read | r_file_write | r_file_open | r_file_close
  | r_rtc_read | r_rtc_write | r_rtc_open | r_rtc_close
  | r_terminal_read | r_terminal_write | r_terminal_open | r_terminal_close.

Record file_ops := FileOps {
  op_read : routine;
  op_write : routine;
  op_open : routine;
  op_close : routine;
}.

(** [None]: the address stored in [op_ptr] is not one of the five tables. *)
Definition fs_init_ops (t : op_table) : option file_ops :=
  match t with
  | dir_ops => Some (FileOps r_dir_read r_dir_write r_dir_open r_dir_close)
  | regular_file_ops => Some (FileOps r_file_read r_file_write r_file_open r_file_close)
  | rtc_ops => Some (FileOps r_rtc_read r_rtc_write r_rtc_open r_rtc_close)
  | stdin_ops =>
      Some (FileOps r_terminal_read r_terminal_write r_terminal_open r_terminal_close)
  | stdout_ops =>
      Some (FileOps r_terminal_read r_terminal_write r_terminal_open r_terminal_close)
  | op_unset => None
  end.

Record file_entry := FileEntry {
  op_ptr : op_table;
  inode : Z;
  file_pos : Z;
  flags : Z;
}.

(** The link-time addresses of the globals [fs_blocks] and [boot_block]. *)
Class FsLayout := { fs_blocks : Z; boot_block : Z }.

(** The two address variables computed by [fs_init]. *)
Record fs_vars := FsVars { inode_start : Z; data_block_start : Z }.

Section fs.
Context {X : Xlat} {FL : FsLayout}.
Implicit Types (m : mem) (g : fs_vars).

(** ** Fields of the boot block *)

Definition num_dir_entries (m : mem) : Z := ld32 m boot_block.
Definition num_inodes (m : mem) : Z := ld32 m (boot_block + 4).
Definition num_data_blocks (m : mem) : Z := ld32 m (boot_block + 8).
Definition files (index : Z) : Z := boot_block + 64 + 64 * index.

(** ** Operations *)

(** [mods_addr] is at offset 24 of [multiboot_info_t], [mod_start] at offset 0
    of [module_t].  The structure assignment [boot_block = fs_blocks[0]] copies
    [sizeof(boot_block_t)] = 4096 bytes. *)
Definition fs_init (m : mem) (boot_info : Z) : fs_vars * mem :=
  let fs_start_addr := ld32 m (ld32 m (boot_info + 24)) in
  let m := memcpy m fs_blocks fs_start_addr (BLOCK_SIZE * TOTAL_BLOCK) in
  let m := memcpy m boot_block fs_blocks BLOCK_SIZE in
  let inode_start := u32 (fs_blocks + BLOCK_SIZE) in
  let data_block_start := u32 (inode_start + BLOCK_SIZE * num_inodes m) in
  (FsVars inode_start data_block_start, m).

(** The local [dentry_struct] is a read-only copy of [boot_block.files[index]]
    and is read in place. *)
Definition read_dentry_by_index (m : mem) (index dentry : Z) : Z * mem :=
  if (index <? 0) || (num_dir_entries m <=? index) then (-1, m)
  else
    let dentry_struct := files index in
    let nr_inode := ld32 m (dentry_struct + 36) in
    let type := ld32 m (dentry_struct + 32) in
    let m := strncpy m dentry dentry_struct FILENAME_MAX_CHAR in
    let m := st32 m (dentry + 36) nr_inode in
    let m := st32 m (dentry + 32) type in
    let m := memset m (dentry + 40) 0 DIR_ENTRY_RESERVED_BYTE in
    (0, m).

Definition read_dentry_by_name (m : mem) (fname dentry : Z) : option (Z * mem) :=
  match strlen m fname with
  | None => None
  | Some len =>
      if 32 <? len then Some (-1, m)
      else
        match find_up (λ i, strncmp m (files i) fname FILENAME_MAX_CHAR =? 0)
                      0 (num_dir_entries m) with
        | Some i => Some (0, snd (read_dentry_by_index m i dentry))
        | None => Some (-1, m)
        end
  end.

(** [inode_struct->length] and [inode_struct->inodes[j]]. *)
Definition inode_addr (g : fs_vars) (ino : Z) : Z :=
  u32 (ino * BLOCK_SIZE + inode_start g).
Definition inode_length (m : mem) (inode_struct : Z) : Z := ld32 m inode_struct.
Definition inodes (m : mem) (inode_struct j : Z) : Z := ld32 m (inode_struct + 4 + 4 * j).

(** [inode_struct->inodes[i] * BLOCK_SIZE + data_block_start] *)
Definition data_blk_ptr (m : mem) (g : fs_vars) (inode_struct i : Z) : Z :=
  u32 (inodes m inode_struct i * BLOCK_SIZE + data_block_start g).

(** The copying part of [read_data]: the first block from [start_off], the
    blocks in between, the last block up to [end_off]. *)
Definition read_blocks (m : mem) (g : fs_vars) (inode_struct buf : Z)
    (start_blk_idx start_off end_blk_idx end_off : Z) : mem :=
  let ptr := data_blk_ptr m g inode_struct start_blk_idx in
  let '(buf, m) :=
    if negb (end_blk_idx =? start_blk_idx)
    then (buf + (BLOCK_SIZE - start_off),
          memcpy m buf (ptr + start_off) (u32 (BLOCK_SIZE - start_off)))
    else (buf, memcpy m buf (ptr + start_off) (u32 (end_off - start_off))) in
  let '(buf, m) :=
    for_up (λ i '(buf, m),
              (buf + BLOCK_SIZE,
               memcpy m buf (data_blk_ptr m g inode_struct i) BLOCK_SIZE))
           (start_blk_idx + 1) end_blk_idx (buf, m) in
  if negb (start_blk_idx =? end_blk_idx)
  then memcpy m buf (data_blk_ptr m g inode_struct end_blk_idx) end_off
  else m.

Definition read_data (m : mem) (g : fs_vars) (ino offset buf length : Z) : Z * mem :=
  if (MAX_FILES <=? ino) || (ino <? 0) then (-1, m)
  else
    let inode_struct := inode_addr g ino in
    if (inode_length m inode_struct <=? offset) || (offset <? 0) then (0, m)
    else
      let start_blk_idx := offset / BLOCK_SIZE in
      if MAX_FILES <=? start_blk_idx then (-1, m)
      else
        let start_off := offset - offset / BLOCK_SIZE * BLOCK_SIZE in
        let end_ := if inode_length m inode_struct <=? u32 (offset + length)
                    then inode_length m inode_struct else u32 (offset + length) in
        let end_blk_idx := end_ / BLOCK_SIZE in
        if MAX_FILES <=? end_blk_idx then (-1, m)
        else
          let end_off := end_ - end_ / BLOCK_SIZE * BLOCK_SIZE in
          match find_up (λ j, num_data_blocks m <=? inodes m inode_struct j)
                        start_blk_idx (end_blk_idx + 1) with
          | Some _ => (-1, m)
          | None =>
              (s32 (u32 (end_ - offset)),
               read_blocks m g inode_struct buf
                 start_blk_idx start_off end_blk_idx end_off)
          end.

(** [file_entry fde;] starts uninitialised: the fields of an error entry other
    than [flags] are not set by the code. *)
Definition fde_error : file_entry := FileEntry op_unset 0 0 OERROR.

(** [dentry] is the address of the local [dentry_t]. *)
Definition file_open (m : mem) (fname dentry : Z) : option (file_entry * mem) :=
  match read_dentry_by_name m fname dentry with
  | None => None
  | Some (r, m) =>
      if r =? -1 then Some (fde_error, m)
      else Some (FileEntry regular_file_ops (ld32 m (dentry + 36)) 0 IN_USE, m)
  end.

(** The flag of the result says whether "Fail to open the file!" is printed. *)
Definition dir_open (m : mem) (dir_name dentry : Z) : option (file_entry * bool * mem) :=
  match read_dentry_by_name m dir_name dentry with
  | None => None
  | Some (r, m) =>
      if r =? -1 then Some (fde_error, true, m)
      else Some (FileEntry dir_ops (ld32 m (dentry + 36)) 0 IN_USE, false, m)
  end.

Definition set_file_pos (pos : Z) (fp : file_entry) : file_entry :=
  FileEntry (op_ptr fp) (inode fp) pos (flags fp).

Definition file_read (m : mem) (g : fs_vars) (fp : file_entry) (buf length : Z)
    : Z * file_entry * mem :=
  let '(r, m) := read_data m g (inode fp) (file_pos fp) buf length in
  let res := u32 r in
  if negb (res =? u32 (-1))
  then (s32 res, set_file_pos (u32 (file_pos fp + res)) fp, m)
  else (-1, fp, m).

(** [dentry] is the address of the local; [length] is not used by the code. *)
Definition dir_read (m : mem) (fp : file_entry) (buf length dentry : Z)
    : Z * file_entry * mem :=
  let index := file_pos fp in
  if num_dir_entries m <=? index then (0, fp, m)
  else
    let '(_, m) := read_dentry_by_index m index dentry in
    let m := memset m buf 0 33 in
    let num_read := FILENAME_MAX_CHAR in
    let '(i, m) :=
      while_n (λ '(i, m), (i <? num_read) && nz (ld8 m (dentry + i)))
              (λ '(i, m), (i + 1, st8 m (buf + i) (ld8 m (dentry + i))))
              (Z.to_nat num_read) (0, m) in
    (i, set_file_pos (u32 (file_pos fp + 1)) fp, m).

Definition file_write (fp : file_entry) (buf length : Z) : Z := -1.
Definition dir_write (fp : file_entry) (buf length : Z) : Z := -1.
Definition file_close (fp : file_entry) : Z := 0.
Definition dir_close (fp : file_entry) : Z := 0.

(** ** The files of an image *)

Definition IMAGE_SIZE : Z := BLOCK_SIZE * TOTAL_BLOCK.

(** The image lies below the end of the address space, the address variables
    are those of [fs_init], and the inode and data blocks fit in the image. *)
Record fs_ok (m : mem) (g : fs_vars) : Prop := {
  ok_low : 0 ≤ fs_blocks;
  ok_high : fs_blocks + IMAGE_SIZE ≤ 4294967296;
  ok_inode_start : inode_start g = fs_blocks + BLOCK_SIZE;
  ok_data_start : data_block_start g = inode_start g + BLOCK_SIZE * num_inodes m;
  ok_fit : 1 + num_inodes m + num_data_blocks m ≤ TOTAL_BLOCK;
}.

Definition file_length (m : mem) (g : fs_vars) (ino : Z) : Z :=
  inode_length m (inode_addr g ino).

(** Byte [k] of the file [ino]. *)
Definition file_byte (m : mem) (g : fs_vars) (ino k : Z) : Z :=
  ld8 m (data_blk_ptr m g (inode_addr g ino) (k / BLOCK_SIZE) + k mod BLOCK_SIZE).

(** Block [j] of the file has a valid block number. *)
Definition block_valid (m : mem) (g : fs_vars) (ino j : Z) : Prop :=
  inodes m (inode_addr g ino) j < num_data_blocks m.

Definition image_sep (buf n : Z) : Prop := sep_range buf n fs_blocks IMAGE_SIZE.

Lemma num_inodes_nonneg m : 0 ≤ num_inodes m.
Proof. apply ld32_bound. Qed.

Lemma num_data_blocks_nonneg m : 0 ≤ num_data_blocks m.
Proof. apply ld32_bound. Qed.

Lemma inode_addr_eq m g ino :
  fs_ok m g → 0 ≤ ino < num_inodes m →
  inode_addr g ino = fs_blocks + BLOCK_SIZE * (1 + ino).
Proof.
  intros [Hl Hh Hi Hd Hf] Hino. pose proof (num_data_blocks_nonneg m).
  unfold inode_addr. rewrite Hi.
  unfold IMAGE_SIZE, TOTAL_BLOCK, BLOCK_SIZE in *. rewrite u32_small; lia.
Qed.

Lemma data_blk_ptr_eq m g ino j :
  fs_ok m g → block_valid m g ino j →
  data_blk_ptr m g (inode_addr g ino) j =
    fs_blocks + BLOCK_SIZE * (1 + num_inodes m + inodes m (inode_addr g ino) j) ∧
  0 ≤ inodes m (inode_addr g ino) j.
Proof.
  intros [Hl Hh Hi Hd Hf] Hv. unfold block_valid in Hv.
  pose proof (ld32_bound m (inode_addr g ino + 4 + 4 * j)) as Hb.
  fold (inodes m (inode_addr g ino) j) in Hb. pose proof (num_inodes_nonneg m).
  unfold data_blk_ptr. rewrite Hd, Hi.
  unfold IMAGE_SIZE, TOTAL_BLOCK, BLOCK_SIZE in *. rewrite u32_small; lia.
Qed.

(** Filling a buffer outside the image leaves the image alone. *)
Lemma image_ld8 m buf n m' a :
  unch (in_range buf n) m m' → image_sep buf n →
  fs_blocks ≤ a < fs_blocks + IMAGE_SIZE → ld8 m' a = ld8 m a.
Proof.
  intros Hun Hsep Ha. eapply unch_ld8; [done|].
  replace a with (fs_blocks + (a - fs_blocks)) by lia.
  eapply sep_range_not_in; [exact Hsep|lia].
Qed.

Lemma image_ld32 m buf n m' a :
  unch (in_range buf n) m m' → image_sep buf n →
  fs_blocks ≤ a → a + 4 ≤ fs_blocks + IMAGE_SIZE → ld32 m' a = ld32 m a.
Proof.
  intros Hun Hsep Hl Hh. unfold ld32.
  by rewrite !(image_ld8 m buf n m') by (done || lia).
Qed.

Section copy_block.
Context (m : mem) (g : fs_vars) (ino offset buf n : Z).
Hypothesis Hok : fs_ok m g.
Hypothesis Hino : 0 ≤ ino < num_inodes m.
Hypothesis Hoff : 0 ≤ offset.
Hypothesis Huniq : uniq_range buf n.
Hypothesis Hsep : image_sep buf n.

Local Abbreviation f := (λ i, file_byte m g ino (offset + i)).

Lemma image_blk_ptr k m1 j :
  0 ≤ k ≤ n → 0 ≤ j < 1023 → written m buf k f m1 →
  data_blk_ptr m1 g (inode_addr g ino) j = data_blk_ptr m g (inode_addr g ino) j.
Proof.
  intros Hk Hj [_ Hun]. unfold data_blk_ptr, inodes. do 3 f_equal.
  destruct Hok as [Hl Hh Hi Hd Hf]. pose proof (num_data_blocks_nonneg m).
  eapply (image_ld32 m buf k); [done| | |].
  - eapply sep_range_mono; [exact Hsep|lia|lia].
  - rewrite (inode_addr_eq m g ino) by done. unfold BLOCK_SIZE. lia.
  - rewrite (inode_addr_eq m g ino) by done.
    unfold IMAGE_SIZE, TOTAL_BLOCK, BLOCK_SIZE in *. lia.
Qed.

(** One [memcpy] of [read_data]: the next [cnt] bytes of the file, all in
    block [j]. *)
Lemma copy_block k m1 j off cnt :
  0 ≤ k → 0 ≤ cnt → k + cnt ≤ n → 0 ≤ j < 1023 → block_valid m g ino j →
  offset + k = BLOCK_SIZE * j + off → 0 ≤ off → off + cnt ≤ BLOCK_SIZE →
  written m buf k f m1 →
  written m buf (k + cnt) f
    (memcpy m1 (buf + k) (data_blk_ptr m1 g (inode_addr g ino) j + off) cnt).
Proof.
  intros Hk Hc Hn Hj Hv Hpos Ho Hoc Hw.
  rewrite (image_blk_ptr k) by (done || lia).
  destruct (data_blk_ptr_eq m g ino j Hok Hv) as [Hp Hnn].
  destruct Hok as [Hl Hh Hi Hd Hf]. unfold block_valid in Hv.
  pose proof (num_inodes_nonneg m).
  set (ptr := data_blk_ptr m g (inode_addr g ino) j) in *.
  assert (fs_blocks ≤ ptr ∧ ptr + BLOCK_SIZE ≤ fs_blocks + IMAGE_SIZE) as [Hp1 Hp2].
  { unfold IMAGE_SIZE, TOTAL_BLOCK, BLOCK_SIZE in *. lia. }
  eapply (written_shift m buf k cnt f (λ i, ld8 m1 (ptr + off + i)) m1);
    [done|done|eapply uniq_range_mono; [done|lia]|done| |].
  - apply memcpy_written; [done| |].
    + intros x y ?? E. rewrite <- !Z.add_assoc in E. apply Huniq in E; lia.
    + intros x y ?? E. rewrite <- Z.add_assoc in E.
      replace (ptr + off + y) with (fs_blocks + (ptr - fs_blocks + off + y)) in E by lia.
      eapply Hsep in E; lia.
  - intros i Hir. rewrite (image_ld8 m buf k m1);
      [|apply Hw|eapply sep_range_mono; [exact Hsep|lia|lia]|lia].
    unfold file_byte.
    replace (offset + (k + i)) with (off + i + j * BLOCK_SIZE) by lia.
    rewrite Z.div_add, Z.mod_add by (unfold BLOCK_SIZE; lia).
    rewrite Z.div_small, Z.mod_small by lia. rewrite Z.add_0_l. fold ptr. f_equal. lia.
Qed.

(** The whole copying part, with [en] the position reading stops at. *)
Lemma read_blocks_written en :
  offset ≤ en → n = en - offset → en / BLOCK_SIZE < 63 →
  (∀ j, offset / BLOCK_SIZE ≤ j ≤ en / BLOCK_SIZE → block_valid m g ino j) →
  written m buf n f
    (read_blocks m g (inode_addr g ino) buf
       (offset / BLOCK_SIZE) (offset - offset / BLOCK_SIZE * BLOCK_SIZE)
       (en / BLOCK_SIZE) (en - en / BLOCK_SIZE * BLOCK_SIZE)).
Proof.
  intros Hle Hnn Hlim Hval. unfold read_blocks.
  pose proof (Z.div_mod offset BLOCK_SIZE ltac:(unfold BLOCK_SIZE; lia)) as Ho.
  pose proof (Z.mod_pos_bound offset BLOCK_SIZE ltac:(unfold BLOCK_SIZE; lia)) as Hob.
  pose proof (Z.div_mod en BLOCK_SIZE ltac:(unfold BLOCK_SIZE; lia)) as He.
  pose proof (Z.mod_pos_bound en BLOCK_SIZE ltac:(unfold BLOCK_SIZE; lia)) as Heb.
  assert (offset / BLOCK_SIZE ≤ en / BLOCK_SIZE) as Hse
    by (apply Z.div_le_mono; unfold BLOCK_SIZE; lia).
  pose proof (Z.div_pos offset BLOCK_SIZE Hoff ltac:(unfold BLOCK_SIZE; lia)) as Hs0.
  set (sb := offset / BLOCK_SIZE) in *. set (eb := en / BLOCK_SIZE) in *.
  set (so := offset mod BLOCK_SIZE) in *. set (eo := en mod BLOCK_SIZE) in *.
  replace (offset - sb * BLOCK_SIZE) with so by lia.
  replace (en - eb * BLOCK_SIZE) with eo by lia.
  destruct (Z.eqb_spec eb sb) as [Eb|Nb]; simpl.
  - rewrite Eb in *. rewrite Z.eqb_refl, for_up_nil by lia. simpl.
    rewrite u32_small by (unfold BLOCK_SIZE in *; lia).
    pose proof (copy_block 0 m sb so (eo - so)) as Hcb. rewrite !Z.add_0_r in Hcb.
    replace n with (0 + (eo - so)) by lia.
    apply Hcb; try lia; [apply Hval; lia|apply written_nil].
  - destruct (Z.eqb_spec sb eb) as [E|_]; [lia|]. simpl.
    rewrite u32_small by (unfold BLOCK_SIZE in *; lia).
    pose proof (copy_block 0 m sb so (BLOCK_SIZE - so)) as Hcb.
    rewrite !Z.add_0_r, !Z.add_0_l in Hcb.
    assert (written m buf (BLOCK_SIZE - so) f (memcpy m buf
      (data_blk_ptr m g (inode_addr g ino) sb + so) (BLOCK_SIZE - so))) as H1.
    { apply Hcb; try lia; [unfold BLOCK_SIZE in *; nia|apply Hval; lia|apply written_nil]. }
    set (m1 := memcpy _ _ _ _) in *.
    pose proof (for_up_inv
      (λ i '(buf, m), (buf + BLOCK_SIZE,
         memcpy m buf (data_blk_ptr m g (inode_addr g ino) i) BLOCK_SIZE))
      (λ i '(b, m2), b = buf + (BLOCK_SIZE * i - offset) ∧
         written m buf (BLOCK_SIZE * i - offset) f m2)
      (sb + 1) eb (buf + (BLOCK_SIZE - so), m1)) as Hfor.
    destruct (for_up _ _ _ _) as [b m2].
    destruct Hfor as [-> H2]; [lia| | |].
    { replace (BLOCK_SIZE * (sb + 1) - offset) with (BLOCK_SIZE - so) by lia. done. }
    { intros i [b1 m3] Hi [-> H3]. split; [lia|].
      pose proof (copy_block (BLOCK_SIZE * i - offset) m3 i 0 BLOCK_SIZE) as Hc.
      rewrite !Z.add_0_r in Hc.
      replace (BLOCK_SIZE * (i + 1) - offset)
        with (BLOCK_SIZE * i - offset + BLOCK_SIZE) by lia.
      apply Hc; try done; try lia; try (unfold BLOCK_SIZE in *; nia).
      apply Hval. lia. }
    pose proof (copy_block (BLOCK_SIZE * eb - offset) m2 eb 0 eo) as Hc.
    rewrite !Z.add_0_r in Hc.
    replace n with (BLOCK_SIZE * eb - offset + eo) by lia.
    apply Hc; try done; try lia; try (unfold BLOCK_SIZE in *; nia).
    apply Hval. lia.
Qed.
End copy_block.

(** ** Results of [read_data] *)

(** The number of bytes a read of [length] at [offset] delivers. *)
Definition read_count (m : mem) (g : fs_vars) (ino offset length : Z) : Z :=
  Z.min length (file_length m g ino - offset).

(** The position a read stops at, computed in 32 bits as in the code. *)
Definition read_end (m : mem) (g : fs_vars) (ino offset length : Z) : Z :=
  Z.min (file_length m g ino) (u32 (offset + length)).

Lemma read_end_eq m g ino offset length :
  (if file_length m g ino <=? u32 (offset + length)
   then file_length m g ino else u32 (offset + length))
  = read_end m g ino offset length.
Proof. unfold read_end. case_test; lia. Qed.

Lemma read_data_ok m g ino offset buf length :
  fs_ok m g → 0 ≤ ino < 63 → ino < num_inodes m →
  0 ≤ offset < file_length m g ino → 0 ≤ length → offset + length < 4294967296 →
  (offset + read_count m g ino offset length) / BLOCK_SIZE < 63 →
  (∀ j, offset / BLOCK_SIZE ≤ j ≤ (offset + read_count m g ino offset length) / BLOCK_SIZE →
        block_valid m g ino j) →
  uniq_range buf (read_count m g ino offset length) →
  image_sep buf (read_count m g ino offset length) →
  ∃ m', read_data m g ino offset buf length = (read_count m g ino offset length, m') ∧
    written m buf (read_count m g ino offset length)
      (λ i, file_byte m g ino (offset + i)) m'.
Proof.
  intros Hok Hino Hni Hoff Hlen Hover Hlim Hval Hu Hsep.
  unfold read_data, MAX_FILES.
  destruct (Z.leb_spec 63 ino); [lia|]. destruct (Z.ltb_spec ino 0); [lia|]. simpl.
  fold (file_length m g ino). destruct (Z.leb_spec (file_length m g ino) offset); [lia|].
  destruct (Z.ltb_spec offset 0); [lia|]. simpl.
  rewrite (read_end_eq m g ino offset length).
  assert (read_end m g ino offset length = offset + read_count m g ino offset length) as He.
  { unfold read_end, read_count. rewrite u32_small by lia. lia. }
  rewrite He. set (n := read_count m g ino offset length) in *.
  assert (0 ≤ n) by (unfold n, read_count; lia).
  assert (offset / BLOCK_SIZE ≤ (offset + n) / BLOCK_SIZE) as Hse
    by (apply Z.div_le_mono; unfold BLOCK_SIZE; lia).
  destruct (Z.leb_spec 63 (offset / BLOCK_SIZE)); [lia|].
  destruct (Z.leb_spec 63 ((offset + n) / BLOCK_SIZE)); [lia|].
  rewrite (proj2 (find_up_None _ _ _)).
  2:{ intros j Hj. apply Z.leb_gt, Hval. lia. }
  replace (offset + n - offset) with n by lia.
  assert (n < 63 * BLOCK_SIZE).
  { pose proof (Z.div_mod (offset + n) BLOCK_SIZE ltac:(unfold BLOCK_SIZE; lia)).
    pose proof (Z.mod_pos_bound (offset + n) BLOCK_SIZE ltac:(unfold BLOCK_SIZE; lia)).
    unfold BLOCK_SIZE in *. lia. }
  rewrite u32_small, s32_small by (unfold BLOCK_SIZE in *; lia).
  eexists. split; [done|].
  eapply read_blocks_written; try done; lia.
Qed.

(** ** Directory entries *)

(** The name held by a 32-byte field: the bytes before the first NUL. *)
Fixpoint until_nul (l : list Z) : list Z :=
  match l with
  | [] => []
  | x :: l => if x =? 0 then [] else x :: until_nul l
  end.

Definition entry_name (m : mem) (i : Z) : list Z :=
  until_nul (load_bytes m (files i) FILENAME_MAX_CHAR).

Lemma until_nul_eq (bs l : list Z) :
  Forall (λ x, x ≠ 0) l → (length l ≤ length bs)%nat →
  until_nul bs = l ↔
  (∀ i x, l !! i = Some x → bs !! i = Some x) ∧
  ((length l < length bs)%nat → bs !! length l = Some 0).
Proof.
  intros Hl. revert bs. induction Hl as [|x l Hx Hl IH]; intros [|b bs] Hlen; simpl in *.
  - split; [|done]. intros _. split; [by intros|lia].
  - case_test; [subst|].
    + split; [|done]. intros _. split; [by intros|done].
    + split; [done|]. intros [_ H]. specialize (H ltac:(lia)). congruence.
  - lia.
  - case_test.
    + split; [done|]. intros [H _]. specialize (H 0%nat x eq_refl). simpl in H. congruence.
    + specialize (IH bs ltac:(lia)). split.
      * intros [= -> E]. apply IH in E as [E1 E2]. split; [|intros; apply E2; lia].
        intros [|i] y Hy; simpl in *; [done|by apply E1].
      * intros [H1 H2]. pose proof (H1 0%nat x eq_refl) as Hb. simpl in Hb.
        injection Hb as ->. f_equal. apply IH. split; [|intros; apply H2; lia].
        intros i y Hy. apply (H1 (S i) y Hy).
Qed.

(** The test of the lookup loop is equality of names. *)
Lemma strncmp_entry m i fname l :
  cstring m fname l → (length l ≤ 32)%nat →
  strncmp m (files i) fname FILENAME_MAX_CHAR = 0 ↔ entry_name m i = l.
Proof.
  intros [Hl H0] Hlen. rewrite strncmp_zero.
  assert (∀ k : nat, (k < 32)%nat →
    load_bytes m (files i) FILENAME_MAX_CHAR !! k
      = Some (ld8 m (files i + Z.of_nat k))) as Hk.
  { intros k ?. rewrite <- (lookup_load_bytes m (files i) FILENAME_MAX_CHAR)
      by (unfold FILENAME_MAX_CHAR; lia). by rewrite Nat2Z.id. }
  unfold entry_name. rewrite until_nul_eq.
  2:{ apply Forall_lookup. intros k x Hx. by destruct (Hl k x Hx). }
  2:{ rewrite length_load_bytes. unfold FILENAME_MAX_CHAR. lia. }
  rewrite length_load_bytes. unfold FILENAME_MAX_CHAR in *. split.
  - intros H. assert (∀ k : nat, (k ≤ length l)%nat → (k < 32)%nat →
      ld8 m (files i + Z.of_nat k) = ld8 m (fname + Z.of_nat k)) as Heq.
    { induction k as [k IH] using lt_wf_ind. intros Hkl Hk32. apply H; [lia|].
      intros j Hj. destruct (lookup_lt_is_Some_2 l (Z.to_nat j) ltac:(lia)) as [x Hx].
      pose proof (IH (Z.to_nat j) ltac:(lia) ltac:(lia) ltac:(lia)) as E.
      destruct (Hl _ _ Hx) as [Ex Hx0]. rewrite Z2Nat.id in * by lia. congruence. }
    split.
    + intros k x Hx. pose proof (lookup_lt_Some _ _ _ Hx). rewrite Hk by lia.
      rewrite Heq by lia. f_equal. by apply Hl.
    + intros Hlt. rewrite Hk by lia. rewrite Heq by lia. by rewrite H0.
  - intros [H1 H2] k Hkr Hnz.
    destruct (Z.lt_trichotomy k (Z.of_nat (length l))) as [Hlt|[->|Hgt]].
    + destruct (lookup_lt_is_Some_2 l (Z.to_nat k) ltac:(lia)) as [x Hx].
      pose proof (H1 _ _ Hx) as E. rewrite Hk in E by lia.
      destruct (Hl _ _ Hx) as [Ex _]. rewrite Z2Nat.id in * by lia. congruence.
    + specialize (H2 ltac:(lia)). rewrite Hk in H2 by lia. congruence.
    + specialize (H2 ltac:(lia)). rewrite Hk in H2 by lia.
      exfalso. apply (Hnz (Z.of_nat (length l))); [lia|congruence].
Qed.

Lemma until_nul_agree (l1 l2 : list Z) :
  length l1 = length l2 →
  (∀ i : nat, (∀ (j : nat) x, (j < i)%nat → l1 !! j = Some x → x ≠ 0) → l1 !! i = l2 !! i) →
  until_nul l1 = until_nul l2.
Proof.
  revert l2. induction l1 as [|x l1 IH]; intros [|y l2] Hlen H; try done.
  pose proof (H 0%nat ltac:(lia)) as E. simpl in E. injection E as ->. simpl.
  case_test; [done|]. f_equal. apply IH; [simpl in Hlen; lia|].
  intros i Hi. apply (H (S i)). intros [|j] z Hj Hz; simpl in Hz.
  - congruence.
  - eapply (Hi j); [lia|done].
Qed.

(** [dentry_read m i d m']: the [dentry_t] at [d] now describes entry [i], and
    nothing else has changed. *)
Definition dentry_read (m : mem) (i d : Z) (m' : mem) : Prop :=
  ld32 m' (d + 32) = ld32 m (files i + 32) ∧
  ld32 m' (d + 36) = ld32 m (files i + 36) ∧
  until_nul (load_bytes m' d FILENAME_MAX_CHAR) = entry_name m i ∧
  unch (in_range d 64) m m'.

Lemma strncpy_name m d s m' :
  written m d FILENAME_MAX_CHAR (strncpy_byte m s) m' →
  until_nul (load_bytes m' d FILENAME_MAX_CHAR) =
  until_nul (load_bytes m s FILENAME_MAX_CHAR).
Proof.
  intros Hw. rewrite (written_load_bytes _ _ _ _ _ Hw). symmetry.
  unfold FILENAME_MAX_CHAR. apply until_nul_agree.
  { by rewrite length_load_bytes, length_fmap, length_seqZ. }
  intros i Hi. destruct (decide (i < 32)%nat) as [Hlt|Hge].
  - pose proof (lookup_load_bytes m s 32 (Z.of_nat i) ltac:(lia)) as E.
    rewrite Nat2Z.id in E. rewrite E, list_lookup_fmap, lookup_seqZ_lt by lia.
    cbn [fmap option_fmap option_map]. rewrite Z.add_0_l. f_equal. symmetry.
    apply strncpy_byte_before. intros j Hj.
    pose proof (lookup_load_bytes m s 32 j ltac:(lia)) as Ej.
    eapply Hi; [|exact Ej]. lia.
  - rewrite !lookup_ge_None_2; [done|rewrite length_fmap, length_seqZ; lia|].
    rewrite length_load_bytes. lia.
Qed.

Lemma read_dentry_by_index_ok m i d :
  0 ≤ i < num_dir_entries m → uniq_range d 64 → sep_range d 64 (files i) 64 →
  ∃ m', read_dentry_by_index m i d = (0, m') ∧ dentry_read m i d m'.
Proof.
  intros Hi Hu Hs. unfold read_dentry_by_index.
  destruct (Z.ltb_spec i 0); [lia|]. destruct (Z.leb_spec (num_dir_entries m) i); [lia|].
  cbn [orb]. unfold FILENAME_MAX_CHAR, DIR_ENTRY_RESERVED_BYTE.
  pose proof (strncpy_written m d (files i) 32 ltac:(lia)
    ltac:(eapply uniq_range_mono; [done|lia])
    ltac:(eapply sep_range_mono; [done|lia|lia])) as Hw1.
  set (m1 := strncpy _ _ _ _) in *.
  pose proof (unch_st32 m1 (d + 36) (ld32 m (files i + 36))) as U2.
  set (m2 := st32 m1 _ _) in *.
  pose proof (unch_st32 m2 (d + 32) (ld32 m (files i + 32))) as U3.
  set (m3 := st32 m2 _ _) in *.
  pose proof (memset_written m3 (d + 40) 0 24 ltac:(lia)
    ltac:(eapply uniq_sub; [done|lia|lia])) as [_ U4].
  set (m4 := memset _ _ _ _) in *.
  exists m4. split; [done|].
  assert (∀ a k b l, 0 ≤ a → 0 ≤ b → a + k ≤ 64 → b + l ≤ 64 → a + k ≤ b ∨ b + l ≤ a →
            sep_range (d + a) k (d + b) l) as Hsub
    by (intros; eapply uniq_sub_sep; done || lia).
  split_and!.
  - rewrite (unch_ld32_sep _ _ _ _ _ U4) by (apply Hsub; lia).
    unfold m3. rewrite ld32_st32_eq by (eapply uniq_sub; [done|lia|lia]).
    apply u32_small, ld32_bound.
  - rewrite (unch_ld32_sep _ _ _ _ _ U4), (unch_ld32_sep _ _ _ _ _ U3)
      by (apply Hsub; lia).
    unfold m2. rewrite ld32_st32_eq by (eapply uniq_sub; [done|lia|lia]).
    apply u32_small, ld32_bound.
  - unfold entry_name. rewrite <- (strncpy_name m d (files i) m1) by done.
    f_equal. unfold load_bytes. apply list_fmap_ext.
    intros k x Hx%lookup_seqZ. unfold FILENAME_MAX_CHAR in Hx.
    rewrite <- (Z.add_0_r d) in Hsub |- *.
    rewrite <- !Z.add_assoc.
    pose proof (Hsub 40 24 0 32) as S4. pose proof (Hsub 32 4 0 32) as S3.
    pose proof (Hsub 36 4 0 32) as S2. rewrite !Z.add_0_r in *.
    rewrite !Z.add_0_l.
    rewrite (unch_ld8_sep _ _ _ _ d 32 x U4), (unch_ld8_sep _ _ _ _ d 32 x U3),
      (unch_ld8_sep _ _ _ _ d 32 x U2); auto with lia.
  - destruct Hw1 as [_ U1].
    repeat (eapply unch_trans; [|eapply unch_mono; [|done]; intros p; apply in_range_sub; lia]).
    eapply unch_mono; [|exact U1]. intros p. apply in_range_mono. lia.
Qed.

Lemma until_nul_take (bs : list Z) (k : nat) :
  (k ≤ length bs)%nat →
  (∀ (j : nat) x, (j < k)%nat → bs !! j = Some x → x ≠ 0) →
  ((k < length bs)%nat → bs !! k = Some 0) → until_nul bs = take k bs.
Proof.
  intros Hk Hnz H0.
  assert (length (take k bs) = k) as Hlen by (rewrite length_take; lia).
  apply until_nul_eq; [| |split].
  - apply Forall_lookup. intros i x Hx. apply lookup_take_Some in Hx as [Hx Hi].
    by eapply Hnz.
  - lia.
  - intros i x Hx. by apply lookup_take_Some in Hx as [Hx _].
  - by rewrite Hlen.
Qed.

(** The name loop of [dir_read], from the zeroed buffer on. *)
Section name_loop.
Context (m1 : mem) (d buf : Z).
Hypothesis Hu : uniq_range buf 33.
Hypothesis Hs : sep_range buf 33 d 64.

Definition name_loop_inv (st : Z * mem) : Prop :=
  let '(k, mk) := st in
  0 ≤ k ≤ 32 ∧ (∀ j, 0 ≤ j < k → ld8 m1 (d + j) ≠ 0) ∧
  written m1 buf 33 (λ j, if j <? k then ld8 m1 (d + j) else 0) mk.

Lemma name_loop :
  let '(k, mk) :=
    while_n (λ '(i, m), (i <? FILENAME_MAX_CHAR) && nz (ld8 m (d + i)))
            (λ '(i, m), (i + 1, st8 m (buf + i) (ld8 m (d + i))))
            (Z.to_nat FILENAME_MAX_CHAR) (0, memset m1 buf 0 33) in
  name_loop_inv (k, mk) ∧ (k < 32 → ld8 m1 (d + k) = 0).
Proof.
  assert (∀ k mk i, name_loop_inv (k, mk) → 0 ≤ i < 64 → ld8 mk (d + i) = ld8 m1 (d + i))
    as Hsrc.
  { intros k mk i (_ & _ & _ & U) Hi. by eapply unch_ld8_sep. }
  unfold FILENAME_MAX_CHAR.
  destruct (while_n_inv (λ '(i, m), (i <? 32) && nz (ld8 m (d + i)))
    (λ '(i, m), (i + 1, st8 m (buf + i) (ld8 m (d + i)))) name_loop_inv
    (λ '(k, _), 32 - k) (Z.to_nat 32) (0, memset m1 buf 0 33)) as [HP Hc]; [|done| |].
  - split_and!; [lia|lia|lia|]. eapply written_ext;
      [|by apply memset_written]. intros i Hi. by case_tests.
  - intros [k mk] HP Hc. apply andb_true_iff in Hc as [Hlt Hnz].
    apply Z.ltb_lt in Hlt. unfold nz in Hnz. apply negb_true_iff, Z.eqb_neq in Hnz.
    rewrite (Hsrc k mk k HP) in Hnz |- * by (destruct HP; lia).
    destruct HP as (Hk & Hz & Hw & U). split; [lia|split; [lia|]].
    split; [lia|split].
    + intros j Hj. destruct (decide (j = k)) as [->|]; [done|]. apply Hz. lia.
    + split.
      * intros i Hi. destruct (decide (i = k)) as [->|Hne].
        -- rewrite ld8_st8_eq, u8_ld8 by done. by case_tests.
        -- rewrite ld8_st8_ne by (intros E; apply Hu in E; lia).
           rewrite Hw by lia. by case_tests.
      * eapply unch_trans; [exact U|]. apply unch_st8. exists k. split; [lia|done].
  - destruct (while_n _ _ _ _) as [k mk]. split; [done|]. intros Hk.
    apply andb_false_iff in Hc as [Hge|Hz]; [apply Z.ltb_ge in Hge; lia|].
    unfold nz in Hz. apply negb_false_iff, Z.eqb_eq in Hz.
    by rewrite (Hsrc k mk k HP) in Hz by (destruct HP; lia).
Qed.
End name_loop.

Lemma dir_read_ok m fp buf length d :
  0 ≤ file_pos fp < num_dir_entries m →
  uniq_range d 64 → sep_range d 64 (files (file_pos fp)) 64 →
  uniq_range buf 33 → sep_range buf 33 d 64 →
  ∃ m', dir_read m fp buf length d =
      (Z.of_nat (base.length (entry_name m (file_pos fp))),
       set_file_pos (u32 (file_pos fp + 1)) fp, m') ∧
    cstring m' buf (entry_name m (file_pos fp)) ∧
    unch (λ p, in_range buf 33 p ∨ in_range d 64 p) m m'.
Proof.
  intros Hpos Hud Hsd Hub Hsb. unfold dir_read.
  destruct (Z.leb_spec (num_dir_entries m) (file_pos fp)); [lia|].
  destruct (read_dentry_by_index_ok m (file_pos fp) d Hpos Hud Hsd)
    as (m1 & -> & _ & _ & Hname & U1).
  pose proof (name_loop m1 d buf Hub Hsb) as HL.
  destruct (while_n _ _ _ _) as [k mk]. destruct HL as ((Hk & Hnz & Hw) & Hend).
  assert (entry_name m (file_pos fp) = load_bytes m1 d k) as Hen.
  { rewrite <- Hname. rewrite (until_nul_take _ (Z.to_nat k)).
    - unfold load_bytes, FILENAME_MAX_CHAR. rewrite <- fmap_take. f_equal.
      replace 32 with (k + (32 - k)) by lia. rewrite seqZ_app by lia.
      rewrite take_app_length'; [done|]. rewrite length_seqZ. lia.
    - rewrite length_load_bytes. unfold FILENAME_MAX_CHAR. lia.
    - intros j x Hj Hx. pose proof (lookup_load_bytes m1 d FILENAME_MAX_CHAR
        (Z.of_nat j) ltac:(unfold FILENAME_MAX_CHAR; lia)) as E.
      rewrite Nat2Z.id in E. rewrite E in Hx. injection Hx as <-. apply Hnz. lia.
    - rewrite length_load_bytes. unfold FILENAME_MAX_CHAR. intros.
      rewrite lookup_load_bytes by lia. rewrite Hend by lia. done. }
  exists mk. rewrite Hen. split; [|split].
  - rewrite length_load_bytes, Z2Nat.id by lia. done.
  - destruct Hw as [Hw _]. split.
    + intros i x Hx. pose proof (lookup_lt_Some _ _ _ Hx) as Hi.
      rewrite length_load_bytes in Hi.
      pose proof (lookup_load_bytes m1 d k (Z.of_nat i) ltac:(lia)) as E.
      rewrite Nat2Z.id, Hx in E. injection E as ->.
      rewrite Hw by lia. destruct (Z.ltb_spec (Z.of_nat i) k); [|lia]. split; [done|]. apply Hnz. lia.
    + rewrite length_load_bytes, Z2Nat.id, Hw by lia. by case_tests.
  - intros p Hp. destruct Hw as [_ U2]. rewrite (U2 p), (U1 p); [done|tauto|tauto].
Qed.

(** A regular file whose every byte [read_data] can deliver. *)
Record readable (m : mem) (g : fs_vars) (ino : Z) : Prop := {
  rd_ino : 0 ≤ ino < 63;
  rd_inode : ino < num_inodes m;
  rd_small : file_length m g ino / BLOCK_SIZE < 63;
  rd_valid : ∀ j, 0 ≤ j ≤ file_length m g ino / BLOCK_SIZE → block_valid m g ino j;
}.

(** The loop of the clients of [read]: chunks of at most [c] bytes until a call
    delivers nothing.  The result is what they have seen. *)
Fixpoint read_to_end (fuel : nat) (m : mem) (g : fs_vars) (fp : file_entry) (buf c : Z)
    : option (list Z * file_entry * mem) :=
  match fuel with
  | O => None
  | S fuel =>
      let '(cnt, fp, m) := file_read m g fp buf c in
      if cnt =? 0 then Some ([], fp, m)
      else if cnt =? -1 then None
      else match read_to_end fuel m g fp buf c with
           | None => None
           | Some (rest, fp, m') => Some (load_bytes m buf cnt ++ rest, fp, m')
           end
  end.

(** The bytes [offset .. offset+n-1] of a file. *)
Definition file_slice (m : mem) (g : fs_vars) (ino offset n : Z) : list Z :=
  (λ i, file_byte m g ino (offset + i)) <$> seqZ 0 n.

End fs.

(** ** Writing elsewhere keeps the file system *)

Section keeps.
Context {X : Xlat} {FL : FsLayout}.

Definition spares (P : Z → Prop) (s n : Z) : Prop := ∀ j, 0 ≤ j < n → ¬ P (cell (s + j)).

Lemma sep_spares d n s k : sep_range d n s k → spares (in_range d n) s k.
Proof. intros H j Hj. by eapply sep_range_not_in. Qed.

Lemma image_spares d n : image_sep d n → spares (in_range d n) fs_blocks IMAGE_SIZE.
Proof. apply sep_spares. Qed.

(** The same bytes, in another memory or through another address translation. *)
Definition agrees (X' : Z → Z) (m m' : mem) (s n : Z) : Prop :=
  ∀ a, s ≤ a < s + n → ld8 (X := X') m' a = ld8 m a.

Lemma spares_agrees P m m' s n : unch P m m' → spares P s n → agrees X m m' s n.
Proof.
  intros U Hs a Ha. eapply unch_ld8; [done|].
  replace a with (s + (a - s)) by lia. apply Hs. lia.
Qed.

Lemma agrees_ld32 X' m m' s n a :
  agrees X' m m' s n → s ≤ a → a + 4 ≤ s + n → ld32 (X := X') m' a = ld32 m a.
Proof. intros Hs ??. unfold ld32. by rewrite !Hs by lia. Qed.

Section stable.
Context (X' : Z → Z) (m m' : mem) (g : fs_vars).
Hypothesis Himg : agrees X' m m' fs_blocks IMAGE_SIZE.
Hypothesis Hboot : agrees X' m m' boot_block BLOCK_SIZE.

Lemma boot_ld32 a : 0 ≤ a → a + 4 ≤ BLOCK_SIZE →
  ld32 (X := X') m' (boot_block + a) = ld32 m (boot_block + a).
Proof. intros. apply (agrees_ld32 X' m m' boot_block BLOCK_SIZE); (done || lia). Qed.

Lemma stable_stats :
  num_dir_entries (X := X') m' = num_dir_entries m ∧ num_inodes (X := X') m' = num_inodes m ∧
  num_data_blocks (X := X') m' = num_data_blocks m.
Proof.
  unfold num_dir_entries, num_inodes, num_data_blocks.
  pose proof (boot_ld32 0) as H0. rewrite Z.add_0_r in H0.
  rewrite H0, !boot_ld32 by (unfold BLOCK_SIZE; lia). done.
Qed.

Hypothesis Hok : fs_ok m g.

Lemma stable_ok : fs_ok (X := X') m' g.
Proof.
  destruct Hok. destruct stable_stats as (_ & E1 & E2).
  constructor; try done; by rewrite ?E1, ?E2.
Qed.

Context (ino : Z).
Hypothesis Hino : 0 ≤ ino < num_inodes m.

Lemma stable_inode_ld32 a : 0 ≤ a → a + 4 ≤ BLOCK_SIZE →
  ld32 (X := X') m' (inode_addr g ino + a) = ld32 m (inode_addr g ino + a).
Proof.
  intros. rewrite (inode_addr_eq m g ino) by done.
  pose proof (num_data_blocks_nonneg m). destruct Hok.
  apply (agrees_ld32 X' m m' fs_blocks IMAGE_SIZE); [done..| |];
    unfold IMAGE_SIZE, TOTAL_BLOCK, BLOCK_SIZE in *; lia.
Qed.

Lemma stable_length : file_length (X := X') m' g ino = file_length m g ino.
Proof.
  unfold file_length, inode_length.
  pose proof (stable_inode_ld32 0) as H0. rewrite Z.add_0_r in H0.
  apply H0; unfold BLOCK_SIZE; lia.
Qed.

Lemma stable_inodes j : 0 ≤ j < 1023 →
  inodes (X := X') m' (inode_addr g ino) j = inodes m (inode_addr g ino) j.
Proof.
  intros. unfold inodes. rewrite <- Z.add_assoc.
  apply stable_inode_ld32; unfold BLOCK_SIZE; lia.
Qed.

Lemma stable_block j : 0 ≤ j < 1023 → block_valid m g ino j → block_valid (X := X') m' g ino j.
Proof.
  intros. unfold block_valid. rewrite stable_inodes by done.
  by destruct stable_stats as (_ & _ & ->).
Qed.

Lemma stable_byte k :
  0 ≤ k / BLOCK_SIZE < 1023 → block_valid m g ino (k / BLOCK_SIZE) →
  file_byte (X := X') m' g ino k = file_byte m g ino k.
Proof.
  intros Hk Hv. unfold file_byte.
  assert (data_blk_ptr (X := X') m' g (inode_addr g ino) (k / BLOCK_SIZE) =
          data_blk_ptr m g (inode_addr g ino) (k / BLOCK_SIZE)) as ->.
  { unfold data_blk_ptr. by rewrite stable_inodes. }
  destruct (data_blk_ptr_eq m g ino _ Hok Hv) as [-> Hnn].
  unfold block_valid in Hv. pose proof (num_inodes_nonneg m).
  pose proof (Z.mod_pos_bound k BLOCK_SIZE ltac:(unfold BLOCK_SIZE; lia)).
  destruct Hok. apply Himg.
  unfold IMAGE_SIZE, TOTAL_BLOCK, BLOCK_SIZE in *. lia.
Qed.
End stable.

(** ** Reading a file to its end *)

Lemma file_slice_app m g ino o a b :
  0 ≤ a → 0 ≤ b →
  file_slice m g ino o (a + b) = file_slice m g ino o a ++ file_slice m g ino (o + a) b.
Proof.
  intros. unfold file_slice. rewrite seqZ_app, fmap_app by lia. f_equal.
  replace (0 + a) with (a + 0) by lia. rewrite <- (fmap_add_seqZ a 0 b), <- list_fmap_compose. apply list_fmap_ext.
  intros i x _. simpl. f_equal. lia.
Qed.

Lemma file_read_chunk m g fp buf c :
  fs_ok m g → readable m g (inode fp) → 0 < c < 2147483648 →
  0 ≤ file_pos fp ≤ file_length m g (inode fp) →
  uniq_range buf c → image_sep buf c → sep_range buf c boot_block BLOCK_SIZE →
  let n := Z.min c (file_length m g (inode fp) - file_pos fp) in
  ∃ m', file_read m g fp buf c = (n, set_file_pos (file_pos fp + n) fp, m') ∧
    load_bytes m' buf n = file_slice m g (inode fp) (file_pos fp) n ∧
    unch (in_range buf c) m m'.
Proof.
  intros Hok [Hi1 Hi2 Hsm Hv] Hc Hpos Hu Himg Hb n.
  assert (file_length m g (inode fp) < 63 * BLOCK_SIZE) as Hfl.
  { pose proof (Z.div_mod (file_length m g (inode fp)) BLOCK_SIZE ltac:(unfold BLOCK_SIZE; lia)).
    pose proof (Z.mod_pos_bound (file_length m g (inode fp)) BLOCK_SIZE
      ltac:(unfold BLOCK_SIZE; lia)). unfold BLOCK_SIZE in *. lia. }
  unfold file_read. destruct (decide (file_pos fp = file_length m g (inode fp))) as [E|Hne].
  - assert (n = 0) as -> by (unfold n; lia).
    unfold read_data, MAX_FILES. fold (file_length m g (inode fp)).
    destruct (Z.leb_spec 63 (inode fp)); [lia|]. destruct (Z.ltb_spec (inode fp) 0); [lia|].
    simpl. destruct (Z.leb_spec (file_length m g (inode fp)) (file_pos fp)); [|lia].
    simpl. change (u32 0) with 0. rewrite Z.add_0_r, (u32_small (file_pos fp))
      by (unfold BLOCK_SIZE in *; lia).
    exists m. split_and!; [done|done|apply unch_refl].
  - destruct (read_data_ok m g (inode fp) (file_pos fp) buf c) as (m' & -> & Hw);
      try done; try lia.
    + unfold BLOCK_SIZE in *. lia.
    + unfold read_count. eapply Z.le_lt_trans; [|exact Hsm].
      apply Z.div_le_mono; unfold BLOCK_SIZE; lia.
    + intros j Hj. apply Hv. split.
      * etrans; [|apply Hj]. apply Z.div_pos; unfold BLOCK_SIZE; lia.
      * etrans; [apply Hj|]. unfold read_count. apply Z.div_le_mono; unfold BLOCK_SIZE; lia.
    + eapply uniq_range_mono; [done|unfold read_count; lia].
    + eapply sep_range_mono; [exact Himg|unfold read_count; lia|lia].
    + fold n in Hw |- *. change (read_count m g (inode fp) (file_pos fp) c) with n in *.
      assert (0 < n < 2147483648) by (unfold n; lia).
      rewrite u32_small by lia. change (u32 (-1)) with 4294967295.
      destruct (Z.eqb_spec n 4294967295); [lia|]. simpl.
      rewrite s32_small, u32_small by (unfold n, BLOCK_SIZE in *; lia).
      exists m'. split_and!; [done|by apply written_load_bytes in Hw|].
      eapply unch_mono; [|apply Hw]. intros p. apply in_range_mono. unfold n. lia.
Qed.

(** A readable file and its contents are the same wherever its bytes are. *)
Lemma readable_agrees X' m m' g ino :
  agrees X' m m' fs_blocks IMAGE_SIZE → agrees X' m m' boot_block BLOCK_SIZE →
  fs_ok m g → readable m g ino →
  readable (X := X') m' g ino ∧ file_length (X := X') m' g ino = file_length m g ino ∧
  ∀ o n, 0 ≤ o → o + n ≤ file_length m g ino →
    file_slice (X := X') m' g ino o n = file_slice m g ino o n.
Proof.
  intros Hi Hb Hok [Hi1 Hi2 Hsm Hv].
  pose proof (stable_stats X' m m' Hb) as (_ & En & _).
  pose proof (stable_length X' m m' g Hi Hok ino ltac:(lia)) as El.
  split_and!; [|done|].
  - constructor; rewrite ?El, ?En; try done. intros j Hj.
    apply (stable_block X' m m' g); (done || lia || by apply Hv).
  - intros o n Ho Hn. apply list_fmap_ext. intros i x Hx%lookup_seqZ.
    assert (0 ≤ (o + x) / BLOCK_SIZE ≤ file_length m g ino / BLOCK_SIZE).
    { split; [apply Z.div_pos|apply Z.div_le_mono]; unfold BLOCK_SIZE; lia. }
    apply (stable_byte X' m m' g); (done || lia || by apply Hv).
Qed.

(** In particular after writes elsewhere. *)
Lemma readable_spared P m m' g ino :
  unch P m m' → spares P fs_blocks IMAGE_SIZE → spares P boot_block BLOCK_SIZE →
  fs_ok m g → readable m g ino →
  readable m' g ino ∧ file_length m' g ino = file_length m g ino ∧
  ∀ o n, 0 ≤ o → o + n ≤ file_length m g ino →
    file_slice m' g ino o n = file_slice m g ino o n.
Proof. intros U Hi Hb. apply readable_agrees; by eapply spares_agrees. Qed.

Lemma read_to_end_from fuel m g fp buf c :
  fs_ok m g → readable m g (inode fp) → 0 < c < 2147483648 →
  0 ≤ file_pos fp ≤ file_length m g (inode fp) →
  uniq_range buf c → image_sep buf c → sep_range buf c boot_block BLOCK_SIZE →
  file_length m g (inode fp) - file_pos fp ≤ c * (Z.of_nat fuel - 1) →
  ∃ m', read_to_end fuel m g fp buf c =
      Some (file_slice m g (inode fp) (file_pos fp)
              (file_length m g (inode fp) - file_pos fp),
            set_file_pos (file_length m g (inode fp)) fp, m') ∧
    unch (in_range buf c) m m'.
Proof.
  revert m fp. induction fuel as [|fuel IH];
    intros m fp Hok Hrd Hc Hpos Hu Himg Hb Hfuel; [nia|].
  pose proof (file_read_chunk m g fp buf c Hok Hrd Hc Hpos Hu Himg Hb) as Hch.
  cbv zeta in Hch. set (L := file_length m g (inode fp)) in *.
  set (n := Z.min c (L - file_pos fp)) in *.
  destruct Hch as (m1 & E & Hdata & Hun). simpl. rewrite E.
  destruct (Z.eqb_spec n 0) as [Hn|Hn].
  - exists m1. assert (L = file_pos fp) as -> by lia.
    rewrite Hn, Z.add_0_r, Z.sub_diag. by split.
  - destruct (Z.eqb_spec n (-1)); [lia|].
    pose proof (spares_agrees _ _ _ _ _ Hun (sep_spares _ _ _ _ Hb)) as Ab.
    pose proof (spares_agrees _ _ _ _ _ Hun (image_spares _ _ Himg)) as Ai.
    pose proof (stable_stats _ m m1 Ab) as (_ & En & Ed).
    pose proof (stable_length _ m m1 g Ai Hok (inode fp)) as El.
    destruct Hrd as [Hi1 Hi2 Hsm Hv]. fold L in Hsm, Hv. specialize (El ltac:(lia)).
    destruct (IH m1 (set_file_pos (file_pos fp + n) fp)) as (m2 & E2 & Hun2);
      simpl; rewrite ?El; fold L; try done; try lia.
    + by apply (stable_ok X m m1 g).
    + constructor; rewrite ?El, ?En; try done. intros j Hj.
      fold L in Hj. apply (stable_block X m m1 g);
        (done || lia || (by apply Hv) || by apply sep_spares).
    + assert (1 ≤ Z.of_nat fuel) by nia. unfold n in *. nia.
    + simpl in E2. rewrite E2, El. fold L. exists m2. split; [|by eapply unch_trans].
      do 3 f_equal. rewrite Hdata.
      replace (L - file_pos fp) with (n + (L - (file_pos fp + n))) by lia.
      rewrite file_slice_app by lia. f_equal.
      apply list_fmap_ext. intros i x Hx%lookup_seqZ.
      assert (0 ≤ (file_pos fp + n + x) / BLOCK_SIZE ≤ L / BLOCK_SIZE).
      { split; [apply Z.div_pos; unfold BLOCK_SIZE; lia|].
        apply Z.div_le_mono; unfold BLOCK_SIZE; lia. }
      apply (stable_byte X m m1 g);
        (done || lia || (by apply Hv) || by apply sep_spares).
Qed.

(** ** Properties *)

(** C30: on a well-formed image, [read_data] delivers exactly the slice of the file
    it is asked for, cut at the end of the file, returns its size, and changes
    no cell outside the buffer.  The blocks met, including the one the end
    position falls in, must have valid numbers and indices below 63. *)
Theorem read_data_slice m g ino offset buf length :
  fs_ok m g → 0 ≤ ino < 63 → ino < num_inodes m →
  0 ≤ offset < file_length m g ino → 0 ≤ length → offset + length < 4294967296 →
  (offset + read_count m g ino offset length) / BLOCK_SIZE < 63 →
  (∀ j, offset / BLOCK_SIZE ≤ j ≤ (offset + read_count m g ino offset length) / BLOCK_SIZE →
        block_valid m g ino j) →
  uniq_range buf (read_count m g ino offset length) →
  image_sep buf (read_count m g ino offset length) →
  ∃ m', read_data m g ino offset buf length = (read_count m g ino offset length, m') ∧
    load_bytes m' buf (read_count m g ino offset length)
      = file_slice m g ino offset (read_count m g ino offset length) ∧
    unch (in_range buf (read_count m g ino offset length)) m m'.
Proof.
  intros. destruct (read_data_ok m g ino offset buf length) as (m' & E & Hw); try done.
  exists m'. split_and!; [done| |apply Hw]. by apply written_load_bytes in Hw.
Qed.

(** When the 32-bit sum does not wrap, [read_data] answers 0 exactly at or
    past the end of the file (or for an empty request) and -1 exactly for an
    inode number out of range, a block index of 63 or more, or an invalid block
    number; in all these cases except the empty request memory is untouched. *)
Theorem read_data_errors m g ino offset buf length :
  0 ≤ ino → 0 ≤ offset → 0 ≤ length → offset + length < 4294967296 →
  let en := offset + read_count m g ino offset length in
  let '(r, m') := read_data m g ino offset buf length in
  (r = -1 ↔ 63 ≤ ino ∨
     offset < file_length m g ino ∧
     (63 ≤ en / BLOCK_SIZE ∨
      ∃ j, offset / BLOCK_SIZE ≤ j ≤ en / BLOCK_SIZE ∧ ¬ block_valid m g ino j)) ∧
  (r = 0 ↔ ino < 63 ∧
     (file_length m g ino ≤ offset ∨ length = 0 ∧ r ≠ -1)) ∧
  ((r = -1 ∨ file_length m g ino ≤ offset) → m' = m).
Proof.
  intros Hino Hoff Hlen Hover en.
  assert (0 ≤ file_length m g ino) by apply ld32_bound.
  destruct (read_data m g ino offset buf length) as [r m'] eqn:E. revert E.
  unfold read_data, MAX_FILES. fold (file_length m g ino).
  destruct (Z.leb_spec 63 ino); [intros [= <- <-]; split_and!; (done || lia)|].
  destruct (Z.ltb_spec ino 0); [lia|]. simpl.
  destruct (Z.leb_spec (file_length m g ino) offset);
    [intros [= <- <-]; split_and!; (done || lia)|].
  destruct (Z.ltb_spec offset 0); [lia|]. simpl. rewrite read_end_eq.
  assert (read_end m g ino offset length = en) as ->.
  { unfold en, read_end, read_count. rewrite u32_small by lia. lia. }
  assert (0 ≤ en - offset) by (unfold en, read_count; lia).
  assert (offset / BLOCK_SIZE ≤ en / BLOCK_SIZE)
    by (apply Z.div_le_mono; unfold BLOCK_SIZE; lia).
  destruct (Z.leb_spec 63 (offset / BLOCK_SIZE));
    [intros [= <- <-]; split_and!; (done || lia)|].
  destruct (Z.leb_spec 63 (en / BLOCK_SIZE));
    [intros [= <- <-]; split_and!; (done || lia)|].
  destruct (find_up _ _ _) as [j|] eqn:Ef.
  - intros [= <- <-]. apply find_up_Some in Ef as (Hj & Hb & _). apply Z.leb_le in Hb.
    split_and!; [|lia|done]. split; [|done]. intros _. right. split; [lia|]. right.
    exists j. unfold block_valid. lia.
  - rewrite find_up_None in Ef. intros [= <- <-].
    assert (en < 63 * BLOCK_SIZE).
    { pose proof (Z.div_mod en BLOCK_SIZE ltac:(unfold BLOCK_SIZE; lia)).
      pose proof (Z.mod_pos_bound en BLOCK_SIZE ltac:(unfold BLOCK_SIZE; lia)).
      unfold BLOCK_SIZE in *. lia. }
    rewrite u32_small, s32_small by (unfold BLOCK_SIZE in *; lia).
    unfold en, read_count in *. split_and!; [|lia|lia]. split; [lia|].
    intros [?|(_ & [?|(j & Hj & Hv)])]; [lia|lia|].
    exfalso. specialize (Ef j ltac:(lia)). apply Z.leb_gt in Ef. by apply Hv.
Qed.

(** The abstract directory: the first entry with a given name. *)
Definition lookup_name (m : mem) (l : list Z) : option Z :=
  find_up (λ i, bool_decide (entry_name m i = l)) 0 (num_dir_entries m).

(** [read_dentry_by_name] in terms of the abstract directory. *)
Lemma read_dentry_by_name_ok m fname d l :
  cstring m fname l → Z.of_nat (length l) < 4294967296 →
  uniq_range d 64 → sep_range d 64 boot_block (64 + 64 * num_dir_entries m) →
  match (if decide (length l ≤ 32)%nat then lookup_name m l else None) with
  | None => read_dentry_by_name m fname d = Some (-1, m)
  | Some i => ∃ m', read_dentry_by_name m fname d = Some (0, m') ∧ dentry_read m i d m'
  end.
Proof.
  intros Hl Hlen Hu Hs. unfold read_dentry_by_name. rewrite (strlen_cstring m fname l) by done.
  destruct (decide (length l ≤ 32)%nat) as [Hle|Hgt]; [|case_test; [done|lia]].
  destruct (Z.ltb_spec 32 (Z.of_nat (length l))); [lia|].
  assert (∀ i, (strncmp m (files i) fname FILENAME_MAX_CHAR =? 0)
               = bool_decide (entry_name m i = l)) as Htest.
  { intros i. apply eq_bool_prop_intro. rewrite bool_decide_spec, Is_true_true, Z.eqb_eq.
    by apply strncmp_entry. }
  unfold lookup_name. rewrite (find_up_ext _ _ 0 (num_dir_entries m) Htest).
  destruct (find_up _ 0 _) as [i|] eqn:E; [|done].
  apply find_up_Some in E as (Hi & _ & _).
  destruct (read_dentry_by_index_ok m i d Hi Hu) as (m' & -> & Hd); [|by exists m'].
  unfold files. rewrite <- Z.add_assoc, <- (Z.add_0_r d).
  eapply sep_sub; [exact Hs|lia..].
Qed.

(** C32: [read_dentry_by_name] implements the lookup in the abstract directory: it
    fails without touching memory on a name longer than 32 characters or absent
    from the directory, and otherwise fills the [dentry_t] with the first entry of
    that name. *)
Theorem read_dentry_by_name_lookup m fname d l :
  cstring m fname l → Z.of_nat (length l) < 4294967296 →
  uniq_range d 64 → sep_range d 64 boot_block (64 + 64 * num_dir_entries m) →
  match (if decide (length l ≤ 32)%nat then lookup_name m l else None) with
  | None => read_dentry_by_name m fname d = Some (-1, m)
  | Some i => ∃ m', read_dentry_by_name m fname d = Some (0, m') ∧ dentry_read m i d m'
  end.
Proof. apply read_dentry_by_name_ok. Qed.

(** Reading a directory delivers its entries one by one: the call at position
    [i] stores the NUL-terminated name of entry [i], returns its length, moves
    to position [i+1], and touches only the 33 bytes of the buffer and its own
    local; past the last entry it answers 0. *)
Theorem dir_read_entry m fp buf length d :
  0 ≤ file_pos fp < 4294967295 →
  uniq_range d 64 → sep_range d 64 boot_block (64 + 64 * num_dir_entries m) →
  uniq_range buf 33 → sep_range buf 33 d 64 →
  if file_pos fp <? num_dir_entries m
  then ∃ m', dir_read m fp buf length d =
         (Z.of_nat (base.length (entry_name m (file_pos fp))),
          set_file_pos (file_pos fp + 1) fp, m') ∧
       cstring m' buf (entry_name m (file_pos fp)) ∧
       unch (λ p, in_range buf 33 p ∨ in_range d 64 p) m m'
  else dir_read m fp buf length d = (0, fp, m).
Proof.
  intros Hp Hud Hsd Hub Hsb. case_test.
  - rewrite <- (u32_small (file_pos fp + 1)) by lia.
    apply dir_read_ok; try done; [lia|].
    unfold files. rewrite <- Z.add_assoc, <- (Z.add_0_r d).
    eapply sep_sub; [exact Hsd|lia..].
  - unfold dir_read. destruct (Z.leb_spec (num_dir_entries m) (file_pos fp)); [done|lia].
Qed.

(** C31: reading a file from its start in chunks of any size until a call answers 0
    delivers the whole file, in order and without a gap; a number of calls of one
    more than [length / c] (rounded up) is enough.  Only the buffer changes. *)
Theorem read_to_end_whole_file fuel m g fp buf c :
  fs_ok m g → readable m g (inode fp) → 0 < c < 2147483648 → file_pos fp = 0 →
  uniq_range buf c → image_sep buf c → sep_range buf c boot_block BLOCK_SIZE →
  file_length m g (inode fp) ≤ c * (Z.of_nat fuel - 1) →
  ∃ fp' m', read_to_end fuel m g fp buf c =
      Some (file_slice m g (inode fp) 0 (file_length m g (inode fp)), fp', m') ∧
    file_pos fp' = file_length m g (inode fp) ∧ unch (in_range buf c) m m'.
Proof.
  intros Hok Hrd Hc H0 Hu Himg Hb Hf.
  assert (0 ≤ file_length m g (inode fp)) by apply ld32_bound.
  destruct (read_to_end_from fuel m g fp buf c) as (m' & E & Hun); try done; try lia.
  rewrite H0, Z.sub_0_r in E. by eexists _, m'.
Qed.

Lemma fs_init_ok m boot_info :
  let mod_start := ld32 m (ld32 m (boot_info + 24)) in
  0 ≤ fs_blocks → fs_blocks + IMAGE_SIZE < 4294967296 →
  uniq_range fs_blocks IMAGE_SIZE → uniq_range boot_block BLOCK_SIZE →
  sep_range fs_blocks IMAGE_SIZE mod_start IMAGE_SIZE →
  sep_range boot_block BLOCK_SIZE fs_blocks IMAGE_SIZE →
  1 + ld32 m (mod_start + 4) + ld32 m (mod_start + 8) ≤ TOTAL_BLOCK →
  let '(g, m') := fs_init m boot_info in
  fs_ok m' g ∧
  (∀ i, 0 ≤ i < IMAGE_SIZE → ld8 m' (fs_blocks + i) = ld8 m (mod_start + i)) ∧
  (∀ i, 0 ≤ i < BLOCK_SIZE → ld8 m' (boot_block + i) = ld8 m (mod_start + i)).
Proof.
  intros ms Hl Hh Hu1 Hu2 Hs1 Hs2 Hfit. unfold fs_init. fold ms. fold IMAGE_SIZE.
  pose proof (memcpy_written m fs_blocks ms IMAGE_SIZE
    ltac:(unfold IMAGE_SIZE, BLOCK_SIZE, TOTAL_BLOCK; lia) Hu1 Hs1) as W1.
  set (m1 := memcpy m _ _ _) in *.
  pose proof (memcpy_written m1 boot_block fs_blocks BLOCK_SIZE
    ltac:(unfold BLOCK_SIZE; lia) Hu2
    ltac:(eapply sep_range_mono; [exact Hs2|unfold IMAGE_SIZE, TOTAL_BLOCK, BLOCK_SIZE; lia..]))
    as W2.
  set (m2 := memcpy m1 _ _ _) in *.
  assert (∀ i, 0 ≤ i < IMAGE_SIZE → ld8 m2 (fs_blocks + i) = ld8 m (ms + i)) as Himg.
  { intros i Hi. destruct W1 as [W1 _]. rewrite <- W1 by done.
    destruct W2 as [_ U]. by eapply unch_ld8_sep. }
  assert (∀ i, 0 ≤ i < BLOCK_SIZE → ld8 m2 (boot_block + i) = ld8 m (ms + i)) as Hboot.
  { intros i Hi. destruct W1 as [W1 _]. destruct W2 as [W2 _].
    rewrite W2 by done. apply W1. unfold IMAGE_SIZE, TOTAL_BLOCK, BLOCK_SIZE in *. lia. }
  assert (∀ a, 0 ≤ a → a + 4 ≤ BLOCK_SIZE → ld32 m2 (boot_block + a) = ld32 m (ms + a)) as H32.
  { intros a ??. unfold ld32. by rewrite <- !Z.add_assoc, !Hboot by lia. }
  split_and!; [|done|done].
  pose proof (num_inodes_nonneg m2). pose proof (num_data_blocks_nonneg m2).
  assert (num_inodes m2 = ld32 m (ms + 4)) as E4 by (apply H32; unfold BLOCK_SIZE; lia).
  assert (num_data_blocks m2 = ld32 m (ms + 8)) as E8 by (apply H32; unfold BLOCK_SIZE; lia).
  unfold IMAGE_SIZE, TOTAL_BLOCK, BLOCK_SIZE in *.
  rewrite (u32_small (fs_blocks + 1024 * 4)) by lia.
  rewrite (u32_small (fs_blocks + 1024 * 4 + 1024 * 4 * num_inodes m2)) by lia.
  constructor; unfold IMAGE_SIZE, TOTAL_BLOCK, BLOCK_SIZE; simpl; lia.
Qed.

(** C33: [fs_init] copies the module to [fs_blocks] and its first block to
    [boot_block], and computes the address variables so that the file system is
    well-formed whenever the counts of the image's own boot block fit in 124
    blocks. *)
Theorem fs_init_establishes m boot_info :
  let mod_start := ld32 m (ld32 m (boot_info + 24)) in
  0 ≤ fs_blocks → fs_blocks + IMAGE_SIZE < 4294967296 →
  uniq_range fs_blocks IMAGE_SIZE → uniq_range boot_block BLOCK_SIZE →
  sep_range fs_blocks IMAGE_SIZE mod_start IMAGE_SIZE →
  sep_range boot_block BLOCK_SIZE fs_blocks IMAGE_SIZE →
  1 + ld32 m (mod_start + 4) + ld32 m (mod_start + 8) ≤ TOTAL_BLOCK →
  let '(g, m') := fs_init m boot_info in
  fs_ok m' g ∧
  (∀ i, 0 ≤ i < IMAGE_SIZE → ld8 m' (fs_blocks + i) = ld8 m (mod_start + i)) ∧
  (∀ i, 0 ≤ i < BLOCK_SIZE → ld8 m' (boot_block + i) = ld8 m (mod_start + i)).
Proof. apply fs_init_ok. Qed.

(** A negative byte count from user space is taken as a huge unsigned length
    whose sum with a non-zero file position wraps: reading -1 bytes at position 1 of
    a non-empty file makes [read_data] copy 4294967295 bytes over the buffer,
    whatever the size of the file, and answer -1. *)
Theorem read_data_negative_count m g ino buf :
  0 ≤ ino < 63 → 1 < file_length m g ino → block_valid m g ino 0 →
  read_data m g ino 1 buf (u32 (-1)) =
    (-1, memcpy m buf (data_blk_ptr m g (inode_addr g ino) 0 + 1) 4294967295).
Proof.
  intros Hino Hlen Hv. unfold read_data, MAX_FILES. fold (file_length m g ino).
  destruct (Z.leb_spec 63 ino); [lia|]. destruct (Z.ltb_spec ino 0); [lia|]. simpl.
  destruct (Z.leb_spec (file_length m g ino) 1); [lia|]. simpl.
  change (u32 (1 + u32 (-1))) with 0.
  destruct (Z.leb_spec (file_length m g ino) 0); [lia|].
  change (1 / BLOCK_SIZE) with 0. change (0 / BLOCK_SIZE) with 0.
  rewrite (proj2 (find_up_None _ _ _)).
  - change (63 <=? 0) with false. reflexivity.
  - intros j Hj. replace j with 0 by lia. apply Z.leb_gt. exact Hv.
Qed.

(** A file that fills its last block exactly cannot be read to its end unless
    the block number after its last one, which belongs to no byte of the file, is
    valid as well: the validity check runs one entry too far. *)
Theorem read_data_exact_block m g ino offset length k buf :
  0 ≤ ino < 63 → file_length m g ino = BLOCK_SIZE * k → k < 63 →
  0 ≤ offset < file_length m g ino → offset + length < 4294967296 →
  file_length m g ino ≤ offset + length → ¬ block_valid m g ino k →
  read_data m g ino offset buf length = (-1, m).
Proof.
  intros Hino Hk Hk63 Hoff Hover Hend Hbad. unfold read_data, MAX_FILES.
  fold (file_length m g ino).
  destruct (Z.leb_spec 63 ino); [lia|]. destruct (Z.ltb_spec ino 0); [lia|]. simpl.
  destruct (Z.leb_spec (file_length m g ino) offset); [lia|].
  destruct (Z.ltb_spec offset 0); [lia|]. simpl. rewrite u32_small by lia.
  destruct (Z.leb_spec (file_length m g ino) (offset + length)); [|lia].
  rewrite Hk, (Z.mul_comm BLOCK_SIZE k), Z.div_mul by (unfold BLOCK_SIZE; lia).
  assert (offset / BLOCK_SIZE < k) by (apply Z.div_lt_upper_bound; unfold BLOCK_SIZE in *; lia).
  destruct (Z.leb_spec 63 (offset / BLOCK_SIZE)); [lia|].
  destruct (Z.leb_spec 63 k); [lia|].
  destruct (find_up _ _ _) eqn:E; [done|]. rewrite find_up_None in E.
  exfalso. apply Hbad. unfold block_valid. apply Z.leb_gt. apply E. lia.
Qed.
End keeps.

(** ** Witnesses

    An image with the directory "." and the file "abc" of inode 1, whose data
    block 1 holds "hello", in the flat address space. *)
Section demo.
#[local] Existing Instance flat.
Local Instance demo_layout : FsLayout := {| fs_blocks := 4194304; boot_block := 5242880 |}.

Definition demo_vars : fs_vars := FsVars (4194304 + 4096) (4194304 + 3 * 4096).

Definition demo_words : list (Z * Z) :=
  [ (5242880, 2); (5242884, 2); (5242888, 2);
    (5242880 + 64, 46); (5242880 + 96, 1); (5242880 + 100, 0);
    (5242880 + 128, 97 + 256 * 98 + 65536 * 99); (5242880 + 160, 2); (5242880 + 164, 1);
    (4194304 + 2 * 4096, 5); (4194304 + 2 * 4096 + 4, 1);
    (4194304 + 4 * 4096, 104 + 256 * 101 + 65536 * 108 + 16777216 * 108);
    (4194304 + 4 * 4096 + 4, 111);
    (100, 97 + 256 * 98 + 65536 * 99);
    (256 + 24, 512); (512, 6291456); (6291460, 2); (6291464, 2) ].

Definition demo_image : mem := foldl (λ m '(a, v), st32 m a v) ∅ demo_words.

(** A user program's file descriptor of "abc". *)
Definition demo_fd : file_entry := FileEntry regular_file_ops 1 0 IN_USE.

(** Facts about the demo image are decided by computation. *)
Ltac demo_done :=
  match goal with
  | |- uniq_range _ _ => apply flat_uniq; vm_compute; intuition discriminate
  | |- sep_range _ _ _ _ => apply flat_sep; vm_compute; intuition discriminate
  | |- image_sep _ _ => apply flat_sep; vm_compute; intuition discriminate
  | |- _ => vm_compute; intuition discriminate
  end.

Lemma demo_fs_ok : fs_ok demo_image demo_vars.
Proof. constructor; demo_done. Qed.

Lemma demo_block_valid : block_valid demo_image demo_vars 1 0.
Proof. demo_done. Qed.

Lemma demo_readable : readable demo_image demo_vars 1.
Proof.
  constructor; [demo_done..|]. intros j Hj.
  assert (file_length demo_image demo_vars 1 / BLOCK_SIZE = 0) as E by (vm_compute; done).
  replace j with 0 by lia. apply demo_block_valid.
Qed.

Lemma read_data_slice_witness :
  ∃ m', read_data demo_image demo_vars 1 1 1000 3 = (3, m') ∧
    load_bytes m' 1000 3 = [101; 108; 108].
Proof.
  destruct (read_data_slice demo_image demo_vars 1 1 1000 3) as (m' & E & El & _);
    [exact demo_fs_ok|demo_done..| |demo_done|demo_done|].
  - intros j Hj. replace j with 0; [exact demo_block_valid|].
    vm_compute in Hj. destruct j; intuition discriminate.
  - exists m'. split; [exact E|]. etransitivity; [exact El|vm_compute; reflexivity].
Defined.

Lemma read_data_errors_witness :
  (read_data demo_image demo_vars 63 0 1000 3).1 = -1.
Proof.
  pose proof (read_data_errors demo_image demo_vars 63 0 1000 3
    ltac:(lia) ltac:(lia) ltac:(lia) ltac:(lia)) as H.
  cbv zeta in H. destruct (read_data demo_image demo_vars 63 0 1000 3) as [r m'].
  apply H. left. lia.
Defined.

Lemma read_dentry_by_name_lookup_witness :
  ∃ m', read_dentry_by_name demo_image 100 2000 = Some (0, m') ∧
    dentry_read demo_image 1 2000 m'.
Proof.
  assert (lookup_name demo_image [97; 98; 99] = Some 1) as E by (vm_compute; reflexivity).
  pose proof (read_dentry_by_name_lookup demo_image 100 2000 [97; 98; 99]) as H.
  rewrite decide_True, E in H by (simpl; lia).
  apply H; [|demo_done..]. split; [|reflexivity].
  intros [|[|[|i]]] x Hx; [injection Hx as <-; split; [reflexivity|discriminate]..|discriminate].
Defined.

Lemma dir_read_entry_witness :
  ∃ m', dir_read demo_image demo_fd 1000 32 2000 = (1, set_file_pos 1 demo_fd, m') ∧
    cstring m' 1000 [46].
Proof.
  pose proof (dir_read_entry demo_image demo_fd 1000 32 2000) as H.
  replace (file_pos demo_fd <? num_dir_entries demo_image) with true in H
    by (vm_compute; reflexivity).
  assert (entry_name demo_image (file_pos demo_fd) = [46]) as En
    by (vm_compute; reflexivity).
  rewrite En in H. destruct H as (m' & E & Hc & _); [demo_done..|].
  exists m'. exact (conj E Hc).
Defined.

Lemma read_to_end_whole_file_witness :
  ∃ fp' m', read_to_end 4 demo_image demo_vars demo_fd 1000 2 =
    Some ([104; 101; 108; 108; 111], fp', m').
Proof.
  destruct (read_to_end_whole_file 4 demo_image demo_vars demo_fd 1000 2)
    as (fp' & m' & E & _); [exact demo_fs_ok|exact demo_readable|demo_done..|].
  exists fp', m'. exact E.
Defined.

Lemma fs_init_establishes_witness :
  let '(g, m') := fs_init demo_image 256 in fs_ok m' g.
Proof.
  pose proof (fs_init_establishes demo_image 256) as H. cbv zeta in H.
  destruct (fs_init demo_image 256) as [g m'].
  apply H; demo_done.
Defined.

Lemma read_data_negative_count_witness :
  (read_data demo_image demo_vars 1 1 1000 (u32 (-1))).1 = -1.
Proof.
  rewrite (read_data_negative_count demo_image demo_vars 1 1000);
    [reflexivity|demo_done|demo_done|exact demo_block_valid].
Defined.

(** The same image with the length of "abc" set to one full block and its next
    block number out of range. *)
Definition demo_full : mem :=
  st32 (st32 demo_image (4194304 + 2 * 4096) 4096) (4194304 + 2 * 4096 + 8) 77.

Lemma read_data_exact_block_witness :
  read_data demo_full demo_vars 1 4000 1000 96 = (-1, demo_full).
Proof.
  apply (read_data_exact_block demo_full demo_vars 1 4000 96 1 1000); demo_done.
Defined.
End demo.
