(* ===== verification/Paging.v ===== *)
(** * Paging (paging.h, paging.c, the control-register helpers of lib.c, and
      [setup_paging_and_flush_tlb] of syscall_handler.c)

    The page directory holds 32-bit words, because its entries are a union of two
    structures; the two page tables hold [page_table_entry] records.  A bit-field
    structure is laid out from bit 0 by [pack]; the processor reads the word back
    with [fld].

    [mmu] is the part of the processor the code drives: the three tables in
    memory, the control registers, and [tlb], the copy of the tables that
    translations use.  The copy is renewed by a write to CR3 only, so a table
    change that is not followed by a flush is not in force.  CR4.PGE stays clear, so
    the flush also drops pages marked global. *)

From S2P Require Import Prelude Mem.

(** ** Bit-field structures *)

(** Fields from bit 0 up, each with its width; storing truncates to the width. *)
Fixpoint pack (l : list (Z * Z)) : Z :=
  match l with
  | [] => 0
  | (w, v) :: l => bits w v + 2 ^ w * pack l
  end.

(** The field of width [w] at bit [lo] of a word. *)
Definition fld (lo w word : Z) : Z := bits w (word / 2 ^ lo).

Lemma fld_pack_here w v l : 0 ≤ w → fld 0 w (pack ((w, v) :: l)) = bits w v.
Proof.
  intros Hw. unfold fld. simpl. rewrite Z.pow_0_r, Z.div_1_r. unfold bits.
  rewrite Z.mul_comm, Z.mod_add, Z.mod_mod by (apply Z.pow_nonzero; lia). done.
Qed.

Lemma fld_pack_skip w v l lo w' :
  0 ≤ w ≤ lo → fld lo w' (pack ((w, v) :: l)) = fld (lo - w) w' (pack l).
Proof.
  intros Hw. unfold fld. simpl. f_equal.
  replace (2 ^ lo) with (2 ^ w * 2 ^ (lo - w)) by (rewrite <- Z.pow_add_r; [f_equal|..]; lia).
  assert (0 < 2 ^ w) by (apply Z.pow_pos_nonneg; lia).
  rewrite <- Z.div_div, (Z.mul_comm (2 ^ w) (pack l)), Z.div_add;
    [|lia..|apply Z.pow_pos_nonneg; lia].
  rewrite (Z.div_small (bits w v)); [done|]. apply bits_bound. lia.
Qed.

Record page_dir_entry_4MB := PDE4MB {
  m_present : Z; m_r_w : Z; m_user_super : Z; m_write_through : Z; m_cache_disable : Z;
  m_accessed : Z; m_dirty : Z; m_pageSize : Z; m_global : Z; m_avail : Z;
  m_pg_attri : Z; m_addr_0 : Z; m_reserved : Z; m_pg_addr : Z;
}.

Definition pde_4MB_word (e : page_dir_entry_4MB) : Z :=
  pack [(1, m_present e); (1, m_r_w e); (1, m_user_super e); (1, m_write_through e);
        (1, m_cache_disable e); (1, m_accessed e); (1, m_dirty e); (1, m_pageSize e);
        (1, m_global e); (3, m_avail e); (1, m_pg_attri e); (8, m_addr_0 e);
        (1, m_reserved e); (10, m_pg_addr e)].

Record page_dir_entry_4KB := PDE4KB {
  k_present : Z; k_r_w : Z; k_user_super : Z; k_write_through : Z; k_cache_disable : Z;
  k_accessed : Z; k_avail0 : Z; k_pageSize : Z; k_avail1 : Z; k_page_table_base : Z;
}.

Definition pde_4KB_word (e : page_dir_entry_4KB) : Z :=
  pack [(1, k_present e); (1, k_r_w e); (1, k_user_super e); (1, k_write_through e);
        (1, k_cache_disable e); (1, k_accessed e); (1, k_avail0 e); (1, k_pageSize e);
        (4, k_avail1 e); (20, k_page_table_base e)].

Record page_table_entry := PTE {
  present : Z; r_w : Z; usr_super : Z; write_through : Z; cache_disable : Z;
  accessed : Z; dirty : Z; pg_attri : Z; global : Z; avail : Z; pg_addr : Z;
}.

Definition pte_word (e : page_table_entry) : Z :=
  pack [(1, present e); (1, r_w e); (1, usr_super e); (1, write_through e);
        (1, cache_disable e); (1, accessed e); (1, dirty e); (1, pg_attri e);
        (1, global e); (3, avail e); (20, pg_addr e)].

(** Assignments to single fields of an entry in a table. *)
Definition set_present (v : Z) (e : page_table_entry) : page_table_entry :=
  PTE v (r_w e) (usr_super e) (write_through e) (cache_disable e) (accessed e) (dirty e)
      (pg_attri e) (global e) (avail e) (pg_addr e).

Definition set_pg_addr (v : Z) (e : page_table_entry) : page_table_entry :=
  PTE (present e) (r_w e) (usr_super e) (write_through e) (cache_disable e) (accessed e)
      (dirty e) (pg_attri e) (global e) (avail e) v.

(** ** State *)

Definition _4K : Z := 4096.
Definition _8K : Z := _4K * 2.
Definition _12K : Z := _4K + _8K.
Definition _4M : Z := _4K * 1024.
Definition NUM_PAGE_TABLE_DESC : Z := 1024.
Definition NUM_PAGE_DESC : Z := 1024.
Definition VIDEO_START : Z := 753664.
Definition KERNEL_START : Z := 4 * 1024 * 1024.

(** The link-time addresses of the three tables. *)
Class PgLayout := {
  page_dir_base : Z;
  usr_page_table_base : Z;
  usrmap_page_table_base : Z;
}.

Record tables := Tables {
  page_dir : gmap Z Z;
  usr_page_table : gmap Z page_table_entry;
  usrmap_page_table : gmap Z page_table_entry;
}.

Record mmu := Mmu {
  live : tables;
  cr0 : Z;
  cr3 : Z;
  cr4 : Z;
  tlb : tables;
}.

Definition set_live (t : tables) (u : mmu) : mmu := Mmu t (cr0 u) (cr3 u) (cr4 u) (tlb u).

(** Uninitialised globals are zero. *)
Definition pte_zero : page_table_entry := PTE 0 0 0 0 0 0 0 0 0 0 0.
Definition no_tables : tables := Tables ∅ ∅ ∅.

Definition get_pde (t : tables) (i : Z) : Z := default 0 (page_dir t !! i).
Definition get_usr (t : tables) (i : Z) : page_table_entry :=
  default pte_zero (usr_page_table t !! i).
Definition get_usrmap (t : tables) (i : Z) : page_table_entry :=
  default pte_zero (usrmap_page_table t !! i).

Definition set_pde (i w : Z) (t : tables) : tables :=
  Tables (<[i := w]> (page_dir t)) (usr_page_table t) (usrmap_page_table t).
Definition set_usr (i : Z) (e : page_table_entry) (t : tables) : tables :=
  Tables (page_dir t) (<[i := e]> (usr_page_table t)) (usrmap_page_table t).
Definition set_usrmap (i : Z) (e : page_table_entry) (t : tables) : tables :=
  Tables (page_dir t) (usr_page_table t) (<[i := e]> (usrmap_page_table t)).

Section paging.
Context {PL : PgLayout}.
Implicit Types (t : tables) (u : mmu).

(** ** The processor *)

(** What a translation answers: the physical address, and whether user code may
    reach it and whether it may be written. *)
Record mapping := Mapping { target : Z; user_ok : bool; write_ok : bool }.

(** The page table a directory entry points to.  The entries written by the code
    point to the two tables; anything else is not memory of the model. *)
Definition table_at (t : tables) (base i : Z) : option page_table_entry :=
  if base =? usr_page_table_base / _4K then Some (get_usr t i)
  else if base =? usrmap_page_table_base / _4K then Some (get_usrmap t i)
  else None.

(** The two-level walk, with 4 MB pages when [pse]; [None] is a page fault. *)
Definition walk (pse : bool) (t : tables) (v : Z) : option mapping :=
  let pde := get_pde t (v / _4M) in
  if fld 0 1 pde =? 0 then None
  else if pse && (fld 7 1 pde =? 1)
  then Some (Mapping (fld 22 10 pde * _4M + v mod _4M) (fld 2 1 pde =? 1) (fld 1 1 pde =? 1))
  else
    match table_at t (fld 12 20 pde) (v / _4K mod 1024) with
    | None => None
    | Some e =>
        let pte := pte_word e in
        if fld 0 1 pte =? 0 then None
        else Some (Mapping (fld 12 20 pte * _4K + v mod _4K)
                     ((fld 2 1 pde =? 1) && (fld 2 1 pte =? 1))
                     ((fld 1 1 pde =? 1) && (fld 1 1 pte =? 1)))
    end.

Definition PG_bit (u : mmu) : bool := fld 31 1 (cr0 u) =? 1.
Definition PSE_bit (u : mmu) : bool := fld 4 1 (cr4 u) =? 1.

(** The translation in force; [None] is a page fault. *)
Definition translate (u : mmu) (v : Z) : option Z :=
  if PG_bit u then target <$> walk (PSE_bit u) (tlb u) v else Some v.

(** As an [Xlat].  An access that faults never reaches memory: it is given a cell
    of its own, below every physical address. *)
Definition mmu_xlat (u : mmu) : Xlat := λ v, default (-1 - v) (translate u v).

(** ** Operations *)

Definition write_cr3 (pgd : Z) (u : mmu) : mmu :=
  Mmu (live u) (cr0 u) pgd (cr4 u) (if pgd =? page_dir_base then live u else no_tables).

Definition read_cr3 (u : mmu) : Z := cr3 u.

Definition flush_tlb (u : mmu) : mmu := write_cr3 (read_cr3 u) u.

Definition init_page_dir (t : tables) : tables :=
  let t := set_pde 0 (pde_4KB_word
    {| k_present := 1; k_r_w := 1; k_user_super := 1; k_write_through := 0;
       k_cache_disable := 0; k_accessed := 0; k_avail0 := 0; k_pageSize := 0;
       k_avail1 := 0; k_page_table_base := Z.shiftr usr_page_table_base 12 |}) t in
  let t := set_pde 1 (pde_4MB_word
    {| m_present := 1; m_r_w := 1; m_user_super := 1; m_write_through := 0;
       m_cache_disable := 0; m_accessed := 0; m_dirty := 1; m_pageSize := 1;
       m_global := 0; m_avail := 0; m_pg_attri := 0; m_addr_0 := 0; m_reserved := 0;
       m_pg_addr := Z.shiftr KERNEL_START 22 |}) t in
  let t := set_pde (132 / 4) (pde_4KB_word
    {| k_present := 1; k_r_w := 1; k_user_super := 1; k_write_through := 0;
       k_cache_disable := 0; k_accessed := 0; k_avail0 := 0; k_pageSize := 0;
       k_avail1 := 0; k_page_table_base := Z.shiftr usrmap_page_table_base 12 |}) t in
  for_up (λ i t,
      if i =? 132 / 4 then t
      else set_pde i (pde_4MB_word
        {| m_present := 0; m_r_w := 1; m_user_super := 1; m_write_through := 0;
           m_cache_disable := 0; m_accessed := 0; m_dirty := 0; m_pageSize := 1;
           m_global := 0; m_avail := 0; m_pg_attri := 0; m_addr_0 := 0; m_reserved := 0;
           m_pg_addr := Z.shiftr (u32 (i * _4M)) 22 |}) t)
    2 NUM_PAGE_TABLE_DESC t.

Definition init_user_page_table (t : tables) : tables :=
  let t := for_up (λ i t,
      let in_video := (i =? Z.shiftr VIDEO_START 12) || (i =? Z.shiftr VIDEO_START 12 + 1)
                      || (i =? Z.shiftr VIDEO_START 12 + 2)
                      || (i =? Z.shiftr VIDEO_START 12 + 3) in
      set_usr i
        {| present := if in_video then 1 else 0; r_w := 1; usr_super := 1;
           write_through := 0; cache_disable := 0; accessed := 0; dirty := 0;
           pg_attri := 0; global := 0; avail := 0; pg_addr := i |} t)
    0 NUM_PAGE_DESC t in
  for_up (λ i t,
      set_usrmap i
        {| present := if i =? Z.shiftr VIDEO_START 12 then 1 else 0; r_w := 1;
           usr_super := 1; write_through := 0; cache_disable := 0; accessed := 0;
           dirty := 0; pg_attri := 0; global := 0; avail := 0; pg_addr := i |} t)
    0 NUM_PAGE_DESC t.

Definition paging_init (u : mmu) : mmu :=
  let u := set_live (init_user_page_table (init_page_dir (live u))) u in
  let u := write_cr3 page_dir_base u in
  Mmu (live u) (Z.lor (cr0 u) 2147483648) (cr3 u) (Z.lor (cr4 u) 16) (tlb u).

Definition switch_usrmap (index pres : Z) (u : mmu) : mmu :=
  set_live (set_usrmap (Z.shiftr VIDEO_START 12)
    {| present := pres; r_w := 1; usr_super := 1; write_through := 0; cache_disable := 0;
       accessed := 0; dirty := 0; pg_attri := 0; global := pres; avail := 0;
       pg_addr := index |} (live u)) u.

Definition setup_paging_and_flush_tlb (pid : Z) (u : mmu) : mmu :=
  let physical_addr := pid + 2 in
  let u := set_live (set_pde (128 / 4) (pde_4MB_word
    {| m_present := 1; m_r_w := 1; m_user_super := 1; m_write_through := 0;
       m_cache_disable := 0; m_accessed := 0; m_dirty := 0; m_pageSize := 1;
       m_global := 0; m_avail := 0; m_pg_attri := 0; m_addr_0 := 0; m_reserved := 0;
       m_pg_addr := physical_addr |}) (live u)) u in
  flush_tlb u.

(** ** The address map *)

(** The tables are page-aligned 32-bit addresses, and the two page tables differ. *)
Record layout_ok : Prop := {
  lo_dir : 0 ≤ page_dir_base < 4294967296;
  lo_usr : 0 ≤ usr_page_table_base < 4294967296;
  lo_usrmap : 0 ≤ usrmap_page_table_base < 4294967296;
  lo_ne : usr_page_table_base / _4K ≠ usrmap_page_table_base / _4K;
}.

(** What the kernel means its address space to be: the 4 KB page of text-mode video
    memory goes to the frame [vid]; the three pages behind it, which hold the hidden
    terminals' screens, and the kernel's 4 MB page are mapped to themselves; the
    program page at 128 MB goes to the 4 MB frame [prog]; the page a program gets
    from [vidmap] goes to the frame [fish]. *)
Record amap := AMap { vid : Z; fish : option Z; prog : option Z }.

Definition VPAGE : Z := Z.shiftr VIDEO_START 12.

Definition amap_page (a : amap) (v : Z) : option Z :=
  if v / _4K =? VPAGE then Some (vid a * _4K + v mod _4K)
  else if (VPAGE <? v / _4K) && (v / _4K <=? VPAGE + 3) then Some v
  else if v / _4M =? 1 then Some v
  else if v / _4M =? 32 then (λ p, p * _4M + v mod _4M) <$> prog a
  else if v / _4K =? 33 * 1024 + VPAGE then (λ f, f * _4K + v mod _4K) <$> fish a
  else None.

(** Directory words and table entries, as the processor reads them. *)
Definition pde_table (w base : Z) : Prop :=
  fld 0 1 w = 1 ∧ fld 7 1 w = 0 ∧ fld 12 20 w = base ∧ fld 2 1 w = 1 ∧ fld 1 1 w = 1.

Definition pde_page (w : Z) (o : option Z) : Prop :=
  match o with
  | None => fld 0 1 w = 0
  | Some f => fld 0 1 w = 1 ∧ fld 7 1 w = 1 ∧ fld 22 10 w = f ∧ fld 2 1 w = 1 ∧ fld 1 1 w = 1
  end.

Definition pte_page (e : page_table_entry) (o : option Z) : Prop :=
  match o with
  | None => bits 1 (present e) = 0
  | Some f => bits 1 (present e) = 1 ∧ bits 20 (pg_addr e) = f ∧
              bits 1 (usr_super e) = 1 ∧ bits 1 (r_w e) = 1
  end.

Definition usr_target (vid i : Z) : option Z :=
  if i =? VPAGE then Some vid
  else if (VPAGE <? i) && (i <=? VPAGE + 3) then Some i else None.

Definition usrmap_target (fish : option Z) (i : Z) : option Z :=
  if i =? VPAGE then fish else None.

(** The tables implement an address map. *)
Record tables_ok (t : tables) (a : amap) : Prop := {
  tk_low : pde_table (get_pde t 0) (usr_page_table_base / _4K);
  tk_kernel : pde_page (get_pde t 1) (Some 1);
  tk_prog : pde_page (get_pde t 32) (prog a);
  tk_usrmap : pde_table (get_pde t 33) (usrmap_page_table_base / _4K);
  tk_other : ∀ i, 2 ≤ i < 1024 → i ≠ 32 → i ≠ 33 → pde_page (get_pde t i) None;
  tk_usr_page : ∀ i, 0 ≤ i < 1024 → pte_page (get_usr t i) (usr_target (vid a) i);
  tk_usrmap_page : ∀ i, 0 ≤ i < 1024 → pte_page (get_usrmap t i) (usrmap_target (fish a) i);
  tk_usrmap_bits : bits 1 (usr_super (get_usrmap t VPAGE)) = 1 ∧
                   bits 1 (r_w (get_usrmap t VPAGE)) = 1;
}.

Lemma fld_pte_present e : fld 0 1 (pte_word e) = bits 1 (present e).
Proof. unfold pte_word. by rewrite fld_pack_here by lia. Qed.

Ltac fld_pack :=
  repeat (rewrite fld_pack_skip by lia;
          match goal with |- context [fld (?a - ?b) _ _] =>
            let c := eval vm_compute in (a - b) in change (a - b) with c end);
  rewrite fld_pack_here by lia.

Lemma fld_pte_r_w e : fld 1 1 (pte_word e) = bits 1 (r_w e).
Proof. unfold pte_word. by fld_pack. Qed.

Lemma fld_pte_usr_super e : fld 2 1 (pte_word e) = bits 1 (usr_super e).
Proof. unfold pte_word. by fld_pack. Qed.

Lemma fld_pte_pg_addr e : fld 12 20 (pte_word e) = bits 20 (pg_addr e).
Proof. unfold pte_word. by fld_pack. Qed.

(** A directory word written through the 4 KB view. *)
Lemma pde_table_word e base :
  k_present e = 1 → k_pageSize e = 0 → k_user_super e = 1 → k_r_w e = 1 →
  bits 20 (k_page_table_base e) = base → pde_table (pde_4KB_word e) base.
Proof.
  intros H1 H2 H3 H4 H5. unfold pde_table, pde_4KB_word.
  rewrite fld_pack_here by lia. rewrite H1. split; [done|].
  split; [fld_pack; by rewrite H2|]. split; [by fld_pack|].
  split; fld_pack; [by rewrite H3|by rewrite H4].
Qed.

(** A directory word written through the 4 MB view. *)
Lemma pde_page_word e f :
  m_present e = 1 → m_pageSize e = 1 → m_user_super e = 1 → m_r_w e = 1 →
  bits 10 (m_pg_addr e) = f → pde_page (pde_4MB_word e) (Some f).
Proof.
  intros H1 H2 H3 H4 H5. unfold pde_page, pde_4MB_word.
  rewrite fld_pack_here by lia. rewrite H1. split; [done|].
  split; [fld_pack; by rewrite H2|]. split; [by fld_pack|].
  split; fld_pack; [by rewrite H3|by rewrite H4].
Qed.

Lemma pde_page_absent e : m_present e = 0 → pde_page (pde_4MB_word e) None.
Proof. intros H. unfold pde_page, pde_4MB_word. rewrite fld_pack_here by lia. by rewrite H. Qed.

(** Walking through a 4 KB table entry. *)
Lemma walk_table t v base e o :
  pde_table (get_pde t (v / _4M)) base →
  table_at t base (v / _4K mod 1024) = Some e → pte_page e o →
  walk true t v = (λ f, Mapping (f * _4K + v mod _4K) true true) <$> o.
Proof.
  intros (H1 & H2 & H3 & H4 & H5) Ht He. unfold walk.
  rewrite H1, H2, H3, H4, H5, Ht, fld_pte_present, fld_pte_r_w, fld_pte_usr_super,
    fld_pte_pg_addr. destruct o as [f|]; simpl in He |- *.
  - destruct He as (-> & -> & -> & ->). done.
  - by rewrite He.
Qed.

Lemma walk_page t v o :
  pde_page (get_pde t (v / _4M)) o →
  walk true t v = (λ f, Mapping (f * _4M + v mod _4M) true true) <$> o.
Proof.
  unfold walk. destruct o as [f|]; simpl.
  - intros (-> & -> & -> & -> & ->). done.
  - by intros ->.
Qed.

(** The processor's walk over such tables is the address map; every mapping is open
    to user code and writable, the kernel's page included. *)
Lemma walk_amap t a v :
  layout_ok → tables_ok t a → 0 ≤ v < 4294967296 →
  walk true t v = (λ p, Mapping p true true) <$> amap_page a v.
Proof.
  intros Hl Ht Hv. unfold amap_page. change VPAGE with 184.
  assert (0 ≤ v / _4M < 1024 ∧ 0 ≤ v / _4K mod 1024 < 1024 ∧
    v / _4K = v / _4M * 1024 + v / _4K mod 1024 ∧
    v = v / _4K * _4K + v mod _4K ∧ v = v / _4M * _4M + v mod _4M)
    as (H1 & H2 & H3 & H4 & H5).
  { unfold _4M, _4K. Z.div_mod_to_equations. lia. }
  destruct Ht, Hl.
  destruct (decide (v / _4M = 0)) as [E0|];
    [|destruct (decide (v / _4M = 33)) as [E33|]].
  - rewrite (walk_table t v (usr_page_table_base / _4K) (get_usr t (v / _4K mod 1024))
      (usr_target (vid a) (v / _4K mod 1024))); [|by rewrite E0| |by apply tk_usr_page0].
    2:{ unfold table_at. by rewrite Z.eqb_refl. }
    unfold usr_target. change VPAGE with 184. rewrite E0 in *.
    replace (v / _4K mod 1024) with (v / _4K) by lia.
    repeat (case_test; simpl; try lia); try done. f_equal. f_equal. lia.
  - rewrite (walk_table t v (usrmap_page_table_base / _4K) (get_usrmap t (v / _4K mod 1024))
      (usrmap_target (fish a) (v / _4K mod 1024))); [|by rewrite E33| |by apply tk_usrmap_page0].
    2:{ unfold table_at. rewrite Z.eqb_refl. case_test; [done|done]. }
    unfold usrmap_target. change VPAGE with 184. rewrite E33 in *.
    repeat (case_test; simpl; try lia); try done. by destruct (fish a).
  - rewrite (walk_page t v (if v / _4M =? 1 then Some 1 else
      if v / _4M =? 32 then prog a else None)).
    2:{ case_test; [congruence|]. case_test; [congruence|]. apply tk_other0; lia. }
    repeat (case_test; simpl; try lia); try done; [f_equal; f_equal; lia|].
    by destruct (prog a).
Qed.

(** ** The memory-management unit in its running state *)

(** Paging is on, CR3 holds the directory, the translations in force implement the
    map [a], and the tables in memory the map [al], which the next flush puts in
    force. *)
Record mmu_ok (u : mmu) (a al : amap) : Prop := {
  mk_pg : PG_bit u = true;
  mk_pse : PSE_bit u = true;
  mk_cr3 : cr3 u = page_dir_base;
  mk_tlb : tables_ok (tlb u) a;
  mk_live : tables_ok (live u) al;
}.

Lemma translate_ok u a al v :
  layout_ok → mmu_ok u a al → 0 ≤ v < 4294967296 → translate u v = amap_page a v.
Proof.
  intros Hl [H1 H2 H3 H4 H5] Hv. unfold translate.
  rewrite H1, H2, (walk_amap _ a) by done. by destruct (amap_page a v).
Qed.

Lemma mmu_xlat_ok u a al v p :
  layout_ok → mmu_ok u a al → amap_page a (u32 v) = Some p → cell (X := mmu_xlat u) v = p.
Proof.
  intros Hl Hu Hp. unfold cell, xlat, mmu_xlat.
  by rewrite (translate_ok u a al), Hp by (done || apply u32_bound).
Qed.

Lemma get_set_pde t i w j : get_pde (set_pde i w t) j = if decide (i = j) then w else get_pde t j.
Proof. unfold get_pde, set_pde. simpl. rewrite lookup_insert. by case_decide. Qed.

Lemma get_set_usr t i e j : get_usr (set_usr i e t) j = if decide (i = j) then e else get_usr t j.
Proof. unfold get_usr, set_usr. simpl. rewrite lookup_insert. by case_decide. Qed.

Lemma get_set_usrmap t i e j :
  get_usrmap (set_usrmap i e t) j = if decide (i = j) then e else get_usrmap t j.
Proof. unfold get_usrmap, set_usrmap. simpl. rewrite lookup_insert. by case_decide. Qed.

Lemma table_base_bits b : 0 ≤ b < 4294967296 → bits 20 (Z.shiftr b 12) = b / _4K.
Proof.
  intros Hb. rewrite Z.shiftr_div_pow2 by lia. apply bits_small.
  unfold _4K. change (2 ^ 12) with 4096. Z.div_mod_to_equations. lia.
Qed.

Lemma bits_1_true : bits 1 1 = 1.
Proof. done. Qed.

(** The directory [init_page_dir] builds, whatever it held before. *)
Lemma init_page_dir_ok t :
  layout_ok →
  let t' := init_page_dir t in
  pde_table (get_pde t' 0) (usr_page_table_base / _4K) ∧
  pde_page (get_pde t' 1) (Some 1) ∧
  pde_table (get_pde t' 33) (usrmap_page_table_base / _4K) ∧
  ∀ i, 2 ≤ i < 1024 → i ≠ 33 → pde_page (get_pde t' i) None.
Proof.
  intros Hl. unfold init_page_dir. cbv zeta. change (132 / 4) with 33.
  match goal with |- context [for_up ?body 2 _ ?t0] => set (b := body); set (t1 := t0) end.
  assert (∀ n, 2 ≤ n ≤ 1024 → let t' := for_up b 2 n t1 in
    (∀ i, (i < 2 ∨ i = 33) → get_pde t' i = get_pde t1 i) ∧
    (∀ i, 2 ≤ i < n → i ≠ 33 → pde_page (get_pde t' i) None)) as H.
  { intros n Hn. apply (for_up_inv b (λ k t',
      (∀ i, (i < 2 ∨ i = 33) → get_pde t' i = get_pde t1 i) ∧
      (∀ i, 2 ≤ i < k → i ≠ 33 → pde_page (get_pde t' i) None))); [lia|split; [done|lia]|].
    intros k x Hk [IH1 IH2]. unfold b. case_test.
    - split; [done|]. intros i ??. apply IH2; lia.
    - split; intros i Hi; rewrite get_set_pde.
      + case_decide; [lia|]. by apply IH1.
      + intros ?. case_decide; [by apply pde_page_absent|]. apply IH2; lia. }
  destruct (H NUM_PAGE_TABLE_DESC) as [H1 H2]; [unfold NUM_PAGE_TABLE_DESC; lia|].
  split_and!; [| | |exact H2]; rewrite H1 by lia; unfold t1; rewrite !get_set_pde; simpl.
  - apply pde_table_word; try done. apply table_base_bits, Hl.
  - by apply pde_page_word.
  - apply pde_table_word; try done. apply table_base_bits, Hl.
Qed.

(** The two page tables [init_user_page_table] builds. *)
Lemma init_user_page_table_ok t :
  let t' := init_user_page_table t in
  page_dir t' = page_dir t ∧
  (∀ i, 0 ≤ i < 1024 → pte_page (get_usr t' i) (usr_target VPAGE i)) ∧
  (∀ i, 0 ≤ i < 1024 → pte_page (get_usrmap t' i) (usrmap_target (Some VPAGE) i)).
Proof.
  unfold init_user_page_table. fold VPAGE. cbv zeta.
  match goal with |- context [for_up ?body 0 _ (for_up ?body0 0 _ _)] =>
    set (b2 := body); set (b1 := body0) end.
  assert (let t' := for_up b1 0 1024 t in page_dir t' = page_dir t ∧
    (∀ i, 0 ≤ i < 1024 → pte_page (get_usr t' i) (usr_target VPAGE i))) as [P1 P2].
  { apply (for_up_inv b1 (λ k t', page_dir t' = page_dir t ∧
      (∀ i, 0 ≤ i < k → pte_page (get_usr t' i) (usr_target VPAGE i)))); [lia|split; [done|lia]|].
    intros k x Hk [IH1 IH2]. split; [done|]. intros i Hi. unfold b1. rewrite get_set_usr.
    case_decide as E; [subst i|apply IH2; lia].
    unfold usr_target. change VPAGE with 184.
    repeat (case_test; simpl; try lia); try done;
      split_and!; (done || (apply bits_small; lia) || (subst; done)). }
  change NUM_PAGE_DESC with 1024. cbv zeta in P1, P2.
  set (t1 := for_up b1 0 1024 t) in *. clearbody t1.
  assert (let t' := for_up b2 0 1024 t1 in page_dir t' = page_dir t1 ∧
    usr_page_table t' = usr_page_table t1 ∧
    (∀ i, 0 ≤ i < 1024 → pte_page (get_usrmap t' i) (usrmap_target (Some VPAGE) i)))
    as (Q1 & Q2 & Q3).
  { apply (for_up_inv b2 (λ k t', page_dir t' = page_dir t1 ∧
      usr_page_table t' = usr_page_table t1 ∧
      (∀ i, 0 ≤ i < k → pte_page (get_usrmap t' i) (usrmap_target (Some VPAGE) i))));
      [lia|split_and!; [done|done|lia]|].
    intros k x Hk (IH1 & IH2 & IH3). split_and!; [done|done|]. intros i Hi.
    unfold b2. rewrite get_set_usrmap. case_decide as E; [subst i|apply IH3; lia].
    unfold usrmap_target. change VPAGE with 184. case_test; simpl; [subst k|]; done. }
  split_and!; [congruence| |done].
  intros i Hi. unfold get_usr. rewrite Q2. by apply P2.
Qed.

Lemma set_live_ok u a al t al' :
  mmu_ok u a al → tables_ok t al' → mmu_ok (set_live t u) a al'.
Proof. intros [] Ht. by constructor. Qed.

Lemma flush_tlb_ok u a al : mmu_ok u a al → mmu_ok (flush_tlb u) al al.
Proof.
  intros [H1 H2 H3 _ H4]. unfold flush_tlb, write_cr3, read_cr3. rewrite H3, Z.eqb_refl.
  constructor; done.
Qed.

(** ** Preservation *)

Definition set_prog (p : option Z) (a : amap) : amap := AMap (vid a) (fish a) p.
Definition set_fish (f : option Z) (a : amap) : amap := AMap (vid a) f (prog a).

(** The target of an entry with the present bit [pres]. *)
Definition when_present (pres f : Z) : option Z := if bits 1 pres =? 1 then Some f else None.

Lemma bits_1_cases z : bits 1 z = 0 ∨ bits 1 z = 1.
Proof. pose proof (bits_bound 1 z). lia. Qed.

Lemma pte_page_when e pres f :
  present e = pres → pg_addr e = f → bits 1 (usr_super e) = 1 → bits 1 (r_w e) = 1 →
  0 ≤ f < 2 ^ 20 → pte_page e (when_present pres f).
Proof.
  intros <- <- H1 H2 Hf. unfold when_present, pte_page.
  destruct (bits_1_cases (present e)) as [-> | ->]; simpl; [done|].
  split_and!; try done. by apply bits_small.
Qed.

Lemma usrmap_others t a i :
  tables_ok t a → 0 ≤ i < 1024 → i ≠ VPAGE → pte_page (get_usrmap t i) None.
Proof.
  intros Ht Hi Hne. pose proof (tk_usrmap_page _ _ Ht i Hi) as H.
  unfold usrmap_target in H. by case_test; [congruence|].
Qed.

Lemma usrmap_target_set t e f :
  (∀ i, 0 ≤ i < 1024 → i ≠ VPAGE → pte_page (get_usrmap t i) None) → pte_page e f →
  ∀ i, 0 ≤ i < 1024 → pte_page (get_usrmap (set_usrmap VPAGE e t) i) (usrmap_target f i).
Proof.
  intros Ht He i Hi. rewrite get_set_usrmap. unfold usrmap_target.
  case_decide as E; [subst i; by rewrite Z.eqb_refl|].
  case_test; [congruence|]. by apply Ht.
Qed.

Lemma switch_usrmap_ok u a al index pres :
  mmu_ok u a al → 0 ≤ index < 2 ^ 20 →
  mmu_ok (switch_usrmap index pres u) a (set_fish (when_present pres index) al).
Proof.
  intros Hu Hi. eapply set_live_ok; [exact Hu|]. destruct Hu as [_ _ _ _ Ht].
  pose proof Ht as []. constructor; simpl; try done.
  - apply usrmap_target_set; [by intros; eapply usrmap_others|]. by apply pte_page_when.
  - fold VPAGE. by rewrite get_set_usrmap, decide_True.
Qed.

(** Redirecting the video page and the program's view of it to the frame [f]. *)
Definition remap_video (f pres : Z) (t : tables) : tables :=
  let t := set_usr VPAGE (set_pg_addr f (get_usr t VPAGE)) t in
  let t := set_usrmap VPAGE (set_present pres (get_usrmap t VPAGE)) t in
  set_usrmap VPAGE (set_pg_addr f (get_usrmap t VPAGE)) t.

Lemma remap_video_ok t a f pres :
  tables_ok t a → 0 ≤ f < 2 ^ 20 →
  tables_ok (remap_video f pres t) (AMap f (when_present pres f) (prog a)).
Proof.
  intros Ht Hf. pose proof Ht as []. unfold remap_video.
  set (t1 := set_usr VPAGE _ t). set (t2 := set_usrmap VPAGE _ t1).
  assert (get_usrmap t2 VPAGE = set_present pres (get_usrmap t VPAGE)) as E2
    by (unfold t2; by rewrite get_set_usrmap, decide_True).
  constructor; simpl; try done.
  - intros i Hi. change (get_usr _ i) with (get_usr t1 i).
    unfold t1. rewrite get_set_usr. specialize (tk_usr_page0 i Hi). unfold usr_target in *.
    case_decide as E; [subst i|by case_test; [congruence|]].
    rewrite Z.eqb_refl in *. destruct tk_usr_page0 as (H1 & H2 & H3 & H4).
    split_and!; try done. by apply bits_small.
  - apply usrmap_target_set.
    + intros i Hi Hne. unfold t2. rewrite get_set_usrmap, decide_False by done.
      by apply (usrmap_others t a).
    + rewrite E2. by apply pte_page_when; try apply tk_usrmap_bits0.
  - by rewrite get_set_usrmap, decide_True, E2.
Qed.


Lemma setup_paging_ok u a al pid :
  mmu_ok u a al → 0 ≤ pid → pid + 2 < 1024 →
  let al' := set_prog (Some (pid + 2)) al in
  mmu_ok (setup_paging_and_flush_tlb pid u) al' al'.
Proof.
  intros Hu Hp1 Hp2. eapply flush_tlb_ok, set_live_ok; [exact Hu|].
  destruct Hu as [_ _ _ _ []].
  change (128 / 4) with 32.
  constructor; simpl; try done; rewrite ?get_set_pde; simpl; try done.
  - apply pde_page_word; try done. simpl. apply bits_small. lia.
  - intros i ???. rewrite get_set_pde. case_decide; [congruence|]. by apply tk_other0.
Qed.

Lemma fld_lor_bit x n : 0 ≤ n → fld n 1 (Z.lor x (2 ^ n)) = 1.
Proof.
  intros Hn. unfold fld, bits. change (2 ^ 1) with 2. rewrite <- Z.testbit_spec' by done.
  by rewrite Z.lor_spec, Z.pow2_bits_true, orb_true_r by done.
Qed.

Definition boot_amap : amap := AMap VPAGE (Some VPAGE) None.

Lemma paging_init_ok u : layout_ok → mmu_ok (paging_init u) boot_amap boot_amap.
Proof.
  intros Hl. unfold paging_init.
  pose proof (init_page_dir_ok (live u) Hl) as (D0 & D1 & D33 & Do).
  set (t := init_page_dir (live u)) in *. clearbody t.
  pose proof (init_user_page_table_ok t) as (E & Hu & Hm).
  set (t' := init_user_page_table t) in *. clearbody t'.
  assert (∀ i, get_pde t' i = get_pde t i) as Ep by (intros i; unfold get_pde; by rewrite E).
  assert (tables_ok t' boot_amap) as Ht.
  { constructor; simpl; rewrite ?Ep; try done.
    - apply Do; lia.
    - intros i ???. rewrite Ep. by apply Do.
    - specialize (Hm VPAGE ltac:(change VPAGE with 184; lia)).
      unfold usrmap_target in Hm. rewrite Z.eqb_refl in Hm. apply Hm. }
  constructor; simpl; [| |done|by rewrite Z.eqb_refl|done].
  - apply Z.eqb_eq, (fld_lor_bit (cr0 u) 31). lia.
  - apply Z.eqb_eq, (fld_lor_bit (cr4 u) 4). lia.
Qed.

(** ** Properties *)

(** C36: [paging_init] turns paging on with this address space, whatever the tables and the
    control registers held before: the kernel's 4 MB page and the four pages 0xB8000 to 0xBBFFF
    (the comment at its head promises one) are mapped to themselves, the [vidmap] alias points
    to the first of them, and every other access faults. *)
Theorem paging_init_map u v :
  layout_ok → 0 ≤ v < 4294967296 →
  translate (paging_init u) v =
    if (VPAGE <=? v / _4K) && (v / _4K <=? VPAGE + 3) then Some v
    else if v / _4M =? 1 then Some v
    else if v / _4K =? 33 * 1024 + VPAGE then Some (VIDEO_START + v mod _4K)
    else None.
Proof.
  intros Hl Hv. rewrite (translate_ok _ _ _ v Hl (paging_init_ok u Hl) Hv).
  unfold amap_page, boot_amap. simpl. change VPAGE with 184.
  assert (v = v / _4K * _4K + v mod _4K) by (unfold _4K; Z.div_mod_to_equations; lia).
  repeat (case_test; simpl; try lia); try done.
  1,2: f_equal; lia.
  exfalso. unfold _4M, _4K in *. Z.div_mod_to_equations. lia.
Qed.

(** The part of a map a process switch leaves alone. *)
Definition kernel_area (v : Z) : bool :=
  ((VPAGE <=? v / _4K) && (v / _4K <=? VPAGE + 3)) || (v / _4M =? 1).

Lemma amap_kernel_area a v :
  kernel_area v = true → VPAGE ≤ vid a ≤ VPAGE + 3 →
  ∃ p, amap_page a v = Some p ∧ 0 ≤ p / _4M < 2.
Proof.
  unfold kernel_area, amap_page. change VPAGE with 184. intros Hk Hvid.
  apply orb_true_iff in Hk. rewrite andb_true_iff, !Z.leb_le, Z.eqb_eq in Hk.
  assert (0 ≤ v mod _4K < _4K) by (apply Z.mod_pos_bound; unfold _4K; lia).
  repeat (case_test; simpl; try lia); eexists; (split; [done|]);
    unfold _4M, _4K in *; Z.div_mod_to_equations; lia.
Qed.

Lemma amap_prog a v p :
  v / _4M = 32 → prog a = Some p → amap_page a v = Some (p * _4M + v mod _4M).
Proof.
  intros Hv Hp. unfold amap_page. change VPAGE with 184.
  assert (v / _4K / 1024 = v / _4M).
  { unfold _4M. rewrite Z.div_div by (unfold _4K; lia). done. }
  rewrite Hv, Hp in *. repeat (case_test; simpl; try lia); try done;
    exfalso; Z.div_mod_to_equations; lia.
Qed.

(** C37: two processes never share memory through the program page: with different
    pids, the 4 MB at 128 MB lead to different physical frames, and neither overlaps
    what the kernel page and the video pages lead to. *)
Theorem process_pages_disjoint u a al pid1 pid2 v1 v2 :
  layout_ok → mmu_ok u a al → VPAGE ≤ vid al ≤ VPAGE + 3 →
  0 ≤ pid1 < 6 → 0 ≤ pid2 < 6 → pid1 ≠ pid2 →
  0 ≤ v1 < 4294967296 → 0 ≤ v2 < 4294967296 →
  v1 / _4M = 32 → v2 / _4M = 32 ∨ kernel_area v2 = true →
  ∃ p1 p2, translate (setup_paging_and_flush_tlb pid1 u) v1 = Some p1 ∧
    translate (setup_paging_and_flush_tlb pid2 u) v2 = Some p2 ∧ p1 ≠ p2.
Proof.
  intros Hl Hu Hvid H1 H2 Hne Hv1 Hv2 E1 E2.
  rewrite (translate_ok _ _ _ _ Hl (setup_paging_ok u a al pid1 Hu ltac:(lia) ltac:(lia))) by done.
  rewrite (translate_ok _ _ _ _ Hl (setup_paging_ok u a al pid2 Hu ltac:(lia) ltac:(lia))) by done.
  rewrite (amap_prog _ v1 (pid1 + 2)) by done. eexists. destruct E2 as [E2|E2].
  - rewrite (amap_prog _ v2 (pid2 + 2)) by done. eexists. split_and!; [done..|].
    pose proof (Z.mod_pos_bound v1 _4M ltac:(unfold _4M, _4K; lia)).
    pose proof (Z.mod_pos_bound v2 _4M ltac:(unfold _4M, _4K; lia)).
    unfold _4M, _4K in *. lia.
  - destruct (amap_kernel_area (set_prog (Some (pid2 + 2)) al) v2) as (p & -> & Hp);
      [done..|]. exists p. split_and!; [done..|]. intros <-.
    unfold _4M, _4K in *. Z.div_mod_to_equations. lia.
Qed.

(** Nothing in the tables keeps user code out of the kernel: once paging runs,
    the processor lets user mode read and write every address of the kernel's 4 MB
    page. *)
Theorem kernel_page_open_to_user u a al v :
  layout_ok → mmu_ok u a al → 4194304 ≤ v < 8388608 →
  walk (PSE_bit u) (tlb u) v = Some (Mapping v true true).
Proof.
  intros Hl Hu Hv. destruct Hu as [_ -> _ Ht _]. rewrite (walk_amap _ a) by (done || lia).
  unfold amap_page. change VPAGE with 184.
  assert (v / _4M = 1 ∧ 1024 ≤ v / _4K < 2048) as [-> ?]
    by (unfold _4M, _4K; Z.div_mod_to_equations; lia).
  by repeat (case_test; simpl; try lia).
Qed.
End paging.

(** ** Witnesses *)

Definition demo_pg : PgLayout :=
  {| page_dir_base := 4206592; usr_page_table_base := 4210688;
     usrmap_page_table_base := 4214784 |}.

Definition mmu_reset : mmu := Mmu no_tables 1 0 0 no_tables.

Lemma demo_layout_ok : layout_ok (PL := demo_pg).
Proof. constructor; vm_compute; intuition discriminate. Qed.

Lemma demo_mmu_ok : mmu_ok (PL := demo_pg) (paging_init (PL := demo_pg) mmu_reset) boot_amap boot_amap.
Proof. apply paging_init_ok, demo_layout_ok. Qed.

Lemma paging_init_map_witness :
  translate (PL := demo_pg) (paging_init (PL := demo_pg) mmu_reset) 4198400 = Some 4198400.
Proof.
  apply (paging_init_map (PL := demo_pg) mmu_reset 4198400); [exact demo_layout_ok|lia].
Defined.

Lemma process_pages_disjoint_witness :
  ∃ p1 p2,
    translate (PL := demo_pg) (setup_paging_and_flush_tlb (PL := demo_pg) 0
      (paging_init (PL := demo_pg) mmu_reset)) 134512640 = Some p1 ∧
    translate (PL := demo_pg) (setup_paging_and_flush_tlb (PL := demo_pg) 1
      (paging_init (PL := demo_pg) mmu_reset)) 134512640 = Some p2 ∧ p1 ≠ p2.
Proof.
  apply (process_pages_disjoint (PL := demo_pg) _ boot_amap boot_amap 0 1);
    [exact demo_layout_ok|exact demo_mmu_ok|vm_compute; intuition discriminate|lia..
    |reflexivity|left; reflexivity].
Defined.

Lemma kernel_page_open_to_user_witness :
  walk (PL := demo_pg) (PSE_bit (paging_init (PL := demo_pg) mmu_reset))
    (tlb (paging_init (PL := demo_pg) mmu_reset)) 4198400 = Some (Mapping 4198400 true true).
Proof.
  apply (kernel_page_open_to_user (PL := demo_pg) _ boot_amap boot_amap);
    [exact demo_layout_ok|exact demo_mmu_ok|lia].
Defined.
