(* ===== verification/Kstate.v ===== *)
(** * The kernel's state

    One record per group of globals: the terminals and the screen pointers
    (terminal.c, lib.c, keyboard.c), the modifier keys (keyboard.c), the RTC flags
    (rtc.c), the interrupt masks (i8259.c), the processes (syscall_handler.c), and
    the processor and its devices.

    Kernel globals are fields of these records; what the kernel reaches through
    pointers it computes (video memory, the file-system image, user memory) is in
    [pmem], physical memory, behind the translation of [kmmu].  A pointer to a
    terminal is its index in [term_arr]; a pointer to a PCB is its address.

    The devices are not part of the program: they are the class [Ports], a state
    with the effect of the two port instructions. *)

From S2P Require Import Prelude Mem Paging Fs.

(** ** Devices *)

(** [inb port d] is the byte read and the device state after the read (reading has
    side effects on some devices); [outb data port d] is the state after a write. *)
Class Ports := {
  dev : Type;
  inb : Z → dev → Z * dev;
  outb : Z → Z → dev → dev;
}.

(** ** Terminals *)

Definition ARG_LEN : Z := 128.
Definition TERM_NUM : Z := 3.

Record terminal_t := Terminal {
  t_tid : Z;
  t_pid : Z;
  t_kbd_buf : list Z;
  t_buf_pos : Z;
  t_kbd_buf_ready : Z;
  t_cursor_x : Z;
  t_cursor_y : Z;
  t_vid_mem_buffer : Z;
  t_vidmap_flag : Z;
  t_next_term_to_run : Z;
}.

Definition term_zero : terminal_t := Terminal 0 0 (replicate 128 0) 0 0 0 0 0 0 0.

Definition set_t_pid v t := Terminal (t_tid t) v (t_kbd_buf t) (t_buf_pos t)
  (t_kbd_buf_ready t) (t_cursor_x t) (t_cursor_y t) (t_vid_mem_buffer t) (t_vidmap_flag t)
  (t_next_term_to_run t).
Definition set_t_kbd_buf v t := Terminal (t_tid t) (t_pid t) v (t_buf_pos t)
  (t_kbd_buf_ready t) (t_cursor_x t) (t_cursor_y t) (t_vid_mem_buffer t) (t_vidmap_flag t)
  (t_next_term_to_run t).
Definition set_t_buf_pos v t := Terminal (t_tid t) (t_pid t) (t_kbd_buf t) v
  (t_kbd_buf_ready t) (t_cursor_x t) (t_cursor_y t) (t_vid_mem_buffer t) (t_vidmap_flag t)
  (t_next_term_to_run t).
Definition set_t_ready v t := Terminal (t_tid t) (t_pid t) (t_kbd_buf t) (t_buf_pos t)
  v (t_cursor_x t) (t_cursor_y t) (t_vid_mem_buffer t) (t_vidmap_flag t)
  (t_next_term_to_run t).
Definition set_t_cursor_x v t := Terminal (t_tid t) (t_pid t) (t_kbd_buf t) (t_buf_pos t)
  (t_kbd_buf_ready t) v (t_cursor_y t) (t_vid_mem_buffer t) (t_vidmap_flag t)
  (t_next_term_to_run t).
Definition set_t_cursor_y v t := Terminal (t_tid t) (t_pid t) (t_kbd_buf t) (t_buf_pos t)
  (t_kbd_buf_ready t) (t_cursor_x t) v (t_vid_mem_buffer t) (t_vidmap_flag t)
  (t_next_term_to_run t).
Definition set_t_vidmap_flag v t := Terminal (t_tid t) (t_pid t) (t_kbd_buf t) (t_buf_pos t)
  (t_kbd_buf_ready t) (t_cursor_x t) (t_cursor_y t) (t_vid_mem_buffer t) v
  (t_next_term_to_run t).

(** What [screen_x_ptr] and [screen_y_ptr] can point to. *)
Inductive cursor_ptr :=
  | init_screen
  | cursor_of (i : Z).

Record console := Console {
  term_arr : list terminal_t;
  running_term_ptr : Z;
  viewing_term_ptr : Z;
  kbd_buf : option Z;         (* the terminal whose buffer it points to; [None]: NULL *)
  buf_pos : Z;
  screen_x_ptr : cursor_ptr;
  screen_y_ptr : cursor_ptr;
  init_screen_x : Z;
  init_screen_y : Z;
}.

Definition set_term_arr v c := Console v (running_term_ptr c) (viewing_term_ptr c) (kbd_buf c)
  (buf_pos c) (screen_x_ptr c) (screen_y_ptr c) (init_screen_x c) (init_screen_y c).
Definition set_running v c := Console (term_arr c) v (viewing_term_ptr c) (kbd_buf c)
  (buf_pos c) (screen_x_ptr c) (screen_y_ptr c) (init_screen_x c) (init_screen_y c).
Definition set_viewing v c := Console (term_arr c) (running_term_ptr c) v (kbd_buf c)
  (buf_pos c) (screen_x_ptr c) (screen_y_ptr c) (init_screen_x c) (init_screen_y c).
Definition set_kbd_ptr v c := Console (term_arr c) (running_term_ptr c) (viewing_term_ptr c) v
  (buf_pos c) (screen_x_ptr c) (screen_y_ptr c) (init_screen_x c) (init_screen_y c).
Definition set_buf_pos v c := Console (term_arr c) (running_term_ptr c) (viewing_term_ptr c)
  (kbd_buf c) v (screen_x_ptr c) (screen_y_ptr c) (init_screen_x c) (init_screen_y c).
Definition set_screen_ptrs x y c := Console (term_arr c) (running_term_ptr c)
  (viewing_term_ptr c) (kbd_buf c) (buf_pos c) x y (init_screen_x c) (init_screen_y c).
Definition set_init_screen x y c := Console (term_arr c) (running_term_ptr c)
  (viewing_term_ptr c) (kbd_buf c) (buf_pos c) (screen_x_ptr c) (screen_y_ptr c) x y.

Definition con_term (c : console) (i : Z) : terminal_t :=
  nth (Z.to_nat i) (term_arr c) term_zero.

Definition con_upd_term (i : Z) (f : terminal_t → terminal_t) (c : console) : console :=
  set_term_arr (alter f (Z.to_nat i) (term_arr c)) c.

(** [*screen_x_ptr] and [*screen_y_ptr], read and written. *)
Definition con_x (c : console) : Z :=
  match screen_x_ptr c with
  | init_screen => init_screen_x c
  | cursor_of i => t_cursor_x (con_term c i)
  end.

Definition con_y (c : console) : Z :=
  match screen_y_ptr c with
  | init_screen => init_screen_y c
  | cursor_of i => t_cursor_y (con_term c i)
  end.

Definition con_set_x (v : Z) (c : console) : console :=
  match screen_x_ptr c with
  | init_screen => set_init_screen v (init_screen_y c) c
  | cursor_of i => con_upd_term i (set_t_cursor_x v) c
  end.

Definition con_set_y (v : Z) (c : console) : console :=
  match screen_y_ptr c with
  | init_screen => set_init_screen (init_screen_x c) v c
  | cursor_of i => con_upd_term i (set_t_cursor_y v) c
  end.

(** ** The other groups *)

Record kbd_flags := KbdFlags {
  left_shift_flag : Z;
  right_shift_flag : Z;
  ctrl_flag : Z;
  capslock_flag : Z;
  alt_flag : Z;
}.

Definition set_left_shift v f := KbdFlags v (right_shift_flag f) (ctrl_flag f)
  (capslock_flag f) (alt_flag f).
Definition set_right_shift v f := KbdFlags (left_shift_flag f) v (ctrl_flag f)
  (capslock_flag f) (alt_flag f).
Definition set_ctrl v f := KbdFlags (left_shift_flag f) (right_shift_flag f) v
  (capslock_flag f) (alt_flag f).
Definition set_capslock v f := KbdFlags (left_shift_flag f) (right_shift_flag f)
  (ctrl_flag f) v (alt_flag f).
Definition set_alt v f := KbdFlags (left_shift_flag f) (right_shift_flag f) (ctrl_flag f)
  (capslock_flag f) v.

Record rtc_vars := RtcVars {
  rtc_signal : Z;
  test_rtc : Z;
  interrupt_time_count : Z;
}.

Record pic_vars := PicVars { master_mask : Z; slave_mask : Z }.

(** Process control blocks. *)
Record PCB_t := PCB {
  parent_pid : Z;
  p_pid : Z;
  p_vidmap_flag : Z;
  p_esp : Z;
  p_ebp : Z;
  tss_esp0 : Z;
  p_args : list Z;
  p_counts : Z;
  p_flag : Z;
  pcb_fds : list file_entry;
}.

Definition fd_zero : file_entry := FileEntry op_unset 0 0 0.
Definition pcb_zero : PCB_t := PCB 0 0 0 0 0 0 (replicate 128 0) 0 0 (replicate 8 fd_zero).

Definition set_p_vidmap v p := PCB (parent_pid p) (p_pid p) v (p_esp p) (p_ebp p) (tss_esp0 p)
  (p_args p) (p_counts p) (p_flag p) (pcb_fds p).
Definition set_p_regs esp ebp p := PCB (parent_pid p) (p_pid p) (p_vidmap_flag p) esp ebp
  (tss_esp0 p) (p_args p) (p_counts p) (p_flag p) (pcb_fds p).
Definition set_p_esp0 v p := PCB (parent_pid p) (p_pid p) (p_vidmap_flag p) (p_esp p) (p_ebp p)
  v (p_args p) (p_counts p) (p_flag p) (pcb_fds p).
Definition set_p_args v p := PCB (parent_pid p) (p_pid p) (p_vidmap_flag p) (p_esp p) (p_ebp p)
  (tss_esp0 p) v (p_counts p) (p_flag p) (pcb_fds p).
Definition set_p_ids parent pid p := PCB parent pid (p_vidmap_flag p) (p_esp p) (p_ebp p)
  (tss_esp0 p) (p_args p) (p_counts p) (p_flag p) (pcb_fds p).
Definition set_p_fds v p := PCB (parent_pid p) (p_pid p) (p_vidmap_flag p) (p_esp p) (p_ebp p)
  (tss_esp0 p) (p_args p) (p_counts p) (p_flag p) v.

Record procs := Procs {
  cur_pid : Z;
  cur_pcb_ptr : Z;
  pcb_bitmap : list Z;
  pcbs : gmap Z PCB_t;
  tss_ss0 : Z;
  tss_esp0_reg : Z;
}.

Definition set_cur pid ptr p := Procs pid ptr (pcb_bitmap p) (pcbs p) (tss_ss0 p)
  (tss_esp0_reg p).
Definition set_bitmap v p := Procs (cur_pid p) (cur_pcb_ptr p) v (pcbs p) (tss_ss0 p)
  (tss_esp0_reg p).
Definition set_pcbs v p := Procs (cur_pid p) (cur_pcb_ptr p) (pcb_bitmap p) v (tss_ss0 p)
  (tss_esp0_reg p).
Definition set_tss ss0 esp0 p := Procs (cur_pid p) (cur_pcb_ptr p) (pcb_bitmap p) (pcbs p)
  ss0 esp0.

Definition get_pcb (p : procs) (ptr : Z) : PCB_t := default pcb_zero (pcbs p !! ptr).

Definition upd_pcb (ptr : Z) (f : PCB_t → PCB_t) (p : procs) : procs :=
  set_pcbs (<[ptr := f (get_pcb p ptr)]> (pcbs p)) p.

(** The processor registers the code saves and loads itself, and the interrupt flag. *)
Record cpu := Cpu { esp : Z; ebp : Z; if_flag : bool }.

Record kernel `{Ports} := Kernel {
  pmem : mem;
  kmmu : mmu;
  io : dev;
  kcpu : cpu;
  con : console;
  kbd : kbd_flags;
  rtc : rtc_vars;
  pic : pic_vars;
  prc : procs;
  fsv : fs_vars;
}.

Section setters.
Context {PT : Ports}.

Definition set_mem v k := Kernel _ v (kmmu k) (io k) (kcpu k) (con k) (kbd k) (rtc k) (pic k)
  (prc k) (fsv k).
Definition set_mmu v k := Kernel _ (pmem k) v (io k) (kcpu k) (con k) (kbd k) (rtc k) (pic k)
  (prc k) (fsv k).
Definition set_io v k := Kernel _ (pmem k) (kmmu k) v (kcpu k) (con k) (kbd k) (rtc k) (pic k)
  (prc k) (fsv k).
Definition set_cpu v k := Kernel _ (pmem k) (kmmu k) (io k) v (con k) (kbd k) (rtc k) (pic k)
  (prc k) (fsv k).
Definition set_con v k := Kernel _ (pmem k) (kmmu k) (io k) (kcpu k) v (kbd k) (rtc k) (pic k)
  (prc k) (fsv k).
Definition set_kbd v k := Kernel _ (pmem k) (kmmu k) (io k) (kcpu k) (con k) v (rtc k) (pic k)
  (prc k) (fsv k).
Definition set_rtc v k := Kernel _ (pmem k) (kmmu k) (io k) (kcpu k) (con k) (kbd k) v (pic k)
  (prc k) (fsv k).
Definition set_pic v k := Kernel _ (pmem k) (kmmu k) (io k) (kcpu k) (con k) (kbd k) (rtc k) v
  (prc k) (fsv k).
Definition set_prc v k := Kernel _ (pmem k) (kmmu k) (io k) (kcpu k) (con k) (kbd k) (rtc k)
  (pic k) v (fsv k).
Definition set_fsv v k := Kernel _ (pmem k) (kmmu k) (io k) (kcpu k) (con k) (kbd k) (rtc k)
  (pic k) (prc k) v.

Definition upd_con f k := set_con (f (con k)) k.
Definition upd_prc f k := set_prc (f (prc k)) k.

(** [*term_arr[i]]. *)
Definition term (k : kernel) (i : Z) : terminal_t := con_term (con k) i.
Definition upd_term (i : Z) (f : terminal_t → terminal_t) (k : kernel) : kernel :=
  upd_con (con_upd_term i f) k.

Definition running (k : kernel) : terminal_t := term k (running_term_ptr (con k)).
Definition viewing (k : kernel) : terminal_t := term k (viewing_term_ptr (con k)).

(** [outb(data, port)] and [inb(port)]. *)
Definition k_outb (data port : Z) (k : kernel) : kernel := set_io (outb (u8 data) port (io k)) k.
Definition k_inb (port : Z) (k : kernel) : Z * kernel :=
  let '(v, d) := inb port (io k) in (u8 v, set_io d k).

(** [cli()] and [sti()]. *)
Definition cli k := set_cpu (Cpu (esp (kcpu k)) (ebp (kcpu k)) false) k.
Definition sti k := set_cpu (Cpu (esp (kcpu k)) (ebp (kcpu k)) true) k.
End setters.
