(* ===== verification/Pc.v ===== *)
(** * A concrete machine

    A small model of the devices of a PC behind the ports the kernel uses: the two
    interrupt controllers, the RTC registers, the keyboard's output byte, and the text
    cursor of the display controller.  It instantiates the class [Ports]; the files of
    the drivers show that it keeps the promises their theorems rely on. *)

From S2P Require Import Prelude Mem Paging Fs Kstate.

(** A controller chip: the initialisation word it waits for (0: none), the vector base,
    the mask, the interrupts in service. *)
Record chip := Chip { c_wait : Z; c_base : Z; c_imr : Z; c_isr : Z }.

Definition chip_command (v : Z) (c : chip) : chip :=
  if Z.testbit v 4 then Chip 2 (c_base c) 0 0
  else if Z.land v 224 =? 96 then
    Chip (c_wait c) (c_base c) (c_imr c) (Z.clearbit (c_isr c) (Z.land v 7))
  else c.

Definition chip_data (v : Z) (c : chip) : chip :=
  if c_wait c =? 2 then Chip 3 (Z.land v 248) (c_imr c) (c_isr c)
  else if c_wait c =? 3 then Chip 4 (c_base c) (c_imr c) (c_isr c)
  else if c_wait c =? 4 then Chip 0 (c_base c) (c_imr c) (c_isr c)
  else Chip (c_wait c) (c_base c) (u8 v) (c_isr c).

Record machine := Machine {
  master : chip;
  slave : chip;
  rtc_index : Z;
  rtc_regs : Z → Z;
  kbd_out : Z;
  crtc_index : Z;
  crtc_high : Z;
  crtc_low : Z;
}.

Definition pc_inb (port : Z) (d : machine) : Z * machine :=
  (if port =? 33 then u8 (c_imr (master d))
   else if port =? 161 then u8 (c_imr (slave d))
   else if port =? 113 then u8 (rtc_regs d (rtc_index d))
   else if port =? 96 then kbd_out d
   else 0, d).

Definition pc_outb (v port : Z) (d : machine) : machine :=
  if port =? 32 then Machine (chip_command v (master d)) (slave d) (rtc_index d) (rtc_regs d)
    (kbd_out d) (crtc_index d) (crtc_high d) (crtc_low d)
  else if port =? 33 then Machine (chip_data v (master d)) (slave d) (rtc_index d) (rtc_regs d)
    (kbd_out d) (crtc_index d) (crtc_high d) (crtc_low d)
  else if port =? 160 then Machine (master d) (chip_command v (slave d)) (rtc_index d)
    (rtc_regs d) (kbd_out d) (crtc_index d) (crtc_high d) (crtc_low d)
  else if port =? 161 then Machine (master d) (chip_data v (slave d)) (rtc_index d)
    (rtc_regs d) (kbd_out d) (crtc_index d) (crtc_high d) (crtc_low d)
  else if port =? 112 then Machine (master d) (slave d) (Z.land v 127) (rtc_regs d)
    (kbd_out d) (crtc_index d) (crtc_high d) (crtc_low d)
  else if port =? 113 then Machine (master d) (slave d) (rtc_index d)
    (λ i, if i =? rtc_index d then v else rtc_regs d i)
    (kbd_out d) (crtc_index d) (crtc_high d) (crtc_low d)
  else if port =? 980 then Machine (master d) (slave d) (rtc_index d) (rtc_regs d)
    (kbd_out d) v (crtc_high d) (crtc_low d)
  else if port =? 981 then Machine (master d) (slave d) (rtc_index d) (rtc_regs d)
    (kbd_out d) (crtc_index d) (if crtc_index d =? 14 then v else crtc_high d)
    (if crtc_index d =? 15 then v else crtc_low d)
  else d.

Definition pc_ports : Ports := {| dev := machine; inb := pc_inb; outb := pc_outb |}.

(** The machine as the firmware leaves it: controllers never programmed. *)
Definition pc_reset : machine :=
  Machine (Chip 5 0 0 0) (Chip 5 0 0 0) 0 (λ i, if i =? 10 then 38 else 2) 0 0 0 0.

(** The machine after the controllers are programmed, with the timer and RTC lines in
    service. *)
Definition pc_running : machine :=
  Machine (Chip 0 32 251 5) (Chip 0 40 254 1) 0 (λ i, if i =? 10 then 38 else 2) 30 0 0 0.
