(* ===== verification/Screen.v ===== *)
(** * The text screen (the console part of lib.c, and the two mapping routines of
      terminal.c it uses)

    Video memory is reached at 0xB8000 through the page tables, so that the page
    really written is the one [change_vidmem_mapping] selected: the visible frame,
    or the hidden buffer of a terminal that is not in view. *)

From Stdlib Require Ascii String.
From S2P Require Import Prelude Mem Lib Paging Fs Kstate.

Definition NUM_COLS : Z := 80.
Definition NUM_ROWS : Z := 25.
Definition ATTRIB : Z := 7.
Definition START_HEIGHT : Z := 1.

(** A C string literal, without its terminator. *)
Definition lit (s : String.string) : list Z :=
  (λ c, Z.of_nat (Ascii.nat_of_ascii c)) <$> String.list_ascii_of_string s.

Section screen.
Context {PT : Ports} {PL : PgLayout}.
Implicit Types (k : kernel).

(** Byte accesses of the kernel, through the translation in force. *)
Definition kx k : Xlat := mmu_xlat (kmmu k).
Definition peek k (a : Z) : Z := ld8 (X := kx k) (pmem k) a.
Definition poke (a v : Z) k : kernel := set_mem (st8 (X := kx k) (pmem k) a v) k.

Definition video_mem : Z := VIDEO_START.

(** ** Mapping video memory *)

Definition switch_fish_paging (tid temp_flag : Z) k : kernel :=
  let target_place := Z.shiftr VIDEO_START 12 in
  let t := live (kmmu k) in
  let frame := if nz temp_flag then Z.shiftr (t_vid_mem_buffer (term k tid)) 12
               else target_place in
  let t := set_usr target_place (set_pg_addr frame (get_usr t target_place)) t in
  let t := set_usrmap target_place
             (set_present (t_vidmap_flag (term k tid)) (get_usrmap t target_place)) t in
  let t := set_usrmap target_place (set_pg_addr frame (get_usrmap t target_place)) t in
  set_mmu (set_live t (kmmu k)) k.

Definition change_vidmem_mapping (tid : Z) k : kernel :=
  let k := upd_con (set_screen_ptrs (cursor_of tid) (cursor_of tid)) k in
  let temp_flag := b2z (negb (tid =? t_tid (viewing k))) in
  let k := switch_fish_paging tid temp_flag k in
  set_mmu (flush_tlb (kmmu k)) k.

(** ** The cursor *)

Definition calib_cursor k : kernel :=
  let correct_pos := u16 (con_y (con k) * NUM_COLS + con_x (con k)) in
  let k := k_outb 14 980 k in
  let k := k_outb (Z.land (Z.shiftr correct_pos 8) 255) 981 k in
  let k := k_outb 15 980 k in
  k_outb (Z.land correct_pos 255) 981 k.

Definition update_screen_xy_ptr (new_x new_y : cursor_ptr) k : kernel :=
  calib_cursor (upd_con (set_screen_ptrs new_x new_y) k).

Definition init_screen_xy k : kernel :=
  let k := upd_con (set_init_screen 0 0) k in
  upd_con (set_screen_ptrs init_screen init_screen) k.

(** ** Characters *)

(** Character and attribute of the cell number [i]. *)
Definition put_cell (i c : Z) k : kernel :=
  poke (video_mem + Z.shiftl i 1 + 1) ATTRIB (poke (video_mem + Z.shiftl i 1) c k).

(** [video_mem[to << 1] = video_mem[from << 1]], and the attribute byte. *)
Definition copy_cell (to_index from_index : Z) k : kernel :=
  let k := poke (video_mem + Z.shiftl to_index 1)
                (peek k (video_mem + Z.shiftl from_index 1)) k in
  poke (video_mem + (Z.shiftl to_index 1 + 1))
       (peek k (video_mem + (Z.shiftl from_index 1 + 1))) k.

Definition scroll_row (row : Z) k : kernel :=
  for_up (λ col k, copy_cell (row * NUM_COLS + col) ((row + 1) * NUM_COLS + col) k)
         0 NUM_COLS k.

Definition up_scroll_for_one_line k : kernel :=
  let k := for_up scroll_row START_HEIGHT (NUM_ROWS - 1) k in
  let k := upd_con (λ c, con_set_y (con_y c - 1) c) k in
  for_up (λ i k, put_cell ((NUM_ROWS - 1) * NUM_COLS + i) 32 k) 0 NUM_COLS k.

(** [if (viewing_term_ptr->tid == running_term_ptr->tid) calib_cursor();] *)
Definition calib_if_viewing k : kernel :=
  if t_tid (viewing k) =? t_tid (running k) then calib_cursor k else k.

(** The end of [nb_putc] after a newline or a printed character. *)
Definition putc_finish k : kernel :=
  let k := if con_y (con k) =? NUM_ROWS then up_scroll_for_one_line k else k in
  calib_if_viewing k.

Definition putc_backspace k : kernel :=
  if (con_x (con k) =? 0) && (con_y (con k) =? 0) then calib_if_viewing k
  else
    let k := if con_x (con k) =? 0
             then upd_con (λ c, let c := con_set_x NUM_COLS c in con_set_y (con_y c - 1) c) k
             else k in
    let k := put_cell (NUM_COLS * con_y (con k) + con_x (con k) - 1) 32 k in
    let k := upd_con (λ c, con_set_x (con_x c - 1) c) k in
    calib_if_viewing k.

Definition putc_newline k : kernel :=
  putc_finish (upd_con (λ c, con_set_x 0 (con_set_y (con_y c + 1) c)) k).

Definition putc_char (c : Z) k : kernel :=
  let k := put_cell (NUM_COLS * con_y (con k) + con_x (con k)) c k in
  let k := upd_con (λ c, con_set_x (con_x c + 1) c) k in
  let k := if con_x (con k) =? NUM_COLS
           then upd_con (λ c, con_set_x 0 (con_set_y (con_y c + 1) c)) k else k in
  putc_finish k.

(** The call [nb_putc(' ')] for a NUL goes straight to the last branch. *)
Definition nb_putc (c : Z) k : kernel :=
  let c := u8 c in
  if (c =? 10) || (c =? 13) then putc_newline k
  else if c =? 8 then putc_backspace k
  else if c =? 0 then putc_char 32 k
  else putc_char c k.

(** The body of [clear] between the two mappings. *)
Definition clear_fill k : kernel :=
  let k := for_up (λ i k, put_cell i 32 k) 30 (NUM_ROWS * NUM_COLS) k in
  let k := upd_con (con_set_x 0) k in
  let k := upd_con (con_set_y START_HEIGHT) k in
  calib_cursor k.

Definition clear k : kernel :=
  let k := change_vidmem_mapping (t_tid (viewing k)) k in
  let k := clear_fill k in
  change_vidmem_mapping (t_tid (running k)) k.

(** The characters count up, for the test of the clock. *)
Definition test_interrupts k : kernel :=
  for_up (λ i k, poke (video_mem + Z.shiftl i 1) (peek k (video_mem + Z.shiftl i 1) + 1) k) 0
    (NUM_ROWS * NUM_COLS) k.

(** ** Strings *)

(** One round of the loop of [puts]; [None] of the whole: no terminator is met. *)
Definition puts_step (s : Z) (st : Z * kernel) : Z * kernel + Z * kernel :=
  let '(index, k) := st in
  if peek k (s + index) =? 0 then inr (index, k)
  else inl (index + 1, nb_putc (peek k (s + index)) k).

Definition puts (s : Z) k : option (Z * kernel) := while32 (puts_step s) (0, k).

(** A string that the kernel does not hold in [pmem]: a literal, or a local array. *)
Definition put_list (l : list Z) k : kernel := foldl (λ k c, nb_putc c k) k l.

(** The NUL-terminated string at [a] in a local array. *)
Fixpoint local_string (n : nat) (m : mem) (a : Z) : list Z :=
  match n with
  | O => []
  | S n => let c := ld8 (X := flat) m a in
           if c =? 0 then [] else c :: local_string n m (a + 1)
  end.

(** [itoa] into a local array, and the string it leaves. *)
Definition conv (value radix : Z) : option (list Z) :=
  (λ m, local_string 64 m 0) <$> itoa (X := flat) ∅ value 0 radix.

(** The [%#x] padding: '0' from index [starting_index] to 7 in front of the digits,
    which start at index 8. *)
Definition conv_hex8 (value : Z) : option (list Z) :=
  (λ l, replicate (8 - length l) 48 ++ l) <$> conv value 16.

(** [printf], on the characters of the format and the words of the argument list.
    [mode] is [None] between conversions and [Some alternate] inside one.  A
    conversion without an argument, or a format that ends inside a conversion, has
    no defined result. *)
Fixpoint printf_loop (fmt : list Z) (mode : option bool) (args : list Z) k : option kernel :=
  match fmt with
  | [] => match mode with None => Some k | Some _ => None end
  | c :: fmt =>
      match mode with
      | None =>
          if c =? 37 then printf_loop fmt (Some false) args k
          else printf_loop fmt None args (nb_putc c k)
      | Some alternate =>
          if c =? 37 then printf_loop fmt None args (nb_putc 37 k)
          else if c =? 35 then printf_loop fmt (Some true) args k
          else if c =? 120 then
            match args with
            | [] => None
            | a :: args =>
                match (if alternate then conv_hex8 (u32 a) else conv (u32 a) 16) with
                | None => None
                | Some l => printf_loop fmt None args (put_list l k)
                end
            end
          else if c =? 117 then
            match args with
            | [] => None
            | a :: args =>
                match conv (u32 a) 10 with
                | None => None
                | Some l => printf_loop fmt None args (put_list l k)
                end
            end
          else if c =? 100 then
            match args with
            | [] => None
            | a :: args =>
                let value := s32 a in
                match (if value <? 0 then cons 45 <$> conv (u32 (- value)) 10
                       else conv value 10) with
                | None => None
                | Some l => printf_loop fmt None args (put_list l k)
                end
            end
          else if c =? 99 then
            match args with
            | [] => None
            | a :: args => printf_loop fmt None args (nb_putc a k)
            end
          else if c =? 115 then
            match args with
            | [] => None
            | a :: args =>
                match puts a k with
                | None => None
                | Some (_, k) => printf_loop fmt None args k
                end
            end
          else printf_loop fmt None args k
      end
  end.

Definition printf (format : list Z) (args : list Z) k : option (Z * kernel) :=
  (λ k, (Z.of_nat (length format), k)) <$> printf_loop format None args k.

(** A message without conversions; [printf_plain] below shows that it is printed. *)
Definition kprint (s : list Z) k : kernel :=
  match printf s [] k with Some (_, k) => k | None => k end.

(** ** Terminals in memory *)

(** The shape of the terminal array that [terminal_init] builds and everything else
    keeps. *)
Record con_ok (c : console) : Prop := {
  co_len : length (term_arr c) = 3%nat;
  co_tid : ∀ i, 0 ≤ i < 3 → t_tid (con_term c i) = i;
  co_vbuf : ∀ i, 0 ≤ i < 3 → t_vid_mem_buffer (con_term c i) = VIDEO_START + (i + 1) * _4K;
  co_next : ∀ i, 0 ≤ i < 3 → t_next_term_to_run (con_term c i) = (i + 1) mod 3;
  co_cursor : ∀ i, 0 ≤ i < 3 → 0 ≤ t_cursor_x (con_term c i) < 80 ∧
                               0 ≤ t_cursor_y (con_term c i) < 25;
  co_kbd : ∀ i, 0 ≤ i < 3 → length (t_kbd_buf (con_term c i)) = 128%nat;
  co_pos : ∀ i, 0 ≤ i < 3 → 0 ≤ t_buf_pos (con_term c i) ≤ 127;
  co_run : 0 ≤ running_term_ptr c < 3;
  co_view : 0 ≤ viewing_term_ptr c < 3;
  co_buf_pos : 0 ≤ buf_pos c ≤ 127;
}.

(** The keyboard types into the terminal in view. *)
Definition kbd_ok (c : console) : Prop := kbd_buf c = Some (viewing_term_ptr c).

(** The page frame that holds the screen of a terminal: video memory for the one in
    view, its own buffer for the others. *)
Definition frame_of (c : console) (tid : Z) : Z :=
  if tid =? viewing_term_ptr c then VPAGE else VPAGE + 1 + tid.

Definition fish_of (c : console) (tid : Z) : option Z :=
  when_present (t_vidmap_flag (con_term c tid)) (frame_of c tid).

(** The screen of terminal [tid] is the one the kernel writes. *)
Record mapped k (tid : Z) (prog : option Z) : Prop := {
  mp_lay : layout_ok;
  mp_con : con_ok (con k);
  mp_tid : 0 ≤ tid < 3;
  mp_x : screen_x_ptr (con k) = cursor_of tid;
  mp_y : screen_y_ptr (con k) = cursor_of tid;
  mp_mmu : ∃ f fl, mmu_ok (kmmu k) (AMap (frame_of (con k) tid) f prog)
                     (AMap (frame_of (con k) tid) fl prog);
}.

Lemma frame_of_range c tid : 0 ≤ tid < 3 → VPAGE ≤ frame_of c tid ≤ VPAGE + 3.
Proof. intros. unfold frame_of. case_test; lia. Qed.

Lemma con_term_upd c i f j :
  length (term_arr c) = 3%nat → 0 ≤ i < 3 → 0 ≤ j →
  con_term (con_upd_term i f c) j = if decide (i = j) then f (con_term c i) else con_term c j.
Proof.
  intros Hlen Hi Hj. unfold con_term, con_upd_term. simpl.
  rewrite !nth_lookup. case_decide as E.
  - subst j. rewrite list_lookup_alter_eq.
    destruct (lookup_lt_is_Some_2 (term_arr c) (Z.to_nat i)) as [t Ht]; [lia|].
    by rewrite Ht.
  - rewrite list_lookup_alter_ne by lia. done.
Qed.

(** Updates of a terminal that keep the array's shape. *)
Record term_upd_ok (f : terminal_t → terminal_t) : Prop := {
  tu_tid : ∀ t, t_tid (f t) = t_tid t;
  tu_vbuf : ∀ t, t_vid_mem_buffer (f t) = t_vid_mem_buffer t;
  tu_next : ∀ t, t_next_term_to_run (f t) = t_next_term_to_run t;
}.

Lemma con_ok_upd c i f :
  con_ok c → 0 ≤ i < 3 → term_upd_ok f →
  (0 ≤ t_cursor_x (f (con_term c i)) < 80 ∧ 0 ≤ t_cursor_y (f (con_term c i)) < 25) →
  length (t_kbd_buf (f (con_term c i))) = 128%nat → 0 ≤ t_buf_pos (f (con_term c i)) ≤ 127 →
  con_ok (con_upd_term i f c).
Proof.
  intros [] Hi [] Hcur Hkbd Hpos.
  constructor; try (intros j Hj; rewrite con_term_upd by (done || lia); case_decide; [subst j|]);
    simpl; rewrite ?length_alter, ?tu_tid0, ?tu_vbuf0, ?tu_next0; auto.
Qed.

(** ** The effect of an output routine

    While the screen of [tid] is mapped, everything the output routines do to a
    kernel [k] is to change bytes of one frame, the cursor of [tid], and the
    display controller: their results have the form [out k tid m d x y]. *)

Definition set_cursor (x y : Z) (t : terminal_t) : terminal_t :=
  set_t_cursor_y y (set_t_cursor_x x t).

Definition out k (tid : Z) (m : mem) (d : dev) (x y : Z) : kernel :=
  set_mem m (set_io d (upd_term tid (set_cursor x y) k)).

(** The memory after writing cell [i] of a frame, and after copying a cell. *)
Definition vput (f i c : Z) (m : mem) : mem :=
  <[f * _4K + 2 * i + 1 := ATTRIB]> (<[f * _4K + 2 * i := u8 c]> m).

(** Byte [j] of a frame. *)
Definition vbyte (m : mem) (f j : Z) : Z := u8 (default 0 (m !! (f * _4K + j))).

Definition vcopy (f i j : Z) (m : mem) : mem :=
  let m := <[f * _4K + 2 * i := vbyte m f (2 * j)]> m in
  <[f * _4K + 2 * i + 1 := vbyte m f (2 * j + 1)]> m.

Section mapped.
Context (k : kernel) (tid : Z) (prog : option Z).
Hypothesis Hmap : mapped k tid prog.

Local Abbreviation F := (frame_of (con k) tid).

Lemma mapped_len : length (term_arr (con k)) = 3%nat.
Proof. apply Hmap. Qed.

Lemma out_self : out k tid (pmem k) (io k) (con_x (con k)) (con_y (con k)) = k.
Proof.
  unfold out, upd_term, upd_con, con_upd_term, con_x, con_y.
  rewrite (mp_x _ _ _ Hmap), (mp_y _ _ _ Hmap).
  assert (alter (set_cursor (t_cursor_x (con_term (con k) tid))
            (t_cursor_y (con_term (con k) tid))) (Z.to_nat tid) (term_arr (con k))
          = term_arr (con k)) as E.
  { apply list_eq. intros i. rewrite list_lookup_alter. case_decide as Ei; [subst i|done].
    unfold con_term. rewrite nth_lookup.
    destruct (term_arr (con k) !! Z.to_nat tid) as [[]|]; done. }
  rewrite E. by destruct k as [????[]].
Qed.

Lemma con_term_out m d x y j :
  0 ≤ j → con_term (con (out k tid m d x y)) j =
    if decide (tid = j) then set_cursor x y (con_term (con k) tid) else con_term (con k) j.
Proof. intros. simpl. apply con_term_upd; [apply mapped_len|apply Hmap|done]. Qed.

Lemma con_x_out m d x y : con_x (con (out k tid m d x y)) = x.
Proof.
  unfold con_x. simpl. rewrite (mp_x _ _ _ Hmap).
  rewrite con_term_upd by (apply mapped_len || apply Hmap). by rewrite decide_True.
Qed.

Lemma con_y_out m d x y : con_y (con (out k tid m d x y)) = y.
Proof.
  unfold con_y. simpl. rewrite (mp_y _ _ _ Hmap).
  rewrite con_term_upd by (apply mapped_len || apply Hmap). by rewrite decide_True.
Qed.

Lemma out_set_x m d x y v :
  upd_con (con_set_x v) (out k tid m d x y) = out k tid m d v y.
Proof.
  unfold upd_con, con_set_x. simpl. rewrite (mp_x _ _ _ Hmap).
  unfold out, upd_term, upd_con, con_upd_term, set_con. simpl.
  unfold set_term_arr. simpl. rewrite list_alter_alter_eq. done.
Qed.

Lemma out_set_y m d x y v :
  upd_con (con_set_y v) (out k tid m d x y) = out k tid m d x v.
Proof.
  unfold upd_con, con_set_y. simpl. rewrite (mp_y _ _ _ Hmap).
  unfold out, upd_term, upd_con, con_upd_term, set_con. simpl.
  unfold set_term_arr. simpl. rewrite list_alter_alter_eq. done.
Qed.

Lemma upd_con_comp (f g : console → console) (k0 : kernel) :
  upd_con (λ c, f (g c)) k0 = upd_con f (upd_con g k0).
Proof. done. Qed.

Lemma upd_con_at (f : console → console → console) (k0 : kernel) :
  upd_con (λ c, f c c) k0 = upd_con (f (con k0)) k0.
Proof. done. Qed.

(** The cells behind the addresses of video memory. *)
Lemma vcell i : 0 ≤ i < _4K → cell (X := kx k) (video_mem + i) = F * _4K + i.
Proof.
  intros Hi. destruct Hmap as [Hl _ _ _ _ (f & fl & Hm)].
  eapply mmu_xlat_ok; [done|done|].
  unfold video_mem, VIDEO_START, _4K in *. rewrite u32_small by lia.
  unfold amap_page, _4K, VPAGE. simpl. change (Z.shiftr VIDEO_START 12) with 184.
  replace ((753664 + i) / 4096) with 184 by (Z.div_mod_to_equations; lia). simpl.
  f_equal. Z.div_mod_to_equations. lia.
Qed.

Lemma poke_out i v m d x y :
  0 ≤ i < _4K → poke (video_mem + i) v (out k tid m d x y) =
    out k tid (<[F * _4K + i := u8 v]> m) d x y.
Proof.
  intros Hi. unfold poke, st8. change (kx (out k tid m d x y)) with (kx k).
  by rewrite vcell.
Qed.

Lemma peek_out i m d x y :
  0 ≤ i < _4K → peek (out k tid m d x y) (video_mem + i) = vbyte m F i.
Proof.
  intros Hi. unfold peek, ld8. change (kx (out k tid m d x y)) with (kx k).
  by rewrite vcell.
Qed.

Lemma put_cell_out i c m d x y :
  0 ≤ i < 2048 → put_cell i c (out k tid m d x y) = out k tid (vput F i c m) d x y.
Proof.
  intros Hi. unfold put_cell. rewrite Z.shiftl_mul_pow2 by lia.
  rewrite <- Z.add_assoc, !poke_out by (unfold _4K; lia). unfold vput.
  do 2 f_equal; [lia|]. do 2 f_equal. lia.
Qed.

Lemma copy_cell_out i j m d x y :
  0 ≤ i < 2048 → 0 ≤ j < 2048 →
  copy_cell i j (out k tid m d x y) = out k tid (vcopy F i j m) d x y.
Proof.
  intros Hi Hj. unfold copy_cell. rewrite !Z.shiftl_mul_pow2 by lia.
  rewrite poke_out by (unfold _4K; lia). rewrite poke_out by (unfold _4K; lia).
  rewrite !peek_out by (unfold _4K; lia).
  unfold vcopy, vbyte. rewrite !u8_idem. change (2 ^ 1) with 2.
  rewrite !(Z.mul_comm _ 2). by rewrite Z.add_assoc.
Qed.

Lemma calib_cursor_out m d x y : ∃ d', calib_cursor (out k tid m d x y) = out k tid m d' x y.
Proof. eexists. reflexivity. Qed.

Lemma calib_if_viewing_out m d x y :
  ∃ d', calib_if_viewing (out k tid m d x y) = out k tid m d' x y.
Proof.
  unfold calib_if_viewing. case_test; [apply calib_cursor_out|by exists d].
Qed.

(** The invariant survives as long as the cursor stays on the screen. *)
Lemma mapped_out m d x y :
  0 ≤ x < 80 → 0 ≤ y < 25 → mapped (out k tid m d x y) tid prog.
Proof.
  intros Hx Hy. destruct Hmap. constructor; try done. simpl.
  pose proof mp_con0 as [].
  apply con_ok_upd; [done|done|by constructor|simpl; auto..].
Qed.
End mapped.

(** ** The abstract screen *)

(** A terminal's screen: the cursor and the 2000 cells, character and attribute. *)
Record screen := Screen { sx : Z; sy : Z; cells : list (Z * Z) }.

Definition blank : Z * Z := (32, 7).

(** Row 0 stays, rows 2 to 24 move up, an empty row comes in. *)
Definition scroll_spec (s : screen) : screen :=
  Screen (sx s) (sy s - 1) (take 80 (cells s) ++ drop 160 (cells s) ++ replicate 80 blank).

Definition wrap_spec (s : screen) : screen :=
  if sy s =? 25 then scroll_spec s else s.

Definition putc_spec (c : Z) (s : screen) : screen :=
  if (c =? 10) || (c =? 13) then wrap_spec (Screen 0 (sy s + 1) (cells s))
  else if c =? 8 then
    if (sx s =? 0) && (sy s =? 0) then s
    else
      let '(x, y) := if sx s =? 0 then (79, sy s - 1) else (sx s - 1, sy s) in
      Screen x y (<[Z.to_nat (80 * y + x) := blank]> (cells s))
  else
    let l := <[Z.to_nat (80 * sy s + sx s) := (if c =? 0 then 32 else c, 7)]> (cells s) in
    wrap_spec (if sx s + 1 =? 80 then Screen 0 (sy s + 1) l else Screen (sx s + 1) (sy s) l).

Definition screen_ok (s : screen) : Prop :=
  0 ≤ sx s < 80 ∧ 0 ≤ sy s < 25 ∧ length (cells s) = 2000%nat.

(** The cells of a frame. *)
Definition vcells (m : mem) (f : Z) : list (Z * Z) :=
  (λ i, (vbyte m f (2 * i), vbyte m f (2 * i + 1))) <$> seqZ 0 2000.

Definition in_frame (f p : Z) : Prop := f * _4K ≤ p < f * _4K + 4000.

(** The screen of terminal [tid] as memory and the terminal record hold it. *)
Definition screen_of k (tid : Z) : screen :=
  Screen (t_cursor_x (term k tid)) (t_cursor_y (term k tid))
         (vcells (pmem k) (frame_of (con k) tid)).

Lemma length_vcells m f : length (vcells m f) = 2000%nat.
Proof. unfold vcells. by rewrite length_fmap, length_seqZ. Qed.

Lemma lookup_vcells m f i :
  0 ≤ i < 2000 →
  vcells m f !! Z.to_nat i = Some (vbyte m f (2 * i), vbyte m f (2 * i + 1)).
Proof.
  intros Hi. unfold vcells. rewrite list_lookup_fmap, (lookup_seqZ_lt 0 2000) by lia.
  simpl. do 3 f_equal; lia.
Qed.

(** Two cell lists are equal when they agree at every cell. *)
Lemma vcells_eq m f l :
  length l = 2000%nat →
  (∀ i, 0 ≤ i < 2000 →
     l !! Z.to_nat i = Some (vbyte m f (2 * i), vbyte m f (2 * i + 1))) →
  vcells m f = l.
Proof.
  intros Hl H. apply list_eq. intros i. destruct (decide (i < 2000)%nat) as [Hi|Hi].
  - rewrite <- (Nat2Z.id i), H, lookup_vcells by lia. done.
  - rewrite !lookup_ge_None_2; rewrite ?length_vcells, ?Hl; (done || lia).
Qed.

Lemma vbyte_insert m f i j v :
  vbyte (<[f * _4K + i := u8 v]> m) f j = if decide (i = j) then u8 v else vbyte m f j.
Proof.
  unfold vbyte. rewrite lookup_insert. case_decide as E.
  - rewrite decide_True by lia. apply u8_idem.
  - by rewrite decide_False by lia.
Qed.

Lemma u8_vbyte m f j : u8 (vbyte m f j) = vbyte m f j.
Proof. apply u8_idem. Qed.

Lemma vbyte_vput m f i c j :
  vbyte (vput f i c m) f j =
    if decide (j = 2 * i) then u8 c else if decide (j = 2 * i + 1) then 7 else vbyte m f j.
Proof.
  unfold vput. rewrite <- Z.add_assoc. change ATTRIB with (u8 ATTRIB).
  rewrite !vbyte_insert. repeat case_decide; (done || lia).
Qed.

Lemma vbyte_vcopy m f i j q :
  i ≠ j →
  vbyte (vcopy f i j m) f q =
    if decide (q = 2 * i) then vbyte m f (2 * j)
    else if decide (q = 2 * i + 1) then vbyte m f (2 * j + 1) else vbyte m f q.
Proof.
  intros Hij. unfold vcopy. set (m1 := <[_ := vbyte m f (2 * j)]> m).
  assert (∀ q, vbyte m1 f q = if decide (2 * i = q) then vbyte m f (2 * j) else vbyte m f q)
    as B.
  { intros p. unfold m1. rewrite <- (u8_vbyte m f (2 * j)), vbyte_insert. done. }
  rewrite <- Z.add_assoc, <- (u8_vbyte m1 f (2 * j + 1)), vbyte_insert, u8_vbyte, !B.
  repeat case_decide; (done || lia).
Qed.

Lemma vcells_vput m f i c :
  0 ≤ i < 2000 → vcells (vput f i c m) f = <[Z.to_nat i := (u8 c, 7)]> (vcells m f).
Proof.
  intros Hi. apply vcells_eq; [by rewrite length_insert, length_vcells|].
  intros j Hj. rewrite !vbyte_vput. destruct (decide (j = i)) as [->|Hne].
  - rewrite list_lookup_insert_eq by (rewrite length_vcells; lia).
    repeat case_decide; (done || lia).
  - rewrite list_lookup_insert_ne, lookup_vcells by lia. repeat case_decide; (done || lia).
Qed.

Lemma unch_vput m f i c : 0 ≤ i < 2000 → unch (in_frame f) m (vput f i c m).
Proof.
  intros Hi p Hp. unfold vput, in_frame in *.
  by rewrite !lookup_insert_ne by (unfold _4K in *; lia).
Qed.

Lemma unch_vcopy m f i j : 0 ≤ i < 2000 → unch (in_frame f) m (vcopy f i j m).
Proof.
  intros Hi p Hp. unfold vcopy, in_frame in *.
  by rewrite !lookup_insert_ne by (unfold _4K in *; lia).
Qed.

(** ** Scrolling *)

Definition vscroll_row (f row : Z) (m : mem) : mem :=
  for_up (λ col m, vcopy f (row * NUM_COLS + col) ((row + 1) * NUM_COLS + col) m) 0 NUM_COLS m.

Definition vscroll (f : Z) (m : mem) : mem :=
  for_up (λ i m, vput f ((NUM_ROWS - 1) * NUM_COLS + i) 32 m) 0 NUM_COLS
    (for_up (vscroll_row f) START_HEIGHT (NUM_ROWS - 1) m).

(** Cells [80 .. n-1] have received the cell one row below. *)
Definition shifted (f n : Z) (m m' : mem) : Prop :=
  unch (in_frame f) m m' ∧
  ∀ q, 0 ≤ q < 4000 →
    vbyte m' f q = if decide (160 ≤ q < 2 * n) then vbyte m f (q + 160) else vbyte m f q.

Lemma shifted_step f n m m' :
  80 ≤ n < 1920 → shifted f n m m' → shifted f (n + 1) m (vcopy f n (n + 80) m').
Proof.
  intros Hn [Hu Hs]. split; [eapply unch_trans; [done|apply unch_vcopy; lia]|].
  intros q Hq. rewrite vbyte_vcopy by lia.
  rewrite (Hs (2 * (n + 80))), (Hs (2 * (n + 80) + 1)), (Hs q) by lia.
  repeat case_decide; subst; try lia; f_equal; lia.
Qed.

Lemma vscroll_shifted f m :
  shifted f 1920 m (for_up (vscroll_row f) START_HEIGHT (NUM_ROWS - 1) m).
Proof.
  unfold START_HEIGHT, NUM_ROWS. change (25 - 1) with 24.
  apply (for_up_inv (vscroll_row f) (λ r m', shifted f (r * 80) m m')); [lia| |].
  - split; [apply unch_refl|]. intros q Hq. by rewrite decide_False by lia.
  - intros r m1 Hr H1. unfold vscroll_row, NUM_COLS.
    replace ((r + 1) * 80) with (r * 80 + 80) at 1 by lia.
    apply (for_up_inv _ (λ c m', shifted f (r * 80 + c) m m')); [lia|by rewrite Z.add_0_r|].
    intros c m2 Hc H2. rewrite Z.add_assoc. replace ((r + 1) * 80 + c) with (r * 80 + c + 80) by lia.
    apply shifted_step; [lia|done].
Qed.

(** The first [n] cells of the last row have been cleared. *)
Definition blanked (f n : Z) (m m' : mem) : Prop :=
  unch (in_frame f) m m' ∧
  ∀ q, 0 ≤ q < 4000 →
    vbyte m' f q = if decide (3840 ≤ q < 3840 + 2 * n)
                   then (if decide (q mod 2 = 0) then 32 else 7) else vbyte m f q.

Lemma vblank_row f m : blanked f 80 m (for_up (λ i m, vput f (1920 + i) 32 m) 0 80 m).
Proof.
  apply (for_up_inv _ (λ i m2, blanked f i m m2)); [lia| |].
  - split; [apply unch_refl|]. intros q Hq. by rewrite decide_False by lia.
  - intros i m2 Hi [IHu IHs]. split; [eapply unch_trans; [done|apply unch_vput; lia]|].
    intros q Hq. rewrite vbyte_vput, IHs by done.
    repeat case_decide; try lia; try done; Z.div_mod_to_equations; lia.
Qed.

Lemma vscroll_spec f m :
  unch (in_frame f) m (vscroll f m) ∧
  vcells (vscroll f m) f =
    take 80 (vcells m f) ++ drop 160 (vcells m f) ++ replicate 80 blank.
Proof.
  unfold vscroll. set (m1 := for_up (vscroll_row f) _ _ m).
  destruct (vscroll_shifted f m) as [Hu1 Hs1]. fold m1 in Hu1, Hs1. clearbody m1.
  unfold NUM_ROWS, NUM_COLS. change ((25 - 1) * 80) with 1920.
  destruct (vblank_row f m1) as [Hu2 Hs2].
  set (m2 := for_up _ 0 80 m1) in *. clearbody m2.
  split; [by eapply unch_trans|].
  apply vcells_eq.
  { rewrite !length_app, length_take, length_drop, length_replicate, length_vcells. lia. }
  intros i Hi. rewrite !Hs2, !Hs1 by lia.
  destruct (decide (i < 80)); [|destruct (decide (i < 1920))].
  - rewrite lookup_app_l by (rewrite length_take, length_vcells; lia).
    rewrite lookup_take_lt, lookup_vcells by lia. by rewrite !decide_False by lia.
  - rewrite lookup_app_r by (rewrite length_take, length_vcells; lia).
    rewrite length_take, length_vcells, lookup_app_l by (rewrite length_drop, length_vcells; lia).
    rewrite lookup_drop. replace (160 + (Z.to_nat i - 80 `min` 2000))%nat
      with (Z.to_nat (i + 80)) by lia. rewrite lookup_vcells by lia.
    rewrite !(decide_False (P := 3840 ≤ _ < _)), !decide_True by lia. do 3 f_equal; lia.
  - rewrite lookup_app_r by (rewrite length_take, length_vcells; lia).
    rewrite length_take, length_vcells, lookup_app_r by (rewrite length_drop, length_vcells; lia).
    rewrite length_drop, length_vcells, lookup_replicate_2 by lia.
    rewrite !(decide_True (P := 3840 ≤ _ < _)) by lia.
    rewrite decide_True, decide_False by (Z.div_mod_to_equations; lia). done.
Qed.

(** ** Refinement *)

(** [k'] is a state reached from [k] by output on the screen of [tid], whose content
    is then [s]. *)
Definition shows k (tid : Z) (m : mem) (s : screen) (k' : kernel) : Prop :=
  ∃ m' d', k' = out k tid m' d' (sx s) (sy s) ∧
    unch (in_frame (frame_of (con k) tid)) m m' ∧
    vcells m' (frame_of (con k) tid) = cells s.

Section refine.
Context (k : kernel) (tid : Z) (prog : option Z).
Hypothesis Hmap : mapped k tid prog.

Local Abbreviation F := (frame_of (con k) tid).

Lemma up_scroll_out m d x y :
  up_scroll_for_one_line (out k tid m d x y) = out k tid (vscroll F m) d x (y - 1).
Proof.
  unfold up_scroll_for_one_line.
  rewrite (for_up_map (λ m, out k tid m d x y) (vscroll_row F)).
  - rewrite (upd_con_at (λ c0, con_set_y (con_y c0 - 1))).
    rewrite (con_y_out k tid prog), (out_set_y k tid prog) by done.
    apply (for_up_map (λ m, out k tid m d x (y - 1))
             (λ i m, vput F ((NUM_ROWS - 1) * NUM_COLS + i) 32 m)).
    intros i m' Hi. apply (put_cell_out k tid prog); [done|].
    unfold NUM_ROWS, NUM_COLS in *. lia.
  - intros row m' Hr. unfold scroll_row, vscroll_row.
    apply (for_up_map (λ m, out k tid m d x y)
      (λ col m, vcopy F (row * NUM_COLS + col) ((row + 1) * NUM_COLS + col) m)).
    intros col m'' Hc. unfold NUM_ROWS, NUM_COLS, START_HEIGHT in *.
    apply (copy_cell_out k tid prog); [done|lia|lia].
Qed.

Lemma putc_finish_shows m d x y :
  shows k tid m (wrap_spec (Screen x y (vcells m F))) (putc_finish (out k tid m d x y)).
Proof.
  unfold putc_finish, wrap_spec. rewrite (con_y_out k tid prog) by done.
  change NUM_ROWS with 25. simpl. case_test.
  - rewrite up_scroll_out. destruct (calib_if_viewing_out k tid (vscroll F m) d x (y - 1))
      as [d' ->]. destruct (vscroll_spec F m) as [Hu Hc].
    exists (vscroll F m), d'. split; [reflexivity|split; [exact Hu|exact Hc]].
  - destruct (calib_if_viewing_out k tid m d x y) as [d' ->].
    exists m, d'. split_and!; [done|apply unch_refl|done].
Qed.

Lemma shows_mono m m0 s k' :
  unch (in_frame F) m m0 → shows k tid m0 s k' → shows k tid m s k'.
Proof.
  intros Hu (m' & d' & -> & Hu' & Hc). exists m', d'. split_and!; [done| |done].
  by eapply unch_trans.
Qed.

Lemma putc_backspace_shows m d x y :
  0 ≤ x < 80 → 0 ≤ y < 25 →
  shows k tid m (putc_spec 8 (Screen x y (vcells m F))) (putc_backspace (out k tid m d x y)).
Proof.
  intros Hx Hy. unfold putc_backspace, putc_spec.
  rewrite (con_x_out k tid prog), (con_y_out k tid prog) by done. simpl.
  destruct ((x =? 0) && (y =? 0)) eqn:E0.
  { destruct (calib_if_viewing_out k tid m d x y) as [d' ->].
    exists m, d'. split_and!; [done|apply unch_refl|done]. }
  rewrite (upd_con_comp (λ c, con_set_y (con_y c - 1) c) (con_set_x NUM_COLS)).
  rewrite (out_set_x k tid prog) by done.
  rewrite (upd_con_at (λ c0, con_set_y (con_y c0 - 1))).
  rewrite (con_y_out k tid prog), (out_set_y k tid prog) by done.
  assert (∀ x y, 0 < x ≤ 80 → 0 ≤ y < 25 → shows k tid m
    (Screen (x - 1) y (<[Z.to_nat (80 * y + (x - 1)) := blank]> (vcells m F)))
    (calib_if_viewing (upd_con (λ c, con_set_x (con_x c - 1) c)
       (put_cell (80 * y + x - 1) 32 (out k tid m d x y))))) as Hstep.
  { clear x y Hx Hy E0. intros x y Hx Hy.
    rewrite (put_cell_out k tid prog) by (done || lia).
    rewrite (upd_con_at (λ c0, con_set_x (con_x c0 - 1))).
    rewrite (con_x_out k tid prog), (out_set_x k tid prog) by done.
    destruct (calib_if_viewing_out k tid (vput F (80 * y + x - 1) 32 m) d (x - 1) y)
      as [d' ->].
    eexists _, d'. split_and!; [done|apply unch_vput; lia|].
    rewrite vcells_vput by lia. simpl. do 2 f_equal. lia. }
  destruct (Z.eqb_spec x 0) as [->|Hne]; simpl in E0.
  - rewrite (con_x_out k tid prog), (con_y_out k tid prog) by done.
    apply Z.eqb_neq in E0. apply (Hstep 80 (y - 1)); unfold NUM_COLS; lia.
  - rewrite (con_x_out k tid prog), (con_y_out k tid prog) by done.
    apply (Hstep x y); lia.
Qed.

Lemma putc_char_shows m d x y c :
  0 ≤ x < 80 → 0 ≤ y < 25 →
  let l := <[Z.to_nat (80 * y + x) := (u8 c, 7)]> (vcells m F) in
  shows k tid m (wrap_spec (if x + 1 =? 80 then Screen 0 (y + 1) l else Screen (x + 1) y l))
    (putc_char c (out k tid m d x y)).
Proof.
  intros Hx Hy l. unfold putc_char.
  rewrite (con_x_out k tid prog), (con_y_out k tid prog) by done.
  rewrite (put_cell_out k tid prog) by (done || (unfold NUM_COLS; lia)).
  rewrite (upd_con_at (λ c0, con_set_x (con_x c0 + 1))).
  rewrite (con_x_out k tid prog), (out_set_x k tid prog), (con_x_out k tid prog) by done.
  rewrite (upd_con_comp (con_set_x 0) (λ c, con_set_y (con_y c + 1) c)).
  rewrite (upd_con_at (λ c0, con_set_y (con_y c0 + 1))).
  rewrite (con_y_out k tid prog), (out_set_y k tid prog), (out_set_x k tid prog) by done.
  unfold NUM_COLS. set (m0 := vput F (80 * y + x) c m).
  assert (vcells m0 F = l) as <- by (apply vcells_vput; lia).
  apply (shows_mono m m0); [apply unch_vput; lia|].
  case_test; apply putc_finish_shows.
Qed.

(** [nb_putc] implements [putc_spec]. *)
Lemma nb_putc_shows m d x y c :
  0 ≤ x < 80 → 0 ≤ y < 25 →
  shows k tid m (putc_spec (u8 c) (Screen x y (vcells m F))) (nb_putc c (out k tid m d x y)).
Proof.
  intros Hx Hy. unfold nb_putc, putc_spec.
  destruct ((u8 c =? 10) || (u8 c =? 13)).
  { unfold putc_newline.
    rewrite (upd_con_comp (con_set_x 0) (λ c, con_set_y (con_y c + 1) c)).
    rewrite (upd_con_at (λ c0, con_set_y (con_y c0 + 1))).
    rewrite (con_y_out k tid prog), (out_set_y k tid prog), (out_set_x k tid prog) by done.
    apply putc_finish_shows. }
  destruct (Z.eqb_spec (u8 c) 8) as [E|].
  { pose proof (putc_backspace_shows m d x y Hx Hy) as H. unfold putc_spec in H. exact H. }
  destruct (Z.eqb_spec (u8 c) 0).
  - apply (putc_char_shows m d x y 32 Hx Hy).
  - pose proof (putc_char_shows m d x y (u8 c) Hx Hy) as H. cbv zeta in H.
    rewrite u8_idem in H. exact H.
Qed.
End refine.

Lemma wrap_spec_ok s :
  0 ≤ sx s < 80 → 0 ≤ sy s ≤ 25 → length (cells s) = 2000%nat → screen_ok (wrap_spec s).
Proof.
  intros Hx Hy Hl. unfold wrap_spec, scroll_spec, screen_ok. case_test; cbn [sx sy cells];
    rewrite ?length_app, ?length_take, ?length_drop, ?length_replicate, ?Hl; split_and!; lia.
Qed.

Lemma putc_spec_ok c s : screen_ok s → screen_ok (putc_spec c s).
Proof.
  intros (Hx & Hy & Hl). destruct s as [x y l]; simpl in *. unfold putc_spec; simpl.
  destruct (_ || _); [|destruct (c =? 8)].
  - apply wrap_spec_ok; simpl; lia.
  - destruct (Z.eqb_spec x 0), (Z.eqb_spec y 0); simpl; try done;
      unfold screen_ok; simpl; rewrite ?length_insert; split_and!; lia.
  - destruct (Z.eqb_spec (x + 1) 80); apply wrap_spec_ok; simpl; rewrite ?length_insert; lia.
Qed.

Lemma frame_of_out k tid m d x y t :
  frame_of (con (out k tid m d x y)) t = frame_of (con k) t.
Proof. done. Qed.

Lemma shows_ok k tid prog s k' :
  mapped k tid prog → screen_ok s → shows k tid (pmem k) s k' →
  mapped k' tid prog ∧ screen_of k' tid = s ∧
  unch (in_frame (frame_of (con k) tid)) (pmem k) (pmem k').
Proof.
  intros Hmap (Hx & Hy & _) (m' & d' & -> & Hu & Hc). split_and!; [|destruct s|done].
  - by eapply mapped_out.
  - unfold screen_of, term. rewrite (con_term_out k tid prog), decide_True by (done || apply Hmap).
    rewrite frame_of_out. cbn [sx sy cells] in *. rewrite <- Hc. done.
Qed.

Lemma screen_of_ok k tid prog : mapped k tid prog → screen_ok (screen_of k tid).
Proof.
  intros Hmap. destruct (co_cursor _ (mp_con _ _ _ Hmap) tid (mp_tid _ _ _ Hmap)).
  split_and!; try apply length_vcells; simpl; unfold term; lia.
Qed.

Lemma out_screen k tid prog :
  mapped k tid prog →
  out k tid (pmem k) (io k) (sx (screen_of k tid)) (sy (screen_of k tid)) = k.
Proof.
  intros Hmap. pose proof (out_self k tid prog Hmap) as E. unfold con_x, con_y in E.
  rewrite (mp_x _ _ _ Hmap), (mp_y _ _ _ Hmap) in E. exact E.
Qed.

(** Output in several steps. *)
Lemma shows_trans k tid prog s1 k1 s2 k2 :
  mapped k tid prog → shows k tid (pmem k) s1 k1 → shows k1 tid (pmem k1) s2 k2 →
  shows k tid (pmem k) s2 k2.
Proof.
  intros Hmap (m1 & d1 & -> & Hu1 & Hc1) (m2 & d2 & -> & Hu2 & Hc2).
  exists m2, d2. split_and!; [|by eapply unch_trans|done].
  unfold out, upd_term, upd_con, con_upd_term.
  cbn [con set_mem set_io set_con term_arr set_term_arr]. rewrite list_alter_alter_eq.
  reflexivity.
Qed.

Lemma shows_refl k tid prog :
  mapped k tid prog → shows k tid (pmem k) (screen_of k tid) k.
Proof.
  intros Hmap. exists (pmem k), (io k).
  split_and!; [by rewrite (out_screen k tid prog)|apply unch_refl|done].
Qed.

Lemma nb_putc_step k tid prog c :
  mapped k tid prog →
  shows k tid (pmem k) (putc_spec (u8 c) (screen_of k tid)) (nb_putc c k).
Proof.
  intros Hmap. destruct (screen_of_ok k tid prog Hmap) as (Hx & Hy & _).
  pose proof (nb_putc_shows k tid prog Hmap (pmem k) (io k) _ _ c Hx Hy) as H.
  by rewrite (out_screen k tid prog Hmap) in H.
Qed.

(** A whole string. *)
Definition puts_spec (l : list Z) (s : screen) : screen := foldl (λ s c, putc_spec (u8 c) s) s l.

Lemma puts_spec_ok l s : screen_ok s → screen_ok (puts_spec l s).
Proof.
  revert s. induction l as [|c l IH]; intros s Hs; [done|]. by apply IH, putc_spec_ok.
Qed.

Lemma put_list_step k tid prog l :
  mapped k tid prog → shows k tid (pmem k) (puts_spec l (screen_of k tid)) (put_list l k).
Proof.
  revert k. induction l as [|c l IH]; intros k Hmap; [by eapply shows_refl|].
  pose proof (nb_putc_step k tid prog c Hmap) as H.
  destruct (shows_ok k tid prog _ _ Hmap (putc_spec_ok _ _ (screen_of_ok _ _ _ Hmap)) H)
    as (Hmap' & Es & _).
  simpl. eapply shows_trans; [done|exact H|].
  rewrite <- Es. by apply IH.
Qed.

(** A format without conversions. *)
Lemma printf_plain l args k :
  Forall (λ c, c ≠ 37) l → printf l args k = Some (Z.of_nat (length l), put_list l k).
Proof.
  intros Hl. unfold printf. enough (printf_loop l None args k = Some (put_list l k)) as -> by done.
  revert k. induction Hl as [|c l Hc Hl IH]; intros k; [done|].
  simpl. rewrite (proj2 (Z.eqb_neq c 37) Hc). apply IH.
Qed.

Lemma kprint_plain s k : Forall (λ c, c ≠ 37) s → kprint s k = put_list s k.
Proof. intros H. unfold kprint. by rewrite printf_plain. Qed.

(** ** Mapping *)

(** The tables after [switch_fish_paging]. *)
Lemma switch_fish_paging_ok k a al tid flag :
  mmu_ok (kmmu k) a al → con_ok (con k) → 0 ≤ tid < 3 →
  let f := if nz flag then VPAGE + 1 + tid else VPAGE in
  ∃ u', switch_fish_paging tid flag k = set_mmu u' k ∧
    mmu_ok u' a (AMap f (when_present (t_vidmap_flag (term k tid)) f) (Paging.prog al)).
Proof.
  intros Hu Hc Ht f. unfold switch_fish_paging.
  assert ((if nz flag then Z.shiftr (t_vid_mem_buffer (term k tid)) 12
           else Z.shiftr VIDEO_START 12) = f) as ->.
  { unfold f. destruct (nz flag); [|done]. unfold term. rewrite (co_vbuf _ Hc) by done.
    rewrite Z.shiftr_div_pow2 by lia. change (2 ^ 12) with _4K.
    rewrite Z.div_add by (unfold _4K; lia).
    change (VIDEO_START / _4K) with 184. change VPAGE with 184. lia. }
  eexists. split; [done|]. eapply set_live_ok; [exact Hu|].
  apply remap_video_ok; [apply Hu|].
  unfold f; change VPAGE with 184; change (2 ^ 20) with 1048576; destruct (nz flag); lia.
Qed.

(** The kernel between two screen mappings. *)
Record kbase k (prog : option Z) : Prop := {
  kb_lay : layout_ok;
  kb_con : con_ok (con k);
  kb_mmu : ∃ a al, mmu_ok (kmmu k) a al ∧ Paging.prog al = prog;
}.

Lemma mapped_base k tid prog : mapped k tid prog → kbase k prog.
Proof. intros [? ? _ _ _ (f & fl & H)]. constructor; [done..|]. by eexists _, _. Qed.

Lemma con_ok_ptrs c x y : con_ok c → con_ok (set_screen_ptrs x y c).
Proof. intros []. by constructor. Qed.

(** [change_vidmem_mapping] selects the screen of [tid]: the kernel's video page and
    the program's [vidmap] page lead to its frame, and only the mapping and the two
    cursor pointers change. *)
Lemma change_vidmem_mapping_ok k prog tid :
  kbase k prog → 0 ≤ tid < 3 →
  let c' := set_screen_ptrs (cursor_of tid) (cursor_of tid) (con k) in
  let a := AMap (frame_of (con k) tid) (fish_of (con k) tid) prog in
  ∃ u', change_vidmem_mapping tid k = set_mmu u' (set_con c' k) ∧ mmu_ok u' a a.
Proof.
  intros [Hl Hc (a0 & al & Hu & Hp)] Ht c' a. unfold change_vidmem_mapping.
  set (k1 := upd_con _ k).
  assert (con_ok (con k1)) as Hc1 by (by apply con_ok_ptrs).
  destruct (switch_fish_paging_ok k1 a0 al tid (b2z (negb (tid =? t_tid (viewing k1)))) Hu Hc1 Ht)
    as (u' & -> & Hu').
  exists (flush_tlb u'). split; [done|]. eapply flush_tlb_ok in Hu'.
  replace (t_tid (viewing k1)) with (viewing_term_ptr (con k)) in Hu'.
  2:{ unfold viewing, term. rewrite (co_tid _ Hc1); [done|]. apply Hc1. }
  subst prog. unfold a, fish_of, frame_of. by destruct (tid =? viewing_term_ptr (con k)).
Qed.

Lemma change_vidmem_mapped k prog tid :
  kbase k prog → 0 ≤ tid < 3 → mapped (change_vidmem_mapping tid k) tid prog.
Proof.
  intros Hk Ht. destruct (change_vidmem_mapping_ok k prog tid Hk Ht) as (u' & -> & Hu').
  destruct Hk. constructor; try done; [by apply con_ok_ptrs|]. by eexists _, _.
Qed.

(** The mapping does not change what is on any screen. *)
Lemma screen_of_ptrs k u' x y t :
  screen_of (set_mmu u' (set_con (set_screen_ptrs x y (con k)) k)) t = screen_of k t.
Proof. done. Qed.

(** Filling cells [30 .. n-1]. *)
Definition cleared (f n : Z) (m m' : mem) : Prop :=
  unch (in_frame f) m m' ∧
  ∀ q, 0 ≤ q < 4000 →
    vbyte m' f q = if decide (60 ≤ q < 2 * n)
                   then (if decide (q mod 2 = 0) then 32 else 7) else vbyte m f q.

Lemma vclear_cleared f m : cleared f 2000 m (for_up (λ i m, vput f i 32 m) 30 2000 m).
Proof.
  apply (for_up_inv _ (λ i m2, cleared f i m m2)); [lia| |].
  - split; [apply unch_refl|]. intros q Hq. by rewrite decide_False by lia.
  - intros i m2 Hi [IHu IHs]. split; [eapply unch_trans; [done|apply unch_vput; lia]|].
    intros q Hq. rewrite vbyte_vput, IHs by done.
    repeat case_decide; try lia; try done; Z.div_mod_to_equations; lia.
Qed.

Lemma cleared_cells f m m' :
  cleared f 2000 m m' → vcells m' f = take 30 (vcells m f) ++ replicate 1970 blank.
Proof.
  intros [_ Hs]. apply vcells_eq.
  { rewrite length_app, length_take, length_replicate, length_vcells. lia. }
  intros i Hi. rewrite !Hs by lia. destruct (decide (i < 30)).
  - rewrite lookup_app_l by (rewrite length_take, length_vcells; lia).
    rewrite lookup_take_lt, lookup_vcells by lia. by rewrite !decide_False by lia.
  - rewrite lookup_app_r by (rewrite length_take, length_vcells; lia).
    rewrite length_take, length_vcells, lookup_replicate_2 by lia.
    rewrite !(decide_True (P := 60 ≤ _ < _)) by lia.
    rewrite decide_True, decide_False by (Z.div_mod_to_equations; lia). done.
Qed.

Lemma clear_step k tid prog :
  mapped k tid prog →
  shows k tid (pmem k)
    (Screen 0 1 (take 30 (cells (screen_of k tid)) ++ replicate 1970 blank)) (clear_fill k).
Proof.
  intros Hmap. set (F := frame_of (con k) tid). unfold clear_fill.
  set (k1 := for_up (λ i k, put_cell i 32 k) 30 (NUM_ROWS * NUM_COLS) k).
  assert (k1 = out k tid (for_up (λ i m, vput F i 32 m) 30 2000 (pmem k)) (io k)
                 (sx (screen_of k tid)) (sy (screen_of k tid))) as E1.
  { unfold k1. rewrite <- (out_screen k tid prog Hmap) at 1.
    change (NUM_ROWS * NUM_COLS) with 2000.
    apply (for_up_map (λ m, out k tid m (io k) (sx (screen_of k tid)) (sy (screen_of k tid)))
      (λ i m, vput F i 32 m)).
    intros i m Hi. apply (put_cell_out k tid prog); [done|lia]. }
  rewrite E1, (out_set_x k tid prog), (out_set_y k tid prog) by done.
  pose proof (vclear_cleared F (pmem k)) as Hcl.
  set (m1 := for_up _ 30 2000 (pmem k)) in *. clearbody m1.
  destruct (calib_cursor_out k tid m1 (io k) 0 START_HEIGHT) as [d' ->].
  exists m1, d'. split; [reflexivity|]. split; [apply Hcl|]. by apply cleared_cells.
Qed.

(** The first [n] characters have been counted up. *)
Definition counted (f n : Z) (m m' : mem) : Prop :=
  unch (in_frame f) m m' ∧
  ∀ q, 0 ≤ q < 4000 →
    vbyte m' f q = if decide (q mod 2 = 0 ∧ q < 2 * n) then u8 (vbyte m f q + 1) else vbyte m f q.

Lemma vcount_counted f m :
  counted f 2000 m (for_up (λ i m, <[f * _4K + 2 * i := u8 (vbyte m f (2 * i) + 1)]> m) 0 2000 m).
Proof.
  apply (for_up_inv _ (λ i m2, counted f i m m2)); [lia| |].
  - split; [apply unch_refl|]. intros q Hq. by rewrite decide_False by lia.
  - intros i m2 Hi [IHu IHs]. split.
    + eapply unch_trans; [done|]. intros p Hp. rewrite lookup_insert_ne; [done|]. unfold in_frame in Hp. lia.
    + intros q Hq. destruct (decide (q = 2 * i)) as [->|Hne].
      * unfold vbyte at 1. rewrite lookup_insert_eq. simpl. rewrite u8_idem, IHs by lia.
        rewrite decide_False by lia. rewrite decide_True; [done|]. Z.div_mod_to_equations. lia.
      * unfold vbyte at 1. rewrite lookup_insert_ne by lia. fold (vbyte m2 f q). rewrite IHs by done.
        repeat case_decide; try done; exfalso; Z.div_mod_to_equations; lia.
Qed.

(** [test_interrupts] counts every character of the screen up by one, and changes neither a
    colour nor the cursor. *)
Lemma test_interrupts_counts k tid prog :
  mapped k tid prog →
  shows k tid (pmem k) (Screen (sx (screen_of k tid)) (sy (screen_of k tid))
    ((λ '(c, a), (u8 (c + 1), a)) <$> cells (screen_of k tid))) (test_interrupts k).
Proof.
  intros Hmap. set (F := frame_of (con k) tid).
  assert (test_interrupts k = out k tid (for_up (λ i m, <[F * _4K + 2 * i := u8 (vbyte m F (2 * i) + 1)]> m) 0 2000 (pmem k))
    (io k) (sx (screen_of k tid)) (sy (screen_of k tid))) as ->.
  { unfold test_interrupts. rewrite <- (out_screen k tid prog Hmap) at 1. change (NUM_ROWS * NUM_COLS) with 2000.
    apply (for_up_map (λ m, out k tid m (io k) (sx (screen_of k tid)) (sy (screen_of k tid)))
      (λ i m, <[F * _4K + 2 * i := u8 (vbyte m F (2 * i) + 1)]> m)).
    intros i m Hi. rewrite Z.shiftl_mul_pow2, Z.mul_comm by lia. change (2 ^ 1) with 2.
    by rewrite (poke_out k tid prog), (peek_out k tid prog) by (done || unfold _4K; lia). }
  pose proof (vcount_counted F (pmem k)) as Hc. set (m1 := for_up _ 0 2000 (pmem k)) in *. clearbody m1.
  exists m1, (io k). split; [done|]. split; [apply Hc|].
  change (vcells m1 F = (λ '(c, a), (u8 (c + 1), a)) <$> vcells (pmem k) F).
  apply vcells_eq; [by rewrite length_fmap, length_vcells|].
  intros i Hi. rewrite list_lookup_fmap, lookup_vcells by done. simpl. destruct Hc as [_ Hc]. rewrite !Hc by lia.
  rewrite decide_True by (Z.div_mod_to_equations; lia). by rewrite decide_False by (Z.div_mod_to_equations; lia).
Qed.

(** Output on the screen of [v] between two mappings, as the keyboard handler and
    [clear] do it: map [v], run [op], map [r] again. *)
Definition on_view (v r : Z) (op : kernel → kernel) k : kernel :=
  change_vidmem_mapping r (op (change_vidmem_mapping v k)).

(** [k'] is [k] with the screen of [v] turned into [s] and the screen of [r] mapped. *)
Record viewed k (v r : Z) (prog : option Z) (s : screen) (k' : kernel) : Prop := {
  vw_mapped : mapped k' r prog;
  vw_screen : screen_of k' v = s;
  vw_mem : unch (in_frame (frame_of (con k) v)) (pmem k) (pmem k');
  vw_state : ∃ m' d' u', k' = set_mmu u' (upd_con (set_screen_ptrs (cursor_of r) (cursor_of r))
                                 (out k v m' d' (sx s) (sy s)));
}.

Lemma on_view_ok k prog v r op s :
  kbase k prog → 0 ≤ v < 3 → 0 ≤ r < 3 → screen_ok s →
  (∀ k1, mapped k1 v prog → screen_of k1 v = screen_of k v → shows k1 v (pmem k1) s (op k1)) →
  viewed k v r prog s (on_view v r op k).
Proof.
  intros Hk Hv Hr Hs Hop. unfold on_view.
  destruct (change_vidmem_mapping_ok k prog v Hk Hv) as (u1 & E1 & _).
  pose proof (change_vidmem_mapped k prog v Hk Hv) as Hm1. rewrite E1 in *.
  specialize (Hop _ Hm1 (screen_of_ptrs k u1 _ _ v)).
  set (k1 := set_mmu u1 _) in *. set (k2 := op k1) in *. clearbody k2.
  destruct (shows_ok k1 v prog s k2 Hm1 Hs Hop) as (Hm2 & Es & Hu).
  destruct Hop as (m' & d' & E & _ & _).
  destruct (change_vidmem_mapping_ok k2 prog r (mapped_base _ _ _ Hm2) Hr) as (u2 & E2 & _).
  pose proof (change_vidmem_mapped k2 prog r (mapped_base _ _ _ Hm2) Hr) as Hm3.
  rewrite E2 in *. constructor; [exact Hm3|by rewrite screen_of_ptrs|exact Hu|].
  exists m', d', u2. rewrite E. reflexivity.
Qed.

Lemma clear_screen_ok l :
  length l = 2000%nat → screen_ok (Screen 0 1 (take 30 l ++ replicate 1970 blank)).
Proof.
  intros Hl. unfold screen_ok. cbn [sx sy cells].
  rewrite length_app, length_take, length_replicate, Hl. lia.
Qed.

(** The routines name the two terminals through their [tid] fields. *)
Definition on_view_tid (op : kernel → kernel) k : kernel :=
  let k := op (change_vidmem_mapping (t_tid (viewing k)) k) in
  change_vidmem_mapping (t_tid (running k)) k.

Lemma on_view_tid_eq k prog op s :
  kbase k prog → screen_ok s →
  (∀ k1, mapped k1 (viewing_term_ptr (con k)) prog →
     screen_of k1 (viewing_term_ptr (con k)) = screen_of k (viewing_term_ptr (con k)) →
     shows k1 (viewing_term_ptr (con k)) (pmem k1) s (op k1)) →
  viewed k (viewing_term_ptr (con k)) (running_term_ptr (con k)) prog s (on_view_tid op k).
Proof.
  intros Hk Hs Hop. pose proof (kb_con _ _ Hk) as Hc.
  assert (on_view_tid op k = on_view (viewing_term_ptr (con k)) (running_term_ptr (con k)) op k)
    as ->; [|apply on_view_ok; try done; apply Hc].
  unfold on_view_tid, on_view.
  assert (t_tid (viewing k) = viewing_term_ptr (con k)) as -> by (apply (co_tid _ Hc), Hc).
  pose proof (change_vidmem_mapped k prog _ Hk (co_view _ Hc)) as Hm1.
  destruct (change_vidmem_mapping_ok k prog _ Hk (co_view _ Hc)) as (u1 & E1 & _).
  rewrite E1 in *. specialize (Hop _ Hm1 (screen_of_ptrs k u1 _ _ _)).
  set (k1 := set_mmu u1 _) in *. set (k2 := op k1) in *. clearbody k2.
  destruct (shows_ok k1 _ prog s k2 Hm1 Hs Hop) as (Hm2 & _ & _).
  destruct Hop as (m' & d' & -> & _). f_equal.
  apply (co_tid _ (mp_con _ _ _ Hm2) (running_term_ptr (con k))), Hc.
Qed.

Lemma clear_viewed k prog :
  kbase k prog →
  viewed k (viewing_term_ptr (con k)) (running_term_ptr (con k)) prog
    (Screen 0 1 (take 30 (cells (screen_of k (viewing_term_ptr (con k))))
                 ++ replicate 1970 blank)) (clear k).
Proof.
  intros Hk. apply (on_view_tid_eq k prog clear_fill); [done| |].
  - apply clear_screen_ok, length_vcells.
  - intros k1 Hm E. rewrite <- E. by eapply clear_step.
Qed.

(** ** Properties *)

(** C25: [nb_putc] implements the abstract screen: on every branch (newline, carriage
    return, backspace over a line start, NUL, a character at the end of a line or of
    the screen) cursor and cells become what [putc_spec] says, the cursor stays on the
    screen, and no byte of memory outside the 4000 of the mapped frame changes. *)
Theorem nb_putc_refines k tid prog c :
  mapped k tid prog →
  screen_of (nb_putc c k) tid = putc_spec (u8 c) (screen_of k tid) ∧
  screen_ok (screen_of (nb_putc c k) tid) ∧ mapped (nb_putc c k) tid prog ∧
  unch (in_frame (frame_of (con k) tid)) (pmem k) (pmem (nb_putc c k)).
Proof.
  intros Hmap. pose proof (putc_spec_ok (u8 c) _ (screen_of_ok _ _ _ Hmap)) as Hs.
  destruct (shows_ok k tid prog _ _ Hmap Hs (nb_putc_step k tid prog c Hmap)) as (? & E & ?).
  rewrite E. done.
Qed.

(** Ctrl-L clears the screen in view and nothing else: its first 30 cells, the
    terminal's title, stay, the rest is blank, the cursor goes to the start of row 1,
    and the kernel is back to writing the running terminal's screen. *)
Theorem clear_refines k prog :
  kbase k prog →
  screen_of (clear k) (viewing_term_ptr (con k)) =
    Screen 0 1 (take 30 (cells (screen_of k (viewing_term_ptr (con k))))
                ++ replicate 1970 blank) ∧
  mapped (clear k) (running_term_ptr (con k)) prog ∧
  unch (in_frame VPAGE) (pmem k) (pmem (clear k)).
Proof.
  intros Hk. pose proof (kb_con _ _ Hk) as Hc.
  destruct (clear_viewed k prog Hk) as [H1 H2 H3 _].
  split_and!; [exact H2|exact H1|]. unfold frame_of in H3. by rewrite Z.eqb_refl in H3.
Qed.
End screen.

(** ** Witnesses: a machine without devices, and the state at boot *)

#[export] Instance no_ports : Ports | 100 :=
  {| dev := unit; inb := λ _ d, (0, d); outb := λ _ _ d, d |}.

Definition demo_term (i : Z) : terminal_t :=
  Terminal i (-1) (replicate 128 0) 0 0 0 0 (VIDEO_START + (i + 1) * _4K) 0 ((i + 1) mod 3).

Definition demo_con : console :=
  Console (demo_term <$> [0; 1; 2]) 0 0 (Some 0) 0 (cursor_of 0) (cursor_of 0) 0 0.

Definition demo_kernel : kernel :=
  @Kernel no_ports ∅ (paging_init (PL := demo_pg) mmu_reset) tt (Cpu 0 0 true) demo_con
    (KbdFlags 0 0 0 0 0) (RtcVars 0 0 0) (PicVars 255 255)
    (Procs (-1) 0 (replicate 6 0) ∅ 0 0) (FsVars 0 0).

Lemma demo_con_ok : con_ok demo_con.
Proof.
  assert (∀ i, 0 ≤ i < 3 → i = 0 ∨ i = 1 ∨ i = 2) as H3 by lia.
  constructor; try (intros i [-> | [-> | ->]]%H3); vm_compute; try done; intuition discriminate.
Qed.

Lemma demo_mapped : mapped (PL := demo_pg) demo_kernel 0 None.
Proof.
  constructor; [exact demo_layout_ok|exact demo_con_ok|lia|done|done|].
  eexists _, _. exact demo_mmu_ok.
Qed.

Lemma nb_putc_refines_witness :
  screen_of (PT := no_ports) (nb_putc (PL := demo_pg) 65 demo_kernel) 0 =
    putc_spec 65 (screen_of demo_kernel 0).
Proof. apply (nb_putc_refines (PL := demo_pg) demo_kernel 0 None 65). exact demo_mapped. Defined.

Lemma clear_refines_witness :
  mapped (PT := no_ports) (PL := demo_pg) (clear (PL := demo_pg) demo_kernel) 0 None.
Proof.
  apply (clear_refines (PL := demo_pg) demo_kernel None).
  exact (mapped_base (PL := demo_pg) demo_kernel 0 None demo_mapped).
Defined.
