(* ===== verification/Terminal.v ===== *)
(** * Terminals (terminal.c)

    Three terminals share the screen: the one in view lives in video memory, the
    others in a buffer page each.  [switch_terminal] exchanges them, [terminal_write]
    is the write routine of stdout. *)

From S2P Require Import Prelude Mem Lib Paging Fs Kstate Screen.

Section terminal.
Context {PT : Ports} {PL : PgLayout}.
Implicit Types (k : kernel).

(** ** Operations *)

Definition terminal_init k : kernel :=
  let k := for_up (λ i k,
      upd_term i (λ t, Terminal i (-1) (t_kbd_buf t) 0 0 0 0 (t_vid_mem_buffer t) 0
                         (t_next_term_to_run t)) k) 0 3 k in
  let k := set_mmu (flush_tlb (kmmu k)) k in
  let k := upd_con (set_kbd_ptr (Some 0)) k in
  let k := upd_con (set_buf_pos 0) k in
  let k := upd_con (set_screen_ptrs (cursor_of 0) (cursor_of 0)) k in
  let set_vbuf v t := Terminal (t_tid t) (t_pid t) (t_kbd_buf t) (t_buf_pos t)
                        (t_kbd_buf_ready t) (t_cursor_x t) (t_cursor_y t) v
                        (t_vidmap_flag t) (t_next_term_to_run t) in
  let k := upd_term 0 (set_vbuf (VIDEO_START + _4K)) k in
  let k := upd_term 1 (set_vbuf (VIDEO_START + _8K)) k in
  let k := upd_term 2 (set_vbuf (VIDEO_START + _12K)) k in
  let set_next v t := Terminal (t_tid t) (t_pid t) (t_kbd_buf t) (t_buf_pos t)
                        (t_kbd_buf_ready t) (t_cursor_x t) (t_cursor_y t)
                        (t_vid_mem_buffer t) (t_vidmap_flag t) v in
  let k := upd_term 0 (set_next 1) k in
  let k := upd_term 1 (set_next 2) k in
  upd_term 2 (set_next 0) k.

Definition terminal_open (filename : Z) : Z := 0.
Definition terminal_close (filename : Z) : Z := 0.

Definition terminal_write (fd buf nbytes : Z) k : Z * kernel :=
  if (buf =? 0) || (nbytes <=? 0) then (-1, k)
  else (nbytes, for_up (λ i k, nb_putc (peek k (buf + i)) k) 0 nbytes k).

(** [memcpy] on the kernel's memory. *)
Definition k_memcpy (dest src n : Z) k : kernel :=
  set_mem (memcpy (X := kx k) (pmem k) dest src n) k.

(** The two copies of [switch_terminal]. *)
Definition swap_screens (old target : Z) k : kernel :=
  let k := k_memcpy (t_vid_mem_buffer (term k old)) VIDEO_START _4K k in
  k_memcpy VIDEO_START (t_vid_mem_buffer (term k target)) _4K k.

(** Saving the state of the terminal in view and loading the target's. *)
Definition switch_save_restore (target_tid : Z) k : kernel :=
  let k := upd_term (viewing_term_ptr (con k)) (set_t_buf_pos (buf_pos (con k))) k in
  let k := upd_con (set_kbd_ptr (Some target_tid)) k in
  let k := upd_con (set_buf_pos (u8 (t_buf_pos (term k target_tid)))) k in
  update_screen_xy_ptr (cursor_of target_tid) (cursor_of target_tid) k.

Definition switch_terminal (target_tid : Z) k : kernel :=
  if target_tid =? t_tid (viewing k) then k
  else
    let old := viewing_term_ptr (con k) in
    let k := switch_save_restore target_tid k in
    let k := change_vidmem_mapping (t_tid (viewing k)) k in
    let k := swap_screens old target_tid k in
    let k := upd_con (set_viewing target_tid) k in
    change_vidmem_mapping (t_tid (running k)) k.

(** ** Initialisation *)

Lemma terminal_init_con k :
  length (term_arr (con k)) = 3%nat →
  (∀ t, t ∈ term_arr (con k) → length (t_kbd_buf t) = 128%nat) →
  running_term_ptr (con k) = 0 → viewing_term_ptr (con k) = 0 →
  con_ok (con (terminal_init k)) ∧ kbd_ok (con (terminal_init k)).
Proof.
  intros Hlen Hkbd Hr Hv. unfold kbd_ok.
  destruct (term_arr (con k)) as [|t0 [|t1 [|t2 [|]]]] eqn:E; try done.
  pose proof (Hkbd t0 ltac:(set_solver)). pose proof (Hkbd t1 ltac:(set_solver)).
  pose proof (Hkbd t2 ltac:(set_solver)).
  assert (∀ i, 0 ≤ i < 3 → i = 0 ∨ i = 1 ∨ i = 2) as H3 by lia.
  split; [|simpl; by rewrite Hv].
  constructor; try (intros i [-> | [-> | ->]]%H3);
    unfold con_term; simpl; rewrite ?E, ?Hr, ?Hv; simpl; try done; lia.
Qed.

(** ** Writing *)

Section write.
Context (k : kernel) (tid : Z) (prog : option Z) (buf n : Z).
Hypothesis Hmap : mapped k tid prog.
(** The user's buffer is not in video memory. *)
Hypothesis Hbuf : ∀ i, 0 ≤ i < n → ¬ in_frame (frame_of (con k) tid) (cell (X := kx k) (buf + i)).

Lemma write_loop j :
  0 ≤ j ≤ n →
  shows k tid (pmem k)
    (puts_spec (load_bytes (X := kx k) (pmem k) buf j) (screen_of k tid))
    (for_up (λ i k, nb_putc (peek k (buf + i)) k) 0 j k).
Proof.
  intros Hj.
  apply (for_up_inv _ (λ j k', shows k tid (pmem k)
    (puts_spec (load_bytes (X := kx k) (pmem k) buf j) (screen_of k tid)) k'));
    [lia|by eapply shows_refl|].
  intros i k' Hi IH.
  pose proof (puts_spec_ok (load_bytes (X := kx k) (pmem k) buf i) _ (screen_of_ok _ _ _ Hmap)) as Hs.
  destruct (shows_ok k tid prog _ _ Hmap Hs IH) as (Hmap' & Es & Hu).
  assert (peek k' (buf + i) = ld8 (X := kx k) (pmem k) (buf + i)) as ->.
  { unfold peek. assert (kx k' = kx k) as -> by (destruct IH as (? & ? & -> & _); done).
    eapply unch_ld8; [exact Hu|]. apply Hbuf. lia. }
  eapply shows_trans; [done|exact IH|].
  replace (puts_spec (load_bytes (X := kx k) (pmem k) buf (i + 1)) (screen_of k tid))
    with (putc_spec (u8 (ld8 (X := kx k) (pmem k) (buf + i))) (screen_of k' tid)).
  - by eapply nb_putc_step.
  - rewrite Es. unfold load_bytes. rewrite seqZ_app, fmap_app by lia.
    change (seqZ (0 + i) 1) with [0 + i]. unfold puts_spec. rewrite foldl_app. simpl.
    by rewrite Z.add_0_l.
Qed.
End write.

(** ** Switching *)

(** Copying a page between two addresses that lead to two frames. *)
Lemma copy_page {X : Xlat} m d s fd fs :
  (∀ i, 0 ≤ i < _4K → cell (d + i) = fd * _4K + i) →
  (∀ i, 0 ≤ i < _4K → cell (s + i) = fs * _4K + i) → fd ≠ fs →
  let m' := memcpy m d s _4K in
  (∀ i, 0 ≤ i < _4K → vbyte m' fd i = vbyte m fs i) ∧
  (∀ f i, f ≠ fd → 0 ≤ i < _4K → vbyte m' f i = vbyte m f i).
Proof.
  intros Hd Hs Hne m'.
  destruct (memcpy_written m d s _4K) as [Hw Hu].
  { unfold _4K. lia. }
  { intros i j Hi Hj. rewrite !Hd by done. lia. }
  { intros i j Hi Hj. rewrite Hd, Hs by done. unfold _4K in *. lia. }
  split.
  - intros i Hi. specialize (Hw i Hi). unfold ld8 in Hw. by rewrite Hd, Hs in Hw by done.
  - intros f i Hf Hi. unfold vbyte, m'. rewrite Hu; [done|].
    intros (j & Hj & E). rewrite Hd in E by done. unfold _4K in *. lia.
Qed.

(** The buffer pages are mapped to themselves. *)
Lemma bcell k tid prog q i :
  mapped k tid prog → 0 < q ≤ 3 → 0 ≤ i < _4K →
  cell (X := kx k) (VIDEO_START + q * _4K + i) = (VPAGE + q) * _4K + i.
Proof.
  intros [Hl _ _ _ _ (f & fl & Hm)] Hq Hi.
  eapply mmu_xlat_ok; [done|done|].
  unfold VIDEO_START, _4K in *. rewrite u32_small by lia.
  unfold amap_page, _4K. change VPAGE with 184.
  replace ((753664 + q * 4096 + i) / 4096) with (184 + q) by (Z.div_mod_to_equations; lia).
  repeat (case_test; simpl; try lia); f_equal; lia.
Qed.

(** The two copies exchange the screens: the page of [old]'s buffer receives what was
    in view, video memory what was in [target]'s buffer. *)
Lemma swap_screens_ok k prog old target :
  mapped k old prog → viewing_term_ptr (con k) = old → 0 ≤ target < 3 → target ≠ old →
  ∃ m', swap_screens old target k = set_mem m' k ∧
    ∀ f i, 0 ≤ i < _4K →
      vbyte m' f i = vbyte (pmem k) (if f =? VPAGE then VPAGE + 1 + target
                       else if f =? VPAGE + 1 + old then VPAGE else f) i.
Proof.
  intros Hmap Hv Ht Hne. pose proof (mp_con _ _ _ Hmap) as Hc.
  pose proof (mp_tid _ _ _ Hmap) as Hold.
  unfold swap_screens, k_memcpy. simpl. unfold term. simpl.
  rewrite (co_vbuf _ Hc old), (co_vbuf _ Hc target) by done.
  change (kx (set_mem ?m k)) with (kx k).
  set (m1 := memcpy (pmem k) (VIDEO_START + (old + 1) * _4K) VIDEO_START _4K).
  assert (∀ i, 0 ≤ i < _4K → cell (X := kx k) (VIDEO_START + i) = VPAGE * _4K + i) as Hvc.
  { intros i Hi. pose proof (vcell k old prog Hmap i Hi) as E. unfold frame_of in E.
    by rewrite Hv, Z.eqb_refl in E. }
  assert (∀ t i, 0 ≤ t < 3 → 0 ≤ i < _4K →
    cell (X := kx k) (VIDEO_START + (t + 1) * _4K + i) = (VPAGE + 1 + t) * _4K + i) as Hbc.
  { intros t i Ht' Hi. rewrite (bcell k old prog) by (done || lia). lia. }
  destruct (copy_page (X := kx k) (pmem k) (VIDEO_START + (old + 1) * _4K) VIDEO_START
    (VPAGE + 1 + old) VPAGE) as [P1 P2]; [by auto|by auto|lia|]. fold m1 in P1, P2.
  destruct (copy_page (X := kx k) m1 VIDEO_START (VIDEO_START + (target + 1) * _4K)
    VPAGE (VPAGE + 1 + target)) as [Q1 Q2]; [by auto|by auto|lia|].
  eexists. split; [reflexivity|]. intros f i Hi.
  case_test; [subst f; rewrite Q1 by done; apply P2; lia|].
  rewrite Q2 by done. case_test; [subst f; by apply P1|by apply P2].
Qed.

(** The line being typed at a terminal: the global position for the terminal in view,
    the saved one for the others. *)
Definition line_pos k (tid : Z) : Z :=
  if tid =? viewing_term_ptr (con k) then buf_pos (con k) else t_buf_pos (term k tid).

Definition line_of k (tid : Z) : list Z :=
  take (Z.to_nat (line_pos k tid)) (t_kbd_buf (term k tid)).

(** The console of [switch_terminal] before the screens are exchanged. *)
Definition switch_con (target : Z) (c : console) : console :=
  let c := con_upd_term (viewing_term_ptr c) (set_t_buf_pos (buf_pos c)) c in
  let c := set_kbd_ptr (Some target) c in
  set_buf_pos (u8 (t_buf_pos (con_term c target))) c.

Lemma switch_con_ok target c :
  con_ok c → 0 ≤ target < 3 → target ≠ viewing_term_ptr c →
  con_ok (switch_con target c) ∧
  buf_pos (switch_con target c) = t_buf_pos (con_term c target).
Proof.
  intros Hc Ht Hne. pose proof Hc as [].
  assert (con_ok (con_upd_term (viewing_term_ptr c) (set_t_buf_pos (buf_pos c)) c)) as Hc1.
  { apply con_ok_upd; [done|done|by constructor|simpl; auto..]. }
  assert (con_term (con_upd_term (viewing_term_ptr c) (set_t_buf_pos (buf_pos c)) c) target
          = con_term c target) as E.
  { rewrite con_term_upd by (done || lia). by rewrite decide_False. }
  pose proof (co_pos target Ht). unfold switch_con. cbn [buf_pos set_buf_pos].
  change (con_term (set_kbd_ptr ?o ?c) target) with (con_term c target).
  rewrite E, u8_small by lia. split; [|done].
  destruct Hc1. by constructor.
Qed.

Lemma con_term_switch target c t :
  con_ok c → 0 ≤ t < 3 → con_term (switch_con target c) t =
    if decide (viewing_term_ptr c = t) then set_t_buf_pos (buf_pos c) (con_term c t)
    else con_term c t.
Proof.
  intros Hc Ht. change (con_term (switch_con target c) t) with
    (con_term (con_upd_term (viewing_term_ptr c) (set_t_buf_pos (buf_pos c)) c) t).
  rewrite con_term_upd by (apply Hc || lia). by case_decide as E; [subst t|].
Qed.

(** The state [switch_terminal] ends in when it does switch. *)
Lemma switch_terminal_step k prog target :
  kbase k prog → 0 ≤ target < 3 → target ≠ viewing_term_ptr (con k) →
  let k' := switch_terminal target k in
  let r := running_term_ptr (con k) in
  mapped k' r prog ∧
  con k' = set_screen_ptrs (cursor_of r) (cursor_of r)
             (set_viewing target (switch_con target (con k))) ∧
  (∀ f i, 0 ≤ i < _4K →
    vbyte (pmem k') f i = vbyte (pmem k) (if f =? VPAGE then VPAGE + 1 + target
      else if f =? VPAGE + 1 + viewing_term_ptr (con k) then VPAGE else f) i) ∧
  (kbd k', rtc k', pic k', prc k', fsv k', kcpu k') =
    (kbd k, rtc k, pic k, prc k, fsv k, kcpu k).
Proof.
  intros Hk Ht Hne k' r. pose proof (kb_con _ _ Hk) as Hc.
  pose proof (co_view _ Hc) as Hview. pose proof (co_run _ Hc) as Hrun.
  destruct (switch_con_ok target (con k) Hc Ht Hne) as [Hsc _].
  set (v := viewing_term_ptr (con k)) in *.
  assert (∃ d1, switch_save_restore target k = set_io d1 (set_con (set_screen_ptrs
            (cursor_of target) (cursor_of target) (switch_con target (con k))) k)) as [d1 Ek1]
    by (eexists; reflexivity).
  assert (k' = let k1 := switch_save_restore target k in
               let k2 := change_vidmem_mapping (t_tid (viewing k1)) k1 in
               let k3 := upd_con (set_viewing target) (swap_screens v target k2) in
               change_vidmem_mapping (t_tid (running k3)) k3) as Ek'.
  { unfold k', switch_terminal.
    replace (t_tid (viewing k)) with v by (symmetry; apply (co_tid _ Hc), Hview).
    rewrite (proj2 (Z.eqb_neq target v) Hne). reflexivity. }
  clearbody k'. rewrite Ek1 in Ek'. cbv zeta in Ek'.
  set (k1 := set_io d1 _) in *.
  assert (con_ok (con k1)) as Hc1 by (by apply con_ok_ptrs).
  assert (kbase k1 prog) as Hk1 by (destruct Hk; by constructor).
  replace (t_tid (viewing k1)) with v in Ek' by (symmetry; apply (co_tid _ Hc1), Hview).
  pose proof (change_vidmem_mapped k1 prog v Hk1 Hview) as Hm2.
  destruct (change_vidmem_mapping_ok k1 prog v Hk1 Hview) as (u2 & E2 & _).
  rewrite E2 in *. set (k2 := set_mmu u2 _) in *.
  destruct (swap_screens_ok k2 prog v target Hm2 eq_refl Ht Hne) as (m3 & E3 & Hm3).
  rewrite E3 in Ek'. set (k3 := upd_con (set_viewing target) (set_mem m3 k2)) in *.
  assert (con_ok (con k3)) as Hc3
    by (apply mp_con in Hm2; destruct Hm2; by constructor).
  assert (kbase k3 prog) as Hk3.
  { destruct (mapped_base _ _ _ Hm2). by constructor. }
  replace (t_tid (running k3)) with r in Ek'
    by (symmetry; apply (co_tid _ Hc3), Hrun).
  destruct (change_vidmem_mapping_ok k3 prog r Hk3 Hrun) as (u4 & E4 & _).
  pose proof (change_vidmem_mapped k3 prog r Hk3 Hrun) as Hm4.
  rewrite <- Ek' in Hm4. rewrite E4 in Ek'. rewrite Ek' in *.
  split_and!; [exact Hm4|reflexivity|exact Hm3|reflexivity].
Qed.

(** The kernel's own page is mapped to itself. *)
Lemma kernel_page_cell k a al v :
  layout_ok → mmu_ok (kmmu k) a al → 4194304 ≤ v < 8388608 → cell (X := kx k) v = v.
Proof.
  intros Hl Hm Hv. eapply mmu_xlat_ok; [done|done|].
  rewrite u32_small by lia. unfold amap_page. change VPAGE with 184.
  assert (v / _4M = 1 ∧ 1024 ≤ v / _4K < 2048) as [-> ?]
    by (unfold _4M, _4K; Z.div_mod_to_equations; lia).
  by repeat (case_test; simpl; try lia).
Qed.

Lemma kernel_cell k tid prog a :
  mapped k tid prog → 4194304 ≤ a < 8388608 → cell (X := kx k) a = a.
Proof. intros [Hl _ _ _ _ (f & fl & Hm)] Ha. by eapply kernel_page_cell. Qed.

Lemma kernel_uniq k tid prog a n :
  mapped k tid prog → 4194304 ≤ a → a + n ≤ 8388608 → uniq_range (X := kx k) a n.
Proof.
  intros Hm ?? i j Hi Hj. rewrite !(kernel_cell k tid prog) by (done || lia). lia.
Qed.

(** ** Screens of different terminals *)

Lemma frame_of_inj c s t :
  0 ≤ s < 3 → 0 ≤ t < 3 → 0 ≤ viewing_term_ptr c < 3 → s ≠ t → frame_of c s ≠ frame_of c t.
Proof. intros. unfold frame_of. case_test; case_test; lia. Qed.

Lemma vcells_ext m m' f f' :
  (∀ i, 0 ≤ i < _4K → vbyte m' f' i = vbyte m f i) → vcells m' f' = vcells m f.
Proof.
  intros H. apply list_fmap_ext. intros i x Hx%lookup_seqZ.
  by rewrite !H by (unfold _4K; lia).
Qed.

Lemma unch_frame_vbyte f f' m m' i :
  unch (in_frame f) m m' → f ≠ f' → 0 ≤ i < _4K → vbyte m' f' i = vbyte m f' i.
Proof.
  intros Hu Hne Hi. unfold vbyte. rewrite Hu; [done|].
  unfold in_frame, _4K in *. lia.
Qed.

(** Output on one screen leaves the others alone. *)
Lemma shows_other k tid prog s k' t :
  mapped k tid prog → shows k tid (pmem k) s k' → 0 ≤ t < 3 → t ≠ tid →
  screen_of k' t = screen_of k t.
Proof.
  intros Hmap (m' & d' & -> & Hu & _) Ht Hne. unfold screen_of, term.
  rewrite (con_term_out k tid prog), decide_False by (done || lia).
  rewrite frame_of_out. f_equal. apply vcells_ext. intros i Hi.
  eapply unch_frame_vbyte; [exact Hu| |done].
  apply frame_of_inj; [apply Hmap|done|apply (mp_con _ _ _ Hmap)|done].
Qed.

Lemma putc_loop_shows k tid prog (g : Z → kernel → Z) n :
  mapped k tid prog → 0 ≤ n →
  ∃ s, screen_ok s ∧ shows k tid (pmem k) s (for_up (λ i k, nb_putc (g i k) k) 0 n k).
Proof.
  intros Hmap Hn.
  apply (for_up_inv _ (λ _ k', ∃ s, screen_ok s ∧ shows k tid (pmem k) s k')); [done| |].
  { exists (screen_of k tid). split; [by eapply screen_of_ok|by eapply shows_refl]. }
  intros i k' Hi (s & Hs & Hsh).
  destruct (shows_ok k tid prog s k' Hmap Hs Hsh) as (Hmap' & Es & _).
  exists (putc_spec (u8 (g i k')) s). split; [by apply putc_spec_ok|].
  eapply shows_trans; [done|exact Hsh|]. rewrite <- Es. by eapply nb_putc_step.
Qed.

(** ** Properties *)

(** C26: Alt-F1 to Alt-F3 switch what is seen and nothing else: whichever terminal is
    chosen, every terminal keeps its screen, cursor and half-typed line (the bytes move
    between video memory and the buffer pages), the keyboard is connected to the chosen
    terminal, and the kernel goes on writing the running terminal's screen. *)
Theorem switch_terminal_preserves k prog target :
  mapped k (running_term_ptr (con k)) prog → kbd_ok (con k) → 0 ≤ target < 3 →
  let k' := switch_terminal target k in
  viewing_term_ptr (con k') = target ∧ kbd_ok (con k') ∧
  mapped k' (running_term_ptr (con k)) prog ∧
  ∀ s, 0 ≤ s < 3 → screen_of k' s = screen_of k s ∧ line_of k' s = line_of k s.
Proof.
  intros Hmap Hkbd Ht k'. pose proof (mp_con _ _ _ Hmap) as Hc.
  pose proof (co_view _ Hc) as Hv.
  destruct (decide (target = viewing_term_ptr (con k))) as [E|Hne].
  { assert (k' = k) as ->; [|done]. unfold k', switch_terminal.
    replace (t_tid (viewing k)) with target; [by rewrite Z.eqb_refl|].
    rewrite E. symmetry. by apply (co_tid _ Hc). }
  destruct (switch_terminal_step k prog target (mapped_base _ _ _ Hmap) Ht Hne)
    as (Hm' & Ec & Hmem & _).
  fold k' in Hm', Ec, Hmem. clearbody k'. unfold kbd_ok. rewrite Ec. split_and!; try done.
  destruct (switch_con_ok target (con k) Hc Ht Hne) as [_ Hbp].
  intros s Hs. unfold screen_of, line_of, line_pos, term. rewrite Ec.
  change (con_term (set_screen_ptrs ?x ?y ?c) s) with (con_term c s).
  change (con_term (set_viewing ?x ?c) s) with (con_term c s).
  rewrite con_term_switch by done. cbn [viewing_term_ptr set_screen_ptrs set_viewing].
  change (buf_pos (set_screen_ptrs _ _ ?c)) with (buf_pos c).
  change (buf_pos (set_viewing _ ?c)) with (buf_pos c). rewrite Hbp.
  split.
  - assert (vcells (pmem k') (frame_of (con k') s) = vcells (pmem k) (frame_of (con k) s)) as Ev.
    { apply vcells_ext. intros i Hi. rewrite Hmem by done. f_equal. unfold frame_of. rewrite Ec.
      cbn [viewing_term_ptr set_screen_ptrs set_viewing]. repeat (case_test; try lia). }
    rewrite Ec in Ev. rewrite Ev. by case_decide.
  - destruct (Z.eqb_spec s target) as [->|Hst].
    + rewrite decide_False by congruence. by rewrite (proj2 (Z.eqb_neq _ _) Hne).
    + destruct (decide (viewing_term_ptr (con k) = s)) as [<-|Hvs].
      * by rewrite Z.eqb_refl.
      * by rewrite (proj2 (Z.eqb_neq s _)) by congruence.
Qed.

(** A write to the terminal prints exactly the bytes of the buffer, in order, on
    the screen of the running terminal, wherever that screen is, and returns their
    number. *)
Theorem terminal_write_prints k prog fd buf n :
  let r := running_term_ptr (con k) in
  mapped k r prog → buf ≠ 0 → 0 < n →
  (∀ i, 0 ≤ i < n → ¬ in_frame (frame_of (con k) r) (cell (X := kx k) (buf + i))) →
  let '(res, k') := terminal_write fd buf n k in
  res = n ∧ mapped k' r prog ∧
  screen_of k' r = puts_spec (load_bytes (X := kx k) (pmem k) buf n) (screen_of k r).
Proof.
  intros r Hmap Hb Hn Hbuf. unfold terminal_write.
  rewrite (proj2 (Z.eqb_neq _ _) Hb), (proj2 (Z.leb_gt _ _) Hn). simpl.
  pose proof (write_loop k r prog buf n Hmap Hbuf n ltac:(lia)) as Hsh.
  set (k' := for_up _ 0 n k) in *. clearbody k'. split; [done|].
  destruct (shows_ok k r prog _ k' Hmap (puts_spec_ok _ _ (screen_of_ok _ _ _ Hmap)) Hsh)
    as (? & ? & _). done.
Qed.

(** A program that writes while its terminal is hidden cannot disturb what is in
    view: whatever the buffer and the count, a write leaves every other terminal's
    screen as it was, and refuses a null buffer or a count below one. *)
Theorem terminal_write_isolated k prog fd buf n s :
  mapped k (running_term_ptr (con k)) prog → 0 ≤ s < 3 → s ≠ running_term_ptr (con k) →
  let '(res, k') := terminal_write fd buf n k in
  screen_of k' s = screen_of k s ∧ mapped k' (running_term_ptr (con k)) prog ∧
  res = if (buf =? 0) || (n <=? 0) then -1 else n.
Proof.
  intros Hmap Hs Hne. unfold terminal_write. destruct ((buf =? 0) || (n <=? 0)) eqn:E; [done|].
  apply orb_false_iff in E as [_ E]. apply Z.leb_gt in E.
  destruct (putc_loop_shows k _ prog (λ i k, peek k (buf + i)) n Hmap ltac:(lia))
    as (sc & Hsc & Hsh).
  set (k' := for_up _ 0 n k) in *. clearbody k'. split_and!; [|by eapply shows_ok|done].
  by eapply shows_other.
Qed.

(** [terminal_init], run after [paging_init], establishes the
    invariant of the terminals: terminal 0 runs, is in view, owns the keyboard, and its
    screen is mapped. *)
Theorem terminal_init_establishes k a al :
  layout_ok → mmu_ok (kmmu k) a al → vid al = VPAGE → length (term_arr (con k)) = 3%nat →
  (∀ t, t ∈ term_arr (con k) → length (t_kbd_buf t) = 128%nat) →
  running_term_ptr (con k) = 0 → viewing_term_ptr (con k) = 0 →
  mapped (terminal_init k) 0 (Paging.prog al) ∧ kbd_ok (con (terminal_init k)) ∧
  ∀ s, 0 ≤ s < 3 → line_of (terminal_init k) s = [] ∧ t_pid (term (terminal_init k) s) = -1.
Proof.
  intros Hl Hu Hvid Hlen Hbuf Hr Hv.
  destruct (terminal_init_con k Hlen Hbuf Hr Hv) as [Hc Hkbd].
  assert (viewing_term_ptr (con (terminal_init k)) = 0) as Ev by (simpl; exact Hv).
  split_and!; [|done|].
  - constructor; [done|done|lia|done|done|]. unfold frame_of. rewrite Ev. simpl.
    exists (fish al), (fish al). destruct al. simpl in *. subst.
    eapply flush_tlb_ok. exact Hu.
  - assert (∀ i, 0 ≤ i < 3 → i = 0 ∨ i = 1 ∨ i = 2) as H3 by lia.
    intros s [-> | [-> | ->]]%H3; unfold line_of, line_pos, term, con_term; rewrite Ev;
      simpl; destruct (term_arr (con k)) as [|t0 [|t1 [|t2 [|]]]]; done.
Qed.
End terminal.

(** ** Witnesses *)

Lemma switch_terminal_preserves_witness :
  viewing_term_ptr (con (switch_terminal (PT := no_ports) (PL := demo_pg) 2 demo_kernel)) = 2.
Proof.
  apply (switch_terminal_preserves (PL := demo_pg) demo_kernel None 2);
    [exact demo_mapped|reflexivity|lia].
Defined.

Lemma terminal_write_prints_witness :
  let '(res, k') := terminal_write (PT := no_ports) (PL := demo_pg) 1 4198400 5 demo_kernel in
  res = 5 ∧ mapped (PL := demo_pg) k' 0 None.
Proof.
  pose proof (terminal_write_prints (PL := demo_pg) demo_kernel None 1 4198400 5) as H.
  cbv zeta in H. destruct (terminal_write _ _ _ _) as [res k'].
  destruct H as (H1 & H2 & _); [exact demo_mapped|lia|lia| |exact (conj H1 H2)].
  intros i Hi. rewrite (kernel_cell (PL := demo_pg) demo_kernel 0 None) by (exact demo_mapped || lia).
  change (frame_of (con demo_kernel) (running_term_ptr (con demo_kernel))) with VPAGE.
  unfold in_frame, _4K. change VPAGE with 184. lia.
Defined.

Lemma terminal_write_isolated_witness :
  let '(res, k') := terminal_write (PT := no_ports) (PL := demo_pg) 1 4198400 5 demo_kernel in
  screen_of k' 1 = screen_of demo_kernel 1.
Proof.
  pose proof (terminal_write_isolated (PL := demo_pg) demo_kernel None 1 4198400 5 1) as H.
  destruct (terminal_write _ _ _ _) as [res k'].
  apply H; [exact demo_mapped|lia|discriminate].
Defined.

(** The state in which [terminal_init] is called. *)
Definition boot_kernel : kernel :=
  set_con (Console (replicate 3 term_zero) 0 0 None 0 init_screen init_screen 0 0) demo_kernel.

Lemma terminal_init_establishes_witness :
  mapped (PL := demo_pg) (terminal_init (PL := demo_pg) boot_kernel) 0 None.
Proof.
  apply (terminal_init_establishes (PL := demo_pg) boot_kernel boot_amap boot_amap);
    [exact demo_layout_ok|exact demo_mmu_ok|reflexivity|reflexivity| |reflexivity..].
  intros t Ht. apply elem_of_replicate in Ht as [-> _]. reflexivity.
Defined.
