(* ===== verification/Pic.v ===== *)
(** * The interrupt controllers (i8259.h, i8259.c)

    The two 8259 chips are devices; what the code relies on is the class [PicDev]:
    the four-word initialisation sequence, the mask register behind the data port,
    and the specific end-of-interrupt command. *)

From Stdlib Require Import String.
From S2P Require Import Prelude Mem Paging Fs Kstate Pc Screen.

Definition MASTER_8259_PORT : Z := 32.
Definition MASTER_8259_DATA : Z := 33.
Definition SLAVE_8259_PORT : Z := 160.
Definition SLAVE_8259_DATA : Z := 161.
Definition ICW1 : Z := 17.
Definition ICW2_MASTER : Z := 32.
Definition ICW2_SLAVE : Z := 40.
Definition ICW3_MASTER : Z := 4.
Definition ICW3_SLAVE : Z := 2.
Definition ICW4 : Z := 1.
Definition MASK_ALL : Z := 255.
Definition IRQ_HIGH : Z := 15.
Definition IRQ_NUM : Z := 8.
Definition SLAVE_IRQ_LINE : Z := 2.
Definition EOI : Z := 96.

Definition msg_invalid_irq : list Z := lit "Invalid irq_num!"%string ++ [10].

Section pic_ops.
Context {PT : Ports} {PL : PgLayout}.
Implicit Types (k : kernel).

Definition set_master v k := set_pic (PicVars v (slave_mask (pic k))) k.
Definition set_slave v k := set_pic (PicVars (master_mask (pic k)) v) k.

Definition i8259_init k : kernel :=
  let '(v, k) := k_inb MASTER_8259_DATA k in
  let k := set_master v k in
  let '(v, k) := k_inb SLAVE_8259_DATA k in
  let k := set_slave v k in
  let k := k_outb MASK_ALL MASTER_8259_DATA k in
  let k := k_outb MASK_ALL SLAVE_8259_DATA k in
  let k := k_outb ICW1 MASTER_8259_PORT k in
  let k := k_outb ICW2_MASTER MASTER_8259_DATA k in
  let k := k_outb ICW3_MASTER MASTER_8259_DATA k in
  let k := k_outb ICW4 MASTER_8259_DATA k in
  let k := k_outb ICW1 SLAVE_8259_PORT k in
  let k := k_outb ICW2_SLAVE SLAVE_8259_DATA k in
  let k := k_outb ICW3_SLAVE SLAVE_8259_DATA k in
  let k := k_outb ICW4 SLAVE_8259_DATA k in
  let k := k_outb MASK_ALL MASTER_8259_DATA k in
  k_outb MASK_ALL SLAVE_8259_DATA k.

(** The test [irq_num < IRQ_LOW] of the unsigned number never holds. *)
Definition enable_irq (irq_num : Z) k : kernel :=
  if IRQ_HIGH <? irq_num then kprint msg_invalid_irq k
  else if IRQ_NUM <=? irq_num then
    let '(v, k) := k_inb SLAVE_8259_DATA k in
    let k := set_slave (u8 (Z.land v (Z.lnot (Z.shiftl 1 (irq_num - IRQ_NUM))))) k in
    k_outb (slave_mask (pic k)) SLAVE_8259_DATA k
  else
    let '(v, k) := k_inb MASTER_8259_DATA k in
    let k := set_master (u8 (Z.land v (Z.lnot (Z.shiftl 1 irq_num)))) k in
    k_outb (master_mask (pic k)) MASTER_8259_DATA k.

Definition disable_irq (irq_num : Z) k : kernel :=
  if IRQ_HIGH <? irq_num then kprint msg_invalid_irq k
  else if IRQ_NUM <=? irq_num then
    let '(v, k) := k_inb SLAVE_8259_DATA k in
    let k := set_slave (u8 (Z.lor v (Z.shiftl 1 (irq_num - IRQ_NUM)))) k in
    k_outb (slave_mask (pic k)) SLAVE_8259_DATA k
  else
    let '(v, k) := k_inb MASTER_8259_DATA k in
    let k := set_master (u8 (Z.lor v (Z.shiftl 1 irq_num))) k in
    k_outb (master_mask (pic k)) MASTER_8259_DATA k.

Definition send_eoi (irq_num : Z) k : kernel :=
  if IRQ_HIGH <? irq_num then kprint msg_invalid_irq k
  else if IRQ_NUM <=? irq_num then
    let k := k_outb (Z.lor (irq_num - IRQ_NUM) EOI) SLAVE_8259_PORT k in
    k_outb (Z.lor EOI SLAVE_IRQ_LINE) MASTER_8259_PORT k
  else k_outb (Z.lor irq_num EOI) MASTER_8259_PORT k.
End pic_ops.

(** ** What the controllers promise *)

(** Of each chip: whether it is programmed (not in the middle of an initialisation),
    its vector base, mask and in-service registers.  [false] is the master. *)
Class PicDev (PT : Ports) := {
  programmed : bool → dev → Prop;
  base : bool → dev → Z;
  imr : bool → dev → Z;
  isr : bool → dev → Z;
  cmd_port := λ c : bool, if c then SLAVE_8259_PORT else MASTER_8259_PORT;
  data_port := λ c : bool, if c then SLAVE_8259_DATA else MASTER_8259_DATA;
  imr_range : ∀ c d, 0 ≤ imr c d < 256;
  (** Reading the data port reads the mask and changes nothing. *)
  imr_read : ∀ c d, programmed c d → inb (data_port c) d = (imr c d, d);
  (** Writing the data port of a programmed chip sets its mask. *)
  imr_write : ∀ c d v, programmed c d → 0 ≤ v < 256 →
    let d' := outb v (data_port c) d in
    imr c d' = v ∧ programmed c d' ∧ base c d' = base c d ∧ isr c d' = isr c d;
  (** Writing to one chip does not change the other. *)
  chip_frame : ∀ c d v, let d1 := outb v (data_port c) d in
    let d2 := outb v (cmd_port c) d in
    (programmed (negb c) d → programmed (negb c) d1 ∧ programmed (negb c) d2) ∧
    base (negb c) d1 = base (negb c) d ∧ base (negb c) d2 = base (negb c) d ∧
    imr (negb c) d1 = imr (negb c) d ∧ imr (negb c) d2 = imr (negb c) d ∧
    isr (negb c) d1 = isr (negb c) d ∧ isr (negb c) d2 = isr (negb c) d;
  (** ICW1 with ICW4 needed, the vector base, the wiring, 8086 mode: from any state the
      four words program the chip. *)
  icw_sequence : ∀ c d v3, ∀ v2, v2 mod 8 = 0 → 0 ≤ v2 < 256 →
    let d' := outb ICW4 (data_port c) (outb v3 (data_port c) (outb v2 (data_port c)
                (outb ICW1 (cmd_port c) d))) in
    programmed c d' ∧ base c d' = v2;
  (** A specific end-of-interrupt clears one in-service bit. *)
  eoi_write : ∀ c d n, programmed c d → 0 ≤ n < 8 →
    let d' := outb (Z.lor EOI n) (cmd_port c) d in
    isr c d' = Z.clearbit (isr c d) n ∧ programmed c d' ∧
    imr c d' = imr c d ∧ base c d' = base c d;
}.

(** The ports of other devices do not reach the controllers. *)
Definition pic_ports : list Z :=
  [MASTER_8259_PORT; MASTER_8259_DATA; SLAVE_8259_PORT; SLAVE_8259_DATA].

Class PicFrame (PT : Ports) {PD : PicDev PT} := {
  frame_out : ∀ c p v d, p ∉ pic_ports → let d' := outb v p d in
    (programmed c d → programmed c d') ∧ imr c d' = imr c d;
  frame_in : ∀ c p d, p ∉ pic_ports → let d' := snd (inb p d) in
    (programmed c d → programmed c d') ∧ imr c d' = imr c d;
}.

Section pic.
Context {PT : Ports} {PL : PgLayout} {PD : PicDev PT}.
Implicit Types (k : kernel).

(** IRQ [i] is masked. *)
Definition masked (d : dev) (i : Z) : bool :=
  if i <? 8 then Z.testbit (imr false d) i else Z.testbit (imr true d) (i - 8).

Definition pics_ready (d : dev) : Prop := programmed false d ∧ programmed true d.

Lemma testbit_clear v n i :
  0 ≤ v < 256 → 0 ≤ n < 8 → 0 ≤ i < 8 →
  Z.testbit (u8 (Z.land v (Z.lnot (Z.shiftl 1 n)))) i = Z.testbit v i && negb (i =? n).
Proof.
  intros Hv Hn Hi. unfold u8. change 256 with (2 ^ 8).
  rewrite Z.mod_pow2_bits_low, Z.land_spec, Z.lnot_spec, Z.shiftl_1_l by lia.
  rewrite Z.pow2_bits_eqb by lia. by rewrite (Z.eqb_sym n i).
Qed.

Lemma testbit_set v n i :
  0 ≤ v < 256 → 0 ≤ n < 8 → 0 ≤ i < 8 →
  Z.testbit (u8 (Z.lor v (Z.shiftl 1 n))) i = Z.testbit v i || (i =? n).
Proof.
  intros Hv Hn Hi. unfold u8. change 256 with (2 ^ 8).
  rewrite Z.mod_pow2_bits_low, Z.lor_spec, Z.shiftl_1_l by lia.
  rewrite Z.pow2_bits_eqb by lia. by rewrite (Z.eqb_sym n i).
Qed.

(** Reading, changing and writing back the mask of one chip. *)
Lemma mask_update c d v :
  pics_ready d → 0 ≤ v < 256 →
  let d' := outb v (data_port c) d in
  pics_ready d' ∧ imr c d' = v ∧ imr (negb c) d' = imr (negb c) d ∧
  (∀ b, base b d' = base b d ∧ isr b d' = isr b d).
Proof.
  intros [Hm Hs] Hv d'.
  assert (programmed c d) as Hc by (by destruct c).
  destruct (imr_write c d v Hc Hv) as (E1 & E2 & E3 & E4).
  destruct (chip_frame c d v) as (F1 & F2 & _ & F4 & _ & F6 & _).
  unfold pics_ready. destruct c; simpl in *; split_and!; try done;
    try (by apply F1); intros []; done.
Qed.

Lemma u8_imr c d : u8 (imr c d) = imr c d.
Proof. apply u8_small, imr_range. Qed.

Lemma inb_data c d : programmed c d → inb (data_port c) d = (imr c d, d).
Proof. apply imr_read. Qed.

Definition irq_chip (irq : Z) : bool := IRQ_NUM <=? irq.
Definition irq_line (irq : Z) : Z := if irq_chip irq then irq - IRQ_NUM else irq.

Lemma eoi_byte n : 0 ≤ n < 8 → u8 (Z.lor n EOI) = Z.lor EOI n.
Proof.
  intros Hn. assert (n = 0 ∨ n = 1 ∨ n = 2 ∨ n = 3 ∨ n = 4 ∨ n = 5 ∨ n = 6 ∨ n = 7) as H by lia.
  by repeat destruct H as [-> | H]; [..|subst n].
Qed.

(** The device state after the two mask routines. *)
Lemma enable_irq_io irq k :
  pics_ready (io k) → 0 ≤ irq ≤ 15 →
  io (enable_irq irq k) =
    outb (u8 (Z.land (imr (irq_chip irq) (io k)) (Z.lnot (Z.shiftl 1 (irq_line irq)))))
      (data_port (irq_chip irq)) (io k).
Proof.
  intros [Hm Hs] Hi. unfold enable_irq, irq_line, irq_chip.
  destruct (Z.ltb_spec IRQ_HIGH irq); [unfold IRQ_HIGH in *; lia|].
  destruct (IRQ_NUM <=? irq); unfold k_inb.
  - pose proof (imr_read true (io k) Hs) as E. simpl in E. rewrite E. simpl.
    by rewrite u8_idem, u8_imr.
  - pose proof (imr_read false (io k) Hm) as E. simpl in E. rewrite E. simpl.
    by rewrite u8_idem, u8_imr.
Qed.

Lemma disable_irq_io irq k :
  pics_ready (io k) → 0 ≤ irq ≤ 15 →
  io (disable_irq irq k) =
    outb (u8 (Z.lor (imr (irq_chip irq) (io k)) (Z.shiftl 1 (irq_line irq))))
      (data_port (irq_chip irq)) (io k).
Proof.
  intros [Hm Hs] Hi. unfold disable_irq, irq_line, irq_chip.
  destruct (Z.ltb_spec IRQ_HIGH irq); [unfold IRQ_HIGH in *; lia|].
  destruct (IRQ_NUM <=? irq); unfold k_inb.
  - pose proof (imr_read true (io k) Hs) as E. simpl in E. rewrite E. simpl.
    by rewrite u8_idem, u8_imr.
  - pose proof (imr_read false (io k) Hm) as E. simpl in E. rewrite E. simpl.
    by rewrite u8_idem, u8_imr.
Qed.

(** ** Properties *)

Lemma irq_mask_ok irq k i :
  pics_ready (io k) → 0 ≤ irq ≤ 15 → 0 ≤ i ≤ 15 →
  let d := io k in let de := io (enable_irq irq k) in let dd := io (disable_irq irq k) in
  masked de i = masked d i && negb (i =? irq) ∧ masked dd i = masked d i || (i =? irq) ∧
  pics_ready de ∧ pics_ready dd ∧
  ∀ c, base c de = base c d ∧ base c dd = base c d ∧ isr c de = isr c d ∧ isr c dd = isr c d.
Proof.
  intros Hr Hirq Hi d de dd. unfold de, dd. rewrite enable_irq_io, disable_irq_io by done.
  fold d. unfold irq_line, irq_chip, masked.
  set (c := IRQ_NUM <=? irq). set (n := if c then irq - IRQ_NUM else irq).
  assert (0 ≤ n < 8) as Hn.
  { unfold n, c, IRQ_NUM. destruct (Z.leb_spec 8 irq); lia. }
  pose proof (imr_range c d) as Hv.
  destruct (mask_update c d (u8 (Z.land (imr c d) (Z.lnot (Z.shiftl 1 n)))) Hr (u8_bound _))
    as (R1 & E1 & O1 & B1).
  destruct (mask_update c d (u8 (Z.lor (imr c d) (Z.shiftl 1 n))) Hr (u8_bound _))
    as (R2 & E2 & O2 & B2).
  split_and!; [| |exact R1|exact R2|intros b; destruct (B1 b), (B2 b); done].
  - unfold n, c, IRQ_NUM in *. destruct (Z.leb_spec 8 irq), (Z.ltb_spec i 8); simpl in *;
      rewrite ?E1, ?O1, ?testbit_clear by lia;
      rewrite ?(proj2 (Z.eqb_neq i irq)) by lia; rewrite ?andb_true_r; try done.
    do 2 f_equal. by destruct (Z.eqb_spec (i - 8) (irq - 8)), (Z.eqb_spec i irq); try lia.
  - unfold n, c, IRQ_NUM in *. destruct (Z.leb_spec 8 irq), (Z.ltb_spec i 8); simpl in *;
      rewrite ?E2, ?O2, ?testbit_set by lia;
      rewrite ?(proj2 (Z.eqb_neq i irq)) by lia; rewrite ?orb_false_r; try done.
    f_equal. by destruct (Z.eqb_spec (i - 8) (irq - 8)), (Z.eqb_spec i irq); try lia.
Qed.

(** Enabling an IRQ clears exactly its own mask bit among the sixteen, and
    disabling it sets exactly that bit; the other chip, the vectors and the interrupts
    in service are not touched. *)
Theorem irq_mask_exact irq k i :
  pics_ready (io k) → 0 ≤ irq ≤ 15 → 0 ≤ i ≤ 15 →
  let d := io k in let de := io (enable_irq irq k) in let dd := io (disable_irq irq k) in
  masked de i = masked d i && negb (i =? irq) ∧ masked dd i = masked d i || (i =? irq) ∧
  pics_ready de ∧ pics_ready dd ∧
  ∀ c, base c de = base c d ∧ base c dd = base c d ∧ isr c de = isr c d ∧ isr c dd = isr c d.
Proof. apply irq_mask_ok. Qed.

(** An end-of-interrupt for a slave line also ends the cascade line 2 of the
    master, one for a master line only that line; masks and vectors stay. *)
Theorem send_eoi_ends irq k :
  pics_ready (io k) → 0 ≤ irq ≤ 15 →
  let d := io k in let d' := io (send_eoi irq k) in
  isr true d' = (if irq <? 8 then isr true d else Z.clearbit (isr true d) (irq - 8)) ∧
  isr false d' = Z.clearbit (isr false d) (if irq <? 8 then irq else 2) ∧
  pics_ready d' ∧ ∀ c, imr c d' = imr c d ∧ base c d' = base c d.
Proof.
  intros [Hm Hs] Hi d d'. unfold d', send_eoi, IRQ_HIGH, IRQ_NUM.
  destruct (Z.ltb_spec 15 irq); [lia|].
  destruct (Z.leb_spec 8 irq), (Z.ltb_spec irq 8); try lia; simpl.
  - rewrite eoi_byte by lia.
    destruct (eoi_write true d (irq - 8) Hs ltac:(lia)) as (A1 & A2 & A3 & A4).
    destruct (chip_frame true d (Z.lor EOI (irq - 8)))
      as (F1 & _ & F2 & _ & F3 & _ & F4). simpl in *.
    set (d1 := outb (Z.lor EOI (irq - 8)) SLAVE_8259_PORT d) in *.
    change (u8 (Z.lor EOI SLAVE_IRQ_LINE)) with (Z.lor EOI 2).
    destruct (eoi_write false d1 2 ltac:(by apply F1) ltac:(lia)) as (G1 & G2 & G3 & G4).
    destruct (chip_frame false d1 (Z.lor EOI 2)) as (J1 & _ & J2 & _ & J3 & _ & J4).
    simpl in *. fold d. fold d1. rewrite J4, A1, G1, F4. unfold pics_ready.
    split_and!; try done; [by apply J1|]. intros [].
    + by rewrite J3, J2, A3, A4.
    + by rewrite G3, G4, F3, F2.
  - rewrite eoi_byte by lia.
    destruct (eoi_write false d irq Hm ltac:(lia)) as (A1 & A2 & A3 & A4).
    destruct (chip_frame false d (Z.lor EOI irq)) as (F1 & _ & F2 & _ & F3 & _ & F4).
    simpl in *. fold d. unfold pics_ready. rewrite A1, F4.
    split_and!; try done; [by apply F1|]. intros []; [by rewrite F3, F2|by rewrite A3, A4].
Qed.

(** The other chip through the four writes of an initialisation. *)
Lemma icw_frame c d v2 v3 :
  let d' := outb ICW4 (data_port c) (outb v3 (data_port c) (outb v2 (data_port c)
              (outb ICW1 (cmd_port c) d))) in
  (programmed (negb c) d → programmed (negb c) d') ∧ base (negb c) d' = base (negb c) d.
Proof.
  intros d'. unfold d'.
  destruct (chip_frame c d ICW1) as (A & _ & B & _).
  set (d1 := outb ICW1 (cmd_port c) d) in *.
  destruct (chip_frame c d1 v2) as (A1 & B1 & _).
  set (d2 := outb v2 (data_port c) d1) in *.
  destruct (chip_frame c d2 v3) as (A2 & B2 & _).
  set (d3 := outb v3 (data_port c) d2) in *.
  destruct (chip_frame c d3 ICW4) as (A3 & B3 & _).
  split; [intros H; by apply A3, A2, A1, A|congruence].
Qed.

(** Whatever the firmware left, [i8259_init] programs both controllers, with the
    interrupt vectors at 0x20 and 0x28, and leaves all sixteen lines masked. *)
Theorem i8259_init_programs k :
  let d := io (i8259_init k) in
  pics_ready d ∧ base false d = 32 ∧ base true d = 40 ∧
  ∀ i, 0 ≤ i ≤ 15 → masked d i = true.
Proof.
  intros d. unfold d, i8259_init, k_inb.
  destruct (inb MASTER_8259_DATA (io k)) as [v0 d0]. simpl.
  destruct (inb SLAVE_8259_DATA d0) as [v1 d1]. simpl.
  set (d2 := outb _ SLAVE_8259_DATA (outb _ MASTER_8259_DATA d1)).
  destruct (icw_sequence false d2 ICW3_MASTER ICW2_MASTER eq_refl ltac:(unfold ICW2_MASTER; lia))
    as [P1 B1].
  set (d3 := outb ICW4 (data_port false) _) in *.
  destruct (icw_sequence true d3 ICW3_SLAVE ICW2_SLAVE eq_refl ltac:(unfold ICW2_SLAVE; lia))
    as [P2 B2].
  destruct (icw_frame true d3 ICW2_SLAVE ICW3_SLAVE) as [F1 F2].
  set (d4 := outb ICW4 (data_port true) _) in *. simpl in F1, F2. specialize (F1 P1).
  destruct (mask_update false d4 MASK_ALL (conj F1 P2) ltac:(unfold MASK_ALL; lia))
    as (R5 & I5 & _ & E5).
  set (d5 := outb MASK_ALL (data_port false) d4) in *.
  destruct (mask_update true d5 MASK_ALL R5 ltac:(unfold MASK_ALL; lia)) as (R6 & I6 & O6 & E6).
  set (d6 := outb MASK_ALL (data_port true) d5) in *. simpl in O6.
  change (pics_ready d6 ∧ base false d6 = 32 ∧ base true d6 = 40 ∧
    ∀ i, 0 ≤ i ≤ 15 → masked d6 i = true).
  split_and!; [done| | |].
  - rewrite (proj1 (E6 false)), (proj1 (E5 false)), F2. exact B1.
  - rewrite (proj1 (E6 true)), (proj1 (E5 true)). exact B2.
  - intros i Hi. unfold masked. rewrite I6, O6, I5. change MASK_ALL with (Z.ones 8).
    case_test; apply Z.ones_spec_low; lia.
Qed.
End pic.

(** ** The concrete controllers keep the promises *)

Definition pc_chip (c : bool) (d : machine) : chip := if c then slave d else master d.

Lemma land_base v : v mod 8 = 0 → 0 ≤ v < 256 → Z.land v 248 = v.
Proof.
  intros Hm Hv. assert (v = 8 * (v / 8)) as E by (Z.div_mod_to_equations; lia).
  assert (forallb (λ q, Z.land (8 * q) 248 =? 8 * q) (seqZ 0 32) = true) as H by done.
  rewrite E. apply Z.eqb_eq, (forallb_seqZ _ 0 32 (v / 8) H). Z.div_mod_to_equations. lia.
Qed.

#[export] Instance pc_pic : PicDev pc_ports.
Proof.
  refine {| programmed := λ c (d : @dev pc_ports), c_wait (pc_chip c d) = 0;
            base := λ c (d : @dev pc_ports), c_base (pc_chip c d);
            imr := λ c (d : @dev pc_ports), u8 (c_imr (pc_chip c d));
            isr := λ c (d : @dev pc_ports), c_isr (pc_chip c d) |}.
  - intros c d. apply u8_bound.
  - intros [] d H; reflexivity.
  - intros [] d v H Hv; simpl in H |- *; unfold chip_data; rewrite H; simpl;
      rewrite u8_idem, u8_small by done; done.
  - intros [] d v; simpl; done.
  - intros [] d v3 v2 H8 Hv; simpl; by rewrite land_base.
  - intros c d n H Hn.
    assert (n = 0 ∨ n = 1 ∨ n = 2 ∨ n = 3 ∨ n = 4 ∨ n = 5 ∨ n = 6 ∨ n = 7) as Hc by lia.
    destruct c; repeat destruct Hc as [-> | Hc]; try subst n; simpl in *; done.
Defined.

#[export] Instance pc_frame : PicFrame pc_ports.
Proof.
  constructor; [|done]. intros c p v d Hp. unfold pic_ports in Hp. simpl.
  unfold MASTER_8259_PORT, MASTER_8259_DATA, SLAVE_8259_PORT, SLAVE_8259_DATA in Hp.
  rewrite !not_elem_of_cons in Hp. destruct Hp as (H1 & H2 & H3 & H4 & _). unfold pc_outb.
  repeat match goal with |- context [p =? ?x] => destruct (Z.eqb_spec p x); try lia end;
    by destruct c.
Qed.

(** A kernel on that machine. *)
Definition pc_kernel : @kernel pc_ports :=
  @Kernel pc_ports ∅ (paging_init (PL := demo_pg) mmu_reset) pc_running (Cpu 0 0 true) demo_con
    (KbdFlags 0 0 0 0 0) (RtcVars 0 0 0) (PicVars 251 254)
    (Procs (-1) 0 (replicate 6 0) ∅ 0 0) (FsVars 0 0).

Lemma pc_ready : pics_ready (io pc_kernel).
Proof. by split. Qed.

Lemma irq_mask_exact_witness :
  masked (io (enable_irq (PT := pc_ports) (PL := demo_pg) 8 pc_kernel)) 8 = false ∧
  masked (io (disable_irq (PT := pc_ports) (PL := demo_pg) 2 pc_kernel)) 2 = true.
Proof.
  split.
  - destruct (irq_mask_exact (PL := demo_pg) 8 pc_kernel 8 pc_ready ltac:(lia) ltac:(lia)) as [E _].
    rewrite E. reflexivity.
  - destruct (irq_mask_exact (PL := demo_pg) 2 pc_kernel 2 pc_ready ltac:(lia) ltac:(lia))
      as (_ & E & _). rewrite E. reflexivity.
Defined.

Lemma send_eoi_ends_witness :
  isr true (io (send_eoi (PT := pc_ports) (PL := demo_pg) 8 pc_kernel)) = 0.
Proof.
  destruct (send_eoi_ends (PL := demo_pg) 8 pc_kernel pc_ready ltac:(lia)) as [E _].
  rewrite E. reflexivity.
Defined.

Lemma i8259_init_programs_witness :
  base true (io (i8259_init (PT := pc_ports) (set_io (PT := pc_ports) pc_reset pc_kernel))) = 40.
Proof. apply (i8259_init_programs (PT := pc_ports)). Defined.
