(* ===== verification/Rtc.v ===== *)
(** * The real-time clock and the timer chip (rtc.c, rtc.h, [pit_init] of pit.c)

    A read of the RTC waits for the next interrupt by spinning on the flag
    [rtc_signal].  The loop cannot be left by the code alone, so the routine is given
    as the part before the loop, [rtc_read], and the part from the loop on,
    [rtc_read_poll], which answers [None] as long as the flag is not set; interrupt
    handlers run in between.  The clock chip is the class [RtcDev]. *)

From S2P Require Import Prelude Mem Paging Fs Kstate Pc Screen Pic.

Definition RTC_IRQ : Z := 8.
Definition RTC_PORT : Z := 112.
Definition RTC_DATA : Z := 113.
Definition CMOS_PORT : Z := 113.
Definition SEL_B_DIS_NMI : Z := 139.
Definition SEL_A_DIS_NMI : Z := 138.
Definition RTC_REG_C : Z := 12.
Definition NUM_BYTE : Z := 4.
Definition LOW_FREQUENCY : Z := 2.
Definition HIGH_FREQUENCY : Z := 1024.

Definition PIT_IRQ : Z := 0.
Definition _100HZ : Z := 11932.
Definition PIT_CHNL_0_PORT : Z := 64.
Definition PIT_CMD_REG : Z := 67.

Section rtc_ops.
Context {PT : Ports} {PL : PgLayout}.
Implicit Types (k : kernel).

Definition set_signal v k :=
  set_rtc (RtcVars v (test_rtc (rtc k)) (interrupt_time_count (rtc k))) k.
Definition set_test_rtc v k :=
  set_rtc (RtcVars (rtc_signal (rtc k)) v (interrupt_time_count (rtc k))) k.
Definition set_time_count v k :=
  set_rtc (RtcVars (rtc_signal (rtc k)) (test_rtc (rtc k)) v) k.

Definition rtc_init k : kernel :=
  let k := set_signal 0 k in
  let k := set_test_rtc 0 k in
  let k := set_time_count 0 k in
  let '(v, k) := k_inb RTC_PORT k in
  let k := k_outb (Z.lor v 128) RTC_PORT k in
  let k := k_outb SEL_B_DIS_NMI RTC_PORT k in
  let '(cur_val, k) := k_inb CMOS_PORT k in
  let k := k_outb SEL_B_DIS_NMI RTC_PORT k in
  let k := k_outb (Z.lor cur_val 64) CMOS_PORT k in
  let k := enable_irq RTC_IRQ k in
  let k := enable_irq SLAVE_IRQ_LINE k in
  let '(v, k) := k_inb RTC_PORT k in
  k_outb (Z.land v 127) RTC_PORT k.

Definition rtc_int_handler k : kernel :=
  let k := cli k in
  let k := set_time_count (s32 (interrupt_time_count (rtc k) + 1)) k in
  let k := set_signal 1 k in
  let k := k_outb RTC_REG_C RTC_PORT k in
  let '(_, k) := k_inb CMOS_PORT k in
  let k := send_eoi RTC_IRQ k in
  sti k.

Definition rtc_read k : kernel := set_signal 0 k.

Definition rtc_read_poll k : option (Z * kernel) :=
  if negb (rtc_signal (rtc k) =? 1) then None else Some (0, set_signal 0 k).

(** [while (fre >>= 1) log_fre += 1;] *)
Definition log_loop : Z * Z → Z * Z :=
  while_n (λ '(fre, _), nz (Z.shiftr fre 1)) (λ '(fre, l), (Z.shiftr fre 1, l + 1)) 32.

Definition set_frequency (fre : Z) k : Z * kernel :=
  if (fre <? LOW_FREQUENCY) || (HIGH_FREQUENCY <? fre) || nz (Z.land (fre - 1) fre)
  then (-1, k)
  else
    let '(_, log_fre) := log_loop (fre, 0) in
    let frame := u8 (16 - log_fre) in
    let '(v, k) := k_inb RTC_PORT k in
    let k := k_outb (Z.lor v 128) RTC_PORT k in
    let k := k_outb SEL_A_DIS_NMI RTC_PORT k in
    let '(temp, k) := k_inb RTC_DATA k in
    let k := k_outb SEL_A_DIS_NMI RTC_PORT k in
    let k := k_outb (Z.lor (Z.land temp 240) frame) RTC_DATA k in
    let '(v, k) := k_inb RTC_PORT k in
    let k := k_outb (Z.land v 127) RTC_PORT k in
    (0, k).

Definition rtc_write (fp : file_entry) (buf nbytes : Z) k : Z * kernel :=
  if negb (nbytes =? NUM_BYTE) || (buf =? 0) then (-1, k)
  else set_frequency (s32 (ld32 (X := kx k) (pmem k) buf)) k.

Definition rtc_open (fname : Z) k : Z * kernel :=
  let '(_, k) := set_frequency LOW_FREQUENCY k in (0, k).

Definition rtc_close (fp : file_entry) : Z := 0.

(** [rtc_pulse] up to its loop, and the loop's exit test. *)
Definition rtc_pulse (seconds : Z) k : kernel :=
  let k := set_test_rtc 0 k in
  let '(_, k) := set_frequency LOW_FREQUENCY k in
  set_time_count 0 k.

Definition rtc_pulse_poll (seconds : Z) k : bool :=
  if negb (seconds =? -1) then s32 (seconds * 2) <? interrupt_time_count (rtc k)
  else 1 <? interrupt_time_count (rtc k).

Definition pit_init k : kernel :=
  let k := k_outb 55 PIT_CMD_REG k in
  let k := k_outb (u8 _100HZ) PIT_CHNL_0_PORT k in
  let k := k_outb (u8 (Z.shiftr _100HZ 8)) PIT_CHNL_0_PORT k in
  enable_irq PIT_IRQ k.
End rtc_ops.

(** ** What the clock promises *)

(** Registers behind an index port.  The top bit of the index masks NMI and does not
    select. *)
Class RtcDev (PT : Ports) := {
  sel : dev → Z;
  reg : dev → Z → Z;
  reg_range : ∀ d i, 0 ≤ reg d i < 256;
  sel_write : ∀ d v, let d' := outb v RTC_PORT d in
    sel d' = Z.land v 127 ∧ ∀ i, reg d' i = reg d i;
  sel_read : ∀ d, let d' := snd (inb RTC_PORT d) in
    sel d' = sel d ∧ ∀ i, reg d' i = reg d i;
  (** Registers A and B (10 and 11) are plain memory. *)
  reg_read : ∀ d, 10 ≤ sel d ≤ 11 →
    fst (inb RTC_DATA d) = reg d (sel d) ∧ ∀ i, reg (snd (inb RTC_DATA d)) i = reg d i;
  reg_write : ∀ d v, 10 ≤ sel d ≤ 11 → 0 ≤ v < 256 →
    ∀ i, reg (outb v RTC_DATA d) i = if i =? sel d then v else reg d i;
}.

Section rtc.
Context {PT : Ports} {PL : PgLayout} {RD : RtcDev PT}.
Implicit Types (k : kernel).

(** The rate of periodic interrupts selected by register A. *)
Definition rtc_rate (d : dev) : Z := Z.shiftr 32768 (Z.land (reg d 10) 15 - 1).

(** The frequencies the driver accepts. *)
Definition rtc_freqs : list Z := [2; 4; 8; 16; 32; 64; 128; 256; 512; 1024].

Lemma freq_test fre :
  (fre <? LOW_FREQUENCY) || (HIGH_FREQUENCY <? fre) || nz (Z.land (fre - 1) fre) = false ↔
  fre ∈ rtc_freqs.
Proof.
  unfold LOW_FREQUENCY, HIGH_FREQUENCY. split.
  - rewrite !orb_false_iff, !Z.ltb_ge. intros [[H1 H2] H3].
    assert (forallb (λ f, nz (Z.land (f - 1) f) || bool_decide (f ∈ rtc_freqs)) (seqZ 2 1023)
            = true) as H by (vm_compute; done).
    apply (forallb_seqZ _ 2 1023 fre) in H; [|lia].
    cbv beta in H. rewrite H3 in H. by apply bool_decide_eq_true_1 in H.
  - intros H. repeat (apply elem_of_cons in H as [->|H]; [done|]). by apply elem_of_nil in H.
Qed.

(** Selecting register A or B twice around a read, then writing it. *)
Lemma rtc_update d v1 v2 (f : Z → Z) r :
  10 ≤ r ≤ 11 → (∀ v, 0 ≤ f v < 256) →
  let d1 := outb v1 RTC_PORT (snd (inb RTC_PORT d)) in
  let d2 := outb (r + 128) RTC_PORT d1 in
  let d3 := outb (r + 128) RTC_PORT (snd (inb RTC_DATA d2)) in
  let d4 := outb (f (fst (inb RTC_DATA d2))) RTC_DATA d3 in
  let d5 := outb v2 RTC_PORT (snd (inb RTC_PORT d4)) in
  ∀ i, reg d5 i = if i =? r then f (reg d r) else reg d i.
Proof.
  intros Hr Hf d1 d2 d3 d4 d5 i.
  assert (Z.land (r + 128) 127 = r) as Er
    by (assert (r = 10 ∨ r = 11) as [-> | ->] by lia; done).
  destruct (sel_read d) as [_ R0]. destruct (sel_write (snd (inb RTC_PORT d)) v1) as [_ R1].
  destruct (sel_write d1 (r + 128)) as [S2 R2]. fold d1 in R1. fold d2 in S2, R2.
  rewrite Er in S2. destruct (reg_read d2 ltac:(rewrite S2; lia)) as [V2 R2'].
  destruct (sel_write (snd (inb RTC_DATA d2)) (r + 128)) as [S3 R3]. fold d3 in S3, R3.
  rewrite Er in S3.
  pose proof (reg_write d3 (f (fst (inb RTC_DATA d2))) ltac:(rewrite S3; lia) (Hf _)) as R4. fold d4 in R4.
  destruct (sel_read d4) as [_ R5]. destruct (sel_write (snd (inb RTC_PORT d4)) v2) as [_ R6].
  fold d5 in R6. rewrite R6, R5, R4, S3, V2, S2.
  by rewrite R3, R2', !R2, !R1, !R0.
Qed.

Lemma log_loop_freq fre :
  fre ∈ rtc_freqs → ∃ l, log_loop (fre, 0) = (1, l) ∧ 1 ≤ l ≤ 10 ∧ fre = 2 ^ l.
Proof.
  intros H. repeat (apply elem_of_cons in H as [->|H];
    [eexists; split; [vm_compute; reflexivity|split; [lia|reflexivity]]|]).
  by apply elem_of_nil in H.
Qed.

Lemma land_240_frame v l :
  0 ≤ v < 256 → 1 ≤ l ≤ 10 →
  let w := Z.lor (Z.land v 240) (u8 (16 - l)) in
  0 ≤ w < 256 ∧ Z.land w 15 = 16 - l ∧ Z.land w 240 = Z.land v 240.
Proof.
  intros Hv Hl w.
  assert (forallb (λ v, forallb (λ l, let w := Z.lor (Z.land v 240) (u8 (16 - l)) in
    (0 <=? w) && (w <? 256) && (Z.land w 15 =? 16 - l) && (Z.land w 240 =? Z.land v 240))
    (seqZ 1 10)) (seqZ 0 256) = true) as H by (vm_compute; done).
  apply (forallb_seqZ _ 0 256 v) in H; [|lia]. apply (forallb_seqZ _ 1 10 l) in H; [|lia].
  cbv zeta in H. rewrite !andb_true_iff, !Z.eqb_eq, Z.leb_le, Z.ltb_lt in H. unfold w. lia.
Qed.

(** ** Properties *)

(** The RTC accepts exactly the powers of two from 2 to 1024 Hz; for those its
    interrupt rate becomes the one asked for and no other register and no other part of
    register A changes, and every other request fails without any effect. *)
Theorem set_frequency_rate fre k :
  let '(r, k') := set_frequency fre k in
  if decide (fre ∈ rtc_freqs)
  then r = 0 ∧ rtc_rate (io k') = fre ∧
       Z.land (reg (io k') 10) 240 = Z.land (reg (io k) 10) 240 ∧
       ∀ i, i ≠ 10 → reg (io k') i = reg (io k) i
  else r = -1 ∧ k' = k.
Proof.
  unfold set_frequency. case_decide as Hf.
  - rewrite (proj2 (freq_test fre) Hf).
    destruct (log_loop_freq fre Hf) as (l & -> & Hl & Hfre). unfold k_inb.
    pose proof (rtc_update (io k) (u8 (Z.lor (u8 (fst (inb RTC_PORT (io k)))) 128))) as HU.
    destruct (inb RTC_PORT (io k)) as [v0 d0] eqn:E0. simpl in HU |- *.
    set (d1 := outb _ RTC_PORT d0) in *. set (d2 := outb _ RTC_PORT d1) in *.
    destruct (inb RTC_DATA d2) as [v2 d2'] eqn:E2. simpl.
    set (d3 := outb _ RTC_PORT d2') in *. set (d4 := outb _ RTC_DATA d3) in *.
    destruct (inb RTC_PORT d4) as [v4 d4'] eqn:E4. simpl.
    specialize (HU (u8 (Z.land (u8 v4) 127))
      (λ v, u8 (Z.lor (Z.land (u8 v) 240) (u8 (16 - l)))) 10 ltac:(lia) (λ v, u8_bound _)).
    cbv zeta in HU. change (10 + 128) with (u8 SEL_A_DIS_NMI) in HU.
    fold d2 in HU. rewrite E2 in HU. simpl in HU. fold d3 in HU. fold d4 in HU.
    rewrite E4 in HU. simpl in HU.
    pose proof (HU 10) as H10. rewrite Z.eqb_refl in H10.
    pose proof (reg_range (io k) 10) as Hr.
    destruct (land_240_frame (reg (io k) 10) l Hr Hl) as (W1 & W2 & W3).
    rewrite (u8_small _ Hr), (u8_small _ W1) in H10.
    unfold rtc_rate. rewrite H10, W2, W3. split_and!; try done.
    + rewrite Hfre. replace (16 - l - 1) with (15 - l) by lia.
      rewrite Z.shiftr_div_pow2 by lia. change 32768 with (2 ^ 15).
      rewrite <- Z.pow_sub_r by lia. f_equal. lia.
    + intros i Hi. rewrite HU. by rewrite (proj2 (Z.eqb_neq i 10) Hi).
  - destruct ((fre <? LOW_FREQUENCY) || _ || _) eqn:E; [done|].
    by apply freq_test in E.
Qed.
End rtc.

Section rtc_wait.
Context {PT : Ports} {PL : PgLayout}.
Implicit Types (k : kernel).

Lemma rtc_int_handler_vars k :
  rtc (rtc_int_handler k) =
    RtcVars 1 (test_rtc (rtc k)) (s32 (interrupt_time_count (rtc k) + 1)).
Proof.
  unfold rtc_int_handler, k_inb. simpl. by destruct (inb _ _).
Qed.

(** A reader of the RTC is held until the next clock interrupt and no longer:
    right after the call the wait goes on, one run of the handler ends it with answer
    0, and the flag is then clear, so that the next read waits for a new interrupt. *)
Theorem rtc_read_waits k k1 :
  rtc k1 = rtc (rtc_int_handler (rtc_read k)) →
  rtc_read_poll (rtc_read k) = None ∧
  rtc_read_poll k1 = Some (0, set_signal 0 k1) ∧
  rtc_read_poll (set_signal 0 k1) = None.
Proof.
  intros H1. unfold rtc_read_poll. rewrite H1, rtc_int_handler_vars. done.
Qed.

(** The flag is shared by all programs, so a clock interrupt can be lost: when two
    programs wait and the first one polls after the interrupt, the second one is still
    waiting. *)
Theorem rtc_signal_shared k kA :
  let k2 := rtc_int_handler (rtc_read (rtc_read k)) in
  rtc_read_poll k2 = Some (0, kA) → rtc_read_poll kA = None.
Proof.
  intros k2. unfold rtc_read_poll. unfold k2. rewrite rtc_int_handler_vars. simpl.
  by intros [= <-].
Qed.
End rtc_wait.

(** ** The concrete clock keeps the promises *)

#[export] Instance pc_rtc : RtcDev pc_ports.
Proof.
  refine {| sel := λ d : @dev pc_ports, rtc_index d;
            reg := λ (d : @dev pc_ports) i, u8 (rtc_regs d i) |}.
  - intros d i. apply u8_bound.
  - intros d v. done.
  - intros d. done.
  - intros d _. done.
  - intros d v _ Hv i. simpl. case_test; [by apply u8_small|done].
Defined.

Lemma set_frequency_rate_witness :
  let '(r, k') := set_frequency (PT := pc_ports) 1024 pc_kernel in
  r = 0 ∧ rtc_rate (io k') = 1024.
Proof.
  pose proof (set_frequency_rate (PT := pc_ports) 1024 pc_kernel) as H.
  destruct (set_frequency 1024 pc_kernel) as [r k'].
  rewrite decide_True in H; [exact (conj (proj1 H) (proj1 (proj2 H)))|].
  apply list_elem_of_In. simpl. lia.
Defined.

Lemma rtc_read_waits_witness :
  rtc_read_poll (rtc_read (PT := pc_ports) pc_kernel) = None.
Proof.
  apply (rtc_read_waits (PT := pc_ports) (PL := demo_pg) pc_kernel
    (rtc_int_handler (PL := demo_pg) (rtc_read pc_kernel))).
  reflexivity.
Defined.

Lemma rtc_signal_shared_witness :
  let k2 := rtc_int_handler (PT := pc_ports) (PL := demo_pg) (rtc_read (rtc_read pc_kernel)) in
  rtc_read_poll (set_signal 0 k2) = None.
Proof.
  apply (rtc_signal_shared (PT := pc_ports) (PL := demo_pg) pc_kernel). reflexivity.
Defined.
