(* ===== verification/Keyboard.v ===== *)
(** * The keyboard (keyboard.c, keyboard.h) and reading from the terminal

    The handler turns scan codes into characters, echoes them on the terminal in view
    and edits that terminal's line buffer; [terminal_read] hands a finished line to a
    program.  A read spins until the line is there: the routine answers [None] while
    it would still be spinning.

    The abstract line editor below, [edit_line], is what a user expects of typing;
    the theorems show that the buffer, its position and the two copies of the position
    implement it. *)

From S2P Require Import Prelude Mem Lib Paging Fs Kstate Pc Screen Terminal Pic.

Definition KEYBOARD_IRQ : Z := 1.
Definition Q_IDX : Z := 16.
Definition P_IDX : Z := 25.
Definition A_IDX : Z := 30.
Definition L_IDX : Z := 38.
Definition Z_IDX : Z := 44.
Definition M_IDX : Z := 50.
Definition LEFT_CTRL_PRESSED_IDX : Z := 29.
Definition RIGHT_CTRL_PRESSED_IDX : Z := 237.
Definition CTRL_RELEASED_IDX : Z := 157.
Definition LEFT_SHIFT_PRESSED_IDX : Z := 42.
Definition LEFT_SHIFT_RELEASED_IDX : Z := 170.
Definition RIGHT_SHIFT_PRESSED_IDX : Z := 54.
Definition RIGHT_SHIFT_RELEASED_IDX : Z := 182.
Definition ALT_PRESSED_IDX : Z := 56.
Definition ALT_RELEASED_IDX : Z := 184.
Definition CAPSLOCK_PRESSED_IDX : Z := 58.
Definition CAPSLOCK_RELEASED_IDX : Z := 186.
Definition BACKSPACE_PRESSED_IDX : Z := 14.
Definition BACKSPACE_RELEASED_IDX : Z := 142.
Definition TAB_PRESSED_IDX : Z := 15.
Definition TAB_RELEASED_IDX : Z := 143.
Definition F1_PRESSED_IDX : Z := 59.
Definition F1_RELEASED_IDX : Z := 187.
Definition F2_PRESSED_IDX : Z := 60.
Definition F2_RELEASED_IDX : Z := 188.
Definition F3_PRESSED_IDX : Z := 61.
Definition F3_RELEASED_IDX : Z := 189.
Definition KBD_DATA_PORT : Z := 96.
Definition KBD_STATUS_PORT : Z := 100.
Definition KBD_READ : Z := 0.
Definition SCAN_CODE_SET_SIZE : Z := 59.
Definition KBD_BUF_SIZE : Z := 128.

(** Normal character and character with shift, by scan code. *)
Definition scan_code_set_1 : list (Z * Z) :=
  [ (0, 0); (0, 0);
    (49, 33); (50, 64); (51, 35); (52, 36); (53, 37); (54, 94); (55, 38); (56, 42);
    (57, 40); (48, 41);
    (45, 95); (61, 43);
    (8, 8); (9, 9);
    (113, 81); (119, 87); (101, 69); (114, 82); (116, 84); (121, 89); (117, 85);
    (105, 73); (111, 79); (112, 80);
    (91, 123); (93, 125);
    (10, 10); (48, 48);
    (97, 65); (115, 83); (100, 68); (102, 70); (103, 71); (104, 72); (106, 74);
    (107, 75); (108, 76);
    (59, 58); (39, 34); (96, 126);
    (48, 48);
    (92, 124);
    (122, 90); (120, 88); (99, 67); (118, 86); (98, 66); (110, 78); (109, 77);
    (44, 60); (46, 62); (47, 63);
    (48, 48);
    (42, 42);
    (48, 48);
    (32, 32);
    (48, 48) ].

(** [scan_code_set_1[code][modify]], for the codes of the table. *)
Definition scan_char (code modify : Z) : Z :=
  let '(normal, shifted) := nth (Z.to_nat code) scan_code_set_1 (0, 0) in
  if modify =? 0 then normal else shifted.

(** The character a key gives under the current modifiers. *)
Definition key_char (f : kbd_flags) (input_code : Z) : Z :=
  let shift := nz (left_shift_flag f) || nz (right_shift_flag f) in
  if ((Q_IDX <=? input_code) && (input_code <=? P_IDX)) ||
     ((A_IDX <=? input_code) && (input_code <=? L_IDX)) ||
     ((Z_IDX <=? input_code) && (input_code <=? M_IDX))
  then scan_char input_code (Z.lxor (b2z shift) (capslock_flag f))
  else scan_char input_code (b2z shift).

Section keyboard.
Context {PT : Ports} {PL : PgLayout}.
Implicit Types (k : kernel).

(** ** Operations *)

Definition keyboard_init k : kernel :=
  let k := set_kbd (KbdFlags 0 0 0 0 0) k in
  enable_irq KEYBOARD_IRQ k.

(** Printing on the terminal in view:
    [change_vidmem_mapping(viewing...); nb_putc(c); calib_cursor();
     change_vidmem_mapping(running...);] *)
Definition echo (c : Z) k : kernel := on_view_tid (λ k, calib_cursor (nb_putc c k)) k.

Definition upd_kbd (f : kbd_flags → kbd_flags) k : kernel := set_kbd (f (kbd k)) k.

(** The backspace key. *)
Definition kbd_backspace k : kernel :=
  if 0 <? buf_pos (con k)
  then let k := echo 8 k in upd_con (λ c, set_buf_pos (u8 (buf_pos c - 1)) c) k
  else k.

Definition check_and_handle_special_button (input_code : Z) k : Z * kernel :=
  if input_code =? LEFT_CTRL_PRESSED_IDX then (1, upd_kbd (set_ctrl 1) k)
  else if input_code =? RIGHT_CTRL_PRESSED_IDX then (1, upd_kbd (set_ctrl 1) k)
  else if input_code =? CTRL_RELEASED_IDX then (1, upd_kbd (set_ctrl 0) k)
  else if input_code =? LEFT_SHIFT_PRESSED_IDX then (1, upd_kbd (set_left_shift 1) k)
  else if input_code =? LEFT_SHIFT_RELEASED_IDX then (1, upd_kbd (set_left_shift 0) k)
  else if input_code =? RIGHT_SHIFT_PRESSED_IDX then (1, upd_kbd (set_right_shift 1) k)
  else if input_code =? RIGHT_SHIFT_RELEASED_IDX then (1, upd_kbd (set_right_shift 0) k)
  else if input_code =? CAPSLOCK_PRESSED_IDX
  then (1, upd_kbd (λ f, set_capslock (1 - capslock_flag f) f) k)
  else if input_code =? CAPSLOCK_RELEASED_IDX then (1, k)
  else if input_code =? BACKSPACE_PRESSED_IDX then (1, kbd_backspace k)
  else if input_code =? BACKSPACE_RELEASED_IDX then (1, k)
  else if input_code =? ALT_PRESSED_IDX then (1, upd_kbd (set_alt 1) k)
  else if input_code =? ALT_RELEASED_IDX then (1, upd_kbd (set_alt 0) k)
  else if input_code =? TAB_PRESSED_IDX then (1, k)
  else if input_code =? TAB_RELEASED_IDX then (1, k)
  else if input_code =? F1_PRESSED_IDX
  then (1, if nz (alt_flag (kbd k)) then switch_terminal 0 k else k)
  else if input_code =? F1_RELEASED_IDX then (1, k)
  else if input_code =? F2_PRESSED_IDX
  then (1, if nz (alt_flag (kbd k)) then switch_terminal 1 k else k)
  else if input_code =? F2_RELEASED_IDX then (1, k)
  else if input_code =? F3_PRESSED_IDX
  then (1, if nz (alt_flag (kbd k)) then switch_terminal 2 k else k)
  else if input_code =? F3_RELEASED_IDX then (1, k)
  else (0, k).

(** [kbd_buf[i] = c]; the pointer is NULL only before [terminal_init]. *)
Definition kbd_store (i c : Z) k : kernel :=
  match kbd_buf (con k) with
  | Some t => upd_term t (λ t, set_t_kbd_buf (<[Z.to_nat i := u8 c]> (t_kbd_buf t)) t) k
  | None => k
  end.

(** [kbd_buf[i]]. *)
Definition kbd_load (i : Z) k : Z :=
  match kbd_buf (con k) with
  | Some t => nth (Z.to_nat i) (t_kbd_buf (term k t)) 0
  | None => 0
  end.

(** [buf_pos = 0; viewing_term_ptr->kbd_buf_ready = 1;] *)
Definition kbd_submit k : kernel :=
  let k := upd_con (set_buf_pos 0) k in
  upd_term (viewing_term_ptr (con k)) (set_t_ready 1) k.

(** Entering a character into the line buffer. *)
Definition kbd_enter (what_to_put : Z) k : kernel :=
  if buf_pos (con k) <=? KBD_BUF_SIZE - 2 then
    let k := kbd_store (buf_pos (con k)) what_to_put k in
    if what_to_put =? 10 then kbd_submit k
    else upd_con (λ c, set_buf_pos (u8 (buf_pos c + 1)) c) k
  else if (buf_pos (con k) =? KBD_BUF_SIZE - 1) && (what_to_put =? 10) then
    kbd_submit (kbd_store (buf_pos (con k)) 10 k)
  else k.

(** The keys that are not special. *)
Definition handle_normal (input_code : Z) k : kernel :=
  if (2 <=? input_code) && (input_code <=? SCAN_CODE_SET_SIZE - 1) then
    if nz (ctrl_flag (kbd k)) && (scan_char input_code 0 =? 108)
    then upd_kbd (set_ctrl 0) (clear k)
    else
      let what_to_put := key_char (kbd k) input_code in
      kbd_enter what_to_put (echo what_to_put k)
  else k.

(** The handler from the scan code on. *)
Definition handle_code (input_code : Z) k : kernel :=
  let '(special, k) := check_and_handle_special_button input_code k in
  let k := if nz special then k else handle_normal input_code k in
  let k := send_eoi KEYBOARD_IRQ k in
  sti k.

Definition keyboard_int_handler k : kernel :=
  let k := cli k in
  let k := k_outb KBD_READ KBD_STATUS_PORT k in
  let '(input_code, k) := k_inb KBD_DATA_PORT k in
  handle_code input_code k.

(** The copying loop of [read_from_kbd_buf_to_buf]; its 128 rounds bound it. *)
Fixpoint kbd_copy (fuel : nat) (i buf nbytes : Z) k : Z * kernel :=
  match fuel with
  | O => (i, k)
  | S fuel =>
      if (i <? nbytes) && negb (KBD_BUF_SIZE - 1 <? i) then
        let read_char := kbd_load i k in
        let k := poke (buf + i) read_char k in
        if read_char =? 10 then (i + 1, k) else kbd_copy fuel (i + 1) buf nbytes k
      else (i, k)
  end.

Definition read_from_kbd_buf_to_buf (fd buf nbytes : Z) k : option (Z * kernel) :=
  if (buf =? 0) || (nbytes <=? 0) then Some (-1, k)
  else if negb (nz (t_kbd_buf_ready (running k))) then None
  else
    let '(nbytes_read, k) := kbd_copy (Z.to_nat KBD_BUF_SIZE) 0 buf nbytes k in
    Some (nbytes_read, upd_term (running_term_ptr (con k)) (set_t_ready 0) k).

Definition terminal_read (fd buf nbytes : Z) k : option (Z * kernel) :=
  if (buf =? 0) || (nbytes <=? 0) then Some (-1, k)
  else read_from_kbd_buf_to_buf fd buf nbytes k.

(** ** The line editor *)

(** What typing means: up to 127 characters, then only Enter is taken. *)
Definition edit_char (c : Z) (l : list Z) : list Z :=
  if decide (length l < 127)%nat then l ++ [c] else l.

Definition edit_backspace (l : list Z) : list Z := take (length l - 1) l.

(** The kernel between interrupts. *)
Record kbd_inv k (prog : option Z) : Prop := {
  ki_mapped : mapped k (running_term_ptr (con k)) prog;
  ki_kbd : kbd_ok (con k);
}.

Lemma echo_viewed k prog c :
  kbase k prog →
  viewed k (viewing_term_ptr (con k)) (running_term_ptr (con k)) prog
    (putc_spec (u8 c) (screen_of k (viewing_term_ptr (con k)))) (echo c k).
Proof.
  intros Hk. pose proof (kb_con _ _ Hk) as Hc.
  assert (screen_ok (screen_of k (viewing_term_ptr (con k)))) as Hs.
  { destruct (co_cursor _ Hc _ (co_view _ Hc)).
    split_and!; try apply length_vcells; simpl; unfold term; lia. }
  apply on_view_tid_eq; [done|by apply putc_spec_ok|].
  intros k1 Hm1 E1. rewrite <- E1.
  pose proof (nb_putc_step k1 _ prog c Hm1) as (m' & d' & E & Hu & Hcells).
  cbv beta. rewrite E.
  destruct (calib_cursor_out k1 (viewing_term_ptr (con k)) m' d'
    (sx (putc_spec (u8 c) (screen_of k1 (viewing_term_ptr (con k)))))
    (sy (putc_spec (u8 c) (screen_of k1 (viewing_term_ptr (con k)))))) as [d'' ->].
  exists m', d''. split; [reflexivity|split; [exact Hu|exact Hcells]].
Qed.

(** What a change of one screen leaves alone. *)
Record quiet k (v : Z) (k' : kernel) : Prop := {
  qt_run : running_term_ptr (con k') = running_term_ptr (con k);
  qt_view : viewing_term_ptr (con k') = viewing_term_ptr (con k);
  qt_kbd : kbd_buf (con k') = kbd_buf (con k);
  qt_pos : buf_pos (con k') = buf_pos (con k);
  qt_term : ∀ t, 0 ≤ t → t_kbd_buf (term k' t) = t_kbd_buf (term k t) ∧
                         t_buf_pos (term k' t) = t_buf_pos (term k t) ∧
                         t_kbd_buf_ready (term k' t) = t_kbd_buf_ready (term k t);
  qt_screen : ∀ t, 0 ≤ t < 3 → t ≠ v → screen_of k' t = screen_of k t;
  qt_rest : (kbd k', rtc k', pic k', prc k', fsv k', kcpu k') =
            (kbd k, rtc k, pic k, prc k, fsv k, kcpu k);
}.

Lemma viewed_quiet k v r prog s k' :
  kbase k prog → 0 ≤ v < 3 → viewed k v r prog s k' → quiet k v k'.
Proof.
  intros Hk Hv [_ _ Hu (m' & d' & u' & ->)]. pose proof (kb_con _ _ Hk) as Hc.
  constructor; try done.
  - intros t Ht. unfold term. simpl.
    change (con_term (set_screen_ptrs ?x ?y ?c) t) with (con_term c t).
    rewrite con_term_upd by (apply Hc || done). by case_decide as E; [subst t|].
  - intros t Ht Hne. unfold screen_of, term. simpl.
    change (con_term (set_screen_ptrs ?x ?y ?c) t) with (con_term c t).
    rewrite con_term_upd, decide_False by (apply Hc || lia). f_equal.
    change (frame_of _ t) with (frame_of (con k) t). apply vcells_ext. intros i Hi.
    eapply unch_frame_vbyte; [exact Hu| |done].
    apply frame_of_inj; [done|done|apply Hc|done].
Qed.

Lemma quiet_line k v k' t : quiet k v k' → 0 ≤ t → line_of k' t = line_of k t.
Proof.
  intros Hq Ht. unfold line_of, line_pos. destruct (qt_term _ _ _ Hq t Ht) as (-> & -> & _).
  by rewrite (qt_view _ _ _ Hq), (qt_pos _ _ _ Hq).
Qed.

(** ** The line buffer *)

(** Replacing the console under a mapped screen. *)
Lemma mapped_con k tid prog c :
  mapped k tid prog → con_ok c → viewing_term_ptr c = viewing_term_ptr (con k) →
  screen_x_ptr c = screen_x_ptr (con k) → screen_y_ptr c = screen_y_ptr (con k) →
  mapped (set_con c k) tid prog.
Proof.
  intros [] Hc Hv Hx Hy. constructor; simpl; try congruence.
  unfold frame_of in *. by rewrite Hv.
Qed.

(** The console after an edit: the buffer and flag of the terminal in view and the
    position. *)
Definition edit_con (f : terminal_t → terminal_t) (p : Z) (c : console) : console :=
  set_buf_pos p (con_upd_term (viewing_term_ptr c) f c).

Record edit_ok (f : terminal_t → terminal_t) : Prop := {
  eo_upd : term_upd_ok f;
  eo_cursor : ∀ t, t_cursor_x (f t) = t_cursor_x t ∧ t_cursor_y (f t) = t_cursor_y t;
  eo_buf : ∀ t, length (t_kbd_buf (f t)) = length (t_kbd_buf t);
  eo_pos : ∀ t, t_buf_pos (f t) = t_buf_pos t;
}.

Lemma edit_con_inv k prog f p :
  kbd_inv k prog → edit_ok f → 0 ≤ p ≤ 127 →
  let k' := set_con (edit_con f p (con k)) k in
  kbd_inv k' prog ∧ (∀ t, 0 ≤ t < 3 → screen_of k' t = screen_of k t) ∧
  (∀ t, 0 ≤ t < 3 → t ≠ viewing_term_ptr (con k) → line_of k' t = line_of k t).
Proof.
  intros [Hm Hk] [Hu Hcur Hbuf Hpos] Hp k'. pose proof (mp_con _ _ _ Hm) as Hc.
  pose proof (co_view _ Hc) as Hv.
  assert (con_ok (edit_con f p (con k))) as Hc'.
  { assert (con_ok (con_upd_term (viewing_term_ptr (con k)) f (con k))) as [].
    { apply con_ok_upd; try done.
      - destruct (Hcur (con_term (con k) (viewing_term_ptr (con k)))) as [-> ->].
        by apply (co_cursor _ Hc).
      - rewrite Hbuf. by apply (co_kbd _ Hc).
      - rewrite Hpos. by apply (co_pos _ Hc). }
    by constructor. }
  assert (∀ t, 0 ≤ t → term k' t = if decide (viewing_term_ptr (con k) = t)
            then f (term k t) else term k t) as Ht.
  { intros t Ht. unfold term. change (con_term (con k') t) with
      (con_term (con_upd_term (viewing_term_ptr (con k)) f (con k)) t).
    rewrite con_term_upd by (apply Hc || done). by case_decide as E; [subst t|]. }
  split_and!.
  - constructor; [by apply (mapped_con k)|done].
  - intros t Hr. unfold screen_of. rewrite Ht by lia.
    case_decide as E; [|done]. destruct (Hcur (term k t)) as [-> ->]. done.
  - intros t Hr Hne. unfold line_of, line_pos. rewrite Ht, decide_False by (lia || congruence).
    change (viewing_term_ptr (con k')) with (viewing_term_ptr (con k)).
    by rewrite (proj2 (Z.eqb_neq _ _) Hne).
Qed.

Lemma term_edit k f p :
  con_ok (con k) →
  term (set_con (edit_con f p (con k)) k) (viewing_term_ptr (con k)) = f (viewing k).
Proof.
  intros Hc. unfold term, viewing, term.
  change (con_term (con_upd_term (viewing_term_ptr (con k)) f (con k)) (viewing_term_ptr (con k))
    = f (con_term (con k) (viewing_term_ptr (con k)))).
  rewrite con_term_upd by (apply Hc || apply (co_view _ Hc)). by rewrite decide_True.
Qed.

Lemma take_insert_snoc {A} (l : list A) p x :
  (p < length l)%nat → take (S p) (<[p := x]> l) = take p l ++ [x].
Proof.
  intros Hp. rewrite (take_S_r _ _ x) by (by apply list_lookup_insert_eq).
  by rewrite take_insert_ge.
Qed.

Lemma line_of_view k :
  line_of k (viewing_term_ptr (con k)) =
    take (Z.to_nat (buf_pos (con k))) (t_kbd_buf (viewing k)).
Proof. unfold line_of, line_pos. by rewrite Z.eqb_refl. Qed.

Lemma length_line_view k :
  con_ok (con k) →
  length (line_of k (viewing_term_ptr (con k))) = Z.to_nat (buf_pos (con k)).
Proof.
  intros Hc. rewrite line_of_view, length_take. unfold viewing, term.
  rewrite (co_kbd _ Hc) by apply Hc. pose proof (co_buf_pos _ Hc). lia.
Qed.

(** Storing one character at the position. *)
Definition store_at (p c : Z) (t : terminal_t) : terminal_t :=
  set_t_kbd_buf (<[Z.to_nat p := u8 c]> (t_kbd_buf t)) t.

Lemma store_at_ok p c : edit_ok (store_at p c).
Proof. constructor; [by constructor|done|intros t; simpl; apply length_insert|done]. Qed.

Lemma submit_ok p c : edit_ok (λ t, set_t_ready 1 (store_at p c t)).
Proof. constructor; [by constructor|done|intros t; simpl; apply length_insert|done]. Qed.

(** The three outcomes of [kbd_enter]. *)
Lemma kbd_enter_eq k prog c :
  kbd_inv k prog →
  kbd_enter c k =
    let p := buf_pos (con k) in
    if c =? 10 then set_con (edit_con (λ t, set_t_ready 1 (store_at p 10 t)) 0 (con k)) k
    else if p <? 127 then set_con (edit_con (store_at p c) (p + 1) (con k)) k
    else k.
Proof.
  intros [Hm Hk]. pose proof (co_buf_pos _ (mp_con _ _ _ Hm)) as Hp.
  unfold kbd_enter, kbd_store, kbd_ok in *. rewrite Hk. cbv zeta.
  change (KBD_BUF_SIZE - 2) with 126. change (KBD_BUF_SIZE - 1) with 127.
  assert (∀ x, kbd_submit (upd_term (viewing_term_ptr (con k)) (store_at (buf_pos (con k)) x) k)
    = set_con (edit_con (λ t, set_t_ready 1 (store_at (buf_pos (con k)) x t)) 0 (con k)) k) as Hsub.
  { intros x. unfold kbd_submit, edit_con, upd_term, upd_con, con_upd_term. simpl.
    rewrite list_alter_alter_eq. reflexivity. }
  destruct (Z.leb_spec (buf_pos (con k)) 126), (Z.eqb_spec c 10); simpl.
  - subst c. apply (Hsub 10).
  - rewrite (proj2 (Z.ltb_lt (buf_pos (con k)) 127)) by lia.
    unfold upd_con. simpl. rewrite (u8_small (buf_pos (con k) + 1)) by lia. reflexivity.
  - rewrite (proj2 (Z.eqb_eq (buf_pos (con k)) 127)) by lia. simpl. apply (Hsub 10).
  - rewrite (proj2 (Z.ltb_ge (buf_pos (con k)) 127)) by lia. by rewrite andb_false_r.
Qed.

(** ** Keys *)

Lemma viewed_inv k prog s k' :
  kbd_inv k prog →
  viewed k (viewing_term_ptr (con k)) (running_term_ptr (con k)) prog s k' →
  kbd_inv k' prog.
Proof.
  intros [Hm Hk] Hv.
  pose proof (viewed_quiet k _ _ prog s k' (mapped_base _ _ _ Hm)
    (co_view _ (mp_con _ _ _ Hm)) Hv) as Hq.
  constructor.
  - rewrite (qt_run _ _ _ Hq). apply Hv.
  - unfold kbd_ok in *. by rewrite (qt_kbd _ _ _ Hq), (qt_view _ _ _ Hq).
Qed.

(** The invariant speaks of the console and the page tables only. *)
Lemma kbd_inv_ext k k' prog :
  kbd_inv k prog → con k' = con k → kmmu k' = kmmu k → kbd_inv k' prog.
Proof.
  intros [[] Hk] Ec Eu. constructor; [constructor|]; by rewrite ?Ec, ?Eu.
Qed.

Lemma upd_kbd_inv f k prog : kbd_inv k prog → kbd_inv (upd_kbd f k) prog.
Proof. intros H. by apply (kbd_inv_ext k). Qed.

Lemma eoi_sti_inv k prog : kbd_inv k prog → kbd_inv (sti (send_eoi KEYBOARD_IRQ k)) prog.
Proof. intros H. by apply (kbd_inv_ext k). Qed.

(** Acknowledging the interrupt touches the controller and the interrupt flag only. *)
Lemma ack_con k : con (sti (send_eoi KEYBOARD_IRQ k)) = con k.
Proof. reflexivity. Qed.

Lemma ack_mem k : pmem (sti (send_eoi KEYBOARD_IRQ k)) = pmem k.
Proof. reflexivity. Qed.

Lemma ack_kbd k : kbd (sti (send_eoi KEYBOARD_IRQ k)) = kbd k.
Proof. reflexivity. Qed.

Lemma ack_term k t : term (sti (send_eoi KEYBOARD_IRQ k)) t = term k t.
Proof. unfold term. by rewrite ack_con. Qed.

Lemma ack_screen k t : screen_of (sti (send_eoi KEYBOARD_IRQ k)) t = screen_of k t.
Proof. unfold screen_of. by rewrite ack_term, ack_con, ack_mem. Qed.

Lemma ack_line k t : line_of (sti (send_eoi KEYBOARD_IRQ k)) t = line_of k t.
Proof. unfold line_of, line_pos. by rewrite !ack_term, !ack_con. Qed.

Lemma kbd_inv_base k prog : kbd_inv k prog → kbase k prog.
Proof. intros [Hm _]. by eapply mapped_base. Qed.

Lemma kbd_inv_pos k prog p :
  kbd_inv k prog → 0 ≤ p ≤ 127 → kbd_inv (upd_con (set_buf_pos p) k) prog.
Proof.
  intros [Hm Hk] Hp. constructor; [|done]. apply (mapped_con k); try done.
  destruct (mp_con _ _ _ Hm). by constructor.
Qed.

Lemma kbd_enter_inv k prog c : kbd_inv k prog → kbd_inv (kbd_enter c k) prog.
Proof.
  intros Hk. rewrite (kbd_enter_eq k prog) by done. cbv zeta.
  pose proof (co_buf_pos _ (mp_con _ _ _ (ki_mapped _ _ Hk))) as Hp.
  case_test; [|case_test; [|done]].
  - apply (edit_con_inv k prog); [done|apply submit_ok|lia].
  - apply (edit_con_inv k prog); [done|apply store_at_ok|lia].
Qed.

Lemma switch_terminal_inv k prog t :
  kbd_inv k prog → 0 ≤ t < 3 → kbd_inv (switch_terminal t k) prog.
Proof.
  intros [Hm Hk] Ht. pose proof (mp_con _ _ _ Hm) as Hc.
  destruct (decide (t = viewing_term_ptr (con k))) as [E|Hne].
  { assert (switch_terminal t k = k) as ->; [|done]. unfold switch_terminal, viewing, term.
    by rewrite (co_tid _ Hc _ (co_view _ Hc)), E, Z.eqb_refl. }
  destruct (switch_terminal_step k prog t (mapped_base _ _ _ Hm) Ht Hne) as (Hm' & Ec & _).
  constructor; [|unfold kbd_ok; by rewrite Ec]. by rewrite Ec in *.
Qed.

Lemma backspace_inv k prog :
  kbd_inv k prog → 0 < buf_pos (con k) →
  let k' := upd_con (λ c, set_buf_pos (u8 (buf_pos c - 1)) c) (echo 8 k) in
  kbd_inv k' prog ∧ buf_pos (con k') = buf_pos (con k) - 1 ∧
  viewed k (viewing_term_ptr (con k)) (running_term_ptr (con k)) prog
    (putc_spec 8 (screen_of k (viewing_term_ptr (con k)))) (echo 8 k) ∧
  quiet k (viewing_term_ptr (con k)) (echo 8 k).
Proof.
  intros Hk H0 k'. pose proof (co_buf_pos _ (mp_con _ _ _ (ki_mapped _ _ Hk))) as Hp.
  pose proof (echo_viewed k prog 8 (kbd_inv_base _ _ Hk)) as Hv.
  pose proof (viewed_inv k prog _ _ Hk Hv) as Hk'.
  pose proof (viewed_quiet k _ _ prog _ _ (kbd_inv_base _ _ Hk)
    (co_view _ (mp_con _ _ _ (ki_mapped _ _ Hk))) Hv) as Hq.
  assert (u8 (buf_pos (con (echo 8 k)) - 1) = buf_pos (con k) - 1) as E.
  { rewrite (qt_pos _ _ _ Hq). apply u8_small. lia. }
  assert (k' = upd_con (set_buf_pos (buf_pos (con k) - 1)) (echo 8 k)) as ->
    by (unfold k'; rewrite (upd_con_at (λ c0, set_buf_pos (u8 (buf_pos c0 - 1)))), E; reflexivity).
  split_and!; [|done|done|done]. apply kbd_inv_pos; [done|lia].
Qed.

Lemma kbd_inv_if (b : bool) (x y : Z * kernel) prog :
  kbd_inv x.2 prog → kbd_inv y.2 prog → kbd_inv (if b then x else y).2 prog.
Proof. by destruct b. Qed.

Lemma special_inv k prog code :
  kbd_inv k prog → kbd_inv (check_and_handle_special_button code k).2 prog.
Proof.
  intros Hk. pose proof (λ f, upd_kbd_inv f k prog Hk) as Hf.
  assert (∀ t, 0 ≤ t < 3 → kbd_inv (if nz (alt_flag (kbd k)) then switch_terminal t k else k) prog)
    as Hsw by (intros t Ht; destruct (nz _); [by apply switch_terminal_inv|done]).
  unfold check_and_handle_special_button.
  repeat apply kbd_inv_if; simpl; try (exact Hk || apply Hf || (apply Hsw; lia)).
  unfold kbd_backspace. case_test; [by apply backspace_inv|done].
Qed.

Lemma handle_backspace k :
  handle_code BACKSPACE_PRESSED_IDX k = sti (send_eoi KEYBOARD_IRQ (kbd_backspace k)).
Proof.
  unfold handle_code.
  assert (check_and_handle_special_button BACKSPACE_PRESSED_IDX k = (1, kbd_backspace k)) as ->
    by reflexivity.
  reflexivity.
Qed.

Lemma handle_normal_inv k prog code : kbd_inv k prog → kbd_inv (handle_normal code k) prog.
Proof.
  intros Hk. pose proof (kbd_inv_base _ _ Hk) as Hb. unfold handle_normal.
  destruct (_ && _); [|done]. destruct (_ && _).
  - apply upd_kbd_inv. eapply viewed_inv; [done|by apply clear_viewed].
  - apply kbd_enter_inv. eapply viewed_inv; [done|by apply echo_viewed].
Qed.

Lemma handle_code_inv k prog code : kbd_inv k prog → kbd_inv (handle_code code k) prog.
Proof.
  intros Hk. unfold handle_code. pose proof (special_inv k prog code Hk) as Hs.
  destruct (check_and_handle_special_button code k) as [b k1]. simpl in Hs.
  apply eoi_sti_inv. destruct (nz b); [done|by apply handle_normal_inv].
Qed.

(** The codes that are not special keys. *)
Definition special_codes : list Z :=
  [29; 237; 157; 42; 170; 54; 182; 58; 186; 14; 142; 56; 184; 15; 143; 59; 187; 60; 188; 61; 189].

Lemma not_special code k :
  code ∉ special_codes → check_and_handle_special_button code k = (0, k).
Proof.
  intros H. unfold check_and_handle_special_button.
  repeat (rewrite (proj2 (Z.eqb_neq code _)); [|intros ->; apply H; unfold special_codes;
    repeat (apply list_elem_of_here || apply list_elem_of_further)]).
  done.
Qed.

(** A key that types a character: in the table, not special, and not Ctrl-L. *)
Definition types_char (f : kbd_flags) (code : Z) : Prop :=
  (code ∉ special_codes) ∧ 2 ≤ code ≤ 58 ∧
  (nz (ctrl_flag f) && (scan_char code 0 =? 108)) = false.

Lemma handle_char_eq code k :
  types_char (kbd k) code →
  handle_code code k =
    sti (send_eoi KEYBOARD_IRQ
      (kbd_enter (key_char (kbd k) code) (echo (key_char (kbd k) code) k))).
Proof.
  intros (Hs & Hr & Hc). unfold handle_code. rewrite not_special by done. cbv iota zeta.
  change (nz 0) with false. cbv iota. unfold handle_normal, SCAN_CODE_SET_SIZE.
  rewrite (proj2 (Z.leb_le 2 code)), (proj2 (Z.leb_le code (59 - 1))) by lia.
  simpl. by rewrite Hc.
Qed.

Lemma key_char_range f code : 0 ≤ key_char f code < 256.
Proof.
  assert (∀ c m, 0 ≤ scan_char c m < 256) as H.
  { intros c m. unfold scan_char.
    assert (Forall (λ p, 0 ≤ p.1 < 256 ∧ 0 ≤ p.2 < 256) scan_code_set_1) as Hall
      by (repeat constructor; simpl; lia).
    destruct (nth_in_or_default (Z.to_nat c) scan_code_set_1 (0, 0)) as [Hin| ->].
    - rewrite List.Forall_forall in Hall. apply Hall in Hin.
      destruct (nth _ _ _). simpl in Hin. case_test; lia.
    - case_test; lia. }
  unfold key_char. destruct (_ || _); apply H.
Qed.

(** One terminal's share of the state. *)
Definition same_terminal k k' (t : Z) : Prop :=
  screen_of k' t = screen_of k t ∧ line_of k' t = line_of k t ∧
  t_kbd_buf_ready (term k' t) = t_kbd_buf_ready (term k t).

Lemma edit_term_other k f p t :
  con_ok (con k) → 0 ≤ t → t ≠ viewing_term_ptr (con k) →
  term (set_con (edit_con f p (con k)) k) t = term k t.
Proof.
  intros Hc Ht Hne. unfold term.
  change (con_term (con_upd_term (viewing_term_ptr (con k)) f (con k)) t = con_term (con k) t).
  rewrite con_term_upd by (apply Hc || apply (co_view _ Hc) || done).
  by rewrite decide_False by congruence.
Qed.

(** After the echo of a character: a state like [k] but for the screen in view. *)
Record echoed k (prog : option Z) (c : Z) (k1 : kernel) : Prop := {
  ec_inv : kbd_inv k1 prog;
  ec_quiet : quiet k (viewing_term_ptr (con k)) k1;
  ec_screen : screen_of k1 (viewing_term_ptr (con k)) =
              putc_spec (u8 c) (screen_of k (viewing_term_ptr (con k)));
}.

Lemma echo_echoed k prog c : kbd_inv k prog → echoed k prog c (echo c k).
Proof.
  intros Hk. pose proof (echo_viewed k prog c (kbd_inv_base _ _ Hk)) as Hv. constructor.
  - by eapply viewed_inv.
  - eapply viewed_quiet; [by apply kbd_inv_base| |exact Hv].
    apply (mp_con _ _ _ (ki_mapped _ _ Hk)).
  - apply Hv.
Qed.

(** The whole effect of a character key other than Enter. *)
Lemma type_char_step k prog code :
  kbd_inv k prog → types_char (kbd k) code → key_char (kbd k) code ≠ 10 →
  let v := viewing_term_ptr (con k) in
  let c := key_char (kbd k) code in
  let k' := handle_code code k in
  kbd_inv k' prog ∧ viewing_term_ptr (con k') = v ∧
  running_term_ptr (con k') = running_term_ptr (con k) ∧ kbd k' = kbd k ∧
  line_of k' v = edit_char c (line_of k v) ∧
  screen_of k' v = putc_spec c (screen_of k v) ∧
  ∀ t, 0 ≤ t < 3 → t ≠ v → same_terminal k k' t.
Proof.
  intros Hk Ht Hn v c k'. unfold k'. rewrite handle_char_eq by done. fold c.
  destruct (echo_echoed k prog c Hk) as [Hk1 Hq Es]. set (k1 := echo c k) in *. clearbody k1.
  pose proof (mp_con _ _ _ (ki_mapped _ _ Hk1)) as Hc1.
  pose proof (co_buf_pos _ Hc1) as Hp. pose proof (co_view _ Hc1) as Hv1.
  rewrite (kbd_enter_eq k1 prog c Hk1). cbv zeta. rewrite (proj2 (Z.eqb_neq c 10) Hn).
  assert (viewing_term_ptr (con k1) = v) as Ev by apply Hq. rewrite Ev in *.
  assert (u8 c = c) as Ec by apply u8_small, key_char_range. rewrite Ec in Es.
  assert (line_of k1 v = line_of k v) as El by (apply (quiet_line _ v); [done|lia]).
  pose proof (length_line_view k1 Hc1) as Hlen. rewrite Ev, El in Hlen.
  assert (kbd k1 = kbd k) as Ek by (pose proof (qt_rest _ _ _ Hq); congruence).
  assert (∀ t, 0 ≤ t < 3 → t ≠ v → same_terminal k k1 t) as Hoth.
  { intros t Hr Hne. split_and!; [by apply Hq|by eapply quiet_line; [|lia]|].
    by destruct (qt_term _ _ _ Hq t ltac:(lia)) as (_ & _ & ?). }
  unfold edit_char. destruct (Z.ltb_spec (buf_pos (con k1)) 127) as [Hlt|Hge].
  - rewrite decide_True by lia. set (f := store_at (buf_pos (con k1)) c).
    set (p := buf_pos (con k1) + 1).
    destruct (edit_con_inv k1 prog f p Hk1 (store_at_ok _ _) ltac:(unfold p; lia))
      as (Hk2 & Hs2 & Hl2).
    pose proof (term_edit k1 f p Hc1) as Htv. rewrite Ev in Htv, Hl2.
    pose proof (edit_term_other k1 f p) as Hto. rewrite Ev in Hto.
    set (k2 := set_con (edit_con f p (con k1)) k1) in *.
    assert (viewing_term_ptr (con k2) = v) as Ev2 by exact Ev.
    assert (buf_pos (con k2) = p) as Ep by reflexivity.
    assert (running_term_ptr (con k2) = running_term_ptr (con k1)) as Er by reflexivity.
    assert (kbd k2 = kbd k1) as Ek2 by reflexivity. clearbody k2.
    unfold same_terminal. rewrite ack_con, ack_kbd, ack_line, ack_screen.
    split_and!; [by apply eoi_sti_inv|done|rewrite Er; apply Hq|congruence| | |].
    + rewrite <- El.
      unfold line_of, line_pos. rewrite Ev2, Ev, Z.eqb_refl, Ep, Htv. unfold p, f, store_at. simpl.
      rewrite Z2Nat.inj_add, Nat.add_1_r, Ec by lia. unfold viewing. rewrite Ev.
      apply take_insert_snoc. unfold term. rewrite (co_kbd _ Hc1) by lia. lia.
    + by rewrite Hs2 by lia.
    + intros t Hr Hne. destruct (Hoth t Hr Hne) as (A & B & C).
      rewrite ack_screen, ack_line, ack_term.
      split_and!; [by rewrite Hs2|by rewrite Hl2|].
      by rewrite Hto by (apply Hc1 || done || lia).
  - rewrite decide_False by lia.
    unfold same_terminal. rewrite ack_con, ack_kbd, ack_line, ack_screen.
    split_and!; [by apply eoi_sti_inv|done|apply Hq|done|exact El|exact Es|].
    intros t Hr Hne. rewrite ack_screen, ack_line, ack_term. by apply Hoth.
Qed.

(** The whole effect of Enter. *)
Lemma enter_step k prog code :
  kbd_inv k prog → types_char (kbd k) code → key_char (kbd k) code = 10 →
  let v := viewing_term_ptr (con k) in
  let k' := handle_code code k in
  kbd_inv k' prog ∧ viewing_term_ptr (con k') = v ∧
  running_term_ptr (con k') = running_term_ptr (con k) ∧
  line_of k' v = [] ∧ t_kbd_buf_ready (term k' v) = 1 ∧
  take (S (length (line_of k v))) (t_kbd_buf (term k' v)) = line_of k v ++ [10] ∧
  screen_of k' v = putc_spec 10 (screen_of k v) ∧
  ∀ t, 0 ≤ t < 3 → t ≠ v → same_terminal k k' t.
Proof.
  intros Hk Ht Hn v k'. unfold k'. rewrite handle_char_eq by done.
  set (c := key_char (kbd k) code) in *. clearbody c.
  destruct (echo_echoed k prog c Hk) as [Hk1 Hq Es].
  set (k1 := echo c k) in *. clearbody k1. rewrite Hn, (u8_small 10) in Es by lia.
  pose proof (mp_con _ _ _ (ki_mapped _ _ Hk1)) as Hc1.
  pose proof (co_buf_pos _ Hc1) as Hp. pose proof (co_view _ Hc1) as Hv1.
  rewrite (kbd_enter_eq k1 prog c Hk1). cbv zeta. rewrite (proj2 (Z.eqb_eq c 10) Hn).
  assert (viewing_term_ptr (con k1) = v) as Ev by apply Hq. rewrite Ev in *.
  assert (line_of k1 v = line_of k v) as El by (apply (quiet_line _ v); [done|lia]).
  pose proof (length_line_view k1 Hc1) as Hlen. rewrite Ev, El in Hlen.
  set (f := λ t, set_t_ready 1 (store_at (buf_pos (con k1)) 10 t)).
  destruct (edit_con_inv k1 prog f 0 Hk1 (submit_ok _ _) ltac:(lia)) as (Hk2 & Hs2 & Hl2).
  pose proof (term_edit k1 f 0 Hc1) as Htv. rewrite Ev in Htv, Hl2.
  pose proof (edit_term_other k1 f 0) as Hto. rewrite Ev in Hto.
  set (k2 := set_con (edit_con f 0 (con k1)) k1) in *.
  assert (viewing_term_ptr (con k2) = v) as Ev2 by exact Ev.
  assert (buf_pos (con k2) = 0) as Ep by reflexivity.
  assert (running_term_ptr (con k2) = running_term_ptr (con k1)) as Er by reflexivity.
  clearbody k2.
  unfold same_terminal. rewrite ack_con, ack_line, ack_term, ack_screen.
  split_and!; [by apply eoi_sti_inv|done|rewrite Er; apply Hq| | | | |].
  - unfold line_of, line_pos. by rewrite Ev2, Z.eqb_refl, Ep.
  - by rewrite Htv.
  - rewrite Htv, Hlen. unfold f, store_at. simpl. rewrite <- El.
    unfold line_of, line_pos. rewrite Ev, Z.eqb_refl. unfold viewing. rewrite Ev.
    apply take_insert_snoc. unfold term. rewrite (co_kbd _ Hc1) by lia. lia.
  - rewrite Hs2 by lia. exact Es.
  - intros t Hr Hne. rewrite ack_screen, ack_line, ack_term. split_and!.
    + rewrite Hs2 by done. by apply Hq.
    + rewrite Hl2 by done. by eapply quiet_line; [|lia].
    + rewrite Hto by (done || lia). by destruct (qt_term _ _ _ Hq t ltac:(lia)) as (_ & _ & ?).
Qed.

(** ** Reading a line *)

Section read.
Context (k : kernel) (buf n : Z) (l : list Z).
Hypothesis Hkbd : kbd_ok (con k).
(** The buffer of the terminal in view holds the line and its newline. *)
Hypothesis Hline : take (S (length l)) (t_kbd_buf (viewing k)) = l ++ [10].
Hypothesis Hchars : Forall (λ c, 0 ≤ c < 256 ∧ c ≠ 10) l.
Hypothesis Hlen : (length l ≤ 127)%nat.
Hypothesis Huniq : uniq_range (X := kx k) buf (Z.min n (Z.of_nat (length l) + 1)).

Local Abbreviation cnt := (Z.min n (Z.of_nat (length l) + 1)).
Local Abbreviation g := (λ i, nth (Z.to_nat i) (l ++ [10]) 0).

Lemma kbd_load_line m i :
  0 ≤ i ≤ Z.of_nat (length l) → kbd_load i (set_mem m k) = g i.
Proof.
  intros Hi. unfold kbd_load. change (con (set_mem m k)) with (con k). rewrite Hkbd.
  change (term (set_mem m k) (viewing_term_ptr (con k))) with (viewing k).
  rewrite <- Hline, !nth_lookup, lookup_take_lt by lia. done.
Qed.

Lemma line_char_range i : u8 (g i) = g i.
Proof.
  assert (Forall (λ c, 0 ≤ c < 256) (l ++ [10])) as H.
  { apply Forall_app. split; [|by repeat constructor].
    eapply Forall_impl; [exact Hchars|]. by intros ? []. }
  destruct (nth_in_or_default (Z.to_nat i) (l ++ [10]) 0) as [Hin| ->]; [|done].
  apply u8_small. rewrite List.Forall_forall in H. by apply H.
Qed.

Lemma line_char_newline i : 0 ≤ i ≤ Z.of_nat (length l) → g i = 10 ↔ i = Z.of_nat (length l).
Proof.
  intros Hi. destruct (decide (i = Z.of_nat (length l))) as [->|Hne].
  - rewrite Nat2Z.id, app_nth2, Nat.sub_diag by lia. done.
  - rewrite app_nth1 by lia. split; [|lia]. intros E. exfalso.
    rewrite List.Forall_forall in Hchars. apply (Hchars (nth (Z.to_nat i) l 0)); [|done].
    apply nth_In. lia.
Qed.

Lemma kbd_copy_line fuel i m :
  0 ≤ i ≤ cnt → i ≤ Z.of_nat (length l) → cnt - i ≤ Z.of_nat fuel →
  written (X := kx k) (pmem k) buf i g m →
  ∃ m', kbd_copy fuel i buf n (set_mem m k) = (cnt, set_mem m' k) ∧
    written (X := kx k) (pmem k) buf cnt g m'.
Proof.
  revert i m. induction fuel as [|fuel IH]; intros i m Hi Hl Hf Hw.
  { exists m. replace cnt with i by lia. done. }
  simpl. change (KBD_BUF_SIZE - 1) with 127. destruct (Z.ltb_spec i n) as [Hn|Hn]; simpl.
  2:{ exists m. replace cnt with i by lia. done. }
  destruct (Z.ltb_spec 127 i) as [|_]; [lia|]. simpl.
  rewrite kbd_load_line by lia.
  assert (written (X := kx k) (pmem k) buf (i + 1) g (st8 (X := kx k) m (buf + i) (g i))) as Hw'.
  { apply written_snoc; [lia| |apply line_char_range|done].
    eapply uniq_range_mono; [exact Huniq|lia]. }
  change (poke (buf + i) (g i) (set_mem m k)) with
    (set_mem (st8 (X := kx k) m (buf + i) (g i)) k).
  destruct (Z.eqb_spec (g i) 10) as [E|E].
  - apply line_char_newline in E; [|lia]. eexists. split; [|].
    + replace cnt with (i + 1) by lia. reflexivity.
    + by replace cnt with (i + 1) by lia.
  - rewrite line_char_newline in E by lia. apply IH; [lia|lia|lia|done].
Qed.
End read.

Lemma mem_set_mem k : set_mem (pmem k) k = k.
Proof. by destruct k. Qed.

(** A read once the running terminal's flag is set: the bytes come from the buffer of
    the terminal in view. *)
Lemma terminal_read_line k fd buf n l :
  kbd_ok (con k) → t_kbd_buf_ready (running k) = 1 →
  take (S (length l)) (t_kbd_buf (viewing k)) = l ++ [10] →
  Forall (λ c, 0 ≤ c < 256 ∧ c ≠ 10) l → (length l ≤ 127)%nat → buf ≠ 0 → 0 < n →
  let cnt := Z.min n (Z.of_nat (length l) + 1) in
  uniq_range (X := kx k) buf cnt →
  ∃ m', terminal_read fd buf n k =
      Some (cnt, upd_term (running_term_ptr (con k)) (set_t_ready 0) (set_mem m' k)) ∧
    load_bytes (X := kx k) m' buf cnt = take (Z.to_nat cnt) (l ++ [10]) ∧
    unch (in_range (X := kx k) buf cnt) (pmem k) m'.
Proof.
  intros Hkbd Hready Hline Hch Hlen Hb Hn cnt Hu.
  unfold terminal_read, read_from_kbd_buf_to_buf. rewrite Hready.
  rewrite (proj2 (Z.eqb_neq _ _) Hb), (proj2 (Z.leb_gt _ _) Hn). simpl orb. cbv iota.
  change (negb (nz 1)) with false. cbv iota.
  destruct (kbd_copy_line k buf n l Hkbd Hline Hch Hlen Hu (Z.to_nat KBD_BUF_SIZE) 0 (pmem k))
    as (m' & E & Hw); [lia|lia|unfold KBD_BUF_SIZE; lia|apply written_nil|].
  rewrite mem_set_mem in E. rewrite E. exists m'.
  split; [reflexivity|].
  fold cnt in Hw. split; [|apply Hw]. apply written_load_bytes in Hw. rewrite Hw.
  apply list_eq. intros i. rewrite list_lookup_fmap.
  destruct (decide (i < Z.to_nat cnt)%nat) as [Hi|Hi].
  - rewrite lookup_seqZ_lt, lookup_take_lt by lia. simpl.
    replace (Z.to_nat (0 + Z.of_nat i)) with i by lia.
    destruct (lookup_lt_is_Some_2 (l ++ [10]) i) as [x Hx]; [rewrite length_app; simpl; lia|].
    by rewrite (nth_lookup_Some _ _ _ _ Hx), Hx.
  - rewrite (lookup_ge_None_2 (seqZ _ _)), lookup_ge_None_2; [done| |].
    + rewrite length_take. lia.
    + rewrite length_seqZ. lia.
Qed.

(** Typing a sequence of keys. *)
Definition type_codes (codes : list Z) k : kernel := foldl (λ k code, handle_code code k) k codes.

Lemma type_codes_step codes k prog :
  kbd_inv k prog →
  Forall (λ code, types_char (kbd k) code ∧ key_char (kbd k) code ≠ 10) codes →
  (length (line_of k (viewing_term_ptr (con k))) + length codes ≤ 127)%nat →
  let k' := type_codes codes k in
  kbd_inv k' prog ∧ viewing_term_ptr (con k') = viewing_term_ptr (con k) ∧
  running_term_ptr (con k') = running_term_ptr (con k) ∧ kbd k' = kbd k ∧
  line_of k' (viewing_term_ptr (con k)) =
    line_of k (viewing_term_ptr (con k)) ++ (key_char (kbd k) <$> codes) ∧
  screen_of k' (viewing_term_ptr (con k)) =
    puts_spec (key_char (kbd k) <$> codes) (screen_of k (viewing_term_ptr (con k))).
Proof.
  revert k. induction codes as [|code codes IH]; intros k Hk Hcodes Hlen k'.
  { unfold k'. simpl. rewrite app_nil_r. done. }
  inversion_clear Hcodes as [|? ? [Ht Hn] Hrest]. simpl in Hlen.
  pose proof (type_char_step k prog code Hk Ht Hn) as (Hk1 & Ev & Er & Ef & El & Es & _).
  assert (k' = type_codes codes (handle_code code k)) as -> by reflexivity.
  set (k1 := handle_code code k) in *. clearbody k1.
  unfold edit_char in El. rewrite decide_True in El by lia.
  rewrite <- Ef in Hrest.
  destruct (IH k1 Hk1 Hrest) as (J1 & J2 & J3 & J4 & J5 & J6).
  { rewrite Ev, El, length_app. simpl. lia. }
  rewrite Ev, Ef in *. rewrite El in J5. rewrite Es in J6.
  split_and!; [done|done|congruence|congruence| |].
  - rewrite J5, <- app_assoc. done.
  - rewrite J6. simpl. by rewrite (u8_small (key_char _ _)) by apply key_char_range.
Qed.

(** Moving the position back after the echo [k1] of a backspace. *)
Lemma backspace_step k k1 s :
  con_ok (con k) → 0 < buf_pos (con k) → quiet k (viewing_term_ptr (con k)) k1 →
  screen_of k1 (viewing_term_ptr (con k)) = s →
  let v := viewing_term_ptr (con k) in
  let k' := sti (send_eoi KEYBOARD_IRQ
              (upd_con (λ c, set_buf_pos (u8 (buf_pos c - 1)) c) k1)) in
  line_of k' v = edit_backspace (line_of k v) ∧ screen_of k' v = s ∧
  ∀ t, 0 ≤ t < 3 → t ≠ v → same_terminal k k' t.
Proof.
  intros Hc H0 Hq Hs v k'. pose proof (length_line_view k Hc) as Hlen. fold v in Hlen.
  pose proof (co_buf_pos _ Hc) as Hp. pose proof (co_view _ Hc) as Hv. fold v in Hv.
  unfold k', same_terminal. rewrite ack_line, ack_screen.
  set (k2 := upd_con _ k1).
  assert (∀ t, term k2 t = term k1 t) as Et by reflexivity.
  assert (∀ t, screen_of k2 t = screen_of k1 t) as Es by reflexivity.
  assert (viewing_term_ptr (con k2) = v) as Ev by apply Hq.
  assert (buf_pos (con k2) = buf_pos (con k) - 1) as Ep.
  { simpl. rewrite (qt_pos _ _ _ Hq). apply u8_small. lia. }
  clearbody k2. split_and!.
  - unfold edit_backspace. rewrite Hlen. unfold line_of, line_pos.
    rewrite Ev, Z.eqb_refl, Ep, Et. destruct (qt_term _ _ _ Hq v ltac:(lia)) as (-> & _ & _).
    unfold v. rewrite Z.eqb_refl, take_take. f_equal. lia.
  - by rewrite Es.
  - intros t Ht Hne. rewrite ack_line, ack_screen, ack_term, Es.
    destruct (qt_term _ _ _ Hq t ltac:(lia)) as (E1 & E2 & E3).
    split_and!; [by apply Hq| |by rewrite Et].
    unfold line_of, line_pos. rewrite Ev, Et, E1, E2. fold v.
    by rewrite (proj2 (Z.eqb_neq _ _) Hne).
Qed.

(** ** Properties *)

(** C28: the invariant of the terminals (shape of the array, cursors on the screens,
    positions inside the buffers, keyboard on the terminal in view, running terminal's
    screen mapped) survives every keyboard interrupt, whatever byte the keyboard
    delivers. *)
Theorem keyboard_handler_inv k prog : kbd_inv k prog → kbd_inv (keyboard_int_handler k) prog.
Proof.
  intros Hk. unfold keyboard_int_handler, k_inb.
  destruct (inb KBD_DATA_PORT _) as [code d].
  apply handle_code_inv. by apply (kbd_inv_ext k).
Qed.

(** A character key edits the line and echoes: the line in view grows by the
    character the table and the modifiers give while it has fewer than 127 characters
    and stays as it is after that, the character appears on the screen in view, and
    the other terminals do not change. *)
Theorem char_key_edits k prog code :
  kbd_inv k prog → types_char (kbd k) code → key_char (kbd k) code ≠ 10 →
  let v := viewing_term_ptr (con k) in
  let c := key_char (kbd k) code in
  let k' := handle_code code k in
  line_of k' v = edit_char c (line_of k v) ∧ screen_of k' v = putc_spec c (screen_of k v) ∧
  ∀ t, 0 ≤ t < 3 → t ≠ v → same_terminal k k' t.
Proof.
  intros Hk Ht Hn v c k'. destruct (type_char_step k prog code Hk Ht Hn) as (_ & _ & _ & _ & H).
  exact H.
Qed.

(** Backspace removes the last character of the line in view and of its screen,
    and does nothing on an empty line. *)
Theorem backspace_edits k prog :
  kbd_inv k prog →
  let v := viewing_term_ptr (con k) in
  let k' := handle_code BACKSPACE_PRESSED_IDX k in
  line_of k' v = edit_backspace (line_of k v) ∧
  screen_of k' v = (if decide (line_of k v = []) then screen_of k v
                    else putc_spec 8 (screen_of k v)) ∧
  ∀ t, 0 ≤ t < 3 → t ≠ v → same_terminal k k' t.
Proof.
  intros Hk v k'. pose proof (mp_con _ _ _ (ki_mapped _ _ Hk)) as Hc.
  pose proof (length_line_view k Hc) as Hlen. fold v in Hlen.
  unfold k'. rewrite handle_backspace. unfold kbd_backspace.
  destruct (Z.ltb_spec 0 (buf_pos (con k))) as [H0|H0].
  - destruct (backspace_inv k prog Hk H0) as (_ & _ & Hvw & Hq).
    rewrite decide_False; [|intros E; rewrite E in Hlen; simpl in Hlen; lia].
    exact (backspace_step k _ _ Hc H0 Hq (vw_screen _ _ _ _ _ _ Hvw)).
  - assert (line_of k v = []) as E by (apply nil_length_inv; lia).
    rewrite decide_True, ack_line, ack_screen by done. split_and!; [by rewrite E|done|].
    intros t Ht Hne. unfold same_terminal. by rewrite ack_line, ack_screen, ack_term.
Qed.

(** C27: what is typed is what is read: after an empty line, typing up to 127 characters
    and Enter on the running terminal, a read of [n] bytes ends and delivers exactly the
    typed characters and the newline, cut after [n]; nothing but the buffer is
    written. *)
Theorem typed_line_is_read k prog codes enter fd buf n :
  let v := viewing_term_ptr (con k) in
  let l := key_char (kbd k) <$> codes in
  let cnt := Z.min n (Z.of_nat (length l) + 1) in
  let k1 := handle_code enter (type_codes codes k) in
  kbd_inv k prog → running_term_ptr (con k) = v → line_of k v = [] →
  Forall (λ code, types_char (kbd k) code ∧ key_char (kbd k) code ≠ 10) codes →
  (length codes ≤ 127)%nat →
  types_char (kbd k) enter → key_char (kbd k) enter = 10 →
  buf ≠ 0 → 0 < n → uniq_range (X := kx k1) buf cnt →
  ∃ k2, terminal_read fd buf n k1 = Some (cnt, k2) ∧
    load_bytes (X := kx k1) (pmem k2) buf cnt = take (Z.to_nat cnt) (l ++ [10]) ∧
    unch (in_range (X := kx k1) buf cnt) (pmem k1) (pmem k2) ∧
    terminal_read fd buf n k2 = None.
Proof.
  intros v l cnt k1 Hk Hr Hl Hcodes Hlen He1 He2 Hb Hn Hu.
  destruct (type_codes_step codes k prog Hk Hcodes) as (J1 & J2 & J3 & J4 & J5 & _).
  { fold v. rewrite Hl. simpl. lia. }
  fold v in J2, J5. rewrite Hl in J5. simpl in J5. fold l in J5.
  set (kt := type_codes codes k) in *. clearbody kt. rewrite <- J4 in He1, He2.
  destruct (enter_step kt prog enter J1 He1 He2) as (I1 & I2 & I3 & I4 & I5 & I6 & _).
  rewrite J2, J5 in *. fold k1 in I1, I2, I3, I4, I5, I6.
  assert (viewing k1 = term k1 v) as Ew by (unfold viewing; by rewrite I2).
  assert (running k1 = term k1 v) as Erun by (unfold running; by rewrite I3, J3, Hr).
  destruct (terminal_read_line k1 fd buf n l) as (m' & E & Hd & Hun); try done.
  - apply I1.
  - by rewrite Erun.
  - by rewrite Ew.
  - unfold l. apply Forall_fmap. eapply Forall_impl; [exact Hcodes|].
    intros code [_ Hne]. simpl. split; [apply key_char_range|done].
  - unfold l. by rewrite length_fmap.
  - exists (upd_term (running_term_ptr (con k1)) (set_t_ready 0) (set_mem m' k1)).
    split_and!; [exact E|exact Hd|exact Hun|].
    unfold terminal_read, read_from_kbd_buf_to_buf.
    rewrite (proj2 (Z.eqb_neq _ _) Hb), (proj2 (Z.leb_gt _ _) Hn). simpl orb. cbv iota.
    unfold running at 1. unfold term at 1.
    pose proof (mp_con _ _ _ (ki_mapped _ _ I1)) as Hc1.
    change (con (upd_term ?i ?f ?k)) with (con_upd_term i f (con k1)).
    change (running_term_ptr (con_upd_term ?i ?f ?c)) with (running_term_ptr c).
    rewrite con_term_upd by (apply Hc1 || apply (co_run _ Hc1)). by rewrite decide_True.
Qed.

(** The bytes of a read come from the terminal in view, not from the reader's: a
    program whose line is ready but whose terminal is hidden receives the line in the
    visible terminal's buffer. *)
Theorem hidden_reader_gets_visible_line k fd buf n l :
  kbd_ok (con k) → running_term_ptr (con k) ≠ viewing_term_ptr (con k) →
  t_kbd_buf_ready (running k) = 1 →
  take (S (length l)) (t_kbd_buf (viewing k)) = l ++ [10] →
  Forall (λ c, 0 ≤ c < 256 ∧ c ≠ 10) l → (length l ≤ 127)%nat → buf ≠ 0 →
  Z.of_nat (length l) < n →
  uniq_range (X := kx k) buf (Z.of_nat (length l) + 1) →
  ∃ k', terminal_read fd buf n k = Some (Z.of_nat (length l) + 1, k') ∧
    load_bytes (X := kx k) (pmem k') buf (Z.of_nat (length l) + 1) = l ++ [10].
Proof.
  intros Hkbd Hne Hready Hline Hch Hlen Hb Hn Hu.
  assert (Z.min n (Z.of_nat (length l) + 1) = Z.of_nat (length l) + 1) as Em by lia.
  destruct (terminal_read_line k fd buf n l) as (m' & E & Hd & _); try done; [lia|by rewrite Em|].
  rewrite Em in *. eexists. split; [exact E|]. simpl. rewrite Hd. apply take_ge.
  rewrite length_app. simpl. lia.
Qed.
End keyboard.

(** ** Witnesses *)

Lemma pc_inv : kbd_inv (PT := pc_ports) (PL := demo_pg) pc_kernel None.
Proof.
  constructor; [|done].
  constructor; [exact demo_layout_ok|exact demo_con_ok|simpl; lia|done|done|].
  eexists _, _. exact demo_mmu_ok.
Qed.

Lemma demo_types_char code :
  code = 28 ∨ code = 30 ∨ code = 31 → types_char (KbdFlags 0 0 0 0 0) code.
Proof.
  intros H. split_and!; [|lia|lia|by destruct H as [-> |[-> | ->]]].
  intros Hin%list_elem_of_In. simpl in Hin. lia.
Qed.

Lemma keyboard_handler_inv_witness :
  kbd_inv (PL := demo_pg) (keyboard_int_handler (PT := pc_ports) (PL := demo_pg) pc_kernel) None.
Proof. apply (keyboard_handler_inv (PT := pc_ports) (PL := demo_pg)). exact pc_inv. Defined.

Lemma char_key_edits_witness :
  line_of (handle_code (PT := pc_ports) (PL := demo_pg) 30 pc_kernel) 0 = [97].
Proof.
  destruct (char_key_edits (PT := pc_ports) (PL := demo_pg) pc_kernel None 30) as [E _];
    [exact pc_inv|apply demo_types_char; lia|discriminate|].
  exact E.
Defined.

Lemma backspace_edits_witness :
  line_of (handle_code (PT := pc_ports) (PL := demo_pg) BACKSPACE_PRESSED_IDX pc_kernel) 0 = [].
Proof.
  destruct (backspace_edits (PT := pc_ports) (PL := demo_pg) pc_kernel None) as [E _];
    [exact pc_inv|].
  exact E.
Defined.

Lemma typed_line_is_read_witness :
  let k1 := handle_code (PT := pc_ports) (PL := demo_pg) 28
              (type_codes (PL := demo_pg) [30; 31] pc_kernel) in
  ∃ k2, terminal_read (PL := demo_pg) 0 4198400 128 k1 = Some (3, k2) ∧
    load_bytes (X := kx (PL := demo_pg) k1) (pmem k2) 4198400 3 = [97; 115; 10].
Proof.
  destruct (typed_line_is_read (PT := pc_ports) (PL := demo_pg) pc_kernel None [30; 31] 28
    0 4198400 128) as (k2 & E & Hd & _).
  - exact pc_inv.
  - reflexivity.
  - reflexivity.
  - repeat constructor; try (apply demo_types_char; lia); discriminate.
  - simpl. lia.
  - apply demo_types_char. lia.
  - reflexivity.
  - discriminate.
  - lia.
  - apply (kernel_uniq (PT := pc_ports) (PL := demo_pg) _ (running_term_ptr (con
      (handle_code (PT := pc_ports) (PL := demo_pg) 28
        (type_codes (PL := demo_pg) [30; 31] pc_kernel)))) None).
    + apply (handle_code_inv (PT := pc_ports) (PL := demo_pg)).
      apply (handle_code_inv (PT := pc_ports) (PL := demo_pg)).
      apply (handle_code_inv (PT := pc_ports) (PL := demo_pg)). exact pc_inv.
    + lia.
    + simpl. lia.
  - exists k2. exact (conj E Hd).
Defined.

(** Terminal 1 runs with a finished line while terminal 0, in view, holds "a". *)
Definition demo_hidden : @kernel pc_ports :=
  set_con (Console
    [set_t_kbd_buf (97 :: 10 :: replicate 126 0) (demo_term 0); set_t_ready 1 (demo_term 1);
     demo_term 2] 1 0 (Some 0) 0 (cursor_of 1) (cursor_of 1) 0 0) pc_kernel.

Lemma hidden_reader_gets_visible_line_witness :
  ∃ k', terminal_read (PT := pc_ports) (PL := demo_pg) 0 4198400 128 demo_hidden = Some (2, k') ∧
    load_bytes (X := kx (PL := demo_pg) demo_hidden) (pmem k') 4198400 2 = [97; 10].
Proof.
  apply (hidden_reader_gets_visible_line (PT := pc_ports) (PL := demo_pg) demo_hidden 0 4198400
    128 [97]);
    [reflexivity|discriminate|reflexivity|reflexivity|repeat constructor; lia|simpl; lia
    |discriminate|simpl; lia|].
  - intros i j Hi Hj E. simpl in Hi, Hj.
    rewrite !(kernel_page_cell (PT := pc_ports) (PL := demo_pg) demo_hidden boot_amap boot_amap)
      in E by (exact demo_layout_ok || exact demo_mmu_ok || lia).
    lia.
Defined.
