(* ===== verification/Files.v ===== *)
(** * File descriptors (syscall_handler.c, first half)

    The system calls that work on the descriptor table of the current process:
    [read], [write], [open], [close], [getargs], and [init_file_table].  A call goes
    through the operation table of the descriptor ([fs_init_ops]) to the routine of
    the file system, the terminal or the RTC, which gets the address of the
    descriptor and may move its position.

    [None] is a call without a defined result: a string without an end, an
    operation table that was never set, a read past the end of [args].  A call that
    waits for an interrupt ends in [Wait]: [wait_poll] is the exit test of its loop
    with what follows. *)

From Stdlib Require Import String.
From S2P Require Import Prelude Mem Lib Fs Paging Kstate Pc Screen Terminal Pic Rtc Keyboard.

(** Where the compiler puts the locals whose address is taken, below the stack
    pointer; the sizes of the frames between two nested calls; and the address of
    the string literal of [syscall_halt] and [launch_base_shell]. *)
Class Frames := {
  fr_tmp_dentry : Z;         (* syscall_open *)
  fr_file_open : Z;          (* file_open, dir_open, dir_read: dentry *)
  fr_dir_open : Z;
  fr_dir_read : Z;
  fr_first_four_bytes : Z;   (* syscall_execute *)
  fr_the_file_dentry : Z;
  fr_args : Z;
  fr_file_name : Z;
  fr_halt : Z;               (* frames *)
  fr_base_shell : Z;
  str_shell : Z;
  past_args : mem → Z → Z;   (* what [args[i]] reads from index 128 on *)
}.

Definition msg_dir_open : list Z := lit "Fail to open the file!"%string.

Section files.
Context {PT : Ports} {PL : PgLayout} {FL : FsLayout} {FR : Frames}.
Implicit Types (k : kernel).

Definition local_at (off : Z) k : Z := u32 (esp (kcpu k) - off).

(** [*cur_pcb_ptr] and its descriptors. *)
Definition cur_pcb k : PCB_t := get_pcb (prc k) (cur_pcb_ptr (prc k)).
Definition upd_cur (f : PCB_t → PCB_t) k : kernel :=
  upd_prc (λ p, upd_pcb (cur_pcb_ptr p) f p) k.

Definition fd_of (p : PCB_t) (fd : Z) : file_entry := nth (Z.to_nat fd) (pcb_fds p) fd_zero.
Definition put_fd (fd : Z) (e : file_entry) (p : PCB_t) : PCB_t :=
  set_p_fds (<[Z.to_nat fd := e]> (pcb_fds p)) p.
Definition set_flags (v : Z) (e : file_entry) : file_entry :=
  FileEntry (op_ptr e) (inode e) (file_pos e) v.

Definition cur_fd k (fd : Z) : file_entry := fd_of (cur_pcb k) fd.
Definition set_cur_fd (fd : Z) (e : file_entry) k : kernel := upd_cur (put_fd fd e) k.

(** How a system call ends: back in its caller, in a loop that waits for an
    interrupt, in user mode at [eip] with the stack at [uesp], or, for [halt], in
    the caller of the parent's [syscall_execute]. *)
Inductive wait := wait_kbd (buf nbytes : Z) | wait_rtc.

Inductive outcome :=
  | Ret (v : Z) (k : kernel)
  | Wait (w : wait) (k : kernel)
  | Iret (eip uesp : Z) (k : kernel)
  | Resume (eax eip : Z) (k : kernel).

Definition wait_poll (w : wait) k : option (Z * kernel) :=
  match w with
  | wait_kbd buf nbytes => terminal_read 0 buf nbytes k
  | wait_rtc => rtc_read_poll k
  end.

(** ** The routines behind a descriptor *)

Definition do_read (r : routine) (fd buf nbytes : Z) k : option outcome :=
  match r with
  | r_file_read =>
      let '(v, e, m) := file_read (X := kx k) (pmem k) (fsv k) (cur_fd k fd) buf nbytes in
      Some (Ret v (set_cur_fd fd e (set_mem m k)))
  | r_dir_read =>
      let '(v, e, m) :=
        dir_read (X := kx k) (pmem k) (cur_fd k fd) buf nbytes (local_at fr_dir_read k) in
      Some (Ret v (set_cur_fd fd e (set_mem m k)))
  | r_rtc_read => Some (Wait wait_rtc (rtc_read k))
  | r_terminal_read =>
      match terminal_read fd buf nbytes k with
      | Some (v, k) => Some (Ret v k)
      | None => Some (Wait (wait_kbd buf nbytes) k)
      end
  | _ => None
  end.

Definition do_write (r : routine) (fd buf nbytes : Z) k : option (Z * kernel) :=
  match r with
  | r_file_write => Some (file_write (cur_fd k fd) buf nbytes, k)
  | r_dir_write => Some (dir_write (cur_fd k fd) buf nbytes, k)
  | r_rtc_write => Some (rtc_write (cur_fd k fd) buf nbytes k)
  | r_terminal_write => Some (terminal_write fd buf nbytes k)
  | _ => None
  end.

(** ** System calls *)

Definition syscall_read (fd buf nbytes : Z) k : option outcome :=
  let k := sti k in
  if (8 <=? fd) || (fd <? 0) || (fd =? 1) then Some (Ret (-1) k)
  else if flags (cur_fd k fd) =? FREE then Some (Ret (-1) k)
  else
    match fs_init_ops (op_ptr (cur_fd k fd)) with
    | Some ops => do_read (op_read ops) fd buf nbytes k
    | None => None
    end.

Definition syscall_write (fd buf nbytes : Z) k : option (Z * kernel) :=
  if (8 <=? fd) || (fd <=? 0) then Some (-1, k)
  else if flags (cur_fd k fd) =? FREE then Some (-1, k)
  else
    match fs_init_ops (op_ptr (cur_fd k fd)) with
    | Some ops => do_write (op_write ops) fd buf nbytes k
    | None => None
    end.

Definition syscall_close (fd : Z) k : Z * kernel :=
  if (fd <? 2) || (7 <? fd) then (-1, k)
  else if flags (cur_fd k fd) =? FREE then (-1, k)
  else (0, set_cur_fd fd (set_flags FREE (cur_fd k fd)) k).

(** The [switch] of [syscall_open] on the type of the file: the operation table the
    slot [idx] gets, or [inl] when the call fails. *)
Definition open_ops (idx filename type : Z) k : option (kernel + op_table * kernel) :=
  if type =? DIR then
    match dir_open (X := kx k) (pmem k) filename (local_at fr_dir_open k) with
    | None => None
    | Some (e, printed, m) =>
        let k := set_mem m k in
        let k := if printed then kprint msg_dir_open k else k in
        if flags e =? OERROR then Some (inl k) else Some (inr (dir_ops, k))
    end
  else if type =? USER_RTC then
    let '(_, k) := rtc_open filename k in Some (inr (rtc_ops, k))
  else if type =? REGULAR then
    match file_open (X := kx k) (pmem k) filename (local_at fr_file_open k) with
    | None => None
    | Some (e, m) =>
        let k := set_mem m k in
        if flags e =? OERROR then Some (inl k) else Some (inr (regular_file_ops, k))
    end
  else Some (inr (op_ptr (cur_fd k idx), k)).

Definition syscall_open (filename : Z) k : option (Z * kernel) :=
  if filename =? 0 then Some (-1, k)
  else
    let tmp_dentry := local_at fr_tmp_dentry k in
    match read_dentry_by_name (X := kx k) (pmem k) filename tmp_dentry with
    | None => None
    | Some (r, m) =>
        let k := set_mem m k in
        if r =? -1 then Some (-1, k)
        else
          match find_up (λ idx, flags (cur_fd k idx) =? FREE) 2 8 with
          | None => Some (-1, k)
          | Some idx =>
              match open_ops idx filename (ld32 (X := kx k) (pmem k) (tmp_dentry + 32)) k with
              | None => None
              | Some (inl k) => Some (-1, k)
              | Some (inr (ops, k)) =>
                  let nr_inode := ld32 (X := kx k) (pmem k) (tmp_dentry + 36) in
                  Some (idx, set_cur_fd idx (FileEntry ops nr_inode 0 IN_USE) k)
              end
          end
    end.

(** The byte [args[i]] of the current process.  The array has 128 bytes; behind it are the
    rest of the PCB and the kernel stack, whose bytes are a parameter. *)
Definition arg_byte k (i : Z) : Z :=
  if i <? ARG_LEN then nth (Z.to_nat i) (p_args (cur_pcb k)) 0 else u8 (past_args (pmem k) i).

(** The array is 24 bytes into the PCB; nothing is mapped at 8 MB. *)
Definition syscall_getargs (buf nbytes : Z) k : option (Z * kernel) :=
  if (nbytes <? 0) || (buf =? 0) then Some (-1, k)
  else if arg_byte k 0 =? 0 then Some (-1, k)
  else if 8388608 <? cur_pcb_ptr (prc k) + 24 + nbytes then None
  else Some (0, for_up (λ i k, poke (buf + i) (arg_byte k i) k) 0 nbytes k).

Definition init_fd (i : Z) (p : PCB_t) : PCB_t :=
  if i =? 0 then put_fd i (FileEntry stdin_ops (u32 (-1)) 0 IN_USE) p
  else if i =? 1 then put_fd i (FileEntry stdout_ops (u32 (-1)) 0 IN_USE) p
  else put_fd i (set_flags FREE (fd_of p i)) p.

Definition init_file_table (p : PCB_t) : PCB_t := for_up init_fd 0 8 p.
(** ** Descriptor tables *)

(** The table every process has: the terminal at 0 and 1, and in the other slots
    files with one of the three operation tables, or nothing. *)
Record fds_ok (p : PCB_t) : Prop := {
  fo_len : length (pcb_fds p) = 8%nat;
  fo_stdin : op_ptr (fd_of p 0) = stdin_ops ∧ flags (fd_of p 0) = IN_USE;
  fo_stdout : op_ptr (fd_of p 1) = stdout_ops ∧ flags (fd_of p 1) = IN_USE;
  fo_slot : ∀ fd, 2 ≤ fd < 8 →
    flags (fd_of p fd) = FREE ∨
    flags (fd_of p fd) = IN_USE ∧
      (op_ptr (fd_of p fd) = dir_ops ∨ op_ptr (fd_of p fd) = rtc_ops ∨
       op_ptr (fd_of p fd) = regular_file_ops);
}.

Lemma fd_of_put p fd e j :
  length (pcb_fds p) = 8%nat → 0 ≤ fd < 8 → 0 ≤ j →
  fd_of (put_fd fd e p) j = if decide (j = fd) then e else fd_of p j.
Proof.
  intros Hl Hf Hj. unfold fd_of, put_fd. simpl. rewrite !nth_lookup.
  case_decide as E.
  - subst. by rewrite list_lookup_insert_eq by lia.
  - by rewrite list_lookup_insert_ne by lia.
Qed.

Lemma put_fd_len p fd e : length (pcb_fds (put_fd fd e p)) = length (pcb_fds p).
Proof. apply length_insert. Qed.

Lemma cur_pcb_upd f k : cur_pcb (upd_cur f k) = f (cur_pcb k).
Proof.
  unfold cur_pcb, upd_cur, upd_pcb, get_pcb. simpl. by rewrite lookup_insert_eq.
Qed.

Lemma cur_fd_set k fd e j :
  length (pcb_fds (cur_pcb k)) = 8%nat → 0 ≤ fd < 8 → 0 ≤ j →
  cur_fd (set_cur_fd fd e k) j = if decide (j = fd) then e else cur_fd k j.
Proof. intros. unfold cur_fd, set_cur_fd. rewrite cur_pcb_upd. by apply fd_of_put. Qed.

(** Replacing a slot by an entry of a legal kind. *)
Definition slot_ok (e : file_entry) : Prop :=
  flags e = FREE ∨
  flags e = IN_USE ∧ (op_ptr e = dir_ops ∨ op_ptr e = rtc_ops ∨ op_ptr e = regular_file_ops).

Lemma fds_ok_put p fd e : fds_ok p → 2 ≤ fd < 8 → slot_ok e → fds_ok (put_fd fd e p).
Proof.
  intros [Hl H0 H1 Hs] Hfd He.
  constructor; [by rewrite put_fd_len|rewrite fd_of_put by lia; by case_decide; [lia|]..|].
  intros j Hj. rewrite fd_of_put by lia. case_decide; [done|]. by apply Hs.
Qed.

(** Descriptors move their position in place. *)
Lemma fds_ok_pos p fd e :
  fds_ok p → 0 ≤ fd < 8 → op_ptr e = op_ptr (fd_of p fd) → flags e = flags (fd_of p fd) →
  fds_ok (put_fd fd e p).
Proof.
  intros [Hl H0 H1 Hs] Hfd Ho Hf.
  constructor; [by rewrite put_fd_len|..].
  - rewrite fd_of_put by lia. case_decide; [|done]. subst. by rewrite Ho, Hf.
  - rewrite fd_of_put by lia. case_decide; [|done]. subst. by rewrite Ho, Hf.
  - intros j Hj. rewrite fd_of_put by lia. case_decide; [|by apply Hs].
    subst. rewrite Ho, Hf. by apply Hs.
Qed.

Lemma for_up_unroll {A} (body : Z → A → A) lo hi a :
  lo < hi → for_up body lo hi a = for_up body (lo + 1) hi (body lo a).
Proof.
  intros H. unfold for_up. replace (Z.to_nat (hi - lo)) with (S (Z.to_nat (hi - (lo + 1)))) by lia.
  done.
Qed.

(** [init_file_table] builds such a table whatever the PCB held before. *)
Lemma init_file_table_ok p :
  length (pcb_fds p) = 8%nat →
  fds_ok (init_file_table p) ∧
  ∀ fd, 2 ≤ fd < 8 → flags (fd_of (init_file_table p) fd) = FREE.
Proof.
  intros Hl. unfold init_file_table.
  cut ((λ n q, length (pcb_fds q) = 8%nat ∧
     (0 < n → op_ptr (fd_of q 0) = stdin_ops ∧ flags (fd_of q 0) = IN_USE) ∧
     (1 < n → op_ptr (fd_of q 1) = stdout_ops ∧ flags (fd_of q 1) = IN_USE) ∧
     ∀ fd, 2 ≤ fd < n → flags (fd_of q fd) = FREE) 8 (for_up init_fd 0 8 p)).
  { intros (H & H0 & H1 & Hs). split; [|done].
    constructor; [done|apply H0; lia|apply H1; lia|]. intros fd Hfd. left. by apply Hs. }
  apply for_up_inv; [lia|split_and!; [done|lia..]|].
  intros i q Hi (H & H0 & H1 & Hs). unfold init_fd.
  repeat case_test; (split_and!; [by rewrite put_fd_len|intros..]);
    rewrite fd_of_put by lia; case_decide; subst; simpl; try done; try lia; auto with lia.
  all: try (apply H0; lia); try (apply H1; lia); apply Hs; lia.
Qed.
(** ** What input and output leave alone *)

(** The processes, the address space, the registers and the file-system variables. *)
Record same_env k k' : Prop := {
  se_prc : prc k' = prc k;
  se_mmu : kmmu k' = kmmu k;
  se_cpu : kcpu k' = kcpu k;
  se_fsv : fsv k' = fsv k;
}.

#[local] Instance same_env_preorder : PreOrder same_env.
Proof.
  split; [by intros k|]. intros k1 k2 k3 [] []. constructor; congruence.
Qed.

Lemma same_env_set_con c k : same_env k (set_con c k).
Proof. done. Qed.

Lemma same_env_set_mem m k : same_env k (set_mem m k).
Proof. done. Qed.

Lemma same_env_set_io d k : same_env k (set_io d k).
Proof. done. Qed.

Lemma same_env_for_up (body : Z → kernel → kernel) lo hi k :
  (∀ i k, same_env k (body i k)) → same_env k (for_up body lo hi k).
Proof.
  intros H. destruct (decide (lo ≤ hi)); [|by rewrite for_up_nil by lia].
  apply (for_up_inv body (λ _, same_env k)); [done|done|].
  intros i x _ Hx. by etransitivity.
Qed.

Lemma same_env_calib k : same_env k (calib_cursor k).
Proof. done. Qed.

Lemma same_env_scroll k : same_env k (up_scroll_for_one_line k).
Proof.
  unfold up_scroll_for_one_line.
  etransitivity; [|by apply same_env_for_up].
  etransitivity; [|by apply same_env_set_con].
  apply same_env_for_up. intros i k1. by apply same_env_for_up.
Qed.

Lemma same_env_if (b : bool) k k1 k2 :
  same_env k k1 → same_env k k2 → same_env k (if b then k1 else k2).
Proof. by destruct b. Qed.

Lemma same_env_calib_if k : same_env k (calib_if_viewing k).
Proof. apply same_env_if; done. Qed.

Lemma same_env_putc_finish k : same_env k (putc_finish k).
Proof.
  unfold putc_finish. etransitivity; [|apply same_env_calib_if].
  apply same_env_if; [apply same_env_scroll|done].
Qed.

Lemma same_env_putc_char c k : same_env k (putc_char c k).
Proof.
  unfold putc_char. etransitivity; [|apply same_env_putc_finish].
  by apply same_env_if.
Qed.

Lemma same_env_nb_putc c k : same_env k (nb_putc c k).
Proof.
  unfold nb_putc. destruct ((u8 c =? 10) || (u8 c =? 13)); [|destruct (u8 c =? 8)].
  - unfold putc_newline. by etransitivity; [|apply same_env_putc_finish].
  - unfold putc_backspace. apply same_env_if; [apply same_env_calib_if|].
    etransitivity; [|apply same_env_calib_if].
    transitivity (if con_x (con k) =? 0
      then upd_con (λ c, con_set_y (con_y (con_set_x NUM_COLS c) - 1) (con_set_x NUM_COLS c)) k
      else k); [by apply same_env_if|done].
  - apply same_env_if; apply same_env_putc_char.
Qed.

Lemma same_env_put_list l k : same_env k (put_list l k).
Proof.
  revert k. induction l as [|c l IH]; intros k; [done|].
  simpl. etransitivity; [apply same_env_nb_putc|apply IH].
Qed.

Lemma same_env_kprint l k : Forall (λ c, c ≠ 37) l → same_env k (kprint l k).
Proof. intros H. rewrite kprint_plain by done. apply same_env_put_list. Qed.

Lemma same_env_terminal_write fd buf n k : same_env k (snd (terminal_write fd buf n k)).
Proof.
  unfold terminal_write. destruct (_ || _); [done|].
  apply same_env_for_up. intros. apply same_env_nb_putc.
Qed.

Lemma same_env_kbd_copy fuel i buf n k : same_env k (snd (kbd_copy fuel i buf n k)).
Proof.
  revert i k. induction fuel as [|fuel IH]; intros i k; [done|]. simpl.
  destruct (_ && _); [|done]. case_test; [done|].
  etransitivity; [|apply IH]. done.
Qed.

Lemma same_env_terminal_read fd buf n k v k' :
  terminal_read fd buf n k = Some (v, k') → same_env k k'.
Proof.
  unfold terminal_read, read_from_kbd_buf_to_buf.
  destruct (_ || _); [by intros [= <- <-]|]. destruct (negb _); [done|].
  pose proof (same_env_kbd_copy (Z.to_nat KBD_BUF_SIZE) 0 buf n k) as H.
  destruct (kbd_copy _ _ _ _ _) as [c k1]. intros [= <- <-].
  etransitivity; [exact H|done].
Qed.

(** Port input and output. *)
Lemma k_inb_eq port k : ∃ d, k_inb port k = (fst (k_inb port k), set_io d k).
Proof. unfold k_inb. destruct (inb port (io k)) as [v d]. by exists d. Qed.

Lemma set_frequency_io fre k : ∃ d, snd (set_frequency fre k) = set_io d k.
Proof.
  unfold set_frequency. destruct (_ || _); [by exists (io k); destruct k|].
  destruct (log_loop _). unfold k_inb.
  repeat (destruct (inb _ _) as [? ?]; simpl). by eexists.
Qed.
(** ** Opening a file *)

(** A local [dentry_t] on the stack: 64 distinct cells away from the file system. *)
Record local_ok k (d : Z) : Prop := {
  lo_uniq : uniq_range (X := kx k) d 64;
  lo_boot : sep_range (X := kx k) d 64 boot_block BLOCK_SIZE;
  lo_image : image_sep (X := kx k) d 64;
}.

(** The name is a string that the locals of the call do not overlap. *)
Record open_env k (filename : Z) (l : list Z) : Prop := {
  oe_name : cstring (X := kx k) (pmem k) filename l;
  oe_null : filename ≠ 0;
  oe_len : Z.of_nat (length l) < 4294967296;
  oe_dir : num_dir_entries (X := kx k) (pmem k) ≤ 63;
  oe_tmp : local_ok k (local_at fr_tmp_dentry k);
  oe_file : local_ok k (local_at fr_file_open k);
  oe_dopen : local_ok k (local_at fr_dir_open k);
  oe_sep_file : sep_range (X := kx k) (local_at fr_file_open k) 64 (local_at fr_tmp_dentry k) 64;
  oe_sep_dir : sep_range (X := kx k) (local_at fr_dir_open k) 64 (local_at fr_tmp_dentry k) 64;
  oe_sep_name : sep_range (X := kx k) (local_at fr_tmp_dentry k) 64
                  filename (Z.of_nat (length l) + 1);
}.

(** The entry a name leads to, if the name is legal. *)
Definition find_entry `{X : Xlat} (m : mem) (l : list Z) : option Z :=
  if decide (length l ≤ 32)%nat then lookup_name m l else None.

Definition type_ops (type : Z) : option op_table :=
  if type =? USER_RTC then Some rtc_ops
  else if type =? DIR then Some dir_ops
  else if type =? REGULAR then Some regular_file_ops
  else None.

Section lookup.
Context {X : Xlat}.

Lemma lookup_dentry m fname d l :
  cstring m fname l → Z.of_nat (length l) < 4294967296 → num_dir_entries m ≤ 63 →
  uniq_range d 64 → sep_range d 64 boot_block BLOCK_SIZE →
  match find_entry m l with
  | None => read_dentry_by_name m fname d = Some (-1, m)
  | Some i => ∃ m', read_dentry_by_name m fname d = Some (0, m') ∧ dentry_read m i d m'
  end.
Proof.
  intros Hl Hlen Hn Hu Hs. apply read_dentry_by_name_ok; [done..|].
  eapply sep_range_mono; [exact Hs|lia|unfold BLOCK_SIZE; lia].
Qed.

(** The directory is what the bytes of the boot block say. *)
Lemma entry_name_agrees m m' i :
  agrees X m m' boot_block BLOCK_SIZE → num_dir_entries m ≤ 63 → 0 ≤ i < num_dir_entries m →
  entry_name m' i = entry_name m i.
Proof.
  intros Ab Hn Hi. unfold entry_name. f_equal. apply list_fmap_ext. intros j x Hx%lookup_seqZ. unfold files.
  apply Ab. unfold FILENAME_MAX_CHAR, BLOCK_SIZE in *. lia.
Qed.

Lemma find_entry_agrees m m' l :
  agrees X m m' boot_block BLOCK_SIZE → num_dir_entries m ≤ 63 → find_entry m' l = find_entry m l.
Proof.
  intros Ab Hn. unfold find_entry. case_decide; [|done]. unfold lookup_name.
  destruct (stable_stats _ m m' Ab) as (-> & _ & _).
  pose proof (λ i, entry_name_agrees m m' i Ab Hn) as He.
  destruct (find_up _ 0 _) as [i|] eqn:E.
  - symmetry. apply find_up_Some in E as (Hi & Ht & Hj). apply find_up_Some.
    split_and!; [lia..|by rewrite <- He by lia|].
    intros j ?. rewrite <- He by lia. by apply Hj.
  - symmetry. rewrite find_up_None in E |- *. intros j ?. rewrite <- He by lia. by apply E.
Qed.

(** It does not see a write to a local. *)
Lemma find_entry_stable m m' d n l :
  unch (in_range d n) m m' → sep_range d n boot_block BLOCK_SIZE → num_dir_entries m ≤ 63 →
  find_entry m' l = find_entry m l.
Proof. intros U Hs. apply find_entry_agrees. by eapply spares_agrees, sep_spares. Qed.

Lemma find_entry_range m l i : find_entry m l = Some i → 0 ≤ i < num_dir_entries m.
Proof.
  unfold find_entry. case_decide; [|done]. intros E. by apply find_up_Some in E as (? & _).
Qed.
End lookup.

(** What a call may write on its way: its own locals. *)
Definition open_scratch k (p : Z) : Prop :=
  in_range (X := kx k) (local_at fr_tmp_dentry k) 64 p ∨
  in_range (X := kx k) (local_at fr_file_open k) 64 p ∨
  in_range (X := kx k) (local_at fr_dir_open k) 64 p.

Section open.
Context (k : kernel) (filename : Z) (l : list Z) (i : Z) (m1 : mem).
Hypothesis Henv : open_env k filename l.
Hypothesis Hi : find_entry (X := kx k) (pmem k) l = Some i.
Hypothesis Hm1 : dentry_read (X := kx k) (pmem k) i (local_at fr_tmp_dentry k) m1.

Local Abbreviation tmp := (local_at fr_tmp_dentry k).

(** The second lookup, in [file_open] or [dir_open], finds the same entry. *)
Lemma open_again d :
  local_ok k d → sep_range (X := kx k) d 64 tmp 64 →
  ∃ m2, read_dentry_by_name (X := kx k) m1 filename d = Some (0, m2) ∧
    unch (in_range (X := kx k) d 64) m1 m2 ∧
    ld32 (X := kx k) m2 (tmp + 36) = ld32 (X := kx k) m1 (tmp + 36).
Proof.
  intros [Hu Hb _] Hsep. destruct Hm1 as (_ & _ & _ & U). destruct Henv.
  destruct (stable_stats (X := kx k) _ _ _ (spares_agrees (X := kx k) _ _ _ _ _ U
    (sep_spares (X := kx k) _ _ _ _ (lo_boot _ _ oe_tmp0)))) as (En & _ & _).
  pose proof (lookup_dentry (X := kx k) m1 filename d l) as H.
  rewrite (find_entry_stable (X := kx k) (pmem k) m1 _ _ l U) in H
    by (done || apply oe_tmp0).
  rewrite Hi in H. destruct H as (m2 & E & Hd); [|lia|lia|done|done|].
  - eapply (cstring_unch (X := kx k)); [exact U| |done].
    intros j Hj. eapply sep_range_not_in; [exact oe_sep_name0|lia].
  - exists m2. destruct Hd as (_ & _ & _ & U2). split_and!; [done|done|].
    eapply unch_ld32_sep; [exact U2|].
    rewrite <- (Z.add_0_r d). eapply sep_sub; [exact Hsep|lia..].
Qed.

Lemma open_ops_ok idx ops :
  type_ops (ld32 (X := kx k) (pmem k) (files i + 32)) = Some ops →
  ∃ m2 d2, open_ops idx filename (ld32 (X := kx k) (pmem k) (files i + 32)) (set_mem m1 k)
      = Some (inr (ops, set_io d2 (set_mem m2 k))) ∧
    unch (open_scratch k) m1 m2 ∧
    ld32 (X := kx k) m2 (tmp + 36) = ld32 (X := kx k) m1 (tmp + 36).
Proof.
  unfold type_ops, open_ops. generalize (ld32 (X := kx k) (pmem k) (files i + 32)) as type.
  intros type. unfold USER_RTC, DIR, REGULAR.
  destruct (Z.eqb_spec type 0) as [->|]; [|destruct (Z.eqb_spec type 1) as [->|];
    [|destruct (Z.eqb_spec type 2) as [->|]; [|done]]]; intros [= <-]; simpl.
  - unfold rtc_open. destruct (set_frequency_io LOW_FREQUENCY (set_mem m1 k)) as [d Hd].
    destruct (set_frequency _ _) as [v k2]. simpl in Hd. subst k2.
    exists m1, d. split_and!; [done|apply unch_refl|done].
  - destruct (open_again (local_at fr_dir_open k)) as (m2 & E & U & Ev);
      [apply Henv..|].
    exists m2, (io k). unfold dir_open.
    change (local_at fr_dir_open (set_mem m1 k)) with (local_at fr_dir_open k).
    change (kx (set_mem m1 k)) with (kx k). simpl. rewrite E. simpl.
    split_and!; [by destruct k|eapply unch_mono; [|exact U]; unfold open_scratch; auto|done].
  - destruct (open_again (local_at fr_file_open k)) as (m2 & E & U & Ev);
      [apply Henv..|].
    exists m2, (io k). unfold file_open.
    change (local_at fr_file_open (set_mem m1 k)) with (local_at fr_file_open k).
    change (kx (set_mem m1 k)) with (kx k). simpl. rewrite E. simpl.
    split_and!; [by destruct k|eapply unch_mono; [|exact U]; unfold open_scratch; auto|done].
Qed.
End open.

(** No slot of the table is free below [fd]. *)
Definition busy_below k (fd : Z) : Prop := ∀ j, 2 ≤ j < fd → flags (cur_fd k j) ≠ FREE.

Lemma syscall_open_ok k filename l :
  open_env k filename l →
  match find_entry (X := kx k) (pmem k) l with
  | None => syscall_open filename k = Some (-1, k)
  | Some i =>
      ∃ r k', (∀ ops, type_ops (ld32 (X := kx k) (pmem k) (files i + 32)) = Some ops →
                 syscall_open filename k = Some (r, k') ∧
                 unch (open_scratch k) (pmem k) (pmem k') ∧ kmmu k' = kmmu k ∧
                 kcpu k' = kcpu k ∧ fsv k' = fsv k ∧ con k' = con k ∧
                 (r = -1 ∧ busy_below k 8 ∧ prc k' = prc k ∨
                  2 ≤ r < 8 ∧ flags (cur_fd k r) = FREE ∧ busy_below k r ∧
                  prc k' = prc (set_cur_fd r (FileEntry ops
                             (ld32 (X := kx k) (pmem k) (files i + 36)) 0 IN_USE) k)))
  end.
Proof.
  intros Henv. unfold syscall_open.
  rewrite (proj2 (Z.eqb_neq filename 0) (oe_null _ _ _ Henv)).
  pose proof (lookup_dentry (X := kx k) (pmem k) filename (local_at fr_tmp_dentry k) l
    (oe_name _ _ _ Henv) (oe_len _ _ _ Henv) (oe_dir _ _ _ Henv)
    (lo_uniq _ _ (oe_tmp _ _ _ Henv)) (lo_boot _ _ (oe_tmp _ _ _ Henv))) as H.
  destruct (find_entry _ l) as [i|] eqn:Ei.
  2:{ rewrite H. simpl. by destruct k. }
  destruct H as (m1 & -> & Hd). simpl.
  pose proof Hd as (Et & Eino & _ & U).
  change (kx (set_mem m1 k)) with (kx k).
  assert (unch (open_scratch k) (pmem k) m1) as U1.
  { eapply unch_mono; [|exact U]. unfold open_scratch; auto. }
  rewrite Et.
  destruct (find_up _ 2 8) as [idx|] eqn:Ef.
  - destruct (type_ops _) as [ops|] eqn:Eo; [|by exists 0, k].
    destruct (open_ops_ok k filename l i m1 Henv Ei Hd idx ops Eo) as (m2 & d2 & -> & U2 & E2).
    apply find_up_Some in Ef as (Hidx & Hfree & Hbelow). simpl.
    change (kx (set_io d2 (set_mem m2 k))) with (kx k). rewrite E2, Eino.
    eexists _, _. intros ops' [= <-]. split_and!; [done|by eapply unch_trans|done..|].
    right. split_and!; [lia|lia|by apply Z.eqb_eq|intros j Hj; by apply Z.eqb_neq, Hbelow|done].
  - exists (-1), (set_mem m1 k). intros ops _. split_and!; [done|done|done..|].
    left. rewrite find_up_None in Ef. split_and!; [done| |done].
    intros j Hj. by apply Z.eqb_neq, Ef.
Qed.
(** ** Reading, writing and closing *)

Definition outcome_k (o : outcome) : kernel :=
  match o with Ret _ k | Wait _ k | Iret _ _ k | Resume _ _ k => k end.

(** Only the PCB of the current process may differ. *)
Record own_pcb_only k k' : Prop := {
  op_pid : cur_pid (prc k') = cur_pid (prc k);
  op_ptr' : cur_pcb_ptr (prc k') = cur_pcb_ptr (prc k);
  op_map : pcb_bitmap (prc k') = pcb_bitmap (prc k);
  op_other : ∀ p, p ≠ cur_pcb_ptr (prc k) → get_pcb (prc k') p = get_pcb (prc k) p;
}.

#[export] Instance own_pcb_trans : Transitive own_pcb_only.
Proof.
  intros k1 k2 k3 H1 H2. constructor.
  - by rewrite (op_pid _ _ H2), (op_pid _ _ H1).
  - by rewrite (op_ptr' _ _ H2), (op_ptr' _ _ H1).
  - by rewrite (op_map _ _ H2), (op_map _ _ H1).
  - intros p Hp. rewrite (op_other _ _ H2), (op_other _ _ H1); [done|done|].
    by rewrite (op_ptr' _ _ H1).
Qed.

Lemma own_pcb_same k k' : prc k' = prc k → own_pcb_only k k'.
Proof. intros E. by constructor; rewrite E. Qed.

Lemma own_pcb_upd f k k' : prc k' = prc k → own_pcb_only k (upd_cur f k').
Proof.
  intros E. constructor; simpl; rewrite E; try done.
  intros p Hp. unfold get_pcb, upd_pcb. simpl. by rewrite lookup_insert_ne by done.
Qed.

Lemma cur_pcb_same k k' : prc k' = prc k → cur_pcb k' = cur_pcb k.
Proof. intros E. unfold cur_pcb. by rewrite E. Qed.

Lemma fds_in_use_ops p fd :
  fds_ok p → 0 ≤ fd < 8 → flags (fd_of p fd) ≠ FREE →
  op_ptr (fd_of p fd) ∈ [stdin_ops; stdout_ops; dir_ops; rtc_ops; regular_file_ops].
Proof.
  intros [_ [H0 _] [H1 _] Hs] Hfd Hf.
  rewrite !elem_of_cons. destruct (decide (fd = 0)) as [->|]; [by auto|].
  destruct (decide (fd = 1)) as [->|]; [by auto|].
  destruct (Hs fd ltac:(lia)) as [?|(_ & [->|[->| ->]])]; [done|by auto 6..].
Qed.

Lemma file_read_entry `{X : Xlat} m g e buf n v e' m' :
  file_read m g e buf n = (v, e', m') → op_ptr e' = op_ptr e ∧ flags e' = flags e.
Proof. unfold file_read. destruct (read_data _ _ _ _ _ _). by destruct (negb _); intros [= _ <- _]. Qed.

Lemma dir_read_entry_kept `{X : Xlat} m e buf n d v e' m' :
  dir_read m e buf n d = (v, e', m') → op_ptr e' = op_ptr e ∧ flags e' = flags e.
Proof.
  unfold dir_read. case_test; [by intros [= _ <- _]|].
  destruct (read_dentry_by_index _ _ _). destruct (while_n _ _ _ _). by intros [= _ <- _].
Qed.

Lemma moved_entry_safe k k1 fd e :
  fds_ok (cur_pcb k) → 0 ≤ fd < 8 → prc k1 = prc k →
  op_ptr e = op_ptr (cur_fd k fd) → flags e = flags (cur_fd k fd) →
  fds_ok (cur_pcb (set_cur_fd fd e k1)) ∧ own_pcb_only k (set_cur_fd fd e k1).
Proof.
  intros Hok Hfd E Ho Hf. split; [|by apply own_pcb_upd].
  unfold set_cur_fd. rewrite cur_pcb_upd, (cur_pcb_same k k1 E). by apply fds_ok_pos.
Qed.

Lemma do_read_safe t ops k fd buf n :
  fds_ok (cur_pcb k) → 0 ≤ fd < 8 → fs_init_ops t = Some ops →
  ∃ o, do_read (op_read ops) fd buf n k = Some o ∧
    fds_ok (cur_pcb (outcome_k o)) ∧ own_pcb_only k (outcome_k o).
Proof.
  intros Hok Hfd Ht.
  assert (∀ o, prc (outcome_k o) = prc k →
    fds_ok (cur_pcb (outcome_k o)) ∧ own_pcb_only k (outcome_k o)) as Hsame.
  { intros o E. split; [by rewrite (cur_pcb_same k)|by apply own_pcb_same]. }
  destruct t; simpl in Ht; simplify_eq; simpl.
  - destruct (dir_read _ _ _ _ _) as [[v e] m] eqn:E. apply dir_read_entry_kept in E as [??].
    eexists; split; [done|]. by apply moved_entry_safe.
  - destruct (file_read _ _ _ _ _) as [[v e] m] eqn:E. apply file_read_entry in E as [??].
    eexists; split; [done|]. by apply moved_entry_safe.
  - eexists; split; [done|]. by apply Hsame.
  - destruct (terminal_read fd buf n k) as [[v k']|] eqn:E; eexists; (split; [done|]);
      apply Hsame; [by apply same_env_terminal_read in E as []|done].
  - destruct (terminal_read fd buf n k) as [[v k']|] eqn:E; eexists; (split; [done|]);
      apply Hsame; [by apply same_env_terminal_read in E as []|done].
Qed.

Lemma do_write_safe t ops k fd buf n :
  fs_init_ops t = Some ops →
  ∃ v k', do_write (op_write ops) fd buf n k = Some (v, k') ∧ prc k' = prc k.
Proof.
  intros Ht. destruct t; simpl in Ht; simplify_eq; simpl; try by eexists _, _.
  - unfold rtc_write. destruct (_ || _); [by eexists _, _|].
    destruct (set_frequency_io (s32 (ld32 (X := kx k) (pmem k) buf)) k) as [d Hd].
    destruct (set_frequency _ k) as [v k']. simpl in Hd. subst. by eexists _, _.
  - pose proof (same_env_terminal_write fd buf n k) as [E _ _ _].
    destruct (terminal_write _ _ _ _) as [v k']. by eexists _, _.
  - pose proof (same_env_terminal_write fd buf n k) as [E _ _ _].
    destruct (terminal_write _ _ _ _) as [v k']. by eexists _, _.
Qed.

Lemma in_use_ops k fd :
  fds_ok (cur_pcb k) → 0 ≤ fd < 8 → flags (cur_fd k fd) ≠ FREE →
  ∃ ops, fs_init_ops (op_ptr (cur_fd k fd)) = Some ops.
Proof.
  intros Hok Hfd Hf. pose proof (fds_in_use_ops _ _ Hok Hfd Hf) as Hin.
  unfold cur_fd. repeat (apply elem_of_cons in Hin as [->|Hin]; [by eexists|]).
  by apply not_elem_of_nil in Hin.
Qed.

(** ** Properties *)

(** On a process with a well-formed descriptor table, [read], [write] and [close] are defined
    for every argument, keep the table well-formed and touch no PCB but the caller's.  That a
    store through the buffer does not reach a PCB either is shown in Guard.v. *)
Lemma descriptor_calls_defined k fd buf n :
  fds_ok (cur_pcb k) →
  (∃ o, syscall_read fd buf n k = Some o ∧
     fds_ok (cur_pcb (outcome_k o)) ∧ own_pcb_only k (outcome_k o)) ∧
  (∃ v k', syscall_write fd buf n k = Some (v, k') ∧
     fds_ok (cur_pcb k') ∧ own_pcb_only k k') ∧
  fds_ok (cur_pcb (snd (syscall_close fd k))) ∧ own_pcb_only k (snd (syscall_close fd k)).
Proof.
  intros Hok. split_and!.
  - unfold syscall_read. change (cur_fd (sti k) fd) with (cur_fd k fd).
    destruct (Z.leb_spec 8 fd); [by eexists|]. destruct (Z.ltb_spec fd 0); [by eexists|].
    destruct (Z.eqb_spec fd 1); [by eexists|]. simpl.
    case_test; [by eexists|].
    destruct (in_use_ops k fd) as [ops E]; [done|lia|done|]. rewrite E.
    destruct (do_read_safe _ ops (sti k) fd buf n Hok ltac:(lia) E) as (o & -> & ? & []).
    exists o. by split_and!.
  - unfold syscall_write.
    assert (∀ k', prc k' = prc k → fds_ok (cur_pcb k') ∧ own_pcb_only k k') as Hsame.
    { intros k' E. split; [by rewrite (cur_pcb_same k)|by apply own_pcb_same]. }
    destruct (Z.leb_spec 8 fd); [by eexists _, _|].
    destruct (Z.leb_spec fd 0); [by eexists _, _|]. simpl.
    case_test; [by eexists _, _|].
    destruct (in_use_ops k fd) as [ops E]; [done|lia|done|]. rewrite E.
    destruct (do_write_safe _ ops k fd buf n E) as (v & k' & -> & Ep).
    eexists _, _. split; [done|]. by apply Hsame.
  - unfold syscall_close. destruct (Z.ltb_spec fd 2); [done|].
    destruct (Z.ltb_spec 7 fd); [done|]. simpl. case_test; [done|].
    unfold set_cur_fd. simpl. rewrite cur_pcb_upd. apply fds_ok_put; [done|lia|by left].
  - unfold syscall_close. destruct (_ || _); [done|]. case_test; [done|]. by apply own_pcb_upd.
Qed.

(** [open] takes the lowest free descriptor from 2 to 7, or fails when none is
    free or the name is not in the directory; the descriptor gets the operation table
    of the file's type, its inode number and position 0.  Apart from that slot only the
    locals of the call change. *)
Theorem open_lowest_free k filename l i ops :
  open_env k filename l → find_entry (X := kx k) (pmem k) l = Some i →
  type_ops (ld32 (X := kx k) (pmem k) (files i + 32)) = Some ops →
  ∃ r k', syscall_open filename k = Some (r, k') ∧
    unch (open_scratch k) (pmem k) (pmem k') ∧ kmmu k' = kmmu k ∧
    (r = -1 ∧ busy_below k 8 ∧ prc k' = prc k ∨
     2 ≤ r < 8 ∧ flags (cur_fd k r) = FREE ∧ busy_below k r ∧
     prc k' = prc (set_cur_fd r
       (FileEntry ops (ld32 (X := kx k) (pmem k) (files i + 36)) 0 IN_USE) k)).
Proof.
  intros Henv Hi Ht. pose proof (syscall_open_ok k filename l Henv) as H.
  rewrite Hi in H. destruct H as (r & k' & H).
  destruct (H ops Ht) as (? & ? & ? & _ & _ & _ & ?). exists r, k'. split_and!; done.
Qed.

(** The locals of [open] lie outside the file system. *)
Lemma open_scratch_spares k filename l :
  open_env k filename l →
  spares (X := kx k) (open_scratch k) fs_blocks IMAGE_SIZE ∧
  spares (X := kx k) (open_scratch k) boot_block BLOCK_SIZE.
Proof.
  intros []. destruct oe_tmp0, oe_file0, oe_dopen0. split; intros j Hj [H|[H|H]]; revert H;
    (eapply sep_range_not_in; [|exact Hj]); done.
Qed.

(** Reading through a descriptor of a regular file. *)
Lemma syscall_read_at k fd ino pos buf n :
  cur_fd k fd = FileEntry regular_file_ops ino pos IN_USE → 2 ≤ fd < 8 →
  fs_ok (X := kx k) (pmem k) (fsv k) → readable (X := kx k) (pmem k) (fsv k) ino →
  0 ≤ pos ≤ file_length (X := kx k) (pmem k) (fsv k) ino →
  0 < n < 2147483648 → uniq_range (X := kx k) buf n → image_sep (X := kx k) buf n →
  sep_range (X := kx k) buf n boot_block BLOCK_SIZE →
  let cnt := Z.min n (file_length (X := kx k) (pmem k) (fsv k) ino - pos) in
  ∃ m, syscall_read fd buf n k = Some (Ret cnt
      (set_cur_fd fd (FileEntry regular_file_ops ino (pos + cnt) IN_USE) (set_mem m (sti k)))) ∧
    load_bytes (X := kx k) m buf cnt = file_slice (X := kx k) (pmem k) (fsv k) ino pos cnt ∧
    unch (in_range (X := kx k) buf n) (pmem k) m.
Proof.
  intros Efd Hfd Hok Hrd Hpos Hn Hu Hi Hb cnt. unfold syscall_read.
  change (cur_fd (sti k) fd) with (cur_fd k fd). rewrite Efd.
  destruct (Z.leb_spec 8 fd); [lia|]. destruct (Z.ltb_spec fd 0); [lia|].
  destruct (Z.eqb_spec fd 1); [lia|]. simpl.
  change (cur_fd (sti k) fd) with (cur_fd k fd). rewrite Efd.
  destruct (file_read_chunk (X := kx k) (pmem k) (fsv k)
    (FileEntry regular_file_ops ino pos IN_USE) buf n) as (m' & E & El & U); try done.
  simpl in E, El. change (kx (sti k)) with (kx k). rewrite E. by exists m'.
Qed.

Lemma syscall_read_file k fd ino buf n :
  cur_fd k fd = FileEntry regular_file_ops ino 0 IN_USE → 2 ≤ fd < 8 →
  fs_ok (X := kx k) (pmem k) (fsv k) → readable (X := kx k) (pmem k) (fsv k) ino →
  0 < n < 2147483648 → uniq_range (X := kx k) buf n → image_sep (X := kx k) buf n →
  sep_range (X := kx k) buf n boot_block BLOCK_SIZE →
  let cnt := Z.min n (file_length (X := kx k) (pmem k) (fsv k) ino) in
  ∃ k', syscall_read fd buf n k = Some (Ret cnt k') ∧
    load_bytes (X := kx k) (pmem k') buf cnt
      = file_slice (X := kx k) (pmem k) (fsv k) ino 0 cnt ∧
    prc k' = prc (set_cur_fd fd (FileEntry regular_file_ops ino cnt IN_USE) k) ∧
    unch (in_range (X := kx k) buf n) (pmem k) (pmem k').
Proof.
  intros Efd Hfd Hok Hrd Hn Hu Hi Hb cnt.
  destruct (syscall_read_at k fd ino 0 buf n) as (m & E & El & U); try done.
  { split; [lia|]. apply ld32_bound. }
  rewrite Z.sub_0_r in *. eexists. split_and!; [exact E|exact El|done|exact U].
Qed.

(** C24: opening a regular file, reading [n] bytes and closing it works end to end: the
    bytes read are the first [n] of the file (all of it when it is shorter), the
    position moves by as much, and after [close] exactly the descriptors that were in use
    before are in use. *)
Theorem open_read_close k filename l i buf n :
  open_env k filename l → find_entry (X := kx k) (pmem k) l = Some i →
  ld32 (X := kx k) (pmem k) (files i + 32) = REGULAR →
  fds_ok (cur_pcb k) → ¬ busy_below k 8 →
  let ino := ld32 (X := kx k) (pmem k) (files i + 36) in
  fs_ok (X := kx k) (pmem k) (fsv k) → readable (X := kx k) (pmem k) (fsv k) ino →
  0 < n < 2147483648 → uniq_range (X := kx k) buf n → image_sep (X := kx k) buf n →
  sep_range (X := kx k) buf n boot_block BLOCK_SIZE →
  let cnt := Z.min n (file_length (X := kx k) (pmem k) (fsv k) ino) in
  ∃ fd k1 k2, syscall_open filename k = Some (fd, k1) ∧
    syscall_read fd buf n k1 = Some (Ret cnt k2) ∧
    load_bytes (X := kx k) (pmem k2) buf cnt
      = file_slice (X := kx k) (pmem k) (fsv k) ino 0 cnt ∧
    file_pos (cur_fd k2 fd) = cnt ∧
    fst (syscall_close fd k2) = 0 ∧
    ∀ j, 0 ≤ j < 8 → flags (cur_fd (snd (syscall_close fd k2)) j) = flags (cur_fd k j).
Proof.
  intros Henv Hi Ht Hfds Hfree ino Hok Hrd Hn Hu Himg Hb cnt.
  destruct (open_scratch_spares k filename l Henv) as [Hs1 Hs2].
  pose proof (syscall_open_ok k filename l Henv) as H. rewrite Hi in H.
  destruct H as (fd & k1 & H).
  destruct (H regular_file_ops ltac:(by rewrite Ht)) as (Eo & U & Em & _ & Ef & _ & Hr). clear H.
  destruct Hr as [(_ & Hbusy & _)|(Hfd & Hfr & _ & Ep)]; [done|].
  pose proof (fo_len _ Hfds) as Hlen.
  assert (cur_pcb k1 = put_fd fd (FileEntry regular_file_ops ino 0 IN_USE) (cur_pcb k)) as Ec.
  { rewrite (cur_pcb_same (set_cur_fd fd (FileEntry regular_file_ops ino 0 IN_USE) k) k1 Ep).
    apply cur_pcb_upd. }
  assert (kx k1 = kx k) as Ex by (unfold kx; by rewrite Em).
  destruct (readable_spared (X := kx k) _ _ _ (fsv k) ino U Hs1 Hs2 Hok Hrd) as (Hrd1 & El & Es).
  destruct (syscall_read_file k1 fd ino buf n) as (k2 & Er & Ed & Ep2 & _);
    rewrite ?Ex, ?Ef, ?El; try done.
  { unfold cur_fd. rewrite Ec, fd_of_put by (done || lia). by rewrite decide_True. }
  { eapply (stable_ok (X := kx k)); [|done]. by eapply spares_agrees. }
  rewrite Ex, Ef, El in *. fold cnt in Er, Ed, Ep2.
  exists fd, k1, k2. split_and!; [done|done| | | |].
  - rewrite Ed. apply Es; [done|unfold cnt; lia].
  - unfold cur_fd. rewrite (cur_pcb_same _ _ Ep2). unfold set_cur_fd. rewrite cur_pcb_upd.
    rewrite fd_of_put by (rewrite ?Ec, ?put_fd_len; done || lia). by rewrite decide_True.
  - unfold syscall_close, cur_fd. rewrite (cur_pcb_same _ _ Ep2). unfold set_cur_fd at 1.
    rewrite cur_pcb_upd, fd_of_put by (rewrite ?Ec, ?put_fd_len; done || lia).
    rewrite decide_True by done. simpl. by case_tests.
  - intros j Hj.
    assert (flags (cur_fd k2 fd) = IN_USE ∧ length (pcb_fds (cur_pcb k2)) = 8%nat ∧
      (j ≠ fd → cur_fd k2 j = cur_fd k j)) as (Ef2 & Hl2 & Ej).
    { unfold cur_fd. rewrite (cur_pcb_same _ _ Ep2). unfold set_cur_fd.
      rewrite cur_pcb_upd, put_fd_len, Ec, put_fd_len.
      rewrite !fd_of_put by (rewrite ?put_fd_len; done || lia).
      rewrite decide_True by done. split_and!; [done|done|].
      intros Hne. by rewrite !decide_False by done. }
    unfold syscall_close. rewrite Ef2.
    destruct (Z.ltb_spec fd 2); [lia|]. destruct (Z.ltb_spec 7 fd); [lia|]. simpl.
    rewrite cur_fd_set by (done || lia). case_decide as E; [by subst|by rewrite Ej].
Qed.

(** The copy: the bytes of the array, then whatever is behind it. *)
Lemma getargs_ok buf n k :
  buf ≠ 0 → 0 ≤ n → cur_pcb_ptr (prc k) + 24 + n ≤ 8388608 →
  length (p_args (cur_pcb k)) = 128%nat →
  Forall (λ c, 0 ≤ c < 256) (p_args (cur_pcb k)) → uniq_range (X := kx k) buf n →
  nth 0 (p_args (cur_pcb k)) 0 ≠ 0 →
  ∃ m, syscall_getargs buf n k = Some (0, set_mem m k) ∧
    load_bytes (X := kx k) m buf (Z.min n ARG_LEN) = take (Z.to_nat n) (p_args (cur_pcb k)) ∧
    unch (in_range (X := kx k) buf n) (pmem k) m.
Proof.
  intros Hb Hn Hp Hl Hr Hu H0. unfold syscall_getargs.
  destruct (Z.ltb_spec n 0); [lia|]. destruct (Z.eqb_spec buf 0); [done|]. simpl.
  change (arg_byte k 0) with (nth 0 (p_args (cur_pcb k)) 0). rewrite (proj2 (Z.eqb_neq _ _) H0).
  destruct (Z.ltb_spec 8388608 (cur_pcb_ptr (prc k) + 24 + n)); [lia|].
  set (a := p_args (cur_pcb k)) in *.
  cut ((λ j k', ∃ m g, k' = set_mem m k ∧ written (X := kx k) (pmem k) buf j g m ∧
      ∀ i, 0 ≤ i < ARG_LEN → g i = nth (Z.to_nat i) a 0)
    n (for_up (λ i k, poke (buf + i) (arg_byte k i) k) 0 n k)).
  { intros (m & g & -> & Hw & Hg). exists m. split_and!; [done| |apply Hw].
    assert (load_bytes (X := kx k) m buf (Z.min n ARG_LEN) = g <$> seqZ 0 (Z.min n ARG_LEN)) as ->.
    { destruct Hw as [Hw _]. unfold load_bytes. apply list_fmap_ext. intros i x Hx%lookup_seqZ. apply Hw. lia. }
    apply list_eq. intros j. rewrite list_lookup_fmap. unfold ARG_LEN in *.
    destruct (decide (Z.of_nat j < Z.min n 128)).
    - rewrite lookup_seqZ_lt, lookup_take_lt by lia. simpl. rewrite Hg by lia.
      destruct (lookup_lt_is_Some_2 a j ltac:(lia)) as [x Hx].
      replace (Z.to_nat (0 + Z.of_nat j)) with j by lia. by rewrite Hx, nth_lookup, Hx.
    - rewrite lookup_seqZ_ge by lia. simpl. symmetry. apply lookup_ge_None. rewrite length_take. lia. }
  apply for_up_inv; [lia| |].
  { exists (pmem k), (λ i, nth (Z.to_nat i) a 0). split_and!; [by destruct k|apply written_nil|done]. }
  intros j k1 Hj (m & g & -> & Hw & Hg). eexists _, (λ i, if i =? j then arg_byte (set_mem m k) j else g i).
  split_and!; [done| |].
  - apply (written_snoc (X := kx k)); [lia|eapply uniq_range_mono; [done|lia]| |].
    + rewrite Z.eqb_refl. unfold arg_byte. case_test; [|apply u8_small, u8_bound].
      change (p_args (cur_pcb (set_mem m k))) with a. apply u8_small. unfold ARG_LEN in *.
      destruct (lookup_lt_is_Some_2 a (Z.to_nat j) ltac:(lia)) as [x Hx].
      rewrite nth_lookup, Hx. simpl. rewrite Forall_lookup in Hr. by eapply Hr.
    + destruct Hw as [Hw ?]. split; [|done]. intros i Hi. destruct (Z.eqb_spec i j); [lia|]. by apply Hw.
  - intros i Hi. destruct (Z.eqb_spec i j) as [->|]; [|by apply Hg].
    unfold arg_byte. by destruct (Z.ltb_spec j ARG_LEN); [|lia].
Qed.

(** [getargs] copies the argument string of the current process to the buffer, changes
    no other memory and nothing else, and fails without writing when there are no arguments;
    asked for more than the array's 128 bytes, it still delivers them. *)
Theorem getargs_copies buf n k :
  buf ≠ 0 → 0 ≤ n → cur_pcb_ptr (prc k) + 24 + n ≤ 8388608 →
  length (p_args (cur_pcb k)) = 128%nat →
  Forall (λ c, 0 ≤ c < 256) (p_args (cur_pcb k)) → uniq_range (X := kx k) buf n →
  if nth 0 (p_args (cur_pcb k)) 0 =? 0 then syscall_getargs buf n k = Some (-1, k)
  else ∃ m, syscall_getargs buf n k = Some (0, set_mem m k) ∧
    load_bytes (X := kx k) m buf (Z.min n ARG_LEN) = take (Z.to_nat n) (p_args (cur_pcb k)) ∧
    unch (in_range (X := kx k) buf n) (pmem k) m.
Proof.
  intros Hb Hn Hp Hl Hr Hu. destruct (Z.eqb_spec (nth 0 (p_args (cur_pcb k)) 0) 0) as [E|E].
  - unfold syscall_getargs. destruct (Z.ltb_spec n 0); [lia|]. destruct (Z.eqb_spec buf 0); [done|].
    change (arg_byte k 0) with (nth 0 (p_args (cur_pcb k)) 0). by rewrite E.
  - by apply getargs_ok.
Qed.
End files.
