(* ===== verification/Process.v ===== *)
(** * Processes (syscall_handler.c, second half; pit.c; interrupt_handler.c)

    Process identifiers, [execute] and [halt], [vidmap], the scheduler behind the timer
    interrupt, and the system-call dispatcher of syscall_handler_entry.S.

    A PCB is at the address [get_pcb_ptr] computes, at the bottom of the 8 KB that also
    hold the kernel stack of the process.  [esp] and [ebp] of [kcpu] are the stack
    pointers of the kernel routine that runs; a nested call gets a frame below. *)

From Stdlib Require Import String.
From S2P Require Import Prelude Mem Lib Fs Paging Kstate Pc Screen Terminal Pic Rtc Keyboard.
From S2P Require Import Files.

Definition MAX_NUM_PROCESS : Z := 6.
Definition FNAME_MAX_LEN : Z := 32.
Definition PROGRAM_VIR_ADDR : Z := 134512640.
Definition USER_START : Z := 134217728.
Definition USER_END : Z := 138412032.
Definition FISH_MAP : Z := 139165696.
Definition _8M : Z := _4M * 2.
Definition _128M : Z := _8M * 16.
Definition KERNEL_DS : Z := 24.

Definition msg_vidmap : list Z := lit "Invalid requirement of vidmap!"%string ++ [10].
Definition msg_by_name : list Z := lit "read_by_name fails"%string ++ [10].
Definition msg_elf : list Z := lit "Checking ELF fails"%string ++ [10].
Definition msg_max_programs : list Z := lit "Reach maximal number of programs!"%string ++ [10].
Definition msg_not_printed : list Z := lit "This should not be printed!"%string ++ [10].
Definition fmt_terminal : list Z :=
  lit "========>>> TERMINAL ID: %d                        "%string ++ [10].

Section process.
Context {PT : Ports} {PL : PgLayout} {FL : FsLayout} {FR : Frames}.
Implicit Types (k : kernel).

(** ** Helpers *)

Definition get_pcb_ptr (pid : Z) : Z := u32 (_8M - (pid + 1) * _8K).

Definition record_process k : Z * kernel :=
  match find_up (λ i, 0 =? nth (Z.to_nat i) (pcb_bitmap (prc k)) 0) 0 6 with
  | Some i => (i, upd_prc (λ p, set_bitmap (<[Z.to_nat i := 1]> (pcb_bitmap p)) p) k)
  | None => (-1, k)
  end.

(** [None]: an index outside the six entries of [pcb_bitmap]. *)
Definition decord_process (pid : Z) k : option (Z * kernel) :=
  if (pid <? 0) || (MAX_NUM_PROCESS <=? pid) then None
  else if nth (Z.to_nat pid) (pcb_bitmap (prc k)) 0 =? 0 then Some (-1, k)
  else Some (0, upd_prc (λ p, set_bitmap (<[Z.to_nat pid := 0]> (pcb_bitmap p)) p) k).

(** The loop that moves [user_input] past spaces. *)
Definition skip_spaces `{X : Xlat} (m : mem) (p : Z) : option Z :=
  while32 (λ p, if ld8 m p =? 32 then inl (u32 (p + 1)) else inr p) p.

(** One round of the loop of [parse_args]; the state is [flag], [user_input],
    [parsed_args] and the memory. *)
Definition parse_step `{X : Xlat} (parsed_fname i : Z) (st : option (bool * Z * Z * mem))
    : option (bool * Z * Z * mem) :=
  match st with
  | None => None
  | Some (flag, user_input, parsed_args, m) =>
      if negb flag then
        if negb (ld8 m user_input =? 32)
        then Some (flag, u32 (user_input + 1), parsed_args,
                   st8 m (parsed_fname + i) (ld8 m user_input))
        else Some (true, user_input, parsed_args, m)
      else
        match skip_spaces m user_input with
        | None => None
        | Some user_input =>
            Some (flag, u32 (user_input + 1), parsed_args + 1,
                  st8 m parsed_args (ld8 m user_input))
        end
  end.

Definition parse_args `{X : Xlat} (m : mem) (user_input parsed_fname parsed_args : Z)
    : option (Z * mem) :=
  if 0 =? user_input then Some (-1, m)
  else
    let m := memset m parsed_fname 0 50 in
    let m := memset m parsed_args 0 50 in
    match skip_spaces m user_input with
    | None => None
    | Some user_input =>
        match strlen m user_input with
        | None => None
        | Some length =>
            match for_up (parse_step parsed_fname) 0 (s32 length)
                         (Some (false, user_input, parsed_args, m)) with
            | None => None
            | Some (_, _, _, m) => Some (0, m)
            end
        end
    end.

(** [strncpy] into an array of a PCB. *)
Definition strncpy_bytes `{X : Xlat} (m : mem) (src n : Z) : list Z :=
  strncpy_byte m src <$> seqZ 0 n.

(** ** vidmap *)

Definition syscall_vidmap (screen_start : Z) k : Z * kernel :=
  if screen_start =? 0 then (-1, k)
  else if (s32 screen_start <? USER_START) || (USER_END - 4 <? s32 screen_start)
  then (-1, kprint msg_vidmap k)
  else
    let k := if negb (t_tid (running k) =? t_tid (viewing k))
             then set_mmu (switch_usrmap (Z.shiftr (t_vid_mem_buffer (running k)) 12) 1 (kmmu k)) k
             else set_mmu (switch_usrmap (Z.shiftr VIDEO_START 12) 1 (kmmu k)) k in
    let k := set_mmu (flush_tlb (kmmu k)) k in
    let k := set_mem (st32 (X := kx k) (pmem k) screen_start FISH_MAP) k in
    let k := upd_cur (set_p_vidmap 1) k in
    let k := upd_term (running_term_ptr (con k)) (set_t_vidmap_flag 1) k in
    (0, k).

(** ** execute *)

(** "set up paging" and "load user file". *)
Definition exec_image (new_pid nr_inode : Z) k : kernel :=
  let k := set_mmu (setup_paging_and_flush_tlb new_pid (kmmu k)) k in
  let inode_ptr := inode_addr (fsv k) nr_inode in
  let '(_, m) := read_data (X := kx k) (pmem k) (fsv k) nr_inode 0 PROGRAM_VIR_ADDR
                   (inode_length (X := kx k) (pmem k) inode_ptr) in
  set_mem m k.

(** "initialize PCB". *)
Definition exec_pcb (new_pid args : Z) k : kernel :=
  let new_pcb_ptr := get_pcb_ptr new_pid in
  let upd f k := upd_prc (upd_pcb new_pcb_ptr f) k in
  let k := upd (set_p_ids (u32 (cur_pid (prc k))) (u32 new_pid)) k in
  let k := upd (set_p_vidmap 0) k in
  let k := upd init_file_table k in
  let k := upd (set_p_esp0 (u32 (new_pcb_ptr + _8K - 4))) k in
  let k := upd (for_up (λ i p, put_fd i (set_flags FREE (fd_of p i)) p) 2 8) k in
  upd (set_p_args (strncpy_bytes (X := kx k) (pmem k) args ARG_LEN)) k.

(** "context switch to user". *)
Definition exec_switch (new_pid : Z) k : outcome :=
  let new_pcb_ptr := get_pcb_ptr new_pid in
  let k := if negb (cur_pid (prc k) =? -1)
           then upd_cur (set_p_regs (esp (kcpu k)) (ebp (kcpu k))) k else k in
  let k := upd_prc (set_cur new_pid new_pcb_ptr) k in
  let k := upd_prc (set_tss KERNEL_DS (tss_esp0 (get_pcb (prc k) new_pcb_ptr))) k in
  let user_eip := ld32 (X := kx k) (pmem k) (PROGRAM_VIR_ADDR + 24) in
  Iret user_eip (_128M + _4M - 4) (sti k).

(** From "create new process" on. *)
Definition exec_load (nr_inode args : Z) k : outcome :=
  let '(new_pid, k) := record_process k in
  if new_pid =? -1 then Ret 0 (kprint msg_max_programs k)
  else
    let k := exec_image new_pid nr_inode k in
    let k := exec_pcb new_pid args k in
    exec_switch new_pid k.

(** The bytes compared are [int8_t]. *)
Definition elf_magic `{X : Xlat} (m : mem) (a : Z) : bool :=
  (s8 (ld8 m a) =? 127) && (s8 (ld8 m (a + 1)) =? 69) &&
  (s8 (ld8 m (a + 2)) =? 76) && (s8 (ld8 m (a + 3)) =? 70).

Definition syscall_execute (user_input : Z) k : option outcome :=
  let k := cli k in
  let first_four_bytes := local_at fr_first_four_bytes k in
  let the_file_dentry := local_at fr_the_file_dentry k in
  let args := local_at fr_args k in
  let file_name := local_at fr_file_name k in
  if user_input =? 0 then Some (Ret (-1) k)
  else
    match parse_args (X := kx k) (pmem k) user_input file_name args with
    | None => None
    | Some (r, m) =>
        let k := set_mem m k in
        if r =? -1 then Some (Ret (-1) k)
        else
          match read_dentry_by_name (X := kx k) (pmem k) file_name the_file_dentry with
          | None => None
          | Some (r, m) =>
              let k := set_mem m k in
              if r =? -1 then Some (Ret (-1) (kprint msg_by_name k))
              else
                let nr_inode := ld32 (X := kx k) (pmem k) (the_file_dentry + 36) in
                let '(read_result, m) :=
                  read_data (X := kx k) (pmem k) (fsv k) nr_inode 0 first_four_bytes 4 in
                let k := set_mem m k in
                if (-1 =? read_result) || negb (elf_magic (X := kx k) (pmem k) first_four_bytes)
                then Some (Ret (-1) (kprint msg_elf k))
                else Some (exec_load nr_inode args k)
          end
    end.

(** A call of [f] from a frame of [size] bytes; the frame is gone when [f] returns. *)
Definition nested (size : Z) (f : kernel → option outcome) k : option outcome :=
  let c := kcpu k in
  match f (set_cpu (Cpu (u32 (esp c - size)) (ebp c) (if_flag c)) k) with
  | Some (Ret v k) => Some (Ret v (set_cpu (Cpu (esp c) (ebp c) (if_flag (kcpu k))) k))
  | r => r
  end.

(** ** halt *)

(** "switch user mapping": the program's video page goes with the process. *)
Definition halt_vidmap k : kernel :=
  if nz (p_vidmap_flag (cur_pcb k)) then
    let k := upd_cur (set_p_vidmap 0) k in
    let k := upd_term (running_term_ptr (con k)) (set_t_vidmap_flag 0) k in
    if t_tid (running k) =? t_tid (viewing k)
    then set_mmu (switch_usrmap (Z.shiftr VIDEO_START 12) 0 (kmmu k)) k
    else set_mmu (switch_usrmap (Z.shiftr (t_vid_mem_buffer (running k)) 12) 0 (kmmu k)) k
  else k.

(** From "restore parent data" to "switch user mapping". *)
Definition halt_restore k : kernel :=
  let parent_pid := s32 (Kstate.parent_pid (cur_pcb k)) in
  let k := upd_prc (set_tss KERNEL_DS (tss_esp0 (get_pcb (prc k) (get_pcb_ptr parent_pid)))) k in
  let k := set_mmu (setup_paging_and_flush_tlb parent_pid (kmmu k)) k in
  let k := for_up (λ i k, snd (syscall_close i k)) 0 8 k in
  halt_vidmap k.

(** "modify current info" and the jump: the assembly loads the parent's [esp] and [ebp];
    [leave] and [ret] then pop [ebp] and the return address from the frame of the parent's
    [syscall_execute]. *)
Definition halt_tail (status parent_pcb_ptr : Z) k : outcome :=
  let k := upd_prc (set_cur (s32 (Kstate.parent_pid (cur_pcb k))) parent_pcb_ptr) k in
  let retval := if status =? 255 then 256 else u16 status in
  let frame := p_ebp (get_pcb (prc k) parent_pcb_ptr) in
  let k := set_cpu (Cpu (u32 (frame + 8)) (ld32 (X := kx k) (pmem k) frame)
                        (if_flag (kcpu k))) k in
  Resume retval (ld32 (X := kx k) (pmem k) (frame + 4)) k.

Definition halt_return (status : Z) k : outcome :=
  let parent_pcb_ptr := get_pcb_ptr (s32 (Kstate.parent_pid (cur_pcb k))) in
  halt_tail status parent_pcb_ptr (halt_restore k).

Definition syscall_halt (status : Z) k : option outcome :=
  let k := cli k in
  match decord_process (cur_pid (prc k)) k with
  | None => None
  | Some (_, k) =>
      if Kstate.parent_pid (cur_pcb k) =? u32 (-1) then
        let k := upd_prc (λ p, set_cur (-1) (cur_pcb_ptr p) p) k in
        match nested fr_halt (syscall_execute str_shell) k with
        | Some (Ret _ k) => Some (halt_return status (kprint msg_not_printed k))
        | r => r
        end
      else Some (halt_return status k)
  end.

Definition syscall_sethandler (signum handler_address : Z) : Z := -1.
Definition syscall_sigreturn : Z := -1.

(** ** The scheduler *)

Definition launch_base_shell (tid : Z) k : option outcome :=
  match printf fmt_terminal [tid] k with
  | None => None
  | Some (_, k) => nested fr_base_shell (syscall_execute str_shell) k
  end.

(** Saving the running process. *)
Definition sched_save k : kernel :=
  let k := upd_term (running_term_ptr (con k)) (set_t_pid (cur_pid (prc k))) k in
  if negb (cur_pid (prc k) =? -1) then
    let k := upd_cur (set_p_esp0 (tss_esp0_reg (prc k))) k in
    upd_cur (set_p_regs (esp (kcpu k)) (ebp (kcpu k))) k
  else k.

(** Loading the process [next_pid]. *)
Definition sched_load (next_pid : Z) k : kernel :=
  let next_pcb_ptr := get_pcb_ptr next_pid in
  let k := set_mmu (setup_paging_and_flush_tlb next_pid (kmmu k)) k in
  let k := upd_prc (set_tss KERNEL_DS (tss_esp0 (get_pcb (prc k) next_pcb_ptr))) k in
  let p := get_pcb (prc k) next_pcb_ptr in
  set_cpu (Cpu (p_esp p) (p_ebp p) (if_flag (kcpu k))) k.

Definition schedule k : option outcome :=
  let k := sched_save k in
  let next_terminal := t_next_term_to_run (running k) in
  let next_pid := t_pid (term k next_terminal) in
  let k := upd_con (set_running next_terminal) k in
  let k := upd_prc (set_cur next_pid (get_pcb_ptr next_pid)) k in
  if next_pid =? -1 then
    match launch_base_shell (t_tid (term k next_terminal)) k with
    | Some (Ret _ k) => Some (Ret 0 (sched_load next_pid (kprint msg_not_printed k)))
    | r => r
    end
  else Some (Ret 0 (sched_load next_pid k)).

Definition pit_int_handler k : option outcome :=
  let k := cli k in
  let k := send_eoi PIT_IRQ k in
  let k := change_vidmem_mapping (t_tid (term k (t_next_term_to_run (running k)))) k in
  match schedule k with
  | Some (Ret v k) => Some (Ret v (sti k))
  | r => r
  end.

(** ** Dispatch *)

Definition INT_keyboard k : option outcome := Some (Ret 0 (keyboard_int_handler k)).
Definition INT_rtc k : option outcome := Some (Ret 0 (rtc_int_handler k)).
Definition INT_pit k : option outcome := pit_int_handler k.

Definition ret2 (r : option (Z * kernel)) : option outcome := (λ '(v, k), Ret v k) <$> r.

(** The jump table; a bad number gives -1. *)
Definition syscall_entry (eax ebx ecx edx : Z) k : option outcome :=
  let s := s32 in
  if (s eax <=? 0) || (10 <? s eax) then Some (Ret (-1) k)
  else if eax =? 1 then syscall_halt (u8 ebx) k
  else if eax =? 2 then syscall_execute ebx k
  else if eax =? 3 then syscall_read (s ebx) ecx (s edx) k
  else if eax =? 4 then ret2 (syscall_write (s ebx) ecx (s edx) k)
  else if eax =? 5 then ret2 (syscall_open ebx k)
  else if eax =? 6 then ret2 (Some (syscall_close (s ebx) k))
  else if eax =? 7 then ret2 (syscall_getargs ebx (s ecx) k)
  else if eax =? 8 then ret2 (Some (syscall_vidmap ebx k))
  else if eax =? 9 then Some (Ret (syscall_sethandler (s ebx) ecx) k)
  else Some (Ret syscall_sigreturn k).

(** ** Process identifiers *)

(** The map has six entries; an entry is 0 when the pid is free. *)
Definition pid_used k (i : Z) : Prop := nth (Z.to_nat i) (pcb_bitmap (prc k)) 0 ≠ 0.
Definition all_used_below k (i : Z) : Prop := ∀ j, 0 ≤ j < i → pid_used k j.

Definition use_pid (i v : Z) k : kernel :=
  upd_prc (λ p, set_bitmap (<[Z.to_nat i := v]> (pcb_bitmap p)) p) k.

Lemma record_process_cases k :
  (record_process k = (-1, k) ∧ all_used_below k 6) ∨
  ∃ i, record_process k = (i, use_pid i 1 k) ∧ 0 ≤ i < 6 ∧ ¬ pid_used k i ∧ all_used_below k i.
Proof.
  unfold record_process, pid_used, all_used_below. destruct (find_up _ 0 6) as [i|] eqn:E.
  - apply find_up_Some in E as (Hi & Hf & Hb). right. exists i. split_and!; [done|lia|lia|..].
    + apply Z.eqb_eq in Hf. by intros [].
    + intros j Hj. specialize (Hb j Hj). apply Z.eqb_neq in Hb. congruence.
  - rewrite find_up_None in E. left. split; [done|]. intros j Hj.
    specialize (E j Hj). apply Z.eqb_neq in E. congruence.
Qed.

Lemma pid_used_use k i v j :
  length (pcb_bitmap (prc k)) = 6%nat → 0 ≤ i < 6 → 0 ≤ j →
  pid_used (use_pid i v k) j ↔ if decide (j = i) then v ≠ 0 else pid_used k j.
Proof.
  intros Hl Hi Hj. unfold pid_used, use_pid. simpl. rewrite !nth_lookup. case_decide as E.
  - subst. rewrite list_lookup_insert_eq by lia. done.
  - rewrite list_lookup_insert_ne by lia. done.
Qed.

(** ** PCBs *)

Lemma get_upd_pcb ptr f p q :
  get_pcb (upd_pcb ptr f p) q = if decide (q = ptr) then f (get_pcb p ptr) else get_pcb p q.
Proof.
  unfold get_pcb, upd_pcb. simpl. case_decide as E; [subst; by rewrite lookup_insert_eq|].
  by rewrite lookup_insert_ne by done.
Qed.

Lemma upd_pcb_compose ptr f g p : upd_pcb ptr f (upd_pcb ptr g p) = upd_pcb ptr (λ x, f (g x)) p.
Proof.
  unfold upd_pcb at 1. rewrite get_upd_pcb, decide_True by done.
  unfold upd_pcb, set_pcbs. simpl. by rewrite insert_insert_eq.
Qed.

Lemma get_pcb_ptr_eq pid : 0 ≤ pid < 6 → get_pcb_ptr pid = _8M - (pid + 1) * _8K.
Proof. intros. unfold get_pcb_ptr, _8M, _8K, _4M, _4K. apply u32_small. lia. Qed.

Lemma get_pcb_ptr_inj i j : 0 ≤ i < 6 → 0 ≤ j < 6 → get_pcb_ptr i = get_pcb_ptr j → i = j.
Proof. intros Hi Hj. rewrite !get_pcb_ptr_eq by done. unfold _8K, _4K. lia. Qed.

(** ** Properties of the pid map and the stacks *)

(** The pid allocator hands out the lowest free pid of the six and marks exactly that
    one, or answers -1 when all are in use and changes nothing; releasing a pid just
    allocated restores the state. *)
Theorem pid_alloc_lowest k :
  length (pcb_bitmap (prc k)) = 6%nat → Forall (λ b, b = 0 ∨ b = 1) (pcb_bitmap (prc k)) →
  let '(r, k') := record_process k in
  (r = -1 ∧ k' = k ∧ all_used_below k 6) ∨
  (0 ≤ r < 6 ∧ ¬ pid_used k r ∧ all_used_below k r ∧
   (∀ j, 0 ≤ j < 6 → pid_used k' j ↔ j = r ∨ pid_used k j) ∧
   decord_process r k' = Some (0, k)).
Proof.
  intros Hl Hb. destruct (record_process_cases k) as [[-> H]|(i & -> & Hi & Hf & Hbel)];
    [by left|]. right. split_and!; [lia|lia|done|done|..].
  - intros j Hj. rewrite pid_used_use by (done || lia). case_decide; [|tauto].
    split; [by left|lia].
  - unfold decord_process, MAX_NUM_PROCESS.
    destruct (Z.ltb_spec i 0); [lia|]. destruct (Z.leb_spec 6 i); [lia|]. simpl.
    rewrite nth_lookup, list_lookup_insert_eq by lia. simpl. do 2 f_equal.
    unfold pid_used in Hf. rewrite nth_lookup in Hf.
    destruct (lookup_lt_is_Some_2 (pcb_bitmap (prc k)) (Z.to_nat i) ltac:(lia)) as [b Eb].
    rewrite Eb in Hf. simpl in Hf. assert (b = 0) as -> by lia.
    destruct k as [pm u d c co kb r pi pr fv]. destruct pr. simpl in *.
    unfold use_pid, upd_prc, set_prc, set_bitmap. simpl.
    by rewrite list_insert_insert_eq, list_insert_id.
Qed.

(** C39: the six PCBs, each with its kernel stack, lie in disjoint 8 KB areas at the top of
    the kernel's 4 MB page, and the stack top put into the TSS is inside the area. *)
Theorem pcb_areas_disjoint i j :
  0 ≤ i < 6 → 0 ≤ j < 6 →
  _4M ≤ get_pcb_ptr i ∧ get_pcb_ptr i + _8K ≤ _8M ∧
  get_pcb_ptr i < u32 (get_pcb_ptr i + _8K - 4) < get_pcb_ptr i + _8K ∧
  (i ≠ j → get_pcb_ptr i + _8K ≤ get_pcb_ptr j ∨ get_pcb_ptr j + _8K ≤ get_pcb_ptr i).
Proof.
  intros Hi Hj. rewrite !get_pcb_ptr_eq by done. unfold _8M, _8K, _4M, _4K in *.
  rewrite u32_small by lia. lia.
Qed.
End process.
