(* ===== verification/Parse.v ===== *)
(** * The command line (parse_args of syscall_handler.c)

    What [parse_args] makes of a command line: leading spaces are skipped, the first word
    is the file name, and of the rest every character that is not a space goes to the
    arguments. *)

From S2P Require Import Prelude Mem Lib Fs Paging Kstate Screen Files Process.

(** Characters that are not spaces. *)
Definition no_spaces (l : list Z) : list Z := filter (λ c, c ≠ 32) l.

(** The command line as the parser splits it. *)
Definition command_line (n : nat) (name : list Z) (args : option (list Z)) : list Z :=
  replicate n 32 ++ name ++ (match args with None => [] | Some a => 32 :: a end).

Definition parsed_args_of (args : option (list Z)) : list Z :=
  match args with None => [] | Some a => no_spaces a end.

Lemma for_up_split {A} (body : Z → A → A) lo mid hi a :
  lo ≤ mid ≤ hi → for_up body lo hi a = for_up body mid hi (for_up body lo mid a).
Proof.
  intros H. symmetry.
  apply (for_up_inv body (λ i x, x = for_up body lo i a)); [lia|done|].
  intros i x Hi ->. by rewrite for_up_snoc by lia.
Qed.

Section parse.
Context {X : Xlat}.
Implicit Types (m : mem).

Lemma cstring_u32 m a b l : u32 a = u32 b → cstring m a l → cstring m b l.
Proof.
  intros E [H H0].
  assert (∀ i, ld8 m (b + i) = ld8 m (a + i)) as Hld.
  { intros i. apply ld8_eq. by rewrite <- u32_add_l, <- E, u32_add_l. }
  split; [intros i x Hx; rewrite Hld; by apply H|by rewrite Hld].
Qed.

Lemma cstring_app m s l1 l2 :
  cstring m s (l1 ++ l2) → cstring m (s + Z.of_nat (length l1)) l2.
Proof.
  intros [H H0]. rewrite length_app in H0. split.
  - intros i x Hx. rewrite <- Z.add_assoc, <- Nat2Z.inj_add. apply H.
    by rewrite lookup_app_r, Nat.add_comm, Nat.add_sub by lia.
  - by rewrite <- Z.add_assoc, <- Nat2Z.inj_add.
Qed.

Lemma cstring_ld8 m s l (p : nat) a :
  cstring m s l → u32 a = u32 (s + Z.of_nat p) → (p ≤ length l)%nat →
  ld8 m a = default 0 (l !! p).
Proof.
  intros [H H0] E Hp. rewrite (ld8_eq m a _ E).
  destruct (l !! p) as [x|] eqn:Ex; [by apply H|].
  apply lookup_ge_None in Ex. by replace p with (length l) by lia.
Qed.

(** Skipping spaces stops at the first other character or at the end of the string. *)
Lemma skip_spaces_ok m s l (p : nat) a0 :
  cstring m s l → Z.of_nat (length l) < 4294967295 → (p ≤ length l)%nat →
  u32 a0 = u32 (s + Z.of_nat p) →
  ∃ (q : nat) a, skip_spaces m a0 = Some a ∧ u32 a = u32 (s + Z.of_nat q) ∧
    (p ≤ q ≤ length l)%nat ∧ (∀ j, (p ≤ j < q)%nat → l !! j = Some 32) ∧ l !! q ≠ Some 32.
Proof.
  intros Hs Hl Hp E0. unfold skip_spaces.
  edestruct (while32_total (λ p, if ld8 m p =? 32 then inl (u32 (p + 1)) else inr p)
    (λ a, ∃ q : nat, u32 a = u32 (s + Z.of_nat q) ∧ (p ≤ q ≤ length l)%nat ∧
          ∀ j, (p ≤ j < q)%nat → l !! j = Some 32)
    (λ a, ∃ q : nat, u32 a = u32 (s + Z.of_nat q) ∧ (p ≤ q ≤ length l)%nat ∧
          (∀ j, (p ≤ j < q)%nat → l !! j = Some 32) ∧ l !! q ≠ Some 32)
    (λ a, Z.of_nat (length l) - u32 (a - s))) as (a & Ea & (q & Hq)).
  - intros a (q & Eq & Hq & Hj).
    assert (u32 (a - s) = Z.of_nat q) as Eas.
    { rewrite <- (u32_small (Z.of_nat q)) by lia. apply u32_eq_iff.
      apply u32_eq_iff in Eq. by replace (a - s - Z.of_nat q) with (a - (s + Z.of_nat q)) by lia. }
    split; [lia|]. rewrite (cstring_ld8 m s l q a Hs Eq) by lia.
    destruct (l !! q) as [c|] eqn:Ec; simpl.
    + pose proof (lookup_lt_Some _ _ _ Ec). destruct (Z.eqb_spec c 32) as [->|Hc].
      * split.
        -- exists (S q). rewrite u32_idem. split_and!; [|lia|lia|].
           ++ rewrite <- u32_add_l, Eq, u32_add_l. f_equal. lia.
           ++ intros j Hjr. destruct (decide (j = q)) as [->|]; [done|]. apply Hj. lia.
        -- assert (u32 (u32 (a + 1) - s) = Z.of_nat (S q)) as ->; [|lia].
           rewrite <- (u32_small (Z.of_nat (S q))) by lia. apply u32_eq_iff.
           assert (u32 (a + 1) = u32 (s + Z.of_nat (S q))) as ->.
           { rewrite <- u32_add_l, Eq, u32_add_l. f_equal. lia. }
           pose proof (u32_idem (s + Z.of_nat (S q))) as Hi. apply u32_eq_iff in Hi.
           by replace (u32 (s + Z.of_nat (S q)) - s - Z.of_nat (S q))
             with (u32 (s + Z.of_nat (S q)) - (s + Z.of_nat (S q))) by lia.
      * exists q. split_and!; [done|lia|lia|done|]. rewrite Ec. congruence.
    + exists q. split_and!; [done|lia|lia|done|]. by rewrite Ec.
  - exists p. split_and!; [done|lia|lia|lia].
  - pose proof (u32_bound (a0 - s)). change (2 ^ 32) with 4294967296. lia.
  - exists q, a. tauto.
Qed.

Section loop.
Context (m1 : mem) (s fname pargs : Z) (l : list Z).
Hypothesis Hl : Z.of_nat (length l) < 4294967295.

(** The string survives what the loop writes. *)
Definition keeps_input : Prop :=
  ∀ m, unch (λ p, in_range fname 32 p ∨ in_range pargs 50 p) m1 m → cstring m s l.
Hypothesis Hkeep : keeps_input.

(** The rounds that copy the name. *)
Lemma parse_name_loop name tail u0 :
  l = name ++ tail → (length name ≤ 32)%nat → 32 ∉ name → uniq_range fname 32 →
  u32 u0 = u32 s →
  ∃ u m, for_up (parse_step fname) 0 (Z.of_nat (length name)) (Some (false, u0, pargs, m1)) =
      Some (false, u, pargs, m) ∧
    u32 u = u32 (s + Z.of_nat (length name)) ∧
    written m1 fname (Z.of_nat (length name)) (λ i, default 0 (l !! Z.to_nat i)) m.
Proof.
  intros El Hn Hsp Hu E0.
  apply (for_up_inv (parse_step fname) (λ i st, ∃ u m, st = Some (false, u, pargs, m) ∧
    u32 u = u32 (s + i) ∧ written m1 fname i (λ i, default 0 (l !! Z.to_nat i)) m)); [lia| |].
  { exists u0, m1. rewrite Z.add_0_r. split_and!; [done..|apply written_nil]. }
  intros i st Hi (u & m & -> & Eu & Hw).
  assert (cstring m s l) as Hs.
  { apply Hkeep. eapply unch_mono; [|apply Hw]. intros p Hp. left.
    eapply in_range_mono; [|exact Hp]. lia. }
  assert (ld8 m u = default 0 (l !! Z.to_nat i)) as Eld.
  { apply (cstring_ld8 m s l); [done|by rewrite Z2Nat.id by lia|].
    rewrite El, length_app. lia. }
  assert (l !! Z.to_nat i = name !! Z.to_nat i) as Elk by (by rewrite El, lookup_app_l by lia).
  unfold parse_step. simpl.
  assert (ld8 m u ≠ 32) as Hne.
  { rewrite Eld, Elk. destruct (name !! Z.to_nat i) as [c|] eqn:Ec; [|done].
    apply list_elem_of_lookup_2 in Ec. simpl. intros ->. done. }
  rewrite (proj2 (Z.eqb_neq _ _) Hne). simpl. eexists _, _. split_and!; [done| |].
  - rewrite u32_idem, <- u32_add_l, Eu, u32_add_l. f_equal. lia.
  - apply written_snoc; [lia|eapply uniq_range_mono; [done|lia]|by rewrite u8_ld8|done].
Qed.

(** The rounds that copy the arguments. *)
Lemma parse_args_loop (n0 : nat) lo hi args u0 m2 :
  drop n0 l = 32 :: args → hi - lo = Z.of_nat (length args) → (length args ≤ 49)%nat →
  (length args ≤ length (no_spaces args) + 1)%nat →
  uniq_range pargs 50 → u32 u0 = u32 (s + Z.of_nat n0) →
  unch (λ p, in_range fname 32 p ∨ in_range pargs 50 p) m1 m2 →
  ∃ u m, for_up (parse_step fname) lo hi (Some (true, u0, pargs, m2)) =
      Some (true, u, pargs + Z.of_nat (length args), m) ∧
    written m2 pargs (Z.of_nat (length args))
      (λ i, default 0 (no_spaces args !! Z.to_nat i)) m.
Proof.
  intros El Hhl Ha Hsp Hu E0 Hun.
  set (F := no_spaces args) in *.
  cut ((λ i st, ∃ u m, st = Some (true, u, pargs + (i - lo), m) ∧
    written m2 pargs (i - lo) (λ i, default 0 (F !! Z.to_nat i)) m ∧
    ((i - lo ≤ Z.of_nat (length F) ∧ ∃ p : nat, u32 u = u32 (s + Z.of_nat p) ∧
        (p ≤ length l)%nat ∧ no_spaces (drop p l) = drop (Z.to_nat (i - lo)) F) ∨
     i - lo = Z.of_nat (length F) + 1))
    hi (for_up (parse_step fname) lo hi (Some (true, u0, pargs, m2)))).
  { intros (u & m & E & Hw & _). rewrite Hhl in E, Hw. by exists u, m. }
  apply for_up_inv; [lia| |].
  { exists u0, m2. rewrite Z.sub_diag, Z.add_0_r. split_and!; [done|apply written_nil|].
    left. split; [lia|]. exists n0. split_and!; [done| |].
    - assert (length (drop n0 l) = S (length args)) as E by (by rewrite El).
      rewrite length_drop in E. lia.
    - rewrite El. done. }
  intros i st Hi (u & m & -> & Hw & Hpos).
  destruct Hpos as [(Hle & p & Eu & Hp & EF)|]; [|lia].
  assert (cstring m s l) as Hs.
  { apply Hkeep. eapply unch_trans; [exact Hun|]. eapply unch_mono; [|apply Hw].
    intros q Hq. right. eapply in_range_mono; [|exact Hq]. lia. }
  destruct (skip_spaces_ok m s l p u Hs Hl Hp Eu) as (q & a & Ea & Eq & Hq & Hsk & Hns).
  unfold parse_step. simpl. rewrite Ea.
  assert (no_spaces (drop q l) = drop (Z.to_nat (i - lo)) F) as EF'.
  { rewrite <- EF. clear -Hsk Hq. remember (q - p)%nat as d eqn:Ed.
    revert p Hsk Hq Ed. induction d as [|d IH]; intros p Hsk Hq Ed.
    - by replace p with q by lia.
    - rewrite (drop_S l 32 p) by (apply Hsk; lia).
      unfold no_spaces at 2. rewrite filter_cons_False by auto.
      apply IH; [intros j Hj; apply Hsk; lia|lia|lia]. }
  assert (ld8 m a = default 0 (F !! Z.to_nat (i - lo)) ∧
    (i - lo < Z.of_nat (length F) → (q < length l)%nat ∧
      no_spaces (drop (S q) l) = drop (Z.to_nat (i - lo) + 1) F)) as [Eld Hnext].
  { rewrite (cstring_ld8 m s l q a Hs Eq) by lia.
    destruct (l !! q) as [c|] eqn:Ec.
    - rewrite (drop_S l c q Ec) in EF'. unfold no_spaces in EF' at 1.
      rewrite filter_cons_True in EF' by congruence.
      destruct (F !! Z.to_nat (i - lo)) as [c'|] eqn:Ec'.
      + rewrite (drop_S F c' _ Ec') in EF'. injection EF' as -> EF'. split; [done|].
        intros _. split; [by apply lookup_lt_Some in Ec|].
        by replace (Z.to_nat (i - lo) + 1)%nat with (S (Z.to_nat (i - lo))) by lia.
      + apply lookup_ge_None in Ec'. by rewrite (drop_ge F) in EF' by lia.
    - apply lookup_ge_None in Ec. rewrite (drop_ge l) in EF' by lia. simpl in EF'.
      symmetry in EF'. apply (f_equal length) in EF'. rewrite length_drop in EF'. simpl in EF'.
      rewrite lookup_ge_None_2 by lia. split; [done|lia]. }
  eexists _, _. split_and!; [do 3 f_equal; lia| |].
  - replace (i + 1 - lo) with (i - lo + 1) by lia.
    apply written_snoc; [lia|eapply uniq_range_mono; [done|lia]|by rewrite u8_ld8, Eld|done].
  - destruct (decide (i - lo = Z.of_nat (length F))) as [E|Hne]; [right; lia|].
    left. destruct (Hnext ltac:(lia)) as [Hq2 EF2]. split; [lia|]. exists (S q).
    split_and!; [|lia|].
    + rewrite u32_idem, <- u32_add_l, Eq, u32_add_l. f_equal. lia.
    + rewrite EF2. f_equal. lia.
Qed.
End loop.

(** A string written over zeroed bytes. *)
Lemma cstring_over_zeros m m' d n z l :
  (∀ i, 0 ≤ i < z → ld8 m (d + i) = 0) → uniq_range d z → n ≤ z →
  written m d n (λ i, default 0 (l !! Z.to_nat i)) m' →
  Z.of_nat (length l) ≤ n → Z.of_nat (length l) < z → Forall (λ c, c ≠ 0) l →
  cstring m' d l.
Proof.
  intros Hz Hu Hn [Hw Hun] Hl Hlz Hnz. split.
  - intros i x Hx. pose proof (lookup_lt_Some _ _ _ Hx).
    rewrite Hw, Nat2Z.id, Hx by lia. split; [done|]. by eapply Forall_lookup_1 in Hnz.
  - destruct (decide (Z.of_nat (length l) < n)).
    + rewrite Hw, Nat2Z.id by lia. by rewrite lookup_ge_None_2.
    + rewrite (unch_ld8 _ _ _ _ Hun); [apply Hz; lia|].
      intros (i & Hi & E). apply Hu in E; lia.
Qed.

Lemma cstring_nonzero m s l : cstring m s l → Forall (λ c, c ≠ 0) l.
Proof. intros [H _]. apply Forall_lookup. intros i x Hx. by destruct (H i x Hx). Qed.

(** The loop of [parse_args] on a command line without leading spaces. *)
Lemma parse_loop m1 s fname pargs name args u0 :
  let l := command_line 0 name args in
  keeps_input m1 s fname pargs l →
  (32 ∉ name) → (length name ≤ 32)%nat → (length (default [] args) ≤ 49)%nat →
  (length (default [] args) ≤ length (parsed_args_of args) + 1)%nat →
  uniq_range fname 33 → uniq_range pargs 50 → sep_range fname 33 pargs 50 →
  (∀ i, 0 ≤ i < 33 → ld8 m1 (fname + i) = 0) → (∀ i, 0 ≤ i < 50 → ld8 m1 (pargs + i) = 0) →
  u32 u0 = u32 s →
  ∃ b u a m, for_up (parse_step fname) 0 (Z.of_nat (length l)) (Some (false, u0, pargs, m1)) =
      Some (b, u, a, m) ∧
    cstring m fname name ∧ cstring m pargs (parsed_args_of args) ∧
    unch (λ p, in_range fname 32 p ∨ in_range pargs 50 p) m1 m.
Proof.
  intros l Hkeep Hsp Hn Ha Hone Huf Hua Hsep Hzf Hza E0.
  assert (Forall (λ c, c ≠ 0) l) as Hnz by (eapply cstring_nonzero, Hkeep, unch_refl).
  set (tail := match args with None => [] | Some a => 32 :: a end).
  assert (l = name ++ tail) as El by done.
  assert (Z.of_nat (length l) < 4294967295) as Hl.
  { rewrite El, length_app. unfold tail. destruct args; simpl in *; lia. }
  destruct (parse_name_loop m1 s fname pargs l Hkeep name tail u0) as (u & m2 & E1 & Eu & Hw);
    [done|done|done|eapply uniq_range_mono; [done|lia]|done|].
  assert (cstring m2 fname name) as Hname.
  { eapply (cstring_over_zeros m1 _ _ (Z.of_nat (length name)) 33); try done; try lia.
    - eapply written_ext; [|exact Hw]. intros i Hi. simpl.
      by rewrite El, lookup_app_l by lia.
    - by rewrite El in Hnz; apply Forall_app in Hnz as [? _]. }
  assert (∀ i, 0 ≤ i < 50 → ld8 m2 (pargs + i) = 0) as Hza2.
  { intros i Hi. rewrite (unch_ld8 _ _ _ _ (proj2 Hw)); [by apply Hza|].
    intros (j & Hj & E). eapply Hsep; [| |symmetry; exact E]; lia. }
  assert (unch (λ p, in_range fname 32 p ∨ in_range pargs 50 p) m1 m2) as Hun.
  { eapply unch_mono; [|apply Hw]. intros p Hp. left. eapply in_range_mono; [|exact Hp]. lia. }
  destruct args as [a|]; simpl in *.
  2:{ exists false, u, pargs, m2. rewrite El, app_nil_r. split_and!; [done..| |done].
      split; [done|]. simpl. by rewrite Hza2 by lia. }
  rewrite (for_up_split _ 0 (Z.of_nat (length name))) by (rewrite El, length_app; lia).
  rewrite E1.
  rewrite (for_up_split _ _ (Z.of_nat (length name) + 1)) by
    (rewrite El, length_app; unfold tail; simpl; lia).
  assert (ld8 m2 u = 32) as E32.
  { rewrite (cstring_ld8 m2 s l (length name)); [|by apply Hkeep|done|rewrite El, length_app; lia].
    by rewrite El, lookup_app_r, Nat.sub_diag by lia. }
  rewrite (for_up_snoc _ (Z.of_nat (length name)) (Z.of_nat (length name))) by lia.
  rewrite (for_up_nil _ (Z.of_nat (length name))) by lia.
  unfold parse_step at 2. simpl. rewrite E32. simpl.
  destruct (parse_args_loop m1 s fname pargs l Hl Hkeep (length name)
    (Z.of_nat (length name) + 1) (Z.of_nat (length l)) a u m2) as (u' & m3 & E3 & Hw3).
  { by rewrite El, drop_app_length. }
  { rewrite El, length_app. unfold tail. simpl. lia. }
  1-5: done.
  exists true, u', (pargs + Z.of_nat (length a)), m3. split_and!; [done|..].
  - eapply cstring_unch; [apply Hw3| |exact Hname]. intros i Hi (j & Hj & E).
    eapply Hsep; [| |exact E]; lia.
  - eapply (cstring_over_zeros m2 _ _ (Z.of_nat (length a)) 50); try done; try lia.
    + pose proof (length_filter (λ c, c ≠ 32) a). unfold no_spaces. lia.
    + pose proof (length_filter (λ c, c ≠ 32) a). unfold no_spaces. lia.
    + rewrite El in Hnz. apply Forall_app in Hnz as [_ Hnz]. apply Forall_cons in Hnz as [_ Hnz].
      rewrite Forall_forall in *. intros c Hc. apply list_elem_of_filter in Hc as [_ Hc]. auto.
  - eapply unch_trans; [exact Hun|]. eapply unch_mono; [|apply Hw3]. intros p Hp. right.
    eapply in_range_mono; [|exact Hp]. lia.
Qed.

Lemma command_line_drop n name args : drop n (command_line n name args) = command_line 0 name args.
Proof.
  unfold command_line. by rewrite drop_app_ge, length_replicate, Nat.sub_diag by
    (rewrite length_replicate; lia).
Qed.

Lemma cstring_command m s n name args :
  cstring m s (command_line n name args) → cstring m (s + Z.of_nat n) (command_line 0 name args).
Proof.
  intros H. rewrite <- (command_line_drop n). rewrite <- (take_drop n (command_line n name args)) in H.
  apply cstring_app in H. rewrite length_take_le in H; [done|].
  unfold command_line. rewrite length_app, length_replicate. lia.
Qed.

(** The leading spaces are skipped exactly. *)
Lemma skip_command m s n name args :
  let l := command_line n name args in
  cstring m s l → Z.of_nat (length l) < 4294967295 → (32 ∉ name) → (name = [] → args = None) →
  ∃ u, skip_spaces m s = Some u ∧ u32 u = u32 (s + Z.of_nat n).
Proof.
  intros l Hs Hl Hsp Hempty.
  destruct (skip_spaces_ok m s l 0 s) as (q & u & E & Eu & Hq & Hsk & Hns);
    [done|lia|lia|by rewrite Z.add_0_r|].
  assert (∀ j, (j < n)%nat → l !! j = Some 32) as Hspc.
  { intros j Hj. unfold l, command_line. rewrite lookup_app_l by (by rewrite length_replicate).
    by apply lookup_replicate_2. }
  assert (l !! n ≠ Some 32) as Hstop.
  { replace (l !! n) with (drop n l !! 0%nat) by (by rewrite lookup_drop, Nat.add_0_r).
    unfold l. rewrite command_line_drop. unfold command_line. simpl. destruct name as [|c name].
    - by rewrite Hempty.
    - simpl. intros [= ->]. by apply Hsp; left. }
  assert (q = n) as ->; [|by exists u].
  destruct (decide (q < n)%nat) as [Hlt|]; [by apply Hspc in Hlt|].
  destruct (decide (n < q)%nat) as [Hgt|]; [by destruct Hstop; apply Hsk; lia|lia].
Qed.

Lemma parse_args_ok m ui fname pargs n name args :
  let l := command_line n name args in
  cstring m ui l → 0 < ui → Z.of_nat (length l) < 2147483648 →
  (32 ∉ name) → (name = [] → args = None) → (length name ≤ 32)%nat →
  (length (default [] args) ≤ 49)%nat →
  (length (default [] args) ≤ length (parsed_args_of args) + 1)%nat →
  uniq_range fname 50 → uniq_range pargs 50 → sep_range fname 33 pargs 50 →
  sep_range fname 50 ui (Z.of_nat (length l) + 1) →
  sep_range pargs 50 ui (Z.of_nat (length l) + 1) →
  ∃ m', parse_args m ui fname pargs = Some (0, m') ∧
    cstring m' fname name ∧ cstring m' pargs (parsed_args_of args) ∧
    unch (λ p, in_range fname 50 p ∨ in_range pargs 50 p) m m'.
Proof.
  intros l Hs Hui Hl Hsp Hempty Hn Ha Hone Huf Hua Hsep Hsf Hsa.
  set (P := λ p, in_range fname 50 p ∨ in_range pargs 50 p).
  assert (∀ m', unch P m m' → cstring m' ui l) as Hkeep.
  { intros m' Hun. eapply cstring_unch; [exact Hun| |exact Hs].
    intros i Hi [Hr|Hr]; revert Hr; eapply sep_range_not_in; (eassumption || lia). }
  unfold parse_args. destruct (Z.eqb_spec 0 ui); [lia|].
  pose proof (memset_written m fname 0 50 ltac:(lia) Huf) as [Hw1 Hu1].
  pose proof (memset_written (memset m fname 0 50) pargs 0 50 ltac:(lia) Hua) as [Hw2 Hu2].
  set (m1 := memset (memset m fname 0 50) pargs 0 50) in *.
  assert (unch P m m1) as Hun1.
  { eapply unch_trans; (eapply unch_mono; [|eassumption]); intros p; [by left|by right]. }
  destruct (skip_command m1 ui n name args) as (u & -> & Eu); [by apply Hkeep|fold l; lia|done|done|].
  assert (Z.of_nat (length (command_line 0 name args)) ≤ Z.of_nat (length l)) as Hlen.
  { rewrite <- (command_line_drop n), length_drop. unfold l. lia. }
  erewrite strlen_cstring; [| |]; cycle 1.
  { eapply cstring_u32; [symmetry; exact Eu|]. by apply cstring_command, Hkeep. }
  { lia. }
  rewrite s32_small by lia.
  destruct (parse_loop m1 (ui + Z.of_nat n) fname pargs name args u) as
    (b & u' & a & m2 & -> & Hf & Hpa & Hun2); try done.
  - intros m' Hun'. apply cstring_command, Hkeep. eapply unch_trans; [exact Hun1|].
    eapply unch_mono; [|exact Hun']. intros p [Hp|Hp]; [left|by right].
    eapply in_range_mono; [|exact Hp]. lia.
  - eapply uniq_range_mono; [done|lia].
  - intros i Hi. rewrite (unch_ld8 _ _ _ _ Hu2); [apply Hw1; lia|].
    intros (j & Hj & E). eapply Hsep; [| |exact E]; lia.
  - exists m2. split_and!; [done..|]. eapply unch_trans; [exact Hun1|].
    eapply unch_mono; [|exact Hun2]. intros p [Hp|Hp]; [left|by right].
    eapply in_range_mono; [|exact Hp]. lia.
Qed.

(** C29: [parse_args] on a command line of [n] spaces, a word [name] and, after one more
    space, the rest [args]: it answers 0, the file name is [name], the arguments are [args]
    without any of its spaces, and nothing but the two buffers is written.  The bounds are
    those the code needs: 32 characters for the name, 49 for the arguments (only 50 bytes
    are cleared), and at most one space to drop (for each further one a byte past the end
    of the line is read). *)
Theorem parse_args_splits m ui fname pargs n name args :
  let l := command_line n name args in
  cstring m ui l → 0 < ui → Z.of_nat (length l) < 2147483648 →
  (32 ∉ name) → (name = [] → args = None) → (length name ≤ 32)%nat →
  (length (default [] args) ≤ 49)%nat →
  (length (default [] args) ≤ length (parsed_args_of args) + 1)%nat →
  uniq_range fname 50 → uniq_range pargs 50 → sep_range fname 33 pargs 50 →
  sep_range fname 50 ui (Z.of_nat (length l) + 1) →
  sep_range pargs 50 ui (Z.of_nat (length l) + 1) →
  ∃ m', parse_args m ui fname pargs = Some (0, m') ∧
    cstring m' fname name ∧ cstring m' pargs (parsed_args_of args) ∧
    unch (λ p, in_range fname 50 p ∨ in_range pargs 50 p) m m'.
Proof. apply parse_args_ok. Qed.
End parse.
