(* ===== verification/Sched.v ===== *)
(** * The scheduler keeps contexts

    What a timer tick means, stated on the three terminals instead of on the places
    where the code keeps things: each terminal has a process and a context (stack
    pointers and the stack for the next trap); the context of the running terminal is in
    the processor and the TSS, those of the others in their PCBs.  A tick moves on to the
    next terminal and changes no process and no context. *)

From S2P Require Import Prelude Mem Lib Fs Paging Kstate Pc Screen Terminal Pic Rtc Keyboard.
From S2P Require Import Files Process.

Section sched.
Context {PT : Ports} {PL : PgLayout} {FL : FsLayout} {FR : Frames}.
Implicit Types (k : kernel).

(** ** The abstract view *)

Record context := Context { x_esp : Z; x_ebp : Z; x_esp0 : Z }.

Definition pid_of k (t : Z) : Z :=
  if t =? running_term_ptr (con k) then cur_pid (prc k) else t_pid (term k t).

Definition saved_context k (pid : Z) : context :=
  let p := get_pcb (prc k) (get_pcb_ptr pid) in Context (p_esp p) (p_ebp p) (tss_esp0 p).

Definition context_of k (t : Z) : context :=
  if t =? running_term_ptr (con k)
  then Context (esp (kcpu k)) (ebp (kcpu k)) (tss_esp0_reg (prc k))
  else saved_context k (pid_of k t).

(** The part of a PCB the scheduler has no business with. *)
Definition pcb_rest (p : PCB_t) : PCB_t := set_p_regs 0 0 (set_p_esp0 0 p).

(** Terminals run different processes, and the current PCB is that of the current
    process. *)
Record pids_ok k : Prop := {
  po_range : ∀ t, 0 ≤ t < 3 → pid_of k t = -1 ∨ 0 ≤ pid_of k t < 6;
  po_diff : ∀ s t, 0 ≤ s < 3 → 0 ≤ t < 3 → s ≠ t → pid_of k s ≠ -1 → pid_of k s ≠ pid_of k t;
  po_cur : cur_pid (prc k) ≠ -1 → cur_pcb_ptr (prc k) = get_pcb_ptr (cur_pid (prc k));
}.

Definition next_term k : Z := (running_term_ptr (con k) + 1) mod 3.

(** ** One call of schedule *)

Lemma con_ok_set_pid c i v : con_ok c → 0 ≤ i < 3 → con_ok (con_upd_term i (set_t_pid v) c).
Proof. intros Hc Hi. by apply con_ok_upd; try apply Hc. Qed.

Lemma con_ok_set_running c i : con_ok c → 0 ≤ i < 3 → con_ok (set_running i c).
Proof. intros [] Hi. by constructor. Qed.

Lemma sched_save_con k :
  con (sched_save k) =
  con_upd_term (running_term_ptr (con k)) (set_t_pid (cur_pid (prc k))) (con k).
Proof. unfold sched_save. by destruct (negb _). Qed.

(** Every PCB after the save, as a function of what it was. *)
Lemma sched_save_pcb k q :
  get_pcb (prc (sched_save k)) q =
  if negb (cur_pid (prc k) =? -1) && bool_decide (q = cur_pcb_ptr (prc k))
  then set_p_regs (esp (kcpu k)) (ebp (kcpu k))
         (set_p_esp0 (tss_esp0_reg (prc k)) (get_pcb (prc k) q))
  else get_pcb (prc k) q.
Proof.
  unfold sched_save. simpl. destruct (negb _); [|done]. unfold upd_cur. simpl.
  rewrite get_upd_pcb. simpl. case_bool_decide as E.
  - subst. by rewrite decide_True, get_upd_pcb, decide_True.
  - by rewrite decide_False, get_upd_pcb, decide_False.
Qed.

Lemma sched_save_rest k :
  kcpu (sched_save k) = kcpu k ∧ kmmu (sched_save k) = kmmu k ∧ pmem (sched_save k) = pmem k ∧
  pcb_bitmap (prc (sched_save k)) = pcb_bitmap (prc k).
Proof. unfold sched_save. by destruct (negb _). Qed.

Lemma schedule_eq k :
  con_ok (con k) → t_pid (term k (next_term k)) ≠ -1 →
  schedule k = Some (Ret 0 (sched_load (t_pid (term k (next_term k)))
    (upd_prc (set_cur (t_pid (term k (next_term k))) (get_pcb_ptr (t_pid (term k (next_term k)))))
      (upd_con (set_running (next_term k)) (sched_save k))))).
Proof.
  intros Hc Hn. pose proof (co_run _ Hc) as Hr.
  pose proof (co_len _ Hc) as Hlen.
  assert (t_next_term_to_run (running (sched_save k)) = next_term k) as E1.
  { unfold running, term. rewrite sched_save_con. simpl.
    rewrite con_term_upd, decide_True by (done || lia). apply (co_next _ Hc). done. }
  assert (0 ≤ next_term k < 3 ∧ next_term k ≠ running_term_ptr (con k)) as [Hnr Hne]
    by (unfold next_term; Z.div_mod_to_equations; lia).
  assert (t_pid (term (sched_save k) (next_term k)) = t_pid (term k (next_term k))) as E2.
  { unfold term. rewrite sched_save_con, con_term_upd, decide_False by (done || lia). done. }
  unfold schedule. rewrite E1, E2. apply Z.eqb_neq in Hn. by rewrite Hn.
Qed.

(** The state after the switch. *)
Definition switched k : kernel :=
  let pid := t_pid (term k (next_term k)) in
  sched_load pid (upd_prc (set_cur pid (get_pcb_ptr pid))
    (upd_con (set_running (next_term k)) (sched_save k))).

Lemma switched_con k :
  con (switched k) = set_running (next_term k)
    (con_upd_term (running_term_ptr (con k)) (set_t_pid (cur_pid (prc k))) (con k)).
Proof. unfold switched, sched_load. simpl. by rewrite sched_save_con. Qed.

Lemma switched_pcb k q : get_pcb (prc (switched k)) q = get_pcb (prc (sched_save k)) q.
Proof. done. Qed.

Lemma next_range k : 0 ≤ next_term k < 3.
Proof. apply Z.mod_pos_bound. lia. Qed.

Lemma next_other k : 0 ≤ running_term_ptr (con k) < 3 → next_term k ≠ running_term_ptr (con k).
Proof. intros H. unfold next_term. Z.div_mod_to_equations. lia. Qed.

(** Which process each terminal has does not change. *)
Lemma switched_pid k t :
  con_ok (con k) → 0 ≤ t < 3 → pid_of (switched k) t = pid_of k t.
Proof.
  intros Hc Ht. pose proof (next_range k). pose proof (co_run _ Hc) as Hr.
  pose proof (next_other k Hr).
  unfold pid_of, term. rewrite switched_con. simpl. change (con_term (set_running ?a ?c) t)
    with (con_term c t). rewrite con_term_upd by (apply Hc || lia).
  destruct (Z.eqb_spec t (next_term k)) as [->|].
  - destruct (Z.eqb_spec (next_term k) (running_term_ptr (con k))); [lia|]. done.
  - destruct (Z.eqb_spec t (running_term_ptr (con k))) as [->|].
    + by rewrite decide_True.
    + by rewrite decide_False by lia.
Qed.

Lemma pid_of_running k : pid_of k (running_term_ptr (con k)) = cur_pid (prc k).
Proof. unfold pid_of. by rewrite Z.eqb_refl. Qed.

Lemma cur_pid_range k :
  con_ok (con k) → pids_ok k → cur_pid (prc k) = -1 ∨ 0 ≤ cur_pid (prc k) < 6.
Proof. intros Hc Hp. rewrite <- pid_of_running. apply Hp, Hc. Qed.

Lemma saved_context_save k pid :
  con_ok (con k) → pids_ok k → 0 ≤ pid < 6 →
  saved_context (sched_save k) pid =
  if pid =? cur_pid (prc k)
  then Context (esp (kcpu k)) (ebp (kcpu k)) (tss_esp0_reg (prc k)) else saved_context k pid.
Proof.
  intros Hc Hok Hp. pose proof (cur_pid_range k Hc Hok) as Hcr.
  unfold saved_context. rewrite sched_save_pcb.
  destruct (Z.eqb_spec pid (cur_pid (prc k))) as [E|E].
  - subst pid. destruct (Z.eqb_spec (cur_pid (prc k)) (-1)); [lia|].
    rewrite bool_decide_eq_true_2; [done|]. symmetry. by apply Hok.
  - destruct (Z.eqb_spec (cur_pid (prc k)) (-1)) as [|Hn]; [done|].
    rewrite bool_decide_eq_false_2; [done|]. rewrite (po_cur _ Hok Hn). intros Ep.
    by apply get_pcb_ptr_inj in Ep; [|lia..].
Qed.

(** No context is lost. *)
Lemma switched_context k t :
  con_ok (con k) → pids_ok k → 0 ≤ t < 3 →
  pid_of k t ≠ -1 → context_of (switched k) t = context_of k t.
Proof.
  intros Hc Hok Ht Hpid. pose proof (next_other k (co_run _ Hc)) as Hne.
  pose proof (po_range _ Hok t Ht) as Hr. unfold context_of at 1.
  rewrite (switched_pid k t Hc Ht). rewrite switched_con. simpl.
  change (saved_context (switched k) (pid_of k t)) with (saved_context (sched_save k) (pid_of k t)).
  destruct (Z.eqb_spec t (next_term k)) as [->|Hn].
  - unfold context_of. destruct (Z.eqb_spec (next_term k) (running_term_ptr (con k))); [done|].
    assert (pid_of k (next_term k) = t_pid (term k (next_term k))) as Ep.
    { unfold pid_of. by rewrite (proj2 (Z.eqb_neq _ _) Hne). }
    change (saved_context (sched_save k) (t_pid (term k (next_term k))) =
            saved_context k (pid_of k (next_term k))).
    rewrite Ep in *. rewrite saved_context_save by (done || lia).
    destruct (Z.eqb_spec (t_pid (term k (next_term k))) (cur_pid (prc k))) as [E|]; [|done].
    exfalso. apply (po_diff _ Hok (next_term k) (running_term_ptr (con k)));
      [done|apply Hc|done|by rewrite Ep|]. by rewrite Ep, pid_of_running.
  - rewrite saved_context_save by (done || lia). unfold context_of.
    destruct (Z.eqb_spec t (running_term_ptr (con k))) as [->|Hn'].
    + by rewrite pid_of_running, Z.eqb_refl.
    + destruct (Z.eqb_spec (pid_of k t) (cur_pid (prc k))) as [E|]; [|done].
      exfalso. apply (po_diff _ Hok t (running_term_ptr (con k))); [done|apply Hc|done|done|].
      by rewrite pid_of_running.
Qed.

Lemma switched_pids_ok k : con_ok (con k) → pids_ok k → pids_ok (switched k).
Proof.
  intros Hc Hok. constructor.
  - intros t Ht. rewrite switched_pid by done. by apply Hok.
  - intros s t Hs Ht. rewrite !switched_pid by done. by apply Hok.
  - done.
Qed.

(** The rest of every PCB is untouched. *)
Lemma switched_pcb_rest k q :
  pcb_rest (get_pcb (prc (switched k)) q) = pcb_rest (get_pcb (prc k) q).
Proof. rewrite switched_pcb, sched_save_pcb. by destruct (_ && _). Qed.

Lemma switched_con_ok k : con_ok (con k) → con_ok (con (switched k)).
Proof.
  intros Hc. rewrite switched_con. apply con_ok_set_running; [|apply next_range].
  apply con_ok_set_pid; [done|apply Hc].
Qed.

(** ** The timer interrupt *)

(** The state in which [pit_int_handler] calls [schedule]. *)
Definition pit_mapped k : kernel :=
  change_vidmem_mapping (t_tid (term k (t_next_term_to_run (running k))))
    (send_eoi PIT_IRQ (cli k)).

Lemma pit_int_handler_eq k :
  pit_int_handler k =
  match schedule (pit_mapped k) with
  | Some (Ret v k) => Some (Ret v (sti k))
  | r => r
  end.
Proof. done. Qed.

Lemma pit_mapped_eq k prog :
  kbase k prog →
  ∃ u' d', pit_mapped k = set_mmu u' (set_con
     (set_screen_ptrs (cursor_of (next_term k)) (cursor_of (next_term k)) (con k))
     (set_io d' (cli k))) ∧
   mapped (pit_mapped k) (next_term k) prog.
Proof.
  intros Hk. pose proof (kb_con _ _ Hk) as Hc. unfold pit_mapped.
  assert (t_tid (term k (t_next_term_to_run (running k))) = next_term k) as ->.
  { unfold running, term. rewrite (co_next _ Hc) by apply Hc.
    apply (co_tid _ Hc), next_range. }
  assert (kbase (send_eoi PIT_IRQ (cli k)) prog) as Hk1 by (by destruct Hk; constructor).
  destruct (change_vidmem_mapping_ok _ _ _ Hk1 (next_range k)) as (u' & E & _).
  pose proof (change_vidmem_mapped _ _ _ Hk1 (next_range k)) as Hm.
  rewrite E in *. by exists u', (outb (u8 (Z.lor PIT_IRQ EOI)) MASTER_8259_PORT (io k)).
Qed.

Lemma frame_of_running c t f i :
  frame_of (set_running i (con_upd_term t f c)) = frame_of c.
Proof. done. Qed.

Lemma switched_mapped k prog :
  mapped k (next_term k) prog → 0 ≤ t_pid (term k (next_term k)) < 6 →
  mapped (switched k) (next_term k) (Some (t_pid (term k (next_term k)) + 2)).
Proof.
  intros [Hl Hc Ht Hx Hy (f & fl & Hm)] Hp.
  destruct (sched_save_rest k) as (_ & Em & _ & _).
  constructor; [done|by apply switched_con_ok|done|by rewrite switched_con..|].
  rewrite switched_con, frame_of_running. exists fl, fl.
  unfold switched, sched_load. simpl. rewrite Em.
  eapply (setup_paging_ok _ _ _ (t_pid (term k (next_term k)))) in Hm; [done|lia|lia].
Qed.

(** The abstract state: which terminal runs, and the process and context of each. *)
Record same_tasks k k' : Prop := {
  st_pid : ∀ t, 0 ≤ t < 3 → pid_of k' t = pid_of k t;
  st_ctx : ∀ t, 0 ≤ t < 3 → pid_of k t ≠ -1 → context_of k' t = context_of k t;
  st_rest : ∀ q, pcb_rest (get_pcb (prc k') q) = pcb_rest (get_pcb (prc k) q);
  st_map : pcb_bitmap (prc k') = pcb_bitmap (prc k);
  st_mem : pmem k' = pmem k;
}.

#[local] Instance same_tasks_trans : Transitive same_tasks.
Proof.
  intros k1 k2 k3 [] []. constructor; try congruence; intros t Ht.
  - by rewrite st_pid1, st_pid0.
  - intros Hp. rewrite st_ctx1, st_ctx0; [done..|]. by rewrite st_pid0.
Qed.

(** What holds between two ticks. *)
Record tick_inv k : Prop := {
  ti_base : ∃ prog, kbase k prog;
  ti_pids : pids_ok k;
}.

Lemma switched_ok k :
  con_ok (con k) → pids_ok k →
  running_term_ptr (con (switched k)) = next_term k ∧ same_tasks k (switched k) ∧
  pids_ok (switched k).
Proof.
  intros Hc Hp. split_and!; [by rewrite switched_con| |by apply switched_pids_ok].
  destruct (sched_save_rest k) as (_ & _ & Em & Eb). constructor.
  - intros t Ht. by apply switched_pid.
  - intros t Ht Hn. by apply switched_context.
  - intros q. apply switched_pcb_rest.
  - exact Eb.
  - exact Em.
Qed.

Lemma tick_ok k :
  tick_inv k → pid_of k (next_term k) ≠ -1 →
  ∃ k', pit_int_handler k = Some (Ret 0 k') ∧
    running_term_ptr (con k') = next_term k ∧ same_tasks k k' ∧ tick_inv k' ∧
    mapped k' (next_term k) (Some (pid_of k (next_term k) + 2)).
Proof.
  intros [[prog Hk] Hp] Hn. pose proof (kb_con _ _ Hk) as Hc.
  pose proof (next_other k (co_run _ Hc)) as Hne. pose proof (next_range k) as Hnr.
  destruct (pit_mapped_eq k prog Hk) as (u' & d' & E & Hm).
  rewrite pit_int_handler_eq. revert E Hm. generalize (pit_mapped k) as k1. intros k1 E Hm.
  assert (next_term k1 = next_term k) as En by (by rewrite E).
  assert (∀ t, pid_of k1 t = pid_of k t) as Epid by (by rewrite E).
  assert (pid_of k (next_term k) = t_pid (term k1 (next_term k1))) as Et.
  { rewrite En, E. unfold pid_of. by rewrite (proj2 (Z.eqb_neq _ _) Hne). }
  assert (pids_ok k1) as Hp1.
  { constructor; [intros t Ht|intros s t Hs Ht|]; rewrite ?Epid; [by apply Hp..|].
    rewrite E. apply Hp. }
  pose proof (mp_con _ _ _ Hm) as Hc1.
  exists (sti (switched k1)).
  rewrite (schedule_eq k1 Hc1) by (by rewrite <- Et). fold (switched k1).
  rewrite <- En in Hm, Hnr, Et |- *. rewrite Et.
  assert (0 ≤ t_pid (term k1 (next_term k1)) < 6) as Hr.
  { rewrite <- Et. destruct (po_range _ Hp (next_term k1) Hnr) as [H|H]; [|done].
    by rewrite En in H. }
  pose proof (switched_mapped k1 prog Hm Hr) as Hm2.
  destruct (switched_ok k1 Hc1 Hp1) as (Er & Hs & Hp2).
  pose proof (mapped_base _ _ _ Hm2) as Hk2.
  revert Er Hs Hm2 Hp2 Hk2. generalize (switched k1) as k2. intros k2 Er Hs Hm2 Hp2 Hk2.
  split_and!; [done|done| | |by destruct Hm2; constructor].
  - constructor; rewrite ?E in Hs; destruct Hs; done.
  - split; [by eexists; destruct Hk2; constructor|by destruct Hp2; constructor].
Qed.

(** ** Properties *)

(** C6: a timer tick passes the processor to the next terminal in the ring without losing
    anything: every terminal keeps its process, every process its context (the one that
    ran is saved, the next one is loaded) and the rest of its PCB; the video memory and
    the program page the kernel sees afterwards are those of the new terminal. *)
Theorem tick_keeps_contexts k :
  tick_inv k → pid_of k (next_term k) ≠ -1 →
  ∃ k', pit_int_handler k = Some (Ret 0 k') ∧
    running_term_ptr (con k') = next_term k ∧ same_tasks k k' ∧ tick_inv k' ∧
    mapped k' (next_term k) (Some (pid_of k (next_term k) + 2)).
Proof. apply tick_ok. Qed.

(** C5: with a process on each terminal the scheduler is a fair round robin: three ticks
    give the processor to each terminal once and come back to the same terminal, process
    and context. *)
Theorem three_ticks_return k :
  tick_inv k → (∀ t, 0 ≤ t < 3 → pid_of k t ≠ -1) →
  ∃ k1 k2 k3, pit_int_handler k = Some (Ret 0 k1) ∧ pit_int_handler k1 = Some (Ret 0 k2) ∧
    pit_int_handler k2 = Some (Ret 0 k3) ∧
    (∀ t, 0 ≤ t < 3 → running_term_ptr (con k1) = t ∨ running_term_ptr (con k2) = t ∨
                      running_term_ptr (con k3) = t) ∧
    running_term_ptr (con k3) = running_term_ptr (con k) ∧
    cur_pid (prc k3) = cur_pid (prc k) ∧
    esp (kcpu k3) = esp (kcpu k) ∧ ebp (kcpu k3) = ebp (kcpu k) ∧
    tss_esp0_reg (prc k3) = tss_esp0_reg (prc k) ∧ same_tasks k k3.
Proof.
  intros Hi Hall.
  assert (0 ≤ running_term_ptr (con k) < 3) as Hr 
    by (destruct Hi as [[? Hk] _]; apply (co_run _ (kb_con _ _ Hk))).
  destruct (tick_ok k Hi) as (k1 & E1 & R1 & S1 & I1 & _); [apply Hall, next_range|].
  destruct (tick_ok k1 I1) as (k2 & E2 & R2 & S2 & I2 & _).
  { rewrite (st_pid _ _ S1) by apply next_range. apply Hall, next_range. }
  pose proof (transitivity S1 S2) as S12.
  destruct (tick_ok k2 I2) as (k3 & E3 & R3 & S3 & I3 & _).
  { rewrite (st_pid _ _ S12) by apply next_range. apply Hall, next_range. }
  pose proof (transitivity S12 S3) as S123.
  assert (running_term_ptr (con k3) = running_term_ptr (con k)) as ER.
  { rewrite R3. unfold next_term. rewrite R2. unfold next_term. rewrite R1. unfold next_term.
    Z.div_mod_to_equations. lia. }
  pose proof (st_ctx _ _ S123 (running_term_ptr (con k)) Hr (Hall _ Hr)) as Ec.
  unfold context_of in Ec. rewrite <- ER in Ec at 1. rewrite !Z.eqb_refl in Ec.
  injection Ec as Ee Eb E0.
  exists k1, k2, k3. split_and!; try done.
  - intros t Ht. rewrite R3, R2, R1. unfold next_term. rewrite R2. unfold next_term.
    rewrite R1. unfold next_term. Z.div_mod_to_equations. lia.
  - pose proof (st_pid _ _ S123 _ Hr) as Ep. rewrite <- ER in Ep at 1.
    by rewrite !pid_of_running in Ep.
Qed.
End sched.
