(* ===== verification/Exec.v ===== *)
(** * execute, halt and vidmap

    What [execute] does to the process table and to memory, [halt] as its inverse, the
    command-line parser, and the video page of a program. *)

From S2P Require Import Prelude Mem Lib Fs Paging Kstate Pc Screen Terminal Pic Rtc Keyboard.
From S2P Require Import Files Process.

Section exec.
Context {PT : Ports} {PL : PgLayout} {FL : FsLayout} {FR : Frames}.
Implicit Types (k : kernel).

(** ** The new process *)

(** The PCB [execute] builds at [get_pcb_ptr pid] from what was there before. *)
Definition new_pcb (parent pid : Z) (args : list Z) (p : PCB_t) : PCB_t :=
  set_p_args args
    (for_up (λ i p, put_fd i (set_flags FREE (fd_of p i)) p) 2 8
      (set_p_esp0 (u32 (get_pcb_ptr pid + _8K - 4))
        (init_file_table (set_p_vidmap 0 (set_p_ids (u32 parent) (u32 pid) p))))).

(** The process table after [execute] by the process [cur_pid]. *)
Definition spawned (pid : Z) (args : list Z) (e b : Z) (p : procs) : procs :=
  let ptr := get_pcb_ptr pid in
  let p1 := upd_pcb ptr (new_pcb (cur_pid p) pid args)
              (set_bitmap (<[Z.to_nat pid := 1]> (pcb_bitmap p)) p) in
  let p2 := if cur_pid p =? -1 then p1 else upd_pcb (cur_pcb_ptr p1) (set_p_regs e b) p1 in
  set_tss KERNEL_DS (tss_esp0 (get_pcb p2 ptr)) (set_cur pid ptr p2).

Lemma exec_image_eq pid nr_inode k :
  let u := setup_paging_and_flush_tlb pid (kmmu k) in
  exec_image pid nr_inode k = set_mem
    (snd (read_data (X := mmu_xlat u) (pmem k) (fsv k) nr_inode 0 PROGRAM_VIR_ADDR
       (inode_length (X := mmu_xlat u) (pmem k) (inode_addr (fsv k) nr_inode)))) (set_mmu u k).
Proof. simpl. unfold exec_image, kx. simpl. by destruct (read_data _ _ _ _ _ _). Qed.

Lemma upd_prc_pcb_compose ptr f g k :
  upd_prc (upd_pcb ptr f) (upd_prc (upd_pcb ptr g) k) = upd_prc (upd_pcb ptr (λ x, f (g x))) k.
Proof. unfold upd_prc, set_prc. simpl. by rewrite upd_pcb_compose. Qed.

Lemma exec_pcb_eq pid args k :
  exec_pcb pid args k = upd_prc (upd_pcb (get_pcb_ptr pid)
    (new_pcb (cur_pid (prc k)) pid (strncpy_bytes (X := kx k) (pmem k) args ARG_LEN))) k.
Proof.
  unfold exec_pcb, new_pcb. cbv zeta. rewrite !upd_prc_pcb_compose. done.
Qed.

Lemma exec_switch_eq pid args k pr :
  prc k = upd_pcb (get_pcb_ptr pid) (new_pcb (cur_pid pr) pid args)
            (set_bitmap (<[Z.to_nat pid := 1]> (pcb_bitmap pr)) pr) →
  exec_switch pid k = Iret (ld32 (X := kx k) (pmem k) (PROGRAM_VIR_ADDR + 24)) (_128M + _4M - 4)
    (sti (set_prc (spawned pid args (esp (kcpu k)) (ebp (kcpu k)) pr) k)).
Proof.
  intros E. unfold exec_switch. rewrite E. change (cur_pid (upd_pcb _ _ _)) with (cur_pid pr).
  unfold spawned. destruct (cur_pid pr =? -1) eqn:Ec; simpl.
  - unfold upd_prc. by rewrite !E.
  - unfold upd_prc, upd_cur. simpl. by rewrite !E.
Qed.

Lemma exec_load_cases nr_inode args k :
  (all_used_below k 6 ∧ exec_load nr_inode args k = Ret 0 (kprint msg_max_programs k)) ∨
  ∃ pid, 0 ≤ pid < 6 ∧ ¬ pid_used k pid ∧ all_used_below k pid ∧
    let k1 := exec_image pid nr_inode k in
    let pr := spawned pid (strncpy_bytes (X := kx k1) (pmem k1) args ARG_LEN)
                (esp (kcpu k)) (ebp (kcpu k)) (prc k) in
    exec_load nr_inode args k =
      Iret (ld32 (X := kx k1) (pmem k1) (PROGRAM_VIR_ADDR + 24)) (_128M + _4M - 4)
           (sti (set_prc pr k1)).
Proof.
  unfold exec_load. destruct (record_process_cases k) as [[-> H]|(pid & -> & Hp & Hf & Hb)];
    [by left|]. right. destruct (Z.eqb_spec pid (-1)); [lia|].
  exists pid. split_and!; [lia|lia|done|done|].
  rewrite (exec_image_eq pid nr_inode (use_pid pid 1 k)), (exec_image_eq pid nr_inode k).
  change (kmmu (use_pid pid 1 k)) with (kmmu k). change (pmem (use_pid pid 1 k)) with (pmem k).
  change (fsv (use_pid pid 1 k)) with (fsv k).
  generalize (setup_paging_and_flush_tlb pid (kmmu k)) as u. intros u.
  generalize (snd (read_data (X := mmu_xlat u) (pmem k) (fsv k) nr_inode 0 PROGRAM_VIR_ADDR
       (inode_length (X := mmu_xlat u) (pmem k) (inode_addr (fsv k) nr_inode)))) as m.
  intros m. rewrite exec_pcb_eq.
  by erewrite (exec_switch_eq pid _ _ (prc k)) by reflexivity.
Qed.

(** A loop that never touches the field [g]. *)
Lemma for_up_field {A B} (g : A → B) (body : Z → A → A) lo hi a :
  (∀ i x, g (body i x) = g x) → g (for_up body lo hi a) = g a.
Proof.
  intros H. destruct (decide (lo ≤ hi)); [|by rewrite for_up_nil by lia].
  apply (for_up_inv body (λ _ x, g x = g a)); [done|done|].
  intros i x _ E. by rewrite H.
Qed.

Lemma init_file_table_field {B} (g : PCB_t → B) p :
  (∀ l p, g (set_p_fds l p) = g p) → g (init_file_table p) = g p.
Proof.
  intros H. apply for_up_field. intros i x. unfold init_fd, put_fd.
  by destruct (i =? 0), (i =? 1).
Qed.

(** What [execute] writes into the new PCB. *)
Lemma new_pcb_field {B} (g : PCB_t → B) parent pid args p :
  (∀ l p, g (set_p_fds l p) = g p) →
  g (new_pcb parent pid args p) = g (set_p_args args (set_p_esp0 (u32 (get_pcb_ptr pid + _8K - 4))
    (set_p_vidmap 0 (set_p_ids (u32 parent) (u32 pid) p)))).
Proof.
  intros H. unfold new_pcb.
  rewrite (for_up_field (λ p, g (set_p_args args p))).
  2:{ intros i x. by rewrite <- (H (<[Z.to_nat i := set_flags FREE (fd_of x i)]> (pcb_fds x))
        (set_p_args args x)). }
  rewrite (init_file_table_field
    (λ p, g (set_p_args args (set_p_esp0 (u32 (get_pcb_ptr pid + _8K - 4)) p)))); [done|].
  intros l q. by rewrite <- (H l
    (set_p_args args (set_p_esp0 (u32 (get_pcb_ptr pid + _8K - 4)) q))).
Qed.

Lemma close_all_ok p :
  fds_ok p →
  let x := for_up (λ i p, put_fd i (set_flags FREE (fd_of p i)) p) 2 8 p in
  fds_ok x ∧ ∀ fd, 2 ≤ fd < 8 → flags (fd_of x fd) = FREE.
Proof.
  intros Hp x.
  cut ((λ n x, fds_ok x ∧ ∀ fd, 2 ≤ fd < n → flags (fd_of x fd) = FREE) 8 x); [done|].
  apply for_up_inv; [lia|split; [done|lia]|].
  intros i y Hi [Hy Hfy]. split; [apply fds_ok_put; [done|lia|by left]|].
  intros fd Hfd. rewrite fd_of_put by (apply Hy || lia). case_decide; [done|]. apply Hfy. lia.
Qed.

Lemma new_pcb_fds parent pid args p :
  length (pcb_fds p) = 8%nat →
  fds_ok (new_pcb parent pid args p) ∧
  ∀ fd, 2 ≤ fd < 8 → flags (fd_of (new_pcb parent pid args p) fd) = FREE.
Proof.
  intros Hl. unfold new_pcb.
  destruct (init_file_table_ok (set_p_vidmap 0 (set_p_ids (u32 parent) (u32 pid) p)) Hl) as [Ho Hf].
  generalize dependent (init_file_table (set_p_vidmap 0 (set_p_ids (u32 parent) (u32 pid) p))).
  intros q Ho Hf. destruct (close_all_ok (set_p_esp0 (u32 (get_pcb_ptr pid + _8K - 4)) q)) as [Hx Hfx];
    [by destruct Ho; constructor|].
  generalize dependent (for_up (λ i p, put_fd i (set_flags FREE (fd_of p i)) p) 2 8
         (set_p_esp0 (u32 (get_pcb_ptr pid + _8K - 4)) q)).
  intros x Hx Hfx. split; [by destruct Hx; constructor|exact Hfx].
Qed.

(** ** The process table after execute *)

Lemma spawned_pcb pid args e b p q :
  (cur_pid p ≠ -1 → cur_pcb_ptr p ≠ get_pcb_ptr pid) →
  get_pcb (spawned pid args e b p) q =
  if decide (q = get_pcb_ptr pid)
  then new_pcb (cur_pid p) pid args (get_pcb p (get_pcb_ptr pid))
  else if negb (cur_pid p =? -1) && bool_decide (q = cur_pcb_ptr p)
  then set_p_regs e b (get_pcb p q) else get_pcb p q.
Proof.
  intros Hne. unfold spawned. generalize (new_pcb (cur_pid p) pid args) as f. intros f.
  change (get_pcb (set_tss ?a ?b ?x) q) with (get_pcb x q).
  change (get_pcb (set_cur ?a ?b ?x) q) with (get_pcb x q).
  destruct (Z.eqb_spec (cur_pid p) (-1)) as [E|E]; simpl.
  - rewrite get_upd_pcb. done.
  - rewrite !get_upd_pcb. specialize (Hne E). simpl.
    case_bool_decide as E1; repeat case_decide; subst; done.
Qed.

Lemma spawned_tss pid args e b p :
  (cur_pid p ≠ -1 → cur_pcb_ptr p ≠ get_pcb_ptr pid) →
  tss_esp0_reg (spawned pid args e b p) = u32 (get_pcb_ptr pid + _8K - 4).
Proof.
  intros Hne. pose proof (spawned_pcb pid args e b p (get_pcb_ptr pid) Hne) as E.
  rewrite decide_True in E by done. apply (f_equal tss_esp0) in E.
  rewrite (new_pcb_field tss_esp0) in E by done. etransitivity; [|exact E].
  unfold spawned. generalize (new_pcb (cur_pid p) pid args) as f. done.
Qed.

Lemma spawned_misc pid args e b p :
  cur_pid (spawned pid args e b p) = pid ∧
  cur_pcb_ptr (spawned pid args e b p) = get_pcb_ptr pid ∧
  pcb_bitmap (spawned pid args e b p) = <[Z.to_nat pid := 1]> (pcb_bitmap p).
Proof. unfold spawned. by destruct (cur_pid p =? -1). Qed.

(** ** What halt restores *)

(** The loop that closes the descriptors. *)
Lemma close_loop k :
  length (pcb_fds (cur_pcb k)) = 8%nat →
  let k' := for_up (λ i k, snd (syscall_close i k)) 0 8 k in
  own_pcb_only k k' ∧ pmem k' = pmem k ∧ kmmu k' = kmmu k ∧ con k' = con k ∧
  ∀ fd, 2 ≤ fd < 8 → flags (cur_fd k' fd) = FREE.
Proof.
  intros Hl k'.
  cut ((λ n k', own_pcb_only k k' ∧ pmem k' = pmem k ∧ kmmu k' = kmmu k ∧ con k' = con k ∧
    length (pcb_fds (cur_pcb k')) = 8%nat ∧ ∀ fd, 2 ≤ fd < n → flags (cur_fd k' fd) = FREE) 8 k').
  { intros (? & ? & ? & ? & _ & ?). by split_and!. }
  apply for_up_inv; [lia|split_and!; try done; lia|].
  intros i k1 Hi (Ho & Em & Eu & Ec & Hl1 & Hf). unfold syscall_close.
  destruct (Z.ltb_spec i 2); [simpl; split_and!; try done; intros; lia|].
  destruct (Z.ltb_spec 7 i); [lia|]. simpl.
  destruct (Z.eqb_spec (flags (cur_fd k1 i)) FREE) as [E|E]; simpl.
  - split_and!; try done. intros fd Hfd. destruct (decide (fd = i)) as [->|]; [done|]. apply Hf. lia.
  - split_and!; try done.
    + etransitivity; [exact Ho|by apply own_pcb_upd].
    + unfold set_cur_fd. rewrite cur_pcb_upd, put_fd_len. done.
    + intros fd Hfd. rewrite cur_fd_set by (done || lia). case_decide; [done|]. apply Hf. lia.
Qed.

Lemma shiftr_buffer k t :
  con_ok (con k) → 0 ≤ t < 3 → Z.shiftr (t_vid_mem_buffer (term k t)) 12 = VPAGE + 1 + t.
Proof.
  intros Hc Ht. unfold term. rewrite (co_vbuf _ Hc) by done. rewrite Z.shiftr_div_pow2 by lia.
  change (2 ^ 12) with _4K. unfold VPAGE, VIDEO_START, _4K in *.
  change (753664 ≫ 12) with 184. Z.div_mod_to_equations. lia.
Qed.

(** The address space [halt] leaves: the parent's program page; the video page of the
    program is gone from the tables but, without a flush, still in force. *)
Lemma halt_restore_mmu k a al :
  con_ok (con k) → mmu_ok (kmmu k) a al → length (pcb_fds (cur_pcb k)) = 8%nat →
  let parent := s32 (Kstate.parent_pid (cur_pcb k)) in
  0 ≤ parent < 6 →
  let a' := set_prog (Some (parent + 2)) al in
  pmem (halt_restore k) = pmem k ∧
  mmu_ok (kmmu (halt_restore k)) a'
    (if nz (p_vidmap_flag (cur_pcb k)) then set_fish None a' else a').
Proof.
  intros Hc Hu Hl parent Hp a'. unfold halt_restore. fold parent.
  set (k1 := set_mmu _ _).
  assert (mmu_ok (kmmu k1) a' a') as Hu1 by (eapply setup_paging_ok; [exact Hu|lia|lia]).
  assert (cur_pcb k1 = cur_pcb k ∧ con k1 = con k ∧ pmem k1 = pmem k) as (E1 & E2 & E3) by done.
  clearbody k1. rewrite <- E1 in Hl. rewrite <- E2 in Hc. rewrite <- E3.
  destruct (close_loop k1 Hl) as (Hown & Em & Emu & Ec & _).
  assert (p_vidmap_flag (cur_pcb (for_up (λ i k, snd (syscall_close i k)) 0 8 k1)) =
          p_vidmap_flag (cur_pcb k)) as Ev.
  { rewrite <- E1. apply (for_up_field (λ k, p_vidmap_flag (cur_pcb k))). intros i x.
    unfold syscall_close. destruct (_ || _); [done|]. case_test; [done|].
    unfold set_cur_fd. simpl. by rewrite cur_pcb_upd. }
  generalize dependent (for_up (λ i k, snd (syscall_close i k)) 0 8 k1).
  intros k2 Hown Em Emu Ec Ev. rewrite <- Ec in Hc. rewrite <- Emu in Hu1.
  unfold halt_vidmap. rewrite Ev. destruct (nz (p_vidmap_flag (cur_pcb k))); [|done].
  set (k3 := upd_term _ _ _). assert (con_ok (con k3)) as Hc3.
  { pose proof (co_run _ Hc) as Hrun.
    apply con_ok_upd; [done|done|done|by apply (co_cursor _ Hc)|by apply (co_kbd _ Hc)|].
    by apply (co_pos _ Hc). }
  assert (kmmu k3 = kmmu k2) as E5 by done.
  assert (pmem k3 = pmem k2) as E4 by done. clearbody k3.
  destruct (_ =? _); simpl; (split; [congruence|]); rewrite E5.
  - apply switch_usrmap_ok; [done|by vm_compute].
  - unfold running. rewrite shiftr_buffer by (apply Hc3 || done).
    apply switch_usrmap_ok; [done|]. pose proof (co_run _ Hc3).
    change VPAGE with 184. lia.
Qed.

Lemma halt_vidmap_fds k :
  own_pcb_only k (halt_vidmap k) ∧ ∀ fd, cur_fd (halt_vidmap k) fd = cur_fd k fd.
Proof.
  unfold halt_vidmap. destruct (nz _); [|done].
  set (k1 := upd_term _ _ _).
  assert (own_pcb_only k k1 ∧ ∀ fd, cur_fd k1 fd = cur_fd k fd) as [Ho Hf].
  { split; [etransitivity; [by apply (own_pcb_upd (set_p_vidmap 0) k k)|by apply own_pcb_same]|].
    intros fd. unfold cur_fd.
    change (cur_pcb k1) with (cur_pcb (upd_cur (set_p_vidmap 0) k)). by rewrite cur_pcb_upd. }
  clearbody k1. destruct (_ =? _); (split; [etransitivity; [exact Ho|by apply own_pcb_same]|exact Hf]).
Qed.

Lemma halt_restore_fds k :
  length (pcb_fds (cur_pcb k)) = 8%nat →
  own_pcb_only k (halt_restore k) ∧ ∀ fd, 2 ≤ fd < 8 → flags (cur_fd (halt_restore k) fd) = FREE.
Proof.
  intros Hl. unfold halt_restore. set (k1 := set_mmu _ _).
  assert (own_pcb_only k k1 ∧ cur_pcb k1 = cur_pcb k) as [Ho1 E1] by (by split; [constructor|]).
  clearbody k1. rewrite <- E1 in Hl.
  destruct (close_loop k1 Hl) as (Ho2 & _ & _ & _ & Hf).
  generalize dependent (for_up (λ i k, snd (syscall_close i k)) 0 8 k1). intros k2 Ho2 Hf.
  destruct (halt_vidmap_fds k2) as [Ho3 Hf3]. split.
  - etransitivity; [exact Ho1|]. by etransitivity.
  - intros fd Hfd. rewrite Hf3. auto.
Qed.

(** ** vidmap *)

(** The two mappings of [syscall_vidmap] are one: the frame the running terminal's screen is
    in. *)
Lemma vidmap_frame k :
  con_ok (con k) →
  (if negb (t_tid (running k) =? t_tid (viewing k))
   then set_mmu (switch_usrmap (Z.shiftr (t_vid_mem_buffer (running k)) 12) 1 (kmmu k)) k
   else set_mmu (switch_usrmap (Z.shiftr VIDEO_START 12) 1 (kmmu k)) k) =
  set_mmu (switch_usrmap (frame_of (con k) (running_term_ptr (con k))) 1 (kmmu k)) k.
Proof.
  intros Hc. pose proof (co_run _ Hc) as Hr. pose proof (co_view _ Hc) as Hv.
  unfold running, viewing. rewrite shiftr_buffer by done. unfold term.
  rewrite !(co_tid _ Hc) by done. unfold frame_of. fold VPAGE.
  by destruct (running_term_ptr (con k) =? viewing_term_ptr (con k)).
Qed.

Lemma amap_fish a f i :
  fish a = Some f → 0 ≤ i < _4K → amap_page a (FISH_MAP + i) = Some (f * _4K + i).
Proof.
  intros Hf Hi. unfold amap_page, FISH_MAP. change VPAGE with 184. unfold _4M, _4K in *.
  assert ((139165696 + i) / 4096 = 33976 ∧ (139165696 + i) / 4194304 = 33 ∧
          (139165696 + i) mod 4096 = i) as (E1 & E2 & E3) by (Z.div_mod_to_equations; lia).
  change (4096 * 1024) with 4194304. rewrite E1, E2, E3, Hf. done.
Qed.

(** The words of the program page are words of memory. *)
Lemma user_word_uniq k a al p v :
  layout_ok → mmu_ok (kmmu k) a al → Paging.prog a = Some p → USER_START ≤ v ≤ USER_END - 4 →
  uniq_range (X := kx k) v 4.
Proof.
  intros Hl Hm Hp Hv i j Hi Hj.
  assert (∀ i, 0 ≤ i < 4 → cell (X := kx k) (v + i) = p * _4M + (v + i - 134217728)) as H.
  { intros x Hx. eapply mmu_xlat_ok; [done|done|].
    unfold USER_START, USER_END in Hv. rewrite u32_small by lia.
    rewrite (amap_prog a _ p); [|unfold _4M, _4K; Z.div_mod_to_equations; lia|done].
    f_equal. unfold _4M, _4K. Z.div_mod_to_equations. lia. }
  rewrite !H by done. lia.
Qed.

(** C35: [vidmap] gives a program its own terminal's screen: for a pointer inside the program
    page the call stores the fixed address there and maps that page to video memory when the
    terminal is in view and to its hidden buffer otherwise; for any other pointer it answers -1
    and changes neither processes nor mappings. *)
Theorem vidmap_own_screen k a al p ss :
  layout_ok → con_ok (con k) → mmu_ok (kmmu k) a al → Paging.prog al = Some p →
  -2147483648 ≤ ss < 2147483648 →
  let '(r, k') := syscall_vidmap ss k in
  if bool_decide (USER_START ≤ ss ≤ USER_END - 4) then
    r = 0 ∧ ld32 (X := kx k') (pmem k') ss = FISH_MAP ∧
    (∀ i, 0 ≤ i < _4K → translate (kmmu k') (FISH_MAP + i) =
       Some (frame_of (con k) (running_term_ptr (con k)) * _4K + i)) ∧
    p_vidmap_flag (cur_pcb k') = 1 ∧ t_vidmap_flag (running k') = 1 ∧
    frame_of (con k') (running_term_ptr (con k')) = frame_of (con k) (running_term_ptr (con k))
  else r = -1 ∧ prc k' = prc k ∧ kmmu k' = kmmu k.
Proof.
  intros Hl Hc Hm Hp Hs. unfold syscall_vidmap. rewrite s32_small by done.
  assert (Forall (λ c, c ≠ 37) msg_vidmap) as Hmsg by (by apply (bool_decide_unpack _)).
  case_bool_decide as Hr; unfold USER_START, USER_END in Hr |- *.
  2:{ destruct (Z.eqb_spec ss 0); [by split_and!|].
      replace (_ || _) with true by (symmetry; apply orb_true_iff; rewrite !Z.ltb_lt; lia).
      by destruct (same_env_kprint msg_vidmap k Hmsg). }
  destruct (Z.eqb_spec ss 0); [lia|].
  replace (_ || _) with false by (symmetry; apply orb_false_iff; rewrite !Z.ltb_ge; lia).
  rewrite (vidmap_frame k Hc). pose proof (co_run _ Hc) as Hrun.
  pose proof (frame_of_range (con k) _ Hrun) as Hfr.
  set (f := frame_of (con k) (running_term_ptr (con k))) in *.
  assert (mmu_ok (flush_tlb (switch_usrmap f 1 (kmmu k))) (set_fish (Some f) al) (set_fish (Some f) al)) as Hu.
  { eapply flush_tlb_ok. apply (switch_usrmap_ok _ a al f 1 Hm). change VPAGE with 184 in Hfr. lia. }
  set (k1 := set_mmu (flush_tlb (switch_usrmap f 1 (kmmu k))) k).
  assert (con k1 = con k ∧ mmu_ok (kmmu k1) (set_fish (Some f) al) (set_fish (Some f) al)) as [Ec Hu1] by done.
  change (set_mmu _ (set_mmu _ k)) with k1. clearbody k1. cbv zeta. split_and!.
  - done.
  - simpl. apply (ld32_st32_eq (X := kx k1)).
    eapply user_word_uniq; [done|exact Hu1|exact Hp|done].
  - intros i Hi. simpl. rewrite (translate_ok _ _ _ _ Hl Hu1) by (unfold FISH_MAP, _4K in *; lia).
    by apply amap_fish.
  - unfold upd_cur, cur_pcb. simpl. by rewrite get_upd_pcb, decide_True.
  - unfold running, term. simpl. rewrite con_term_upd, decide_True by
      (done || (rewrite Ec; apply Hc) || (rewrite Ec; lia) || lia). done.
  - unfold f, frame_of. simpl. by rewrite Ec.
Qed.
End exec.
