(* ===== verification/Load.v ===== *)
(** * execute loads a program (syscall_execute of syscall_handler.c)

    From the command line to the first instruction: [syscall_execute] finds the file the
    command names, checks that it is an ELF file, and puts its bytes at the program
    address of the new process, with the arguments in the new PCB.  The address space
    changes on the way; the kernel's 4 MB page is mapped to itself in all of them, and the
    program pages lie above it. *)

From S2P Require Import Prelude Mem Lib Fs Paging Kstate Pc Screen Terminal Files Process.
From S2P Require Import Parse Exec.

(** ** The kernel's page *)

Definition kpage (a n : Z) : Prop := 4194304 ≤ a ∧ a + n ≤ 8388608.
Definition apart (a n b l : Z) : Prop := a + n ≤ b ∨ b + l ≤ a.

Section kpage.
Context {PT : Ports} {PL : PgLayout} {FL : FsLayout}.
Implicit Types (k : kernel).

(** A kernel whose page tables are in order. *)
Definition paged k : Prop := layout_ok ∧ ∃ a al, mmu_ok (kmmu k) a al.

Lemma kpage_cell k a n i : paged k → kpage a n → 0 ≤ i < n → cell (X := kx k) (a + i) = a + i.
Proof. intros [Hl (? & ? & Hm)] [??] Hi. eapply kernel_page_cell; [done|done|lia]. Qed.

Lemma kpage_uniq k a n : paged k → kpage a n → uniq_range (X := kx k) a n.
Proof. intros Hp Ha i j Hi Hj. rewrite !(kpage_cell k a n) by done. lia. Qed.

Lemma kpage_sep k a n b l :
  paged k → kpage a n → kpage b l → apart a n b l → sep_range (X := kx k) a n b l.
Proof.
  intros Hp Ha Hb Hd i j Hi Hj. rewrite (kpage_cell k a n), (kpage_cell k b l) by done.
  unfold apart in Hd. lia.
Qed.

(** In another address space the page has the same bytes. *)
Lemma kpage_agrees k k' m a n :
  paged k → paged k' → kpage a n → agrees (X := kx k) (kx k') m m a n.
Proof.
  intros Hp Hp' Ha v Hv. unfold ld8. replace v with (a + (v - a)) by lia.
  by rewrite !(kpage_cell _ a n) by (done || lia).
Qed.

(** A local variable of the kernel: in its page and apart from the file system. *)
Record kernel_local (d n : Z) : Prop := {
  kl_page : kpage d n;
  kl_boot : apart d n boot_block BLOCK_SIZE;
  kl_image : apart d n fs_blocks IMAGE_SIZE;
}.

Record fs_kpage : Prop := {
  fk_boot : kpage boot_block BLOCK_SIZE;
  fk_image : kpage fs_blocks IMAGE_SIZE;
}.

Lemma kernel_local_seps k d n :
  paged k → fs_kpage → kernel_local d n →
  uniq_range (X := kx k) d n ∧ sep_range (X := kx k) d n boot_block BLOCK_SIZE ∧
  image_sep (X := kx k) d n.
Proof.
  intros Hp [Hb Hi] [H1 H2 H3].
  split_and!; [by apply kpage_uniq|by apply kpage_sep|by apply kpage_sep].
Qed.

(** ** The program page *)

Lemma program_cell k a al p i :
  layout_ok → mmu_ok (kmmu k) a al → Paging.prog a = Some p →
  0 ≤ i < _4M - 294912 → cell (X := kx k) (PROGRAM_VIR_ADDR + i) = p * _4M + 294912 + i.
Proof.
  intros Hl Hm Hp Hi. eapply mmu_xlat_ok; [done|done|].
  unfold PROGRAM_VIR_ADDR, _4M, _4K in *. rewrite u32_small by lia.
  rewrite (amap_prog a _ p); [|unfold _4M, _4K; Z.div_mod_to_equations; lia|done].
  f_equal. unfold _4M, _4K. Z.div_mod_to_equations. lia.
Qed.
End kpage.

Section execute.
Context {PT : Ports} {PL : PgLayout} {FL : FsLayout} {FR : Frames}.
Implicit Types (k : kernel).

Local Abbreviation fname_at k := (local_at fr_file_name k).
Local Abbreviation args_at k := (local_at fr_args k).
Local Abbreviation dentry_at k := (local_at fr_the_file_dentry k).
Local Abbreviation four_at k := (local_at fr_first_four_bytes k).

(** ** The frame of the call *)

(** The locals are where a compiler may put them.  [parse_args] clears 50 bytes of each of
    its two buffers, but the name needs only 33 of them. *)
Record exec_layout k : Prop := {
  el_paged : paged k;
  el_fs : fs_kpage;
  el_name : kernel_local (fname_at k) 50;
  el_args : kernel_local (args_at k) 50;
  el_dentry : kernel_local (dentry_at k) 64;
  el_four : kernel_local (four_at k) 4;
  el_name_args : apart (fname_at k) 33 (args_at k) 50;
  el_dentry_args : apart (dentry_at k) 64 (args_at k) 50;
  el_four_args : apart (four_at k) 4 (args_at k) 50;
}.

(** A command line within the bounds of [parse_args]. *)
Record command k (ui : Z) (n : nat) (name : list Z) (args : option (list Z)) : Prop := {
  cm_line : cstring (X := kx k) (pmem k) ui (command_line n name args);
  cm_null : 0 < ui;
  cm_len : Z.of_nat (length (command_line n name args)) < 2147483648;
  cm_word : 32 ∉ name;
  cm_empty : name = [] → args = None;
  cm_name : (length name ≤ 32)%nat;
  cm_args : (length (default [] args) ≤ 49)%nat;
  cm_one : (length (default [] args) ≤ length (parsed_args_of args) + 1)%nat;
  cm_sep_name : sep_range (X := kx k) (fname_at k) 50 ui
                  (Z.of_nat (length (command_line n name args)) + 1);
  cm_sep_args : sep_range (X := kx k) (args_at k) 50 ui
                  (Z.of_nat (length (command_line n name args)) + 1);
}.

(** What the call may write before the new address space is in force. *)
Definition exec_scratch k (p : Z) : Prop :=
  in_range (X := kx k) (fname_at k) 50 p ∨ in_range (X := kx k) (args_at k) 50 p ∨
  in_range (X := kx k) (dentry_at k) 64 p ∨ in_range (X := kx k) (four_at k) 4 p.

Lemma exec_scratch_spares k :
  exec_layout k → spares (X := kx k) (exec_scratch k) fs_blocks IMAGE_SIZE ∧
                  spares (X := kx k) (exec_scratch k) boot_block BLOCK_SIZE.
Proof.
  intros [Hp Hf H1 H2 H3 H4 _ _ _].
  apply (kernel_local_seps k _ _ Hp Hf) in H1 as (_ & B1 & I1), H2 as (_ & B2 & I2),
    H3 as (_ & B3 & I3), H4 as (_ & B4 & I4).
  split; intros j Hj [H|[H|[H|H]]]; revert H; eapply sep_range_not_in; eassumption.
Qed.

(** ** Up to the ELF check *)

(** Parsing. *)
Lemma exec_parse k ui n name args :
  exec_layout k → command k ui n name args →
  ∃ m, parse_args (X := kx k) (pmem k) ui (fname_at k) (args_at k) = Some (0, m) ∧
    cstring (X := kx k) m (fname_at k) name ∧
    cstring (X := kx k) m (args_at k) (parsed_args_of args) ∧
    unch (exec_scratch k) (pmem k) m.
Proof.
  intros [Hp Hf H1 H2 _ _ Hna _ _] [].
  destruct (kernel_local_seps k _ _ Hp Hf H1) as (U1 & _ & _).
  destruct (kernel_local_seps k _ _ Hp Hf H2) as (U2 & _ & _).
  edestruct (parse_args_ok (X := kx k) (pmem k) ui (fname_at k) (args_at k) n name args)
    as (m & E & Hn & Ha & U); try done.
  - apply kpage_sep; [done| |apply H2|done]. destruct H1 as [[] _ _]. split; lia.
  - exists m. split_and!; [done..|]. eapply unch_mono; [|exact U]. unfold exec_scratch. tauto.
Qed.

(** The call after the parser. *)
Definition exec_rest k : option outcome :=
  match read_dentry_by_name (X := kx k) (pmem k) (fname_at k) (dentry_at k) with
  | None => None
  | Some (r, m) =>
      let k := set_mem m k in
      if r =? -1 then Some (Ret (-1) (kprint msg_by_name k))
      else
        let nr_inode := ld32 (X := kx k) (pmem k) (dentry_at k + 36) in
        let '(read_result, m) := read_data (X := kx k) (pmem k) (fsv k) nr_inode 0 (four_at k) 4 in
        let k := set_mem m k in
        if (-1 =? read_result) || negb (elf_magic (X := kx k) (pmem k) (four_at k))
        then Some (Ret (-1) (kprint msg_elf k))
        else Some (exec_load nr_inode (args_at k) k)
  end.

Lemma execute_rest k ui m :
  ui ≠ 0 → parse_args (X := kx k) (pmem k) ui (fname_at k) (args_at k) = Some (0, m) →
  syscall_execute ui k = exec_rest (set_mem m (cli k)).
Proof.
  intros Hn E. unfold syscall_execute. cbv zeta. rewrite (proj2 (Z.eqb_neq _ _) Hn).
  change (parse_args (X := kx (cli k)) (pmem (cli k)) ui (fname_at (cli k)) (args_at (cli k)))
    with (parse_args (X := kx k) (pmem k) ui (fname_at k) (args_at k)).
  rewrite E. unfold exec_rest. change (0 =? -1) with false. cbv iota zeta. reflexivity.
Qed.

Definition elf_bytes : list Z := [127; 69; 76; 70].

Lemma elf_magic_load `{X : Xlat} m a l :
  load_bytes m a 4 = l → elf_magic m a = bool_decide (l = elf_bytes).
Proof.
  intros <-. change (load_bytes m a 4) with [ld8 m (a + 0); ld8 m (a + 1); ld8 m (a + 2); ld8 m (a + 3)].
  rewrite Z.add_0_r. unfold elf_magic, elf_bytes.
  assert (∀ x c, 0 ≤ c < 128 → (s8 (ld8 m x) =? c) = bool_decide (ld8 m x = c)) as H.
  { intros x c Hc. pose proof (ld8_bound m x). apply eq_bool_prop_intro.
    rewrite bool_decide_spec, Is_true_true, Z.eqb_eq. split; [|intros ->; unfold s8; Z.div_mod_to_equations; lia].
    intros E. apply s8_inj; [done|lia|]. rewrite E. unfold s8. Z.div_mod_to_equations. lia. }
  rewrite !H by lia. repeat case_bool_decide; simpl; congruence.
Qed.

(** Reading the first bytes of a file, wherever the buffer is. *)
Lemma read_head `{X : Xlat} m g ino buf n :
  fs_ok m g → readable m g ino → 0 < n ≤ file_length m g ino →
  uniq_range buf n → image_sep buf n →
  ∃ m', read_data m g ino 0 buf n = (n, m') ∧
    load_bytes m' buf n = file_slice m g ino 0 n ∧ unch (in_range buf n) m m'.
Proof.
  intros Hok [Hi1 Hi2 Hsm Hv] Hn Hu Hs.
  assert (read_count m g ino 0 n = n) as Ec by (unfold read_count; lia).
  assert (file_length m g ino < 63 * BLOCK_SIZE) as Hfl.
  { pose proof (Z.div_mod (file_length m g ino) BLOCK_SIZE ltac:(unfold BLOCK_SIZE; lia)).
    pose proof (Z.mod_pos_bound (file_length m g ino) BLOCK_SIZE ltac:(unfold BLOCK_SIZE; lia)).
    unfold BLOCK_SIZE in *. lia. }
  assert (n / BLOCK_SIZE ≤ file_length m g ino / BLOCK_SIZE) by
    (apply Z.div_le_mono; unfold BLOCK_SIZE; lia).
  destruct (read_data_ok m g ino 0 buf n) as (m' & E & Hw); rewrite ?Ec, ?Z.add_0_l; try done; try lia.
  - unfold BLOCK_SIZE in Hfl. lia.
  - intros j Hj. apply Hv. change (0 / BLOCK_SIZE) with 0 in Hj. rewrite ?Z.add_0_l in Hj. lia.
  - rewrite Ec in E, Hw. exists m'. split_and!; [done|by apply written_load_bytes in Hw|apply Hw].
Qed.

Lemma exec_rest_missing k name :
  exec_layout k → cstring (X := kx k) (pmem k) (fname_at k) name → (length name ≤ 32)%nat →
  num_dir_entries (X := kx k) (pmem k) ≤ 63 → find_entry (X := kx k) (pmem k) name = None →
  exec_rest k = Some (Ret (-1) (kprint msg_by_name k)).
Proof.
  intros [Hp Hf _ _ Hd _ _ _ _] Hs Hl Hn Hfe.
  destruct (kernel_local_seps k _ _ Hp Hf Hd) as (U & B & _).
  pose proof (lookup_dentry (X := kx k) (pmem k) (fname_at k) (dentry_at k) name Hs ltac:(lia) Hn U B) as H.
  rewrite Hfe in H. unfold exec_rest. rewrite H. by destruct k.
Qed.

Lemma exec_rest_found k name pa i :
  exec_layout k → cstring (X := kx k) (pmem k) (fname_at k) name → (length name ≤ 32)%nat →
  cstring (X := kx k) (pmem k) (args_at k) pa → (length pa ≤ 49)%nat →
  num_dir_entries (X := kx k) (pmem k) ≤ 63 → find_entry (X := kx k) (pmem k) name = Some i →
  let ino := ld32 (X := kx k) (pmem k) (files i + 36) in
  fs_ok (X := kx k) (pmem k) (fsv k) → readable (X := kx k) (pmem k) (fsv k) ino →
  4 ≤ file_length (X := kx k) (pmem k) (fsv k) ino →
  ∃ m, unch (exec_scratch k) (pmem k) m ∧ cstring (X := kx k) m (args_at k) pa ∧
    exec_rest k =
      if bool_decide (file_slice (X := kx k) (pmem k) (fsv k) ino 0 4 = elf_bytes)
      then Some (exec_load ino (args_at k) (set_mem m k))
      else Some (Ret (-1) (kprint msg_elf (set_mem m k))).
Proof.
  intros HL Hs Hl Ha Hla Hn Hfe ino Hok Hrd Hlen. pose proof HL as [Hp Hf _ Harg Hd H4 _ Hda H4a].
  destruct (exec_scratch_spares k HL) as [Si Sb].
  destruct (kernel_local_seps k _ _ Hp Hf Hd) as (U & B & _).
  destruct (kernel_local_seps k _ _ Hp Hf H4) as (U4 & B4 & I4).
  assert (sep_range (X := kx k) (dentry_at k) 64 (args_at k) 50) as Sda
    by (apply kpage_sep; [done|apply Hd|apply Harg|done]).
  assert (sep_range (X := kx k) (four_at k) 4 (args_at k) 50) as S4a
    by (apply kpage_sep; [done|apply H4|apply Harg|done]).
  pose proof (lookup_dentry (X := kx k) (pmem k) (fname_at k) (dentry_at k) name Hs ltac:(lia) Hn U B) as H.
  rewrite Hfe in H. destruct H as (m1 & E1 & _ & Ei & _ & U1).
  assert (unch (exec_scratch k) (pmem k) m1) as Us1.
  { eapply unch_mono; [|exact U1]. unfold exec_scratch. tauto. }
  destruct (readable_spared (X := kx k) _ _ _ (fsv k) ino Us1 Si Sb Hok Hrd) as (Hrd1 & El & Es).
  assert (fs_ok (X := kx k) m1 (fsv k)) as Hok1.
  { eapply (stable_ok (X := kx k)); [|done]. by eapply spares_agrees. }
  destruct (read_head (X := kx k) m1 (fsv k) ino (four_at k) 4 Hok1 Hrd1 ltac:(lia) U4 I4)
    as (m2 & E2 & Hb & U2).
  exists m2. split_and!.
  - eapply unch_trans; [exact Us1|]. eapply unch_mono; [|exact U2]. unfold exec_scratch. tauto.
  - eapply cstring_unch; [exact U2|intros; eapply sep_range_not_in; [exact S4a|lia]|].
    eapply cstring_unch; [exact U1|intros; eapply sep_range_not_in; [exact Sda|lia]|done].
  - unfold exec_rest. rewrite E1. change (0 =? -1) with false. cbv iota zeta.
    change (pmem (set_mem m1 k)) with m1. change (kx (set_mem m1 k)) with (kx k).
    change (fsv (set_mem m1 k)) with (fsv k).
    change (dentry_at (set_mem m1 k)) with (dentry_at k).
    change (four_at (set_mem m1 k)) with (four_at k). rewrite Ei. fold ino. rewrite E2.
    change (-1 =? 4) with false. rewrite orb_false_l.
    change (pmem (set_mem m2 (set_mem m1 k))) with m2.
    change (kx (set_mem m2 (set_mem m1 k))) with (kx k).
    change (four_at (set_mem m2 (set_mem m1 k))) with (four_at k).
    rewrite (elf_magic_load (X := kx k) m2 (four_at k) _ Hb), Es by lia.
    by case_bool_decide.
Qed.

(** ** The new process *)

(** The process that calls is one of those in use. *)
Definition cur_ok k : Prop :=
  cur_pid (prc k) ≠ -1 →
  0 ≤ cur_pid (prc k) < 6 ∧ pid_used k (cur_pid (prc k)) ∧
  cur_pcb_ptr (prc k) = get_pcb_ptr (cur_pid (prc k)).

(** A little-endian word of a file. *)
Definition file_word `{X : Xlat} (m : mem) (g : fs_vars) (ino o : Z) : Z :=
  file_byte m g ino o + 256 * file_byte m g ino (o + 1) +
  65536 * file_byte m g ino (o + 2) + 16777216 * file_byte m g ino (o + 3).

(** A string in an array of [ARG_LEN] bytes, with NULs behind it. *)
Definition padded (l : list Z) : list Z := l ++ replicate (128 - length l) 0.

(** The process [pid] runs the file [ino] with the arguments [pa]. *)
Record loaded k (ino pid : Z) (pa : list Z) k' : Prop := {
  lp_image : load_bytes (X := kx k') (pmem k') PROGRAM_VIR_ADDR
               (file_length (X := kx k) (pmem k) (fsv k) ino) =
             file_slice (X := kx k) (pmem k) (fsv k) ino 0
               (file_length (X := kx k) (pmem k) (fsv k) ino);
  lp_mem : unch (λ p, p / _4M = pid + 2) (pmem k) (pmem k');
  lp_space : ∃ a al, mmu_ok (kmmu k') a al ∧ Paging.prog a = Some (pid + 2);
  lp_pid : cur_pid (prc k') = pid;
  lp_pcb : cur_pcb_ptr (prc k') = get_pcb_ptr pid;
  lp_parent : Kstate.parent_pid (cur_pcb k') = u32 (cur_pid (prc k));
  lp_args : p_args (cur_pcb k') = padded pa;
  lp_used : pcb_bitmap (prc k') = <[Z.to_nat pid := 1]> (pcb_bitmap (prc k));
}.

Lemma strncpy_bytes_cstring `{X : Xlat} m s l :
  cstring m s l → (length l ≤ 128)%nat → strncpy_bytes m s ARG_LEN = padded l.
Proof.
  intros Hs Hl. unfold strncpy_bytes, padded, ARG_LEN. apply list_eq. intros i.
  rewrite list_lookup_fmap. destruct (decide (i < 128)%nat) as [Hi|Hi].
  - rewrite lookup_seqZ_lt by lia. rewrite Z.add_0_l. simpl.
    destruct (decide (i < length l)%nat) as [Hil|Hil].
    + rewrite lookup_app_l by done. destruct (lookup_lt_is_Some_2 l i Hil) as [x Ex].
      rewrite Ex. f_equal. rewrite strncpy_byte_before; [by apply (proj1 Hs)|].
      intros j Hj. eapply cstring_nth; [done|lia].
    + rewrite lookup_app_r, lookup_replicate_2 by lia. f_equal.
      apply (strncpy_byte_after _ _ _ (Z.of_nat (length l))); [lia|apply Hs].
  - rewrite lookup_seqZ_ge by lia. simpl. symmetry. apply lookup_ge_None_2.
    rewrite length_app, length_replicate. lia.
Qed.

Lemma load_file_word `{X : Xlat} {X' : Z → Z} m m' g ino d len o :
  load_bytes (X := X') m' d len = file_slice m g ino 0 len → 0 ≤ o → o + 4 ≤ len →
  ld32 (X := X') m' (d + o) = file_word m g ino o.
Proof.
  intros E Ho Hl.
  assert (∀ i, 0 ≤ i < len → ld8 (X := X') m' (d + i) = file_byte m g ino i) as H.
  { intros i Hi. unfold load_bytes, file_slice in E.
    apply (f_equal (λ l, l !! Z.to_nat i)) in E. rewrite !list_lookup_fmap in E.
    rewrite !lookup_seqZ_lt in E by lia. simpl in E. injection E as E.
    by rewrite !Z2Nat.id in E by lia. }
  unfold ld32, file_word. rewrite <- !Z.add_assoc, !H by lia. done.
Qed.

(** A string in the kernel's page is the same in every address space, whatever happens to
    the program pages. *)
Lemma kpage_cstring k k' m m' s n f l :
  paged k → paged k' → kpage s n → unch (λ p, p / _4M = f) m m' → 2 ≤ f →
  Z.of_nat (length l) < n → cstring (X := kx k) m s l → cstring (X := kx k') m' s l.
Proof.
  intros Hp Hp' Hk U Hf Hl [H H0].
  assert (∀ i, 0 ≤ i < n → ld8 (X := kx k') m' (s + i) = ld8 (X := kx k) m (s + i)) as E.
  { intros i Hi. etransitivity.
    - apply (unch_ld8 (X := kx k') _ _ _ _ U). rewrite (kpage_cell k' s n) by done.
      destruct Hk. unfold _4M, _4K. Z.div_mod_to_equations. lia.
    - apply (kpage_agrees k k' m s n); (done || lia). }
  split; [|by rewrite E by lia].
  intros i x Hx. pose proof (lookup_lt_Some _ _ _ Hx). rewrite E by lia. by apply H.
Qed.

(** Loading the image of the process [pid]. *)
Lemma exec_image_ok k ino pid :
  paged k → fs_kpage → 0 ≤ pid < 6 →
  fs_ok (X := kx k) (pmem k) (fsv k) → readable (X := kx k) (pmem k) (fsv k) ino →
  let len := file_length (X := kx k) (pmem k) (fsv k) ino in
  0 < len →
  let k1 := exec_image pid ino k in
  load_bytes (X := kx k1) (pmem k1) PROGRAM_VIR_ADDR len =
    file_slice (X := kx k) (pmem k) (fsv k) ino 0 len ∧
  unch (λ p, p / _4M = pid + 2) (pmem k) (pmem k1) ∧
  ∃ a al, mmu_ok (kmmu k1) a al ∧ Paging.prog a = Some (pid + 2).
Proof.
  intros Hp Hf Hpid Hok Hrd len Hlen k1. pose proof Hp as [Hl (a & al & Hm)].
  pose proof (setup_paging_ok (kmmu k) a al pid Hm ltac:(lia) ltac:(lia)) as Hu. cbv zeta in Hu.
  unfold k1. rewrite exec_image_eq. cbv zeta.
  set (u := setup_paging_and_flush_tlb pid (kmmu k)) in *. clearbody u.
  change (mmu_xlat u) with (kx (set_mmu u k)).
  set (ku := set_mmu u k). assert (paged ku) as Hpu by (split; [done|by eexists _, _]).
  pose proof (kpage_agrees k ku (pmem k) _ _ Hp Hpu (fk_image Hf)) as Ai.
  pose proof (kpage_agrees k ku (pmem k) _ _ Hp Hpu (fk_boot Hf)) as Ab.
  destruct (readable_agrees (X := kx k) _ _ _ (fsv k) ino Ai Ab Hok Hrd) as (Hrd' & El & Es).
  pose proof (stable_ok (X := kx k) _ _ _ (fsv k) Ab Hok) as Hok'.
  change (inode_length (X := kx ku) (pmem k) (inode_addr (fsv k) ino))
    with (file_length (X := kx ku) (pmem k) (fsv k) ino). rewrite El. fold len.
  assert (len < 262144) as Hmax.
  { pose proof (rd_small (X := kx k) _ _ _ Hrd) as Hs. fold len in Hs.
    unfold BLOCK_SIZE in Hs. Z.div_mod_to_equations. lia. }
  assert (∀ i, 0 ≤ i < len → cell (X := kx ku) (PROGRAM_VIR_ADDR + i) = (pid + 2) * _4M + 294912 + i)
    as Hcell.
  { intros i Hi. eapply program_cell; [done|exact Hu|done|unfold _4M, _4K; lia]. }
  destruct (read_head (X := kx ku) (pmem k) (fsv k) ino PROGRAM_VIR_ADDR len Hok' Hrd' ltac:(lia))
    as (m' & -> & Hb & U).
  - intros i j Hi Hj. rewrite !Hcell by done. lia.
  - intros i j Hi Hj. rewrite Hcell, (kpage_cell ku fs_blocks IMAGE_SIZE) by (done || apply Hf).
    destruct (fk_image Hf). unfold _4M, _4K. lia.
  - split_and!; [by rewrite <- Es by lia| |by eexists _, _].
    eapply unch_mono; [|exact U]. intros p (i & Hi & ->). rewrite Hcell by done.
    unfold _4M, _4K. Z.div_mod_to_equations. lia.
Qed.

Lemma cur_ptr_fresh k pid :
  cur_ok k → 0 ≤ pid < 6 → ¬ pid_used k pid →
  cur_pid (prc k) ≠ -1 → cur_pcb_ptr (prc k) ≠ get_pcb_ptr pid.
Proof.
  intros Hc Hp Hf Hn. destruct (Hc Hn) as (Hr & Hu & ->). intros E.
  apply get_pcb_ptr_inj in E; [|done|done]. by rewrite E in Hu.
Qed.

Lemma exec_load_ok k ino args pa :
  paged k → fs_kpage → cur_ok k → kpage args 50 →
  cstring (X := kx k) (pmem k) args pa → (length pa ≤ 49)%nat →
  fs_ok (X := kx k) (pmem k) (fsv k) → readable (X := kx k) (pmem k) (fsv k) ino →
  28 ≤ file_length (X := kx k) (pmem k) (fsv k) ino →
  (all_used_below k 6 ∧ exec_load ino args k = Ret 0 (kprint msg_max_programs k)) ∨
  ∃ pid k', 0 ≤ pid < 6 ∧ ¬ pid_used k pid ∧ all_used_below k pid ∧
    exec_load ino args k =
      Iret (file_word (X := kx k) (pmem k) (fsv k) ino 24) (_128M + _4M - 4) k' ∧
    loaded k ino pid pa k'.
Proof.
  intros Hp Hf Hcur Hk Ha Hla Hok Hrd Hlen.
  destruct (exec_load_cases ino args k) as [H|(pid & Hpid & Hfree & Hbelow & E)]; [by left|right].
  destruct (exec_image_ok k ino pid Hp Hf Hpid Hok Hrd ltac:(lia)) as (Hb & U & Hs).
  cbv zeta in E. set (k1 := exec_image pid ino k) in *.
  assert (prc k1 = prc k) as Eprc by (unfold k1; by rewrite exec_image_eq).
  assert (paged k1) as Hp1 by (split; [apply Hp|destruct Hs as (? & ? & ? & _); by eexists _, _]).
  assert (cstring (X := kx k1) (pmem k1) args pa) as Ha1
    by (eapply (kpage_cstring k k1); [..|exact U| | |exact Ha]; [done|done|done|lia|lia]).
  rewrite (strncpy_bytes_cstring (X := kx k1) _ _ pa Ha1 ltac:(lia)) in E.
  rewrite (load_file_word (X := kx k) (X' := kx k1) _ _ _ _ _ _ _ Hb) in E by lia.
  clearbody k1. eexists pid, _. split_and!; [lia|lia|done|done|exact E|].
  pose proof (cur_ptr_fresh k pid Hcur Hpid Hfree) as Hne.
  pose proof (spawned_misc pid (padded pa) (esp (kcpu k)) (ebp (kcpu k)) (prc k)) as (E1 & E2 & E3).
  pose proof (spawned_pcb pid (padded pa) (esp (kcpu k)) (ebp (kcpu k)) (prc k) (get_pcb_ptr pid) Hne) as E4.
  rewrite decide_True in E4 by done.
  set (pr := spawned pid (padded pa) (esp (kcpu k)) (ebp (kcpu k)) (prc k)) in *. clearbody pr.
  assert (cur_pcb (sti (set_prc pr k1)) = get_pcb pr (get_pcb_ptr pid)) as E5
    by (unfold cur_pcb; simpl; by rewrite E2).
  constructor; try done; rewrite E5, E4.
  - by rewrite (new_pcb_field Kstate.parent_pid).
  - by rewrite (new_pcb_field p_args).
Qed.

(** ** The whole call *)

Lemma parsed_args_len args : (length (default [] args) ≤ 49)%nat → (length (parsed_args_of args) ≤ 49)%nat.
Proof.
  destruct args as [a|]; simpl; [|lia]. unfold no_spaces.
  pose proof (length_filter (λ c, c ≠ 32) a). lia.
Qed.

(** The file system does not see what the call has written so far. *)
Lemma scratch_keeps k m ino :
  exec_layout k → unch (exec_scratch k) (pmem k) m →
  fs_ok (X := kx k) (pmem k) (fsv k) → readable (X := kx k) (pmem k) (fsv k) ino →
  fs_ok (X := kx k) m (fsv k) ∧ readable (X := kx k) m (fsv k) ino ∧
  file_length (X := kx k) m (fsv k) ino = file_length (X := kx k) (pmem k) (fsv k) ino ∧
  (∀ o n, 0 ≤ o → o + n ≤ file_length (X := kx k) (pmem k) (fsv k) ino →
     file_slice (X := kx k) m (fsv k) ino o n = file_slice (X := kx k) (pmem k) (fsv k) ino o n) ∧
  (∀ o, 0 ≤ o → o + 4 ≤ file_length (X := kx k) (pmem k) (fsv k) ino →
     file_word (X := kx k) m (fsv k) ino o = file_word (X := kx k) (pmem k) (fsv k) ino o).
Proof.
  intros HL U Hok Hrd. destruct (exec_scratch_spares k HL) as [Si Sb].
  destruct (readable_spared (X := kx k) _ _ _ (fsv k) ino U Si Sb Hok Hrd) as (Hrd1 & El & Es).
  split_and!; [|done|done|done|].
  - eapply (stable_ok (X := kx k)); [|done]. by eapply spares_agrees.
  - intros o Ho Hl. specialize (Es o 4 Ho Hl). unfold file_slice in Es.
    change (seqZ 0 4) with [0; 1; 2; 3] in Es. simpl in Es. rewrite Z.add_0_r in Es.
    injection Es as E0 E1 E2 E3. unfold file_word. congruence.
Qed.

Lemma scratch_dir k m name i :
  exec_layout k → unch (exec_scratch k) (pmem k) m →
  num_dir_entries (X := kx k) (pmem k) ≤ 63 → find_entry (X := kx k) (pmem k) name = Some i →
  num_dir_entries (X := kx k) m ≤ 63 ∧ find_entry (X := kx k) m name = Some i ∧
  ld32 (X := kx k) m (files i + 36) = ld32 (X := kx k) (pmem k) (files i + 36).
Proof.
  intros HL U Hn Hfe. destruct (exec_scratch_spares k HL) as [_ Sb].
  pose proof (spares_agrees (X := kx k) _ _ _ _ _ U Sb) as Ab.
  pose proof (find_entry_range (X := kx k) _ _ _ Hfe).
  destruct (stable_stats (X := kx k) _ _ _ Ab) as (-> & _ & _). split_and!; [done| |].
  - by rewrite (find_entry_agrees (X := kx k) _ _ _ Ab).
  - unfold files. apply (agrees_ld32 (X := kx k) _ _ _ _ _ _ Ab); unfold BLOCK_SIZE; lia.
Qed.

(** The call up to the decision. *)
Lemma execute_prefix k ui n name args i :
  exec_layout k → command k ui n name args →
  num_dir_entries (X := kx k) (pmem k) ≤ 63 → find_entry (X := kx k) (pmem k) name = Some i →
  let ino := ld32 (X := kx k) (pmem k) (files i + 36) in
  fs_ok (X := kx k) (pmem k) (fsv k) → readable (X := kx k) (pmem k) (fsv k) ino →
  4 ≤ file_length (X := kx k) (pmem k) (fsv k) ino →
  ∃ m, unch (exec_scratch k) (pmem k) m ∧
    cstring (X := kx k) m (args_at k) (parsed_args_of args) ∧
    syscall_execute ui k =
      if bool_decide (file_slice (X := kx k) (pmem k) (fsv k) ino 0 4 = elf_bytes)
      then Some (exec_load ino (args_at k) (set_mem m (cli k)))
      else Some (Ret (-1) (kprint msg_elf (set_mem m (cli k)))).
Proof.
  intros HL HC Hn Hfe ino Hok Hrd Hlen.
  destruct (exec_parse k ui n name args HL HC) as (m1 & E1 & Hnm & Ha & U1).
  destruct (exec_scratch_spares k HL) as [Si Sb].
  destruct (scratch_keeps k m1 ino HL U1 Hok Hrd) as (Hok1 & Hrd1 & El & Es & _).
  destruct (scratch_dir k m1 name i HL U1 Hn Hfe) as (Hn1 & Hfe1 & Ei).
  rewrite (execute_rest k ui m1) by (done || pose proof (cm_null _ _ _ _ _ HC); lia).
  destruct (exec_rest_found (set_mem m1 (cli k)) name (parsed_args_of args) i) as (m2 & U2 & Ha2 & E2);
    change (pmem (set_mem m1 (cli k))) with m1 in *; change (kx (set_mem m1 (cli k))) with (kx k) in *;
    change (fsv (set_mem m1 (cli k))) with (fsv k) in *; rewrite ?Ei in *; try done.
  - by destruct HL; constructor.
  - apply HC.
  - apply parsed_args_len, HC.
  - fold ino. lia.
  - exists m2. split_and!; [by eapply unch_trans|done|]. rewrite E2. fold ino.
    rewrite Es by lia. by case_bool_decide.
Qed.

(** C4: [execute] on a command line whose first word names an ELF file starts that file: when
    a pid is free, the lowest one gets a process whose program page holds the whole file, byte
    for byte, at the program address, whose PCB has the arguments and the caller as parent, and
    user code starts at the entry word of the file with the stack at the end of the page.  Apart
    from locals of the call nothing but that program page is written. *)
Theorem execute_loads_program k ui n name args i :
  exec_layout k → command k ui n name args → cur_ok k →
  num_dir_entries (X := kx k) (pmem k) ≤ 63 → find_entry (X := kx k) (pmem k) name = Some i →
  let ino := ld32 (X := kx k) (pmem k) (files i + 36) in
  fs_ok (X := kx k) (pmem k) (fsv k) → readable (X := kx k) (pmem k) (fsv k) ino →
  28 ≤ file_length (X := kx k) (pmem k) (fsv k) ino →
  file_slice (X := kx k) (pmem k) (fsv k) ino 0 4 = elf_bytes → ¬ all_used_below k 6 →
  ∃ pid m k', unch (exec_scratch k) (pmem k) m ∧
    0 ≤ pid < 6 ∧ ¬ pid_used k pid ∧ all_used_below k pid ∧
    syscall_execute ui k =
      Some (Iret (file_word (X := kx k) (pmem k) (fsv k) ino 24) (_128M + _4M - 4) k') ∧
    loaded (set_mem m k) ino pid (parsed_args_of args) k' ∧
    load_bytes (X := kx k') (pmem k') PROGRAM_VIR_ADDR
        (file_length (X := kx k) (pmem k) (fsv k) ino) =
      file_slice (X := kx k) (pmem k) (fsv k) ino 0 (file_length (X := kx k) (pmem k) (fsv k) ino).
Proof.
  intros HL HC Hcur Hn Hfe ino Hok Hrd Hlen Helf Hfree.
  destruct (execute_prefix k ui n name args i HL HC Hn Hfe Hok Hrd (Z.le_trans 4 28 _ ltac:(lia) Hlen)) as (m & U & Ha & E).
  fold ino in E. rewrite Helf, bool_decide_eq_true_2 in E by done.
  destruct (scratch_keeps k m ino HL U Hok Hrd) as (Hok1 & Hrd1 & El & Es & Ew).
  destruct (exec_load_ok (set_mem m (cli k)) ino (args_at k) (parsed_args_of args))
    as [[Hall _]|(pid & k' & Hpid & Hf & Hb & El' & HLd)]; try done.
  - apply (el_paged _ HL).
  - apply (el_fs _ HL).
  - apply (el_args _ HL).
  - by apply parsed_args_len, HC.
  - change (28 ≤ file_length (X := kx k) m (fsv k) ino). lia.
  - exists pid, m, k'. split_and!; [done|lia|lia|done|done| | |].
    + rewrite E. f_equal. rewrite El'. f_equal. exact (Ew 24 ltac:(lia) ltac:(lia)).
    + by destruct HLd; constructor.
    + destruct HLd as [Hi _ _ _ _ _ _ _].
      change (file_length (X := kx (set_mem m (cli k))) (pmem (set_mem m (cli k)))
        (fsv (set_mem m (cli k))) ino) with (file_length (X := kx k) m (fsv k) ino) in Hi.
      rewrite El in Hi. rewrite Hi. apply Es; lia.
Qed.

Lemma exec_load_full k ino args :
  all_used_below k 6 → exec_load ino args k = Ret 0 (kprint msg_max_programs k).
Proof.
  intros H. destruct (exec_load_cases ino args k) as [[_ E]|(pid & Hp & Hf & _)]; [done|].
  destruct Hf. by apply H.
Qed.

(** What a refused call leaves: a message and the locals. *)
Definition refused k (v : Z) (o : option outcome) : Prop :=
  ∃ k', o = Some (Ret v k') ∧ prc k' = prc k ∧ kmmu k' = kmmu k ∧ fsv k' = fsv k.

Lemma refused_print k v s m :
  Forall (λ c, c ≠ 37) s → refused k v (Some (Ret v (kprint s (set_mem m (cli k))))).
Proof.
  intros Hs. destruct (same_env_kprint s (set_mem m (cli k)) Hs).
  exists (kprint s (set_mem m (cli k))). done.
Qed.

Local Ltac no_format := by apply (bool_decide_unpack _).

(** The call from the directory entry on. *)
Lemma execute_entry k ui n name args i :
  exec_layout k → command k ui n name args →
  num_dir_entries (X := kx k) (pmem k) ≤ 63 → find_entry (X := kx k) (pmem k) name = Some i →
  let ino := ld32 (X := kx k) (pmem k) (files i + 36) in
  ∃ m1, unch (exec_scratch k) (pmem k) m1 ∧
    syscall_execute ui k =
      let '(r, m) := read_data (X := kx k) m1 (fsv k) ino 0 (four_at k) 4 in
      if (-1 =? r) || negb (elf_magic (X := kx k) m (four_at k))
      then Some (Ret (-1) (kprint msg_elf (set_mem m (cli k))))
      else Some (exec_load ino (args_at k) (set_mem m (cli k))).
Proof.
  intros HL HC Hn Hfe ino. pose proof HL as [Hp Hf _ _ Hd _ _ _ _].
  destruct (exec_parse k ui n name args HL HC) as (m1 & E1 & Hnm & _ & U1).
  destruct (scratch_dir k m1 name i HL U1 Hn Hfe) as (Hn1 & Hfe1 & Ei).
  destruct (kernel_local_seps k _ _ Hp Hf Hd) as (U & B & _).
  pose proof (lookup_dentry (X := kx k) m1 (fname_at k) (dentry_at k) name Hnm
    ltac:(pose proof (cm_name _ _ _ _ _ HC); lia) Hn1 U B) as H.
  rewrite Hfe1 in H. destruct H as (m2 & E2 & _ & Ed & _ & U2). exists m2. split.
  - eapply unch_trans; [exact U1|]. eapply unch_mono; [|exact U2]. unfold exec_scratch. tauto.
  - rewrite (execute_rest k ui m1) by (done || pose proof (cm_null _ _ _ _ _ HC); lia).
    unfold exec_rest. change (kx (set_mem m1 (cli k))) with (kx k).
    change (pmem (set_mem m1 (cli k))) with m1.
    change (fname_at (set_mem m1 (cli k))) with (fname_at k).
    change (dentry_at (set_mem m1 (cli k))) with (dentry_at k).
    rewrite E2. change (0 =? -1) with false. cbv iota zeta.
    change (ld32 (X := kx (set_mem m2 (set_mem m1 (cli k)))) (pmem (set_mem m2 (set_mem m1 (cli k))))
      (dentry_at (set_mem m2 (set_mem m1 (cli k))) + 36)) with (ld32 (X := kx k) m2 (dentry_at k + 36)).
    rewrite Ed, Ei. reflexivity.
Qed.

(** The bytes the ELF check gets from the file: the first four, or fewer if it is shorter. *)
Definition exec_head k (ino : Z) : list Z :=
  file_slice (X := kx k) (pmem k) (fsv k) ino 0
    (Z.min 4 (file_length (X := kx k) (pmem k) (fsv k) ino)).

(** The first block of a file, in memory that differs in the locals only. *)
Lemma stable_first k m1 ino :
  exec_layout k → unch (exec_scratch k) (pmem k) m1 → fs_ok (X := kx k) (pmem k) (fsv k) →
  0 ≤ ino < num_inodes (X := kx k) (pmem k) →
  fs_ok (X := kx k) m1 (fsv k) ∧ num_inodes (X := kx k) m1 = num_inodes (X := kx k) (pmem k) ∧
  file_length (X := kx k) m1 (fsv k) ino = file_length (X := kx k) (pmem k) (fsv k) ino ∧
  (block_valid (X := kx k) m1 (fsv k) ino 0 ↔ block_valid (X := kx k) (pmem k) (fsv k) ino 0) ∧
  (block_valid (X := kx k) (pmem k) (fsv k) ino 0 → ∀ n, n ≤ 4 →
     file_slice (X := kx k) m1 (fsv k) ino 0 n = file_slice (X := kx k) (pmem k) (fsv k) ino 0 n).
Proof.
  intros HL U Hok Hi. destruct (exec_scratch_spares k HL) as [Si Sb].
  pose proof (spares_agrees (X := kx k) _ _ _ _ _ U Si) as Ai.
  pose proof (spares_agrees (X := kx k) _ _ _ _ _ U Sb) as Ab.
  pose proof (stable_stats (X := kx k) _ _ _ Ab) as (_ & En & Eb). split_and!.
  - by apply (stable_ok (X := kx k) _ _ _ _ Ab).
  - done.
  - by apply (stable_length (X := kx k) _ _ _ _ Ai).
  - unfold block_valid. rewrite Eb, (stable_inodes (X := kx k) _ _ _ _ Ai) by (done || lia). done.
  - intros Hv n Hn. apply list_fmap_ext. intros i x Hx%lookup_seqZ.
    assert ((0 + x) / BLOCK_SIZE = 0) as E0 by (apply Z.div_small; unfold BLOCK_SIZE; lia).
    apply (stable_byte (X := kx k) _ _ _ _ Ai); rewrite ?E0; (done || lia).
Qed.

(** The read of the first bytes, in memory that differs in the locals only: what makes it
    fail, and what an accepted file starts with. *)
Lemma read_elf_head k m1 ino :
  exec_layout k → unch (exec_scratch k) (pmem k) m1 → fs_ok (X := kx k) (pmem k) (fsv k) →
  0 ≤ ino → (ino < 63 → ino < num_inodes (X := kx k) (pmem k)) →
  let '(r, m) := read_data (X := kx k) m1 (fsv k) ino 0 (four_at k) 4 in
  (63 ≤ ino ∨ 0 < file_length (X := kx k) (pmem k) (fsv k) ino ∧
     ¬ block_valid (X := kx k) (pmem k) (fsv k) ino 0 → r = -1) ∧
  (r ≠ -1 → ∃ rest, load_bytes (X := kx k) m (four_at k) 4 = exec_head k ino ++ rest) ∧
  (ino < 63 → block_valid (X := kx k) (pmem k) (fsv k) ino 0 → r ≠ -1).
Proof.
  intros HL U Hok H0 Hni. destruct (Z.leb_spec 63 ino) as [Hb|Hlt].
  { unfold read_data, MAX_FILES. rewrite (proj2 (Z.leb_le 63 ino) Hb). simpl. split_and!; [done|done|lia]. }
  specialize (Hni Hlt). set (c := Z.min 4 (file_length (X := kx k) (pmem k) (fsv k) ino)).
  destruct (stable_first k m1 ino HL U Hok ltac:(lia)) as (Hok1 & En & El & Ev & Es).
  assert (read_count (X := kx k) m1 (fsv k) ino 0 4 = c) as Ec by (unfold read_count, c; lia).
  assert (0 ≤ c ≤ 4) as Hc by (pose proof (ld32_bound (X := kx k) (pmem k) (inode_addr (fsv k) ino));
    unfold c, file_length, inode_length in *; lia).
  assert ((0 + c) / BLOCK_SIZE = 0) as Ed by (apply Z.div_small; unfold BLOCK_SIZE; lia).
  pose proof (read_data_errors (X := kx k) m1 (fsv k) ino 0 (four_at k) 4 H0
    ltac:(lia) ltac:(lia) ltac:(lia)) as He. cbv zeta in He. rewrite Ec, Ed, El in He.
  destruct (read_data _ _ _ _ _ _) as [r m] eqn:E. destruct He as (Hm1 & _ & Hsame). split_and!.
  - intros [?|[Hl Hv]]; [lia|]. apply Hm1. right. split; [done|]. right. exists 0. by rewrite Ev.
  - intros Hr. destruct (decide (file_length (X := kx k) (pmem k) (fsv k) ino ≤ 0)) as [Hz|Hnz].
    { exists (load_bytes (X := kx k) m (four_at k) 4). unfold exec_head. fold c.
      replace c with 0 by (unfold c in *; lia). done. }
    assert (block_valid (X := kx k) (pmem k) (fsv k) ino 0) as Hv.
    { apply (dec_stable (H := Z_lt_dec _ _)). intros Hv. apply Hr, Hm1. right. split; [lia|]. right. exists 0. by rewrite Ev. }
    pose proof HL as [Hp Hf _ _ _ H4 _ _ _].
    destruct (kernel_local_seps k _ _ Hp Hf H4) as (U4 & _ & I4).
    destruct (read_data_ok (X := kx k) m1 (fsv k) ino 0 (four_at k) 4) as (m' & E' & Hw);
      rewrite ?Ec, ?Ed, ?El, ?En; try (done || lia).
    { intros j Hj. change (0 / BLOCK_SIZE) with 0 in Hj. replace j with 0 by lia. by rewrite Ev. }
    { eapply uniq_range_mono; [exact U4|lia]. }
    { eapply sep_range_mono; [exact I4|lia|lia]. }
    rewrite E in E'. injection E' as _ <-. rewrite Ec in Hw. apply written_load_bytes in Hw.
    exists (load_bytes (X := kx k) m (four_at k + c) (4 - c)). unfold exec_head. fold c.
    rewrite <- (Es Hv c) by lia. unfold file_slice. rewrite <- Hw, <- load_bytes_app by lia. f_equal. lia.
  - intros _ Hv Hr. apply Hm1 in Hr as [?|[Hl [?|(j & Hj & Hb)]]]; [lia|lia|].
    apply Hb. replace j with 0 by (change (0 / BLOCK_SIZE) with 0 in Hj; lia). by rewrite Ev.
Qed.

End execute.
