(* ===== verification/System.v ===== *)
(** * The process structure of the running system

    The abstract machine: each terminal has a stack of tasks, the top one active and the
    others waiting in [execute]; one terminal runs.  The kernel, one system call or
    interrupt at a time, implements it. *)

From stdpp Require Import functions.
From S2P Require Import Prelude Mem Lib Fs Paging Kstate Pc Screen Terminal Pic Rtc Keyboard.
From S2P Require Import Files Process Sched Exec.

Section system.
Context {PT : Ports} {PL : PgLayout} {FL : FsLayout} {FR : Frames}.
Implicit Types (k : kernel).

(** ** What input and output leave alone *)

(** The part of a PCB the process structure depends on. *)
Definition pcb_links (p : PCB_t) : Z * Z * Z * Z :=
  (Kstate.parent_pid p, p_esp p, p_ebp p, tss_esp0 p).

Definition term_links (t : terminal_t) : Z * Z * Z := (t_tid t, t_pid t, t_next_term_to_run t).

Record same_procs k k' : Prop := {
  sp_pid : cur_pid (prc k') = cur_pid (prc k);
  sp_ptr : cur_pcb_ptr (prc k') = cur_pcb_ptr (prc k);
  sp_map : pcb_bitmap (prc k') = pcb_bitmap (prc k);
  sp_tss : tss_esp0_reg (prc k') = tss_esp0_reg (prc k);
  sp_links : ∀ q, pcb_links (get_pcb (prc k') q) = pcb_links (get_pcb (prc k) q);
  sp_run : running_term_ptr (con k') = running_term_ptr (con k);
  sp_term : ∀ t, term_links (term k' t) = term_links (term k t);
  sp_len : length (term_arr (con k')) = length (term_arr (con k));
}.

#[local] Instance same_procs_preorder : PreOrder same_procs.
Proof.
  split; [by intros k|]. intros k1 k2 k3 [] []. constructor; try congruence.
Qed.

Lemma con_term_alter c i f t :
  (∀ x, term_links (f x) = term_links x) →
  term_links (con_term (con_upd_term i f c) t) = term_links (con_term c t).
Proof.
  intros Hf. unfold con_term, con_upd_term. simpl. rewrite !nth_lookup.
  destruct (decide (Z.to_nat t = Z.to_nat i)) as [E|E].
  - rewrite E, list_lookup_alter_eq. destruct (term_arr c !! Z.to_nat i); simpl; auto.
  - by rewrite list_lookup_alter_ne.
Qed.

(** Updates of the console that keep the ring, the pids and the running terminal. *)
Record con_quiet (c c' : console) : Prop := {
  cq_run : running_term_ptr c' = running_term_ptr c;
  cq_term : ∀ t, term_links (con_term c' t) = term_links (con_term c t);
  cq_len : length (term_arr c') = length (term_arr c);
}.

#[local] Instance con_quiet_preorder : PreOrder con_quiet.
Proof. split; [by intros c|]. intros c1 c2 c3 [] []. constructor; congruence. Qed.

Lemma con_quiet_upd i f c :
  (∀ x, term_links (f x) = term_links x) → con_quiet c (con_upd_term i f c).
Proof.
  intros H. constructor; [done| |apply length_alter]. intros t. by apply con_term_alter.
Qed.

Lemma con_quiet_set_x v c : con_quiet c (con_set_x v c).
Proof. unfold con_set_x. destruct (screen_x_ptr c); [done|by apply con_quiet_upd]. Qed.

Lemma con_quiet_set_y v c : con_quiet c (con_set_y v c).
Proof. unfold con_set_y. destruct (screen_y_ptr c); [done|by apply con_quiet_upd]. Qed.

Lemma same_procs_con c k : con_quiet (con k) c → same_procs k (set_con c k).
Proof. intros []. by constructor. Qed.

Lemma same_procs_upd_con f k : (∀ c, con_quiet c (f c)) → same_procs k (upd_con f k).
Proof. intros H. by apply same_procs_con. Qed.

Lemma same_procs_upd_term i f k :
  (∀ x, term_links (f x) = term_links x) → same_procs k (upd_term i f k).
Proof. intros H. apply same_procs_upd_con. intros c. by apply con_quiet_upd. Qed.

Lemma same_procs_prc k k' : prc k' = prc k → con_quiet (con k) (con k') → same_procs k k'.
Proof. intros E []. by constructor; rewrite ?E. Qed.

Lemma same_procs_if (b : bool) k k1 k2 :
  same_procs k k1 → same_procs k k2 → same_procs k (if b then k1 else k2).
Proof. by destruct b. Qed.

Lemma same_procs_for_up (body : Z → kernel → kernel) lo hi k :
  (∀ i k, same_procs k (body i k)) → same_procs k (for_up body lo hi k).
Proof.
  intros H. destruct (decide (lo ≤ hi)); [|by rewrite for_up_nil by lia].
  apply (for_up_inv body (λ _, same_procs k)); [done|done|].
  intros i x _ Hx. by etransitivity.
Qed.

Lemma same_procs_calib k : same_procs k (calib_cursor k).
Proof. by constructor. Qed.

Lemma same_procs_put_cell i c k : same_procs k (put_cell i c k).
Proof. by constructor. Qed.

Lemma same_procs_set_x v k : same_procs k (upd_con (con_set_x v) k).
Proof. apply same_procs_upd_con. intros c. apply con_quiet_set_x. Qed.

Lemma same_procs_set_y v k : same_procs k (upd_con (con_set_y v) k).
Proof. apply same_procs_upd_con. intros c. apply con_quiet_set_y. Qed.

Lemma con_quiet_newline c : con_quiet c (con_set_x 0 (con_set_y (con_y c + 1) c)).
Proof. etransitivity; [apply con_quiet_set_y|apply con_quiet_set_x]. Qed.

Lemma same_procs_scroll k : same_procs k (up_scroll_for_one_line k).
Proof.
  unfold up_scroll_for_one_line.
  etransitivity; [|apply same_procs_for_up; intros; apply same_procs_put_cell].
  etransitivity; [|apply same_procs_upd_con; intros c; apply con_quiet_set_y].
  apply same_procs_for_up. intros i k1. apply same_procs_for_up.
  intros j k2. by constructor.
Qed.

Lemma same_procs_calib_if k : same_procs k (calib_if_viewing k).
Proof. apply same_procs_if; [apply same_procs_calib|done]. Qed.

Lemma same_procs_finish k : same_procs k (putc_finish k).
Proof.
  unfold putc_finish. etransitivity; [|apply same_procs_calib_if].
  apply same_procs_if; [apply same_procs_scroll|done].
Qed.

Lemma same_procs_char c k : same_procs k (putc_char c k).
Proof.
  unfold putc_char. etransitivity; [|apply same_procs_finish].
  etransitivity; [apply same_procs_put_cell|].
  etransitivity; [apply (same_procs_upd_con (λ c, con_set_x (con_x c + 1) c));
    intros c1; apply con_quiet_set_x|].
  apply same_procs_if; [|done]. apply same_procs_upd_con, con_quiet_newline.
Qed.

Lemma same_procs_backspace k : same_procs k (putc_backspace k).
Proof.
  unfold putc_backspace. apply same_procs_if; [apply same_procs_calib_if|].
  etransitivity; [|apply same_procs_calib_if].
  etransitivity; [|apply (same_procs_upd_con (λ c, con_set_x (con_x c - 1) c));
    intros c1; apply con_quiet_set_x].
  etransitivity; [|apply same_procs_put_cell].
  apply same_procs_if; [|done]. apply same_procs_upd_con. intros c1.
  etransitivity; [apply con_quiet_set_x|apply con_quiet_set_y].
Qed.

Lemma same_procs_nb_putc c k : same_procs k (nb_putc c k).
Proof.
  unfold nb_putc. destruct ((u8 c =? 10) || (u8 c =? 13)); [|destruct (u8 c =? 8)].
  - unfold putc_newline. etransitivity; [|apply same_procs_finish].
    apply same_procs_upd_con, con_quiet_newline.
  - apply same_procs_backspace.
  - apply same_procs_if; apply same_procs_char.
Qed.

Lemma same_procs_put_list l k : same_procs k (put_list l k).
Proof.
  revert k. induction l as [|c l IH]; intros k; [done|].
  simpl. etransitivity; [apply same_procs_nb_putc|apply IH].
Qed.

Lemma same_procs_kprint l k : Forall (λ c, c ≠ 37) l → same_procs k (kprint l k).
Proof. intros H. rewrite kprint_plain by done. apply same_procs_put_list. Qed.

Lemma same_procs_mapping t k : same_procs k (change_vidmem_mapping t k).
Proof. by constructor. Qed.

Lemma same_procs_on_view op k :
  (∀ k, same_procs k (op k)) → same_procs k (on_view_tid op k).
Proof.
  intros H. unfold on_view_tid. etransitivity; [|apply same_procs_mapping].
  etransitivity; [apply same_procs_mapping|apply H].
Qed.

Lemma same_procs_echo c k : same_procs k (echo c k).
Proof.
  apply same_procs_on_view. intros k1. etransitivity; [apply same_procs_nb_putc|].
  apply same_procs_calib.
Qed.

Lemma same_procs_clear k : same_procs k (clear k).
Proof.
  unfold clear. etransitivity; [|apply same_procs_mapping].
  etransitivity; [apply same_procs_mapping|]. unfold clear_fill.
  etransitivity; [|apply same_procs_calib].
  etransitivity; [|apply same_procs_set_y]. etransitivity; [|apply same_procs_set_x].
  apply same_procs_for_up. intros. apply same_procs_put_cell.
Qed.

Lemma same_procs_set_mem m k : same_procs k (set_mem m k).
Proof. by constructor. Qed.

Lemma same_procs_swap o t k : same_procs k (swap_screens o t k).
Proof. unfold swap_screens. etransitivity; apply same_procs_set_mem. Qed.

Lemma same_procs_switch_terminal t k : same_procs k (switch_terminal t k).
Proof.
  unfold switch_terminal. apply same_procs_if; [done|].
  etransitivity; [|apply same_procs_mapping].
  etransitivity; [|by apply same_procs_upd_con].
  etransitivity; [|apply same_procs_swap].
  etransitivity; [|apply same_procs_mapping].
  unfold switch_save_restore, update_screen_xy_ptr.
  etransitivity; [|apply same_procs_calib].
  transitivity (upd_term (viewing_term_ptr (con k)) (set_t_buf_pos (buf_pos (con k))) k);
    [by apply same_procs_upd_term|].
  generalize (upd_term (viewing_term_ptr (con k)) (set_t_buf_pos (buf_pos (con k))) k).
  intros k1. by constructor.
Qed.

Lemma same_procs_upd_kbd f k : same_procs k (upd_kbd f k).
Proof. by constructor. Qed.

Lemma same_procs_kbd_store i c k : same_procs k (kbd_store i c k).
Proof. unfold kbd_store. destruct (kbd_buf (con k)); [by apply same_procs_upd_term|done]. Qed.

Lemma same_procs_submit k : same_procs k (kbd_submit k).
Proof.
  unfold kbd_submit. transitivity (upd_con (set_buf_pos 0) k); [by constructor|].
  by apply same_procs_upd_term.
Qed.

Lemma same_procs_enter c k : same_procs k (kbd_enter c k).
Proof.
  unfold kbd_enter. apply same_procs_if; [|apply same_procs_if; [|done]].
  - etransitivity; [apply same_procs_kbd_store|].
    apply same_procs_if; [apply same_procs_submit|]. by apply same_procs_upd_con.
  - etransitivity; [apply same_procs_kbd_store|apply same_procs_submit].
Qed.

Lemma same_procs_kbd_backspace k : same_procs k (kbd_backspace k).
Proof.
  unfold kbd_backspace. apply same_procs_if; [|done].
  etransitivity; [apply same_procs_echo|]. by apply same_procs_upd_con.
Qed.

Lemma same_procs_pair_if (b : bool) k (x y : Z * kernel) :
  same_procs k (snd x) → same_procs k (snd y) → same_procs k (snd (if b then x else y)).
Proof. by destruct b. Qed.

Lemma same_procs_special code k :
  same_procs k (snd (check_and_handle_special_button code k)).
Proof.
  unfold check_and_handle_special_button.
  repeat (apply same_procs_pair_if;
    [first [apply same_procs_upd_kbd | apply same_procs_kbd_backspace | reflexivity
           | cbn [snd]; apply same_procs_if; [apply same_procs_switch_terminal|done]]|]).
  done.
Qed.

Lemma same_procs_ack k : same_procs k (sti (send_eoi KEYBOARD_IRQ k)).
Proof. by constructor. Qed.

Lemma same_procs_handle_code code k : same_procs k (handle_code code k).
Proof.
  unfold handle_code. pose proof (same_procs_special code k) as H.
  destruct (check_and_handle_special_button code k) as [sp k1]. simpl in H.
  etransitivity; [|apply same_procs_ack]. etransitivity; [exact H|].
  apply same_procs_if; [done|]. unfold handle_normal. apply same_procs_if; [|done].
  apply same_procs_if.
  - etransitivity; [apply same_procs_clear|apply same_procs_upd_kbd].
  - etransitivity; [apply same_procs_echo|apply same_procs_enter].
Qed.

Lemma same_procs_keyboard k : same_procs k (keyboard_int_handler k).
Proof.
  unfold keyboard_int_handler.
  destruct (k_inb_eq KBD_DATA_PORT (k_outb KBD_READ KBD_STATUS_PORT (cli k))) as [d ->].
  etransitivity; [|apply same_procs_handle_code]. by constructor.
Qed.

Lemma same_procs_rtc k : same_procs k (rtc_int_handler k).
Proof.
  unfold rtc_int_handler.
  match goal with |- context [k_inb CMOS_PORT ?x] => destruct (k_inb_eq CMOS_PORT x) as [d ->] end.
  by constructor.
Qed.

(** ** System calls that are not about processes *)

Lemma same_procs_upd_cur f k :
  (∀ p, pcb_links (f p) = pcb_links p) → same_procs k (upd_cur f k).
Proof.
  intros H. constructor; try done. intros q. unfold upd_cur. simpl.
  rewrite get_upd_pcb. case_decide; [|done]. subst. apply H.
Qed.

Lemma same_procs_set_fd fd e k : same_procs k (set_cur_fd fd e k).
Proof. by apply same_procs_upd_cur. Qed.

Lemma same_procs_kbd_copy fuel i buf n k : same_procs k (snd (kbd_copy fuel i buf n k)).
Proof.
  revert i k. induction fuel as [|fuel IH]; intros i k; [done|]. simpl.
  destruct (_ && _); [|done]. case_test; [by constructor|].
  etransitivity; [|apply IH]. by constructor.
Qed.

Lemma same_procs_terminal_read fd buf n k v k' :
  terminal_read fd buf n k = Some (v, k') → same_procs k k'.
Proof.
  unfold terminal_read, read_from_kbd_buf_to_buf.
  destruct (_ || _); [by intros [= <- <-]|]. destruct (negb _); [done|].
  pose proof (same_procs_kbd_copy (Z.to_nat KBD_BUF_SIZE) 0 buf n k) as H.
  destruct (kbd_copy _ _ _ _ _) as [c k1]. intros [= <- <-].
  etransitivity; [exact H|]. by apply same_procs_upd_term.
Qed.

Lemma same_procs_terminal_write fd buf n k : same_procs k (snd (terminal_write fd buf n k)).
Proof.
  unfold terminal_write. destruct (_ || _); [done|].
  apply same_procs_for_up. intros. apply same_procs_nb_putc.
Qed.

Lemma same_procs_set_io d k : same_procs k (set_io d k).
Proof. by constructor. Qed.

Lemma same_procs_set_frequency fre k : same_procs k (snd (set_frequency fre k)).
Proof. destruct (set_frequency_io fre k) as [d ->]. apply same_procs_set_io. Qed.

Lemma same_procs_do_read r fd buf n k o :
  do_read r fd buf n k = Some o → same_procs k (outcome_k o).
Proof.
  destruct r; simpl; try done.
  - destruct (dir_read _ _ _ _ _) as [[v e] m]. intros [= <-]. simpl.
    etransitivity; [|apply same_procs_set_fd]. apply same_procs_set_mem.
  - destruct (file_read _ _ _ _ _) as [[v e] m]. intros [= <-]. simpl.
    etransitivity; [|apply same_procs_set_fd]. apply same_procs_set_mem.
  - intros [= <-]. by constructor.
  - destruct (terminal_read fd buf n k) as [[v k']|] eqn:E; intros [= <-]; [|done].
    by apply same_procs_terminal_read in E.
Qed.

Lemma same_procs_read fd buf n k o :
  syscall_read fd buf n k = Some o → same_procs k (outcome_k o).
Proof.
  intros H. transitivity (sti k); [by constructor|]. revert H. unfold syscall_read.
  destruct (_ || _); [by intros [= <-]|]. destruct (_ =? FREE); [by intros [= <-]|].
  destruct (fs_init_ops _); [|done]. apply same_procs_do_read.
Qed.

Lemma same_procs_wait_poll w k v k' : wait_poll w k = Some (v, k') → same_procs k k'.
Proof.
  destruct w; simpl; [apply same_procs_terminal_read|].
  unfold rtc_read_poll. destruct (negb _); [done|]. intros [= <- <-]. by constructor.
Qed.

Lemma same_procs_write fd buf n k v k' :
  syscall_write fd buf n k = Some (v, k') → same_procs k k'.
Proof.
  unfold syscall_write. destruct (_ || _); [by intros [= <- <-]|].
  destruct (_ =? FREE); [by intros [= <- <-]|]. destruct (fs_init_ops _) as [ops|]; [|done].
  destruct (op_write ops); simpl; try done; try by intros [= <- <-].
  - unfold rtc_write. destruct (_ || _); [by intros [= <- <-]|].
    pose proof (same_procs_set_frequency (s32 (ld32 (X := kx k) (pmem k) buf)) k) as H.
    intros [= E]. by rewrite E in H.
  - pose proof (same_procs_terminal_write fd buf n k) as H. intros [= E]. by rewrite E in H.
Qed.

Lemma same_procs_close fd k : same_procs k (snd (syscall_close fd k)).
Proof.
  unfold syscall_close. destruct (_ || _); [done|]. destruct (_ =? FREE); [done|].
  apply same_procs_set_fd.
Qed.

Lemma same_procs_open_ops idx filename type k r :
  open_ops idx filename type k = Some r →
  same_procs k (match r with inl k' => k' | inr (_, k') => k' end).
Proof.
  unfold open_ops. destruct (type =? DIR); [|destruct (type =? USER_RTC);
    [|destruct (type =? REGULAR); [|by intros [= <-]]]].
  - destruct (dir_open _ _ _) as [[[e pr] m]|]; [|done].
    assert (same_procs k (if pr then kprint msg_dir_open (set_mem m k) else set_mem m k)) as H.
    { apply same_procs_if; [|apply same_procs_set_mem].
      etransitivity; [apply same_procs_set_mem|]. apply same_procs_kprint.
      by apply (bool_decide_unpack _). }
    destruct (_ =? OERROR); intros [= <-]; exact H.
  - unfold rtc_open. pose proof (same_procs_set_frequency LOW_FREQUENCY k) as H.
    destruct (set_frequency _ k). by intros [= <-].
  - destruct (file_open _ _ _) as [[e m]|]; [|done].
    destruct (_ =? OERROR); intros [= <-]; apply same_procs_set_mem.
Qed.

Lemma same_procs_open filename k v k' :
  syscall_open filename k = Some (v, k') → same_procs k k'.
Proof.
  unfold syscall_open. destruct (filename =? 0); [by intros [= <- <-]|].
  destruct (read_dentry_by_name _ _ _) as [[r m]|]; [|done].
  destruct (r =? -1); [intros [= <- <-]; apply same_procs_set_mem|].
  destruct (find_up _ 2 8) as [idx|]; [|intros [= <- <-]; apply same_procs_set_mem].
  destruct (open_ops _ _ _ _) as [o|] eqn:E; [|done]. apply same_procs_open_ops in E.
  intros H. transitivity (set_mem m k); [apply same_procs_set_mem|].
  destruct o as [k1|[ops k1]]; injection H as <- <-; [done|].
  etransitivity; [exact E|apply same_procs_set_fd].
Qed.

Lemma same_procs_getargs buf n k v k' :
  syscall_getargs buf n k = Some (v, k') → same_procs k k'.
Proof.
  unfold syscall_getargs. destruct (_ || _); [by intros [= <- <-]|].
  case_test; [by intros [= <- <-]|]. case_test; [done|]. intros [= <- <-].
  apply same_procs_for_up. intros. by constructor.
Qed.

Lemma same_procs_vidmap a k : same_procs k (snd (syscall_vidmap a k)).
Proof.
  unfold syscall_vidmap. case_test; [done|]. destruct (_ || _).
  { apply same_procs_kprint. by apply (bool_decide_unpack _). }
  cbn [snd]. etransitivity; [|by apply same_procs_upd_term].
  etransitivity; [|by apply same_procs_upd_cur].
  etransitivity; [|apply same_procs_set_mem].
  match goal with |- same_procs _ (set_mmu _ ?x) => transitivity x; [|by constructor] end.
  apply same_procs_if; by constructor.
Qed.

(** ** The abstract machine *)

(** A task waits with the stack pointers of its [execute]; those of an active task mean
    nothing. *)
Record task := Task { tk_pid : Z; tk_esp : Z; tk_ebp : Z }.

Record sys := Sys { s_run : Z; s_stk : Z → list task }.

Definition stk_pids (f : Z → list task) : list Z :=
  (tk_pid <$> f 0) ++ (tk_pid <$> f 1) ++ (tk_pid <$> f 2).

Definition top_pid (s : list task) : Z := match s with [] => -1 | x :: _ => tk_pid x end.

Definition lowest_free (f : Z → list task) (pid : Z) : Prop :=
  0 ≤ pid < 6 ∧ (pid ∉ stk_pids f) ∧ (∀ j, 0 ≤ j < pid → j ∈ stk_pids f).

(** The top of a stack starts waiting at [e], [b], and a new task goes on top. *)
Definition push (pid e b : Z) (s : list task) : list task :=
  Task pid 0 0 :: (match s with [] => [] | x :: r => Task (tk_pid x) e b :: r end).

Definition s_next (S : sys) : Z := (s_run S + 1) mod 3.

Inductive sstep : sys → sys → Prop :=
  | ss_io S : sstep S S
  | ss_tick S : s_stk S (s_next S) ≠ [] → sstep S (Sys (s_next S) (s_stk S))
  | ss_start S pid : s_stk S (s_next S) = [] → lowest_free (s_stk S) pid →
      sstep S (Sys (s_next S) (<[s_next S := [Task pid 0 0]]> (s_stk S)))
  | ss_execute S x r pid e b : s_stk S (s_run S) = x :: r → lowest_free (s_stk S) pid →
      sstep S (Sys (s_run S) (<[s_run S := push pid e b (x :: r)]> (s_stk S)))
  | ss_halt S x y r : s_stk S (s_run S) = x :: y :: r →
      sstep S (Sys (s_run S) (<[s_run S := y :: r]> (s_stk S)))
  | ss_restart S x pid : s_stk S (s_run S) = [x] →
      lowest_free (<[s_run S := []]> (s_stk S)) pid →
      sstep S (Sys (s_run S) (<[s_run S := [Task pid 0 0]]> (s_stk S))).

(** ** Refinement *)

Definition pcb_of k (pid : Z) : PCB_t := get_pcb (prc k) (get_pcb_ptr pid).

(** Parents lie below their children, and waiting tasks have their saved pointers. *)
Fixpoint chain k (s : list task) : Prop :=
  match s with
  | [] => True
  | x :: r =>
      Kstate.parent_pid (pcb_of k (tk_pid x)) = u32 (top_pid r) ∧
      chain k r ∧
      match r with
      | [] => True
      | y :: _ => p_esp (pcb_of k (tk_pid y)) = tk_esp y ∧ p_ebp (pcb_of k (tk_pid y)) = tk_ebp y
      end
  end.

Definition stack_top (pid : Z) : Z := u32 (get_pcb_ptr pid + _8K - 4).

(** All of the refinement relation but the stack in the TSS. *)
Record refines0 k (S : sys) : Prop := {
  rf_run : running_term_ptr (con k) = s_run S ∧ 0 ≤ s_run S < 3;
  rf_ring : length (term_arr (con k)) = 3%nat ∧ ∀ t, 0 ≤ t < 3 →
    t_tid (term k t) = t ∧ t_next_term_to_run (term k t) = (t + 1) mod 3;
  rf_len : length (pcb_bitmap (prc k)) = 6%nat;
  rf_used : ∀ i, 0 ≤ i < 6 → pid_used k i ↔ i ∈ stk_pids (s_stk S);
  rf_range : ∀ i, i ∈ stk_pids (s_stk S) → 0 ≤ i < 6;
  rf_nodup : NoDup (stk_pids (s_stk S));
  rf_top : ∀ t, 0 ≤ t < 3 → pid_of k t = top_pid (s_stk S t);
  rf_chain : ∀ t, 0 ≤ t < 3 → chain k (s_stk S t);
  rf_cur : cur_pid (prc k) ≠ -1 → cur_pcb_ptr (prc k) = get_pcb_ptr (cur_pid (prc k));
  rf_esp0 : ∀ i, i ∈ stk_pids (s_stk S) → tss_esp0 (pcb_of k i) = stack_top i;
}.

Record refines k (S : sys) : Prop := {
  rf_0 : refines0 k S;
  rf_tss : cur_pid (prc k) ≠ -1 → tss_esp0_reg (prc k) = stack_top (cur_pid (prc k));
}.

(** ** Stacks *)

Lemma elem_of_stk f i : i ∈ stk_pids f ↔ ∃ t, 0 ≤ t < 3 ∧ i ∈ tk_pid <$> f t.
Proof.
  unfold stk_pids. rewrite !elem_of_app. split.
  - intros [H|[H|H]]; eexists; (split; [|exact H]); lia.
  - intros (t & Ht & H). assert (t = 0 ∨ t = 1 ∨ t = 2) as [->|[->| ->]] by lia; auto.
Qed.

(** The pids of one stack, and those of the others. *)
Lemma stk_split f t : 0 ≤ t < 3 → stk_pids f ≡ₚ (tk_pid <$> f t) ++ stk_pids (<[t := []]> f).
Proof.
  intros Ht. unfold stk_pids.
  assert (t = 0 ∨ t = 1 ∨ t = 2) as [->|[->| ->]] by lia;
    rewrite !fn_lookup_insert, !fn_lookup_insert_ne by lia; simpl.
  - done.
  - rewrite !app_assoc. apply Permutation_app_tail, Permutation_app_comm.
  - rewrite app_nil_r, app_assoc. apply Permutation_app_comm.
Qed.

Lemma fn_insert_twice (f : Z → list task) t a b x : (<[t := b]> (<[t := a]> f)) x = (<[t := b]> f) x.
Proof.
  destruct (decide (x = t)) as [->|]; [by rewrite !fn_lookup_insert|].
  by rewrite !fn_lookup_insert_ne by done.
Qed.

Lemma stk_pids_ext f g : (∀ x, f x = g x) → stk_pids f = stk_pids g.
Proof. intros H. unfold stk_pids. by rewrite !H. Qed.

Lemma stk_insert f t s :
  0 ≤ t < 3 → stk_pids (<[t := s]> f) ≡ₚ (tk_pid <$> s) ++ stk_pids (<[t := []]> f).
Proof.
  intros Ht. rewrite (stk_split (<[t := s]> f) t Ht), fn_lookup_insert.
  by rewrite (stk_pids_ext _ (<[t := []]> f) (fn_insert_twice f t s [])).
Qed.

Lemma push_pids pid e b s : tk_pid <$> push pid e b s = pid :: (tk_pid <$> s).
Proof. by destruct s. Qed.

Lemma stk_push f t pid e b :
  0 ≤ t < 3 → stk_pids (<[t := push pid e b (f t)]> f) ≡ₚ pid :: stk_pids f.
Proof. intros Ht. rewrite stk_insert, push_pids by done. by rewrite (stk_split f t) by done. Qed.

Lemma stk_pop f t x r :
  0 ≤ t < 3 → f t = x :: r → stk_pids f ≡ₚ tk_pid x :: stk_pids (<[t := r]> f).
Proof. intros Ht E. rewrite (stk_split f t), E, (stk_insert f t r) by done. done. Qed.

Lemma top_in f t : 0 ≤ t < 3 → f t ≠ [] → top_pid (f t) ∈ stk_pids f.
Proof.
  intros Ht Hn. apply elem_of_stk. exists t. split; [done|].
  destruct (f t) as [|x r]; [done|]. by left.
Qed.

(** Different terminals have different tasks. *)
Lemma stk_disjoint f s t i :
  NoDup (stk_pids f) → 0 ≤ s < 3 → 0 ≤ t < 3 → s ≠ t →
  i ∈ tk_pid <$> f s → i ∉ tk_pid <$> f t.
Proof.
  intros Hnd Hs Ht Hne H1 H2. rewrite (stk_split f s Hs) in Hnd.
  apply NoDup_app in Hnd as (_ & Hd & _). apply (Hd i H1), elem_of_stk.
  exists t. split; [done|]. by rewrite fn_lookup_insert_ne by done.
Qed.

(** A chain depends on the parents of its tasks and the saved pointers of all but the
    top. *)
Lemma chain_ext k k' s :
  (∀ i, i ∈ tk_pid <$> s → Kstate.parent_pid (pcb_of k' i) = Kstate.parent_pid (pcb_of k i)) →
  (∀ i, i ∈ tk_pid <$> tail s → p_esp (pcb_of k' i) = p_esp (pcb_of k i) ∧
                                p_ebp (pcb_of k' i) = p_ebp (pcb_of k i)) →
  chain k s → chain k' s.
Proof.
  induction s as [|x r IH]; [done|]. intros Hp Hr (H1 & H2 & H3).
  change (fmap tk_pid (x :: r)) with (tk_pid x :: (tk_pid <$> r)) in Hp. simpl tail in Hr.
  split_and!.
  - rewrite Hp; [done|by left].
  - apply IH; [intros i Hi; apply Hp; by right| |done].
    intros i Hi. apply Hr. destruct r; [done|]. by right.
  - destruct r as [|y r]; [done|]. destruct (Hr (tk_pid y)) as [-> ->]; [by left|done].
Qed.

(** ** The relation is kept *)

Lemma pcb_of_links k k' i :
  same_procs k k' → pcb_links (pcb_of k' i) = pcb_links (pcb_of k i).
Proof. intros H. apply H. Qed.

Lemma pid_of_same k k' t : same_procs k k' → pid_of k' t = pid_of k t.
Proof.
  intros []. unfold pid_of. rewrite sp_run0, sp_pid0. case_test; [done|].
  specialize (sp_term0 t). by injection sp_term0.
Qed.

Lemma refines_same k k' S : same_procs k k' → refines k S → refines k' S.
Proof.
  intros Hs [[] Ht]. pose proof Hs as [].
  assert (∀ i, pcb_links (pcb_of k' i) = pcb_links (pcb_of k i)) as Hl by (intros; by apply pcb_of_links).
  split; [constructor|]; try congruence.
  - destruct rf_ring0 as [Hn Hr]. split; [congruence|]. intros t Ht'.
    destruct (Hr t Ht'). specialize (sp_term0 t). injection sp_term0. intros -> _ ->. done.
  - intros i Hi. unfold pid_used. rewrite sp_map0. by apply rf_used0.
  - done.
  - intros t Ht'. rewrite (pid_of_same k) by done. auto.
  - intros t Ht'. eapply (chain_ext k); [..|by apply rf_chain0];
      intros i _; specialize (Hl i); by injection Hl.
  - rewrite sp_pid0, sp_ptr0. done.
  - intros i Hi. specialize (Hl i). injection Hl. intros -> _ _ _. auto.
  - rewrite sp_pid0, sp_tss0. done.
Qed.

(** The current process is the top of the running stack. *)
Lemma refines_cur k S : refines0 k S → cur_pid (prc k) = top_pid (s_stk S (s_run S)).
Proof.
  intros []. destruct rf_run0 as [E ?]. rewrite <- rf_top0 by done. rewrite <- E.
  by rewrite pid_of_running.
Qed.

Lemma refines_cur_in k S :
  refines0 k S → cur_pid (prc k) ≠ -1 → cur_pid (prc k) ∈ stk_pids (s_stk S).
Proof.
  intros Hr. rewrite (refines_cur k S Hr). intros Hn. apply top_in; [apply Hr|].
  by destruct (s_stk S (s_run S)).
Qed.

Section spawn.
Context (k k' : kernel) (S : sys) (pid e b : Z) (args : list Z).
Hypothesis Hr : refines0 k S.
Hypothesis Hpid : 0 ≤ pid < 6.
Hypothesis Hfree : ¬ pid_used k pid.
Hypothesis Ep : prc k' = spawned pid args e b (prc k).
Hypothesis Ec : con k' = con k.

Lemma spawn_fresh : pid ∉ stk_pids (s_stk S).
Proof. rewrite <- (rf_used _ _ Hr) by done. done. Qed.

Lemma spawn_ptr : cur_pid (prc k) ≠ -1 → cur_pcb_ptr (prc k) ≠ get_pcb_ptr pid.
Proof.
  intros Hn. rewrite (rf_cur _ _ Hr Hn). intros E.
  pose proof (refines_cur_in k S Hr Hn) as Hin.
  apply get_pcb_ptr_inj in E; [|by apply (rf_range _ _ Hr)|done].
  apply spawn_fresh. by rewrite <- E.
Qed.

Lemma spawn_pcb i :
  i ∈ pid :: stk_pids (s_stk S) →
  pcb_of k' i = if decide (i = pid)
    then new_pcb (cur_pid (prc k)) pid args (pcb_of k pid)
    else if decide (i = cur_pid (prc k)) then set_p_regs e b (pcb_of k i) else pcb_of k i.
Proof.
  intros Hi. unfold pcb_of. rewrite Ep, spawned_pcb by apply spawn_ptr.
  case_decide as E1; case_decide as E2.
  - done.
  - exfalso. apply E2. apply get_pcb_ptr_inj; [|done|done].
    apply elem_of_cons in Hi as [->|Hi]; [done|]. by apply (rf_range _ _ Hr).
  - by subst.
  - apply elem_of_cons in Hi as [?|Hi]; [done|].
    pose proof (rf_range _ _ Hr i Hi) as Hir. case_decide as E3.
    + destruct (Z.eqb_spec (cur_pid (prc k)) (-1)); [lia|].
      rewrite (rf_cur _ _ Hr), bool_decide_eq_true_2 by congruence. done.
    + destruct (Z.eqb_spec (cur_pid (prc k)) (-1)) as [|Hn]; [done|].
      rewrite (rf_cur _ _ Hr) by done. rewrite bool_decide_eq_false_2; [done|].
      intros E. apply E3. apply get_pcb_ptr_inj; [done| |done].
      apply (rf_range _ _ Hr), refines_cur_in; done.
Qed.

Local Abbreviation run := (s_run S).
Local Abbreviation f' := (<[run := push pid e b (s_stk S run)]> (s_stk S)).

Lemma spawn_elem i : i ∈ stk_pids f' ↔ i = pid ∨ i ∈ stk_pids (s_stk S).
Proof. rewrite stk_push by apply Hr. apply elem_of_cons. Qed.

Lemma spawn_used i : 0 ≤ i < 6 → pid_used k' i ↔ i = pid ∨ pid_used k i.
Proof.
  intros Hi. pose proof (pid_used_use k pid 1 i (rf_len _ _ Hr) Hpid ltac:(lia)) as H.
  unfold pid_used in *. rewrite Ep. destruct (spawned_misc pid args e b (prc k)) as (_ & _ & ->).
  etransitivity; [exact H|]. case_decide; [|tauto]. split; [by left|lia].
Qed.

(** The links of the other tasks. *)
Lemma spawn_old i :
  i ∈ stk_pids (s_stk S) →
  Kstate.parent_pid (pcb_of k' i) = Kstate.parent_pid (pcb_of k i) ∧
  tss_esp0 (pcb_of k' i) = tss_esp0 (pcb_of k i) ∧
  (i ≠ cur_pid (prc k) → p_esp (pcb_of k' i) = p_esp (pcb_of k i) ∧
                         p_ebp (pcb_of k' i) = p_ebp (pcb_of k i)).
Proof.
  intros Hi. rewrite spawn_pcb by (by right).
  rewrite decide_False by (intros ->; by apply spawn_fresh).
  case_decide; split_and!; done.
Qed.

Lemma spawn_new :
  Kstate.parent_pid (pcb_of k' pid) = u32 (cur_pid (prc k)) ∧
  tss_esp0 (pcb_of k' pid) = stack_top pid.
Proof.
  rewrite spawn_pcb by (by left). rewrite decide_True by done. split.
  - by rewrite (new_pcb_field Kstate.parent_pid).
  - by rewrite (new_pcb_field tss_esp0).
Qed.

Lemma spawn_chain_other t : 0 ≤ t < 3 → t ≠ run → chain k' (s_stk S t).
Proof.
  intros Ht Hne. assert (∀ i, i ∈ tk_pid <$> s_stk S t → i ∈ stk_pids (s_stk S)) as Hin.
  { intros i Hi. apply elem_of_stk. by exists t. }
  apply (chain_ext k); [intros i Hi; by apply spawn_old, Hin| |by apply Hr].
  intros i Hi. assert (i ∈ tk_pid <$> s_stk S t) as Hi'.
  { destruct (s_stk S t); [done|by right]. }
  apply spawn_old; [by apply Hin|]. intros ->.
  rewrite (refines_cur k S Hr) in Hi'.
  destruct (s_stk S run) as [|x r] eqn:E.
  - apply Hin, (rf_range _ _ Hr) in Hi'. simpl in Hi'. lia.
  - eapply (stk_disjoint _ run t); [apply Hr|apply Hr|done|by apply not_eq_sym| |exact Hi'].
    rewrite E. by left.
Qed.

Lemma spawn_chain_run : chain k' (push pid e b (s_stk S run)).
Proof.
  destruct spawn_new as [Hpar _].
  pose proof (refines_cur k S Hr) as Ecur. pose proof (rf_chain _ _ Hr run ltac:(apply Hr)) as Hch.
  pose proof (rf_nodup _ _ Hr) as Hnd. rewrite (stk_split _ run) in Hnd by apply Hr.
  assert (∀ i, i ∈ tk_pid <$> s_stk S run → i ∈ stk_pids (s_stk S)) as Hin.
  { intros i Hi. apply elem_of_stk. exists run. split; [apply Hr|done]. }
  unfold push. destruct (s_stk S run) as [|x r] eqn:E; simpl in Ecur.
  - simpl. rewrite Hpar, Ecur. done.
  - apply NoDup_app in Hnd as (Hnd & _ & _). apply NoDup_cons in Hnd as [Hx _].
    split; [by rewrite <- Ecur|split].
    + change (chain k' (Task (tk_pid x) e b :: r)) with (chain k' (x :: r)).
      apply (chain_ext k); [intros i Hi; by apply spawn_old, Hin| |done].
      intros i Hi. apply spawn_old; [by apply Hin; right|]. intros ->. rewrite Ecur in Hi. done.
    + simpl. rewrite spawn_pcb by (right; apply Hin; by left).
      rewrite decide_False by (intros Ex; apply spawn_fresh; rewrite <- Ex; apply Hin; by left).
      by rewrite decide_True by done.
Qed.

Lemma refines_spawn : refines k' (Sys run f').
Proof.
  destruct (spawned_misc pid args e b (prc k)) as (E1 & E2 & E3).
  pose proof (rf_run _ _ Hr) as [Erun Hrun].
  split; [constructor|]; simpl.
  - by rewrite Ec.
  - unfold term. rewrite Ec. apply Hr.
  - rewrite Ep, E3, length_insert. apply Hr.
  - intros i Hi. rewrite spawn_used, spawn_elem by done. by rewrite (rf_used _ _ Hr).
  - intros i [->|Hi]%spawn_elem; [done|]. by apply (rf_range _ _ Hr).
  - rewrite stk_push by done. apply NoDup_cons. split; [apply spawn_fresh|apply Hr].
  - intros t Ht. unfold pid_of, term. rewrite Ec, Ep, E1.
    destruct (Z.eqb_spec t (running_term_ptr (con k))) as [->|Hne].
    + rewrite Erun, fn_lookup_insert. done.
    + rewrite Erun in Hne. rewrite fn_lookup_insert_ne by done.
      rewrite <- (rf_top _ _ Hr) by done. unfold pid_of. rewrite Erun.
      by rewrite (proj2 (Z.eqb_neq t run) Hne).
  - intros t Ht. destruct (decide (t = run)) as [->|Hne].
    + rewrite fn_lookup_insert. apply spawn_chain_run.
    + rewrite fn_lookup_insert_ne by done. by apply spawn_chain_other.
  - intros _. by rewrite Ep, E1, E2.
  - intros i [->|Hi]%spawn_elem; [apply spawn_new|].
    destruct (spawn_old i Hi) as (_ & -> & _). by apply (rf_esp0 _ _ Hr).
  - intros _. rewrite Ep, E1. apply spawned_tss, spawn_ptr.
Qed.
End spawn.

(** Removing the top of the running stack. *)
Lemma refines_pop k k' S x r :
  refines0 k S → s_stk S (s_run S) = x :: r →
  pcb_bitmap (prc k') = <[Z.to_nat (tk_pid x) := 0]> (pcb_bitmap (prc k)) →
  cur_pid (prc k') = top_pid r →
  (cur_pid (prc k') ≠ -1 → cur_pcb_ptr (prc k') = get_pcb_ptr (cur_pid (prc k'))) →
  (∀ q, pcb_links (get_pcb (prc k') q) = pcb_links (get_pcb (prc k) q)) →
  con_quiet (con k) (con k') →
  refines0 k' (Sys (s_run S) (<[s_run S := r]> (s_stk S))).
Proof.
  intros Hr Ex Eb Ecur Hptr Hlinks [Cr Ct Cl].
  pose proof (rf_run _ _ Hr) as [Erun Hrun].
  pose proof (stk_pop _ _ _ _ Hrun Ex) as Hperm.
  assert (0 ≤ tk_pid x < 6) as Hx by (apply (rf_range _ _ Hr); rewrite Hperm; by left).
  assert (NoDup (tk_pid x :: stk_pids (<[s_run S := r]> (s_stk S)))) as Hnd
    by (rewrite <- Hperm; apply Hr).
  apply NoDup_cons in Hnd as [Hni Hnd].
  assert (∀ i, i ∈ stk_pids (<[s_run S := r]> (s_stk S)) → i ∈ stk_pids (s_stk S)) as Hsub
    by (intros i Hi; rewrite Hperm; by right).
  assert (∀ i, pcb_links (pcb_of k' i) = pcb_links (pcb_of k i)) as Hl by (intros; apply Hlinks).
  assert (∀ s, chain k s → chain k' s) as Hch.
  { intros s. apply chain_ext; intros i _; specialize (Hl i); by injection Hl. }
  constructor; simpl.
  - by rewrite Cr.
  - destruct (rf_ring _ _ Hr) as [Hn Hring]. split; [congruence|]. intros t Ht.
    destruct (Hring t Ht). specialize (Ct t). injection Ct. unfold term. intros -> _ ->. done.
  - rewrite Eb, length_insert. apply Hr.
  - intros i Hi.
    assert (pid_used k' i ↔ pid_used (use_pid (tk_pid x) 0 k) i) as ->
      by (unfold pid_used; by rewrite Eb).
    rewrite pid_used_use by (lia || apply Hr). case_decide as E.
    + subst. split; [lia|done].
    + rewrite (rf_used _ _ Hr) by done. rewrite Hperm, elem_of_cons. tauto.
  - intros i Hi. by apply (rf_range _ _ Hr), Hsub.
  - done.
  - intros t Ht. unfold pid_of, term. rewrite Cr, Erun.
    destruct (Z.eqb_spec t (s_run S)) as [->|Hne]; [by rewrite fn_lookup_insert|].
    rewrite fn_lookup_insert_ne by done. rewrite <- (rf_top _ _ Hr) by done.
    unfold pid_of. rewrite Erun, (proj2 (Z.eqb_neq _ _) Hne).
    specialize (Ct t). by injection Ct.
  - intros t Ht. apply Hch. destruct (decide (t = s_run S)) as [->|Hne].
    + rewrite fn_lookup_insert. pose proof (rf_chain _ _ Hr _ Hrun) as H. rewrite Ex in H.
      by destruct H as (_ & ? & _).
    + rewrite fn_lookup_insert_ne by done. by apply Hr.
  - done.
  - intros i Hi. specialize (Hl i). injection Hl. intros -> _ _ _.
    by apply (rf_esp0 _ _ Hr), Hsub.
Qed.

(** ** halt *)

Lemma same_procs_halt_vidmap k : same_procs k (halt_vidmap k).
Proof.
  unfold halt_vidmap. apply same_procs_if; [|done].
  transitivity (upd_term (running_term_ptr (con (upd_cur (set_p_vidmap 0) k)))
    (set_t_vidmap_flag 0) (upd_cur (set_p_vidmap 0) k)).
  - etransitivity; [|by apply same_procs_upd_term]. by apply same_procs_upd_cur.
  - apply same_procs_if; by constructor.
Qed.

(** The links after [halt_restore]: only the TSS has changed. *)
Lemma halt_restore_procs k :
  let p := get_pcb_ptr (s32 (Kstate.parent_pid (cur_pcb k))) in
  same_procs (upd_prc (set_tss KERNEL_DS (tss_esp0 (get_pcb (prc k) p))) k) (halt_restore k).
Proof.
  simpl. unfold halt_restore. etransitivity; [|apply same_procs_halt_vidmap].
  etransitivity; [|apply same_procs_for_up; intros; apply same_procs_close].
  by constructor.
Qed.

Definition halt_status (status : Z) : Z := if status =? 255 then 256 else u16 status.

Lemma cur_parent_same k k' :
  same_procs k k' → Kstate.parent_pid (cur_pcb k') = Kstate.parent_pid (cur_pcb k).
Proof.
  intros Hs. unfold cur_pcb. rewrite (sp_ptr _ _ Hs).
  pose proof (sp_links _ _ Hs (cur_pcb_ptr (prc k))) as H. by injection H.
Qed.

Lemma halt_tail_eq status k k1 :
  let parent := s32 (Kstate.parent_pid (cur_pcb k)) in
  let ptr := get_pcb_ptr parent in
  let frame := p_ebp (get_pcb (prc k) ptr) in
  same_procs (upd_prc (set_tss KERNEL_DS (tss_esp0 (get_pcb (prc k) ptr))) k) k1 →
  halt_tail status ptr k1 =
  Resume (halt_status status) (ld32 (X := kx k1) (pmem k1) (frame + 4))
    (set_cpu (Cpu (u32 (frame + 8)) (ld32 (X := kx k1) (pmem k1) frame) (if_flag (kcpu k1)))
      (upd_prc (set_cur parent ptr) k1)).
Proof.
  intros parent ptr frame H. unfold halt_tail. rewrite (cur_parent_same _ _ H).
  change (cur_pcb (upd_prc (set_tss ?a ?b) k)) with (cur_pcb k). fold parent.
  assert (p_ebp (get_pcb (prc (upd_prc (set_cur parent ptr) k1)) ptr) = frame) as E.
  { pose proof (sp_links _ _ H ptr) as Hl. injection Hl. intros _ Hb _ _. exact Hb. }
  by rewrite E.
Qed.

Lemma halt_return_eq status k :
  let parent := s32 (Kstate.parent_pid (cur_pcb k)) in
  let ptr := get_pcb_ptr parent in
  let k1 := halt_restore k in
  let frame := p_ebp (get_pcb (prc k) ptr) in
  halt_return status k =
  Resume (halt_status status) (ld32 (X := kx k1) (pmem k1) (frame + 4))
    (set_cpu (Cpu (u32 (frame + 8)) (ld32 (X := kx k1) (pmem k1) frame) (if_flag (kcpu k1)))
      (upd_prc (set_cur parent ptr) k1)).
Proof.
  exact (halt_tail_eq status k (halt_restore k) (halt_restore_procs k)).
Qed.

(** The state in which [halt] gives the pid back. *)
Lemma decord_eq k :
  0 ≤ cur_pid (prc k) < 6 → pid_used k (cur_pid (prc k)) →
  decord_process (cur_pid (prc k)) k = Some (0, use_pid (cur_pid (prc k)) 0 k).
Proof.
  intros Hr Hu. unfold decord_process, MAX_NUM_PROCESS.
  destruct (Z.ltb_spec (cur_pid (prc k)) 0); [lia|].
  destruct (Z.leb_spec 6 (cur_pid (prc k))); [lia|]. simpl.
  destruct (Z.eqb_spec (nth (Z.to_nat (cur_pid (prc k))) (pcb_bitmap (prc k)) 0) 0); done.
Qed.

(** ** execute *)

(** A new process [pid], the lowest free one. *)
Record spawns k (pid e b : Z) (k' : kernel) : Prop := {
  sw_pid : 0 ≤ pid < 6;
  sw_free : ¬ pid_used k pid;
  sw_low : all_used_below k pid;
  sw_prc : ∃ args, prc k' = spawned pid args e b (prc k);
  sw_con : con k' = con k;
  sw_mmu : kmmu k' = setup_paging_and_flush_tlb pid (kmmu k);
}.

Lemma exec_load_spawns nr args k :
  (∃ v k1, exec_load nr args k = Ret v k1 ∧ same_procs k k1) ∨
  ∃ pid eip sp k', exec_load nr args k = Iret eip sp k' ∧
    spawns k pid (esp (kcpu k)) (ebp (kcpu k)) k'.
Proof.
  destruct (exec_load_cases nr args k) as [[_ ->]|(pid & Hp & Hf & Hb & E)].
  - left. eexists _, _. split; [done|]. apply same_procs_kprint. by apply (bool_decide_unpack _).
  - right. exists pid. eexists _, _, _. split; [exact E|].
    assert (con (exec_image pid nr k) = con k ∧
      kmmu (exec_image pid nr k) = setup_paging_and_flush_tlb pid (kmmu k)) as [Ec Em]
      by (by rewrite exec_image_eq).
    revert Ec Em. generalize (exec_image pid nr k) as k1. intros k1 Ec Em.
    constructor; [done|done|done|by eexists|done|done].
Qed.

Lemma execute_spawns ui k o :
  syscall_execute ui k = Some o →
  (∃ v k1, o = Ret v k1 ∧ same_procs k k1) ∨
  ∃ pid eip sp k', o = Iret eip sp k' ∧ spawns k pid (esp (kcpu k)) (ebp (kcpu k)) k'.
Proof.
  unfold syscall_execute. set (k0 := cli k).
  assert (same_procs k k0 ∧ prc k0 = prc k ∧ con k0 = con k ∧
    esp (kcpu k0) = esp (kcpu k) ∧ ebp (kcpu k0) = ebp (kcpu k) ∧ kmmu k0 = kmmu k)
    as (S0 & E0 & C0 & P0 & B0 & M0) by done.
  clearbody k0. case_test; [intros [= <-]; left; by eexists _, _|].
  destruct (parse_args _ _ _ _) as [[r m]|]; [|done].
  destruct (r =? -1); [intros [= <-]; left; eexists _, _; split; [done|];
    etransitivity; [exact S0|apply same_procs_set_mem]|].
  destruct (read_dentry_by_name _ _ _) as [[r1 m1]|]; [|done].
  assert (∀ m msg, Forall (λ c, c ≠ 37) msg → same_procs k (kprint msg (set_mem m k0))) as Hmsg.
  { intros m' msg Hf. etransitivity; [exact S0|].
    etransitivity; [apply same_procs_set_mem|by apply same_procs_kprint]. }
  destruct (r1 =? -1).
  { intros [= <-]. left. eexists _, _. split; [done|].
    apply (Hmsg m1). by apply (bool_decide_unpack _). }
  destruct (read_data _ _ _ _ _ _) as [v2 m2].
  destruct (_ || _).
  { intros [= <-]. left. eexists _, _. split; [done|].
    apply (Hmsg m2). by apply (bool_decide_unpack _). }
  intros [= <-].
  change (set_mem m2 (set_mem m1 (set_mem m k0))) with (set_mem m2 k0).
  match goal with |- context [exec_load ?nr ?a ?x] =>
    destruct (exec_load_spawns nr a x) as [(v & k1 & -> & H)|(pid & eip & sp & k' & -> & H)] end.
  - left. eexists _, _. split; [done|]. etransitivity; [exact S0|].
    etransitivity; [apply same_procs_set_mem|exact H].
  - right. eexists _, _, _, _. split; [done|]. destruct H as [? Hf Hl Hp Hc Hm].
    unfold pid_used, all_used_below, pid_used in *. simpl in *.
    constructor; unfold all_used_below, pid_used; rewrite <- ?P0, <- ?B0, <- ?E0, <- ?M0;
      [done..|congruence|done].
Qed.

Lemma nested_execute size ui k o :
  nested size (syscall_execute ui) k = Some o → cur_pid (prc k) = -1 →
  (∃ v k1, o = Ret v k1 ∧ same_procs k k1) ∨
  ∃ pid eip sp k' e b, o = Iret eip sp k' ∧ spawns k pid e b k'.
Proof.
  unfold nested. set (k0 := set_cpu _ k). intros H _.
  destruct (syscall_execute ui k0) as [o'|] eqn:E; [|done].
  apply execute_spawns in E as [(v & k1 & -> & Hs)|(pid & eip & sp & k' & -> & Hs)];
    injection H as <-.
  - left. eexists _, _. split; [done|]. destruct Hs. by constructor.
  - right. eexists _, _, _, _, _, _. split; [done|]. destruct Hs. by constructor.
Qed.

(** ** Formatted output *)

Lemma same_procs_puts a k v k' : puts a k = Some (v, k') → same_procs k k'.
Proof.
  unfold puts. intros H.
  apply (while32_pres _ (λ st, same_procs k (snd st)) (λ st, same_procs k (snd st))) in H;
    [done| |done].
  intros [i k1] Hk1. unfold puts_step. simpl in Hk1 |- *. case_test; simpl; [done|].
  etransitivity; [exact Hk1|apply same_procs_nb_putc].
Qed.

Lemma same_procs_printf_loop fmt mode args k k' :
  printf_loop fmt mode args k = Some k' → same_procs k k'.
Proof.
  revert mode args k. induction fmt as [|c fmt IH]; intros mode args k; simpl.
  { destruct mode; [done|]. by intros [= <-]. }
  assert (∀ mode args k1, same_procs k k1 → printf_loop fmt mode args k1 = Some k' →
    same_procs k k') as Hgo.
  { intros mode' args' k1 H1 H. etransitivity; [exact H1|by eapply IH]. }
  destruct mode as [alt|].
  - repeat match goal with
    | |- (if ?b then _ else _) = _ → _ => destruct b
    | |- match ?x with _ => _ end = _ → _ => destruct x as [|a args'] eqn:?; try done
    end; try (apply Hgo; first [done | apply same_procs_nb_putc | apply same_procs_put_list]).
    all: repeat match goal with
    | |- match ?x with _ => _ end = _ → _ => destruct x eqn:?; try done
    end; try (apply Hgo; first [done | apply same_procs_nb_putc | apply same_procs_put_list]).
    destruct p as [v k1]. apply Hgo. by eapply same_procs_puts.
  - case_test; apply Hgo; [done|apply same_procs_nb_putc].
Qed.

Lemma same_procs_printf fmt args k v k' : printf fmt args k = Some (v, k') → same_procs k k'.
Proof.
  unfold printf. destruct (printf_loop fmt None args k) as [k1|] eqn:E; [|done].
  intros [= _ <-]. by eapply same_procs_printf_loop.
Qed.

(** ** Simulation of halt *)

Lemma refines_ext k r f g : (∀ x, f x = g x) → refines k (Sys r f) → refines k (Sys r g).
Proof.
  intros H [[] Ht]. simpl in *. pose proof (stk_pids_ext f g H) as E.
  split; [constructor|]; simpl; rewrite <- ?E; try done;
    intros t Htr; rewrite <- H; auto.
Qed.

Lemma spawns_refines k k' S pid e b :
  refines0 k S → spawns k pid e b k' →
  refines k' (Sys (s_run S) (<[s_run S := push pid e b (s_stk S (s_run S))]> (s_stk S))) ∧
  lowest_free (s_stk S) pid.
Proof.
  intros Hr [Hp Hf Hl [args Ep] Ec _]. split; [by eapply refines_spawn|].
  split_and!; [lia|lia|by rewrite <- (rf_used _ _ Hr)|].
  intros j Hj. rewrite <- (rf_used _ _ Hr) by lia. by apply Hl.
Qed.

Lemma refines_cli k S : refines k S → refines (cli k) S.
Proof. apply refines_same. by constructor. Qed.

(** The parent link of the current process leads to the task below it. *)
Lemma refines_parent k S x r :
  refines0 k S → s_stk S (s_run S) = x :: r →
  cur_pid (prc k) = tk_pid x ∧ 0 ≤ tk_pid x < 6 ∧ pid_used k (tk_pid x) ∧
  Kstate.parent_pid (cur_pcb k) = u32 (top_pid r) ∧ (r ≠ [] → 0 ≤ top_pid r < 6).
Proof.
  intros Hr Ex. pose proof (refines_cur k S Hr) as Ec. rewrite Ex in Ec. simpl in Ec.
  assert (∀ i, i ∈ tk_pid <$> (x :: r) → i ∈ stk_pids (s_stk S)) as Hin.
  { intros i Hi. apply elem_of_stk. exists (s_run S). split; [apply Hr|by rewrite Ex]. }
  assert (tk_pid x ∈ stk_pids (s_stk S)) as Hx by (apply Hin; by left).
  assert (0 ≤ tk_pid x < 6) as Hxr by (by apply (rf_range _ _ Hr)).
  split_and!; [done|lia|lia|by apply (rf_used _ _ Hr)| |].
  - pose proof (rf_chain _ _ Hr (s_run S) ltac:(apply Hr)) as Hch. rewrite Ex in Hch.
    destruct Hch as (<- & _). unfold cur_pcb, pcb_of.
    rewrite (rf_cur _ _ Hr) by lia. by rewrite Ec.
  - intros Hn. destruct r as [|y r]; [done|]. apply (rf_range _ _ Hr), Hin. right. by left.
Qed.

Lemma halt_step status k S o :
  refines k S → cur_pid (prc k) ≠ -1 → syscall_halt status k = Some o →
  (Kstate.parent_pid (cur_pcb k) = u32 (-1) → ∃ eip sp k', o = Iret eip sp k') →
  ∃ S', sstep S S' ∧ refines (outcome_k o) S'.
Proof.
  intros Hr Hn H Hbase. apply refines_cli in Hr as Hr0. revert H Hbase. unfold syscall_halt.
  change (cur_pcb k) with (cur_pcb (cli k)). change (cur_pid (prc k)) with (cur_pid (prc (cli k))) in Hn.
  clear Hr. generalize dependent (cli k). clear k. intros k Hn Hr.
  pose proof (rf_0 _ _ Hr) as Hr0. destruct (s_stk S (s_run S)) as [|x r] eqn:Ex.
  { pose proof (refines_cur k S Hr0) as E. rewrite Ex in E. done. }
  destruct (refines_parent k S x r Hr0 Ex) as (Ec & Hx & Hu & Epar & Htop).
  rewrite decord_eq by (by rewrite Ec). rewrite Ec.
  assert (cur_pcb (use_pid (tk_pid x) 0 k) = cur_pcb k) as Ecp by done.
  rewrite Ecp, Epar.
  destruct r as [|y r].
  - change (u32 (top_pid [])) with (u32 (-1)). rewrite Z.eqb_refl. intros H Hbase.
    destruct (Hbase eq_refl) as (eip & sp & k' & ->). clear Hbase.
    set (k2 := upd_prc _ (use_pid (tk_pid x) 0 k)) in H.
    assert (refines0 k2 (Sys (s_run S) (<[s_run S := []]> (s_stk S)))) as Hr2
      by (by apply (refines_pop k k2 S x [])).
    destruct (nested fr_halt (syscall_execute str_shell) k2) as [o|] eqn:E; [|done].
    apply nested_execute in E as [(v & k1 & -> & _)|(pid & eip' & sp' & k1 & e & b & -> & Hs)];
      [done| |done]. injection H as -> -> ->.
    destruct (spawns_refines k2 k' _ pid e b Hr2 Hs) as [Hk' Hlow]. simpl in *.
    exists (Sys (s_run S) (<[s_run S := [Task pid 0 0]]> (s_stk S))).
    split; [by eapply ss_restart|]. rewrite fn_lookup_insert in Hk'.
    eapply refines_ext; [|exact Hk']. intros t. apply fn_insert_twice.
  - simpl top_pid in *. specialize (Htop ltac:(done)).
    destruct (Z.eqb_spec (u32 (tk_pid y)) (u32 (-1))) as [E|_].
    { change (u32 (-1)) with 4294967295 in E. rewrite u32_small in E by lia. lia. }
    intros [= <-] _. rewrite halt_return_eq. cbv zeta. rewrite Ecp, Epar.
    rewrite (u32_small (tk_pid y)), s32_small by lia.
    pose proof (halt_restore_procs (use_pid (tk_pid x) 0 k)) as Hs. cbv zeta in Hs.
    rewrite Ecp, Epar, (u32_small (tk_pid y)), s32_small in Hs by lia.
    generalize dependent (halt_restore (use_pid (tk_pid x) 0 k)). intros k1 Hs.
    cbn [outcome_k]. generalize (Cpu (u32 (p_ebp (get_pcb (prc (use_pid (tk_pid x) 0 k))
      (get_pcb_ptr (tk_pid y))) + 8)) (ld32 (X := kx k1) (pmem k1)
      (p_ebp (get_pcb (prc (use_pid (tk_pid x) 0 k)) (get_pcb_ptr (tk_pid y)))))
      (if_flag (kcpu k1))) as c. intros c.
    exists (Sys (s_run S) (<[s_run S := y :: r]> (s_stk S))).
    split; [by eapply ss_halt|]. split.
    + apply (refines_pop k _ S x (y :: r)); [done|done|by destruct Hs|done|done|by destruct Hs|].
      by destruct Hs; constructor.
    + intros _. simpl. rewrite (sp_tss _ _ Hs). simpl.
      apply (rf_esp0 _ _ Hr0), elem_of_stk. exists (s_run S). split; [apply Hr0|].
      rewrite Ex. right. by left.
Qed.

(** ** Simulation of the timer tick *)

(** The state of [schedule] before it loads the next process or starts a shell. *)
Definition sched_moved (next : Z) k : kernel :=
  upd_prc (set_cur (t_pid (term k next)) (get_pcb_ptr (t_pid (term k next))))
    (upd_con (set_running next) (sched_save k)).

Lemma schedule_moved k S :
  refines0 k S →
  schedule k =
  let k1 := sched_moved (s_next S) k in
  let pid := t_pid (term k (s_next S)) in
  if pid =? -1 then
    match launch_base_shell (s_next S) k1 with
    | Some (Ret _ k) => Some (Ret 0 (sched_load pid (kprint msg_not_printed k)))
    | r => r
    end
  else Some (Ret 0 (sched_load pid k1)).
Proof.
  intros Hr. destruct (rf_run _ _ Hr) as [Er Hrun]. destruct (rf_ring _ _ Hr) as [Hlen Hring].
  assert (0 ≤ s_next S < 3) as Hn by (apply Z.mod_pos_bound; lia).
  assert (s_next S ≠ s_run S) as Hne by (unfold s_next; Z.div_mod_to_equations; lia).
  assert (t_next_term_to_run (running (sched_save k)) = s_next S) as E1.
  { unfold running, term. rewrite sched_save_con. simpl.
    rewrite con_term_upd, decide_True by (done || lia).
    simpl. rewrite Er. by apply Hring. }
  assert (t_pid (term (sched_save k) (s_next S)) = t_pid (term k (s_next S)) ∧
          t_tid (term (sched_save k) (s_next S)) = s_next S) as [E2 E3].
  { unfold term. rewrite sched_save_con, con_term_upd, decide_False by lia.
    split; [done|by apply Hring]. }
  unfold schedule. rewrite E1, E2.
  change (term (upd_prc ?f (upd_con (set_running ?n) ?x)) ?t) with (term x t).
  rewrite E3. done.
Qed.

Lemma moved_pid k S t :
  refines0 k S → 0 ≤ t < 3 → pid_of (sched_moved (s_next S) k) t = pid_of k t.
Proof.
  intros Hr Ht. destruct (rf_run _ _ Hr) as [Er Hrun]. destruct (rf_ring _ _ Hr) as [Hlen Hring].
  assert (s_next S ≠ s_run S) as Hne by (unfold s_next; Z.div_mod_to_equations; lia).
  unfold pid_of, term. simpl. rewrite sched_save_con. change (con_term (set_running ?a ?c) t)
    with (con_term c t). rewrite con_term_upd by lia.
  destruct (Z.eqb_spec t (s_next S)) as [->|].
  - rewrite Er, (proj2 (Z.eqb_neq _ _) Hne). done.
  - destruct (Z.eqb_spec t (running_term_ptr (con k))) as [->|].
    + by rewrite decide_True.
    + by rewrite decide_False by lia.
Qed.

(** PCBs after the save: the context of the task that stops. *)
Lemma moved_pcb k S i :
  refines k S → i ∈ stk_pids (s_stk S) →
  Kstate.parent_pid (pcb_of (sched_moved (s_next S) k) i) = Kstate.parent_pid (pcb_of k i) ∧
  tss_esp0 (pcb_of (sched_moved (s_next S) k) i) = stack_top i ∧
  (i ≠ cur_pid (prc k) →
   p_esp (pcb_of (sched_moved (s_next S) k) i) = p_esp (pcb_of k i) ∧
   p_ebp (pcb_of (sched_moved (s_next S) k) i) = p_ebp (pcb_of k i)).
Proof.
  intros [Hr Ht] Hi. pose proof (rf_esp0 _ _ Hr i Hi) as E0.
  change (pcb_of (sched_moved (s_next S) k) i) with (get_pcb (prc (sched_save k)) (get_pcb_ptr i)).
  unfold pcb_of in *. rewrite sched_save_pcb. destruct (Z.eqb_spec (cur_pid (prc k)) (-1)) as [|Hn]; [done|].
  case_bool_decide as E; [|done]. simpl. rewrite (rf_cur _ _ Hr Hn) in E.
  apply get_pcb_ptr_inj in E;
    [|by apply (rf_range _ _ Hr)|by apply (rf_range _ _ Hr), refines_cur_in].
  split_and!; [done|by rewrite E, Ht|done].
Qed.

Lemma refines_moved k S :
  refines k S → refines0 (sched_moved (s_next S) k) (Sys (s_next S) (s_stk S)).
Proof.
  intros Hr. pose proof (rf_0 _ _ Hr) as Hr0.
  destruct (rf_run _ _ Hr0) as [Er Hrun]. destruct (rf_ring _ _ Hr0) as [Hlen Hring].
  assert (0 ≤ s_next S < 3) as Hn by (apply Z.mod_pos_bound; lia).
  constructor; simpl; try (by apply Hr0).
  - done.
  - rewrite sched_save_con. simpl. rewrite length_alter. split; [done|].
    intros t Ht. unfold term. simpl. rewrite sched_save_con.
    change (con_term (set_running ?a ?c) t) with (con_term c t).
    rewrite con_term_upd by lia. case_decide; [subst|]; apply Hring; lia.
  - destruct (sched_save_rest k) as (_ & _ & _ & ->). apply Hr0.
  - intros i Hi. unfold pid_used. simpl. destruct (sched_save_rest k) as (_ & _ & _ & ->).
    by apply (rf_used _ _ Hr0).
  - intros t Ht. rewrite (moved_pid k S) by done. by apply Hr0.
  - intros t Ht. assert (∀ i, i ∈ tk_pid <$> s_stk S t → i ∈ stk_pids (s_stk S)) as Hin.
    { intros i Hi. apply elem_of_stk. by exists t. }
    apply (chain_ext k); [intros i Hi; by apply moved_pcb, Hin| |by apply Hr0].
    intros i Hi. destruct (s_stk S t) as [|x r] eqn:Ex; [by apply not_elem_of_nil in Hi|].
    apply moved_pcb; [done|by apply Hin; right|]. rewrite (refines_cur k S Hr0).
    destruct (decide (t = s_run S)) as [->|Hne].
    + rewrite Ex. simpl. pose proof (rf_nodup _ _ Hr0) as Hnd.
      rewrite (stk_split _ (s_run S)), Ex in Hnd by done.
      apply NoDup_app in Hnd as (Hnd & _ & _). apply NoDup_cons in Hnd as [Hnx _].
      intros ->. done.
    + intros ->. destruct (s_stk S (s_run S)) as [|z r'] eqn:Ez.
      * assert (-1 ∈ stk_pids (s_stk S)) as H by (apply Hin; by right).
        apply (rf_range _ _ Hr0) in H. lia.
      * eapply (stk_disjoint (s_stk S) (s_run S) t (tk_pid z));
          [apply Hr0|done|done|by apply not_eq_sym|rewrite Ez; by left|].
        rewrite Ex. by right.
  - done.
  - intros i Hi. by apply (moved_pcb k S i Hr Hi).
Qed.

Lemma same_procs_pit_mapped k : same_procs k (pit_mapped k).
Proof.
  unfold pit_mapped. etransitivity; [|apply same_procs_mapping]. by constructor.
Qed.

Lemma refines_load pid k S : refines0 k S → refines0 (sched_load pid k) S.
Proof.
  intros []. unfold sched_load. constructor; try done.
  intros t Ht. by apply (chain_ext k); [..|apply rf_chain0].
Qed.

Lemma load_step k S :
  refines0 k S → cur_pid (prc k) ≠ -1 → refines (sched_load (cur_pid (prc k)) k) S.
Proof.
  intros Hr Hn. split; [by apply refines_load|]. intros _.
  change (tss_esp0_reg (prc (sched_load (cur_pid (prc k)) k)))
    with (tss_esp0 (pcb_of k (cur_pid (prc k)))).
  change (cur_pid (prc (sched_load ?p k))) with (cur_pid (prc k)).
  apply (rf_esp0 _ _ Hr). by apply refines_cur_in.
Qed.

Lemma launch_spawns tid k eip sp k' :
  launch_base_shell tid k = Some (Iret eip sp k') → cur_pid (prc k) = -1 →
  ∃ k2, same_procs k k2 ∧ ∃ pid e b, spawns k2 pid e b k'.
Proof.
  unfold launch_base_shell. generalize fmt_terminal as fmt. intros fmt H Ec.
  destruct (printf fmt [tid] k) as [[v k2]|] eqn:Ep; [|done].
  apply same_procs_printf in Ep. exists k2. split; [done|].
  apply nested_execute in H; [|by rewrite (sp_pid _ _ Ep)].
  destruct H as [(w & k3 & [=] & _)|(pid & eip' & sp' & k3 & e & b & Eo & Hs)].
  assert (k' = k3) as -> by congruence. by exists pid, e, b.
Qed.

Lemma start_shell_step k S eip sp k' :
  refines0 k S → s_stk S (s_run S) = [] → cur_pid (prc k) = -1 →
  launch_base_shell (s_run S) k = Some (Iret eip sp k') →
  ∃ pid, refines k' (Sys (s_run S) (<[s_run S := [Task pid 0 0]]> (s_stk S))) ∧
    lowest_free (s_stk S) pid.
Proof.
  intros Hr Ex Ec H.
  apply launch_spawns in H as (k2 & Ep & (pid & e & b & Hs)); [|done].
  assert (refines k S) as Hm1 by (split; [done|congruence]).
  apply (refines_same _ _ _ Ep) in Hm1 as [Hm2 _].
  destruct (spawns_refines k2 k' S pid e b Hm2 Hs) as [Hk' Hlow].
  rewrite Ex in Hk'. by exists pid.
Qed.

Lemma schedule_step k S o :
  refines k S → schedule k = Some o →
  (s_stk S (s_next S) = [] → ∃ eip sp k', o = Iret eip sp k') →
  ∃ S', sstep S S' ∧ refines (outcome_k o) S'.
Proof.
  intros Hr H Hbase. pose proof (rf_0 _ _ Hr) as Hr0.
  pose proof (rf_run _ _ Hr0) as [Er Hrun].
  assert (0 ≤ s_next S < 3) as Hn by (apply Z.mod_pos_bound; lia).
  assert (s_next S ≠ s_run S) as Hne by (unfold s_next; Z.div_mod_to_equations; lia).
  pose proof (refines_moved k S Hr) as Hm. rewrite (schedule_moved k S Hr0) in H. cbv zeta in H.
  assert (t_pid (term k (s_next S)) = top_pid (s_stk S (s_next S))) as Etop.
  { rewrite <- (rf_top _ _ Hr0) by done. unfold pid_of.
    by rewrite Er, (proj2 (Z.eqb_neq _ _) Hne). }
  assert (cur_pid (prc (sched_moved (s_next S) k)) = top_pid (s_stk S (s_next S))) as Ecur
    by (by rewrite <- Etop).
  assert (top_pid (s_stk S (s_next S)) = -1 ↔ s_stk S (s_next S) = []) as Hempty.
  { split; [|by intros ->]. intros E. destruct (s_stk S (s_next S)) as [|x r] eqn:Ex; [done|].
    assert (tk_pid x ∈ stk_pids (s_stk S)) as Hx.
    { apply elem_of_stk. exists (s_next S). rewrite Ex. split; [done|by left]. }
    apply (rf_range _ _ Hr0) in Hx. simpl in E. lia. }
  rewrite Etop in H. generalize dependent (sched_moved (s_next S) k). intros k1 H Hm Ecur.
  destruct (Z.eqb_spec (top_pid (s_stk S (s_next S))) (-1)) as [E|E].
  - apply Hempty in E as Ex. destruct (Hbase Ex) as (eip & sp & k' & ->).
    destruct (launch_base_shell (s_next S) k1) as [o|] eqn:El; [|done].
    destruct o; try done. injection H as -> -> ->.
    destruct (start_shell_step k1 (Sys (s_next S) (s_stk S)) eip sp k') as (pid & Hk' & Hlow);
      [done..|congruence|done|].
    exists (Sys (s_next S) (<[s_next S := [Task pid 0 0]]> (s_stk S))).
    split; [by apply ss_start|done].
  - injection H as <-. exists (Sys (s_next S) (s_stk S)).
    split; [apply ss_tick; by rewrite <- Hempty|]. rewrite <- Ecur.
    apply load_step; [done..|congruence].
Qed.

Lemma tick_step k S o :
  refines k S → pit_int_handler k = Some o →
  (s_stk S (s_next S) = [] → ∃ eip sp k', o = Iret eip sp k') →
  ∃ S', sstep S S' ∧ refines (outcome_k o) S'.
Proof.
  intros Hr H Hbase. rewrite pit_int_handler_eq in H.
  apply (refines_same _ _ _ (same_procs_pit_mapped k)) in Hr.
  generalize dependent (pit_mapped k). clear k. intros k Hr H.
  destruct (schedule k) as [o'|] eqn:E; [|done].
  assert (∃ S', sstep S S' ∧ refines (outcome_k o') S') as (S' & Hst & Hk').
  { eapply schedule_step; [done|done|]. intros Ex. destruct (Hbase Ex) as (eip & sp & k' & ->).
    destruct o'; simplify_eq. by eexists _, _, _. }
  exists S'. split; [done|]. destruct o'; injection H as <-; try done.
  eapply refines_same; [|exact Hk']. by constructor.
Qed.

(** ** Runs of the kernel *)

Definition starts (o : outcome) : Prop := ∃ eip sp k', o = Iret eip sp k'.

(** One atomic action: a system call of the current process, the end of a wait, an
    interrupt, or user code, which changes registers and user memory.  When [halt] ends the
    first shell of a terminal, or the timer reaches a terminal without a process, the code
    counts on "shell" being executable: the step is there when it is. *)
Inductive kstep : kernel → kernel → Prop :=
  | ks_call eax ebx ecx edx k o :
      cur_pid (prc k) ≠ -1 → syscall_entry eax ebx ecx edx k = Some o →
      (eax = 1 → Kstate.parent_pid (cur_pcb k) = u32 (-1) → starts o) → kstep k (outcome_k o)
  | ks_wait w k v k' : wait_poll w k = Some (v, k') → kstep k k'
  | ks_keyboard k : kstep k (keyboard_int_handler k)
  | ks_rtc k : kstep k (rtc_int_handler k)
  | ks_tick k o :
      pit_int_handler k = Some o → (pid_of k (next_term k) = -1 → starts o) →
      kstep k (outcome_k o)
  | ks_user m c k : kstep k (set_cpu c (set_mem m k)).

Inductive ksteps : kernel → kernel → Prop :=
  | ks_refl k : ksteps k k
  | ks_more k1 k2 k3 : ksteps k1 k2 → kstep k2 k3 → ksteps k1 k3.

Inductive ssteps : sys → sys → Prop :=
  | sts_refl S : ssteps S S
  | sts_more S1 S2 S3 : ssteps S1 S2 → sstep S2 S3 → ssteps S1 S3.

Lemma execute_step ui k S o :
  refines k S → cur_pid (prc k) ≠ -1 → syscall_execute ui k = Some o →
  ∃ S', sstep S S' ∧ refines (outcome_k o) S'.
Proof.
  intros Hr Hn H. apply execute_spawns in H as [(v & k1 & -> & Hs)|(pid & eip & sp & k' & -> & Hs)].
  - exists S. split; [constructor|]. by eapply refines_same.
  - destruct (spawns_refines k k' S pid _ _ (rf_0 _ _ Hr) Hs) as [Hk' Hlow].
    destruct (s_stk S (s_run S)) as [|x r] eqn:Ex.
    { pose proof (refines_cur k S (rf_0 _ _ Hr)) as E. by rewrite Ex in E. }
    eexists. split; [by eapply ss_execute|exact Hk'].
Qed.

Lemma ret2_same k r o :
  (∀ v k', r = Some (v, k') → same_procs k k') → ret2 r = Some o → same_procs k (outcome_k o).
Proof.
  intros H. destruct r as [[v k']|]; [|done]. intros [= <-]. by eapply H.
Qed.

(** Every call but [halt] and [execute] leaves the process structure alone. *)
Lemma other_calls_same eax ebx ecx edx k o :
  eax ≠ 1 → eax ≠ 2 → syscall_entry eax ebx ecx edx k = Some o → same_procs k (outcome_k o).
Proof.
  intros H1 H2. unfold syscall_entry. destruct (_ || _); [by intros [= <-]|].
  rewrite (proj2 (Z.eqb_neq _ _) H1), (proj2 (Z.eqb_neq _ _) H2).
  repeat match goal with |- (if ?b then _ else _) = _ → _ => destruct b end.
  - apply same_procs_read.
  - apply ret2_same. apply same_procs_write.
  - apply ret2_same. apply same_procs_open.
  - apply ret2_same. intros v k' [= E]. pose proof (same_procs_close (s32 ebx) k) as H.
    by rewrite E in H.
  - apply ret2_same. apply same_procs_getargs.
  - apply ret2_same. intros v k' [= E]. pose proof (same_procs_vidmap ebx k) as H.
    by rewrite E in H.
  - by intros [= <-].
  - by intros [= <-].
Qed.

Lemma refines_next k S : refines0 k S → next_term k = s_next S.
Proof. intros Hr. unfold next_term, s_next. by destruct (rf_run _ _ Hr) as [-> _]. Qed.

Lemma kstep_sim k k' S :
  refines k S → kstep k k' → ∃ S', sstep S S' ∧ refines k' S'.
Proof.
  intros Hr Hst. destruct Hst as [eax ebx ecx edx k o Hn H Hb|w k v k' H|k|k|k o H Hb|m c k].
  - destruct (decide (eax = 1)) as [->|H1]; [|destruct (decide (eax = 2)) as [->|H2]].
    + change (syscall_halt (u8 ebx) k = Some o) in H.
      eapply halt_step; [done|done|exact H|]. by apply Hb.
    + change (syscall_execute ebx k = Some o) in H. by eapply execute_step.
    + exists S. split; [constructor|]. eapply refines_same; [|done]. by eapply other_calls_same.
  - exists S. split; [constructor|]. eapply refines_same; [|done]. by eapply same_procs_wait_poll.
  - exists S. split; [constructor|]. eapply refines_same; [|done]. apply same_procs_keyboard.
  - exists S. split; [constructor|]. eapply refines_same; [|done]. apply same_procs_rtc.
  - eapply tick_step; [done|done|]. intros Ex. apply Hb.
    rewrite (rf_top _ _ (rf_0 _ _ Hr)) by apply next_range.
    by rewrite (refines_next k S (rf_0 _ _ Hr)), Ex.
  - exists S. split; [constructor|]. eapply refines_same; [|done]. by constructor.
Qed.

Lemma ksteps_sim k k' S :
  ksteps k k' → refines k S → ∃ S', ssteps S S' ∧ refines k' S'.
Proof.
  intros H. induction H as [k|k1 k2 k3 H IH Hst]; intros Hr; [by exists S; split; [constructor|]|].
  destruct (IH Hr) as (S2 & Hs & Hr2). destruct (kstep_sim _ _ _ Hr2 Hst) as (S3 & Hs3 & Hr3).
  exists S3. split; [by econstructor|done].
Qed.

(** No process yet. *)
Record at_boot k : Prop := {
  ab_con : con_ok (con k);
  ab_term : ∀ t, 0 ≤ t < 3 → t_pid (term k t) = -1;
  ab_cur : cur_pid (prc k) = -1;
  ab_map : pcb_bitmap (prc k) = replicate 6 0;
}.

Definition sys_boot (r : Z) : sys := Sys r (λ _, []).

Lemma boot_refines k : at_boot k → refines k (sys_boot (running_term_ptr (con k))).
Proof.
  intros [Hc Ht Hcur Hm]. split; [constructor; simpl|congruence].
  - split; [done|apply Hc].
  - split; [apply Hc|]. intros t Htr. split; by apply Hc.
  - by rewrite Hm.
  - intros i Hi. unfold pid_used. rewrite Hm, nth_lookup.
    rewrite lookup_replicate_2 by lia. simpl. split; [done|by intros ?%not_elem_of_nil].
  - by intros i ?%not_elem_of_nil.
  - constructor.
  - intros t Htr. unfold pid_of. case_test; [done|auto].
  - done.
  - congruence.
  - by intros i ?%not_elem_of_nil.
Qed.

Lemma refines_pids_ok k S : refines0 k S → pids_ok k.
Proof.
  intros Hr. constructor; [| |apply Hr].
  - intros t Ht. rewrite (rf_top _ _ Hr) by done.
    destruct (decide (s_stk S t = [])) as [->|Hn]; [by left|right].
    apply (rf_range _ _ Hr). by apply top_in.
  - intros s t Hs Ht Hne. rewrite !(rf_top _ _ Hr) by done. intros Hn E.
    destruct (s_stk S s) as [|x r] eqn:Es; [done|]. simpl in E.
    destruct (s_stk S t) as [|y r'] eqn:Et; [done|]. simpl in E.
    eapply (stk_disjoint (s_stk S) s t (tk_pid x)); [apply Hr|done|done|done|rewrite Es; by left|].
    rewrite Et, E. by left.
Qed.

(** The way back to the parent. *)
Lemma halt_return_ok status k a al parent :
  con_ok (con k) → mmu_ok (kmmu k) a al → length (pcb_fds (cur_pcb k)) = 8%nat →
  Kstate.parent_pid (cur_pcb k) = u32 parent → 0 ≤ parent < 6 →
  cur_pcb_ptr (prc k) ≠ get_pcb_ptr parent →
  let frame := p_ebp (get_pcb (prc k) (get_pcb_ptr parent)) in
  ∃ k', halt_return status k =
      Resume (halt_status status) (ld32 (X := kx k') (pmem k) (frame + 4)) k' ∧
    cur_pid (prc k') = parent ∧ cur_pcb_ptr (prc k') = get_pcb_ptr parent ∧
    esp (kcpu k') = u32 (frame + 8) ∧ pmem k' = pmem k ∧
    (∃ al', mmu_ok (kmmu k') (set_prog (Some (parent + 2)) al) al') ∧
    get_pcb (prc k') (get_pcb_ptr parent) = get_pcb (prc k) (get_pcb_ptr parent) ∧
    (∀ fd, 2 ≤ fd < 8 → flags (fd_of (get_pcb (prc k') (cur_pcb_ptr (prc k))) fd) = FREE) ∧
    pcb_bitmap (prc k') = pcb_bitmap (prc k).
Proof.
  intros Hc Hu Hl Epar Hp Hne frame.
  assert (s32 (Kstate.parent_pid (cur_pcb k)) = parent) as Epp
    by (rewrite Epar, u32_small, s32_small; lia).
  destruct (halt_restore_mmu k a al Hc Hu Hl) as [Em Hmm]; [by rewrite Epp|].
  destruct (halt_restore_fds k Hl) as [Ho Hf].
  rewrite halt_return_eq. cbv zeta. rewrite Epp in Hmm |- *. fold frame.
  generalize dependent (halt_restore k). intros k2 Em Hmm Ho Hf.
  exists (set_cpu (Cpu (u32 (frame + 8)) (ld32 (X := kx k2) (pmem k2) frame) (if_flag (kcpu k2)))
    (upd_prc (set_cur parent (get_pcb_ptr parent)) k2)).
  rewrite <- Em. split; [done|]. simpl.
  split_and!; try done; [by eexists|by apply (op_other _ _ Ho), not_eq_sym| |apply Ho].
  intros fd Hfd. rewrite <- (op_ptr' _ _ Ho). by apply Hf.
Qed.

(** [halt] in a process with a parent. *)
Lemma halt_resumes_ok status k S x y r a al :
  refines k S → s_stk S (s_run S) = x :: y :: r → con_ok (con k) → mmu_ok (kmmu k) a al →
  length (pcb_fds (cur_pcb k)) = 8%nat →
  ∃ k', syscall_halt status k =
      Some (Resume (halt_status status) (ld32 (X := kx k') (pmem k) (tk_ebp y + 4)) k') ∧
    cur_pid (prc k') = tk_pid y ∧ cur_pcb_ptr (prc k') = get_pcb_ptr (tk_pid y) ∧
    esp (kcpu k') = u32 (tk_ebp y + 8) ∧ pmem k' = pmem k ∧
    (∃ al', mmu_ok (kmmu k') (set_prog (Some (tk_pid y + 2)) al) al') ∧
    pcb_fds (pcb_of k' (tk_pid y)) = pcb_fds (pcb_of k (tk_pid y)) ∧
    (∀ fd, 2 ≤ fd < 8 → flags (fd_of (pcb_of k' (tk_pid x)) fd) = FREE) ∧
    (∀ i, 0 ≤ i < 6 → pid_used k' i ↔ i ≠ tk_pid x ∧ pid_used k i).
Proof.
  intros Hr Ex Hc Hu Hl. apply refines_cli in Hr as Hr0. unfold syscall_halt.
  assert (cur_pcb (cli k) = cur_pcb k ∧ pmem (cli k) = pmem k ∧ con (cli k) = con k ∧
    kmmu (cli k) = kmmu k ∧ prc (cli k) = prc k) as (E1 & E2 & E3 & E4 & E5) by done.
  unfold pcb_of at 2. rewrite <- E1 in Hl. rewrite <- E3 in Hc. rewrite <- E4 in Hu.
  rewrite <- E2, <- E5. change (pid_used k) with (pid_used (cli k)). clear Hr E1 E2 E3 E4 E5. generalize dependent (cli k). clear k.
  intros k Hc Hu Hl [Hr _].
  destruct (refines_parent k S x (y :: r) Hr Ex) as (Ec & Hx & Hused & Epar & Htop).
  pose proof (rf_chain _ _ Hr (s_run S) ltac:(apply Hr)) as Hch. rewrite Ex in Hch.
  destruct Hch as (_ & _ & _ & Eebp). simpl top_pid in *. specialize (Htop ltac:(done)).
  pose proof (rf_nodup _ _ Hr) as Hnd. rewrite (stk_split _ (s_run S)), Ex in Hnd by apply Hr.
  apply NoDup_app in Hnd as (Hnd & _ & _). apply NoDup_cons in Hnd as [Hni _].
  assert (cur_pcb_ptr (prc k) = get_pcb_ptr (tk_pid x)) as Eptr
    by (rewrite (rf_cur _ _ Hr), Ec; [done|lia]).
  rewrite decord_eq by (by rewrite Ec). rewrite Ec.
  assert (∀ i, 0 ≤ i < 6 → pid_used (use_pid (tk_pid x) 0 k) i ↔ i ≠ tk_pid x ∧ pid_used k i)
    as Hfree.
  { intros i Hi. rewrite pid_used_use by (lia || apply Hr). case_decide; [lia|tauto]. }
  destruct (halt_return_ok status (use_pid (tk_pid x) 0 k) a al (tk_pid y))
    as (k' & E & ? & ? & Eesp & ? & ? & Ey & Hf & Eb); try done.
  { simpl. rewrite Eptr. intros E. apply get_pcb_ptr_inj in E; [|done|done].
    apply Hni. rewrite E. by left. }
  change (cur_pcb (use_pid (tk_pid x) 0 k)) with (cur_pcb k). rewrite Epar.
  destruct (Z.eqb_spec (u32 (tk_pid y)) (u32 (-1))) as [E'|_].
  { change (u32 (-1)) with 4294967295 in E'. rewrite u32_small in E' by lia. lia. }
  assert (p_ebp (get_pcb (prc (use_pid (tk_pid x) 0 k)) (get_pcb_ptr (tk_pid y))) = tk_ebp y)
    as Efr by exact Eebp.
  rewrite Efr in E, Eesp. change (cur_pcb_ptr (prc (use_pid (tk_pid x) 0 k)))
    with (cur_pcb_ptr (prc k)) in Hf. rewrite Eptr in Hf.
  exists k'. rewrite E. unfold pcb_of. split_and!; try done; [by rewrite Ey|].
  intros i Hi. rewrite <- Hfree by done. unfold pid_used. by rewrite Eb.
Qed.

Lemma execute_new_state ui k S eip sp k1 a al :
  refines k S → cur_pid (prc k) ≠ -1 → con_ok (con k) → mmu_ok (kmmu k) a al →
  (∀ q, length (pcb_fds (get_pcb (prc k) q)) = 8%nat) →
  syscall_execute ui k = Some (Iret eip sp k1) →
  ∃ pid x r, s_stk S (s_run S) = x :: r ∧ tk_pid x = cur_pid (prc k) ∧
    lowest_free (s_stk S) pid ∧
    refines k1 (Sys (s_run S) (<[s_run S := push pid (esp (kcpu k)) (ebp (kcpu k)) (x :: r)]>
                                 (s_stk S))) ∧
    con_ok (con k1) ∧ (∃ a1, mmu_ok (kmmu k1) a1 a1) ∧
    fds_ok (cur_pcb k1) ∧ (∀ fd, 2 ≤ fd < 8 → flags (cur_fd k1 fd) = FREE) ∧
    pcb_fds (pcb_of k1 (cur_pid (prc k))) = pcb_fds (cur_pcb k).
Proof.
  intros Hr Hn Hc Hu Hl H. pose proof (rf_0 _ _ Hr) as Hr0.
  apply execute_spawns in H as [(v & k2 & [=] & _)|(pid & eip' & sp' & k' & [= <- <- <-] & Hs)].
  destruct (spawns_refines k k1 S pid _ _ Hr0 Hs) as [Hk' Hlow].
  pose proof (refines_cur k S Hr0) as Ecur.
  destruct (s_stk S (s_run S)) as [|x r] eqn:Ex; [by rewrite Ecur in Hn|].
  destruct Hs as [Hp Hf _ [args Ep] Ec Em].
  pose proof (refines_cur_in k S Hr0 Hn) as Hin.
  assert (cur_pid (prc k) ≠ pid) as Hne by (intros E; apply Hlow; by rewrite <- E).
  destruct (spawned_misc pid args (esp (kcpu k)) (ebp (kcpu k)) (prc k)) as (_ & E2 & _).
  assert (cur_pcb k1 = new_pcb (cur_pid (prc k)) pid args (pcb_of k pid)) as Enew.
  { unfold cur_pcb. rewrite Ep, E2, <- Ep. change (get_pcb (prc k1) (get_pcb_ptr pid)) with (pcb_of k1 pid).
    rewrite (spawn_pcb k k1 S pid _ _ args Hr0 Hp Hf Ep) by (by left). by rewrite decide_True. }
  destruct (new_pcb_fds (cur_pid (prc k)) pid args (pcb_of k pid)) as [Hfds Hfree]; [apply Hl|].
  exists pid, x, r. split_and!; try done.
  - by rewrite Ec.
  - eexists. rewrite Em. eapply setup_paging_ok; [exact Hu|lia|lia].
  - by rewrite Enew.
  - intros fd Hfd. unfold cur_fd. rewrite Enew. by apply Hfree.
  - rewrite (spawn_pcb k k1 S pid _ _ args Hr0 Hp Hf Ep) by (by right).
    rewrite decide_False, decide_True by done. simpl. unfold cur_pcb, pcb_of.
    by rewrite (rf_cur _ _ Hr0).
Qed.

(** ** Properties *)

(** C1: every single action of the kernel, a system call, the end of a wait, an interrupt
    or a stretch of user code, is a step of the abstract machine of task stacks: [execute]
    pushes the lowest free pid on the running stack, [halt] pops it (a first shell is
    replaced), the timer moves to the next terminal and starts a shell where there is none,
    and everything else leaves the structure alone. *)
Theorem kernel_step_simulates k k' S :
  refines k S → kstep k k' → ∃ S', sstep S S' ∧ refines k' S'.
Proof. apply kstep_sim. Qed.

(** C2: in every state reachable from boot, through any interleaving of system calls and
    interrupts, the abstract machine has a state that the kernel implements; hence no two
    terminals run the same process, the current PCB is that of the current process, and the
    stack the processor takes for the next trap is the top of the current process's own
    area. *)
Theorem reachable_processes_ok k0 k :
  at_boot k0 → ksteps k0 k →
  (∃ S, ssteps (sys_boot (running_term_ptr (con k0))) S ∧ refines k S) ∧ pids_ok k ∧
  (cur_pid (prc k) ≠ -1 → tss_esp0_reg (prc k) = stack_top (cur_pid (prc k))).
Proof.
  intros Hb Hs. destruct (ksteps_sim _ _ _ Hs (boot_refines k0 Hb)) as (S & HS & Hr).
  split_and!; [by exists S|by eapply refines_pids_ok, Hr|apply Hr].
Qed.

(** C7: [halt] in a process started by [execute] goes back to its parent: the result of the
    parent's [execute] is the status (256 for 255), control continues at the return address
    in the frame the parent was suspended in, with the parent's program page mapped; memory
    and the parent's descriptors are as they were, the pid is free again and the child's
    descriptors are closed. *)
Theorem halt_resumes_parent status k S x y r a al :
  refines k S → s_stk S (s_run S) = x :: y :: r → con_ok (con k) → mmu_ok (kmmu k) a al →
  length (pcb_fds (cur_pcb k)) = 8%nat →
  ∃ k', syscall_halt status k =
      Some (Resume (halt_status status) (ld32 (X := kx k') (pmem k) (tk_ebp y + 4)) k') ∧
    cur_pid (prc k') = tk_pid y ∧ cur_pcb_ptr (prc k') = get_pcb_ptr (tk_pid y) ∧
    esp (kcpu k') = u32 (tk_ebp y + 8) ∧ pmem k' = pmem k ∧
    (∃ al', mmu_ok (kmmu k') (set_prog (Some (tk_pid y + 2)) al) al') ∧
    pcb_fds (pcb_of k' (tk_pid y)) = pcb_fds (pcb_of k (tk_pid y)) ∧
    (∀ fd, 2 ≤ fd < 8 → flags (fd_of (pcb_of k' (tk_pid x)) fd) = FREE) ∧
    (∀ i, 0 ≤ i < 6 → pid_used k' i ↔ i ≠ tk_pid x ∧ pid_used k i).
Proof. apply halt_resumes_ok. Qed.

(** C3: [execute] and [halt] are a call and its return: when a program started by [execute]
    halts, with whatever it left in memory, the parent continues behind its own [execute]
    (the frame it was called in) with the same pid, PCB, descriptors and program page, and
    exactly the pids in use before are in use. *)
Theorem execute_halt_roundtrip ui status k S eip sp k1 a al m :
  refines k S → cur_pid (prc k) ≠ -1 → con_ok (con k) → mmu_ok (kmmu k) a al →
  (∀ q, length (pcb_fds (get_pcb (prc k) q)) = 8%nat) →
  syscall_execute ui k = Some (Iret eip sp k1) →
  ∃ k2, syscall_halt status (set_mem m k1) =
      Some (Resume (halt_status status) (ld32 (X := kx k2) m (ebp (kcpu k) + 4)) k2) ∧
    esp (kcpu k2) = u32 (ebp (kcpu k) + 8) ∧ pmem k2 = m ∧
    cur_pid (prc k2) = cur_pid (prc k) ∧ cur_pcb_ptr (prc k2) = cur_pcb_ptr (prc k) ∧
    pcb_fds (cur_pcb k2) = pcb_fds (cur_pcb k) ∧
    (∃ a2 al2, mmu_ok (kmmu k2) a2 al2 ∧ Paging.prog a2 = Some (cur_pid (prc k) + 2)) ∧
    (∀ i, 0 ≤ i < 6 → pid_used k2 i ↔ pid_used k i).
Proof.
  intros Hr Hn Hc Hu Hl H. pose proof (rf_0 _ _ Hr) as Hr0.
  destruct (execute_new_state ui k S eip sp k1 a al Hr Hn Hc Hu Hl H)
    as (pid & x & r & Ex & Exp & Hlow & Hr1 & Hc1 & (a1 & Hu1) & Hfds & _ & Efds).
  assert (refines (set_mem m k1) (Sys (s_run S) (<[s_run S :=
    push pid (esp (kcpu k)) (ebp (kcpu k)) (x :: r)]> (s_stk S)))) as Hrm
    by (eapply refines_same; [apply same_procs_set_mem|exact Hr1]).
  destruct (halt_resumes_ok status (set_mem m k1) _ (Task pid 0 0)
    (Task (tk_pid x) (esp (kcpu k)) (ebp (kcpu k))) r a1 a1 Hrm)
    as (k2 & E & E1 & E2 & E3 & E4 & (al' & Hu2) & E5 & _ & Hfree);
    [by apply fn_lookup_insert|done|done|by apply (fo_len _ Hfds)|].
  simpl in *. rewrite Exp in *.
  assert (get_pcb_ptr (cur_pid (prc k)) = cur_pcb_ptr (prc k)) as Eptr
    by (symmetry; by apply (rf_cur _ _ Hr0)).
  exists k2. rewrite <- Eptr. split_and!; try done.
  - unfold cur_pcb at 1. rewrite E2. exact (eq_trans E5 Efds).
  - eexists _, _. by split.
  - intros i Hi. rewrite Hfree by done. change (pid_used (set_mem m k1) i) with (pid_used k1 i).
    rewrite (rf_used _ _ (rf_0 _ _ Hr1)), (rf_used _ _ Hr0) by done. simpl.
    rewrite <- Ex, stk_push by apply Hr0. rewrite elem_of_cons.
    destruct Hlow as (_ & Hni & _). split; [tauto|]. intros Hin. split; [|by right].
    intros ->. done.
Qed.
End system.
