(* ===== verification/Lock.v ===== *)
(** * Spin locks and atomic counters (lib.c)

    [spin_lock_init], [spin_lock_irqsave], [spin_unlock_irqrestore], [atomic_incl] and
    [atomic_decl] are assembly.  Here they are lists of instructions; threads that share one
    lock execute them one instruction at a time, interleaved in any order.  [xchg] with
    memory and the [lock]-prefixed instructions are single steps. *)

From S2P Require Import Prelude.

(** ** Instructions *)

(** The operands are those of the five routines: [*flag], [spinlock->lock] and EAX.  A jump
    names the index of its target. *)
Inductive instr :=
  | Pushfl | Cli | Popl_flag | Pushl_flag | Popfl
  | Movl_1_eax | Movl_0_lock | Xchg_eax_lock
  | Cmpl_0_eax | Cmpl_0_lock | Je (target : nat) | Jne (target : nat) | Jmp (target : nat).

#[export] Instance instr_eq_dec : EqDecision instr.
Proof. solve_decision. Defined.

Definition spin_lock_init : list instr :=
  [Pushfl; Cli; Popl_flag; Movl_0_lock; Pushl_flag; Popfl].

Definition spin_lock_irqsave : list instr :=
  [ Pushfl; Cli; Popl_flag; Movl_1_eax;
    (* 1: *) Xchg_eax_lock; Cmpl_0_eax; Je 10;
    (* 2: *) Cmpl_0_lock; Jne 7; Jmp 4
    (* 3: *) ].

Definition spin_unlock_irqrestore : list instr := [Movl_0_lock; Pushl_flag; Popfl].

(** EFLAGS: ZF is bit 6, IF bit 9. *)
Definition ZF (e : Z) : bool := Z.testbit e 6.
Definition IF_ (e : Z) : bool := Z.testbit e 9.

(** [cmpl $0, v]: CF, AF and OF are cleared, ZF, SF and PF follow [v]. *)
Definition even_parity (v : Z) : bool :=
  negb (foldr xorb false ((λ i, Z.testbit v i) <$> [0; 1; 2; 3; 4; 5; 6; 7])).

Definition cmp0 (v e : Z) : Z :=
  Z.lor (Z.land e (Z.lnot 2261))
    (Z.lor (if v =? 0 then 64 else 0)
       (Z.lor (if Z.testbit v 31 then 128 else 0) (if even_parity v then 4 else 0))).

#[global] Arguments ZF _ : simpl never.
#[global] Arguments IF_ _ : simpl never.
#[global] Arguments cmp0 _ _ : simpl never.

(** ** A thread: where it is, and its registers

    [Locking e pc] and [Unlocking e pc] are the routines at instruction [pc], [In e] the
    section between them.  [e] is EFLAGS at the call of [spin_lock_irqsave]; the routines do
    not use it, the theorems do. *)

Inductive place := Out | Locking (e : Z) (pc : nat) | In (e : Z) | Unlocking (e : Z) (pc : nat).

Record thread := Thread {
  loc : place;
  eax : Z;
  eflags : Z;
  flag : Z;
  stack : list Z;
}.

Definition set_loc v t := Thread v (eax t) (eflags t) (flag t) (stack t).
Definition set_eax v t := Thread (loc t) v (eflags t) (flag t) (stack t).
Definition set_eflags v t := Thread (loc t) (eax t) v (flag t) (stack t).
Definition set_flag v t := Thread (loc t) (eax t) (eflags t) v (stack t).
Definition set_stack v t := Thread (loc t) (eax t) (eflags t) (flag t) v.

(** One instruction: the next [pc], the lock and the thread. *)
Definition exec (i : instr) (pc : nat) (lock : Z) (t : thread) : option (nat * Z * thread) :=
  match i with
  | Pushfl => Some (S pc, lock, set_stack (eflags t :: stack t) t)
  | Cli => Some (S pc, lock, set_eflags (Z.clearbit (eflags t) 9) t)
  | Popl_flag =>
      match stack t with v :: s => Some (S pc, lock, set_flag v (set_stack s t)) | [] => None end
  | Pushl_flag => Some (S pc, lock, set_stack (flag t :: stack t) t)
  | Popfl =>
      match stack t with v :: s => Some (S pc, lock, set_eflags v (set_stack s t)) | [] => None end
  | Movl_1_eax => Some (S pc, lock, set_eax 1 t)
  | Movl_0_lock => Some (S pc, 0, t)
  | Xchg_eax_lock => Some (S pc, eax t, set_eax lock t)
  | Cmpl_0_eax => Some (S pc, lock, set_eflags (cmp0 (eax t) (eflags t)) t)
  | Cmpl_0_lock => Some (S pc, lock, set_eflags (cmp0 lock (eflags t)) t)
  | Je target => Some (if ZF (eflags t) then target else S pc, lock, t)
  | Jne target => Some (if ZF (eflags t) then S pc else target, lock, t)
  | Jmp target => Some (target, lock, t)
  end.

(** A thread in a routine executes its next instruction, or returns at the end. *)
Definition thread_step (lock : Z) (t : thread) : option (Z * thread) :=
  match loc t with
  | Locking e pc =>
      match spin_lock_irqsave !! pc with
      | Some i => '(pc, lock, t) ← exec i pc lock t; Some (lock, set_loc (Locking e pc) t)
      | None => Some (lock, set_loc (In e) t)
      end
  | Unlocking e pc =>
      match spin_unlock_irqrestore !! pc with
      | Some i => '(pc, lock, t) ← exec i pc lock t; Some (lock, set_loc (Unlocking e pc) t)
      | None => Some (lock, set_loc Out t)
      end
  | _ => None
  end.

(** ** Threads that share a lock *)

Record lstate := LState { lock : Z; threads : list thread }.

Definition code_step (i : nat) (s : lstate) : option lstate :=
  t ← threads s !! i; '(l, t) ← thread_step (lock s) t; Some (LState l (<[i := t]> (threads s))).

(** What a thread may do: work outside (anything with its registers), work inside (as long
    as the code of the section leaves IF and its [flag] alone), call and release. *)
Inductive free_step : thread → thread → Prop :=
  | fs_out t a e f s : loc t = Out → free_step t (Thread Out a e f s)
  | fs_in t x a e s : loc t = In x → IF_ e = IF_ (eflags t) → free_step t (Thread (In x) a e (flag t) s)
  | fs_call t : loc t = Out → free_step t (set_loc (Locking (eflags t) 0) t)
  | fs_release t x : loc t = In x → free_step t (set_loc (Unlocking x 0) t).

Inductive lstep : lstate → lstate → Prop :=
  | ls_code i s s' : code_step i s = Some s' → lstep s s'
  | ls_free i s t t' : threads s !! i = Some t → free_step t t' →
      lstep s (LState (lock s) (<[i := t']> (threads s))).

(** At first the lock is free and every thread outside. *)
Inductive lreach : lstate → Prop :=
  | lr_init ts : Forall (λ t, loc t = Out) ts → lreach (LState 0 ts)
  | lr_step s s' : lreach s → lstep s s' → lreach s'.

(** ** Atomic counters *)

Definition atomic_incl (v : Z) : Z := u32 (v + 1).
Definition atomic_decl (v : Z) : Z := u32 (v - 1).

(** ** The invariant *)

(** The thread has the lock. *)
Definition holds (t : thread) : bool :=
  match loc t with
  | In _ => true
  | Unlocking _ 0 => true
  | Locking _ 5 | Locking _ 6 => eax t =? 0
  | Locking _ 10 => true
  | _ => false
  end.

(** With interrupts off, and the flags of the caller saved. *)
Definition quiet (e : Z) (t : thread) : Prop := flag t = e ∧ IF_ (eflags t) = false.

Definition saved (e : Z) (t : thread) : Prop := head (stack t) = Some e.

Definition thread_ok (t : thread) : Prop :=
  match loc t with
  | Out => True
  | Locking e 0 => eflags t = e
  | Locking e 1 => saved e t
  | Locking e 2 => saved e t ∧ IF_ (eflags t) = false
  | Locking e 3 => quiet e t
  | Locking e 5 => quiet e t ∧ (eax t = 0 ∨ eax t = 1)
  | Locking e 6 => quiet e t ∧ (eax t = 0 ∨ eax t = 1) ∧ ZF (eflags t) = (eax t =? 0)
  | Locking e 4 | Locking e 7 | Locking e 8 | Locking e 9 => quiet e t ∧ eax t = 1
  | Locking e 10 => quiet e t
  | Locking e _ => False
  | In e | Unlocking e 0 => quiet e t
  | Unlocking e 1 => flag t = e
  | Unlocking e 2 => saved e t
  | Unlocking e 3 => eflags t = e
  | Unlocking e _ => False
  end.

Definition holders (ts : list thread) : nat := length (filter (λ t, holds t = true) ts).

(** Every thread is in order, and the lock is 1 exactly when a thread has it. *)
Definition lock_inv (s : lstate) : Prop :=
  (lock s = 0 ∨ lock s = 1) ∧ Forall thread_ok (threads s) ∧ Z.of_nat (holders (threads s)) = lock s.

Lemma holders_insert ts i t t' :
  ts !! i = Some t →
  Z.of_nat (holders (<[i := t']> ts)) + Z.b2z (holds t) = Z.of_nat (holders ts) + Z.b2z (holds t').
Proof.
  intros Ht. rewrite (insert_take_drop _ _ _ (lookup_lt_Some _ _ _ Ht)).
  rewrite <- (take_drop_middle ts i t Ht) at 3. unfold holders.
  rewrite !filter_app, !filter_cons, !length_app.
  destruct (holds t), (holds t'); simpl; repeat case_decide; simpl; first [congruence|lia].
Qed.

Lemma holder_locks ts i t : ts !! i = Some t → holds t = true → (0 < holders ts)%nat.
Proof.
  intros Ht Hh. unfold holders. apply list_elem_of_lookup_2 in Ht.
  assert (t ∈ filter (λ t, holds t = true) ts) as Hin by (by apply list_elem_of_filter).
  destruct (filter _ ts); [by apply elem_of_nil in Hin|simpl; lia].
Qed.

(** ** Flags *)

Lemma cmp0_ZF v e : ZF (cmp0 v e) = (v =? 0).
Proof.
  unfold ZF, cmp0. rewrite !Z.lor_spec, Z.land_spec, Z.lnot_spec by lia.
  change (Z.testbit 2261 6) with true. rewrite andb_false_r.
  destruct (v =? 0), (Z.testbit v 31), (even_parity v); reflexivity.
Qed.

Lemma cmp0_IF v e : IF_ (cmp0 v e) = IF_ e.
Proof.
  unfold IF_, cmp0. rewrite !Z.lor_spec, Z.land_spec, Z.lnot_spec by lia.
  change (Z.testbit 2261 9) with false. rewrite andb_true_r.
  destruct (Z.testbit e 9), (v =? 0), (Z.testbit v 31), (even_parity v); reflexivity.
Qed.

Lemma cli_IF e : IF_ (Z.clearbit e 9) = false.
Proof. apply Z.clearbit_eq. Qed.

(** ** Steps of a thread *)

(** What a step of a thread does to the lock. *)
Definition step_ok (l : Z) (t : thread) (l' : Z) (t' : thread) : Prop :=
  thread_ok t' ∧ (l' = 0 ∨ l' = 1) ∧ l' - l = Z.b2z (holds t') - Z.b2z (holds t).

Lemma thread_step_ok l t l' t' :
  (l = 0 ∨ l = 1) → (holds t = true → l = 1) → thread_ok t → thread_step l t = Some (l', t') →
  step_ok l t l' t'.
Proof.
  intros Hl Hh Ht. destruct t as [p a e f s].
  unfold thread_step, step_ok, thread_ok, holds, quiet, saved, thread_ok, holds in *.
  cbn [loc eax eflags flag stack] in *.
  destruct p as [|x pc|x|x pc]; [done| |done|].
  1: destruct pc as [|[|[|[|[|[|[|[|[|[|[|pc]]]]]]]]]]]; [cbn in *..|done].
  12: destruct pc as [|[|[|[|pc]]]]; [cbn in *..|done].
  all: destruct s as [|y s]; cbn in *; try done; intros [= <- <-]; cbn.
  all: destruct_and?; simplify_eq; rewrite ?cmp0_ZF, ?cmp0_IF, ?cli_IF in *.
  all: repeat match goal with H : ZF _ = _ |- _ => rewrite H; clear H end.
  all: try match goal with |- context [if ZF ?z then _ else _] => destruct (ZF z) end; cbn in *.
  all: destruct Hl; simplify_eq; try destruct (Z.eqb_spec a 0); simplify_eq; cbn in *.
  all: try specialize (Hh eq_refl); intuition (try congruence; try lia; auto).
Qed.

Lemma free_step_ok l t t' : thread_ok t → free_step t t' → (l = 0 ∨ l = 1) → step_ok l t l t'.
Proof.
  intros Ht Hf Hl. revert Ht. destruct Hf as [t a e f s E|t x a e s E HI|t E|t x E];
    unfold step_ok, thread_ok, holds; rewrite E; cbn; intros Ht; split_and!; try done; try lia.
  all: destruct Ht as [H1 H2]; split; cbn; congruence.
Qed.

Lemma lock_inv_step s s' : lock_inv s → lstep s s' → lock_inv s'.
Proof.
  assert (∀ i l ts t l' t', lock_inv (LState l ts) → ts !! i = Some t → step_ok l t l' t' →
    lock_inv (LState l' (<[i := t']> ts))) as Hup.
  { intros i l ts t l' t' (Hl & Hok & Hn) Ht (H1 & H2 & H3). cbn [lock threads] in *.
    split_and!; cbn [lock threads]; [done|by apply Forall_insert|]. pose proof (holders_insert ts i t t' Ht). lia. }
  intros Hs Hst. pose proof Hs as (Hl & Hok & Hn). destruct Hst as [i [l ts] s' E|i [l ts] t t' Ht Hf]; cbn [lock threads] in *.
  - unfold code_step in E. cbn in E. destruct (ts !! i) as [t|] eqn:Ht; [|done]. cbn in E.
    destruct (thread_step l t) as [[l' t']|] eqn:E'; [|done]. injection E as <-.
    apply (Hup i l ts t); [done|done|]. apply thread_step_ok; [done| |by eapply Forall_lookup_1|done].
    intros Hh. pose proof (holder_locks ts i t Ht Hh). lia.
  - apply (Hup i l ts t); [done|done|]. apply free_step_ok; [by eapply Forall_lookup_1|done|done].
Qed.

Lemma lreach_inv s : lreach s → lock_inv s.
Proof.
  induction 1 as [ts Hts|s s' _ IH Hst]; [|by eapply lock_inv_step].
  split_and!; cbn [lock threads]; [by left|eapply Forall_impl; [exact Hts|]; intros t E; unfold thread_ok; by rewrite E|].
  induction Hts as [|t ts E _ IH]; [done|]. unfold holders, holds in *. rewrite filter_cons, E. simpl. exact IH.
Qed.

(** ** Theorems *)

(** C21: mutual exclusion: however the instructions of the threads are interleaved, at most one
    thread is between [spin_lock_irqsave] and [spin_unlock_irqrestore] of a lock; while one
    is there the lock is 1, its interrupts are off, and [*flag] holds the EFLAGS with which
    it called. *)
Theorem spin_lock_excludes s i j t u e f :
  lreach s → threads s !! i = Some t → threads s !! j = Some u → loc t = In e → loc u = In f →
  i = j ∧ lock s = 1 ∧ IF_ (eflags t) = false ∧ flag t = e.
Proof.
  intros (Hl & Hok & Hn)%lreach_inv Ht Hu Et Eu.
  pose proof (Forall_lookup_1 _ _ _ _ Hok Ht) as Ok. unfold thread_ok in Ok. rewrite Et in Ok. destruct Ok as [H1 H2].
  assert (holds t = true) as Hht by (unfold holds; by rewrite Et).
  pose proof (holder_locks _ _ _ Ht Hht). split_and!; [|lia|done|done].
  destruct (decide (i = j)) as [|Hne]; [done|]. exfalso.
  set (t' := set_loc Out t). pose proof (holders_insert (threads s) i t t' Ht) as Hc.
  rewrite Hht in Hc. change (holds t') with false in Hc. simpl in Hc.
  assert (0 < holders (<[i := t']> (threads s)))%nat; [|lia].
  apply (holder_locks _ j u); [by rewrite list_lookup_insert_ne|unfold holds; by rewrite Eu].
Qed.

(** The flags come back: when [spin_unlock_irqrestore] returns, EFLAGS, the interrupt flag
    included, is what it was when the thread called [spin_lock_irqsave]. *)
Theorem spin_unlock_restores s s' i t t' e :
  lreach s → threads s !! i = Some t → loc t = Unlocking e 3 → code_step i s = Some s' →
  threads s' !! i = Some t' → loc t' = Out ∧ eflags t' = e.
Proof.
  intros (_ & Hok & _)%lreach_inv Ht Et E Ht'.
  pose proof (Forall_lookup_1 _ _ _ _ Hok Ht) as Ok. unfold thread_ok in Ok. rewrite Et in Ok.
  unfold code_step, thread_step in E. rewrite Ht in E. cbn in E. rewrite Et in E. cbn in E. injection E as <-.
  cbn in Ht'. rewrite list_lookup_insert_eq in Ht' by by eapply lookup_lt_Some. by injection Ht' as <-.
Qed.

(** [n] steps of the routine thread [i] is in. *)
Definition code_steps (i n : nat) (s : lstate) : option lstate :=
  Nat.iter n (λ r, r ≫= code_step i) (Some s).

(** A thread on its own. *)
Definition thread_steps (n : nat) (l : Z) (t : thread) : option (Z * thread) :=
  Nat.iter n (λ r, r ≫= λ '(l, t), thread_step l t) (Some (l, t)).

Lemma code_steps_thread i n s t l' t' :
  threads s !! i = Some t → thread_steps n (lock s) t = Some (l', t') →
  code_steps i n s = Some (LState l' (<[i := t']> (threads s))).
Proof.
  intros Ht. revert l' t'. induction n as [|n IH]; intros l' t' E.
  - injection E as <- <-. rewrite list_insert_id by done. by destruct s.
  - change (thread_steps (S n) (lock s) t) with
      (thread_steps n (lock s) t ≫= λ '(l, t), thread_step l t) in E.
    change (code_steps i (S n) s) with (code_steps i n s ≫= code_step i).
    destruct (thread_steps n (lock s) t) as [[l1 t1]|]; [|done]. cbn in E.
    rewrite (IH l1 t1 eq_refl). cbn. unfold code_step. cbn.
    rewrite list_lookup_insert_eq by by eapply lookup_lt_Some. cbn. rewrite E. cbn. by rewrite list_insert_insert_eq.
Qed.

(** The steps of a thread, one after the other. *)
Definition goes (n : nat) (l : Z) (t : thread) (l' : Z) (t' : thread) : Prop :=
  thread_steps n l t = Some (l', t').

Lemma goes_step n l t l1 t1 l' t' :
  thread_step l t = Some (l1, t1) → goes n l1 t1 l' t' → goes (S n) l t l' t'.
Proof.
  unfold goes, thread_steps. intros E. rewrite Nat.iter_succ_r. cbn [mbind option_bind]. by rewrite E.
Qed.

(** From the [xchg] on, and from the wait. *)
Lemma goes_xchg e ef f s : ∃ t', goes 4 0 (Thread (Locking e 4) 1 ef f s) 1 t' ∧ loc t' = In e.
Proof.
  eexists. split.
  - do 2 (eapply goes_step; [reflexivity|]). eapply goes_step.
    { cbn. rewrite cmp0_ZF. reflexivity. }
    eapply goes_step; reflexivity.
  - reflexivity.
Qed.

Lemma goes_wait e ef f s : ∃ t', goes 7 0 (Thread (Locking e 7) 1 ef f s) 1 t' ∧ loc t' = In e.
Proof.
  destruct (goes_xchg e (cmp0 0 ef) f s) as (t' & H & E). exists t'. split; [|done].
  eapply goes_step; [reflexivity|]. eapply goes_step.
  { cbn. rewrite cmp0_ZF. reflexivity. }
  eapply goes_step; [reflexivity|exact H].
Qed.

Lemma thread_acquires t e pc :
  thread_ok t → loc t = Locking e pc → holds t = false →
  ∃ n t', (n ≤ 9)%nat ∧ goes n 0 t 1 t' ∧ loc t' = In e.
Proof.
  assert (∀ n l t1, (n ≤ 9)%nat → (∃ t', goes n 0 t1 1 t' ∧ loc t' = In l) →
    ∃ n t', (n ≤ 9)%nat ∧ goes n 0 t1 1 t' ∧ loc t' = In l) as Hn by (intros n l t1 ? (t' & ? & ?); by exists n, t').
  assert (∀ n l t1 t2, thread_step 0 t1 = Some (0, t2) → (∃ t', goes n 0 t2 1 t' ∧ loc t' = In l) →
    ∃ t', goes (S n) 0 t1 1 t' ∧ loc t' = In l) as Hs.
  { intros n l t1 t2 Et (t' & H & El). exists t'. split; [by eapply goes_step|done]. }
  destruct t as [p a ef f s]. unfold thread_ok, holds, quiet, saved. cbn [loc eax eflags flag stack].
  intros Ht -> Hh. destruct pc as [|[|[|[|[|[|[|[|[|[|[|pc]]]]]]]]]]]; try done.
  - apply (Hn 8%nat); [lia|]. do 4 (eapply Hs; [reflexivity|]). apply goes_xchg.
  - destruct s; [done|]. apply (Hn 7%nat); [lia|]. do 3 (eapply Hs; [reflexivity|]). apply goes_xchg.
  - destruct s; [by destruct Ht|]. apply (Hn 6%nat); [lia|]. do 2 (eapply Hs; [reflexivity|]). apply goes_xchg.
  - apply (Hn 5%nat); [lia|]. eapply Hs; [reflexivity|]. apply goes_xchg.
  - destruct Ht as [_ ->]. apply (Hn 4%nat); [lia|]. apply goes_xchg.
  - destruct Ht as [_ [-> | ->]]; [done|]. apply (Hn 9%nat); [lia|]. eapply Hs; [reflexivity|].
    eapply Hs; [cbn; rewrite cmp0_ZF; reflexivity|]. apply goes_wait.
  - destruct Ht as (_ & [-> | ->] & HZ); [done|]. apply (Hn 8%nat); [lia|].
    eapply Hs; [cbn; rewrite HZ; reflexivity|]. apply goes_wait.
  - destruct Ht as [_ ->]. apply (Hn 7%nat); [lia|]. apply goes_wait.
  - destruct Ht as [_ ->]. destruct (ZF ef) eqn:HZ.
    + apply (Hn 6%nat); [lia|]. eapply Hs; [cbn; rewrite HZ; reflexivity|]. eapply Hs; [reflexivity|]. apply goes_xchg.
    + apply (Hn 8%nat); [lia|]. eapply Hs; [cbn; rewrite HZ; reflexivity|]. apply goes_wait.
  - destruct Ht as [_ ->]. apply (Hn 5%nat); [lia|]. eapply Hs; [reflexivity|]. apply goes_xchg.
Qed.

(** C38: no deadlock: whenever the lock is free, a thread that wants it, at whatever instruction
    of [spin_lock_irqsave] it is, has it after at most nine steps of its own. *)
Theorem spin_lock_progress s i t e pc :
  lreach s → lock s = 0 → threads s !! i = Some t → loc t = Locking e pc →
  ∃ n s' t', (n ≤ 9)%nat ∧ code_steps i n s = Some s' ∧ lock s' = 1 ∧
    threads s' !! i = Some t' ∧ loc t' = In e.
Proof.
  intros (_ & Hok & Hn)%lreach_inv Hl Ht Et.
  assert (holds t = false) as Hh.
  { destruct (holds t) eqn:E; [|done]. pose proof (holder_locks _ _ _ Ht E). lia. }
  destruct (thread_acquires t e pc (Forall_lookup_1 _ _ _ _ Hok Ht) Et Hh) as (n & t' & Hle & E & Et').
  rewrite <- Hl in E. exists n. eexists. exists t'. split_and!; [done|by eapply code_steps_thread|done| |done].
  cbn. apply list_lookup_insert_eq. by eapply lookup_lt_Some.
Qed.

(** ** Initialisation and counters *)

(** Run a routine on its own from instruction [pc], for at most [fuel] instructions. *)
Fixpoint run_code (code : list instr) (fuel pc : nat) (l : Z) (t : thread) : option (Z * thread) :=
  match code !! pc, fuel with
  | None, _ => Some (l, t)
  | Some _, O => None
  | Some i, S fuel => '(pc, l, t) ← exec i pc l t; run_code code fuel pc l t
  end.

(** [spin_lock_init] frees the lock, whatever it was, and leaves EFLAGS as it was. *)
Lemma spin_lock_init_frees l t :
  run_code spin_lock_init 6 0 l t = Some (0, set_flag (eflags t) t).
Proof. by destruct t. Qed.

(** In whatever order they happen, increments and decrements add up. *)
Lemma atomic_sum (ops : list bool) v :
  foldl (λ v (up : bool), if up then atomic_incl v else atomic_decl v) (u32 v) ops =
  u32 (v + Z.of_nat (length (filter (λ b, b = true) ops)) - Z.of_nat (length (filter (λ b, b = false) ops))).
Proof.
  revert v. induction ops as [|b ops IH]; intros v; [simpl; f_equal; lia|].
  cbn [foldl]. rewrite !filter_cons. destruct b; unfold atomic_incl, atomic_decl; simpl.
  - replace (u32 (u32 v + 1)) with (u32 (v + 1)) by (unfold u32; by rewrite Zplus_mod_idemp_l).
    rewrite IH. f_equal. lia.
  - replace (u32 (u32 v - 1)) with (u32 (v - 1)) by (unfold u32; by rewrite Zminus_mod_idemp_l).
    rewrite IH. f_equal. lia.
Qed.

(** ** Two threads *)

Lemma lreach_code i n s s' : lreach s → code_steps i n s = Some s' → lreach s'.
Proof.
  intros Hs. revert s'. induction n as [|n IH]; intros s' E; [by injection E as <-|].
  change (code_steps i (S n) s) with (code_steps i n s ≫= code_step i) in E.
  destruct (code_steps i n s) as [s1|]; [|done]. apply (lr_step s1); [by apply IH|by apply (ls_code i)].
Qed.

(** A thread with interrupts enabled. *)
Definition idle : thread := Thread Out 0 514 0 [].

(** Thread 0 has called and is at the [xchg], thread 1 is outside. *)
Definition contended : lstate := LState 0 [Thread (Locking 514 4) 1 2 514 []; idle].

Lemma contended_reach : lreach contended.
Proof.
  apply (lreach_code 0 4 (LState 0 [Thread (Locking 514 0) 0 514 0 []; idle])); [|reflexivity].
  apply (lr_step (LState 0 [idle; idle])); [by apply lr_init; repeat constructor|].
  exact (ls_free 0 (LState 0 [idle; idle]) idle _ eq_refl (fs_call idle eq_refl)).
Qed.

(** Thread 0 inside, and about to return from the release. *)
Definition inside : lstate := LState 1 [Thread (In 514) 0 70 514 []; idle].
Definition leaving : lstate := LState 0 [Thread (Unlocking 514 3) 0 514 514 []; idle].

Lemma inside_reach : lreach inside.
Proof. exact (lreach_code 0 4 contended inside contended_reach eq_refl). Qed.

Lemma leaving_reach : lreach leaving.
Proof.
  apply (lreach_code 0 3 (LState 1 [Thread (Unlocking 514 0) 0 70 514 []; idle])); [|reflexivity].
  apply (lr_step inside); [exact inside_reach|].
  exact (ls_free 0 inside _ _ eq_refl (fs_release (Thread (In 514) 0 70 514 []) 514 eq_refl)).
Qed.

Lemma spin_lock_excludes_witness : lock inside = 1.
Proof.
  destruct (spin_lock_excludes inside 0 0 (Thread (In 514) 0 70 514 []) (Thread (In 514) 0 70 514 []) 514 514
    inside_reach eq_refl eq_refl eq_refl eq_refl) as (_ & H & _).
  exact H.
Defined.

Lemma spin_unlock_restores_witness :
  loc (Thread Out 0 514 514 []) = Out ∧ eflags (Thread Out 0 514 514 []) = 514.
Proof.
  exact (spin_unlock_restores leaving (LState 0 [Thread Out 0 514 514 []; idle]) 0
    (Thread (Unlocking 514 3) 0 514 514 []) (Thread Out 0 514 514 []) 514
    leaving_reach eq_refl eq_refl eq_refl eq_refl).
Defined.

Lemma spin_lock_progress_witness :
  ∃ n s' t', (n ≤ 9)%nat ∧ code_steps 0 n contended = Some s' ∧ lock s' = 1 ∧
    threads s' !! 0%nat = Some t' ∧ loc t' = In 514.
Proof.
  exact (spin_lock_progress contended 0 (Thread (Locking 514 4) 1 2 514 []) 514 4
    contended_reach eq_refl eq_refl eq_refl).
Defined.
