(* ===== verification/Idt.v ===== *)
(** * Interrupt vectors and exceptions (idt.c, exception_handler.c)

    [idt_init] fills the interrupt descriptor table with packed 64-bit gates; [deliver] is
    what the processor makes of a gate.  The exception handlers print a message and halt
    the process with status 255. *)

From Stdlib Require Import String.
From S2P Require Import Prelude Mem Lib Fs Paging Kstate Pc Screen Terminal Pic Rtc Keyboard.
From S2P Require Import Files Process Sched Exec System.

Definition RTC_INT : Z := 40.
Definition KBD_INT : Z := 33.
Definition PIT_INT : Z := 32.
Definition ZERO_DIVISION_EXCP : Z := 0.
Definition SINGLE_STEP_INTERRUPT_EXCP : Z := 1.
Definition NMI_EXCP : Z := 2.
Definition BREAKPOINT_EXCP : Z := 3.
Definition OVERFLOW_EXCP : Z := 4.
Definition BOUND_RANGE_EXCEED_EXCP : Z := 5.
Definition INVALID_OPCODE_EXCP : Z := 6.
Definition COPROCESSOR_NOT_AVAILABLE_EXCP : Z := 7.
Definition DOUBLE_FAULT_EXCP : Z := 8.
Definition COPROCESSOR_SEGMENT_OVERRUN_EXCP : Z := 9.
Definition INVALID_TASK_STATE_SEGMENT_EXCP : Z := 10.
Definition SEGMENT_NOT_PRESENT_EXCP : Z := 11.
Definition STACK_SEGMENT_FAULT_EXCP : Z := 12.
Definition GENERAL_PROTECTION_FAULT_EXCP : Z := 13.
Definition PAGE_FAULT_EXCP : Z := 14.
Definition RESERVED_EXCP : Z := 15.
Definition x87_FLOATING_POINT_EXCP : Z := 16.
Definition ALIGNMENT_CHECK_EXCP : Z := 17.
Definition MACHINE_CHECK_EXCP : Z := 18.
Definition SIMD_FLOATING_POINT_EXCP : Z := 19.
Definition VIRTUALIZATION_EXCP : Z := 20.
Definition CONTROL_PROTECTION_EXCP : Z := 21.
Definition SYSCALL : Z := 128.
Definition NUM_VEC : Z := 256.
Definition KERNEL_CS : Z := 16.

(** ** The table *)

(** The entry points of the assembly files. *)
Inductive entry_point :=
  | e_syscall
  | e_keyboard
  | e_rtc
  | e_pit
  | e_division_error
  | e_single_step_interrupt
  | e_NMI
  | e_breakpoint
  | e_overflow
  | e_bound_range_exceeded
  | e_invalid_opcode
  | e_coprocessor_not_available
  | e_double_fault
  | e_coprocessor_segment_overrun
  | e_invalid_task_state_segment
  | e_segment_not_present
  | e_stack_segment_fault
  | e_general_protection_fault
  | e_page_fault
  | e_x87_floating_point_exception
  | e_alignment_check
  | e_machine_check
  | e_SIMD_floating_point_exception
  | e_virtualization_exception
  | e_control_protection_exception.

#[export] Instance entry_point_eq : EqDecision entry_point.
Proof. solve_decision. Defined.

(** Where the linker puts them. *)
Class EntryAddrs := entry_addr : entry_point → Z.

Record idt_desc_t := IdtDesc {
  i_offset_15_00 : Z; i_seg_selector : Z; i_reserved4 : Z; i_reserved3 : Z; i_reserved2 : Z;
  i_reserved1 : Z; i_size : Z; i_reserved0 : Z; i_dpl : Z; i_present : Z; i_offset_31_16 : Z;
}.

Definition idt_word (e : idt_desc_t) : Z :=
  pack [(16, i_offset_15_00 e); (16, i_seg_selector e); (8, i_reserved4 e); (1, i_reserved3 e);
        (1, i_reserved2 e); (1, i_reserved1 e); (1, i_size e); (1, i_reserved0 e);
        (2, i_dpl e); (1, i_present e); (16, i_offset_31_16 e)].

Definition SET_IDT_ENTRY (e : idt_desc_t) (handler : Z) : idt_desc_t :=
  IdtDesc (Z.land handler 65535) (i_seg_selector e) (i_reserved4 e) (i_reserved3 e)
    (i_reserved2 e) (i_reserved1 e) (i_size e) (i_reserved0 e) (i_dpl e) (i_present e)
    (Z.shiftr (Z.land handler 4294901760) 16).

(** The fields set before the [switch]; the offsets are not set yet. *)
Definition idt_common : idt_desc_t := IdtDesc 0 KERNEL_CS 0 0 1 1 1 0 0 1 0.

Definition with_dpl (v : Z) (e : idt_desc_t) : idt_desc_t :=
  IdtDesc (i_offset_15_00 e) (i_seg_selector e) (i_reserved4 e) (i_reserved3 e) (i_reserved2 e)
    (i_reserved1 e) (i_size e) (i_reserved0 e) v (i_present e) (i_offset_31_16 e).

(** The cases of the [switch]: the descriptor level and the entry point; [None] for the
    reserved exception and the default. *)
Definition idt_case (i : Z) : option (Z * entry_point) :=
  if i =? SYSCALL then Some (3, e_syscall)
  else if i =? KBD_INT then Some (0, e_keyboard)
  else if i =? RTC_INT then Some (0, e_rtc)
  else if i =? PIT_INT then Some (0, e_pit)
  else if i =? ZERO_DIVISION_EXCP then Some (0, e_division_error)
  else if i =? SINGLE_STEP_INTERRUPT_EXCP then Some (0, e_single_step_interrupt)
  else if i =? NMI_EXCP then Some (0, e_NMI)
  else if i =? BREAKPOINT_EXCP then Some (0, e_breakpoint)
  else if i =? OVERFLOW_EXCP then Some (0, e_overflow)
  else if i =? BOUND_RANGE_EXCEED_EXCP then Some (0, e_bound_range_exceeded)
  else if i =? INVALID_OPCODE_EXCP then Some (0, e_invalid_opcode)
  else if i =? COPROCESSOR_NOT_AVAILABLE_EXCP then Some (0, e_coprocessor_not_available)
  else if i =? DOUBLE_FAULT_EXCP then Some (0, e_double_fault)
  else if i =? COPROCESSOR_SEGMENT_OVERRUN_EXCP then Some (0, e_coprocessor_segment_overrun)
  else if i =? INVALID_TASK_STATE_SEGMENT_EXCP then Some (0, e_invalid_task_state_segment)
  else if i =? SEGMENT_NOT_PRESENT_EXCP then Some (0, e_segment_not_present)
  else if i =? STACK_SEGMENT_FAULT_EXCP then Some (0, e_stack_segment_fault)
  else if i =? GENERAL_PROTECTION_FAULT_EXCP then Some (0, e_general_protection_fault)
  else if i =? PAGE_FAULT_EXCP then Some (0, e_page_fault)
  else if i =? RESERVED_EXCP then None
  else if i =? x87_FLOATING_POINT_EXCP then Some (0, e_x87_floating_point_exception)
  else if i =? ALIGNMENT_CHECK_EXCP then Some (0, e_alignment_check)
  else if i =? MACHINE_CHECK_EXCP then Some (0, e_machine_check)
  else if i =? SIMD_FLOATING_POINT_EXCP then Some (0, e_SIMD_floating_point_exception)
  else if i =? VIRTUALIZATION_EXCP then Some (0, e_virtualization_exception)
  else if i =? CONTROL_PROTECTION_EXCP then Some (0, e_control_protection_exception)
  else None.

(** The table in memory, and whether the processor has been given it ([lidt]). *)
Record idt_state := IdtState { idt : list Z; idt_loaded : bool }.

Section idt.
Context {EA : EntryAddrs}.

Definition idt_step (i : Z) (t : list Z) : list Z :=
  match idt_case i with
  | Some (dpl, e) =>
      <[Z.to_nat i := idt_word (SET_IDT_ENTRY (with_dpl dpl idt_common) (entry_addr e))]> t
  | None => t
  end.

Definition idt_init (s : idt_state) : idt_state :=
  IdtState (for_up idt_step 0 NUM_VEC (idt s)) true.

(** ** What the processor makes of it *)

(** The architecture's exceptions in the order of their vectors; 15 is reserved. *)
Definition cpu_exceptions : list (option entry_point) :=
  [ Some e_division_error; Some e_single_step_interrupt; Some e_NMI; Some e_breakpoint;
    Some e_overflow; Some e_bound_range_exceeded; Some e_invalid_opcode;
    Some e_coprocessor_not_available; Some e_double_fault; Some e_coprocessor_segment_overrun;
    Some e_invalid_task_state_segment; Some e_segment_not_present; Some e_stack_segment_fault;
    Some e_general_protection_fault; Some e_page_fault; None;
    Some e_x87_floating_point_exception; Some e_alignment_check; Some e_machine_check;
    Some e_SIMD_floating_point_exception; Some e_virtualization_exception;
    Some e_control_protection_exception ].

(** The vector the interrupt controllers raise for a line. *)
Definition irq_vector (irq : Z) : Z :=
  if irq <? IRQ_NUM then ICW2_MASTER + irq else ICW2_SLAVE + (irq - IRQ_NUM).

(** Which entry point belongs to a vector: exceptions, the three devices, system calls. *)
Definition vector_entry (v : Z) : option entry_point :=
  if v =? irq_vector PIT_IRQ then Some e_pit
  else if v =? irq_vector KEYBOARD_IRQ then Some e_keyboard
  else if v =? irq_vector RTC_IRQ then Some e_rtc
  else if v =? 128 then Some e_syscall
  else mjoin (cpu_exceptions !! Z.to_nat v).

Definition gate_offset (w : Z) : Z := fld 0 16 w + 65536 * fld 48 16 w.
Definition gate_selector (w : Z) : Z := fld 16 16 w.
Definition gate_type (w : Z) : Z := fld 40 5 w.
Definition gate_dpl (w : Z) : Z := fld 45 2 w.
Definition gate_present (w : Z) : Z := fld 47 1 w.

(** Where vector [v] leads: raised by hardware or the processor itself ([None]), or by an
    [int] instruction at a privilege level. *)
Definition deliver (t : list Z) (v : Z) (int_at : option Z) : option Z :=
  let w := nth (Z.to_nat v) t 0 in
  if negb (gate_present w =? 1) then None
  else match int_at with
       | Some cpl => if cpl <=? gate_dpl w then Some (gate_offset w) else None
       | None => Some (gate_offset w)
       end.

Lemma fld_pack_type l : fld 0 5 (pack ((1, 0) :: (1, 1) :: (1, 1) :: (1, 1) :: (1, 0) :: l)) = 14.
Proof.
  unfold fld. cbn [pack]. generalize (pack l) as x. intros x.
  change (bits 1 0) with 0. change (bits 1 1) with 1. rewrite Z.div_1_r. unfold bits.
  replace (_ + _) with (14 + x * 2 ^ 5) by lia. by rewrite Z.mod_add.
Qed.

Lemma idt_word_fields dpl handler :
  0 ≤ dpl < 4 → 0 ≤ handler < 4294967296 →
  let w := idt_word (SET_IDT_ENTRY (with_dpl dpl idt_common) handler) in
  gate_present w = 1 ∧ gate_dpl w = dpl ∧ gate_type w = 14 ∧ gate_selector w = KERNEL_CS ∧
  gate_offset w = handler.
Proof.
  intros Hd Hh w. unfold w, idt_word, SET_IDT_ENTRY, with_dpl, idt_common, gate_present, gate_dpl,
    gate_type, gate_selector, gate_offset. cbn [i_offset_15_00 i_seg_selector i_reserved4 i_reserved3
    i_reserved2 i_reserved1 i_size i_reserved0 i_dpl i_present i_offset_31_16].
  change 65535 with (Z.ones 16). rewrite Z.land_ones, Z.shiftr_land by lia.
  change (4294901760 ≫ 16) with (Z.ones 16). rewrite Z.land_ones, Z.shiftr_div_pow2 by lia.
  split_and!.
  - repeat rewrite fld_pack_skip by lia. by rewrite fld_pack_here by lia.
  - repeat rewrite fld_pack_skip by lia. rewrite fld_pack_here by lia. apply bits_small. lia.
  - do 3 rewrite fld_pack_skip by lia. apply fld_pack_type.
  - rewrite fld_pack_skip by lia. by rewrite fld_pack_here by lia.
  - rewrite fld_pack_here by lia. repeat rewrite fld_pack_skip by lia.
    rewrite fld_pack_here by lia. unfold bits. rewrite !Z.mod_mod by done. rewrite (Z.mod_small (handler / 2 ^ 16)).
    + change (2 ^ 16) with 65536. pose proof (Z.div_mod handler 65536). lia.
    + split; [apply Z.div_pos; lia|apply Z.div_lt_upper_bound; lia].
Qed.
(** The word of a vector after the loop. *)
Definition idt_gate (v : Z) : option Z :=
  (λ '(dpl, e), idt_word (SET_IDT_ENTRY (with_dpl dpl idt_common) (entry_addr e))) <$> idt_case v.

Lemma idt_init_nth s v :
  length (idt s) = 256%nat → 0 ≤ v < 256 →
  nth (Z.to_nat v) (idt (idt_init s)) 0 = default (nth (Z.to_nat v) (idt s) 0) (idt_gate v).
Proof.
  intros Hl Hv. unfold idt_init, NUM_VEC. cbn [idt].
  cut ((λ n t, length t = 256%nat ∧ nth (Z.to_nat v) t 0 =
    if v <? n then default (nth (Z.to_nat v) (idt s) 0) (idt_gate v) else nth (Z.to_nat v) (idt s) 0)
    256 (for_up idt_step 0 256 (idt s))).
  { intros [_ ->]. by destruct (Z.ltb_spec v 256); [|lia]. }
  apply for_up_inv; [lia|split; [done|by destruct (Z.ltb_spec v 0); [lia|]]|].
  intros i t Hi [Hlt Ht]. unfold idt_step, idt_gate in *.
  destruct (decide (v = i)) as [->|Hne].
  - destruct (Z.ltb_spec i (i + 1)); [|lia]. destruct (Z.ltb_spec i i); [lia|].
    destruct (idt_case i) as [[dpl e]|]; simpl; [|by rewrite Ht].
    rewrite length_insert, nth_lookup, list_lookup_insert_eq by lia. done.
  - replace (v <? i + 1) with (v <? i) by (destruct (Z.ltb_spec v i), (Z.ltb_spec v (i + 1)); lia).
    destruct (idt_case i) as [[dpl e]|]; [|done].
    rewrite length_insert, nth_lookup, list_lookup_insert_ne, <- nth_lookup by lia. done.
Qed.

(** The [switch] implements the architecture's assignment of vectors. *)
Lemma idt_case_vector v :
  0 ≤ v < 256 → idt_case v = (λ e, (if v =? 128 then 3 else 0, e)) <$> vector_entry v.
Proof.
  intros Hv. set (f v := (λ e, (if v =? 128 then 3 else 0, e)) <$> vector_entry v).
  pose proof (forallb_seqZ (λ v, bool_decide (idt_case v = f v)) 0 256 v) as H.
  apply bool_decide_eq_true in H; [done|vm_compute; reflexivity|lia].
Qed.

(** C34: after [idt_init] every exception, each of the three devices' interrupts (at the
    vectors the interrupt controllers were given) and the system call lead to their own entry
    point through an interrupt gate of the kernel's code segment; no other vector is present;
    and an [int] instruction of user code gets through for the system call alone. *)
Theorem idt_init_gates s v :
  length (idt s) = 256%nat → Forall (λ w, w = 0) (idt s) →
  (∀ e, 0 ≤ entry_addr e < 4294967296) → 0 ≤ v < 256 →
  let t := idt (idt_init s) in
  deliver t v None = entry_addr <$> vector_entry v ∧
  deliver t v (Some 3) = (if v =? 128 then Some (entry_addr e_syscall) else None) ∧
  ∀ e, vector_entry v = Some e →
    gate_type (nth (Z.to_nat v) t 0) = 14 ∧ gate_selector (nth (Z.to_nat v) t 0) = KERNEL_CS.
Proof.
  intros Hl Hz Ha Hv t. unfold deliver, t. rewrite !(idt_init_nth s v Hl Hv). unfold idt_gate.
  rewrite idt_case_vector by done. destruct (vector_entry v) as [e|] eqn:E; simpl.
  - destruct (idt_word_fields (if v =? 128 then 3 else 0) (entry_addr e)) as (-> & -> & -> & -> & ->);
      [by destruct (v =? 128)|done|]. simpl. split_and!; [done| |done].
    destruct (Z.eqb_spec v 128) as [->|]; [|done]. simpl. by injection E as <-.
  - assert (nth (Z.to_nat v) (idt s) 0 = 0) as ->.
    { rewrite nth_lookup. destruct (idt s !! Z.to_nat v) eqn:Ew; [|done].
      eapply Forall_lookup_1 in Hz; [|exact Ew]. by simpl. }
    change (gate_present 0 =? 1) with false. simpl. split_and!; [done| |done].
    by destruct (Z.eqb_spec v 128) as [->|].
Qed.
End idt.

(** ** Exceptions *)

Section excp.
Context {PT : Ports} {PL : PgLayout} {FL : FsLayout} {FR : Frames}.
Implicit Types (k : kernel).

Definition EXCP_division_error k : option outcome :=
  syscall_halt 255 (kprint (lit "division error occured!"%string ++ [10]) k).
Definition EXCP_single_step_interrupt k : option outcome :=
  syscall_halt 255 (kprint (lit "single_step_interrupt occured!"%string ++ [10]) k).
Definition EXCP_NMI k : option outcome :=
  syscall_halt 255 (kprint (lit "NMI occured!"%string ++ [10]) k).
Definition EXCP_breakpoint k : option outcome :=
  syscall_halt 255 (kprint (lit "breakpoint occured!"%string ++ [10]) k).
Definition EXCP_overflow k : option outcome :=
  syscall_halt 255 (kprint (lit "overflow occured!"%string ++ [10]) k).
Definition EXCP_bound_range_exceeded k : option outcome :=
  syscall_halt 255 (kprint (lit "bound_range_exceeded occured!"%string ++ [10]) k).
Definition EXCP_invalid_opcode k : option outcome :=
  syscall_halt 255 (kprint (lit "invalid_opcode occured!"%string ++ [10]) k).
Definition EXCP_coprocessor_not_available k : option outcome :=
  syscall_halt 255 (kprint (lit "coprocessor_not_available occured!"%string ++ [10]) k).
Definition EXCP_double_fault k : option outcome :=
  syscall_halt 255 (kprint (lit "double_fault occured!"%string ++ [10]) k).
Definition EXCP_coprocessor_segment_overrun k : option outcome :=
  syscall_halt 255 (kprint (lit "coprocessor_segment_overrun occured!"%string ++ [10]) k).
Definition EXCP_invalid_task_state_segment k : option outcome :=
  syscall_halt 255 (kprint (lit "invalid_task_state_segment occured!"%string ++ [10]) k).
Definition EXCP_segment_not_present k : option outcome :=
  syscall_halt 255 (kprint (lit "segment_not_present occured!"%string ++ [10]) k).
Definition EXCP_stack_segment_fault k : option outcome :=
  syscall_halt 255 (kprint (lit "stack_segment_fault occured!"%string ++ [10]) k).
Definition EXCP_general_protection_fault k : option outcome :=
  syscall_halt 255 (kprint (lit "general_protection_fault occured!"%string ++ [10]) k).
(** [cr2] is the faulting address. *)
Definition EXCP_page_fault (cr2 : Z) k : option outcome :=
  match printf (lit "page fault address is: %x"%string ++ [10]) [cr2] k with
  | None => None
  | Some (_, k) => syscall_halt 255 (kprint (lit "page_fault occured!"%string ++ [10]) k)
  end.
Definition EXCP_x87_floating_point_exception k : option outcome :=
  syscall_halt 255 (kprint (lit "x87_floating_point_exception occured!"%string ++ [10]) k).
Definition EXCP_alignment_check k : option outcome :=
  syscall_halt 255 (kprint (lit "alignment_check occured!"%string ++ [10]) k).
Definition EXCP_machine_check k : option outcome :=
  syscall_halt 255 (kprint (lit "machine_check occured!"%string ++ [10]) k).
Definition EXCP_SIMD_floating_point_exception k : option outcome :=
  syscall_halt 255 (kprint (lit "SIMD_floating_point_exception occured!"%string ++ [10]) k).
Definition EXCP_virtualization_exception k : option outcome :=
  syscall_halt 255 (kprint (lit "virtualization_exception occured!"%string ++ [10]) k).
Definition EXCP_control_protection_exception k : option outcome :=
  syscall_halt 255 (kprint (lit "control_protection_exception occured!"%string ++ [10]) k).

(** What the entry points of exception_handler_entries.S call. *)
Definition excp_handlers (cr2 : Z) : list (entry_point * (kernel → option outcome)) :=
  [ (e_division_error, EXCP_division_error);
    (e_single_step_interrupt, EXCP_single_step_interrupt);
    (e_NMI, EXCP_NMI);
    (e_breakpoint, EXCP_breakpoint);
    (e_overflow, EXCP_overflow);
    (e_bound_range_exceeded, EXCP_bound_range_exceeded);
    (e_invalid_opcode, EXCP_invalid_opcode);
    (e_coprocessor_not_available, EXCP_coprocessor_not_available);
    (e_double_fault, EXCP_double_fault);
    (e_coprocessor_segment_overrun, EXCP_coprocessor_segment_overrun);
    (e_invalid_task_state_segment, EXCP_invalid_task_state_segment);
    (e_segment_not_present, EXCP_segment_not_present);
    (e_stack_segment_fault, EXCP_stack_segment_fault);
    (e_general_protection_fault, EXCP_general_protection_fault);
    (e_page_fault, EXCP_page_fault cr2);
    (e_x87_floating_point_exception, EXCP_x87_floating_point_exception);
    (e_alignment_check, EXCP_alignment_check);
    (e_machine_check, EXCP_machine_check);
    (e_SIMD_floating_point_exception, EXCP_SIMD_floating_point_exception);
    (e_virtualization_exception, EXCP_virtualization_exception);
    (e_control_protection_exception, EXCP_control_protection_exception) ].

(** *** Printing *)

Lemma put_list_app l1 l2 k : put_list (l1 ++ l2) k = put_list l2 (put_list l1 k).
Proof. apply foldl_app. Qed.

Lemma put_list_mapped l k tid prog : mapped k tid prog → mapped (put_list l k) tid prog.
Proof.
  intros Hm. eapply shows_ok; [exact Hm| |by eapply put_list_step].
  apply puts_spec_ok. by eapply screen_of_ok.
Qed.

Lemma printf_loop_plain l fmt args k :
  Forall (λ c, c ≠ 37) l → printf_loop (l ++ fmt) None args k = printf_loop fmt None args (put_list l k).
Proof.
  intros Hl. revert k. induction Hl as [|c l Hc Hl IH]; intros k; [done|].
  simpl. rewrite (proj2 (Z.eqb_neq c 37) Hc). apply IH.
Qed.

Lemma conv_total v radix : 0 ≤ v < 4294967296 → 2 ≤ radix ≤ 36 → is_Some (conv v radix).
Proof.
  intros Hv Hr. destruct (itoa_numeral (X := flat) ∅ v 0 radix Hv Hr) as (m & ds & E & _).
  - apply flat_uniq. lia.
  - unfold conv. rewrite E. by eexists.
Qed.

Lemma page_fault_prints cr2 k : ∃ l, EXCP_page_fault cr2 k = syscall_halt 255 (put_list l k).
Proof.
  destruct (conv_total (u32 cr2) 16 ltac:(apply u32_bound) ltac:(lia)) as [ds Eds].
  set (l1 := lit "page fault address is: "%string). set (l2 := lit "page_fault occured!"%string ++ [10]).
  assert (printf (lit "page fault address is: %x"%string ++ [10]) [cr2] k =
          Some (26, put_list (l1 ++ ds ++ [10]) k)) as E.
  { unfold printf. change (lit "page fault address is: %x"%string ++ [10]) with (l1 ++ [37; 120; 10]).
    rewrite printf_loop_plain by (by apply (bool_decide_unpack _)).
    rewrite !put_list_app. generalize (put_list l1 k). intros k1. simpl. by rewrite Eds. }
  exists ((l1 ++ ds ++ [10]) ++ l2). unfold EXCP_page_fault. rewrite E.
  fold l2. by rewrite kprint_plain, <- put_list_app by (by apply (bool_decide_unpack _)).
Qed.

(** Each handler prints something and halts with status 255. *)
Lemma excp_prints cr2 :
  Forall (λ '(_, h), ∀ k, ∃ l, h k = syscall_halt 255 (put_list l k)) (excp_handlers cr2).
Proof.
  assert (∀ s k, Forall (λ c, c ≠ 37) s →
    ∃ l, syscall_halt 255 (kprint s k) = syscall_halt 255 (put_list l k)) as H.
  { intros s k Hs. exists s. by rewrite kprint_plain. }
  unfold excp_handlers.
  repeat (apply Forall_cons_2; [intros k; lazymatch goal with
    | |- context [EXCP_page_fault] => apply page_fault_prints
    | _ => apply H; by apply (bool_decide_unpack _)
    end|]). apply Forall_nil_2.
Qed.

Lemma excp_handled cr2 v e :
  cpu_exceptions !! v = Some (Some e) → ∃ h, (e, h) ∈ excp_handlers cr2.
Proof.
  intros Hv. assert (e ∈ (excp_handlers cr2).*1) as H.
  { assert (Forall (λ o, match o with Some e => e ∈ (excp_handlers cr2).*1 | None => True end)
      cpu_exceptions) as HF.
    { change ((excp_handlers cr2).*1) with (omap id cpu_exceptions).
      apply Forall_forall. intros [e'|] H; [|done]. apply list_elem_of_omap. by exists (Some e'). }
    by eapply Forall_lookup_1 in HF; [|exact Hv]. }
  apply list_elem_of_fmap in H as ([e' h] & -> & H). by exists h.
Qed.

(** C22: an exception in a program ends the program, whatever the exception: the handler of
    each exception vector gives the parent's [execute] the result 256, makes the parent the
    current process and frees the program's pid. *)
Theorem exception_ends_program cr2 v e k S x y r prog :
  refines k S → s_stk S (s_run S) = x :: y :: r → mapped k (running_term_ptr (con k)) prog →
  length (pcb_fds (cur_pcb k)) = 8%nat →
  cpu_exceptions !! v = Some (Some e) →
  ∃ h ra k', (e, h) ∈ excp_handlers cr2 ∧ h k = Some (Resume 256 ra k') ∧
    cur_pid (prc k') = tk_pid y ∧
    cur_pcb_ptr (prc k') = get_pcb_ptr (tk_pid y) ∧ esp (kcpu k') = u32 (tk_ebp y + 8) ∧
    (∀ i, 0 ≤ i < 6 → pid_used k' i ↔ i ≠ tk_pid x ∧ pid_used k i).
Proof.
  intros Hr Ex Hm Hl Hv. destruct (excp_handled cr2 v e Hv) as [h Hin].
  pose proof (excp_prints cr2) as HF. rewrite Forall_forall in HF.
  destruct (HF _ Hin k) as [l El].
  pose proof (put_list_mapped l k _ _ Hm) as [_ Hc _ _ _ (f & fl & Hu)].
  destruct (same_env_put_list l k) as [Eprc _ _ _].
  destruct (halt_resumes_ok 255 (put_list l k) S x y r _ _ ltac:(eapply refines_same;
    [apply same_procs_put_list|exact Hr]) Ex Hc Hu) as (k' & E & H1 & H2 & H3 & _ & _ & _ & _ & H4).
  { unfold cur_pcb. by rewrite Eprc. }
  pose proof (eq_trans El E) as E'.
  exists h, (ld32 (X := kx k') (pmem (put_list l k)) (tk_ebp y + 4)), k'.
  split_and!; [exact Hin|exact E'|done|done|done|]. intros i Hi. rewrite H4 by done.
  unfold pid_used. by rewrite Eprc.
Qed.
End excp.
