(* ===== verification/Boot.v ===== *)
(** * Starting the kernel (kernel.c)

    [entry] as the boot loader calls it: the checks of the multiboot information, the LDT
    and TSS descriptors, and the initialisation of every component in its order.  The end
    of the function, an endless loop with interrupts on, is the state it leaves. *)

From Stdlib Require Import String.
From S2P Require Import Prelude Mem Lib Fs Paging Kstate Pc Screen Terminal Pic Rtc Keyboard.
From S2P Require Import Files Process Sched Exec Load System Idt.

Definition MULTIBOOT_BOOTLOADER_MAGIC : Z := 732803074.
Definition TSS_SIZE : Z := 104.
Definition KERNEL_TSS : Z := 48.
Definition KERNEL_LDT : Z := 56.

(** ** Segment descriptors (x86_desc.h) *)

Record seg_desc_t := SegDesc {
  d_seg_lim_15_00 : Z; d_base_15_00 : Z; d_base_23_16 : Z; d_type : Z; d_sys : Z; d_dpl : Z;
  d_present : Z; d_seg_lim_19_16 : Z; d_avail : Z; d_reserved : Z; d_opsize : Z;
  d_granularity : Z; d_base_31_24 : Z;
}.

Definition seg_word (e : seg_desc_t) : Z :=
  pack [(16, d_seg_lim_15_00 e); (16, d_base_15_00 e); (8, d_base_23_16 e); (4, d_type e);
        (1, d_sys e); (2, d_dpl e); (1, d_present e); (4, d_seg_lim_19_16 e); (1, d_avail e);
        (1, d_reserved e); (1, d_opsize e); (1, d_granularity e); (8, d_base_31_24 e)].

(** [SET_LDT_PARAMS] and [SET_TSS_PARAMS] are the same macro. *)
Definition SET_TSS_PARAMS (e : seg_desc_t) (addr lim : Z) : seg_desc_t :=
  SegDesc (Z.land lim 65535) (Z.land addr 65535) (Z.shiftr (Z.land addr 16711680) 16)
    (d_type e) (d_sys e) (d_dpl e) (d_present e) (Z.shiftr (Z.land lim 983040) 16) (d_avail e)
    (d_reserved e) (d_opsize e) (d_granularity e) (Z.shiftr (Z.land addr 4278190080) 24).

Definition the_ldt_desc : seg_desc_t := SegDesc 0 0 0 2 0 0 1 0 0 0 1 0 0.
Definition the_tss_desc : seg_desc_t :=
  SegDesc (Z.land TSS_SIZE 65535) 0 0 9 0 0 1 (Z.land TSS_SIZE 983040) 0 0 0 0 0.

(** The addresses and sizes of the tables of x86_desc.S. *)
Class GdtSyms := { ldt : Z; ldt_size : Z; tss : Z; tss_size : Z }.

(** What the boot loader and the startup code leave: the kernel's memory and globals, the
    two entries of the GDT and the registers that select them, and the IDT. *)
Record boot_state `{Ports} := Boot {
  bk : kernel; ldt_desc_ptr : Z; tss_desc_ptr : Z; ldtr : Z; tr : Z;
  tss_ldt_segment_selector : Z; b_idt : idt_state;
}.

Definition set_bk `{Ports} (k : kernel) (s : boot_state) : boot_state :=
  Boot _ k (ldt_desc_ptr s) (tss_desc_ptr s) (ldtr s) (tr s) (tss_ldt_segment_selector s) (b_idt s).

Section boot.
Context {PT : Ports} {PL : PgLayout} {FL : FsLayout} {EA : EntryAddrs} {GS : GdtSyms}.
Implicit Types (k : kernel) (s : boot_state).

Definition CHECK_FLAG (flags bit : Z) : bool := nz (Z.land flags (Z.shiftl 1 bit)).

(** The two loops over the boot loader's lists only advance a pointer: over the modules,
    and over the memory map, whose entries give their own size. *)
Definition mods_loop (mods_count : Z) : option Z :=
  while32 (λ mod_count, if mod_count <? mods_count then inl (mod_count + 1) else inr mod_count) 0.

Definition mmap_loop `{X : Xlat} (m : mem) (mmap_addr mmap_length : Z) : option Z :=
  while32 (λ mmap, if mmap <? u32 (mmap_addr + mmap_length)
                   then inl (u32 (mmap + ld32 m mmap + 4)) else inr mmap) mmap_addr.

(** "Construct an LDT entry" and "Construct a TSS entry". *)
Definition boot_segments s : boot_state :=
  Boot _ (upd_prc (set_tss KERNEL_DS 8388608) (bk s))
    (seg_word (SET_TSS_PARAMS the_ldt_desc ldt ldt_size))
    (seg_word (SET_TSS_PARAMS the_tss_desc tss tss_size))
    KERNEL_LDT KERNEL_TSS KERNEL_LDT (b_idt s).

(** [fs_init] on the kernel's state. *)
Definition k_fs_init (mbi : Z) k : kernel :=
  let '(g, m) := fs_init (X := kx k) (pmem k) mbi in set_fsv g (set_mem m k).

(** From "Init the IDT" on. *)
Definition boot_init (mbi : Z) s : boot_state :=
  let s := Boot _ (bk s) (ldt_desc_ptr s) (tss_desc_ptr s) (ldtr s) (tr s)
             (tss_ldt_segment_selector s) (idt_init (b_idt s)) in
  let k := i8259_init (bk s) in
  let k := rtc_init k in
  let k := keyboard_init k in
  let k := k_fs_init mbi k in
  let k := set_mmu (paging_init (kmmu k)) k in
  let k := terminal_init k in
  let k := pit_init k in
  set_bk (sti k) s.

(** [inl]: the function returned early; [inr]: the kernel runs. *)
Definition entry (magic addr : Z) s : option (boot_state + boot_state) :=
  let k := init_screen_xy (bk s) in
  let k := clear k in
  if negb (magic =? MULTIBOOT_BOOTLOADER_MAGIC) then
    match printf (lit "Invalid magic number: 0x%#x"%string ++ [10]) [magic] k with
    | None => None
    | Some (_, k) => Some (inl (set_bk k s))
    end
  else
    let mbi := addr in
    let word o := ld32 (X := kx k) (pmem k) (mbi + o) in
    let flags := word 0 in
    match (if CHECK_FLAG flags 0 && CHECK_FLAG flags 1 && CHECK_FLAG flags 2 && CHECK_FLAG flags 3
           then mods_loop (word 20) else Some 0) with
    | None => None
    | Some _ =>
        if CHECK_FLAG flags 4 && CHECK_FLAG flags 5 then Some (inl (set_bk k s))
        else
          match (if CHECK_FLAG flags 6 then mmap_loop (X := kx k) (pmem k) (word 48) (word 44)
                 else Some 0) with
          | None => None
          | Some _ => Some (inr (boot_init mbi (boot_segments (set_bk k s))))
          end
    end.

(** ** Before paging *)

(** The shape of the terminals' globals, which [terminal_init] needs. *)
Record con_shape (c : console) : Prop := {
  sh_len : length (term_arr c) = 3%nat;
  sh_kbd : Forall (λ t, length (t_kbd_buf t) = 128%nat) (term_arr c);
  sh_run : running_term_ptr c = 0;
  sh_view : viewing_term_ptr c = 0;
}.

(** The kernel before [terminal_init]: no process, and paging is off. *)
Record early k : Prop := {
  ey_con : con_shape (con k);
  ey_cur : cur_pid (prc k) = -1;
  ey_map : pcb_bitmap (prc k) = replicate 6 0;
  ey_pg : PG_bit (kmmu k) = false;
}.

Lemma con_shape_upd c i f :
  (∀ t, length (t_kbd_buf (f t)) = length (t_kbd_buf t)) → con_shape c → con_shape (con_upd_term i f c).
Proof.
  intros Hf [H1 H2 H3 H4]. constructor; simpl; [by rewrite length_alter| |done|done].
  apply Forall_alter; [done|]. intros t _ Ht. by rewrite Hf.
Qed.

Lemma con_shape_set_x v c : con_shape c → con_shape (con_set_x v c).
Proof. intros H. unfold con_set_x. destruct (screen_x_ptr c); [by destruct H|by apply con_shape_upd]. Qed.

Lemma con_shape_set_y v c : con_shape c → con_shape (con_set_y v c).
Proof. intros H. unfold con_set_y. destruct (screen_y_ptr c); [by destruct H|by apply con_shape_upd]. Qed.

Lemma early_mapping t k : early k → early (change_vidmem_mapping t k).
Proof.
  intros [[] ? ? Hpg]. unfold change_vidmem_mapping, switch_fish_paging.
  destruct (nz _); constructor; done.
Qed.

Lemma early_con c k : con_shape c → early k → early (set_con c k).
Proof. intros Hc []. by constructor. Qed.

Lemma early_loop i j k : early k → early (for_up (λ i k, put_cell i 32 k) i j k).
Proof.
  intros Hk. destruct (decide (i ≤ j)); [|by rewrite for_up_nil by lia].
  apply (for_up_inv _ (λ _, early)); [done|done|]. intros x k1 _ []. by constructor.
Qed.

Lemma early_calib k : early k → early (calib_cursor k).
Proof. intros []. by constructor. Qed.

Lemma early_fill k : early k → early (clear_fill k).
Proof.
  intros H. unfold clear_fill.
  pose proof (early_loop 30 (NUM_ROWS * NUM_COLS) k H) as H1.
  generalize dependent (for_up (λ i k, put_cell i 32 k) 30 (NUM_ROWS * NUM_COLS) k). intros k1 H1.
  apply early_calib. apply early_con; [|apply early_con; [|done]].
  - apply con_shape_set_y, con_shape_set_x, H1.
  - apply con_shape_set_x, H1.
Qed.

Lemma early_clear k : early k → early (clear (init_screen_xy k)).
Proof.
  intros H. assert (early (init_screen_xy k)) as H0 by (destruct H as [[] ? ? ?]; by constructor).
  generalize dependent (init_screen_xy k). intros k0 H0.
  unfold clear. apply early_mapping, early_fill, early_mapping, H0.
Qed.

(** Addresses are physical. *)
Lemma early_cell k v : early k → 0 ≤ v < 4294967296 → cell (X := kx k) v = v.
Proof.
  intros [_ _ _ Hpg] Hv. unfold cell, xlat, kx, mmu_xlat, translate. rewrite Hpg, u32_small by done.
  done.
Qed.
End boot.

(** ** Devices *)

Section devices.
Context {PT : Ports} {PL : PgLayout} {PD : PicDev PT} {PF : PicFrame PT}.
Implicit Types (k : kernel).

(** [k'] is [k] but for devices and drivers' variables, and of the interrupt lines exactly
    [irqs] have been unmasked. *)
Record unmasks (irqs : list Z) k k' : Prop := {
  um_mem : pmem k' = pmem k;
  um_mmu : kmmu k' = kmmu k;
  um_con : con k' = con k;
  um_prc : prc k' = prc k;
  um_fsv : fsv k' = fsv k;
  um_ready : pics_ready (io k) → pics_ready (io k');
  um_mask : pics_ready (io k) → ∀ i, 0 ≤ i ≤ 15 →
    masked (io k') i = masked (io k) i && negb (bool_decide (i ∈ irqs));
}.

Lemma unmasks_trans l1 l2 k1 k2 k3 : unmasks l1 k1 k2 → unmasks l2 k2 k3 → unmasks (l1 ++ l2) k1 k3.
Proof.
  intros [] []. constructor; try congruence; [auto|]. intros Hr i Hi.
  rewrite um_mask1, um_mask0 by auto. rewrite <- andb_assoc. f_equal.
  rewrite <- negb_orb, <- bool_decide_or. f_equal. apply bool_decide_ext. by rewrite elem_of_app.
Qed.

Lemma unmasks_io k d :
  (∀ c, (programmed c (io k) → programmed c d) ∧ imr c d = imr c (io k)) → unmasks [] k (set_io d k).
Proof.
  intros H. constructor; try done.
  - intros [H1 H2]. split; [by apply (H false)|by apply (H true)].
  - intros _ i _. simpl. rewrite andb_true_r. unfold masked. simpl.
    by rewrite (proj2 (H false)), (proj2 (H true)).
Qed.

Lemma unmasks_outb k v p : p ∉ pic_ports → unmasks [] k (k_outb v p k).
Proof. intros Hp. apply unmasks_io. intros c. by apply frame_out. Qed.

Lemma unmasks_inb k p v k' : p ∉ pic_ports → k_inb p k = (v, k') → unmasks [] k k'.
Proof.
  intros Hp. unfold k_inb. pose proof (λ c, frame_in c p (io k) Hp) as H. simpl in H.
  destruct (inb p (io k)) as [x d]. intros [= _ <-]. by apply unmasks_io.
Qed.

Lemma unmasks_enable irq k : 0 ≤ irq ≤ 15 → unmasks [irq] k (enable_irq irq k).
Proof.
  intros Hi.
  assert (pmem (enable_irq irq k) = pmem k ∧ kmmu (enable_irq irq k) = kmmu k ∧
    con (enable_irq irq k) = con k ∧ prc (enable_irq irq k) = prc k ∧
    fsv (enable_irq irq k) = fsv k) as (? & ? & ? & ? & ?).
  { unfold enable_irq, IRQ_HIGH, k_inb. destruct (Z.ltb_spec 15 irq); [lia|].
    destruct (_ <=? _); [destruct (inb SLAVE_8259_DATA (io k))|destruct (inb MASTER_8259_DATA (io k))];
      done. }
  constructor; try done.
  - intros Hr. by destruct (irq_mask_ok irq k 0 Hr Hi ltac:(lia)) as (_ & _ & ? & _).
  - intros Hr i Hir. destruct (irq_mask_ok irq k i Hr Hi Hir) as (-> & _). do 2 f_equal.
    apply eq_bool_prop_intro. rewrite Is_true_true, Z.eqb_eq, bool_decide_spec.
    by rewrite list_elem_of_singleton.
Qed.

Lemma unmasks_rtc_vars k r : unmasks [] k (set_rtc r k).
Proof. constructor; try done. intros _ i _. by rewrite andb_true_r. Qed.

Lemma unmasks_kbd_vars k f : unmasks [] k (set_kbd f k).
Proof. constructor; try done. intros _ i _. by rewrite andb_true_r. Qed.

Local Ltac other_port := by apply (bool_decide_unpack _).

Lemma unmasks_rtc_init k : unmasks [8; 2] k (rtc_init k).
Proof.
  unfold rtc_init. set (k0 := set_time_count _ _).
  assert (unmasks [] k k0) as H0.
  { eapply (unmasks_trans [] []); [|apply unmasks_rtc_vars].
    eapply (unmasks_trans [] []); apply unmasks_rtc_vars. }
  clearbody k0.
  destruct (k_inb RTC_PORT k0) as [v k1] eqn:E1. apply unmasks_inb in E1; [|other_port].
  set (k2 := k_outb SEL_B_DIS_NMI RTC_PORT (k_outb _ RTC_PORT k1)).
  assert (unmasks [] k1 k2) as H2.
  { eapply (unmasks_trans [] []); apply unmasks_outb; other_port. }
  clearbody k2. destruct (k_inb CMOS_PORT k2) as [w k3] eqn:E3. apply unmasks_inb in E3; [|other_port].
  set (k4 := k_outb _ CMOS_PORT _).
  assert (unmasks [] k3 k4) as H4.
  { eapply (unmasks_trans [] []); apply unmasks_outb; other_port. }
  clearbody k4. set (k5 := enable_irq SLAVE_IRQ_LINE (enable_irq RTC_IRQ k4)).
  assert (unmasks [8; 2] k4 k5) as H5.
  { eapply (unmasks_trans [8] [2]); apply unmasks_enable; unfold RTC_IRQ, SLAVE_IRQ_LINE; lia. }
  clearbody k5. destruct (k_inb RTC_PORT k5) as [x k6] eqn:E6. apply unmasks_inb in E6; [|other_port].
  assert (unmasks [] k6 (k_outb (Z.land x 127) RTC_PORT k6)) as H7 by (apply unmasks_outb; other_port).
  pose proof (unmasks_trans _ _ _ _ _ H0 (unmasks_trans _ _ _ _ _ E1 (unmasks_trans _ _ _ _ _ H2
    (unmasks_trans _ _ _ _ _ E3 (unmasks_trans _ _ _ _ _ H4 (unmasks_trans _ _ _ _ _ H5
    (unmasks_trans _ _ _ _ _ E6 H7))))))) as H. exact H.
Qed.

Lemma unmasks_keyboard_init k : unmasks [1] k (keyboard_init k).
Proof.
  eapply (unmasks_trans [] [1]); [apply unmasks_kbd_vars|apply unmasks_enable].
  unfold KEYBOARD_IRQ. lia.
Qed.

Lemma unmasks_pit_init k : unmasks [0] k (pit_init k).
Proof.
  unfold pit_init. eapply (unmasks_trans [] [0]); [|apply unmasks_enable; unfold PIT_IRQ; lia].
  eapply (unmasks_trans [] []); [|apply unmasks_outb; other_port].
  eapply (unmasks_trans [] []); apply unmasks_outb; other_port.
Qed.

Lemma i8259_init_frame k :
  pmem (i8259_init k) = pmem k ∧ kmmu (i8259_init k) = kmmu k ∧ con (i8259_init k) = con k ∧
  prc (i8259_init k) = prc k ∧ fsv (i8259_init k) = fsv k.
Proof.
  unfold i8259_init, k_inb. destruct (inb MASTER_8259_DATA (io k)) as [v d]. simpl.
  by destruct (inb SLAVE_8259_DATA d).
Qed.
End devices.

(** ** The whole function *)

Section booting.
Context {PT : Ports} {PL : PgLayout} {FL : FsLayout} {EA : EntryAddrs} {GS : GdtSyms}.
Context {PD : PicDev PT} {PF : PicFrame PT}.
Implicit Types (k : kernel) (s : boot_state).

(** What the boot loader hands over, seen from the state [k] in which it is read: not both
    kinds of symbol table, a memory map whose walk ends, and a first module that is a file
    system image that does not overlap the kernel's copy. *)
Record multiboot k (mbi : Z) : Prop := {
  mb_flags : CHECK_FLAG (ld32 (X := kx k) (pmem k) (mbi + 0)) 4 &&
             CHECK_FLAG (ld32 (X := kx k) (pmem k) (mbi + 0)) 5 = false;
  mb_mmap : CHECK_FLAG (ld32 (X := kx k) (pmem k) (mbi + 0)) 6 = true →
    is_Some (mmap_loop (X := kx k) (pmem k) (ld32 (X := kx k) (pmem k) (mbi + 48))
               (ld32 (X := kx k) (pmem k) (mbi + 44)));
}.

Definition module_start k (mbi : Z) : Z :=
  ld32 (X := kx k) (pmem k) (ld32 (X := kx k) (pmem k) (mbi + 24)).

Record fs_module k (mbi : Z) : Prop := {
  fm_high : module_start k mbi + IMAGE_SIZE < 4294967296;
  fm_apart : apart fs_blocks IMAGE_SIZE (module_start k mbi) IMAGE_SIZE;
  fm_fit : 1 + ld32 (X := kx k) (pmem k) (module_start k mbi + 4)
             + ld32 (X := kx k) (pmem k) (module_start k mbi + 8) ≤ TOTAL_BLOCK;
}.

Lemma mods_loop_total n : 0 ≤ n < 4294967296 → is_Some (mods_loop n).
Proof.
  intros Hn. destruct (while32_total (λ c, if c <? n then inl (c + 1) else inr c)
    (λ c, 0 ≤ c ≤ n) (λ _, True) (λ c, n - c) 0) as (b & E & _);
    [|lia|change (2 ^ 32) with 4294967296; lia|by exists b].
  cbv beta. intros c Hc. split; [lia|]. destruct (Z.ltb_spec c n); [lia|done].
Qed.

(** A range of physical addresses before paging. *)
Lemma early_uniq k a n : early k → 0 ≤ a → a + n ≤ 4294967296 → uniq_range (X := kx k) a n.
Proof. intros Hk ?? i j ??. rewrite !early_cell by (done || lia). lia. Qed.

Lemma early_sep k a n b l :
  early k → 0 ≤ a → a + n ≤ 4294967296 → 0 ≤ b → b + l ≤ 4294967296 → apart a n b l →
  sep_range (X := kx k) a n b l.
Proof. intros Hk ???? [?|?] i j ??; rewrite !early_cell by (done || lia); lia. Qed.

(** The kernel's page looks the same when paging comes on. *)
Lemma early_agrees k k' m a n :
  early k → paged k' → kpage a n → agrees (X := kx k) (kx k') m m a n.
Proof.
  intros Hk Hp Ha v Hv. unfold ld8. pose proof (kpage_cell k' a n (v - a) Hp Ha ltac:(lia)) as E.
  replace (a + (v - a)) with v in E by lia. rewrite E. destruct Ha.
  by rewrite (early_cell k v Hk) by lia.
Qed.

Lemma terminal_init_frame k :
  pmem (terminal_init k) = pmem k ∧ fsv (terminal_init k) = fsv k ∧ io (terminal_init k) = io k ∧
  prc (terminal_init k) = prc k.
Proof. done. Qed.

(** The state of the drivers when the file system is set up. *)
Lemma drivers_ready k :
  let k' := keyboard_init (rtc_init (i8259_init k)) in
  pmem k' = pmem k ∧ kmmu k' = kmmu k ∧ con k' = con k ∧ prc k' = prc k ∧
  pics_ready (io k') ∧ ∀ i, 0 ≤ i ≤ 15 → masked (io k') i = negb (bool_decide (i ∈ [8; 2; 1])).
Proof.
  intros k'. subst k'. destruct (i8259_init_frame k) as (E1 & E2 & E3 & E4 & _).
  destruct (i8259_init_programs k) as (Hr & _ & _ & Hm). cbv zeta in *.
  destruct (unmasks_trans _ _ _ _ _ (unmasks_rtc_init (i8259_init k))
    (unmasks_keyboard_init (rtc_init (i8259_init k)))) as [F1 F2 F3 F4 _ F6 F7].
  split_and!; [by rewrite F1|by rewrite F2|by rewrite F3|by rewrite F4|by apply F6|].
  intros i Hi. by rewrite F7, Hm by done.
Qed.

(** ** The state the kernel starts with *)

Record started k0 (mbi : Z) k : Prop := {
  bt_boot : at_boot k;
  bt_view : mapped k 0 None;
  bt_kbd : kbd_ok (con k);
  bt_fs : fs_ok (X := kx k) (pmem k) (fsv k);
  bt_image : ∀ i, 0 ≤ i < IMAGE_SIZE →
    ld8 (X := kx k) (pmem k) (fs_blocks + i) = ld8 (X := kx k0) (pmem k0) (module_start k0 mbi + i);
  bt_irqs : pics_ready (io k) ∧
    ∀ i, 0 ≤ i ≤ 15 → masked (io k) i = negb (bool_decide (i ∈ [8; 2; 1; 0]));
  bt_if : if_flag (kcpu k) = true;
}.

(** What the file system and the kernel's images need of the linker's layout. *)
Record boot_layout : Prop := {
  bl_pg : layout_ok;
  bl_fs : fs_kpage;
  bl_apart : apart boot_block BLOCK_SIZE fs_blocks IMAGE_SIZE;
}.

Lemma k_fs_init_ok k mbi :
  early k → boot_layout → fs_module k mbi →
  let k' := k_fs_init mbi k in
  early k' ∧ io k' = io k ∧ kx k' = kx k ∧ fs_ok (X := kx k) (pmem k') (fsv k') ∧
  ∀ i, 0 ≤ i < IMAGE_SIZE →
    ld8 (X := kx k) (pmem k') (fs_blocks + i) = ld8 (X := kx k) (pmem k) (module_start k mbi + i).
Proof.
  intros He [_ [[B1 B2] [I1 I2]] Ha] [M1 M2 M3]. unfold k_fs_init.
  assert (0 ≤ module_start k mbi) as M0 by apply ld32_bound.
  assert (0 ≤ IMAGE_SIZE ∧ 0 ≤ BLOCK_SIZE) as [? ?] by (unfold IMAGE_SIZE, TOTAL_BLOCK, BLOCK_SIZE; lia).
  opose proof* (fs_init_ok (X := kx k) (pmem k) mbi) as Hi; try lia.
  { apply early_uniq; (done || lia). }
  { apply early_uniq; (done || lia). }
  { apply early_sep; (done || unfold module_start in *; lia). }
  { apply early_sep; (done || lia). }
  { exact M3. }
  destruct (fs_init (X := kx k) (pmem k) mbi) as [g m]. destruct Hi as (H1 & H2 & _).
  split; [by destruct He|]. done.
Qed.

(** The address space and the terminals. *)
Lemma boot_terms k :
  early k → layout_ok →
  let k' := terminal_init (set_mmu (paging_init (kmmu k)) k) in
  at_boot k' ∧ mapped k' 0 None ∧ kbd_ok (con k') ∧ paged k'.
Proof.
  intros [[C1 C2 C3 C4] Hcur Hmap _] Hl k'.
  rewrite Forall_forall in C2. pose proof (paging_init_ok (kmmu k) Hl) as Hu.
  destruct (terminal_init_establishes (set_mmu (paging_init (kmmu k)) k) _ _ Hl Hu eq_refl C1 C2 C3 C4)
    as (Hm & Hk & Ht).
  split_and!; [|exact Hm|exact Hk|].
  - constructor; [apply Hm|by apply Ht|exact Hcur|exact Hmap].
  - split; [done|]. destruct (mp_mmu _ _ _ Hm) as (f & fl & H). eauto.
Qed.

(** From [paging_init] on. *)
Lemma boot_tail k0 mbi k :
  early k → boot_layout → pics_ready (io k) →
  (∀ i, 0 ≤ i ≤ 15 → masked (io k) i = negb (bool_decide (i ∈ [8; 2; 1]))) →
  fs_ok (X := kx k) (pmem k) (fsv k) →
  (∀ i, 0 ≤ i < IMAGE_SIZE → ld8 (X := kx k) (pmem k) (fs_blocks + i) =
     ld8 (X := kx k0) (pmem k0) (module_start k0 mbi + i)) →
  started k0 mbi (sti (pit_init (terminal_init (set_mmu (paging_init (kmmu k)) k)))).
Proof.
  intros He [Hpg [Hf1 Hf2] _] Hr Hk Hfs Hi.
  destruct (boot_terms k He Hpg) as (Hb & Hv & Hkb & Hp).
  destruct (terminal_init_frame (set_mmu (paging_init (kmmu k)) k)) as (T1 & T2 & T3 & _).
  generalize dependent (terminal_init (set_mmu (paging_init (kmmu k)) k)).
  intros k3 Hb Hv Hkb Hp T1 T2 T3. simpl in T1, T2, T3.
  pose proof (early_agrees k k3 (pmem k) _ _ He Hp Hf1) as G1.
  pose proof (early_agrees k k3 (pmem k) _ _ He Hp Hf2) as G2.
  destruct (unmasks_pit_init k3) as [U1 U2 U3 U4 U5 U6 U7].
  generalize dependent (pit_init k3). intros k4 U1 U2 U3 U4 U5 U6 U7.
  rewrite T3 in U6, U7. rewrite T1 in U1. rewrite T2 in U5.
  assert (kx (sti k4) = kx k3) as Ex4 by (unfold kx; simpl; by rewrite U2).
  constructor; rewrite ?Ex4; simpl; rewrite ?U1, ?U5.
  - destruct Hb. constructor; simpl; unfold term in *; simpl; rewrite ?U3, ?U4; done.
  - destruct Hv. constructor; simpl; rewrite ?U2, ?U3; done.
  - by rewrite U3.
  - by eapply stable_ok.
  - intros i Hir. rewrite <- Hi by done. apply G2. lia.
  - split; [by apply U6|]. intros i Hir. rewrite U7, Hk by done.
    rewrite <- negb_orb, <- bool_decide_or. f_equal. apply bool_decide_ext. by rewrite <- elem_of_app.
  - done.
Qed.

Lemma boot_init_started k0 mbi s :
  early k0 → boot_layout → fs_module k0 mbi →
  pmem (bk s) = pmem k0 → kmmu (bk s) = kmmu k0 → con (bk s) = con k0 →
  cur_pid (prc (bk s)) = -1 → pcb_bitmap (prc (bk s)) = replicate 6 0 →
  started k0 mbi (bk (boot_init mbi s)).
Proof.
  intros He Hl Hmod Em Eu Ec Ecur Emap. unfold boot_init. cbn [bk set_bk].
  destruct (drivers_ready (bk s)) as (Dm & Du & Dc & Dp & Dr & Dk).
  generalize dependent (keyboard_init (rtc_init (i8259_init (bk s)))). intros k1 Dm Du Dc Dp Dr Dk.
  rewrite Em in Dm. rewrite Eu in Du. rewrite Ec in Dc. rewrite <- Dp in Ecur, Emap.
  assert (kx k1 = kx k0) as Ex by (unfold kx; by rewrite Du).
  assert (early k1) as He1 by (destruct He; constructor; rewrite ?Dc, ?Du; done).
  assert (fs_module k1 mbi) as Hm1
    by (destruct Hmod; constructor; unfold module_start in *; rewrite Ex, Dm; done).
  destruct (k_fs_init_ok k1 mbi He1 Hl Hm1) as (He2 & E2 & Ex2 & F2 & I2).
  rewrite <- Ex2 in F2. apply boot_tail; [done|done|by rewrite E2| |done|].
  - intros i Hi. rewrite E2. by apply Dk.
  - intros i Hi. rewrite Ex2, I2 by done. unfold module_start. by rewrite Ex, Dm.
Qed.
(** ** The descriptors *)

(** The base and the limit the processor reads from a segment descriptor. *)
Definition seg_base (w : Z) : Z := fld 16 16 w + 65536 * fld 32 8 w + 16777216 * fld 56 8 w.
Definition seg_limit (w : Z) : Z := fld 0 16 w + 65536 * fld 48 4 w.

Lemma seg_word_fields e addr lim :
  0 ≤ addr < 4294967296 → 0 ≤ lim < 1048576 →
  seg_base (seg_word (SET_TSS_PARAMS e addr lim)) = addr ∧
  seg_limit (seg_word (SET_TSS_PARAMS e addr lim)) = lim.
Proof.
  intros Ha Hl. unfold seg_base, seg_limit, seg_word, SET_TSS_PARAMS.
  cbn [d_seg_lim_15_00 d_base_15_00 d_base_23_16 d_type d_sys d_dpl d_present d_seg_lim_19_16
    d_avail d_reserved d_opsize d_granularity d_base_31_24].
  rewrite !Z.shiftr_land. change (16711680 ≫ 16) with (Z.ones 8). change (983040 ≫ 16) with (Z.ones 4).
  change (4278190080 ≫ 24) with (Z.ones 8). change 65535 with (Z.ones 16).
  rewrite !Z.land_ones, !Z.shiftr_div_pow2 by lia.
  repeat (first [rewrite fld_pack_skip by lia|rewrite fld_pack_here by lia]).
  unfold bits. rewrite !Z.mod_mod by done.
  change (2 ^ 16) with 65536. change (2 ^ 24) with 16777216. change (2 ^ 8) with 256. change (2 ^ 4) with 16.
  split; Z.div_mod_to_equations; lia.
Qed.

Lemma boot_init_tables mbi s :
  b_idt (boot_init mbi s) = idt_init (b_idt s) ∧ tr (boot_init mbi s) = tr s ∧
  tss_desc_ptr (boot_init mbi s) = tss_desc_ptr s.
Proof. unfold boot_init. cbn [b_idt set_bk tr tss_desc_ptr]. done. Qed.

(** The walk over the boot loader's lists ends, and the rest of the function runs. *)
Lemma entry_runs addr s :
  let k0 := clear (init_screen_xy (bk s)) in
  multiboot k0 addr →
  entry MULTIBOOT_BOOTLOADER_MAGIC addr s = Some (inr (boot_init addr (boot_segments (set_bk k0 s)))).
Proof.
  intros k0 [Hf Hm]. unfold entry. rewrite Z.eqb_refl. fold k0. cbv zeta. cbn [negb].
  generalize dependent k0. intros k0 Hf Hm.
  assert (∀ (c : bool) a, is_Some (if c then mods_loop (ld32 (X := kx k0) (pmem k0) a) else Some 0))
    as Hmods by (intros []; [intros; apply mods_loop_total, ld32_bound|by eexists]).
  match goal with |- context [if ?c then mods_loop (ld32 _ ?a) else _] =>
    destruct (Hmods c a) as [b ->] end.
  rewrite Hf. destruct (CHECK_FLAG _ 6) eqn:E6; [|reflexivity].
  by destruct (Hm eq_refl) as [x ->].
Qed.

Lemma boot_started k0 addr s :
  early k0 → boot_layout → fs_module k0 addr →
  0 ≤ tss < 4294967296 → 0 ≤ tss_size < 1048576 →
  let s' := boot_init addr (boot_segments (set_bk k0 s)) in
  started k0 addr (bk s') ∧ b_idt s' = idt_init (b_idt s) ∧ tr s' = KERNEL_TSS ∧
  seg_base (tss_desc_ptr s') = tss ∧ seg_limit (tss_desc_ptr s') = tss_size.
Proof.
  intros He Hl Hmod Ht Hts s'. subst s'.
  destruct (boot_init_tables addr (boot_segments (set_bk k0 s))) as (-> & -> & ->).
  split_and!; [|done|done|by apply seg_word_fields..].
  apply boot_init_started; try done; apply He.
Qed.

End booting.

(** ** A machine that boots *)

#[local] Existing Instance demo_pg.
#[local] Existing Instance pc_ports.

#[local] Instance boot_fs : FsLayout := {| fs_blocks := 5242880; boot_block := 6291456 |}.
#[local] Instance boot_entries : EntryAddrs := λ _, 4194816.
#[local] Instance boot_gdt : GdtSyms := {| ldt := 4300800; ldt_size := 80; tss := 4304896; tss_size := 104 |}.

(** The multiboot information at 64 KB: one module, whose record is at 68 KB, an image at 32 MB
    with one directory entry, one inode and one data block. *)
Definition loader_words : list (Z * Z) :=
  [ (65536, 8); (65536 + 20, 1); (65536 + 24, 69632); (69632, 33554432);
    (33554432, 1); (33554436, 1); (33554440, 1); (33554432 + 64, 46); (33554432 + 96, 1) ].

Definition power_on : boot_state :=
  Boot pc_ports
    (@Kernel pc_ports (foldl (λ m '(a, v), st32 (X := flat) m a v) ∅ loader_words) mmu_reset pc_reset
       (Cpu 0 0 false) demo_con (KbdFlags 0 0 0 0 0) (RtcVars 0 0 0) (PicVars 255 255)
       (Procs (-1) 0 (replicate 6 0) ∅ 0 0) (FsVars 0 0)) 0 0 0 0 0 (IdtState (replicate 256 0) false).

(** What [entry] reads of it after clearing the screen. *)
Definition power_on_k : kernel := clear (init_screen_xy (bk power_on)).

Lemma power_on_flags : ld32 (X := kx power_on_k) (pmem power_on_k) (65536 + 0) = 8.
Proof. vm_compute. reflexivity. Qed.

Lemma power_on_module : module_start power_on_k 65536 = 33554432.
Proof. vm_compute. reflexivity. Qed.

Lemma power_on_blocks :
  1 + ld32 (X := kx power_on_k) (pmem power_on_k) (33554432 + 4)
    + ld32 (X := kx power_on_k) (pmem power_on_k) (33554432 + 8) = 3.
Proof. vm_compute. reflexivity. Qed.

Lemma power_on_early : early (bk power_on).
Proof. constructor; try reflexivity. constructor; [reflexivity|repeat constructor|reflexivity..]. Qed.

