(* ===== verification/User.v ===== *)
(** * User programs (src/syscalls)

    The support library and the programs that come with the system, over the interface
    they see of it: the class [Usys] of a state with memory, and the trap [int $0x80].  A
    program is a function of that state in the monad [prog]; [None] is a fault, a call that
    does not return to its caller, or a loop that has not ended after 2^32 rounds.

    A string literal is at the address [str] gives to its bytes, a local array at an address
    the program's definition takes as an argument. *)

From Stdlib Require Import String.
From S2P Require Import Prelude Mem Lib Kstate Screen.

(** ** The interface *)

(** [int80 eax ebx ecx edx] is the value left in EAX and the state after the trap. *)
Class Usys := {
  ust : Type;
  umem : ust → mem;
  uxl : ust → Xlat;
  uset : mem → ust → ust;
  int80 : Z → Z → Z → Z → ust → option (Z * ust);
}.

Class Rodata := str : list Z → Z.

Definition prog `{Usys} (A : Type) : Type := ust → option (A * ust).

#[export] Instance prog_ret `{Usys} : MRet prog := λ A a u, Some (a, u).
#[export] Instance prog_bind `{Usys} : MBind prog := λ A B f p u,
  match p u with Some (a, u) => f a u | None => None end.

Section user.
Context {US : Usys} {RO : Rodata}.

(** A loop whose body goes on with [inl] or leaves with [inr]. *)
Definition ploop {A B} (body : A → prog (A + B)) (a : A) : prog B := λ u,
  match while32 (λ '(a, u), match body a u with
                            | None => inr None
                            | Some (inl a, u) => inl (a, u)
                            | Some (inr b, u) => inr (Some (b, u))
                            end) (a, u) with
  | Some r => r
  | None => None
  end.

Definition uld8 (u : ust) (a : Z) : Z := ld8 (X := uxl u) (umem u) a.
Definition ust8 (a v : Z) (u : ust) : ust := uset (st8 (X := uxl u) (umem u) a v) u.

Definition peekb (a : Z) : prog Z := λ u, Some (uld8 u a, u).
Definition pokeb (a v : Z) : prog () := λ u, Some ((), ust8 a v u).

(** ** System calls (ece391syscall.S, ece391sysnum.h) *)

Definition SYS_HALT : Z := 1.
Definition SYS_EXECUTE : Z := 2.
Definition SYS_READ : Z := 3.
Definition SYS_WRITE : Z := 4.
Definition SYS_OPEN : Z := 5.
Definition SYS_CLOSE : Z := 6.
Definition SYS_GETARGS : Z := 7.
Definition SYS_VIDMAP : Z := 8.

(** The wrappers put up to three arguments into registers; the result is an [int32_t]. *)
Definition DO_CALL (number ebx ecx edx : Z) : prog Z :=
  eax ← int80 number (u32 ebx) (u32 ecx) (u32 edx); mret (s32 eax).

(** What the stack holds above a call's own arguments is of no concern to the calls that
    take fewer. *)
Context (junk : Z).

Definition ece391_execute (command : Z) : prog Z := DO_CALL SYS_EXECUTE command junk junk.
Definition ece391_read (fd buf nbytes : Z) : prog Z := DO_CALL SYS_READ fd buf nbytes.
Definition ece391_write (fd buf nbytes : Z) : prog Z := DO_CALL SYS_WRITE fd buf nbytes.
Definition ece391_open (filename : Z) : prog Z := DO_CALL SYS_OPEN filename junk junk.
Definition ece391_close (fd : Z) : prog Z := DO_CALL SYS_CLOSE fd junk junk.
Definition ece391_getargs (buf nbytes : Z) : prog Z := DO_CALL SYS_GETARGS buf nbytes junk.
Definition ece391_vidmap (screen_start : Z) : prog Z := DO_CALL SYS_VIDMAP screen_start junk junk.

(** ** The support library (ece391support.c) *)

Definition ece391_strlen (s : Z) : prog Z :=
  ploop (λ '(s, len), c ← peekb s;
          mret (if c =? 0 then inr len else inl (u32 (s + 1), u32 (len + 1)))) (s, 0).

Definition ece391_strcpy (dst src : Z) : prog () :=
  ploop (λ '(dst, src), c ← peekb src; _ ← pokeb dst c;
          mret (if c =? 0 then inr () else inl (u32 (dst + 1), u32 (src + 1)))) (dst, src).

Definition ece391_fdputs (fd s : Z) : prog () :=
  n ← ece391_strlen s; _ ← ece391_write fd s n; mret ().

Definition ece391_strcmp (s1 s2 : Z) : prog Z :=
  ploop (λ '(s1, s2), a ← peekb s1; b ← peekb s2;
          mret (if a =? b then if a =? 0 then inr 0 else inl (u32 (s1 + 1), u32 (s2 + 1))
                else inr (a - b))) (s1, s2).

Definition ece391_strncmp (s1 s2 n : Z) : prog Z :=
  if n =? 0 then mret 0
  else
    ploop (λ '(s1, s2, n), a ← peekb s1; b ← peekb s2;
            mret (if a =? b
                  then if (a =? 0) || (u32 (n - 1) =? 0) then inr 0
                       else inl (u32 (s1 + 1), u32 (s2 + 1), u32 (n - 1))
                  else inr (a - b))) (s1, s2, n).

Definition ece391_strrev (s : Z) : prog () :=
  len ← ece391_strlen s;
  let end_ := s32 (len - 1) in
  if end_ <=? 0 then mret ()
  else
    ploop (λ '(beg, end_),
      if beg <? end_ then
        tmp ← peekb (s + end_);
        c ← peekb (s + beg);
        _ ← pokeb (s + end_) c;
        _ ← pokeb (s + beg) tmp;
        mret (inl (beg + 1, end_ - 1))
      else mret (inr ())) (0, end_).

(** [newval % radix] and [newval /= radix] are unsigned: [radix] is converted. *)
Definition ece391_itoa (value buf radix : Z) : prog () :=
  if value =? 0 then _ ← pokeb buf 48; pokeb (buf + 1) 0
  else
    newbuf ← ploop (λ '(newval, newbuf),
      if 0 <? newval then
        _ ← pokeb newbuf (lookup_char (newval mod u32 radix));
        mret (inl (newval / u32 radix, newbuf + 1))
      else mret (inr newbuf)) (value, buf);
    _ ← pokeb newbuf 0;
    ece391_strrev buf.

Definition puts1 (l : list Z) : prog () := ece391_fdputs 1 (str l).

(** ** Small programs *)

(** ece391testprint.c *)
Definition testprint_main : prog Z :=
  _ ← puts1 (lit "Hello, if this ran, the program was correct. Yay!"%string ++ [10]); mret 0.

(** ece391hello.c *)
Definition hello_main (buf : Z) : prog Z :=
  _ ← puts1 (lit "Hi, what's your name? "%string);
  cnt ← ece391_read 0 buf 1023;
  if cnt =? -1 then _ ← puts1 (lit "Can't read name from keyboard."%string ++ [10]); mret 3
  else
    _ ← pokeb (buf + cnt) 0;
    _ ← puts1 (lit "Hello, "%string);
    _ ← ece391_fdputs 1 buf;
    mret 0.

(** ece391counter.c *)
Definition counter_max (c : Z) : Z :=
  if c =? 48 then 100 else if c =? 49 then 10000 else if c =? 50 then 100000 else 0.

Definition counter_loop (max buf : Z) : prog Z :=
  ploop (λ i, if i <? max then
      _ ← ece391_itoa (u32 (i + 1)) buf 10;
      _ ← ece391_fdputs 1 buf;
      _ ← puts1 [10];
      mret (inl (i + 1))
    else mret (inr 0)) 0.

Definition counter_main (buf : Z) : prog Z :=
  _ ← puts1 (lit "Enter the Test Number: (0): 100, (1): 10000, (2): 100000"%string ++ [10]);
  r ← ece391_read 0 buf 1023;
  let cnt := u32 r in
  if cnt =? u32 (-1) then _ ← puts1 (lit "Can't read the number from keyboard."%string ++ [10]); mret 3
  else
    _ ← pokeb (buf + cnt) 0;
    len ← ece391_strlen buf;
    c ← peekb buf;
    if (2 <? len) || ((len =? 2) && ((c <? 48) || (50 <? c))) then
      _ ← puts1 (lit "Wrong Choice!"%string ++ [10]); mret 0
    else counter_loop (counter_max c) buf.

(** ece391cat.c *)
Definition cat_loop (fd buf : Z) : prog Z :=
  ploop (λ _, cnt ← ece391_read fd buf 1024;
      if cnt =? 0 then mret (inr 0)
      else if cnt =? -1 then _ ← puts1 (lit "file read failed"%string ++ [10]); mret (inr 3)
      else
        r ← ece391_write 1 buf cnt;
        mret (if r =? -1 then inr 3 else inl ())) ().

Definition cat_main (buf : Z) : prog Z :=
  r ← ece391_getargs buf 1024;
  if negb (r =? 0) then _ ← puts1 (lit "could not read arguments"%string ++ [10]); mret 3
  else
    fd ← ece391_open buf;
    if fd =? -1 then _ ← puts1 (lit "file not found"%string ++ [10]); mret 2
    else cat_loop fd buf.

(** ece391ls.c *)
Definition ls_body (fd buf : Z) : prog (() + Z) :=
  cnt ← ece391_read fd buf 32;
  if cnt =? 0 then mret (inr 0)
  else if cnt =? -1 then _ ← puts1 (lit "directory entry read failed"%string ++ [10]); mret (inr 3)
  else
    _ ← pokeb (buf + cnt) 10;
    _ ← puts1 (lit "try to write..."%string ++ [10]);
    result ← ece391_write 1 buf (cnt + 1);
    mret (if result =? -1 then inr 3 else inl ()).

Definition ls_loop (fd buf : Z) : prog Z := ploop (λ _, ls_body fd buf) ().

Definition ls_main (buf : Z) : prog Z :=
  fd ← ece391_open (str (lit "."%string));
  if fd =? -1 then _ ← puts1 (lit "directory open failed"%string ++ [10]); mret 2
  else ls_loop fd buf.

(** ece391grep.c: the end of the line that starts at [line_start]. *)
Definition grep_line_end (data last line_start : Z) : prog Z :=
  ploop (λ line_end, if line_end <? last then
      c ← peekb (data + line_end);
      mret (if c =? 10 then inr line_end else inl (line_end + 1))
    else mret (inr line_end)) line_start.

(** [s] is a [char] pointer, [data] has unsigned bytes. *)
Definition grep_search (s fname data s_len line_start line_end : Z) : prog () :=
  ploop (λ check, if check <? line_end then
      c0 ← peekb s;
      c ← peekb (data + check);
      if s8 c0 =? c then
        d ← ece391_strncmp (data + check) s (u32 s_len);
        if d =? 0 then
          _ ← ece391_fdputs 1 fname;
          _ ← puts1 (lit ":"%string);
          _ ← ece391_fdputs 1 (data + line_start);
          _ ← puts1 [10];
          mret (inr ())
        else mret (inl (check + 1))
      else mret (inl (check + 1))
    else mret (inr ())) line_start.

(** The lines in the first [last] bytes of the buffer; the result is the new [last]. *)
Definition grep_lines (s fname data s_len cnt last : Z) : prog Z :=
  ploop (λ line_start,
    line_end ← grep_line_end data last line_start;
    c ← peekb (data + line_end);
    if negb (c =? 10) && negb (cnt =? 0) && negb (line_start =? 0) then
      _ ← pokeb (data + line_end) 0;
      _ ← ece391_strcpy data (data + line_start);
      mret (inr (last - line_start))
    else
      _ ← pokeb (data + line_end) 0;
      _ ← grep_search s fname data s_len line_start line_end;
      mret (if last <=? line_end + 1 then inr 0 else inl (line_end + 1))) 0.

Definition grep_blocks (s fname data s_len fd : Z) : prog Z :=
  ploop (λ last,
    cnt ← ece391_read fd (data + last) (1024 - last);
    if cnt =? -1 then _ ← puts1 (lit "file read failed"%string ++ [10]); mret (inr (-1))
    else
      last ← grep_lines s fname data s_len cnt (last + cnt);
      mret (if cnt =? 0 then inr 0 else inl last)) 0.

Definition do_one_file (s fname data : Z) : prog Z :=
  s_len ← ece391_strlen s;
  fd ← ece391_open fname;
  if fd =? -1 then _ ← puts1 (lit "file open failed"%string ++ [10]); mret (-1)
  else
    r ← grep_blocks s fname data (s32 s_len) fd;
    if r =? -1 then mret (-1)
    else
      c ← ece391_close fd;
      if c =? -1 then _ ← puts1 (lit "file close failed"%string ++ [10]); mret (-1)
      else mret 0.

Definition grep_main (buf search data : Z) : prog Z :=
  r ← ece391_getargs search 1024;
  if negb (r =? 0) then _ ← puts1 (lit "could not read argument"%string ++ [10]); mret 3
  else
    fd ← ece391_open (str (lit "."%string));
    if fd =? -1 then _ ← puts1 (lit "directory open failed"%string ++ [10]); mret 2
    else
      ploop (λ _, cnt ← ece391_read fd buf 32;
        if cnt =? 0 then mret (inr 0)
        else if cnt =? -1 then
          _ ← puts1 (lit "directory entry read failed"%string ++ [10]); mret (inr 3)
        else
          c ← peekb buf;
          if c =? 46 then mret (inl ())
          else
            _ ← pokeb (buf + cnt) 0;
            r ← do_one_file search buf data;
            mret (if r =? 0 then inl () else inr 3)) ().

(** ece391pingpong.c: the buffer has 81 bytes, the character moves from 2 to 77. *)
Definition fill (buf lo hi c : Z) : prog () :=
  ploop (λ i, if i <? hi then _ ← pokeb (buf + i) c; mret (inl (i + 1)) else mret (inr ())) lo.

(** Storing an [int]. *)
Definition pokew (a v : Z) : prog () :=
  _ ← pokeb a v; _ ← pokeb (a + 1) (Z.shiftr v 8); _ ← pokeb (a + 2) (Z.shiftr v 16);
  pokeb (a + 3) (Z.shiftr v 24).

Definition pingpong_init (buf : Z) : prog () :=
  _ ← fill buf 0 81 32; _ ← pokeb (buf + 80) 0; _ ← pokeb (buf + 79) 10; _ ← pokeb (buf + 78) 124;
  pokeb (buf + 1) 124.

Definition pingpong_draw (buf curchar j : Z) : prog () :=
  _ ← fill buf 2 78 32; _ ← pokeb (buf + j) curchar; ece391_fdputs 1 buf.

(** One round: out, and back. *)
Definition pingpong_round (buf garbage rtc_fd curchar : Z) : prog () :=
  _ ← ploop (λ j, if j <? 78 then
        _ ← pingpong_draw buf curchar j; _ ← ece391_read rtc_fd garbage 4; mret (inl (j + 1))
      else mret (inr ())) 2;
  ploop (λ j, if 2 <=? j then
      _ ← pingpong_draw buf curchar j; _ ← ece391_read rtc_fd garbage 4; mret (inl (j - 1))
    else mret (inr ())) 77.

Definition pingpong_main (buf ret_val garbage : Z) : prog Z :=
  _ ← pingpong_init buf;
  rtc_fd ← ece391_open (str (lit "rtc"%string));
  _ ← pokew ret_val 32;
  r ← ece391_write rtc_fd ret_val 4;
  _ ← pokew ret_val r;
  ploop (λ curchar, _ ← pingpong_round buf garbage rtc_fd curchar;
    mret (inl (if curchar =? 90 then 65 else u8 (curchar + 1)))) 65.

(** ece391shell.c: the command in the buffer, one round, and the loop. *)
Definition shell_run (buf : Z) : prog (() + Z) :=
  rval ← ece391_execute buf;
  _ ← (if rval =? -1 then puts1 (lit "no such command"%string ++ [10])
       else if rval =? 256 then puts1 (lit "program terminated by exception"%string ++ [10])
       else if negb (rval =? 0) then puts1 (lit "program terminated abnormally"%string ++ [10])
       else mret ());
  mret (inl ()).

Definition shell_step (buf : Z) : prog (() + Z) :=
  _ ← puts1 (lit "391OS> "%string);
  cnt ← ece391_read 0 buf 1023;
  if cnt =? -1 then _ ← puts1 (lit "read from keyboard failed"%string ++ [10]); mret (inr 3)
  else
    c ← peekb (buf + cnt - 1);
    let cnt := if (0 <? cnt) && (c =? 10) then cnt - 1 else cnt in
    _ ← pokeb (buf + cnt) 0;
    d ← ece391_strcmp buf (str (lit "exit"%string));
    if d =? 0 then mret (inr 0)
    else
      c ← peekb buf;
      if c =? 0 then mret (inl ()) else shell_run buf.

Definition shell_main (buf : Z) : prog Z :=
  _ ← puts1 (lit "Starting 391 Shell"%string ++ [10]); ploop (λ _, shell_step buf) ().
End user.
