(* ===== verification/Support.v ===== *)
(** * The programs' support library against the kernel's

    ece391support.c has its own copies of routines of lib.c.  They do the same to the
    program's memory as the kernel's do to memory, so the theorems about lib.c hold of them. *)

From S2P Require Import Prelude Mem Lib User.

(** The memory of the interface is a memory: what is stored is there, and nothing else of the
    state changes with it. *)
Class UsysMem `{US : Usys} := {
  umem_uset m u : umem (uset m u) = m;
  uxl_uset m u : uxl (uset m u) = uxl u;
  uset_uset m m' u : uset m' (uset m u) = uset m' u;
  uset_umem u : uset (umem u) u = u;
}.

Section support.
Context {US : Usys} {UM : UsysMem}.
Implicit Types (u : ust) (m : mem).

(** A loop of a program that does what a loop on values does. *)
Lemma ploop_sim {A B C D} (body : A → prog (A + B)) (g : C → C + D)
    (R : A → ust → C → Prop) (f : D → option (B * ust)) a u c :
  (∀ a u c, R a u c →
     match g c with
     | inl c' => ∃ a' u', body a u = Some (inl a', u') ∧ R a' u' c'
     | inr d => ∃ b u', body a u = Some (inr b, u') ∧ f d = Some (b, u')
     end) →
  R a u c → ploop body a u = while32 g c ≫= f.
Proof.
  intros Hstep H0. unfold ploop.
  set (h := λ '(a, u), match body a u with
    | None => inr None | Some (inl a, u) => inl (a, u) | Some (inr b, u) => inr (Some (b, u)) end).
  destruct (while32_sim h g (λ '(a, u) c, R a u c) (λ r d, r = f d ∧ is_Some r) (a, u) c)
    as [x y [-> _]|]; [|done|done|done].
  intros [a1 u1] c1 H1. specialize (Hstep a1 u1 c1 H1). unfold h.
  destruct (g c1) as [c2|d].
  - by destruct Hstep as (a2 & u2 & -> & ?).
  - destruct Hstep as (b & u2 & -> & ->). by eauto.
Qed.

Lemma ust8_uset a v m u : ust8 a v (uset m u) = uset (st8 (X := uxl u) m a v) u.
Proof. unfold ust8. by rewrite umem_uset, uxl_uset, uset_uset. Qed.

Lemma uld8_uset a m u : uld8 (uset m u) a = ld8 (X := uxl u) m a.
Proof. unfold uld8. by rewrite umem_uset, uxl_uset. Qed.

Lemma strlen_agrees s u :
  ece391_strlen s u = strlen (X := uxl u) (umem u) s ≫= λ n, Some (n, u).
Proof.
  apply (ploop_sim _ _ (λ '(p, len) u' n, u' = u ∧ len = n ∧ u32 p = u32 (s + n))).
  - intros [p len] u' n (-> & -> & E). unfold uld8, peekb, mbind, prog_bind, mret, prog_ret.
    rewrite <- (ld8_u32 (X := uxl u) _ (s + n)), <- E, ld8_u32. unfold uld8. case_test.
    + by eexists _, _.
    + eexists _, _. split; [done|]. split_and!; [done|done|].
      rewrite u32_idem, <- u32_add_l, E, u32_add_l, u32_add_r. f_equal. lia.
  - split_and!; [done|done|]. f_equal. lia.
Qed.

Lemma st8_u32 `{X : Xlat} m a b v : u32 a = u32 b → st8 m a v = st8 m b v.
Proof. intros E. unfold st8, cell. by rewrite E. Qed.

Lemma ld8_mod `{X : Xlat} m a b : u32 a = u32 b → ld8 m a = ld8 m b.
Proof. intros E. unfold ld8, cell. by rewrite E. Qed.

Lemma u32_next a b : u32 a = u32 b → u32 (u32 (a + 1)) = u32 (b + 1).
Proof. intros E. by rewrite u32_idem, <- u32_add_l, E, u32_add_l. Qed.

Lemma strcpy_agrees dst src u :
  ece391_strcpy dst src u = strcpy (X := uxl u) (umem u) dst src ≫= λ m, Some ((), uset m u).
Proof.
  apply (ploop_sim _ _ (λ '(d, s) u' '(i, m), u' = uset m u ∧ u32 d = u32 (dst + i) ∧
    u32 s = u32 (src + i))).
  - intros [d s] u' [i m] (-> & Ed & Es). unfold peekb, pokeb, mbind, prog_bind, mret, prog_ret.
    rewrite uld8_uset, ust8_uset, (ld8_mod _ s _ Es), (st8_u32 _ d _ _ Ed). destruct (Z.eqb_spec (ld8 (X := uxl u) m (src + i)) 0) as [E|E].
    + eexists _, _. rewrite E. done.
    + eexists (_, _), _. split; [done|]. split_and!; [done|..]; rewrite Z.add_assoc; by apply u32_next.
  - rewrite uset_umem, !Z.add_0_r. done.
Qed.

Lemma strrev_agrees s u :
  ece391_strrev s u = strrev (X := uxl u) (umem u) s ≫= λ m, Some ((), uset m u).
Proof.
  unfold ece391_strrev, strrev. unfold mbind at 1, prog_bind. rewrite strlen_agrees.
  destruct (strlen _ s) as [len|]; [|done]. cbn [mbind option_bind].
  assert (s32 (u32 (len - 1)) = s32 (len - 1)) as -> by (unfold s32, u32; by rewrite Zplus_mod_idemp_l).
  generalize (s32 (len - 1)) as e. intros e. destruct (Z.leb_spec e 0).
  { rewrite (while32_now _ _ (umem u)); [simpl; by rewrite uset_umem|]. by case_test; [lia|]. }
  apply (ploop_sim _ _ (λ '(b, e) u' '(b', e', m), b = b' ∧ e = e' ∧ u' = uset m u)).
  - intros [b e1] u' [[b' e'] m] (-> & -> & ->). case_test.
    + eexists _, _. unfold peekb, pokeb, mbind, prog_bind, mret, prog_ret.
      split; [reflexivity|]. split_and!; [done..|]. by rewrite !uld8_uset, !ust8_uset.
    + by eexists _, _.
  - by rewrite uset_umem.
Qed.

Lemma itoa_agrees_ok value buf radix u :
  ece391_itoa value buf radix u =
  itoa (X := uxl u) (umem u) value buf radix ≫= λ m, Some ((), uset m u).
Proof.
  unfold ece391_itoa, itoa. destruct (value =? 0).
  { unfold pokeb, mbind, prog_bind. cbn [option_bind].
    change (ust8 buf 48 u) with (uset (st8 (X := uxl u) (umem u) buf 48) u). by rewrite ust8_uset. }
  unfold mbind at 1, prog_bind.
  rewrite (ploop_sim _ (itoa_step (X := uxl u) radix) (λ '(v, p) u' '(v', p', m), v = v' ∧ p = p' ∧ u' = uset m u)
    (λ '(p, m), Some (p, uset m u)) _ u (value, buf, umem u)).
  - destruct (while32 _ _) as [[p m]|]; [|done]. cbn [mbind option_bind].
    unfold pokeb, mbind, prog_bind. rewrite ust8_uset, strrev_agrees, umem_uset, uxl_uset.
    destruct (strrev _ buf); [|done]. cbn [mbind option_bind]. by rewrite uset_uset.
  - intros [v p] u' [[v' p'] m] (-> & -> & ->). unfold itoa_step. case_test.
    + eexists _, _. unfold pokeb, mbind, prog_bind, mret, prog_ret. split; [reflexivity|].
      by rewrite ust8_uset.
    + by eexists _, _.
  - by rewrite uset_umem.
Qed.

(** The programs' [ece391_itoa] does to the program's memory exactly what the kernel's
    [itoa] does to memory, for every value, buffer and radix: the same bytes, and the same
    loops that do not end. *)
Theorem itoa_agrees value buf radix u :
  ece391_itoa value buf radix u =
  itoa (X := uxl u) (umem u) value buf radix ≫= λ m, Some ((), uset m u).
Proof. apply itoa_agrees_ok. Qed.
End support.
