(* ===== verification/Client.v ===== *)
(** * What the programs do, proved against an interface

    [Tty] is what a program may rely on: its memory, writing to descriptor 1, and reading a
    typed line from descriptor 0; [FileIO] adds its argument and files.  The theorems of this file hold for every system that
    keeps these promises; Conform.v shows that the kernel does. *)

From Stdlib Require Import String.
From S2P Require Import Prelude Mem Lib Kstate Screen User Support.

(** The 4 MB page at 128 MB in which a program runs. *)
Definition user (a : Z) : Prop := 134217728 ≤ a < 138412032.
Definition user_range (a n : Z) : Prop := 134217728 ≤ a ∧ a + n ≤ 138412032.

Section view.
Context {US : Usys}.

Definition ubytes (u : ust) (a n : Z) : list Z := load_bytes (X := uxl u) (umem u) a n.

(** A string of the program. *)
Definition ucstr (u : ust) (s : Z) (l : list Z) : Prop :=
  cstring (X := uxl u) (umem u) s l ∧ user_range s (Z.of_nat (length l) + 1).

(** The program's memory is the same, except for [n] bytes at [a]. *)
Definition same_but (a n : Z) (u u' : ust) : Prop :=
  ∀ b, user b → ¬ (a ≤ b < a + n) → uld8 u' b = uld8 u b.
End view.

(** [live]: the program runs as its process should; [wrote l u u']: between [u] and [u'] the
    program has written [l] to its terminal and done nothing else outside its memory;
    [typed l u]: the line [l] waits to be read. *)
Class Tty `{US : Usys} := {
  live : ust → Prop;
  typed : list Z → ust → Prop;
  wrote : list Z → ust → ust → Prop;
  wrote_refl u : wrote [] u u;
  wrote_trans l1 l2 u1 u2 u3 : wrote l1 u1 u2 → wrote l2 u2 u3 → wrote (l1 ++ l2) u1 u3;
  tty_cells u a b : live u → user a → user b →
    cell (X := uxl u) a = cell (X := uxl u) b → a = b;
  tty_mem u m a n : live u → user_range a n → unch (in_range (X := uxl u) a n) (umem u) m →
    live (uset m u) ∧ wrote [] u (uset m u) ∧ ∀ l, typed l u → typed l (uset m u);
  tty_write u buf n : live u → 0 < n → user_range buf n →
    ∃ u', int80 SYS_WRITE 1 buf n u = Some (n, u') ∧ live u' ∧ wrote (ubytes u buf n) u u' ∧
      (∀ l, typed l u → typed l u') ∧ same_but 0 0 u u';
  tty_write_none u buf : live u → int80 SYS_WRITE 1 buf 0 u = Some (-1, u);
  tty_read u l buf n : live u → typed l u → Z.of_nat (length l) ≤ n < 2147483648 →
    user_range buf n →
    ∃ u', int80 SYS_READ 0 buf n u = Some (Z.of_nat (length l), u') ∧ live u' ∧ wrote [] u u' ∧
      ubytes u' buf (Z.of_nat (length l)) = l ∧ same_but buf (Z.of_nat (length l)) u u';
}.

(** Files: [named name data u] says that the file [name] holds [data] and can be opened;
    [reading fd data pos u] that descriptor [fd] is at position [pos] of a file with [data];
    [argument l u] that the program was started with the argument [l]. *)
Class FileIO `{T : Tty} := {
  named : list Z → list Z → ust → Prop;
  reading : Z → list Z → Z → ust → Prop;
  argument : list Z → ust → Prop;
  reading_pos u fd data pos : reading fd data pos u →
    0 ≤ fd < 8 ∧ 0 ≤ pos ≤ Z.of_nat (length data) ∧ Z.of_nat (length data) < 2147483648;
  io_getargs u l buf n edx : live u → argument l u → Z.of_nat (length l) < n ≤ 4096 →
    user_range buf n →
    ∃ u', int80 SYS_GETARGS buf n edx u = Some (0, u') ∧ live u' ∧ wrote [] u u' ∧
      ucstr u' buf l ∧ same_but buf n u u' ∧ (∀ name data, named name data u → named name data u') ∧
      ∀ l', typed l' u → typed l' u';
  io_open u s name data ecx edx : live u → ucstr u s name → named name data u →
    ∃ fd u', int80 SYS_OPEN s ecx edx u = Some (fd, u') ∧ live u' ∧ wrote [] u u' ∧
      reading fd data 0 u' ∧ same_but 0 0 u u';
  io_read u fd data pos buf n : live u → reading fd data pos u → 0 < n → user_range buf n →
    let cnt := Z.min n (Z.of_nat (length data) - pos) in
    ∃ u', int80 SYS_READ fd buf n u = Some (cnt, u') ∧ live u' ∧ wrote [] u u' ∧
      reading fd data (pos + cnt) u' ∧ same_but buf n u u' ∧
      ubytes u' buf cnt = take (Z.to_nat cnt) (drop (Z.to_nat pos) data);
  io_write u buf n u' fd data pos : live u → 0 < n → user_range buf n → reading fd data pos u →
    int80 SYS_WRITE 1 buf n u = Some (n, u') → reading fd data pos u';
  io_mem u m a n fd data pos : live u → user_range a n →
    unch (in_range (X := uxl u) a n) (umem u) m → reading fd data pos u →
    reading fd data pos (uset m u);
  io_close u fd data pos ecx edx : live u → reading fd data pos u →
    ∃ u', int80 SYS_CLOSE fd ecx edx u = Some (0, u') ∧ live u' ∧ wrote [] u u' ∧ same_but 0 0 u u';
}.

Section client.
Context {US : Usys} {UM : UsysMem} {RO : Rodata} {T : Tty}.
Implicit Types (u : ust) (l : list Z).

(** ** Generic lemmas *)

Lemma ploop_ranked {A B} (body : A → prog (A + B)) (P : Z → A → ust → Prop) (Q : B → ust → Prop) n a u :
  (∀ n a u, P n a u → 0 ≤ n ∧ ∃ r u', body a u = Some (r, u') ∧
     match r with inl a' => ∃ n', n' < n ∧ P n' a' u' | inr b => Q b u' end) →
  P n a u → n < 2 ^ 32 → ∃ b u', ploop body a u = Some (b, u') ∧ Q b u'.
Proof.
  intros Hb Ha Hmu. unfold ploop.
  destruct (while32_ranked (λ '(a, u), match body a u with
      | None => inr None | Some (inl a, u) => inl (a, u) | Some (inr b, u) => inr (Some (b, u)) end)
    (λ n '(a, u), P n a u) (λ r, ∃ b u', r = Some (b, u') ∧ Q b u') n (a, u))
    as (r & -> & b & u' & -> & HQ); [|done|done|by exists b, u'].
  intros n1 [a1 u1] H1. destruct (Hb n1 a1 u1 H1) as (H0 & r & u2 & -> & Hr).
  split; [done|]. destruct r; [done|]. by eexists _, _.
Qed.

Lemma ploop_total {A B} (body : A → prog (A + B)) (P : A → ust → Prop) (Q : B → ust → Prop)
    (mu : A → ust → Z) a u :
  (∀ a u, P a u → 0 ≤ mu a u ∧ ∃ r u', body a u = Some (r, u') ∧
     match r with inl a' => P a' u' ∧ mu a' u' < mu a u | inr b => Q b u' end) →
  P a u → mu a u < 2 ^ 32 → ∃ b u', ploop body a u = Some (b, u') ∧ Q b u'.
Proof.
  intros Hb Ha. apply (ploop_ranked body (λ n a u, n = mu a u ∧ P a u)); [|done].
  intros n a1 u1 [-> H1]. destruct (Hb a1 u1 H1) as (H0 & r & u2 & E & Hr). split; [done|].
  exists r, u2. split; [done|]. destruct r as [a2|]; [|done]. destruct Hr. by exists (mu a2 u2).
Qed.

(** Running a sequence, one step at a time. *)
Lemma bind_run {A B} (p : prog A) (f : A → prog B) u a u' : p u = Some (a, u') → (p ≫= f) u = f a u'.
Proof. intros E. unfold mbind, prog_bind. by rewrite E. Qed.

Lemma peek_run {B} a (f : Z → prog B) u : (peekb a ≫= f) u = f (uld8 u a) u.
Proof. done. Qed.

Lemma poke_run {B} a v (f : () → prog B) u : (pokeb a v ≫= f) u = f () (ust8 a v u).
Proof. done. Qed.

(** Loads and stores of other addresses. *)
Lemma same_but_trans a n u1 u2 u3 : same_but a n u1 u2 → same_but a n u2 u3 → same_but a n u1 u3.
Proof. intros H1 H2 b Hb Hn. by rewrite H2, H1. Qed.

Lemma same_but_mono a n a' n' u u' :
  same_but a n u u' → (∀ b, a ≤ b < a + n → a' ≤ b < a' + n') → same_but a' n' u u'.
Proof. intros H Hin b Hb Hn. apply H; [done|]. intros Ha. by apply Hn, Hin. Qed.

Lemma same_none a n u u' : same_but 0 0 u u' → same_but a n u u'.
Proof. intros H. eapply same_but_mono; [exact H|]. lia. Qed.

Lemma ucstr_same u u' a n s l :
  same_but a n u u' → (s + Z.of_nat (length l) < a ∨ a + n ≤ s) → ucstr u s l → ucstr u' s l.
Proof.
  intros Hs Hd [[H H0] Hr]. split; [|done]. unfold user_range in Hr.
  assert (∀ i, 0 ≤ i ≤ Z.of_nat (length l) → ld8 (X := uxl u') (umem u') (s + i) =
    ld8 (X := uxl u) (umem u) (s + i)) as E.
  { intros i Hi. apply Hs; unfold user; lia. }
  split; [|by rewrite E by lia].
  intros i x Hx. pose proof (lookup_lt_Some _ _ _ Hx). rewrite E by lia. by apply H.
Qed.

Lemma ubytes_same u u' a n s k :
  same_but a n u u' → user_range s k → (s + k ≤ a ∨ a + n ≤ s) → ubytes u' s k = ubytes u s k.
Proof.
  intros Hs Hr Hd. unfold ubytes, load_bytes. apply list_fmap_ext.
  intros i x Hx%lookup_seqZ. unfold user_range in Hr. apply Hs; unfold user; lia.
Qed.

(** ** The program's memory *)

Lemma user_uniq_range u a n : live u → user_range a n → uniq_range (X := uxl u) a n.
Proof.
  intros Hu Hr i j Hi Hj E. unfold user_range in Hr. apply (tty_cells u) in E; [lia|done|unfold user; lia..].
Qed.

Lemma user_store u m a n :
  live u → user_range a n → unch (in_range (X := uxl u) a n) (umem u) m →
  live (uset m u) ∧ wrote [] u (uset m u) ∧ (∀ l, typed l u → typed l (uset m u)) ∧
  same_but a n u (uset m u).
Proof.
  intros Hu Hr U. destruct (tty_mem u m a n Hu Hr U) as (H1 & H2 & H3). split_and!; [done..|].
  intros b Hb Hn. rewrite uld8_uset. unfold uld8. eapply unch_ld8; [exact U|].
  intros (i & Hi & E). unfold user_range in Hr. apply (tty_cells u) in E; [lia|done|done|unfold user; lia].
Qed.

Lemma tty_store u a v :
  live u → user a →
  live (ust8 a v u) ∧ wrote [] u (ust8 a v u) ∧ (∀ l, typed l u → typed l (ust8 a v u)) ∧
  uld8 (ust8 a v u) a = u8 v ∧ same_but a 1 u (ust8 a v u).
Proof.
  intros Hu Ha. destruct (user_store u (st8 (X := uxl u) (umem u) a v) a 1) as (H1 & H2 & H3 & H4);
    [done|unfold user, user_range in *; lia| |].
  - apply unch_st8. exists 0. split; [lia|]. by rewrite Z.add_0_r.
  - split_and!; [done..| |done]. unfold ust8. rewrite uld8_uset. by apply ld8_st8_eq.
Qed.

(** A string and its terminator, byte by byte. *)
Lemma ucstr_byte u a l i : ucstr u a l → (i ≤ length l)%nat → uld8 u (a + Z.of_nat i) = nth i l 0.
Proof.
  intros [[H H0] _] Hi. destruct (decide (i = length l)) as [->|Hne].
  - rewrite nth_overflow by lia. exact H0.
  - destruct (lookup_lt_is_Some_2 l i ltac:(lia)) as [x Hx]. rewrite (nth_lookup_Some _ _ _ _ Hx).
    by apply (H i x).
Qed.

Lemma ucstr_end u a l i : ucstr u a l → (i ≤ length l)%nat → nth i l 0 = 0 → i = length l.
Proof.
  intros [[H _] _] Hi E. destruct (decide (i = length l)) as [|Hne]; [done|].
  destruct (lookup_lt_is_Some_2 l i ltac:(lia)) as [x Hx]. rewrite (nth_lookup_Some _ _ _ _ Hx) in E.
  by destruct (H i x Hx).
Qed.

(** ** The support library *)

Lemma strlen_ok u s l : ucstr u s l → ece391_strlen s u = Some (Z.of_nat (length l), u).
Proof.
  intros [Hl Hr]. unfold ece391_strlen, user_range in *.
  edestruct (ploop_total (λ '(s, len), c ← peekb s;
      mret (if c =? 0 then inr len else inl (u32 (s + 1), u32 (len + 1))))
    (λ '(p, len) u', u' = u ∧ p = s + len ∧ 0 ≤ len ≤ Z.of_nat (length l))
    (λ r u', r = Z.of_nat (length l) ∧ u' = u) (λ '(p, len) _, Z.of_nat (length l) - len) (s, 0) u)
    as (r & u' & -> & -> & ->); [|split_and!; (done || lia)|lia|done].
  intros [p len] u' (-> & -> & Hlen). split; [lia|].
  eexists _, _. split; [reflexivity|]. unfold uld8.
  destruct (Z.eqb_spec (ld8 (X := uxl u) (umem u) (s + len)) 0) as [E|E].
  - split; [|done]. destruct (decide (len = Z.of_nat (length l))); [done|].
    exfalso. eapply (cstring_nth (X := uxl u) (umem u) s l len); [done|lia|done].
  - assert (len ≠ Z.of_nat (length l)) by (intros ->; by destruct Hl).
    rewrite !u32_small by lia. split_and!; (done || lia).
Qed.

Lemma do_call_eq number a b c u v u' :
  0 ≤ a < 4294967296 → 0 ≤ b < 4294967296 → 0 ≤ c < 4294967296 →
  int80 number a b c u = Some (v, u') → DO_CALL number a b c u = Some (s32 v, u').
Proof.
  intros Ha Hb Hc E. unfold DO_CALL, mbind, prog_bind. by rewrite !u32_small, E by done.
Qed.

(** What a step of a program keeps apart from its memory. *)
Definition ran (out : list Z) u u' : Prop :=
  live u' ∧ wrote out u u' ∧ ∀ l, typed l u → typed l u'.

Lemma ran_trans l1 l2 u1 u2 u3 : ran l1 u1 u2 → ran l2 u2 u3 → ran (l1 ++ l2) u1 u3.
Proof. intros (A1 & A2 & A3) (B1 & B2 & B3). split_and!; [done|by eapply wrote_trans|auto]. Qed.

Lemma ran_refl u : live u → ran [] u u.
Proof. intros H. split_and!; [done|apply wrote_refl|done]. Qed.

Lemma write_ok u buf n :
  live u → 0 < n → user_range buf n →
  ∃ u', ece391_write 1 buf n u = Some (n, u') ∧ ran (ubytes u buf n) u u' ∧ same_but 0 0 u u'.
Proof.
  intros Hu Hn Hr. destruct (tty_write u buf n Hu Hn Hr) as (u' & E & H1 & H2 & H3 & H4).
  exists u'. split; [|done]. unfold user_range in Hr.
  unfold ece391_write. erewrite do_call_eq by (exact E || lia). by rewrite s32_small by lia.
Qed.

Lemma fdputs_ok u s l :
  live u → ucstr u s l →
  ∃ u', ece391_fdputs 1 s u = Some ((), u') ∧ ran l u u' ∧ same_but 0 0 u u'.
Proof.
  intros Hu Hs. unfold ece391_fdputs, mbind, prog_bind. rewrite (strlen_ok u s l Hs).
  destruct Hs as [Hs Hr]. destruct l as [|c l'].
  - exists u. split_and!; [|by apply ran_refl|done]. unfold ece391_write, user_range in *.
    by erewrite do_call_eq; [|lia..|simpl; lia|by apply tty_write_none].
  - set (l := c :: l') in *. assert (0 < Z.of_nat (length l)) by (simpl; lia).
    destruct (write_ok u s (Z.of_nat (length l)) Hu) as (u' & -> & Hw); [done|unfold user_range in *; lia|].
    exists u'. split; [done|]. unfold ubytes in Hw. by rewrite (cstring_load (X := uxl u)) in Hw.
Qed.

(** The literals of a program are in its memory; [away a n]: a buffer does not overlap them. *)
Definition lits (ls : list (list Z)) u : Prop := ∀ l, l ∈ ls → ucstr u (str l) l.
Definition away (ls : list (list Z)) (a n : Z) : Prop :=
  ∀ l, l ∈ ls → str l + Z.of_nat (length l) < a ∨ a + n ≤ str l.

Lemma lits_same ls a n u u' : same_but a n u u' → away ls a n → lits ls u → lits ls u'.
Proof. intros Hs Ha Hl l Hin. eapply ucstr_same; [exact Hs|by apply Ha|by apply Hl]. Qed.

Lemma lits_kept ls u u' : same_but 0 0 u u' → lits ls u → lits ls u'.
Proof.
  intros Hs Hl l Hin. destruct (Hl l Hin) as [H1 H2]. eapply ucstr_same; [exact Hs| |by split].
  unfold user_range in H2. lia.
Qed.

Lemma puts1_ok ls u l :
  live u → lits ls u → l ∈ ls →
  ∃ u', puts1 l u = Some ((), u') ∧ ran l u u' ∧ same_but 0 0 u u' ∧ lits ls u'.
Proof.
  intros Hu Hl Hin. destruct (fdputs_ok u (str l) l Hu (Hl l Hin)) as (u' & E & Hr & Hs).
  exists u'. split_and!; [done|done|done|by eapply lits_kept].
Qed.

(** ** hello *)

Definition hello_lits : list (list Z) := [lit "Hi, what's your name? "%string; lit "Hello, "%string].

(** Reading a typed line and terminating it. *)
Lemma read_line u l buf n :
  live u → typed l u → Z.of_nat (length l) < n → n < 2147483648 → user_range buf n →
  Forall (λ c, 0 < c < 256) l →
  ∃ u1, ece391_read 0 buf n u = Some (Z.of_nat (length l), u1) ∧
    let u2 := ust8 (buf + Z.of_nat (length l)) 0 u1 in
    live u2 ∧ wrote [] u u2 ∧ ucstr u2 buf l ∧ same_but buf n u u2.
Proof.
  intros Hu Ht Hn Hn' Hr Hc. unfold user_range in Hr.
  destruct (tty_read u l buf n Hu Ht ltac:(lia) Hr) as (u1 & E & H1 & H2 & H3 & H4).
  exists u1. split.
  { unfold ece391_read. erewrite do_call_eq by (exact E || lia). by rewrite s32_small by lia. }
  intros u2. destruct (tty_store u1 (buf + Z.of_nat (length l)) 0 H1) as (S1 & S2 & _ & S4 & S5);
    [unfold user; lia|]. fold u2 in S1, S2, S4, S5.
  split_and!; [done|by apply (wrote_trans [] [] _ u1)| |].
  - split; [split|unfold user_range; lia].
    + intros i x Hx. pose proof (lookup_lt_Some _ _ _ Hx).
      split; [|rewrite Forall_forall in Hc; specialize (Hc x (list_elem_of_lookup_2 _ _ _ Hx)); lia].
      rewrite <- H3 in Hx at 1. unfold ubytes, load_bytes in Hx.
      rewrite list_lookup_fmap, lookup_seqZ_lt in Hx by lia. simpl in Hx. injection Hx as <-.
      rewrite Z.add_0_l. apply S5; unfold user; lia.
    + exact S4.
  - eapply same_but_trans; (eapply same_but_mono; [eassumption|lia]).
Qed.

(** Hello greets whoever types a name: it asks, reads the line, answers "Hello, " and the
    line, and returns 0. *)
Theorem hello_greets u l buf :
  live u → lits hello_lits u → typed l u → (length l ≤ 1022)%nat → Forall (λ c, 0 < c < 256) l →
  user_range buf 1023 → away hello_lits buf 1023 →
  ∃ u', hello_main buf u = Some (0, u') ∧ live u' ∧
    wrote (lit "Hi, what's your name? "%string ++ lit "Hello, "%string ++ l) u u'.
Proof.
  intros Hu Hl Ht Hlen Hc Hr Ha. unfold hello_main, mbind, prog_bind.
  destruct (puts1_ok hello_lits u (lit "Hi, what's your name? "%string)) as (u1 & -> & (R1 & W1 & T1) & _ & L1);
    [done|done|set_solver|].
  destruct (read_line u1 l buf 1023) as (u2 & -> & R2 & W2 & C2 & S2); [done|by apply T1|lia|lia|done|done|].
  destruct (Z.eqb_spec (Z.of_nat (length l)) (-1)); [lia|]. unfold pokeb.
  set (u3 := ust8 _ _ u2) in *.
  destruct (puts1_ok hello_lits u3 (lit "Hello, "%string)) as (u4 & -> & (R4 & W4 & _) & S4 & _);
    [done|by eapply lits_same|set_solver|].
  destruct (fdputs_ok u4 buf l) as (u5 & -> & (R5 & W5 & _) & _);
    [done|eapply ucstr_same; [exact S4| |exact C2]; unfold user_range in Hr; lia|].
  exists u5. split_and!; [done|done|].
  exact (wrote_trans _ _ _ _ _ W1 (wrote_trans _ _ _ _ _ W2 (wrote_trans _ _ _ _ _ W4 W5))).
Qed.

(** ** shell *)

Lemma strcmp_ok u a b l1 l2 :
  ucstr u a l1 → ucstr u b l2 →
  ∃ d, ece391_strcmp a b u = Some (d, u) ∧ (d = 0 ↔ l1 = l2).
Proof.
  intros H1 H2. pose proof H1 as [_ R1]. pose proof H2 as [_ R2]. unfold user_range, ece391_strcmp in *.
  edestruct (ploop_total (λ '(s1, s2), x ← peekb s1; y ← peekb s2;
      mret (if x =? y then if x =? 0 then inr 0 else inl (u32 (s1 + 1), u32 (s2 + 1)) else inr (x - y)))
    (λ '(s1, s2) u', u' = u ∧ ∃ j, (j ≤ length l1)%nat ∧ (j ≤ length l2)%nat ∧ s1 = a + Z.of_nat j ∧
       s2 = b + Z.of_nat j ∧ take j l1 = take j l2)
    (λ d u', u' = u ∧ (d = 0 ↔ l1 = l2)) (λ '(s1, _) _, a + Z.of_nat (length l1) - s1) (a, b) u)
    as (d & u' & E & -> & H); [| |lia|by exists d].
  2:{ split; [done|]. exists 0%nat. split_and!; [lia|lia|lia|lia|by rewrite !take_0]. }
  intros [s1 s2] u' (-> & j & Hj1 & Hj2 & -> & -> & Et). split; [lia|]. rewrite !peek_run.
  eexists _, u. split; [reflexivity|]. rewrite (ucstr_byte u a l1 j H1 Hj1), (ucstr_byte u b l2 j H2 Hj2).
  destruct (Z.eqb_spec (nth j l1 0) (nth j l2 0)) as [Ej|Nj].
  - destruct (Z.eqb_spec (nth j l1 0) 0) as [E0|N0].
    + split; [done|]. split; [intros _|done].
      pose proof (ucstr_end u a l1 j H1 Hj1 E0). pose proof (ucstr_end u b l2 j H2 Hj2 ltac:(congruence)).
      rewrite !take_ge in Et by lia. done.
    + assert (j < length l1)%nat by (destruct (decide (j < length l1)%nat); [done|]; by rewrite nth_overflow in N0 by lia).
      assert (j < length l2)%nat by (destruct (decide (j < length l2)%nat); [done|];
        rewrite Ej, nth_overflow in N0 by lia; done).
      rewrite !u32_small by lia. split; [|lia]. split; [done|]. exists (S j). split_and!; try lia.
      destruct (lookup_lt_is_Some_2 l1 j ltac:(lia)) as [x Hx], (lookup_lt_is_Some_2 l2 j ltac:(lia)) as [y Hy].
      rewrite (nth_lookup_Some _ _ _ _ Hx), (nth_lookup_Some _ _ _ _ Hy) in Ej.
      rewrite (take_S_r _ _ _ Hx), (take_S_r _ _ _ Hy). congruence.
  - split; [done|]. split; [lia|]. intros ->. done.
Qed.

Definition shell_lits : list (list Z) :=
  [lit "391OS> "%string; lit "exit"%string; lit "no such command"%string ++ [10];
   lit "program terminated by exception"%string ++ [10]; lit "program terminated abnormally"%string ++ [10]].

(** What the shell says about the status of a command. *)
Definition status_message (status : Z) : list Z :=
  if decide (status = -1) then lit "no such command"%string ++ [10]
  else if decide (status = 256) then lit "program terminated by exception"%string ++ [10]
  else if decide (status = 0) then [] else lit "program terminated abnormally"%string ++ [10].

Lemma shell_message u l (p : prog ()) :
  live u → lits shell_lits u → p = puts1 l ∧ l ∈ shell_lits ∨ p = mret () ∧ l = [] →
  ∃ u', (p ≫= λ _, mret (inl ())) u = Some (inl () : () + Z, u') ∧ ran l u u'.
Proof.
  intros Hl Hs [[-> Hin]|[-> ->]].
  - destruct (puts1_ok shell_lits u l Hl Hs Hin) as (u' & E & R & _).
    exists u'. split; [by rewrite (bind_run _ _ _ _ _ E)|exact R].
  - exists u. split; [done|by apply ran_refl].
Qed.

(** The command in the buffer: what the call answers decides the message, and the shell goes
    on; when the call does not return, neither does the shell. *)
Lemma shell_run_ok junk buf u :
  user_range buf 1 →
  match int80 SYS_EXECUTE buf (u32 junk) (u32 junk) u with
  | None => shell_run junk buf u = None
  | Some (v, u1) => live u1 → lits shell_lits u1 →
      ∃ u2, shell_run junk buf u = Some (inl (), u2) ∧ ran (status_message (s32 v)) u1 u2
  end.
Proof.
  intros Hb. unfold user_range in Hb. unfold shell_run.
  destruct (int80 SYS_EXECUTE buf (u32 junk) (u32 junk) u) as [[v u1]|] eqn:E.
  - intros Hl Hs. rewrite (bind_run _ _ u (s32 v) u1)
      by (unfold ece391_execute, DO_CALL, mbind, prog_bind; by rewrite (u32_small buf), E by lia).
    apply shell_message; [done..|]. unfold status_message.
    destruct (Z.eqb_spec (s32 v) (-1)); [rewrite decide_True by done; left; split; [done|by apply (bool_decide_unpack _)]|].
    rewrite decide_False by done.
    destruct (Z.eqb_spec (s32 v) 256); [rewrite decide_True by done; left; split; [done|by apply (bool_decide_unpack _)]|].
    rewrite decide_False by done.
    destruct (Z.eqb_spec (s32 v) 0); [rewrite decide_True by done; by right|].
    rewrite decide_False by done. left. split; [done|by apply (bool_decide_unpack _)].
  - unfold ece391_execute, DO_CALL, mbind, prog_bind. by rewrite (u32_small buf), E by lia.
Qed.

(** One round up to the decision. *)
Lemma shell_step_ok junk u w buf :
  live u → lits shell_lits u → typed (w ++ [10]) u → (length w ≤ 1021)%nat → Forall (λ c, 0 < c < 256) w →
  user_range buf 1023 → away shell_lits buf 1023 →
  ∃ u', live u' ∧ wrote (lit "391OS> "%string) u u' ∧ ucstr u' buf w ∧ lits shell_lits u' ∧
    shell_step junk buf u =
      if decide (w = lit "exit"%string) then Some (inr 0, u')
      else if decide (w = []) then Some (inl (), u') else shell_run junk buf u'.
Proof.
  intros Hu Hl Ht Hlen Hc Hr Ha. unfold user_range in Hr.
  destruct (puts1_ok shell_lits u (lit "391OS> "%string) Hu Hl) as (u1 & E1 & (R1 & W1 & T1) & _ & L1);
    [by apply (bool_decide_unpack _)|].
  destruct (tty_read u1 (w ++ [10]) buf 1023 R1 (T1 _ Ht)) as (u2 & E2 & R2 & W2 & B2 & S2);
    [rewrite length_app; simpl; lia|unfold user_range; lia|].
  rewrite length_app in *. simpl in *. set (n := Z.of_nat (length w + 1)) in *.
  assert (ece391_read 0 buf 1023 u1 = Some (n, u2)) as E2'.
  { unfold ece391_read. erewrite do_call_eq by (exact E2 || lia). by rewrite s32_small by lia. }
  assert (∀ i x, (w ++ [10]) !! i = Some x → uld8 u2 (buf + Z.of_nat i) = x) as Hb.
  { intros i x Hx. pose proof (lookup_lt_Some _ _ _ Hx) as Hi. rewrite length_app in Hi. simpl in Hi.
    rewrite <- B2 in Hx. unfold ubytes, load_bytes in Hx. rewrite list_lookup_fmap, lookup_seqZ_lt in Hx by lia.
    injection Hx as <-. done. }
  destruct (tty_store u2 (buf + Z.of_nat (length w)) 0 R2) as (R3 & W3 & _ & L3 & S3); [unfold user; lia|].
  set (u3 := ust8 _ 0 u2) in *.
  assert (ucstr u3 buf w) as C3.
  { split; [split|unfold user_range; lia]; [|exact L3]. intros i x Hx. pose proof (lookup_lt_Some _ _ _ Hx).
    split; [|rewrite Forall_lookup in Hc; specialize (Hc i x Hx); simpl in Hc; lia].
    rewrite <- (Hb i x) by by apply lookup_app_l_Some. apply S3; [unfold user; lia|lia]. }
  assert (lits shell_lits u3) as L3'.
  { eapply lits_same; [|exact Ha|exact L1].
    eapply same_but_trans; (eapply same_but_mono; [eassumption|lia]). }
  exists u3. split_and!; [done|exact (wrote_trans _ [] _ _ _ W1 (wrote_trans [] [] _ _ _ W2 W3))|done|done|].
  unfold shell_step. rewrite (bind_run _ _ _ _ _ E1), (bind_run _ _ _ _ _ E2').
  destruct (Z.eqb_spec n (-1)); [lia|]. rewrite peek_run.
  replace (buf + n - 1) with (buf + Z.of_nat (length w)) by lia.
  rewrite (Hb (length w) 10) by by rewrite list_lookup_middle.
  destruct (Z.ltb_spec 0 n); [|lia]. cbn [andb Z.eqb Pos.eqb]. cbv zeta.
  replace (buf + (n - 1)) with (buf + Z.of_nat (length w)) by lia. rewrite poke_run. fold u3.
  destruct (strcmp_ok u3 buf (str (lit "exit"%string)) w (lit "exit"%string) C3) as (d & Ed & Hd);
    [apply L3'; by apply (bool_decide_unpack _)|].
  rewrite (bind_run _ _ _ _ _ Ed). destruct (Z.eqb_spec d 0) as [E0|N0].
  - by rewrite decide_True by by apply Hd.
  - rewrite decide_False by by rewrite <- Hd. rewrite peek_run.
    pose proof (ucstr_byte u3 buf w 0 C3 ltac:(lia)) as B0. rewrite Z.add_0_r in B0. rewrite B0.
    destruct w as [|c w]; [done|]. simpl. inversion Hc; subst. by destruct (Z.eqb_spec c 0); [lia|].
Qed.

(** C14: the shell runs what is typed: for a typed line it prints its prompt and removes the
    newline, so that its buffer holds the line as a string; it ends with 0 if the line is "exit"
    and asks again if it is empty.  Otherwise it traps into the kernel with [SYS_EXECUTE] and
    that buffer as the command.  If the call does not return, the shell does not either; if it
    returns to a shell that still has its memory, the shell says what the status means (-1: no
    such command, 256: ended by an exception, other than 0: ended abnormally) and asks again. *)
Theorem shell_obeys junk u w buf :
  live u → lits shell_lits u → typed (w ++ [10]) u → (length w ≤ 1021)%nat → Forall (λ c, 0 < c < 256) w →
  user_range buf 1023 → away shell_lits buf 1023 →
  ∃ u', live u' ∧ wrote (lit "391OS> "%string) u u' ∧ ucstr u' buf w ∧ lits shell_lits u' ∧
    (w = lit "exit"%string → shell_step junk buf u = Some (inr 0, u')) ∧
    (w = [] → shell_step junk buf u = Some (inl (), u')) ∧
    (w ≠ lit "exit"%string → w ≠ [] →
     match int80 SYS_EXECUTE buf (u32 junk) (u32 junk) u' with
     | None => shell_step junk buf u = None
     | Some (v, u1) => live u1 → lits shell_lits u1 →
         ∃ u2, shell_step junk buf u = Some (inl (), u2) ∧ ran (status_message (s32 v)) u1 u2
     end).
Proof.
  intros Hu Hl Ht Hlen Hc Hr Ha.
  destruct (shell_step_ok junk u w buf) as (u' & H1 & H2 & H3 & H4 & E); [done..|].
  exists u'. split_and!; [done..| | |].
  - intros ->. by rewrite E, decide_True.
  - intros ->. by rewrite E.
  - intros Hx Hn. rewrite E, !decide_False by done. apply shell_run_ok. unfold user_range in *. lia.
Qed.

(** ** pingpong *)

(** The picture with the character [c] at [j]. *)
Definition picture (c j : Z) : list Z :=
  (λ i, if i =? j then c else if i =? 1 then 124 else if i =? 78 then 124 else if i =? 79 then 10 else 32)
    <$> seqZ 0 80.

(** The walls, which the drawing does not touch. *)
Definition walls (buf : Z) u : Prop :=
  uld8 u buf = 32 ∧ uld8 u (buf + 1) = 124 ∧ uld8 u (buf + 78) = 124 ∧ uld8 u (buf + 79) = 10 ∧ uld8 u (buf + 80) = 0.

Lemma fill_ok u buf lo hi c :
  live u → user_range buf hi → 0 ≤ lo ≤ hi → 0 ≤ c < 256 →
  ∃ u', fill buf lo hi c u = Some ((), u') ∧ ran [] u u' ∧ same_but (buf + lo) (hi - lo) u u' ∧
    ∀ i, lo ≤ i < hi → uld8 u' (buf + i) = c.
Proof.
  intros Hu Hr Hlo Hc. unfold user_range in Hr. unfold fill.
  edestruct (ploop_total (λ i, if i <? hi then _ ← pokeb (buf + i) c; mret (inl (i + 1)) else mret (inr ()))
    (λ j u', lo ≤ j ≤ hi ∧ ran [] u u' ∧ same_but (buf + lo) (j - lo) u u' ∧
       ∀ i, lo ≤ i < j → uld8 u' (buf + i) = c)
    (λ _ u', ran [] u u' ∧ same_but (buf + lo) (hi - lo) u u' ∧ ∀ i, lo ≤ i < hi → uld8 u' (buf + i) = c)
    (λ j _, hi - j) lo u) as ([] & u' & E & H); [| |lia|by exists u'].
  2:{ split_and!; [lia|lia|by apply ran_refl|done|lia]. }
  intros j u1 (Hj & R1 & S1 & V1). split; [lia|]. destruct (Z.ltb_spec j hi) as [Hlt|Hge].
  - rewrite poke_run. destruct (tty_store u1 (buf + j) c) as (R2 & W2 & T2 & L2 & S2); [apply R1|unfold user; lia|].
    eexists _, _. split; [reflexivity|]. split; [|lia]. split_and!; [lia|lia|exact (ran_trans [] [] _ _ _ R1 (conj R2 (conj W2 T2)))| |].
    + eapply same_but_trans; (eapply same_but_mono; [eassumption|lia]).
    + intros i Hi. destruct (decide (i = j)) as [->|]; [by rewrite L2, u8_small|].
      rewrite S2; [apply V1; lia|unfold user; lia|lia].
  - eexists (inr ()), u1. split; [done|]. assert (j = hi) as -> by lia. done.
Qed.

(** Each step of pingpong prints the picture: walls, and the character alone between them. *)
Lemma pingpong_draws u buf c j :
  live u → user_range buf 81 → walls buf u → 2 ≤ j < 78 → 0 < c < 256 →
  ∃ u', pingpong_draw buf c j u = Some ((), u') ∧ ran (picture c j) u u' ∧ walls buf u'.
Proof.
  intros Hu Hr (V0 & V1 & V78 & V79 & V80) Hj Hc. unfold user_range in Hr.
  destruct (fill_ok u buf 2 78 32 Hu) as (u1 & E1 & R1 & S1 & F1); [unfold user_range; lia|lia|lia|].
  destruct (tty_store u1 (buf + j) c) as (R2 & W2 & T2 & L2 & S2); [apply R1|unfold user; lia|].
  set (u2 := ust8 (buf + j) c u1) in *. rewrite u8_small in L2 by lia.
  assert (∀ i, 0 ≤ i ≤ 80 → uld8 u2 (buf + i) = if i =? 80 then 0 else if i =? j then c else
    if i =? 1 then 124 else if i =? 78 then 124 else if i =? 79 then 10 else 32) as Hv.
  { intros i Hi. destruct (decide (i = j)) as [->|Hne].
    { rewrite L2, Z.eqb_refl. by destruct (Z.eqb_spec j 80); [lia|]. }
    rewrite S2 by (unfold user; lia). destruct (Z.eqb_spec i j); [done|].
    destruct (decide (2 ≤ i < 78)); [rewrite F1 by lia; by repeat case_test; lia|].
    rewrite S1 by (unfold user; lia). assert (i = 0 ∨ i = 1 ∨ i = 78 ∨ i = 79 ∨ i = 80) as [->|[->|[->|[->| ->]]]] by lia;
      rewrite ?Z.add_0_r; done. }
  assert (ucstr u2 buf (picture c j)) as C2.
  { unfold picture. split; [split|rewrite length_fmap, length_seqZ; unfold user_range; lia].
    - intros i x Hx. rewrite list_lookup_fmap in Hx. destruct (seqZ 0 80 !! i) as [z|] eqn:Ez; [|done].
      apply lookup_seqZ in Ez as [-> Hz]. injection Hx as <-. rewrite Z.add_0_l. split.
      + pose proof (Hv (Z.of_nat i) ltac:(lia)) as Hvi. destruct (Z.eqb_spec (Z.of_nat i) 80); [lia|]. exact Hvi.
      + repeat case_test; lia.
    - rewrite length_fmap, length_seqZ. exact (Hv 80 ltac:(lia)). }
  destruct (fdputs_ok u2 buf _ R2 C2) as (u3 & E3 & R3 & S3). exists u3. unfold pingpong_draw.
  rewrite (bind_run _ _ _ _ _ E1), poke_run. split_and!; [done|exact (ran_trans [] _ _ _ _ R1 (ran_trans [] _ _ _ _ (conj R2 (conj W2 T2)) R3))|].
  unfold walls. rewrite !S3 by (unfold user; lia). rewrite <- (Z.add_0_r buf) at 1.
  rewrite !Hv by lia. by repeat (case_test; try lia).
Qed.

(** ** counter *)

Definition counter_prompt : list Z :=
  lit "Enter the Test Number: (0): 100, (1): 10000, (2): 100000"%string ++ [10].
Definition counter_lits : list (list Z) := [counter_prompt; [10]].

(** [ls] are the decimal numerals of the numbers [ns]: they read back as the numbers, have at
    least one digit and no leading zero. *)
Definition numerals (ns : list Z) (ls : list (list Z)) : Prop :=
  Forall2 (λ n l, numeral_value 10 l = n ∧ head l ≠ Some 48 ∧ l ≠ []) ns ls.

(** Printing one number. *)
Lemma itoa_user u v buf :
  live u → 0 < v < 4294967296 → user_range buf 33 →
  ∃ u' l, ece391_itoa v buf 10 u = Some ((), u') ∧ ran [] u u' ∧ same_but buf 33 u u' ∧
    ucstr u' buf l ∧ numeral_value 10 l = v ∧ head l ≠ Some 48 ∧ l ≠ [].
Proof.
  intros Hu Hv Hr.
  destruct (itoa_numeral (X := uxl u) (umem u) v buf 10 ltac:(lia) ltac:(lia) (user_uniq_range u buf 33 Hu Hr))
    as (m & ds & E & Hc & Hds & Hlen & Hval & Hhd & U).
  destruct (user_store u m buf 33 Hu Hr U) as (S1 & S2 & S3 & S4).
  exists (uset m u), (lookup_char <$> ds).
  split_and!; [by rewrite itoa_agrees_ok, E|done..| | | |].
  - split; [by rewrite umem_uset, uxl_uset|]. rewrite length_fmap. unfold user_range in *. lia.
  - by rewrite numeral_value_digits by (done || lia).
  - specialize (Hhd ltac:(lia)). destruct ds as [|x ds]; [done|]. simpl in *. intros [= Hx].
    apply Hhd. inversion Hds; subst. rewrite <- (digit_of_lookup_char x) by lia. by rewrite Hx.
  - destruct ds; [simpl in Hlen; lia|done].
Qed.

Lemma counter_loop_ok u max buf :
  live u → lits counter_lits u → 0 ≤ max ≤ 100000 → user_range buf 33 → away counter_lits buf 33 →
  ∃ u' ls, counter_loop max buf u = Some (0, u') ∧ live u' ∧ numerals (seqZ 1 max) ls ∧
    wrote (concat ((λ l, l ++ [10]) <$> ls)) u u'.
Proof.
  intros Hu Hl Hm Hr Ha. unfold counter_loop.
  edestruct (ploop_total (λ i, if i <? max then
      _ ← ece391_itoa (u32 (i + 1)) buf 10; _ ← ece391_fdputs 1 buf; _ ← puts1 [10]; mret (inl (i + 1))
      else mret (inr 0))
    (λ i u', 0 ≤ i ≤ max ∧ live u' ∧ lits counter_lits u' ∧
       ∃ ls, numerals (seqZ 1 i) ls ∧ wrote (concat ((λ l, l ++ [10]) <$> ls)) u u')
    (λ r u', r = 0 ∧ live u' ∧ ∃ ls, numerals (seqZ 1 max) ls ∧
       wrote (concat ((λ l, l ++ [10]) <$> ls)) u u') (λ i _, max - i) 0 u)
    as (r & u' & E & -> & H1 & ls & H2 & H3); [| |lia|by exists u', ls].
  2:{ split_and!; [lia|lia|done|done|]. exists []. split; [constructor|apply wrote_refl]. }
  intros i u1 (Hi & Hu1 & Hl1 & ls & Hn & Hw). split; [lia|]. destruct (Z.ltb_spec i max) as [Hlt|Hge].
  - rewrite u32_small by lia.
    destruct (itoa_user u1 (i + 1) buf Hu1 ltac:(lia) Hr) as (u2 & l & E2 & (R2 & W2 & _) & S2 & C2 & N2).
    destruct (fdputs_ok u2 buf l R2 C2) as (u3 & E3 & (R3 & W3 & _) & S3).
    destruct (puts1_ok counter_lits u3 [10] R3) as (u4 & E4 & (R4 & W4 & _) & _ & L4);
      [eapply lits_kept; [exact S3|]; by eapply lits_same|by apply (bool_decide_unpack _)|].
    exists (inl (i + 1)), u4. unfold mbind, prog_bind. rewrite E2, E3, E4. split; [done|].
    split; [|lia]. split_and!; [lia|lia|done|done|]. exists (ls ++ [l]). split.
    + unfold numerals. rewrite seqZ_app by lia. apply Forall2_app; [exact Hn|]. change (seqZ (1 + i) 1) with [1 + i].
      rewrite (Z.add_comm 1 i). apply Forall2_cons_2; [exact N2|apply Forall2_nil_2].
    + rewrite fmap_app, concat_app. simpl. rewrite app_nil_r.
      exact (wrote_trans _ _ _ _ _ Hw (wrote_trans _ _ _ _ _ W2 (wrote_trans _ _ _ _ _ W3 W4))).
  - exists (inr 0), u1. assert (i = max) as -> by lia. split; [done|]. eauto.
Qed.

(** Counter counts: asked for test 0, 1 or 2 it prints the decimal numerals of 1 to 100,
    10000 or 100000, one per line and in order, and returns 0. *)
Theorem counter_counts u c buf :
  live u → lits counter_lits u → typed [c; 10] u → 48 ≤ c ≤ 50 →
  user_range buf 1023 → away counter_lits buf 1023 →
  ∃ u' ls, counter_main buf u = Some (0, u') ∧ live u' ∧ numerals (seqZ 1 (counter_max c)) ls ∧
    wrote (counter_prompt ++ concat ((λ l, l ++ [10]) <$> ls)) u u'.
Proof.
  intros Hu Hl Ht Hc Hr Ha. unfold counter_main, mbind, prog_bind.
  destruct (puts1_ok counter_lits u counter_prompt Hu Hl) as (u1 & E1 & (R1 & W1 & T1) & _ & L1);
    [by apply elem_of_cons; left|].
  unfold counter_prompt in E1. rewrite E1.
  destruct (read_line u1 [c; 10] buf 1023) as (u2 & -> & R2 & W2 & C2 & S2);
    [done|by apply T1|simpl; lia|lia|done|repeat constructor; lia|].
  change (Z.of_nat (length [c; 10])) with 2 in *. change (u32 2) with 2. simpl (2 =? _). cbv iota.
  unfold pokeb. set (u3 := ust8 _ _ u2) in *. rewrite (strlen_ok u3 buf [c; 10] C2).
  assert (uld8 u3 buf = c) as Ec.
  { destruct C2 as [[H _] _]. specialize (H 0%nat c eq_refl). rewrite Z.add_0_r in H. apply H. }
  unfold peekb. rewrite Ec. simpl (2 <? _). simpl (_ =? 2).
  destruct (Z.ltb_spec c 48); [lia|]. destruct (Z.ltb_spec 50 c); [lia|]. simpl.
  destruct (counter_loop_ok u3 (counter_max c) buf R2) as (u4 & ls & E4 & R4 & N4 & W4).
  - by eapply lits_same.
  - unfold counter_max. by repeat case_test.
  - unfold user_range in *. lia.
  - intros l Hin. specialize (Ha l Hin). lia.
  - exists u4, ls. split_and!; [done|done|done|].
    exact (wrote_trans _ _ _ _ _ W1 (wrote_trans [] _ _ _ _ W2 W4)).
Qed.
End client.

(** ** cat *)

Section cat.
Context {US : Usys} {UM : UsysMem} {RO : Rodata} {T : Tty} {FI : FileIO} (junk : Z).
Implicit Types (u : ust) (l : list Z).

Lemma read_file_ok u fd data pos buf n :
  live u → reading fd data pos u → 0 < n < 2147483648 → user_range buf n →
  let cnt := Z.min n (Z.of_nat (length data) - pos) in
  ∃ u', ece391_read fd buf n u = Some (cnt, u') ∧ live u' ∧ wrote [] u u' ∧
    reading fd data (pos + cnt) u' ∧ same_but buf n u u' ∧
    ubytes u' buf cnt = take (Z.to_nat cnt) (drop (Z.to_nat pos) data).
Proof.
  intros Hu Hrd Hn Hr cnt. destruct (reading_pos _ _ _ _ Hrd) as (Hfd & Hpos & Hlen).
  destruct (io_read u fd data pos buf n Hu Hrd ltac:(lia) Hr) as (u' & E & H). fold cnt in E, H.
  exists u'. split; [|done]. unfold user_range in Hr.
  unfold ece391_read. erewrite do_call_eq by (exact E || lia). by rewrite s32_small by lia.
Qed.

Lemma getargs_call u l buf n :
  live u → argument l u → Z.of_nat (length l) < n ≤ 4096 → user_range buf n →
  ∃ u', ece391_getargs junk buf n u = Some (0, u') ∧ live u' ∧ wrote [] u u' ∧ ucstr u' buf l ∧ same_but buf n u u' ∧
    (∀ name data, named name data u → named name data u') ∧ ∀ l', typed l' u → typed l' u'.
Proof.
  intros Hu Ha Hn Hr. destruct (io_getargs u l buf n (u32 junk) Hu Ha Hn Hr) as (u' & E & H). exists u'. split; [|done].
  unfold ece391_getargs, DO_CALL, mbind, prog_bind. unfold user_range in Hr.
  rewrite (u32_small buf), (u32_small n) by lia. by rewrite E.
Qed.

Lemma cat_loop_ok u fd data buf :
  live u → reading fd data 0 u → user_range buf 1024 →
  ∃ u', cat_loop fd buf u = Some (0, u') ∧ live u' ∧ wrote data u u'.
Proof.
  intros Hu Hrd Hr. unfold cat_loop. destruct (reading_pos _ _ _ _ Hrd) as (_ & _ & Hlen).
  edestruct (ploop_ranked (λ _ : (), cnt ← ece391_read fd buf 1024;
      if cnt =? 0 then mret (inr 0)
      else if cnt =? -1 then _ ← puts1 (lit "file read failed"%string ++ [10]); mret (inr 3)
      else r ← ece391_write 1 buf cnt; mret (if r =? -1 then inr 3 else inl ()))
    (λ n _ u', ∃ pos, n = Z.of_nat (length data) - pos ∧ live u' ∧ reading fd data pos u' ∧
       wrote (take (Z.to_nat pos) data) u u')
    (λ r u', r = 0 ∧ live u' ∧ wrote data u u') (Z.of_nat (length data)) () u)
    as (r & u' & E & -> & H); [| |lia|by exists u'].
  2:{ exists 0. split_and!; [lia|done|done|apply wrote_refl]. }
  intros n [] u1 (pos & -> & Hu1 & Hrd1 & Hw1). destruct (reading_pos _ _ _ _ Hrd1) as (_ & Hpos & _).
  split; [lia|]. destruct (read_file_ok u1 fd data pos buf 1024 Hu1 Hrd1 ltac:(lia) Hr)
    as (u2 & E2 & Hu2 & Hw2 & Hrd2 & _ & Hb2). unfold mbind, prog_bind. rewrite E2.
  set (cnt := Z.min 1024 (Z.of_nat (length data) - pos)) in *.
  pose proof (wrote_trans _ _ _ _ _ Hw1 Hw2) as Hw. rewrite app_nil_r in Hw.
  destruct (Z.eqb_spec cnt 0) as [E0|Hne].
  { exists (inr 0), u2. split_and!; [done..|]. by rewrite take_ge in Hw by lia. }
  destruct (Z.eqb_spec cnt (-1)); [lia|]. assert (user_range buf cnt) as Hrc by (unfold user_range in *; lia).
  destruct (tty_write u2 buf cnt Hu2 ltac:(lia) Hrc) as (u3 & E3 & Hu3 & Hw3 & _ & _).
  exists (inl ()), u3. unfold ece391_write, user_range in *.
  erewrite do_call_eq by (exact E3 || lia). rewrite s32_small by lia.
  destruct (Z.eqb_spec cnt (-1)); [lia|]. split; [done|].
  exists (Z.of_nat (length data) - (pos + cnt)). split; [lia|]. exists (pos + cnt).
  split_and!; [done|done|exact (io_write u2 buf cnt u3 fd data _ Hu2 ltac:(lia) Hrc Hrd2 E3)|].
  rewrite Hb2 in Hw3. pose proof (wrote_trans _ _ _ _ _ Hw Hw3) as Hw4.
  rewrite <- (take_drop (Z.to_nat pos) (take (Z.to_nat (pos + cnt)) data)), take_take, skipn_firstn_comm.
  by replace (Z.to_nat pos `min` Z.to_nat (pos + cnt))%nat with (Z.to_nat pos) by lia;
     replace (Z.to_nat (pos + cnt) - Z.to_nat pos)%nat with (Z.to_nat cnt) by lia.
Qed.

(** C12: cat prints the file it is asked for: started with the name of a file, it opens the
    file, reads it in pieces of 1024 bytes until a read delivers nothing, and has then
    written exactly the bytes of the file, whatever its length; it returns 0. *)
Theorem cat_prints u name data buf :
  live u → argument name u → (length name < 1024)%nat → named name data u → user_range buf 1024 →
  ∃ u', cat_main junk buf u = Some (0, u') ∧ live u' ∧ wrote data u u'.
Proof.
  intros Hu Ha Hlen Hn Hr. unfold cat_main, mbind, prog_bind.
  destruct (getargs_call u name buf 1024 Hu Ha ltac:(lia) Hr) as (u0 & -> & Hu0 & W0 & Hs & _ & Hk0 & _).
  simpl. destruct (io_open u0 buf name data (u32 junk) (u32 junk) Hu0 Hs (Hk0 _ _ Hn))
    as (fd & u1 & E1 & Hu1 & W1 & Hrd & _).
  destruct (reading_pos _ _ _ _ Hrd) as (Hfd & _ & _).
  destruct (cat_loop_ok u1 fd data buf Hu1 Hrd Hr) as (u2 & E2 & Hu2 & W2).
  assert (ece391_open junk buf u0 = Some (fd, u1)) as ->.
  { unfold ece391_open, DO_CALL, mbind, prog_bind. unfold user_range in Hr.
    rewrite (u32_small buf) by lia. rewrite E1. by rewrite s32_small by lia. }
  destruct (Z.eqb_spec fd (-1)); [lia|].
  exists u2. split_and!; [done|done|]. exact (wrote_trans [] _ _ _ _ W0 (wrote_trans [] _ _ _ _ W1 W2)).
Qed.
End cat.
