(* ===== verification/Blink.v ===== *)
(** * Blinking characters (src/fish/blink.S, blink.h, fish.c)

    The fish program keeps a linked list of blinking characters, whose nodes are elements of
    the array [blink_array]; [mp1_ioctl] adds, removes, finds and synchronises them, and
    [mp1_rtc_tasklet] counts them down and redraws them.  A pointer to a node is its index in
    the array, NULL is [None].  Where the characters go is the class [Video]. *)

From S2P Require Import Prelude.

Class Video := {
  vst : Type;
  mp1_poke : Z → Z → vst → vst;   (* the byte, the offset *)
}.

Definition s16 (z : Z) : Z := (z + 32768) mod 65536 - 32768.

Record mp1_blink_struct := Blink {
  location : Z;
  on_char : Z;
  off_char : Z;
  on_length : Z;
  off_length : Z;
  countdown : Z;
  status : Z;
  next : option nat;
}.

#[export] Instance blink_eq_dec : EqDecision mp1_blink_struct.
Proof. solve_decision. Defined.

Definition blink_zero : mp1_blink_struct := Blink 0 0 0 0 0 0 0 None.

Definition set_next v b := Blink (location b) (on_char b) (off_char b) (on_length b) (off_length b)
  (countdown b) (status b) v.
Definition set_state cd st b := Blink (location b) (on_char b) (off_char b) (on_length b) (off_length b)
  cd st (next b).
Definition set_lengths on off b := Blink (location b) (on_char b) (off_char b) on off
  (countdown b) (status b) (next b).

(** blink.h *)
Definition RTC_ADD : Z := 0.
Definition RTC_REMOVE : Z := 1.
Definition RTC_FIND : Z := 2.
Definition RTC_SYNC : Z := 3.

Section blink.
Context {VD : Video}.

Record fish := Fish {
  blink_array : list mp1_blink_struct;
  mp1_list_head : option nat;
  vid : vst;
}.

Definition set_array v f := Fish v (mp1_list_head f) (vid f).
Definition set_head v f := Fish (blink_array f) v (vid f).
Definition set_vid v f := Fish (blink_array f) (mp1_list_head f) v.

(** [*p = b] *)
Definition put_node (i : nat) (b : mp1_blink_struct) f : fish := set_array (<[i := b]> (blink_array f)) f.
Definition poke (cl eax : Z) f : fish := set_vid (mp1_poke cl eax (vid f)) f.

(** ** Memory (fish.c) *)

(** The first element with location 0 is taken to be free. *)
Definition mp1_malloc f : option nat :=
  Z.to_nat <$> find_up (λ i, location (nth (Z.to_nat i) (blink_array f) blink_zero) =? 0) 0 (80 * 25).

Definition mp1_free (i : nat) f : fish := put_node i blink_zero f.

(** ** The timer (blink.S) *)

(** One node: the node afterwards, and the character and offset that are drawn.  [jg] compares
    the word as a signed number. *)
Definition tick_node (b : mp1_blink_struct) : mp1_blink_struct * option (Z * Z) :=
  let cd := u16 (countdown b - 1) in
  if 0 <? s16 cd then (set_state cd (status b) b, None)
  else
    let eax := location b * 2 in
    let st := Z.lxor (status b) 1 in
    if Z.testbit (status b) 0
    then (set_state (off_length b) st b, Some (off_char b, eax))
    else (set_state (on_length b) st b, Some (on_char b, eax)).

Definition draw (p : option (Z * Z)) f : fish :=
  match p with Some (cl, eax) => poke cl eax f | None => f end.

Definition tasklet_step (st : option nat * fish) : (option nat * fish) + option fish :=
  let '(ebx, f) := st in
  match ebx with
  | None => inr (Some f)
  | Some i =>
      match blink_array f !! i with
      | None => inr None
      | Some b => let '(b, p) := tick_node b in inl (next b, put_node i b (draw p f))
      end
  end.

Definition mp1_rtc_tasklet f : option fish :=
  match while32 tasklet_step (mp1_list_head f, f) with Some r => r | None => None end.

(** ** The list (blink.S) *)

(** [inr None]: a pointer that leads nowhere. *)
Definition find_step f (ax : Z) (ebx : option nat) : option nat + option (option nat) :=
  match ebx with
  | None => inr (Some None)
  | Some i =>
      match blink_array f !! i with
      | None => inr None
      | Some b => if location b =? ax then inr (Some (Some i)) else inl (next b)
      end
  end.

Definition mp1_find_helper (loc : Z) f : option (option nat) :=
  match while32 (find_step f (u16 loc)) (mp1_list_head f) with Some r => r | None => None end.

(** [*arg] is copied twice; the copies succeed. *)
Definition mp1_ioctl_add (arg : mp1_blink_struct) f : Z * fish :=
  if 80 * 25 <=? location arg then (-1, f)
  else
    let b := set_state (on_length arg) 1 arg in
    match mp1_malloc f with
    | None => (-1, f)
    | Some i =>
        let f := put_node i b f in
        let f := put_node i (set_next (mp1_list_head f) b) f in
        let f := set_head (Some i) f in
        (0, poke (on_char b) (location b * 2) f)
    end.

(** The cell that holds a pointer: the head ([None]), or the [next] field of a node. *)
Definition cell_of f (edx : option nat) : option (option nat) :=
  match edx with None => Some (mp1_list_head f) | Some j => next <$> blink_array f !! j end.

Definition set_cell (edx : option nat) (v : option nat) f : fish :=
  match edx with
  | None => set_head v f
  | Some j => put_node j (set_next v (nth j (blink_array f) blink_zero)) f
  end.

Definition prev_step f (eax : nat) (edx : option nat) : option nat + option (option nat) :=
  match cell_of f edx with
  | Some (Some i) => if decide (i = eax) then inr (Some edx) else inl (Some i)
  | _ => inr None
  end.

Definition mp1_ioctl_remove (arg : Z) f : option (Z * fish) :=
  r ← mp1_find_helper arg f;
  match r with
  | None => Some (-1, f)
  | Some i =>
      r ← while32 (prev_step f i) None;
      edx ← r;
      b ← blink_array f !! i;
      Some (0, mp1_free i (set_cell edx (next b) f))
  end.

(** [testb] clears OF and takes SF from bit 7 of its result; [cmovl] tests that they differ. *)
Definition sync_char (b : mp1_blink_struct) : Z :=
  let r := Z.land (status b) 1 in
  let SF := Z.testbit r 7 in
  let OF := false in
  if xorb SF OF then on_char b else off_char b.

Definition mp1_ioctl_sync (arg : Z) f : option (Z * fish) :=
  esi ← mp1_find_helper (Z.shiftr arg 16) f;
  match esi with
  | None => Some (-1, f)
  | Some i =>
      edi ← mp1_find_helper (Z.land arg 65535) f;
      match edi with
      | None => Some (-1, f)
      | Some j =>
          s ← blink_array f !! i;
          d ← blink_array f !! j;
          let d := set_state (countdown s) (status s) (set_lengths (on_length s) (off_length s) d) in
          Some (0, poke (sync_char d) (location d * 2) (put_node j d f))
      end
  end.

(** [*arg] is also the result. *)
Definition mp1_ioctl_find (arg : mp1_blink_struct) f : option (Z * mp1_blink_struct) :=
  r ← mp1_find_helper (location arg) f;
  match r with
  | None => Some (-1, arg)
  | Some i => b ← blink_array f !! i; Some (0, b)
  end.

(** [mp1_ioctl_add] and [mp1_ioctl_find] take the address of a structure, the others a number.
    The jump does not check [cmd]: [None] is a command that is not one of the four, and an
    argument of the wrong kind. *)
Inductive ioctl_arg := Ptr (b : mp1_blink_struct) | Word (z : Z).

Definition mp1_ioctl (arg : ioctl_arg) (cmd : Z) f : option (Z * ioctl_arg * fish) :=
  if cmd =? RTC_ADD then
    match arg with Ptr b => let '(r, f) := mp1_ioctl_add b f in Some (r, arg, f) | Word _ => None end
  else if cmd =? RTC_REMOVE then
    match arg with Word z => '(r, f) ← mp1_ioctl_remove z f; Some (r, arg, f) | Ptr _ => None end
  else if cmd =? RTC_FIND then
    match arg with Ptr b => '(r, b) ← mp1_ioctl_find b f; Some (r, Ptr b, f) | Word _ => None end
  else if cmd =? RTC_SYNC then
    match arg with Word z => '(r, f) ← mp1_ioctl_sync z f; Some (r, arg, f) | Ptr _ => None end
  else None.

(** ** Lists of nodes *)

(** From the pointer [p] the nodes [l] are linked, and the last leads to [q]. *)
Fixpoint seg (a : list mp1_blink_struct) (p : option nat) (l : list nat) (q : option nat) : Prop :=
  match l with
  | [] => p = q
  | i :: l => p = Some i ∧ ∃ r, next <$> a !! i = Some r ∧ seg a r l q
  end.

Lemma seg_app a p l1 l2 q : seg a p (l1 ++ l2) q ↔ ∃ r, seg a p l1 r ∧ seg a r l2 q.
Proof.
  revert p. induction l1 as [|i l1 IH]; intros p; simpl.
  - split; [by eauto|]. by intros (r & -> & H).
  - split.
    + intros (-> & r & E & (q' & H1 & H2)%IH). exists q'. eauto 6.
    + intros (q' & (-> & r & E & H1) & H2). split; [done|]. exists r. rewrite IH. eauto.
Qed.

(** Only the links of its own nodes matter. *)
Lemma seg_ext a a' p l q :
  (∀ i, i ∈ l → next <$> a' !! i = next <$> a !! i) → seg a p l q → seg a' p l q.
Proof.
  revert p. induction l as [|i l IH]; intros p Hx; [done|]. intros (-> & r & E & H).
  split; [done|]. exists r. rewrite Hx by (by left). split; [done|]. apply IH; [|done].
  intros j Hj. apply Hx. by right.
Qed.

Lemma seg_insert a i b p l q : i ∉ l → seg a p l q → seg (<[i := b]> a) p l q.
Proof.
  intros Hi. apply seg_ext. intros j Hj. rewrite list_lookup_insert_ne; [done|]. by intros ->.
Qed.

Definition node f (i : nat) : mp1_blink_struct := nth i (blink_array f) blink_zero.

(** The fields of a node of the list are what its type says. *)
Record node_ok (b : mp1_blink_struct) : Prop := {
  nk_loc : 0 ≤ location b < 80 * 25;
  nk_on : 0 ≤ on_length b < 65536;
  nk_off : 0 ≤ off_length b < 65536;
  nk_cd : 0 ≤ countdown b < 65536;
}.

(** The list consists of the nodes [l], which are the elements of the array in use. *)
Record fish_ok f (l : list nat) : Prop := {
  fo_len : length (blink_array f) = Z.to_nat (80 * 25);
  fo_seg : seg (blink_array f) (mp1_list_head f) l None;
  fo_nodup : NoDup l;
  fo_used : ∀ i b, blink_array f !! i = Some b → location b ≠ 0 ↔ i ∈ l;
  fo_node : Forall node_ok (blink_array f);
}.

(** The contents of the list, without the links. *)
Definition contents f (l : list nat) : list mp1_blink_struct := (λ i, set_next None (node f i)) <$> l.

(** [f] holds the list [L]. *)
Definition shows f (L : list mp1_blink_struct) : Prop := ∃ l, fish_ok f l ∧ L = contents f l.

Lemma node_lookup f i b : blink_array f !! i = Some b → node f i = b.
Proof. apply nth_lookup_Some. Qed.

Lemma seg_lookup a p l q i : seg a p l q → i ∈ l → ∃ b, a !! i = Some b.
Proof.
  revert p. induction l as [|j l IH]; intros p; [by intros _ ?%elem_of_nil|].
  intros (-> & r & E & H) [->|Hi]%elem_of_cons; [|by eapply IH].
  destruct (a !! j) as [b|]; [by exists b|done].
Qed.

Lemma ok_lookup f l i : fish_ok f l → i ∈ l → blink_array f !! i = Some (node f i) ∧ location (node f i) ≠ 0.
Proof.
  intros H Hi. destruct (seg_lookup _ _ _ _ i (fo_seg _ _ H) Hi) as [b Hb].
  rewrite (node_lookup f i b Hb). split; [done|]. by eapply fo_used.
Qed.

Lemma ok_length f l : fish_ok f l → (length l ≤ 2000)%nat.
Proof.
  intros H. assert (l ⊆ seq 0 2000) as Hs.
  { intros i Hi. destruct (ok_lookup f l i H Hi) as [E _]. apply lookup_lt_Some in E.
    rewrite (fo_len _ _ H) in E. apply elem_of_seq. lia. }
  pose proof (submseteq_length _ _ (NoDup_submseteq _ _ (fo_nodup _ _ H) (λ i Hi, Hs i Hi))) as Hle.
  by rewrite length_seq in Hle.
Qed.

(** ** Searching *)

(** The first node at a location. *)
Definition first_at f (loc : Z) (l : list nat) : option nat := head (filter (λ i, location (node f i) = loc) l).

Lemma find_rounds f ax l p :
  seg (blink_array f) p l None → rounds (find_step f ax) (S (length l)) p = inr (Some (first_at f ax l)).
Proof.
  revert p. induction l as [|i l IH]; intros p; [by intros ->|]. intros (-> & r & E & H).
  change (length (i :: l)) with (S (length l)). remember (S (length l)) as n. cbn [rounds]. unfold find_step at 1.
  destruct (blink_array f !! i) as [b|] eqn:Hb; [|done]. simpl in E. injection E as <-.
  unfold first_at. rewrite filter_cons, (node_lookup f i b Hb).
  destruct (Z.eqb_spec (location b) ax); [by rewrite decide_True|]. rewrite decide_False by done. subst n. by apply IH.
Qed.

Lemma find_helper_ok f l loc : fish_ok f l → mp1_find_helper loc f = Some (first_at f (u16 loc) l).
Proof.
  intros H. unfold mp1_find_helper.
  rewrite (while32_rounds _ (S (length l)) _ _ ltac:(pose proof (ok_length f l H); lia)
    (find_rounds f (u16 loc) l _ (fo_seg _ _ H))). done.
Qed.

(** ** Steps that keep the links *)

Lemma ok_same f f' l :
  fish_ok f l → length (blink_array f') = length (blink_array f) → mp1_list_head f' = mp1_list_head f →
  (∀ i, next <$> blink_array f' !! i = next <$> blink_array f !! i) →
  (∀ i, location <$> blink_array f' !! i = location <$> blink_array f !! i) →
  Forall node_ok (blink_array f') → fish_ok f' l.
Proof.
  intros [H1 H2 H3 H4 H5] El Eh En Eo Hk. constructor; [congruence| |done| |done].
  - rewrite Eh. eapply seg_ext; [|exact H2]. intros i _. apply En.
  - intros i b Hb. specialize (Eo i). rewrite Hb in Eo. simpl in Eo.
    destruct (blink_array f !! i) as [b0|] eqn:E; [|done]. injection Eo as ->. by apply H4.
Qed.

Lemma tick_next b : next (fst (tick_node b)) = next b.
Proof. unfold tick_node. cbv zeta. by repeat case_match. Qed.

Lemma tick_location b : location (fst (tick_node b)) = location b.
Proof. unfold tick_node. cbv zeta. by repeat case_match. Qed.

Lemma tick_node_ok b : node_ok b → node_ok (fst (tick_node b)).
Proof.
  intros [H1 H2 H3 H4]. pose proof (u16_bound (countdown b - 1)).
  unfold tick_node. cbv zeta. repeat case_match; by constructor.
Qed.

Lemma tick_set_next v b :
  tick_node (set_next v b) = (set_next v (fst (tick_node b)), snd (tick_node b)).
Proof. destruct b. unfold tick_node. cbv zeta. simpl. by repeat case_match. Qed.

(** ** The timer *)

Definition vdraw (v : vst) (p : option (Z * Z)) : vst :=
  match p with Some (cl, eax) => mp1_poke cl eax v | None => v end.

Definition tick_at (i : nat) f : fish :=
  let '(b, p) := tick_node (node f i) in put_node i b (draw p f).

Definition tick_all (l : list nat) f : fish := foldl (λ f i, tick_at i f) f l.

Lemma tick_at_array i f : blink_array (tick_at i f) = <[i := fst (tick_node (node f i))]> (blink_array f).
Proof. unfold tick_at, draw. by destruct (tick_node _) as [b [[cl eax]|]]. Qed.

Lemma tick_at_head i f : mp1_list_head (tick_at i f) = mp1_list_head f.
Proof. unfold tick_at, draw. by destruct (tick_node _) as [b [[cl eax]|]]. Qed.

Lemma tick_at_vid i f : vid (tick_at i f) = vdraw (vid f) (snd (tick_node (node f i))).
Proof. unfold tick_at, draw. by destruct (tick_node _) as [b [[cl eax]|]]. Qed.

Lemma tasklet_rounds f l p :
  seg (blink_array f) p l None → rounds tasklet_step (S (length l)) (p, f) = inr (Some (tick_all l f)).
Proof.
  revert p f. induction l as [|i l IH]; intros p f; [by intros ->|]. intros (-> & r & E & H).
  change (length (i :: l)) with (S (length l)). remember (S (length l)) as n. cbn [rounds]. unfold tasklet_step at 1.
  destruct (blink_array f !! i) as [b|] eqn:Hb; [|done]. simpl in E. injection E as <-.
  pose proof (tick_next b) as En. cbn [tick_all foldl]. fold (tick_all l (tick_at i f)).
  unfold tick_at. rewrite (node_lookup f i b Hb). destruct (tick_node b) as [b' q] eqn:Eq. simpl in En.
  subst n. rewrite En. apply IH. eapply seg_ext; [|exact H]. intros j Hj.
  assert (blink_array (put_node i b' (draw q f)) = <[i := b']> (blink_array f)) as -> by (by destruct q as [[]|]).
  destruct (decide (j = i)) as [->|Hne].
  - rewrite list_lookup_insert_eq, Hb by (by eapply lookup_lt_Some). simpl. by rewrite En.
  - by rewrite list_lookup_insert_ne.
Qed.

Lemma tick_all_array l f i :
  NoDup l → (∀ j, j ∈ l → is_Some (blink_array f !! j)) →
  blink_array (tick_all l f) !! i =
    if decide (i ∈ l) then Some (fst (tick_node (node f i))) else blink_array f !! i.
Proof.
  revert f. induction l as [|j l IH]; intros f Hd Hl; [done|]. inversion Hd as [|?? Hj Hd']; subst.
  cbn [tick_all foldl]. fold (tick_all l (tick_at j f)).
  assert (∀ k, node (tick_at j f) k = if decide (k = j) then fst (tick_node (node f j)) else node f k) as Hn.
  { intros k. unfold node at 1. rewrite tick_at_array. destruct (Hl j (list_elem_of_here _ _)) as [b Hb].
    rewrite nth_lookup. destruct (decide (k = j)) as [->|Hk].
    - by rewrite list_lookup_insert_eq by (by eapply lookup_lt_Some).
    - rewrite list_lookup_insert_ne by done. symmetry. apply nth_lookup. }
  rewrite IH; [|done|].
  - destruct (decide (i = j)) as [->|Hne].
    + rewrite decide_False by done. rewrite decide_True by by left. rewrite tick_at_array.
      destruct (Hl j (list_elem_of_here _ _)) as [b Hb].
      by rewrite list_lookup_insert_eq by (by eapply lookup_lt_Some).
    + rewrite Hn, (decide_False (P := i = j)) by done.
      rewrite tick_at_array, list_lookup_insert_ne by done.
      destruct (decide (i ∈ l)); [by rewrite decide_True by by right|]. rewrite decide_False; [done|].
      by intros [->|?]%elem_of_cons.
  - intros k Hk. rewrite tick_at_array. destruct (decide (k = j)) as [->|Hne]; [done|].
    rewrite list_lookup_insert_ne by done. apply Hl. by right.
Qed.

Lemma tick_all_head l f : mp1_list_head (tick_all l f) = mp1_list_head f.
Proof. revert f. induction l as [|i l IH]; intros f; [done|]. simpl. by rewrite IH, tick_at_head. Qed.

Lemma tick_all_vid l f :
  NoDup l → vid (tick_all l f) = foldl vdraw (vid f) ((λ i, snd (tick_node (node f i))) <$> l).
Proof.
  revert f. induction l as [|i l IH]; intros f Hd; [done|]. inversion Hd as [|?? Hi Hd']; subst. simpl.
  rewrite IH, tick_at_vid by done. f_equal. apply list_fmap_ext. intros k j Hj. do 2 f_equal.
  unfold node. rewrite tick_at_array, !nth_lookup, list_lookup_insert_ne; [done|].
  intros ->. by apply Hi, (list_elem_of_lookup_2 _ _ _ Hj).
Qed.

Lemma tick_all_ok f l : fish_ok f l →
  fish_ok (tick_all l f) l ∧ contents (tick_all l f) l = (λ b, fst (tick_node b)) <$> contents f l.
Proof.
  intros H. pose proof H as [H1 H2 H3 H4 H5].
  assert (∀ j, j ∈ l → is_Some (blink_array f !! j)) as Hs by (intros j Hj; by eapply seg_lookup).
  pose proof (λ i, tick_all_array l f i H3 Hs) as Ha.
  assert (∀ i, i ∈ l → blink_array f !! i = Some (node f i)) as Hn by (intros i Hi; by apply (ok_lookup f l)).
  split.
  - apply (ok_same f); [done| |apply tick_all_head| | |].
    + clear -Hs. revert f Hs. induction l as [|i l IH]; intros f Hs; [done|]. simpl. rewrite IH.
      * by rewrite tick_at_array, length_insert.
      * intros j Hj. rewrite tick_at_array. apply lookup_lt_is_Some_2. rewrite length_insert.
        apply lookup_lt_is_Some_1, Hs. by right.
    + intros i. rewrite Ha. case_decide as Hi; [|done]. rewrite (Hn i Hi). simpl. by rewrite tick_next.
    + intros i. rewrite Ha. case_decide as Hi; [|done]. rewrite (Hn i Hi). simpl. by rewrite tick_location.
    + apply Forall_lookup. intros i b. rewrite Ha. case_decide as Hi.
      * intros [= <-]. apply tick_node_ok. eapply Forall_lookup_1; [exact H5|by apply Hn].
      * intros Hb. by eapply Forall_lookup_1.
  - unfold contents. rewrite <- list_fmap_compose. apply list_fmap_ext. intros k i Hi%list_elem_of_lookup_2.
    simpl. rewrite tick_set_next. simpl. f_equal. apply node_lookup. by rewrite Ha, decide_True.
Qed.

Lemma tasklet_ok f L :
  shows f L →
  ∃ f', mp1_rtc_tasklet f = Some f' ∧ shows f' ((λ b, fst (tick_node b)) <$> L) ∧
    vid f' = foldl vdraw (vid f) ((λ b, snd (tick_node b)) <$> L).
Proof.
  intros (l & H & ->). exists (tick_all l f). destruct (tick_all_ok f l H) as [Hok Hc]. split_and!.
  - unfold mp1_rtc_tasklet.
    by rewrite (while32_rounds _ (S (length l)) _ _ ltac:(pose proof (ok_length f l H); lia)
      (tasklet_rounds f l _ (fo_seg _ _ H))).
  - by exists l.
  - rewrite tick_all_vid by apply H. f_equal. unfold contents. rewrite <- list_fmap_compose.
    apply list_fmap_ext. intros k i _. simpl. by rewrite tick_set_next.
Qed.

(** ** Adding *)

Lemma node_put i b f j :
  (i < length (blink_array f))%nat → node (put_node i b f) j = if decide (j = i) then b else node f j.
Proof.
  intros Hi. unfold node. simpl. rewrite !nth_lookup. destruct (decide (j = i)) as [->|].
  - by rewrite list_lookup_insert_eq.
  - by rewrite list_lookup_insert_ne.
Qed.

Lemma contents_ext f f' l :
  (∀ i, i ∈ l → set_next None (node f' i) = set_next None (node f i)) → contents f' l = contents f l.
Proof. intros H. apply list_fmap_ext. intros k i Hi%list_elem_of_lookup_2. by apply H. Qed.

Lemma malloc_ok f l : fish_ok f l →
  match mp1_malloc f with
  | Some i => (i < length (blink_array f))%nat ∧ i ∉ l
  | None => (2000 ≤ length l)%nat
  end.
Proof.
  intros H. unfold mp1_malloc. pose proof (fo_len _ _ H) as Hlen.
  destruct (find_up _ 0 (80 * 25)) as [z|] eqn:E; simpl.
  - apply find_up_Some in E as (Hz & Ht & _). split; [lia|]. intros Hin.
    destruct (ok_lookup f l _ H Hin) as [_ Hne]. apply Hne. by apply Z.eqb_eq.
  - rewrite find_up_None in E.
    assert (seq 0 2000 ⊆ l) as Hs.
    { intros j [_ Hj]%elem_of_seq. specialize (E (Z.of_nat j) ltac:(lia)). apply Z.eqb_neq in E.
      rewrite Nat2Z.id in E. destruct (lookup_lt_is_Some_2 (blink_array f) j ltac:(lia)) as [b Hb].
      apply (fo_used _ _ H j b Hb). by rewrite <- (nth_lookup_Some _ _ blink_zero _ Hb). }
    pose proof (submseteq_length _ _ (NoDup_submseteq _ _ (NoDup_seq 0 2000) (λ j Hj, Hs j Hj))) as Hle.
    by rewrite length_seq in Hle.
Qed.

(** What is added starts with its on phase. *)
Definition started (b : mp1_blink_struct) : mp1_blink_struct := set_next None (set_state (on_length b) 1 b).

Lemma push_ok f l i b :
  fish_ok f l → (i < length (blink_array f))%nat → i ∉ l → node_ok b → location b ≠ 0 → next b = mp1_list_head f →
  let f' := set_head (Some i) (put_node i b f) in
  fish_ok f' (i :: l) ∧ contents f' (i :: l) = set_next None b :: contents f l.
Proof.
  intros [H1 H2 H3 H4 H5] Hi Hni Hb Hloc Hnx f'. split; [constructor|].
  - simpl. by rewrite length_insert.
  - split; [done|]. exists (next b). simpl. rewrite list_lookup_insert_eq by done. split; [done|].
    rewrite Hnx. by apply seg_insert.
  - by constructor.
  - intros j c. simpl. destruct (decide (j = i)) as [->|Hne].
    + rewrite list_lookup_insert_eq by done. intros [= <-]. split; [intros _; by left|done].
    + rewrite list_lookup_insert_ne by done. intros Hc. rewrite (H4 j c Hc), elem_of_cons. split; [by right|by intros [?|?]].
  - by apply Forall_insert.
  - unfold contents. simpl. f_equal.
    + f_equal. change (node (put_node i b f) i = b). by rewrite node_put, decide_True by done.
    + apply list_fmap_ext. intros k j Hj%list_elem_of_lookup_2. f_equal.
      change (node (put_node i b f) j = node f j). rewrite node_put, decide_False by (done || by intros ->). done.
Qed.

(** What the caller passes to [mp1_ioctl_add]: the lengths are words, and location 0 would mark
    the node as free. *)
Record arg_ok (b : mp1_blink_struct) : Prop := {
  ak_loc : 0 < location b;
  ak_on : 0 ≤ on_length b < 65536;
  ak_off : 0 ≤ off_length b < 65536;
}.

Definition add_spec (arg : mp1_blink_struct) (L : list mp1_blink_struct) : option (list mp1_blink_struct) :=
  if decide (location arg < 80 * 25 ∧ (length L < 2000)%nat) then Some (started arg :: L) else None.

Lemma contents_length f l : length (contents f l) = length l.
Proof. apply length_fmap. Qed.

Lemma add_ok f L arg :
  shows f L → arg_ok arg →
  let '(r, f') := mp1_ioctl_add arg f in
  match add_spec arg L with
  | Some L' => r = 0 ∧ shows f' L' ∧ vid f' = mp1_poke (on_char arg) (location arg * 2) (vid f)
  | None => r = -1 ∧ f' = f
  end.
Proof.
  intros (l & H & ->) [Hloc Hon Hoff]. unfold mp1_ioctl_add, add_spec. rewrite contents_length.
  destruct (Z.leb_spec (80 * 25) (location arg)); [by rewrite decide_False by lia|].
  pose proof (malloc_ok f l H) as Hm. destruct (mp1_malloc f) as [i|]; [|by rewrite decide_False by lia].
  destruct Hm as [Hi Hni]. assert (length l < 2000)%nat as Hlt.
  { assert (NoDup (i :: l)) as Hd by (constructor; [done|apply H]).
    assert (i :: l ⊆ seq 0 2000) as Hs.
    { intros j Hj. apply elem_of_seq. apply elem_of_cons in Hj as [->|Hj]; rewrite (fo_len _ _ H) in Hi; [lia|].
      destruct (ok_lookup f l j H Hj) as [E _]. apply lookup_lt_Some in E. rewrite (fo_len _ _ H) in E. lia. }
    pose proof (submseteq_length _ _ (NoDup_submseteq _ _ Hd (λ j Hj, Hs j Hj))) as Hle.
    rewrite length_seq in Hle. simpl in Hle. lia. }
  rewrite decide_True by done. simpl. split_and!; [done| |done].
  destruct (push_ok f l i (set_next (mp1_list_head f) (set_state (on_length arg) 1 arg)) H Hi Hni) as [Hok Hc];
    [constructor; simpl; lia|simpl; lia|done|].
  unfold put_node, set_array. simpl. rewrite list_insert_insert_eq. exists (i :: l). split.
  - destruct Hok. by constructor.
  - unfold contents, node in *. simpl in *. by rewrite Hc.
Qed.

(** ** Removing *)

(** The list without its first character at a location. *)
Fixpoint remove_at (loc : Z) (L : list mp1_blink_struct) : option (list mp1_blink_struct) :=
  match L with
  | [] => None
  | b :: L => if decide (location b = loc) then Some L else (b ::.) <$> remove_at loc L
  end.

Lemma first_at_split f loc l i :
  first_at f loc l = Some i →
  ∃ l1 l2, l = l1 ++ i :: l2 ∧ remove_at loc (contents f l) = Some (contents f l1 ++ contents f l2).
Proof.
  unfold first_at. induction l as [|j l IH]; [done|]. rewrite filter_cons. case_decide as Hj; simpl.
  - intros [= ->]. exists [], l. by rewrite decide_True.
  - intros (l1 & l2 & -> & E)%IH. exists (j :: l1), l2. rewrite decide_False by done. by rewrite E.
Qed.

Lemma first_at_None f loc l : first_at f loc l = None → remove_at loc (contents f l) = None.
Proof.
  unfold first_at. induction l as [|j l IH]; [done|]. rewrite filter_cons. case_decide as Hj; simpl; [done|].
  intros E. rewrite decide_False by done. by rewrite IH.
Qed.

(** The loop stops at the cell that points to the node. *)
Lemma prev_rounds f i l1 edx p :
  cell_of f edx = Some p → seg (blink_array f) p l1 (Some i) → i ∉ l1 →
  rounds (prev_step f i) (S (length l1)) edx = inr (Some (match last l1 with Some j => Some j | None => edx end)).
Proof.
  revert edx p. induction l1 as [|j l IH]; intros edx p Hc Hs Hi.
  - simpl in Hs. subst p. simpl. unfold prev_step. rewrite Hc. by rewrite decide_True.
  - destruct Hs as (-> & r & E & Hs). apply not_elem_of_cons in Hi as [Hij Hi].
    change (length (j :: l)) with (S (length l)). remember (S (length l)) as n. cbn [rounds].
    unfold prev_step at 1. rewrite Hc, decide_False by (by intros ->). subst n.
    rewrite (IH (Some j) r); [|done..]. rewrite last_cons. by destruct (last l).
Qed.

(** A list without the node [i], when nothing but links has changed elsewhere. *)
Lemma unlink_ok f f' l1 l2 i :
  fish_ok f (l1 ++ i :: l2) → length (blink_array f') = length (blink_array f) →
  blink_array f' !! i = Some blink_zero →
  (∀ k, k ≠ i → set_next None <$> blink_array f' !! k = set_next None <$> blink_array f !! k) →
  seg (blink_array f') (mp1_list_head f') (l1 ++ l2) None →
  fish_ok f' (l1 ++ l2) ∧ contents f' (l1 ++ l2) = contents f l1 ++ contents f l2.
Proof.
  intros H Hl Hi Hk Hs. pose proof H as [H1 H2 H3 H4 H5].
  assert ((i ∉ l1 ++ l2) ∧ NoDup (l1 ++ l2)) as [Hni Hnd].
  { rewrite <- (Permutation_middle l1 l2 i) in H3. by apply NoDup_cons in H3. }
  assert (∀ k, k ≠ i → set_next None (node f' k) = set_next None (node f k)) as Hn.
  { intros k Hki. specialize (Hk k Hki). unfold node. rewrite !nth_lookup.
    destruct (blink_array f' !! k), (blink_array f !! k); simpl in *; congruence. }
  split; [constructor|].
  - congruence.
  - done.
  - done.
  - intros k b Hb. destruct (decide (k = i)) as [->|Hki].
    + rewrite Hi in Hb. injection Hb as <-. simpl. by split.
    + specialize (Hk k Hki). rewrite Hb in Hk. destruct (blink_array f !! k) as [c|] eqn:Ec; [|done].
      simpl in Hk. injection Hk as -> _ _ _ _ _ _. rewrite (H4 k c Ec), !elem_of_app, elem_of_cons. tauto.
  - apply Forall_lookup. intros k b Hb. destruct (decide (k = i)) as [->|Hki].
    + rewrite Hi in Hb. injection Hb as <-. by constructor.
    + specialize (Hk k Hki). rewrite Hb in Hk. destruct (blink_array f !! k) as [c|] eqn:Ec; [|done].
      destruct (Forall_lookup_1 _ _ _ _ H5 Ec). simpl in Hk. injection Hk as Hx _ _ Hy Hz Hw _.
      constructor; congruence.
  - unfold contents. rewrite fmap_app. f_equal; apply contents_ext; intros k Hin; apply Hn; intros ->;
      apply Hni; apply elem_of_app; auto.
Qed.

Lemma remove_links f l1 l2 i b :
  fish_ok f (l1 ++ i :: l2) → blink_array f !! i = Some b →
  let f' := mp1_free i (set_cell (last l1) (next b) f) in
  fish_ok f' (l1 ++ l2) ∧ contents f' (l1 ++ l2) = contents f l1 ++ contents f l2.
Proof.
  intros H Hb f'. pose proof (fo_seg _ _ H) as Hs. pose proof (fo_nodup _ _ H) as Hd.
  apply seg_app in Hs as (r & Hs1 & (-> & r & Er & Hs2)). rewrite Hb in Er. injection Er as <-.
  apply NoDup_app in Hd as (Hd1 & Hd12 & Hd2). apply NoDup_cons in Hd2 as [Hi2 Hd2].
  assert (i ∉ l1) as Hi1 by (intros Hin; apply (Hd12 i Hin); by left).
  pose proof (lookup_lt_Some _ _ _ Hb) as Hlt. subst f'.
  destruct l1 as [|j l _] using rev_ind.
  - apply (unlink_ok f _ _ _ i); [done| | | |]; simpl.
    + by rewrite length_insert.
    + by rewrite list_lookup_insert_eq.
    + intros k Hk. by rewrite list_lookup_insert_ne.
    + by apply seg_insert.
  - rewrite last_snoc. apply seg_app in Hs1 as (q & Hs1 & (-> & q & Eq & Hq)). simpl in Hq. subst q.
    destruct (blink_array f !! j) as [c|] eqn:Hc; [|done]. pose proof (lookup_lt_Some _ _ _ Hc) as Hltj.
    assert (i ≠ j) as Hij by (intros ->; apply Hi1; apply elem_of_app; right; by left).
    apply NoDup_app in Hd1 as (Hd1 & Hjl & _).
    assert (j ∉ l) as Hj1 by (intros Hin; apply (Hjl j Hin); by left).
    assert (j ∉ l2) as Hj2 by (intros Hin; apply (Hd12 j); [apply elem_of_app; right; by left|by right]).
    apply (unlink_ok f _ _ _ i); [done| | | |]; simpl.
    + by rewrite !length_insert.
    + by rewrite list_lookup_insert_eq by (by rewrite length_insert).
    + intros k Hk. rewrite list_lookup_insert_ne by done. destruct (decide (k = j)) as [->|Hkj].
      * rewrite list_lookup_insert_eq, Hc by done. simpl. by rewrite (nth_lookup_Some _ _ _ _ Hc).
      * by rewrite list_lookup_insert_ne.
    + rewrite <- app_assoc. apply seg_app. exists (Some j). split.
      * apply seg_insert; [|by apply seg_insert]. intros Hin. apply Hi1, elem_of_app. by left.
      * split; [done|]. exists (next b). rewrite list_lookup_insert_ne, list_lookup_insert_eq by done.
        split; [done|]. by apply seg_insert, seg_insert.
Qed.

Lemma remove_ok f L arg :
  shows f L →
  match remove_at (u16 arg) L with
  | Some L' => ∃ f', mp1_ioctl_remove arg f = Some (0, f') ∧ shows f' L' ∧ vid f' = vid f
  | None => mp1_ioctl_remove arg f = Some (-1, f)
  end.
Proof.
  intros (l & H & ->). unfold mp1_ioctl_remove. rewrite (find_helper_ok f l arg H). simpl.
  destruct (first_at f (u16 arg) l) as [i|] eqn:E; [|by rewrite (first_at_None f _ l E)].
  destruct (first_at_split f (u16 arg) l i E) as (l1 & l2 & -> & ->).
  pose proof (fo_seg _ _ H) as Hs. apply seg_app in Hs as (r & Hs1 & (-> & _)).
  pose proof (ok_length _ _ H) as Hlen. rewrite length_app in Hlen. simpl in Hlen.
  pose proof (fo_nodup _ _ H) as Hd. apply NoDup_app in Hd as (_ & Hd & _).
  destruct (ok_lookup f _ i H ltac:(apply elem_of_app; right; by left)) as [Hb _].
  rewrite (while32_rounds _ (S (length l1)) _ _ ltac:(lia)
    (prev_rounds f i l1 None _ eq_refl Hs1 (λ Hin, Hd i Hin (list_elem_of_here _ _)))). simpl.
  rewrite Hb. simpl. eexists. split; [done|].
  replace (match last l1 with Some j => Some j | None => None end) with (last l1) by (by destruct (last l1)).
  destruct (remove_links f l1 l2 i _ H Hb) as [Hok Hc]. split; [by exists (l1 ++ l2)|].
  by destruct (last l1).
Qed.

(** ** Finding and synchronising *)

Definition find_at (loc : Z) (L : list mp1_blink_struct) : option mp1_blink_struct :=
  head (filter (λ b, location b = loc) L).

Fixpoint update_at (loc : Z) (g : mp1_blink_struct → mp1_blink_struct) (L : list mp1_blink_struct) :
    list mp1_blink_struct :=
  match L with
  | [] => []
  | b :: L => if decide (location b = loc) then g b :: L else b :: update_at loc g L
  end.

Lemma find_at_contents f loc l :
  find_at loc (contents f l) = (λ i, set_next None (node f i)) <$> first_at f loc l.
Proof.
  unfold find_at, first_at, contents. induction l as [|i l IH]; [done|]. simpl. rewrite !filter_cons. simpl.
  by case_decide.
Qed.

Lemma first_at_elem f loc l i : first_at f loc l = Some i → i ∈ l.
Proof.
  unfold first_at. intros E. eapply list_elem_of_filter. apply head_Some_elem_of. exact E.
Qed.

Lemma find_ok f L arg :
  shows f L →
  match find_at (u16 (location arg)) L with
  | Some b => ∃ b', mp1_ioctl_find arg f = Some (0, b') ∧ set_next None b' = b
  | None => mp1_ioctl_find arg f = Some (-1, arg)
  end.
Proof.
  intros (l & H & ->). unfold mp1_ioctl_find. rewrite (find_helper_ok f l _ H), find_at_contents. simpl.
  destruct (first_at f _ l) as [i|] eqn:E; simpl; [|done].
  destruct (ok_lookup f l i H (first_at_elem _ _ _ _ E)) as [-> _]. by eexists.
Qed.

(** The timing of [s], the rest of [d]. *)
Definition copy_time (s d : mp1_blink_struct) : mp1_blink_struct :=
  set_state (countdown s) (status s) (set_lengths (on_length s) (off_length s) d).

Lemma update_ok f l loc i g :
  fish_ok f l → first_at f loc l = Some i →
  (∀ b, location (g b) = location b) → (∀ v b, g (set_next v b) = set_next v (g b)) →
  (∀ b, next (g b) = next b) → (∀ b, node_ok b → node_ok (g b)) →
  let f' := put_node i (g (node f i)) f in
  fish_ok f' l ∧ contents f' l = update_at loc g (contents f l).
Proof.
  intros H E Gl Gs Gn Gk f'. pose proof (first_at_elem _ _ _ _ E) as Hin.
  destruct (ok_lookup f l i H Hin) as [Hi _]. pose proof (lookup_lt_Some _ _ _ Hi) as Hlt. split.
  - apply (ok_same f); [done| |done| | |]; simpl.
    + by rewrite length_insert.
    + intros k. destruct (decide (k = i)) as [->|]; [|by rewrite list_lookup_insert_ne].
      rewrite list_lookup_insert_eq, Hi by done. simpl. by rewrite Gn.
    + intros k. destruct (decide (k = i)) as [->|]; [|by rewrite list_lookup_insert_ne].
      rewrite list_lookup_insert_eq, Hi by done. simpl. by rewrite Gl.
    + apply Forall_insert; [apply H|]. apply Gk. eapply Forall_lookup_1; [apply H|exact Hi].
  - pose proof (fo_nodup _ _ H) as Hd. clear H Hin. unfold first_at in E.
    induction l as [|j l IH]; [done|]. apply NoDup_cons in Hd as [Hj Hd]. rewrite filter_cons in E.
    unfold contents. cbn [fmap list_fmap update_at]. fold (contents f' l). fold (contents f l). simpl in E |- *.
    case_decide as Hloc.
    + injection E as ->. f_equal.
      * unfold f'. by rewrite node_put, decide_True, Gs.
      * apply contents_ext. intros k Hk. unfold f'. rewrite node_put, decide_False by (done || by intros ->). done.
    + rewrite IH by done. f_equal. unfold f'. rewrite node_put, decide_False; [done| |done].
      intros ->. apply Hj. apply (first_at_elem f loc). exact E.
Qed.

Lemma sync_char_off b : sync_char b = off_char b.
Proof.
  unfold sync_char. cbv zeta. replace (Z.testbit (Z.land (status b) 1) 7) with false; [done|].
  rewrite Z.land_spec. by rewrite andb_false_r.
Qed.

Lemma sync_ok f L arg :
  shows f L →
  match find_at (u16 (Z.shiftr arg 16)) L, find_at (u16 arg) L with
  | Some s, Some d =>
      ∃ f', mp1_ioctl_sync arg f = Some (0, f') ∧ shows f' (update_at (u16 arg) (copy_time s) L) ∧
        vid f' = mp1_poke (off_char d) (location d * 2) (vid f)
  | _, _ => mp1_ioctl_sync arg f = Some (-1, f)
  end.
Proof.
  intros (l & H & ->). unfold mp1_ioctl_sync. rewrite !(find_helper_ok f l _ H), !find_at_contents.
  assert (u16 (Z.land arg 65535) = u16 arg) as Hu.
  { unfold u16. change 65535 with (Z.ones 16). rewrite Z.land_ones by lia. by rewrite Z.mod_mod. }
  rewrite Hu. simpl. destruct (first_at f (u16 (Z.shiftr arg 16)) l) as [i|] eqn:Ei; simpl; [|done].
  destruct (first_at f (u16 arg) l) as [j|] eqn:Ej; simpl; [|done].
  destruct (ok_lookup f l i H (first_at_elem _ _ _ _ Ei)) as [Hi _].
  destruct (ok_lookup f l j H (first_at_elem _ _ _ _ Ej)) as [Hj _].
  rewrite Hi, Hj. simpl. rewrite sync_char_off. eexists. split; [done|]. split; [|done].
  pose proof (Forall_lookup_1 _ _ _ _ (fo_node _ _ H) Hi) as [_ K2 K3 K4].
  destruct (update_ok f l (u16 arg) j (copy_time (set_next None (node f i))) H Ej) as [Hok Hc];
    [done..| |exists l; split; [|by rewrite <- Hc]].
  - intros b [K1 _ _ _]. by constructor.
  - destruct Hok. by constructor.
Qed.

(** ** The list as a whole *)

(** What a command does to a list: the result, the argument afterwards, the list, and what is
    drawn.  The structure that [mp1_ioctl_find] returns is described up to its link. *)
Definition ioctl_spec (arg : ioctl_arg) (cmd : Z) (L : list mp1_blink_struct) :
    Z * ioctl_arg * list mp1_blink_struct * option (Z * Z) :=
  match arg with
  | Ptr b =>
      if cmd =? RTC_ADD then
        match add_spec b L with
        | Some L' => (0, arg, L', Some (on_char b, location b * 2))
        | None => (-1, arg, L, None)
        end
      else match find_at (u16 (location b)) L with
           | Some c => (0, Ptr c, L, None)
           | None => (-1, arg, L, None)
           end
  | Word z =>
      if cmd =? RTC_REMOVE then
        match remove_at (u16 z) L with Some L' => (0, arg, L', None) | None => (-1, arg, L, None) end
      else match find_at (u16 (Z.shiftr z 16)) L, find_at (u16 z) L with
           | Some s, Some d =>
               (0, arg, update_at (u16 z) (copy_time s) L, Some (off_char d, location d * 2))
           | _, _ => (-1, arg, L, None)
           end
  end.

(** The calls that the interface describes. *)
Definition call_ok (arg : ioctl_arg) (cmd : Z) : Prop :=
  match arg with
  | Ptr b => cmd = RTC_ADD ∧ arg_ok b ∨ cmd = RTC_FIND
  | Word _ => cmd = RTC_REMOVE ∨ cmd = RTC_SYNC
  end.

(** Equal up to the link. *)
Definition arg_eq (a b : ioctl_arg) : Prop :=
  match a, b with
  | Ptr a, Ptr b => set_next None a = set_next None b
  | Word a, Word b => a = b
  | _, _ => False
  end.

Lemma arg_eq_refl a : arg_eq a a.
Proof. by destruct a. Qed.

Lemma ioctl_ok f L arg cmd :
  shows f L → call_ok arg cmd →
  let '(r, a, L', p) := ioctl_spec arg cmd L in
  ∃ a' f', mp1_ioctl arg cmd f = Some (r, a', f') ∧ arg_eq a' a ∧ shows f' L' ∧ vid f' = vdraw (vid f) p.
Proof.
  intros Hf Hc. destruct arg as [b|z]; simpl in Hc.
  - destruct Hc as [[-> Hb]| ->]; unfold mp1_ioctl, ioctl_spec; simpl.
    + pose proof (add_ok f L b Hf Hb) as H. destruct (mp1_ioctl_add b f) as [r f'].
      destruct (add_spec b L) as [L'|].
      * destruct H as (-> & H & Hv). by exists (Ptr b), f'.
      * destruct H as (-> & ->). by exists (Ptr b), f.
    + pose proof (find_ok f L b Hf) as H. destruct (find_at _ L) as [c|].
      * destruct H as (b' & -> & <-). by exists (Ptr b'), f.
      * rewrite H. by exists (Ptr b), f.
  - destruct Hc as [-> | ->]; unfold mp1_ioctl, ioctl_spec; simpl.
    + pose proof (remove_ok f L z Hf) as H. destruct (remove_at _ L) as [L'|].
      * destruct H as (f' & -> & H & Hv). by exists (Word z), f'.
      * rewrite H. by exists (Word z), f.
    + pose proof (sync_ok f L z Hf) as H. destruct (find_at (u16 (Z.shiftr z 16)) L) as [s|].
      * destruct (find_at (u16 z) L) as [d|].
        -- destruct H as (f' & -> & H & Hv). by exists (Word z), f'.
        -- rewrite H. by exists (Word z), f.
      * rewrite H. by exists (Word z), f.
Qed.

(** What happens to the list: a call, or a tick of the timer. *)
Inductive event := Ioctl (arg : ioctl_arg) (cmd : Z) | Tick.

Definition event_ok (e : event) : Prop :=
  match e with Ioctl arg cmd => call_ok arg cmd | Tick => True end.

Definition event_step f (e : event) : option fish :=
  match e with
  | Ioctl arg cmd => '(_, _, f) ← mp1_ioctl arg cmd f; Some f
  | Tick => mp1_rtc_tasklet f
  end.

Fixpoint run_events f (es : list event) : option fish :=
  match es with [] => Some f | e :: es => f ← event_step f e; run_events f es end.

(** The program's start: the array is zero, and the head is NULL in its data section. *)
Definition fish_init (v : vst) : fish := Fish (replicate (Z.to_nat (80 * 25)) blink_zero) None v.

Lemma init_shows v : shows (fish_init v) [].
Proof.
  exists []. split; [|done]. constructor.
  - apply length_replicate.
  - done.
  - constructor.
  - intros i b Hb. unfold fish_init in Hb. apply lookup_replicate_1 in Hb as [-> _]. simpl. split; [done|]. by intros ?%elem_of_nil.
  - apply Forall_replicate. by constructor.
Qed.

Lemma event_shows f L e : shows f L → event_ok e → ∃ f' L', event_step f e = Some f' ∧ shows f' L'.
Proof.
  intros Hf He. destruct e as [arg cmd|]; simpl in *.
  - pose proof (ioctl_ok f L arg cmd Hf He) as H. destruct (ioctl_spec arg cmd L) as [[[r a] L'] p].
    destruct H as (a' & f' & -> & _ & Hs & _). by exists f', L'.
  - destruct (tasklet_ok f L Hf) as (f' & -> & Hs & _). by eauto.
Qed.

Lemma run_shows f L es : shows f L → Forall event_ok es → ∃ f' L', run_events f es = Some f' ∧ shows f' L'.
Proof.
  revert f L. induction es as [|e es IH]; intros f L Hf He; [by exists f, L|].
  inversion He as [|?? He1 He2]; subst. destruct (event_shows f L e Hf He1) as (f1 & L1 & E & H1). simpl.
  rewrite E. simpl. by apply (IH f1 L1).
Qed.

(** A node that is its own successor keeps the tasklet going. *)
Lemma self_link_hangs f i b :
  mp1_list_head f = Some i → blink_array f !! i = Some b → next b = Some i → mp1_rtc_tasklet f = None.
Proof.
  intros Hh Hb Hn. unfold mp1_rtc_tasklet. destruct (while32 _ _) as [r|] eqn:E; [|done]. exfalso.
  eapply (while32_pres _ (λ st, st.1 = Some i ∧ next <$> blink_array st.2 !! i = Some (Some i)) (λ _, False));
    [|..|exact E]; [|by simpl; rewrite Hb, Hh; simpl; rewrite Hn].
  intros [p g] [Hp Hg]. simpl in *. subst p. destruct (blink_array g !! i) as [c|] eqn:Hc; [|done].
  simpl in Hg. injection Hg as Hg. pose proof (tick_next c) as Ht. destruct (tick_node c) as [c' q]. simpl in *.
  split; [congruence|]. assert (blink_array (put_node i c' (draw q g)) = <[i := c']> (blink_array g)) as Ha
    by (by destruct q as [[]|]). simpl in Ha. rewrite Ha.
  rewrite list_lookup_insert_eq by (by eapply lookup_lt_Some). simpl. congruence.
Qed.

Lemma malloc_first f x r : blink_array f = x :: r → location x = 0 → mp1_malloc f = Some 0%nat.
Proof.
  intros Ha Hx. unfold mp1_malloc. assert (find_up (λ i, location (nth (Z.to_nat i) (blink_array f) blink_zero) =? 0)
    0 (80 * 25) = Some 0) as ->; [|done].
  apply find_up_Some. split_and!; [done..| |lia]. rewrite Ha. simpl. by apply Z.eqb_eq.
Qed.

Lemma add_zero f x r b :
  blink_array f = x :: r → location x = 0 → location b = 0 →
  ∃ f', mp1_ioctl_add b f = (0, f') ∧ mp1_list_head f' = Some 0%nat ∧
    blink_array f' = set_next (mp1_list_head f) (set_state (on_length b) 1 b) :: r.
Proof.
  intros Ha Hx Hb. unfold mp1_ioctl_add. rewrite (malloc_first f x r Ha Hx), Hb. simpl. eexists. split; [done|].
  split; [done|]. simpl. by rewrite Ha.
Qed.

(** C15: [mp1_ioctl] on the linked nodes of the array refines its description on a list: a
    character is added in front, the first one at a location is removed, returned or given the
    timing of another, every loop over the links ends, a refused call changes nothing, and
    what is drawn is what the description says. *)
Theorem ioctl_refines f L arg cmd :
  shows f L → call_ok arg cmd →
  let '(r, a, L', p) := ioctl_spec arg cmd L in
  ∃ a' f', mp1_ioctl arg cmd f = Some (r, a', f') ∧ arg_eq a' a ∧ shows f' L' ∧ vid f' = vdraw (vid f) p.
Proof. apply ioctl_ok. Qed.

(** C16: from the program's start, any sequence of ticks and of calls as the interface describes
    them ([event_ok]: one of the four commands with an argument of its kind, an added character
    at a location other than 0) runs to its end: no pointer that leads out of the array is
    followed, and at the end the array is again well formed, its links a list of distinct nodes
    that are exactly those in use.  ([zero_location_hangs] shows why location 0 is left out.) *)
Theorem events_well_formed v es :
  Forall event_ok es → ∃ f' l, run_events (fish_init v) es = Some f' ∧ fish_ok f' l.
Proof.
  intros He. destruct (run_shows _ _ _ (init_shows v) He) as (f' & L' & E & (l & H & _)). by exists f', l.
Qed.

(** A character that was added is removed again by its location, and the list is as
    before. *)
Theorem add_remove_roundtrip f L arg :
  shows f L → arg_ok arg → location arg < 80 * 25 → (length L < 2000)%nat →
  ∃ f1 f2 a1 a2, mp1_ioctl (Ptr arg) RTC_ADD f = Some (0, a1, f1) ∧
    mp1_ioctl (Word (location arg)) RTC_REMOVE f1 = Some (0, a2, f2) ∧ shows f2 L.
Proof.
  intros Hf Ha Hloc Hlen. pose proof (ioctl_ok f L (Ptr arg) RTC_ADD Hf (or_introl (conj eq_refl Ha))) as H.
  unfold ioctl_spec, add_spec in H. rewrite decide_True in H by done. simpl in H.
  destruct H as (a1 & f1 & E1 & _ & H1 & _).
  pose proof (ioctl_ok f1 _ (Word (location arg)) RTC_REMOVE H1 (or_introl eq_refl)) as H.
  unfold ioctl_spec in H. simpl in H. destruct Ha. rewrite u16_small, decide_True in H by (done || lia).
  destruct H as (a2 & f2 & E2 & _ & H2 & _). by exists f1, f2, a1, a2.
Qed.

(** A character at location 0 is accepted, but its node still counts as free: a second one
    takes the same node, which then is its own successor, and the next tick never ends. *)
Theorem zero_location_hangs v b c :
  location b = 0 → location c = 0 →
  ∃ f1 f2, mp1_ioctl_add b (fish_init v) = (0, f1) ∧ mp1_ioctl_add c f1 = (0, f2) ∧ mp1_rtc_tasklet f2 = None.
Proof.
  intros Hb Hc.
  destruct (add_zero (fish_init v) blink_zero (replicate 1999 blink_zero) b) as (f1 & E1 & Hh1 & Ha1); [done..|].
  destruct (add_zero f1 _ _ c Ha1) as (f2 & E2 & Hh2 & Ha2); [done..|].
  exists f1, f2. split_and!; [done..|]. eapply (self_link_hangs _ 0); [done|by rewrite Ha2|done].
Qed.

(** ** What a character does in time *)

(** A screen whose bytes can be read back. *)
Class VideoMem := {
  vget : Z → vst → Z;
  vget_poke cl eax v e : vget e (mp1_poke cl eax v) = if decide (e = eax) then cl else vget e v;
}.

(** [t] ticks after it was added, a character is in the period of [on_length + off_length]
    ticks at tick [t mod (on_length + off_length)]; it is on in the first [on_length] of them. *)
Definition period (b : mp1_blink_struct) : Z := on_length b + off_length b.
Definition is_on (b : mp1_blink_struct) (t : Z) : bool := t mod period b <? on_length b.

Definition blink_char (b : mp1_blink_struct) (t : Z) : Z := if is_on b t then on_char b else off_char b.

(** Its node then: the ticks left of the part it is in, and the part. *)
Definition blink_at (b : mp1_blink_struct) (t : Z) : mp1_blink_struct :=
  set_next None (if is_on b t then set_state (on_length b - t mod period b) 1 b
                 else set_state (period b - t mod period b) 0 b).

(** Lengths that a signed word can count. *)
Definition lengths_ok (b : mp1_blink_struct) : Prop := 0 < on_length b < 32768 ∧ 0 < off_length b < 32768.

Lemma period_succ p t : 0 < p → (t + 1) mod p = if decide (t mod p + 1 = p) then 0 else t mod p + 1.
Proof.
  intros Hp. pose proof (Z.mod_pos_bound t p Hp). pose proof (Z.div_mod t p ltac:(lia)).
  case_decide; symmetry; [apply (Z.mod_unique _ _ (t / p + 1))|apply (Z.mod_unique _ _ (t / p))]; lia.
Qed.

(** One tick of a character: it moves on in its period, and is drawn if it changes. *)
Lemma blink_tick b t :
  lengths_ok b →
  fst (tick_node (blink_at b t)) = blink_at b (t + 1) ∧
  match snd (tick_node (blink_at b t)) with
  | None => blink_char b (t + 1) = blink_char b t
  | Some (cl, eax) => cl = blink_char b (t + 1) ∧ eax = location b * 2
  end.
Proof.
  intros [Hon Hoff]. assert (0 < period b) as Hp by (unfold period; lia).
  pose proof (Z.mod_pos_bound t (period b) Hp) as Hr. pose proof (period_succ (period b) t Hp) as Es.
  unfold blink_at, blink_char, is_on. rewrite Es. set (r := t mod period b) in *. clearbody r. clear Es.
  assert (∀ c, 0 < c ≤ 32768 → u16 (c - 1) = c - 1 ∧ (0 <? s16 (c - 1)) = bool_decide (1 < c)) as Hcd.
  { intros c Hc. unfold u16, s16. rewrite !Z.mod_small by lia. split; [done|].
    case_bool_decide; [apply Z.ltb_lt|apply Z.ltb_ge]; lia. }
  destruct b as [loc onc offc on off cd st nx]. unfold period in *. simpl in *.
  destruct (Z.ltb_spec r on) as [H1|H1]; unfold tick_node; simpl.
  - destruct (Hcd (on - r) ltac:(lia)) as [-> ->]. rewrite decide_False by lia.
    case_bool_decide; destruct (Z.ltb_spec (r + 1) on); simpl; try lia; (split; [|done]);
      unfold set_next, set_state; simpl; f_equal; lia.
  - destruct (Hcd (on + off - r) ltac:(lia)) as [-> ->]. case_bool_decide; case_decide; try lia; simpl;
      [destruct (Z.ltb_spec (r + 1) on); [lia|]|rewrite (proj2 (Z.ltb_lt 0 on)) by lia]; (split; [|done]);
      unfold set_next, set_state; simpl; f_equal; lia.
Qed.

Context {VM : VideoMem}.

(** The characters [bs], each with its age, are the list, and the screen shows them. *)
Record blinking f (bs : list (mp1_blink_struct * Z)) : Prop := {
  bl_list : shows f ((λ '(b, t), blink_at b t) <$> bs);
  bl_screen : Forall (λ '(b, t), vget (location b * 2) (vid f) = blink_char b t) bs;
}.

Definition aged (n : Z) (bs : list (mp1_blink_struct * Z)) : list (mp1_blink_struct * Z) :=
  (λ '(b, t), (b, t + n)) <$> bs.

Definition locations (bs : list (mp1_blink_struct * Z)) : list Z := (λ '(b, _), location b) <$> bs.

(** What a tick draws. *)
Lemma draws_shown bs v :
  Forall (λ '(b, _), lengths_ok b) bs → NoDup (locations bs) →
  let v' := foldl vdraw v ((λ b, snd (tick_node b)) <$> ((λ '(b, t), blink_at b t) <$> bs)) in
  (∀ b t, (b, t) ∈ bs → vget (location b * 2) v = blink_char b t → vget (location b * 2) v' = blink_char b (t + 1)) ∧
  (∀ e, (∀ x, x ∈ locations bs → e ≠ x * 2) → vget e v' = vget e v).
Proof.
  revert v. induction bs as [|[c s] bs IH]; intros v Hl Hd; simpl; [split; [by intros ?? ?%elem_of_nil|done]|].
  apply Forall_cons in Hl as [Hc Hl]. apply NoDup_cons in Hd as [Hn Hd].
  destruct (blink_tick c s Hc) as [_ Hs]. set (v1 := vdraw v _).
  assert (vget (location c * 2) v = blink_char c s → vget (location c * 2) v1 = blink_char c (s + 1)) as H1.
  { unfold v1. destruct (snd _) as [[cl eax]|]; simpl; [|congruence].
    destruct Hs as [-> ->]. intros _. by rewrite vget_poke, decide_True. }
  assert (∀ e, e ≠ location c * 2 → vget e v1 = vget e v) as H2.
  { intros e He. unfold v1. destruct (snd _) as [[cl eax]|]; [|done]. destruct Hs as [_ ->]. simpl.
    by rewrite vget_poke, decide_False. }
  destruct (IH v1 Hl Hd) as [I1 I2]. split.
  - intros b t [[= -> ->]|Hin]%elem_of_cons Hv.
    + rewrite I2; [by apply H1|]. intros x Hx E. apply Hn. by replace (location c) with x by lia.
    + apply I1; [done|]. rewrite H2; [done|]. intros E. apply Hn.
      replace (location c) with (location b) by lia. apply (list_elem_of_fmap_2' _ _ (b, t)); done.
  - intros e He. rewrite I2 by (intros x Hx; apply He; by right). apply H2, He. by left.
Qed.

Lemma aged_list bs :
  Forall (λ '(b, _), lengths_ok b) bs →
  (λ '(b, t), blink_at b t) <$> aged 1 bs = (λ b, fst (tick_node b)) <$> ((λ '(b, t), blink_at b t) <$> bs).
Proof.
  induction 1 as [|[b t] bs Hb _ IH]; [done|]. simpl. f_equal; [symmetry; by apply blink_tick|exact IH].
Qed.

Lemma tick_blinking f bs :
  blinking f bs → Forall (λ '(b, _), lengths_ok b) bs → NoDup (locations bs) →
  ∃ f', mp1_rtc_tasklet f = Some f' ∧ blinking f' (aged 1 bs) ∧
    ∀ e, (∀ x, x ∈ locations bs → e ≠ x * 2) → vget e (vid f') = vget e (vid f).
Proof.
  intros [Hl Hs] Hk Hd. destruct (tasklet_ok f _ Hl) as (f' & E & Hl' & Ev). exists f'.
  destruct (draws_shown bs (vid f) Hk Hd) as [D1 D2]. rewrite <- Ev in D1, D2. split; [done|]. split; [|exact D2].
  constructor.
  - rewrite aged_list by done. exact Hl'.
  - apply Forall_fmap, Forall_forall. intros [b t] Hin. apply (D1 b t Hin).
    exact (proj1 (Forall_forall _ _) Hs (b, t) Hin).
Qed.

(** [n] ticks. *)
Definition ticks (n : nat) f : option fish := Nat.iter n (λ r, r ≫= mp1_rtc_tasklet) (Some f).


End blink.

(** ** Example *)

(** A screen that remembers the bytes written. *)
Definition map_video : Video := {| vst := gmap Z Z; mp1_poke cl eax v := <[eax := cl]> v |}.

(** The character that [main] adds. *)
Definition sample : mp1_blink_struct := Blink (6 * 80 + 60) 73 77 7 6 0 0 None.

Definition fish1 : fish (VD := map_video) := snd (mp1_ioctl_add sample (fish_init (VD := map_video) ∅)).

Lemma sample_ok : arg_ok sample.
Proof. by constructor. Qed.

Lemma fish1_shows : shows fish1 [started sample].
Proof.
  pose proof (add_ok _ _ sample (init_shows (VD := map_video) ∅) sample_ok) as H.
  unfold fish1. destruct (mp1_ioctl_add _ _) as [r f']. apply H.
Qed.

#[local] Instance map_video_mem : VideoMem (VD := map_video).
Proof.
  refine {| vget e (v : vst (Video := map_video)) := default 0 ((v : gmap Z Z) !! e) |}.
  intros cl eax v e. simpl. case_decide as H; [subst; by rewrite lookup_insert_eq|by rewrite lookup_insert_ne].
Defined.


Lemma ioctl_refines_witness :
  ∃ a' f', mp1_ioctl (Word 540) RTC_REMOVE fish1 = Some (0, a', f') ∧ shows f' [].
Proof.
  destruct (ioctl_refines fish1 _ (Word 540) RTC_REMOVE fish1_shows (or_introl eq_refl)) as (a' & f' & E & _ & Hs & _).
  exists a', f'. split; [exact E|exact Hs].
Defined.

(** The calls of [main], with ticks between them. *)
Lemma events_well_formed_witness :
  ∃ f' l, run_events (fish_init (VD := map_video) ∅)
    [Tick; Ioctl (Ptr sample) RTC_ADD; Tick; Ioctl (Word (40 * 65536 + 540)) RTC_SYNC; Tick;
     Ioctl (Word 540) RTC_REMOVE; Tick] = Some f' ∧ fish_ok f' l.
Proof.
  apply (events_well_formed (VD := map_video) ∅).
  repeat first [apply Forall_nil_2 | apply Forall_cons_2]; simpl; auto using sample_ok.
Defined.

Lemma add_remove_roundtrip_witness :
  ∃ f1 f2 a1 a2, mp1_ioctl (Ptr (set_state 0 0 (Blink 40 79 32 15 15 0 0 None))) RTC_ADD fish1 = Some (0, a1, f1) ∧
    mp1_ioctl (Word 40) RTC_REMOVE f1 = Some (0, a2, f2) ∧ shows f2 [started sample].
Proof.
  apply (add_remove_roundtrip fish1 [started sample] (Blink 40 79 32 15 15 0 0 None) fish1_shows);
    [by constructor|simpl; lia|simpl; lia].
Defined.

Lemma zero_location_hangs_witness :
  ∃ f1 f2, mp1_ioctl_add blink_zero (fish_init (VD := map_video) ∅) = (0, f1) ∧
    mp1_ioctl_add blink_zero f1 = (0, f2) ∧ mp1_rtc_tasklet f2 = None.
Proof. apply (zero_location_hangs (VD := map_video) ∅ blink_zero blink_zero); reflexivity. Defined.
