(* ===== verification/Fish.v ===== *)
(** * The fish program (src/fish/fish.c)

    [fish_main] over the interface of the user programs.  Its state is the record [fish] of
    Blink.v, the screen of which is the rest of the machine: [fish_usys] is the machine of a
    program that has this record beside its memory, so that loops, loads, stores and system
    calls are those of User.v.  The two frames are read by [add_frames]; what it puts into the
    list is described line by line by [frame_cells]. *)

From Stdlib Require Import String.
From S2P Require Import Prelude Mem Lib Kstate Screen User Support Client Blink.

(** ** The machine *)

(** A word of the program's memory. *)
Definition uld32 `{US : Usys} (u : ust) (a : Z) : Z :=
  uld8 u a + 256 * uld8 u (a + 1) + 65536 * uld8 u (a + 2) + 16777216 * uld8 u (a + 3).

Section machine.
Variable (K : Usys) (vmem_base_addr : Z).

(** [mp1_poke] of blink.S *)
Definition fish_video : Video :=
  {| vst := ust (Usys := K); mp1_poke cl eax u := ust8 (uld32 u vmem_base_addr + eax) cl u |}.

#[local] Existing Instance fish_video.

Definition fish_usys : Usys := {|
  ust := fish;
  umem f := umem (Usys := K) (vid f);
  uxl f := uxl (Usys := K) (vid f);
  uset m f := set_vid (uset (Usys := K) m (vid f) : vst) f;
  int80 eax ebx ecx edx f :=
    match int80 (Usys := K) eax ebx ecx edx (vid f) with
    | Some (r, u) => Some (r, set_vid (u : vst) f)
    | None => None
    end;
|}.
End machine.

(** ** What the program relies on *)

(** What a descriptor is open on: a file, with the bytes left to read, or the clock. *)
Inductive ofile := File (l : list Z) | Clock.

(** [rest u]: the open descriptors; [content u]: the files by name; [video]: the addresses of
    the screen.  Each call changes only what it is about. *)
Class FrameIO (K : Usys) := {
  rest : ust → gmap Z ofile;
  content : ust → list Z → option (list Z);
  video : Z → Prop;
  fr_vidmap u p ecx edx : user_range p 4 →
    ∃ u', int80 SYS_VIDMAP p ecx edx u = Some (0, u') ∧ rest u' = rest u ∧ content u' = content u ∧
      uld32 u' p ≠ 0 ∧ (∀ i, 0 ≤ i < 4000 → video (uld32 u' p + i)) ∧ same_but p 4 u u';
  fr_open u s name data ecx edx : ucstr u s name → content u name = Some data → (size (rest u) < 6)%nat →
    ∃ fd u', int80 SYS_OPEN s ecx edx u = Some (fd, u') ∧ 0 ≤ fd < 8 ∧ rest u !! fd = None ∧
      rest u' = <[fd := File data]> (rest u) ∧ content u' = content u ∧ same_but 0 0 u u';
  fr_clock u s ecx edx : ucstr u s (lit "rtc"%string) → (size (rest u) < 6)%nat →
    ∃ fd u', int80 SYS_OPEN s ecx edx u = Some (fd, u') ∧ 0 ≤ fd < 8 ∧ rest u !! fd = None ∧
      rest u' = <[fd := Clock]> (rest u) ∧ content u' = content u ∧ same_but 0 0 u u';
  fr_read u fd x l a : user a → rest u !! fd = Some (File (x :: l)) →
    ∃ u', int80 SYS_READ fd a 1 u = Some (1, u') ∧ uld8 u' a = x ∧ rest u' = <[fd := File l]> (rest u) ∧
      same_but a 1 u u';
  fr_end u fd a : user a → rest u !! fd = Some (File []) →
    ∃ u', int80 SYS_READ fd a 1 u = Some (0, u') ∧ rest u' = rest u ∧ same_but a 1 u u';
  fr_tick u fd a : user_range a 4 → rest u !! fd = Some Clock →
    ∃ r u', int80 SYS_READ fd a 4 u = Some (r, u') ∧ rest u' = rest u ∧ same_but a 4 u u';
  fr_rate u fd a : user_range a 4 → rest u !! fd = Some Clock →
    ∃ r u', int80 SYS_WRITE fd a 4 u = Some (r, u') ∧ rest u' = rest u ∧ same_but 0 0 u u';
  fr_close u fd ecx edx : 0 ≤ fd < 8 →
    ∃ r u', int80 SYS_CLOSE fd ecx edx u = Some (r, u') ∧ rest u' = delete fd (rest u) ∧ same_but 0 0 u u';
  fr_store u a v : user a → rest (ust8 a v u) = rest u ∧ same_but a 1 u (ust8 a v u);
  fr_video u a v : video a → rest (ust8 a v u) = rest u ∧ same_but 0 0 u (ust8 a v u);
}.

(** ** The picture, line by line *)

Fixpoint zipo {A B} (l : list A) (k : list B) : list (option A * option B) :=
  match l, k with
  | [], _ => (λ b, (None, Some b)) <$> k
  | a :: l, [] => (Some a, None) :: zipo l []
  | a :: l, b :: k => (Some a, Some b) :: zipo l k
  end.

(** The first line, and what follows its newline. *)
Fixpoint split_line (l : list Z) : list Z * option (list Z) :=
  match l with
  | [] => ([], None)
  | c :: l =>
      if c =? 10 then ([], Some l)
      else let '(ln, more) := split_line l in (c :: ln, more)
  end.

Fixpoint lines (l : list Z) : list (list Z) :=
  match l with
  | [] => [[]]
  | c :: l =>
      if c =? 10 then [] :: lines l
      else match lines l with [] => [[c]] | ln :: ls => (c :: ln) :: ls end
  end.

(** Nothing is shown where both frames are blank. *)
Definition cell_at (row col : Z) (p : option Z * option Z) : list mp1_blink_struct :=
  let on := default 32 (fst p) in
  let off := default 32 (snd p) in
  if (on =? 32) && (off =? 32) then []
  else [Blink (u16 (row * 80 + col + 40)) on off 15 15 0 0 None].

Fixpoint row_cells (row col : Z) (ps : list (option Z * option Z)) : list mp1_blink_struct :=
  match ps with [] => [] | p :: ps => cell_at row col p ++ row_cells row (col + 1) ps end.

Fixpoint rows_cells (row : Z) (ps : list (option (list Z) * option (list Z))) : list mp1_blink_struct :=
  match ps with
  | [] => []
  | p :: ps => row_cells row 0 (zipo (default [] (fst p)) (default [] (snd p))) ++ rows_cells (row + 1) ps
  end.

(** The characters of two frames, in the order in which they are added. *)
Definition frame_cells (d0 d1 : list Z) : list mp1_blink_struct := rows_cells 0 (zipo (lines d0) (lines d1)).

(** What [mp1_ioctl_add] does to the list, whether it accepts the character or not. *)
Definition push (L : list mp1_blink_struct) (b : mp1_blink_struct) : list mp1_blink_struct :=
  default L (add_spec b L).

(** Characters on the screen that fit are all accepted; the last one added is in front. *)
Lemma pushes_fit L cs :
  Forall (λ b, location b < 80 * 25) cs → (length L + length cs ≤ 2000)%nat →
  foldl push L cs = rev (started <$> cs) ++ L.
Proof.
  intros Hcs. revert L. induction Hcs as [|b cs Hb Hcs IH]; intros L Hl; [done|]. simpl in Hl |- *.
  unfold push at 2, add_spec. rewrite decide_True by (split; [done|lia]). simpl.
  rewrite IH by (simpl; lia). by rewrite <- app_assoc.
Qed.

Lemma zipo_step {A B} (l : list A) (k : list B) :
  l ≠ [] ∨ k ≠ [] → zipo l k = (head l, head k) :: zipo (tail l) (tail k).
Proof. by destruct l, k as [|b k]; intros []; simpl; try destruct k. Qed.

Definition olines (o : option (list Z)) : list (list Z) := match o with Some l => lines l | None => [] end.

Lemma lines_split l : lines l = fst (split_line l) :: olines (snd (split_line l)).
Proof.
  induction l as [|c l IH]; [done|]. simpl. destruct (c =? 10); [done|]. rewrite IH.
  by destruct (split_line l).
Qed.

Lemma split_line_length l :
  (length (fst (split_line l)) + match snd (split_line l) with Some r => S (length r) | None => 0 end = length l)%nat.
Proof.
  induction l as [|c l IH]; [done|]. simpl. destruct (c =? 10); [done|].
  destruct (split_line l) as [ln more]. simpl in *. lia.
Qed.

Section fish_prog.
Variable (K : Usys) (vmem_base_addr : Z).
Context {RO : Rodata} (junk : Z).
#[local] Instance V : Video := fish_video K vmem_base_addr.
#[local] Instance F : Usys := fish_usys K vmem_base_addr.

(** ** Helpers (fish.c) *)

Definition ece391_memset (memory c n : Z) : prog () :=
  ploop (λ i, if i <? n then _ ← pokeb (memory + i) c; mret (inl (i + 1)) else mret (inr ())) 0.

Definition ece391_memcpy (dest src n : Z) : prog Z :=
  ploop (λ i, if i <? n then
      c ← peekb (src + i); _ ← pokeb (dest + i) c; mret (inl (i + 1))
    else mret (inr 0)) 0.

(** [ece391_memset(blink_array, 0, ...)], on the elements. *)
Definition clear_array : prog () := λ f, Some ((), set_array (VD := V) (replicate (Z.to_nat (80 * 25)) blink_zero) f).

(** A command; what it leaves in a structure of the caller is not used. *)
Definition ioctl (arg : ioctl_arg) (cmd : Z) : prog Z := λ f,
  match mp1_ioctl (VD := V) arg cmd f with Some (r, _, f) => Some (r, f) | None => None end.

Definition tasklet : prog () := λ f,
  match mp1_rtc_tasklet (VD := V) f with Some f => Some ((), f) | None => None end.

Definition peekw (a : Z) : prog Z := λ f, Some (uld32 f a, f).

Definition mp1_set_video_mode : prog Z :=
  r ← ece391_vidmap junk vmem_base_addr;
  if r =? -1 then mret 0 else peekw vmem_base_addr.

(** ** The frames *)

(** The variable at [a] holds [c]; one byte is read into it. *)
Definition read_char (fd a c : Z) : prog (Z * Z) :=
  _ ← pokeb a c; num_bytes ← ece391_read fd a 1; c ← peekb a; mret (num_bytes, c).

(** One character of a frame: [c], and whether the file is at its end. *)
Definition next_char (fd a : Z) (c : Z) (eof : bool) : prog (Z * bool) :=
  if negb (c =? 10) then
    '(num_bytes, c) ← read_char fd a c;
    mret (if num_bytes =? 0 then (10, true) else (c, eof))
  else mret (c, eof).

(** A character of the picture.  [mp1_ioctl_add] sets the other fields. *)
Definition frame_char (row col c0 c1 : Z) : mp1_blink_struct :=
  Blink (u16 (row * 80 + col + 40)) (if c0 =? 10 then 32 else c0) (if c1 =? 10 then 32 else c1) 15 15 0 0 None.

(** The columns of a row, [while(1)]: the states of the two files afterwards. *)
Definition add_row (fd0 fd1 a0 a1 row : Z) : (Z * bool) * (Z * bool) * Z → prog ((Z * bool) * (Z * bool)) :=
  ploop (λ '((c0, eof0), (c1, eof1), col),
    '(c0, eof0) ← next_char fd0 a0 c0 eof0;
    '(c1, eof1) ← next_char fd1 a1 c1 eof1;
    if (c0 =? 10) && (c1 =? 10) then mret (inr ((c0, eof0), (c1, eof1)))
    else
      _ ← (if (negb (c0 =? 32) && negb (c0 =? 10)) || (negb (c1 =? 32) && negb (c1 =? 10))
           then ioctl (Ptr (frame_char row col c0 c1)) RTC_ADD else mret 0);
      mret (inl ((c0, eof0), (c1, eof1), s32 (col + 1)))).

(** After a row: a file at its end is closed. *)
Definition end_row (fd : Z) (eof : bool) : prog Z :=
  if eof then _ ← ece391_close junk fd; mret 10 else mret 48.

(** [ece391_halt] does not return. *)
Definition stop {A} : prog A := λ _, None.
Definition ece391_halt {A} (status : Z) : prog A := _ ← DO_CALL SYS_HALT (u8 status) junk junk; stop.

Definition open_frame (name : Z) : prog Z :=
  fd ← ece391_open junk name; if fd <? 0 then ece391_halt (-1) else mret fd.

(** The rows: [while(eof0 == 0 || eof1 == 0)]. *)
Definition frames_loop (fd0 fd1 a0 a1 : Z) : (Z * bool) * (Z * bool) * Z → prog () :=
  ploop (λ '((c0, eof0), (c1, eof1), row),
    if negb eof0 || negb eof1 then
      '(_, eof0, (_, eof1)) ← add_row fd0 fd1 a0 a1 row ((c0, eof0), (c1, eof1), 0);
      c0 ← end_row fd0 eof0;
      c1 ← end_row fd1 eof1;
      mret (inl ((c0, eof0), (c1, eof1), s32 (row + 1)))
    else mret (inr ())).

Definition add_frames (f0 f1 a0 a1 : Z) : prog () :=
  fd0 ← open_frame f0;
  fd1 ← open_frame f1;
  frames_loop fd0 fd1 a0 a1 ((48, false), (48, false), 0).

(** ** The program *)

Definition WAIT : Z := 100.

Definition wait_ticks (rtc_fd garbage : Z) : prog () :=
  ploop (λ i, if i <? WAIT then
      _ ← ece391_read rtc_fd garbage 4; _ ← tasklet; mret (inl (i + 1))
    else mret (inr ())) 0.

Definition im_char : mp1_blink_struct := Blink (6 * 80 + 60) 73 77 7 6 0 0 None.

(** [main] after [add_frames]. *)
Definition fish_show (rtc_fd ret_val garbage : Z) : prog Z :=
  _ ← pokew ret_val 32;
  r ← ece391_write rtc_fd ret_val 4;
  _ ← pokew ret_val r;
  _ ← wait_ticks rtc_fd garbage;
  _ ← ioctl (Ptr im_char) RTC_ADD;
  _ ← wait_ticks rtc_fd garbage;
  _ ← ioctl (Word (Z.lor (Z.shiftl 40 16) (6 * 80 + 60))) RTC_SYNC;
  _ ← wait_ticks rtc_fd garbage;
  _ ← ioctl (Word (6 * 80 + 60)) RTC_REMOVE;
  _ ← wait_ticks rtc_fd garbage;
  _ ← ece391_close junk rtc_fd;
  mret 0.

Definition fish_main (ret_val garbage a0 a1 : Z) : prog Z :=
  _ ← clear_array;
  v ← mp1_set_video_mode;
  if v =? 0 then mret (-1)
  else
    rtc_fd ← ece391_open junk (str (lit "rtc"%string));
    _ ← add_frames (str (lit "frame0.txt"%string)) (str (lit "frame1.txt"%string)) a0 a1;
    fish_show rtc_fd ret_val garbage.

(** ** Reading the frames *)

Context {FI : FrameIO K}.
Local Abbreviation sv u f := (set_vid (VD := V) u f).
Implicit Types (f : fish).

Definition rst f : gmap Z ofile := rest (K := K) (vid f).

(** The variable that holds the address of the screen does. *)
Definition mapped f : Prop :=
  ∀ i, 0 ≤ i < 4000 → video (K := K) (uld32 (US := K) (vid f) vmem_base_addr + i).

Lemma F_int80 eax ebx ecx edx f v u' :
  int80 (Usys := K) eax ebx ecx edx (vid f) = Some (v, u') → int80 (Usys := F) eax ebx ecx edx f = Some (v, sv u' f).
Proof.
  intros E. change (match int80 (Usys := K) eax ebx ecx edx (vid f) with
    | Some (r, u) => Some (r, sv u f) | None => None end = Some (v, sv u' f)). by rewrite E.
Qed.

(** Only the machine changes, and of its memory only [n] bytes at [a]. *)
Definition moved (a n : Z) f f' : Prop :=
  (∃ u : ust (Usys := K), f' = sv u f) ∧ same_but (US := K) a n (vid f) (vid f').

Lemma shows_vid f L u : shows f L → shows (set_vid u f) L.
Proof. intros (l & [H1 H2 H3 H4 H5] & ->). exists l. split; [by constructor|done]. Qed.

Lemma moved_shows a n f f' L : moved a n f f' → shows f L → shows f' L.
Proof. intros [[u ->] _]. apply shows_vid. Qed.

Context (Hvmem : user_range vmem_base_addr 4).

Lemma mapped_same a n f f' :
  same_but (US := K) a n (vid f) (vid f') → (a + n ≤ vmem_base_addr ∨ vmem_base_addr + 4 ≤ a) →
  mapped f → mapped f'.
Proof.
  intros Hs Ha Hm i Hi. unfold user_range in Hvmem.
  assert (uld32 (US := K) (vid f') vmem_base_addr = uld32 (US := K) (vid f) vmem_base_addr) as ->; [|by apply Hm].
  unfold uld32. rewrite !(Hs _) by (unfold user; lia). done.
Qed.

(** A variable at [a] that is not the address of the screen. *)
Definition local_at (a : Z) : Prop := user a ∧ (a < vmem_base_addr ∨ vmem_base_addr + 4 ≤ a).

Lemma read_char_ok f fd a c l :
  local_at a → 0 ≤ fd < 8 → rst f !! fd = Some (File l) →
  ∃ f' r, read_char fd a c f = Some (r, f') ∧ moved a 1 f f' ∧
    match l with
    | x :: l' => r = (1, x) ∧ rst f' = <[fd := File l']> (rst f)
    | [] => fst r = 0 ∧ rst f' = rst f
    end.
Proof.
  intros [Ha _] Hfd Hl. unfold read_char. rewrite poke_run.
  destruct (fr_store (K := K) (vid f) a c Ha) as [Er Hs].
  set (f1 := ust8 (US := F) a c f). assert (rest (K := K) (vid f1) = rst f) as Er1 by exact Er.
  assert (user a) as Ha' by done. unfold user in Ha'.
  assert (∀ v u', int80 (Usys := K) SYS_READ fd a 1 (vid f1) = Some (v, u') → 0 ≤ v < 2 →
    ece391_read (US := F) fd a 1 f1 = Some (v, sv u' f1)) as Hcall.
  { intros v u' E Hv. unfold ece391_read.
    erewrite (do_call_eq (US := F) SYS_READ fd a 1 f1 v (sv u' f1)); [by rewrite s32_small by lia|lia..|].
    exact (F_int80 _ _ _ _ f1 _ _ E). }
  destruct l as [|x l].
  - destruct (fr_end (K := K) (vid f1) fd a Ha) as (u' & E & Er' & Hs'); [by rewrite Er1|].
    erewrite bind_run by (by apply Hcall). rewrite peek_run. eexists _, _. split; [done|]. split_and!; [|done|].
    + split; [by eexists|]. by eapply same_but_trans.
    + by rewrite <- Er1.
  - destruct (fr_read (K := K) (vid f1) fd x l a Ha) as (u' & E & Ex & Er' & Hs'); [by rewrite Er1|].
    erewrite bind_run by (by apply Hcall). rewrite peek_run. eexists _, _. split; [done|]. split_and!.
    + split; [by eexists|]. by eapply same_but_trans.
    + f_equal. exact Ex.
    + by rewrite <- Er1.
Qed.

(** A file within a line: [ln] is left of the line, [more] follows its end. *)
Definition in_line (fd c : Z) (eof : bool) f (ln : list Z) (more : option (list Z)) : Prop :=
  (c ≠ 10 ∧ eof = false ∧ ∃ l, rst f !! fd = Some (File l) ∧ split_line l = (ln, more)) ∨
  (c = 10 ∧ ln = [] ∧ match more with None => eof = true | Some r => eof = false ∧ rst f !! fd = Some (File r) end).

Lemma in_line_frame fd c eof f f' ln more :
  rst f' !! fd = rst f !! fd → in_line fd c eof f ln more → in_line fd c eof f' ln more.
Proof. unfold in_line. by intros ->. Qed.

Lemma next_char_ok f fd a c eof ln more :
  local_at a → 0 ≤ fd < 8 → in_line fd c eof f ln more →
  ∃ f' c' eof', next_char fd a c eof f = Some ((c', eof'), f') ∧ moved a 1 f f' ∧
    in_line fd c' eof' f' (tail ln) more ∧ (∀ fd', fd' ≠ fd → rst f' !! fd' = rst f !! fd') ∧
    match ln with [] => c' = 10 | x :: _ => c' = x ∧ x ≠ 10 end.
Proof.
  intros Ha Hfd [(Hc & -> & l & Hl & Hsp)|(-> & -> & Hm)]; unfold next_char.
  - rewrite (proj2 (Z.eqb_neq c 10) Hc). cbn [negb].
    destruct (read_char_ok f fd a c l Ha Hfd Hl) as (f' & r & E & Hmv & Hr).
    erewrite bind_run by exact E. exists f'. destruct l as [|x l].
    + destruct Hr as [Hr Er]. destruct r as [n c']. simpl in Hr. subst n. injection Hsp as <- <-.
      exists 10, true. split_and!; [done|done|by right|by rewrite Er|done].
    + destruct Hr as [-> Er]. simpl in Hsp.
      assert (∀ fd', fd' ≠ fd → rst f' !! fd' = rst f !! fd') as Ho by (intros; by rewrite Er, lookup_insert_ne).
      assert (rst f' !! fd = Some (File l)) as Hl' by (by rewrite Er, lookup_insert_eq).
      exists x, false. split; [done|]. split; [done|]. destruct (Z.eqb_spec x 10) as [->|Hx].
      * injection Hsp as <- <-. split_and!; [by right|done|done].
      * destruct (split_line l) as [ln' more'] eqn:Es. injection Hsp as <- <-.
        split_and!; [left; by eauto|done..].
  - simpl. exists f, 10, eof. split_and!; [done| |by right|done|done]. split; [|done].
    exists (vid f). by destruct f.
Qed.

(** ** Copying *)

(** [mp1_ioctl_add] and [mp1_ioctl_find] test the result of the copy: it is 0. *)
Lemma memcpy_returns dest src n f : n < 4294967296 → ∃ r f', ece391_memcpy dest src n f = Some (r, f') ∧ r = 0.
Proof.
  intros Hn. apply (ploop_total (US := F) _ (λ i _, 0 ≤ i ≤ Z.max 0 n) (λ r _, r = 0) (λ i _, Z.max 0 n - i)); [|lia..].
  intros i g Hi. split; [lia|]. destruct (Z.ltb_spec i n).
  - rewrite peek_run, poke_run. eexists (inl _), _. split; [done|]. lia.
  - eexists (inr _), _. by split.
Qed.

Lemma memset_returns memory c n f : n < 4294967296 → ∃ r f', ece391_memset memory c n f = Some (r, f') ∧ r = ().
Proof.
  intros Hn. apply (ploop_total (US := F) _ (λ i _, 0 ≤ i ≤ Z.max 0 n) (λ r _, r = ()) (λ i _, Z.max 0 n - i)); [|lia..].
  intros i g Hi. split; [lia|]. destruct (Z.ltb_spec i n).
  - rewrite poke_run. eexists (inl _), _. split; [done|]. lia.
  - eexists (inr _), _. by split.
Qed.

(** ** The list while it is shown *)

(** The characters are on the screen. *)
Definition on_screen (b : mp1_blink_struct) : Prop := 0 ≤ location b < 80 * 25.

Lemma shows_on_screen f L : shows f L → Forall on_screen L.
Proof.
  intros (l & H & ->). apply Forall_fmap, Forall_forall. intros i Hi. destruct (ok_lookup f l i H Hi) as [E _].
  apply (Forall_lookup_1 _ _ _ _ (fo_node _ _ H) E).
Qed.

Definition draw_ok (p : option (Z * Z)) : Prop := match p with Some (_, e) => 0 ≤ e < 4000 | None => True end.

(** Drawing changes nothing but the screen. *)
Lemma draws_ok f ps f' :
  mapped f → Forall draw_ok ps → vid f' = foldl vdraw (vid f) ps → mapped f' ∧ rst f' = rst f.
Proof.
  intros Hm Hps. revert f Hm f'. induction Hps as [|p ps Hp Hps IH]; intros f Hm f' Hv; simpl in Hv.
  { unfold mapped, rst. by rewrite Hv. }
  assert (mapped (sv (vdraw (vid f) p) f) ∧ rst (sv (vdraw (vid f) p) f) = rst f) as [Hm1 Hr1].
  { destruct p as [[c e]|]; [|done]. simpl in Hp.
    destruct (fr_video (K := K) (vid f) (uld32 (US := K) (vid f) vmem_base_addr + e) c) as [Hr Hsame]; [by apply Hm|].
    split; [|exact Hr]. eapply (mapped_same 0 0 f); [exact Hsame|unfold user_range in Hvmem; lia|done]. }
  destruct (IH _ Hm1 f') as [Hm2 Hr2]; [done|]. split; [done|]. by rewrite Hr2.
Qed.

Definition spec_list (arg : ioctl_arg) (cmd : Z) (L : list mp1_blink_struct) : list mp1_blink_struct :=
  snd (fst (ioctl_spec arg cmd L)).

Lemma find_at_elem loc L b : find_at loc L = Some b → b ∈ L.
Proof. unfold find_at. intros E. eapply list_elem_of_filter, head_Some_elem_of, E. Qed.

Lemma spec_draw_ok arg cmd L : Forall on_screen L → call_ok arg cmd → draw_ok (snd (ioctl_spec arg cmd L)).
Proof.
  intros HL Hc. destruct arg as [b|z]; simpl.
  - destruct (cmd =? RTC_ADD) eqn:E; [|by repeat case_match]. unfold add_spec. case_decide as Hd; [|done]. simpl.
    destruct Hc as [[_ [Hl _ _]]| ->]; [lia|done].
  - destruct (cmd =? RTC_REMOVE); [by repeat case_match|]. destruct (find_at _ L) as [s|]; [|done].
    destruct (find_at (u16 z) L) as [d|] eqn:E; [|done]. simpl. apply find_at_elem in E.
    destruct (proj1 (Forall_forall _ _) HL d E). lia.
Qed.

Lemma ioctl_call_ok f L arg cmd :
  shows f L → mapped f → call_ok arg cmd →
  ∃ r f', ioctl arg cmd f = Some (r, f') ∧ shows f' (spec_list arg cmd L) ∧ mapped f' ∧ rst f' = rst f.
Proof.
  intros Hf Hm Hc. pose proof (ioctl_ok f L arg cmd Hf Hc) as H. unfold spec_list.
  pose proof (spec_draw_ok arg cmd L (shows_on_screen f L Hf) Hc) as Hd.
  destruct (ioctl_spec arg cmd L) as [[[r a] L'] p]. destruct H as (a' & f' & E & _ & Hs & Hv).
  exists r, f'. unfold ioctl. rewrite E. split; [done|]. split; [done|]. by apply (draws_ok f [p]); [|constructor|].
Qed.

Lemma push_spec b L : spec_list (Ptr b) RTC_ADD L = push L b.
Proof. unfold spec_list, push. simpl. by destruct (add_spec b L). Qed.

Lemma add_char_ok f L b :
  shows f L → mapped f → arg_ok b →
  ∃ r f', ioctl (Ptr b) RTC_ADD f = Some (r, f') ∧ shows f' (push L b) ∧ mapped f' ∧ rst f' = rst f.
Proof. intros Hf Hm Hb. rewrite <- push_spec. apply ioctl_call_ok; [done|done|by left]. Qed.

Definition tick_list (L : list mp1_blink_struct) : list mp1_blink_struct := (λ b, fst (tick_node b)) <$> L.

Lemma tasklet_step_ok f L :
  shows f L → mapped f → ∃ f', tasklet f = Some ((), f') ∧ shows f' (tick_list L) ∧ mapped f' ∧ rst f' = rst f.
Proof.
  intros Hf Hm. destruct (tasklet_ok f L Hf) as (f' & E & Hs & Hv). exists f'. unfold tasklet. rewrite E.
  split; [done|]. split; [done|]. eapply draws_ok; [done| |exact Hv]. apply Forall_fmap.
  eapply Forall_impl; [exact (shows_on_screen f L Hf)|]. intros b Hb. unfold on_screen, tick_node in *. simpl.
  repeat case_match; simpl; (done || lia).
Qed.

(** The test of the program is that of the picture. *)
Lemma cell_test row col ln0 ln1 c0 c1 :
  match ln0 with [] => c0 = 10 | x :: _ => c0 = x ∧ x ≠ 10 end →
  match ln1 with [] => c1 = 10 | x :: _ => c1 = x ∧ x ≠ 10 end →
  cell_at row col (head ln0, head ln1) =
    if (negb (c0 =? 32) && negb (c0 =? 10)) || (negb (c1 =? 32) && negb (c1 =? 10))
    then [frame_char row col c0 c1] else [].
Proof.
  intros H0 H1. unfold cell_at, frame_char.
  assert (default 32 (head ln0) = if c0 =? 10 then 32 else c0) as E0.
  { destruct ln0; simpl; [by rewrite H0|]. destruct H0 as [-> Hx]. by rewrite (proj2 (Z.eqb_neq _ 10) Hx). }
  assert (default 32 (head ln1) = if c1 =? 10 then 32 else c1) as E1.
  { destruct ln1; simpl; [by rewrite H1|]. destruct H1 as [-> Hx]. by rewrite (proj2 (Z.eqb_neq _ 10) Hx). }
  simpl fst. simpl snd. rewrite E0, E1.
  destruct (c0 =? 10), (c1 =? 10), (c0 =? 32) eqn:F0, (c1 =? 32) eqn:F1; simpl; rewrite ?F0, ?F1; done.
Qed.

Section rows.
Context (a0 a1 fd0 fd1 : Z).
Context (Ha0 : local_at a0) (Ha1 : local_at a1) (Hfd0 : 0 ≤ fd0 < 8) (Hfd1 : 0 ≤ fd1 < 8) (Hfd : fd0 ≠ fd1).

(** The other descriptors. *)
Definition others f f' : Prop := ∀ fd, fd ≠ fd0 → fd ≠ fd1 → rst f' !! fd = rst f !! fd.

Lemma others_trans f f1 f2 : others f f1 → others f1 f2 → others f f2.
Proof. intros H1 H2 fd Hn0 Hn1. by rewrite H2, H1. Qed.

Lemma moved_mapped a f f' : local_at a → moved a 1 f f' → mapped f → mapped f'.
Proof. intros [_ Ha] [_ Hs]. apply (mapped_same a 1 f f' Hs). lia. Qed.

(** One column: both characters have been read. *)
Lemma column_ok f c0 eof0 c1 eof1 ln0 more0 ln1 more1 :
  in_line fd0 c0 eof0 f ln0 more0 → in_line fd1 c1 eof1 f ln1 more1 → mapped f →
  ∃ f1 f2 c0' eof0' c1' eof1',
    next_char fd0 a0 c0 eof0 f = Some ((c0', eof0'), f1) ∧
    next_char fd1 a1 c1 eof1 f1 = Some ((c1', eof1'), f2) ∧
    in_line fd0 c0' eof0' f2 (tail ln0) more0 ∧ in_line fd1 c1' eof1' f2 (tail ln1) more1 ∧ mapped f2 ∧
    (∀ L, shows f L → shows f2 L) ∧ others f f2 ∧
    match ln0 with [] => c0' = 10 | x :: _ => c0' = x ∧ x ≠ 10 end ∧
    match ln1 with [] => c1' = 10 | x :: _ => c1' = x ∧ x ≠ 10 end.
Proof.
  intros H0 H1 Hm.
  destruct (next_char_ok f fd0 a0 c0 eof0 ln0 more0 Ha0 Hfd0 H0) as (f1 & c0' & eof0' & E0 & M0 & H0' & O0 & T0).
  destruct (next_char_ok f1 fd1 a1 c1 eof1 ln1 more1 Ha1 Hfd1) as (f2 & c1' & eof1' & E1 & M1 & H1' & O1 & T1).
  { apply (in_line_frame fd1 c1 eof1 f); [by apply O0|done]. }
  exists f1, f2, c0', eof0', c1', eof1'. split_and!; [done|done| |done| | | |done|done].
  - apply (in_line_frame fd0 c0' eof0' f1); [by apply O1|done].
  - eapply moved_mapped; [exact Ha1|exact M1|]. eapply moved_mapped; [exact Ha0|exact M0|done].
  - intros L HL. eapply moved_shows; [exact M1|]. by eapply moved_shows.
  - intros fd Hn0 Hn1. by rewrite O1, O0.
Qed.

Lemma add_row_ok row f c0 eof0 c1 eof1 ln0 more0 ln1 more1 L :
  in_line fd0 c0 eof0 f ln0 more0 → in_line fd1 c1 eof1 f ln1 more1 → mapped f → shows f L →
  Z.of_nat (length ln0 + length ln1) < 2147483647 → Forall arg_ok (row_cells row 0 (zipo ln0 ln1)) →
  ∃ c0' eof0' c1' eof1' f',
    add_row fd0 fd1 a0 a1 row ((c0, eof0), (c1, eof1), 0) f =
      Some (((c0', eof0'), (c1', eof1')), f') ∧
    in_line fd0 c0' eof0' f' [] more0 ∧ in_line fd1 c1' eof1' f' [] more1 ∧ c0' = 10 ∧ c1' = 10 ∧ mapped f' ∧
    others f f' ∧ shows f' (foldl push L (row_cells row 0 (zipo ln0 ln1))).
Proof.
  intros H0 H1 Hm Hs Hlen Hk. unfold add_row.
  match goal with |- context [ploop ?b _] => set (body := b) end.
  destruct (ploop_ranked (US := F) body
    (λ n '(c0, eof0, (c1, eof1), col) g, ∃ k0 k1 L1, n = Z.of_nat (length k0 + length k1) ∧
       in_line fd0 c0 eof0 g k0 more0 ∧ in_line fd1 c1 eof1 g k1 more1 ∧ mapped g ∧ others f g ∧ shows g L1 ∧
       0 ≤ col ∧ col + n ≤ Z.of_nat (length ln0 + length ln1) ∧ Forall arg_ok (row_cells row col (zipo k0 k1)) ∧
       foldl push L1 (row_cells row col (zipo k0 k1)) = foldl push L (row_cells row 0 (zipo ln0 ln1)))
    (λ '(c0', eof0', (c1', eof1')) f', in_line fd0 c0' eof0' f' [] more0 ∧ in_line fd1 c1' eof1' f' [] more1 ∧
       c0' = 10 ∧ c1' = 10 ∧ mapped f' ∧ others f f' ∧ shows f' (foldl push L (row_cells row 0 (zipo ln0 ln1))))
    (Z.of_nat (length ln0 + length ln1)) ((c0, eof0), (c1, eof1), 0) f)
    as ([[c0' eof0'] [c1' eof1']] & f' & E & HQ).
  - intros n [[[b0 e0] [b1 e1]] col] g (k0 & k1 & L1 & -> & G0 & G1 & Gm & Go & Gs & Hc & Hcn & Gk & Ge). split; [lia|].
    destruct (column_ok g b0 e0 b1 e1 k0 more0 k1 more1 G0 G1 Gm)
      as (g1 & g2 & b0' & e0' & b1' & e1' & E0 & E1 & I0 & I1 & Im & Is & Io & T0 & T1).
    unfold body.
    erewrite bind_run by exact E0. cbv beta iota. erewrite bind_run by exact E1. cbv beta iota.
    pose proof (cell_test row col k0 k1 b0' b1' T0 T1) as Hcell. pose proof (others_trans _ _ _ Go Io) as Go'.
    destruct (decide (k0 = [] ∧ k1 = [])) as [[-> ->]|Hne].
    { subst b0' b1'. eexists (inr _), g2. split; [done|]. split_and!; [done..|]. rewrite <- Ge. by apply Is. }
    assert (k0 ≠ [] ∨ k1 ≠ []) as Hne' by (destruct k0, k1; (by left) || (by right) || (exfalso; by apply Hne)).
    rewrite (zipo_step k0 k1 Hne') in Gk, Ge. cbn [row_cells] in Gk, Ge. rewrite foldl_app in Ge.
    apply Forall_app in Gk as [Gk1 Gk2].
    assert ((b0' =? 10) && (b1' =? 10) = false) as ->.
    { apply andb_false_iff. rewrite !Z.eqb_neq. destruct k0; [destruct k1|]; [by destruct Hne'|right; by destruct T1 as [-> ?]|left; by destruct T0 as [-> ?]]. }
    assert (Z.of_nat (length (tail k0) + length (tail k1)) < Z.of_nat (length k0 + length k1)) as Hdec
      by (destruct k0, k1; simpl; try lia; by destruct Hne').
    rewrite s32_small by lia.
    destruct ((negb (b0' =? 32) && negb (b0' =? 10)) || (negb (b1' =? 32) && negb (b1' =? 10))).
    + rewrite Hcell in Gk1, Ge. destruct (add_char_ok g2 L1 (frame_char row col b0' b1') (Is _ Gs) Im) as (r & g3 & E3 & S3 & M3 & R3).
      { by inversion Gk1. }
      erewrite bind_run by exact E3. eexists (inl _), g3. split; [done|].
      exists (Z.of_nat (length (tail k0) + length (tail k1))). split; [done|].
      exists (tail k0), (tail k1), (push L1 (frame_char row col b0' b1')).
      split_and!; [done| | |done| |done|lia|lia|done|done].
      * eapply in_line_frame; [|exact I0]. by rewrite R3.
      * eapply in_line_frame; [|exact I1]. by rewrite R3.
      * intros fd Hn0 Hn1. rewrite R3. by apply Go'.
    + rewrite Hcell in Ge. erewrite bind_run by reflexivity. eexists (inl _), g2. split; [done|].
      exists (Z.of_nat (length (tail k0) + length (tail k1))). split; [done|].
      exists (tail k0), (tail k1), L1. split_and!; [done..|by apply Is|lia|lia|done|done].
  - exists ln0, ln1, L. split_and!; (done || lia).
  - lia.
  - exists c0', eof0', c1', eof1', f'. split; [exact E|exact HQ].
Qed.

(** Between rows: [None] is a file that has ended, [Some l] one with [l] left. *)
Definition at_row (fd c : Z) (eof : bool) f (o : option (list Z)) : Prop :=
  match o with None => c = 10 ∧ eof = true | Some l => c = 48 ∧ eof = false ∧ rst f !! fd = Some (File l) end.

Definition row_line (o : option (list Z)) : list Z * option (list Z) :=
  match o with None => ([], None) | Some l => split_line l end.

Definition osize (o : option (list Z)) : nat := match o with None => 0 | Some l => S (length l) end.

Lemma at_row_line fd c eof f o :
  at_row fd c eof f o → in_line fd c eof f (fst (row_line o)) (snd (row_line o)).
Proof.
  destruct o as [l|]; simpl.
  - intros (-> & -> & Hl). left. split_and!; [done..|]. exists l. split; [done|]. by destruct (split_line l).
  - intros (-> & ->). by right.
Qed.

Lemma olines_step o :
  olines o = [] ∧ o = None ∨ olines o = fst (row_line o) :: olines (snd (row_line o)) ∧ is_Some o.
Proof. destruct o as [l|]; [right|by left]. split; [apply lines_split|done]. Qed.

Lemma row_line_default o : default [] (head (olines o)) = fst (row_line o) ∧ tail (olines o) = olines (snd (row_line o)).
Proof. destruct (olines_step o) as [[-> ->]|[-> _]]; done. Qed.

Lemma row_line_size o :
  (length (fst (row_line o)) ≤ osize o)%nat ∧ (osize (snd (row_line o)) ≤ osize o)%nat ∧
  (is_Some o → osize (snd (row_line o)) < osize o)%nat.
Proof.
  destruct o as [l|]; simpl.
  - pose proof (split_line_length l). destruct (split_line l) as [ln [r|]]; simpl in *; split_and!; try lia; intros; lia.
  - split_and!; [done..|]. by intros [].
Qed.

Lemma end_row_ok f fd c eof more L :
  0 ≤ fd < 8 → in_line fd c eof f [] more → c = 10 → mapped f → shows f L →
  ∃ c' f', end_row fd eof f = Some (c', f') ∧ at_row fd c' eof f' more ∧ mapped f' ∧ shows f' L ∧
    ∀ fd', fd' ≠ fd → rst f' !! fd' = rst f !! fd'.
Proof.
  intros Hr [[? _]|(_ & _ & Hm)] Hc Hmp Hs; [done|]. destruct more as [r|]; unfold end_row.
  - destruct Hm as [-> Hm]. exists 48, f. done.
  - subst eof. destruct (fr_close (K := K) (vid f) fd (u32 junk) (u32 junk) Hr) as (v & u' & E & Er & Hsm).
    exists 10, (sv u' f). split_and!; [| | | |].
    + erewrite bind_run; [reflexivity|]. unfold ece391_close, DO_CALL. erewrite bind_run; [reflexivity|].
      rewrite (u32_small fd) by lia. by rewrite (F_int80 _ _ _ _ f _ _ E).
    + done.
    + eapply (mapped_same 0 0 f); [exact Hsm|unfold user_range in Hvmem; lia|done].
    + by apply shows_vid.
    + intros fd' Hne. unfold rst. simpl. rewrite Er. by rewrite lookup_delete_ne.
Qed.

Lemma at_row_frame fd c eof f f' o : rst f' !! fd = rst f !! fd → at_row fd c eof f o → at_row fd c eof f' o.
Proof. unfold at_row. by intros ->. Qed.

(** One row. *)
Lemma frame_row_ok row f c0 eof0 c1 eof1 o0 o1 L :
  at_row fd0 c0 eof0 f o0 → at_row fd1 c1 eof1 f o1 → mapped f → shows f L →
  Z.of_nat (osize o0 + osize o1) < 2147483647 →
  Forall arg_ok (row_cells row 0 (zipo (fst (row_line o0)) (fst (row_line o1)))) →
  ∃ e0 e1 c0' c1' f1 f2 f3,
    add_row fd0 fd1 a0 a1 row ((c0, eof0), (c1, eof1), 0) f = Some (((10, e0), (10, e1)), f1) ∧
    end_row fd0 e0 f1 = Some (c0', f2) ∧ end_row fd1 e1 f2 = Some (c1', f3) ∧
    at_row fd0 c0' e0 f3 (snd (row_line o0)) ∧ at_row fd1 c1' e1 f3 (snd (row_line o1)) ∧ mapped f3 ∧ others f f3 ∧
    shows f3 (foldl push L (row_cells row 0 (zipo (fst (row_line o0)) (fst (row_line o1))))).
Proof.
  intros H0 H1 Hm Hs Hlen Hk. pose proof (row_line_size o0) as (? & _). pose proof (row_line_size o1) as (? & _).
  destruct (add_row_ok row f c0 eof0 c1 eof1 _ _ _ _ L (at_row_line _ _ _ _ _ H0) (at_row_line _ _ _ _ _ H1) Hm Hs
    ltac:(lia) Hk) as (c0' & e0 & c1' & e1 & f1 & E & I0 & I1 & -> & -> & M1 & O1 & S1).
  destruct (end_row_ok f1 fd0 10 e0 _ _ Hfd0 I0 eq_refl M1 S1) as (d0 & f2 & E2 & A0 & M2 & S2 & O2).
  assert (in_line fd1 10 e1 f2 [] (snd (row_line o1))) as I1' by (eapply in_line_frame; [|exact I1]; by apply O2).
  destruct (end_row_ok f2 fd1 10 e1 _ _ Hfd1 I1' eq_refl M2 S2) as (d1 & f3 & E3 & A1 & M3 & S3 & O3).
  exists e0, e1, d0, d1, f1, f2, f3. split_and!; [done|done|done| |done|done| |done].
  - eapply at_row_frame; [|exact A0]. by apply O3.
  - intros fd Hn0 Hn1. by rewrite O3, O2, O1.
Qed.

Lemma frames_loop_ok f d0 d1 L :
  rst f !! fd0 = Some (File d0) → rst f !! fd1 = Some (File d1) → mapped f → shows f L →
  Z.of_nat (length d0 + length d1) < 2147483640 → Forall arg_ok (frame_cells d0 d1) →
  ∃ f', frames_loop fd0 fd1 a0 a1 ((48, false), (48, false), 0) f = Some ((), f') ∧ mapped f' ∧
    others f f' ∧ shows f' (foldl push L (frame_cells d0 d1)).
Proof.
  intros Hd0 Hd1 Hm Hs Hlen Hk. unfold frames_loop, frame_cells in *.
  match goal with |- context [ploop ?b _] => set (body := b) end.
  destruct (ploop_ranked (US := F) body
    (λ n '(c0, eof0, (c1, eof1), row) g, ∃ o0 o1 L1, n = Z.of_nat (osize o0 + osize o1) ∧
       at_row fd0 c0 eof0 g o0 ∧ at_row fd1 c1 eof1 g o1 ∧ mapped g ∧ others f g ∧ shows g L1 ∧
       0 ≤ row ∧ row + n ≤ Z.of_nat (length d0 + length d1) + 2 ∧
       Forall arg_ok (rows_cells row (zipo (olines o0) (olines o1))) ∧
       foldl push L1 (rows_cells row (zipo (olines o0) (olines o1))) =
         foldl push L (rows_cells 0 (zipo (lines d0) (lines d1))))
    (λ _ f', mapped f' ∧ others f f' ∧ shows f' (foldl push L (rows_cells 0 (zipo (lines d0) (lines d1)))))
    (Z.of_nat (length d0 + length d1) + 2) ((48, false), (48, false), 0) f) as ([] & f' & E & HQ).
  - intros n [[[c0 e0] [c1 e1]] row] g (o0 & o1 & L1 & -> & G0 & G1 & Gm & Go & Gs & Hr & Hrn & Gk & Ge). split; [lia|].
    destruct (decide (o0 = None ∧ o1 = None)) as [[-> ->]|Hne].
    { destruct G0 as [-> ->], G1 as [-> ->]. eexists (inr _), g. split; [done|]. simpl in Ge. by rewrite <- Ge. }
    assert (is_Some o0 ∨ is_Some o1) as Hne' by (destruct o0, o1; [left|left|right|exfalso; by apply Hne]; done).
    rewrite zipo_step in Gk, Ge
      by (destruct Hne' as [[l ->]|[l ->]]; [left|right]; simpl; by rewrite lines_split).
    destruct (row_line_default o0) as [X0 Y0]. destruct (row_line_default o1) as [X1 Y1].
    cbn [rows_cells fst snd] in Gk, Ge. rewrite X0, X1, Y0, Y1 in Gk, Ge. rewrite foldl_app in Ge.
    apply Forall_app in Gk as [Gk1 Gk2].
    destruct (frame_row_ok row g c0 e0 c1 e1 o0 o1 L1 G0 G1 Gm Gs ltac:(lia) Gk1)
      as (e0' & e1' & c0' & c1' & g1 & g2 & g3 & E1 & E2 & E3 & A0 & A1 & M3 & O3 & S3).
    assert (negb e0 || negb e1 = true) as Ht.
    { destruct Hne' as [[l ->]|[l ->]]; [destruct G0 as (_ & -> & _)|destruct G1 as (_ & -> & _)]; [done|].
      by rewrite orb_true_r. }
    unfold body. rewrite Ht. erewrite bind_run by exact E1. cbv beta iota. erewrite bind_run by exact E2.
    erewrite bind_run by exact E3. eexists (inl _), g3. split; [done|].
    destruct (row_line_size o0) as (_ & W0 & V0), (row_line_size o1) as (_ & W1 & V1).
    assert (Z.of_nat (osize (snd (row_line o0)) + osize (snd (row_line o1))) < Z.of_nat (osize o0 + osize o1)) as Hdec
      by (destruct Hne' as [Ho|Ho]; [specialize (V0 Ho)|specialize (V1 Ho)]; lia).
    pose proof (others_trans _ _ _ Go O3) as Go'. rewrite s32_small by lia. eexists. split; [exact Hdec|].
    exists (snd (row_line o0)), (snd (row_line o1)), (foldl push L1 (row_cells row 0 (zipo (fst (row_line o0)) (fst (row_line o1))))).
    split_and!; (done || lia).
  - exists (Some d0), (Some d1), L. split_and!; try done; simpl; lia.
  - lia.
  - by exists f'.
Qed.
End rows.

Lemma open_frame_ok f s name data :
  ucstr (US := K) (vid f) s name → content (K := K) (vid f) name = Some data → (size (rst f) < 6)%nat →
  ∃ fd f', open_frame s f = Some (fd, f') ∧ 0 ≤ fd < 8 ∧ rst f !! fd = None ∧
    rst f' = <[fd := File data]> (rst f) ∧ content (K := K) (vid f') = content (K := K) (vid f) ∧ moved 0 0 f f'.
Proof.
  intros Hs Hc Hroom. destruct (fr_open (K := K) (vid f) s name data (u32 junk) (u32 junk) Hs Hc Hroom)
    as (fd & u' & E & Hfd & Hn & Hr & Hct & Hsm).
  exists fd, (sv u' f). split_and!; [|lia|lia|done|done|done|split; [by eexists|done]].
  unfold open_frame. destruct Hs as [_ Hrg]. unfold user_range in Hrg.
  assert (ece391_open (US := F) junk s f = Some (fd, sv u' f)) as Eo.
  { unfold ece391_open, DO_CALL. rewrite (u32_small s) by lia.
    erewrite bind_run by (exact (F_int80 _ _ _ _ f _ _ E)). rewrite s32_small by lia. done. }
  erewrite bind_run by exact Eo. by destruct (Z.ltb_spec fd 0); [lia|].
Qed.

Lemma add_frames_ok f s0 s1 n0 n1 d0 d1 L a0 a1 :
  ucstr (US := K) (vid f) s0 n0 → content (K := K) (vid f) n0 = Some d0 →
  ucstr (US := K) (vid f) s1 n1 → content (K := K) (vid f) n1 = Some d1 →
  local_at a0 → local_at a1 → mapped f → (size (rst f) < 5)%nat → shows f L →
  Z.of_nat (length d0 + length d1) < 2147483640 → Forall arg_ok (frame_cells d0 d1) →
  ∃ f', add_frames s0 s1 a0 a1 f = Some ((), f') ∧ mapped f' ∧
    (∀ fd x, rst f !! fd = Some x → rst f' !! fd = Some x) ∧ shows f' (foldl push L (frame_cells d0 d1)).
Proof.
  intros Hs0 Hc0 Hs1 Hc1 Ha0 Ha1 Hm Hroom Hs Hlen Hk. unfold add_frames.
  destruct (open_frame_ok f s0 n0 d0 Hs0 Hc0 ltac:(lia)) as (fd0 & f1 & E1 & Hf0 & N1 & R1 & C1 & M1).
  assert (ucstr (US := K) (vid f1) s1 n1) as Hs1'.
  { destruct M1 as [_ Hsm]. eapply ucstr_same; [exact Hsm| |done]. destruct Hs1 as [_ Hr]. unfold user_range in Hr. lia. }
  destruct (open_frame_ok f1 s1 n1 d1 Hs1' ltac:(by rewrite C1)
    ltac:(rewrite R1, map_size_insert_None by done; lia)) as (fd1 & f2 & E2 & Hf1 & N2 & R2 & C2 & M2).
  assert (fd0 ≠ fd1) as Hne by (intros <-; by rewrite R1, lookup_insert_eq in N2).
  assert (mapped f2) as Hm2.
  { unfold user_range in Hvmem. eapply (mapped_same 0 0 f1); [apply M2|lia|].
    eapply (mapped_same 0 0 f); [apply M1|lia|done]. }
  erewrite bind_run by exact E1. erewrite bind_run by exact E2.
  destruct (frames_loop_ok a0 a1 fd0 fd1 Ha0 Ha1 Hf0 Hf1 Hne f2 d0 d1 L) as (f' & E & Hm' & Ho & Hs'); [..|done|done|].
  - by rewrite R2, lookup_insert_ne, R1, lookup_insert_eq by done.
  - by rewrite R2, lookup_insert_eq.
  - done.
  - eapply moved_shows; [exact M2|]. by eapply moved_shows.
  - exists f'. split_and!; [done|done| |done]. intros fd x Hx.
    assert (fd ≠ fd0) by (intros ->; congruence).
    assert (fd ≠ fd1) by (intros ->; rewrite R1, lookup_insert_ne in N2 by done; congruence).
    by rewrite Ho, R2, lookup_insert_ne, R1, lookup_insert_ne by done.
Qed.

(** ** The whole program *)

Lemma F_call number a b c f v u' :
  0 ≤ a < 4294967296 → int80 (Usys := K) number a (u32 b) (u32 c) (vid f) = Some (v, u') →
  DO_CALL (US := F) number a b c f = Some (s32 v, sv u' f).
Proof.
  intros Ha E. unfold DO_CALL. rewrite (u32_small a) by done.
  by erewrite bind_run by (exact (F_int80 _ _ _ _ f _ _ E)).
Qed.

(** [n] bytes at [a] that are not the address of the screen. *)
Definition locals_at (a n : Z) : Prop := user_range a n ∧ (a + n ≤ vmem_base_addr ∨ vmem_base_addr + 4 ≤ a).

(** A step that leaves the list, the screen's address and the descriptors alone. *)
Definition quiet f f' : Prop :=
  rst f' = rst f ∧ (mapped f → mapped f') ∧ ∀ L, shows f L → shows f' L.

Lemma quiet_trans f f1 f2 : quiet f f1 → quiet f1 f2 → quiet f f2.
Proof. intros (A1 & A2 & A3) (B1 & B2 & B3). split_and!; [congruence|auto|auto]. Qed.

Lemma quiet_vid a n f u' :
  rest (K := K) u' = rst f → same_but (US := K) a n (vid f) u' →
  (a + n ≤ vmem_base_addr ∨ vmem_base_addr + 4 ≤ a) → quiet f (sv u' f).
Proof.
  intros Hr Hs Ha. split_and!; [done| |intros L; apply shows_vid]. by apply (mapped_same a n f (sv u' f)).
Qed.

Lemma store_quiet a v f : local_at a → quiet f (ust8 (US := F) a v f).
Proof.
  intros [Ha Hn]. destruct (fr_store (K := K) (vid f) a v Ha) as [Hr Hs].
  apply (quiet_vid a 1 f); [exact Hr|exact Hs|lia].
Qed.

Lemma pokew_ok a v f : locals_at a 4 → ∃ f', pokew (US := F) a v f = Some ((), f') ∧ quiet f f'.
Proof.
  intros [Ha Hn]. unfold pokew, user_range in *. rewrite !poke_run. eexists. split; [reflexivity|].
  do 3 (eapply quiet_trans; [|apply store_quiet; unfold local_at, user; lia]).
  apply store_quiet. unfold local_at, user. lia.
Qed.

Lemma clock_read_ok fd a f :
  rst f !! fd = Some Clock → 0 ≤ fd < 8 → locals_at a 4 →
  ∃ r f', ece391_read (US := F) fd a 4 f = Some (r, f') ∧ quiet f f'.
Proof.
  intros Hfd Hr [Ha Hn]. destruct (fr_tick (K := K) (vid f) fd a Ha Hfd) as (r & u' & E & Er & Hs).
  exists (s32 r), (sv u' f). unfold user_range in Ha. split; [|by apply (quiet_vid a 4)].
  unfold ece391_read. apply F_call; [lia|]. rewrite (u32_small a), (u32_small 4) by lia. exact E.
Qed.

Lemma clock_write_ok fd a f :
  rst f !! fd = Some Clock → 0 ≤ fd < 8 → locals_at a 4 →
  ∃ r f', ece391_write (US := F) fd a 4 f = Some (r, f') ∧ quiet f f'.
Proof.
  intros Hfd Hr [Ha Hn]. destruct (fr_rate (K := K) (vid f) fd a Ha Hfd) as (r & u' & E & Er & Hs).
  exists (s32 r), (sv u' f). unfold user_range in Ha, Hvmem. split; [|apply (quiet_vid 0 0); [done|done|lia]].
  unfold ece391_write. apply F_call; [lia|]. rewrite (u32_small a), (u32_small 4) by lia. exact E.
Qed.

Definition ticks (n : nat) (L : list mp1_blink_struct) : list mp1_blink_struct := Nat.iter n tick_list L.

Lemma wait_ok fd a f L :
  rst f !! fd = Some Clock → 0 ≤ fd < 8 → locals_at a 4 → mapped f → shows f L →
  ∃ f', wait_ticks fd a f = Some ((), f') ∧ shows f' (ticks 100 L) ∧ mapped f' ∧ rst f' = rst f.
Proof.
  intros Hfd Hr Ha Hm Hs. unfold wait_ticks.
  match goal with |- context [ploop ?b _] => set (body := b) end.
  destruct (ploop_ranked (US := F) body
    (λ n i g, ∃ k, i = Z.of_nat k ∧ (k ≤ 100)%nat ∧ n = 100 - i ∧ shows g (ticks k L) ∧ mapped g ∧ rst g = rst f)
    (λ _ g, shows g (ticks 100 L) ∧ mapped g ∧ rst g = rst f) 100 0 f) as ([] & f' & E & H).
  - intros n i g (k & -> & Hk & -> & Gs & Gm & Gr). split; [lia|]. unfold body, WAIT.
    destruct (Z.ltb_spec (Z.of_nat k) 100).
    + destruct (clock_read_ok fd a g) as (r & g1 & E1 & Q1 & Q2 & Q3); [by rewrite Gr|done|done|].
      destruct (tasklet_step_ok g1 _ (Q3 _ Gs) (Q2 Gm)) as (g2 & E2 & S2 & M2 & R2).
      erewrite bind_run by exact E1. erewrite bind_run by exact E2. eexists (inl _), g2. split; [done|].
      exists (100 - Z.of_nat (S k)). split; [lia|]. exists (S k). split_and!; [lia..|done|done|congruence].
    + eexists (inr ()), g. split; [done|]. by replace k with 100%nat in Gs by lia.
  - exists 0%nat. split_and!; (done || lia).
  - lia.
  - by exists f'.
Qed.

Lemma cleared_shows f u : mp1_list_head f = None → shows (sv u (set_array (VD := V) (replicate (Z.to_nat (80 * 25)) blink_zero) f)) [].
Proof. intros Hh. destruct f as [arr h v]. simpl in Hh. subst h. exact (init_shows (VD := V) u). Qed.

(** What [main] does to the list after the frames have been added. *)
Definition show_list (L : list mp1_blink_struct) : list mp1_blink_struct :=
  let L := push (ticks 100 L) im_char in
  let L := spec_list (Word (Z.lor (Z.shiftl 40 16) (6 * 80 + 60))) RTC_SYNC (ticks 100 L) in
  let L := spec_list (Word (6 * 80 + 60)) RTC_REMOVE (ticks 100 L) in
  ticks 100 L.

Definition fish_lits : list (list Z) :=
  [lit "rtc"%string; lit "frame0.txt"%string; lit "frame1.txt"%string].

Lemma close_clock_ok fd f L :
  0 ≤ fd < 8 → shows f L → ∃ r f', ece391_close (US := F) junk fd f = Some (r, f') ∧ shows f' L.
Proof.
  intros Hr Hs. destruct (fr_close (K := K) (vid f) fd (u32 junk) (u32 junk) Hr) as (r & u' & E & _).
  exists (s32 r), (sv u' f). split; [|by apply shows_vid]. unfold ece391_close. apply F_call; [lia|exact E].
Qed.

Lemma open_clock_ok f s :
  ucstr (US := K) (vid f) s (lit "rtc"%string) → rst f = ∅ →
  ∃ fd u', ece391_open (US := F) junk s f = Some (fd, sv u' f) ∧ 0 ≤ fd < 8 ∧ rest (K := K) u' = {[fd := Clock]} ∧
    content (K := K) u' = content (K := K) (vid f) ∧ same_but (US := K) 0 0 (vid f) u'.
Proof.
  intros Hs He. assert (rest (K := K) (vid f) = ∅) as He' by exact He.
  destruct (fr_clock (K := K) (vid f) s (u32 junk) (u32 junk) Hs ltac:(rewrite He', map_size_empty; lia)) as (fd & u' & E & Hfd & _ & Hr & Hc & Hsm).
  exists fd, u'. split_and!; [|lia|lia| |done|done].
  - destruct Hs as [_ Hrg]. unfold user_range in Hrg. unfold ece391_open.
    rewrite <- (s32_small fd) by lia. apply F_call; [lia|]. exact E.
  - by rewrite Hr, He'.
Qed.

Lemma video_mode_ok f :
  ∃ u', mp1_set_video_mode f = Some (uld32 (US := K) u' vmem_base_addr, sv u' f) ∧
    uld32 (US := K) u' vmem_base_addr ≠ 0 ∧ mapped (sv u' f) ∧ rest (K := K) u' = rst f ∧
    content (K := K) u' = content (K := K) (vid f) ∧ same_but (US := K) vmem_base_addr 4 (vid f) u'.
Proof.
  destruct (fr_vidmap (K := K) (vid f) vmem_base_addr (u32 junk) (u32 junk) Hvmem)
    as (u' & E & Hr & Hc & Hne & Hv & Hs).
  exists u'. unfold mp1_set_video_mode, ece391_vidmap, user_range in *. split_and!; [|done|done|done|done|done].
  erewrite bind_run by (eapply F_call; [lia|exact E]). done.
Qed.

(** A program that keeps the descriptors and the screen, between two lists. *)
Definition does {A} (p : prog A) (L L' : list mp1_blink_struct) (fd : Z) : Prop :=
  ∀ f, shows f L → mapped f → rst f !! fd = Some Clock →
    ∃ r f', p f = Some (r, f') ∧ shows f' L' ∧ mapped f' ∧ rst f' !! fd = Some Clock.

Lemma does_run {A B} (p : prog A) (q : A → prog B) L L' fd f (Q : B → fish → Prop) :
  does p L L' fd → shows f L → mapped f → rst f !! fd = Some Clock →
  (∀ a f1, shows f1 L' → mapped f1 → rst f1 !! fd = Some Clock → ∃ r f', q a f1 = Some (r, f') ∧ Q r f') →
  ∃ r f', (p ≫= q) f = Some (r, f') ∧ Q r f'.
Proof.
  intros Hp Hs Hm Hr Hq. destruct (Hp f Hs Hm Hr) as (a & f1 & E & S1 & M1 & R1).
  destruct (Hq a f1 S1 M1 R1) as (b & f2 & E2 & H2). exists b, f2. split; [|done]. by erewrite bind_run by exact E.
Qed.

Lemma does_quiet {A} (p : prog A) L fd :
  (∀ f, rst f !! fd = Some Clock → ∃ r f', p f = Some (r, f') ∧ quiet f f') → does p L L fd.
Proof.
  intros H f Hs Hm Hr. destruct (H f Hr) as (r & f' & E & Q1 & Q2 & Q3). exists r, f'. rewrite Q1. auto.
Qed.

Lemma does_wait fd a L : 0 ≤ fd < 8 → locals_at a 4 → does (wait_ticks fd a) L (ticks 100 L) fd.
Proof.
  intros Hfd Ha f Hs Hm Hr. destruct (wait_ok fd a f L Hr Hfd Ha Hm Hs) as (f' & E & S' & M' & R').
  exists (), f'. by rewrite R'.
Qed.

Lemma does_ioctl arg cmd L fd : call_ok arg cmd → does (ioctl arg cmd) L (spec_list arg cmd L) fd.
Proof.
  intros Hc f Hs Hm Hr. destruct (ioctl_call_ok f L arg cmd Hs Hm Hc) as (r & f' & E & S' & M' & R').
  exists r, f'. by rewrite R'.
Qed.

Lemma fish_show_ok fd ret_val garbage f L :
  0 ≤ fd < 8 → locals_at ret_val 4 → locals_at garbage 4 → shows f L → mapped f → rst f !! fd = Some Clock →
  ∃ r f', fish_show fd ret_val garbage f = Some (r, f') ∧ r = 0 ∧ shows f' (show_list L).
Proof.
  intros Hfd Hrv Hgb Hs Hm Hr.
  assert (∀ v L, does (pokew (US := F) ret_val v) L L fd) as Hp.
  { intros v L'. apply does_quiet. intros g _. destruct (pokew_ok ret_val v g Hrv) as (g' & E & Q). by eauto. }
  assert (∀ L, does (ece391_write (US := F) fd ret_val 4) L L fd) as Hwr.
  { intros L'. apply does_quiet. intros g Hg. by apply clock_write_ok. }
  assert (∀ L, does (wait_ticks fd garbage) L (ticks 100 L) fd) as Hw by (intros; by apply does_wait).
  unfold fish_show. eapply does_run; [apply Hp|done..|]. intros _ f1 S1 M1 R1.
  eapply does_run; [apply Hwr|done..|]. intros r f2 S2 M2 R2.
  eapply does_run; [apply Hp|done..|]. intros _ f3 S3 M3 R3.
  eapply does_run; [apply Hw|done..|]. intros _ f4 S4 M4 R4.
  eapply does_run; [by apply (does_ioctl (Ptr im_char) RTC_ADD); left|done..|]. intros _ f5 S5 M5 R5.
  rewrite push_spec in S5.
  eapply does_run; [apply Hw|done..|]. intros _ f6 S6 M6 R6.
  eapply does_run; [by apply does_ioctl; right|done..|]. intros _ f7 S7 M7 R7.
  eapply does_run; [apply Hw|done..|]. intros _ f8 S8 M8 R8.
  eapply does_run; [by apply does_ioctl; left|done..|]. intros _ f9 S9 M9 R9.
  eapply does_run; [apply Hw|done..|]. intros _ f10 S10 M10 R10.
  destruct (close_clock_ok fd f10 _ Hfd S10) as (v & f' & E & S'). exists 0, f'.
  split; [by erewrite bind_run by exact E|done].
Qed.

(** C17: the fish program runs to its end: with its two frames among the files, it maps the
    screen, reads both frames line by line until each has ended, and goes through four times
    100 ticks of the clock with its three commands between them; it returns 0, and the list
    then holds the characters of the frames after these commands and ticks. *)
Theorem fish_runs f d0 d1 ret_val garbage a0 a1 :
  mp1_list_head f = None → rst f = ∅ → lits (US := K) fish_lits (vid f) → away fish_lits vmem_base_addr 4 →
  content (K := K) (vid f) (lit "frame0.txt"%string) = Some d0 →
  content (K := K) (vid f) (lit "frame1.txt"%string) = Some d1 →
  locals_at ret_val 4 → locals_at garbage 4 → local_at a0 → local_at a1 →
  Z.of_nat (length d0 + length d1) < 2147483640 → Forall arg_ok (frame_cells d0 d1) →
  ∃ f', fish_main ret_val garbage a0 a1 f = Some (0, f') ∧ shows f' (show_list (foldl push [] (frame_cells d0 d1))).
Proof.
  intros Hh He Hl Haw Hc0 Hc1 Hrv Hgb Ha0 Ha1 Hlen Hk. unfold fish_main.
  erewrite bind_run by reflexivity. set (g0 := set_array _ f).
  destruct (video_mode_ok g0) as (u1 & E1 & Hv & M1 & Er1 & C1 & S1). erewrite bind_run by exact E1.
  rewrite (proj2 (Z.eqb_neq _ 0) Hv). set (g1 := sv u1 g0) in *.
  assert (lits (US := K) fish_lits u1) as Hl1 by (by eapply lits_same).
  destruct (open_clock_ok g1 (str (lit "rtc"%string)) (Hl1 _ (list_elem_of_here _ _)) (eq_trans Er1 He))
    as (rtc_fd & u2 & E2 & Hfd & R2 & C2 & S2). erewrite bind_run by exact E2.
  set (g2 := sv u2 g1) in *. assert (lits (US := K) fish_lits u2) as Hl2 by (by eapply lits_kept).
  assert (mapped g2) as M2 by (unfold user_range in Hvmem; eapply (mapped_same 0 0 g1); [exact S2|lia|done]).
  destruct (add_frames_ok g2 (str (lit "frame0.txt"%string)) (str (lit "frame1.txt"%string))
    (lit "frame0.txt"%string) (lit "frame1.txt"%string) d0 d1 [] a0 a1) as (g3 & E3 & M3 & K3 & S3);
    [apply Hl2; right; left|by simpl; rewrite C2; simpl; rewrite C1
    |apply Hl2; right; right; left|by simpl; rewrite C2; simpl; rewrite C1
    |done|done|done|unfold rst; simpl; rewrite R2, map_size_singleton; lia|by apply cleared_shows|done|done|].
  erewrite bind_run by exact E3.
  destruct (fish_show_ok rtc_fd ret_val garbage g3 _ Hfd Hrv Hgb S3 M3 (K3 _ _ ltac:(unfold rst; simpl; by rewrite R2, lookup_singleton_eq))) as (r & f' & E & -> & S'). by exists f'.
Qed.
End fish_prog.

(** ** A machine that keeps the promises *)

(** Memory without paging, and descriptors; two frames and the clock. *)
Record pond := Pond { pond_mem : mem; pond_fds : gmap Z ofile }.

Definition pond_content (name : list Z) : option (list Z) :=
  if bool_decide (name = lit "frame0.txt"%string) then Some [79; 10; 32; 79]
  else if bool_decide (name = lit "frame1.txt"%string) then Some [32; 42]
  else None.

Definition pond_open (name : list Z) : option ofile :=
  if bool_decide (name = lit "rtc"%string) then Some Clock else File <$> pond_content name.

Fixpoint read_name (fuel : nat) (m : mem) (s : Z) : list Z :=
  match fuel with
  | O => []
  | S fuel => let c := ld8 (X := flat) m s in if c =? 0 then [] else c :: read_name fuel m (s + 1)
  end.

Definition pond_screen : Z := 268435456.

Definition pond_int80 (eax ebx ecx edx : Z) (u : pond) : option (Z * pond) :=
  let m := pond_mem u in
  let fds := pond_fds u in
  if eax =? SYS_VIDMAP then Some (0, Pond (st32 (X := flat) m ebx pond_screen) fds)
  else if eax =? SYS_OPEN then
    match pond_open (read_name 16 m ebx), find_up (λ i, bool_decide (fds !! i = None)) 2 8 with
    | Some o, Some fd => Some (fd, Pond m (<[fd := o]> fds))
    | _, _ => Some (-1, u)
    end
  else if eax =? SYS_READ then
    match fds !! ebx with
    | Some (File (x :: l)) => Some (1, Pond (st8 (X := flat) m ecx x) (<[ebx := File l]> fds))
    | Some _ => Some (0, u)
    | None => Some (-1, u)
    end
  else if eax =? SYS_WRITE then Some (4, u)
  else if eax =? SYS_CLOSE then Some (0, Pond m (delete ebx fds))
  else None.

Definition pond_usys : Usys := {|
  ust := pond; umem := pond_mem; uxl _ := flat; uset m u := Pond m (pond_fds u); int80 := pond_int80
|}.

Lemma read_name_cstring n m s l :
  cstring (X := flat) m s l → (length l < n)%nat → read_name n m s = l.
Proof.
  revert s l. induction n as [|n IH]; intros s l [H H0] Hn; [lia|]. simpl. destruct l as [|x l].
  - rewrite Z.add_0_r in H0. by rewrite H0.
  - destruct (H 0%nat x eq_refl) as [E Hx]. rewrite Z.add_0_r in E. rewrite E, (proj2 (Z.eqb_neq x 0) Hx). f_equal.
    apply IH; [|simpl in Hn; lia]. split.
    + intros i y Hy. rewrite <- Z.add_assoc. replace (1 + Z.of_nat i) with (Z.of_nat (S i)) by lia. by apply H.
    + rewrite <- Z.add_assoc. by replace (1 + Z.of_nat (length l)) with (Z.of_nat (length (x :: l))) by (simpl; lia).
Qed.

Lemma fresh_fd (fds : gmap Z ofile) :
  (size fds < 6)%nat → ∃ fd, find_up (λ i, bool_decide (fds !! i = None)) 2 8 = Some fd ∧ 0 ≤ fd < 8 ∧ fds !! fd = None.
Proof.
  intros Hs. destruct (find_up _ 2 8) as [fd|] eqn:E.
  - apply find_up_Some in E as (Hr & Ht & _). exists fd. split_and!; [done|lia|lia|]. by apply bool_decide_eq_true in Ht.
  - exfalso. rewrite find_up_None in E. assert (list_to_set [2; 3; 4; 5; 6; 7] ⊆ dom fds) as Hd.
    { intros i Hi. apply elem_of_dom, not_eq_None_Some. apply elem_of_list_to_set in Hi.
      specialize (E i ltac:(set_unfold; lia)). by apply bool_decide_eq_false in E. }
    apply subseteq_size in Hd. rewrite size_dom in Hd. vm_compute (size (list_to_set _)) in Hd. lia.
Qed.

Lemma pond_same (m m' : mem) fds fds' a n :
  unch (in_range (X := flat) a n) m m' → 0 ≤ a → a + n ≤ 4294967296 →
  same_but (US := pond_usys) a n (Pond m fds) (Pond m' fds').
Proof.
  intros U Ha Hn b Hb Hout. apply (unch_ld8 (X := flat) _ _ _ _ U). intros (i & Hi & E).
  unfold cell, flat, xlat, user in *. rewrite !u32_small in E by lia. lia.
Qed.

Lemma pond_store (m : mem) fds fds' a v :
  0 ≤ a < 4294967296 → same_but (US := pond_usys) a 1 (Pond m fds) (Pond (st8 (X := flat) m a v) fds').
Proof.
  intros Ha. apply pond_same; [|lia..]. apply unch_st8. exists 0. split; [lia|]. by rewrite Z.add_0_r.
Qed.

Lemma pond_open_ok (u : pond) s name o :
  ucstr (US := pond_usys) u s name → (length name < 16)%nat → pond_open name = Some o → (size (pond_fds u) < 6)%nat →
  ∃ fd, pond_int80 SYS_OPEN s 0 0 u = Some (fd, Pond (pond_mem u) (<[fd := o]> (pond_fds u))) ∧ 0 ≤ fd < 8 ∧
    pond_fds u !! fd = None.
Proof.
  intros [Hs _] Hn Ho Hsz. destruct (fresh_fd _ Hsz) as (fd & E & Hr & Hnone). exists fd. split; [|done].
  unfold pond_int80. simpl (SYS_OPEN =? _). cbv iota zeta.
  rewrite (read_name_cstring 16 (pond_mem u) s name Hs Hn), Ho. by rewrite E.
Qed.

(** A file holds bytes. *)
Definition as_bytes (o : ofile) : ofile := match o with File l => File (u8 <$> l) | Clock => Clock end.

#[export] Instance pond_io : FrameIO pond_usys.
Proof.
  refine {|
    rest := (λ u, as_bytes <$> pond_fds u) : ust (Usys := pond_usys) → _;
    content := λ _, pond_content;
    video a := pond_screen ≤ a < pond_screen + 4000
  |}.
  - intros u p ecx edx Hp. exists (Pond (st32 (X := flat) (pond_mem u) p pond_screen) (pond_fds u)).
    unfold user_range in Hp. assert (uld32 (US := pond_usys) (Pond (st32 (X := flat) (pond_mem u) p pond_screen) (pond_fds u)) p = pond_screen) as E.
    { change (ld32 (X := flat) (st32 (X := flat) (pond_mem u) p pond_screen) p = pond_screen).
      rewrite (ld32_st32_eq (X := flat)); [done|]. intros i j Hi Hj. unfold cell, flat, xlat.
      rewrite !u32_small by lia. lia. }
    rewrite E. split_and!; [done..|intros i Hi; lia|]. destruct u. apply pond_same; [apply unch_st32|lia..].
  - intros u s name data ecx edx Hs Hc Hsz. rewrite map_size_fmap in Hsz. unfold pond_content in Hc.
    destruct (pond_open_ok u s name (File data) Hs) as (fd & E & Hr & Hn); [| |done|].
    + repeat case_bool_decide; subst; [simpl; lia..|done].
    + unfold pond_open, pond_content. repeat case_bool_decide; subst; by simplify_eq.
    + exists fd, (Pond (pond_mem u) (<[fd := File data]> (pond_fds u))).
      split_and!; [exact E|lia|lia|by rewrite lookup_fmap, Hn| |done|done].
      simpl. rewrite fmap_insert. do 2 f_equal. repeat case_bool_decide; by simplify_eq.
  - intros u s ecx edx Hs Hsz. rewrite map_size_fmap in Hsz.
    destruct (pond_open_ok u s (lit "rtc"%string) Clock Hs) as (fd & E & Hr & Hn); [simpl; lia|done|done|].
    exists fd, (Pond (pond_mem u) (<[fd := Clock]> (pond_fds u))).
    split_and!; [exact E|lia|lia|by rewrite lookup_fmap, Hn|by simpl; rewrite fmap_insert|done|done].
  - intros u fd x l a Ha Hl. rewrite lookup_fmap in Hl. destruct (pond_fds u !! fd) as [[[|y k]|]|] eqn:Hy; try done.
    simpl in Hl. injection Hl as <- <-. exists (Pond (st8 (X := flat) (pond_mem u) a y) (<[fd := File k]> (pond_fds u))).
    unfold user in Ha. split_and!; [by simpl; unfold pond_int80; simpl; rewrite Hy|by apply ld8_st8_eq|by simpl; rewrite fmap_insert|].
    destruct u. apply pond_store. lia.
  - intros u fd a Ha Hl. rewrite lookup_fmap in Hl. destruct (pond_fds u !! fd) as [[[|y k]|]|] eqn:Hy; try done.
    exists u. split_and!; [|done|done]. simpl. unfold pond_int80. simpl. by rewrite Hy.
  - intros u fd a Ha Hl. rewrite lookup_fmap in Hl. destruct (pond_fds u !! fd) as [[[|y k]|]|] eqn:Hy; try done.
    exists 0, u. split_and!; [|done|done]. simpl. unfold pond_int80. simpl. by rewrite Hy.
  - intros u fd a Ha Hl. by exists 4, u.
  - intros u fd ecx edx Hfd. exists 0, (Pond (pond_mem u) (delete fd (pond_fds u))).
    split_and!; [done| |done]. simpl. by rewrite fmap_delete.
  - intros u a v Ha. split; [done|]. destruct u. apply pond_store. unfold user in Ha. lia.
  - intros u a v Ha. split; [done|]. intros b Hb _. apply (ld8_st8_ne (X := flat)).
    unfold cell, flat, xlat, user, pond_screen in *. rewrite !u32_small by lia. lia.
Defined.

(** ** Example *)

Section example.
#[local] Instance pond_rodata : Rodata := λ l,
  134300000 + 128 * Z.of_nat (default 0%nat (fst <$> list_find (l =.) fish_lits)).

Definition pond_text : mem :=
  foldl (λ m l, put_bytes m (str l) (l ++ [0])) ∅ fish_lits.

Definition pond_vmem : Z := 134400000.

Definition pond_fish : fish (VD := fish_video pond_usys pond_vmem) :=
  fish_init (VD := fish_video pond_usys pond_vmem) (Pond pond_text ∅).

Lemma pond_lits : lits (US := pond_usys) fish_lits (vid pond_fish).
Proof.
  assert (Forall (λ s, load_bytes (X := flat) pond_text (str s) (Z.of_nat (S (length s))) = s ++ [0] ∧
    Forall (λ c, 0 < c < 256) s ∧ 134217728 ≤ str s ∧ str s + Z.of_nat (length s) + 1 ≤ 138412032) fish_lits) as H.
  { apply (bool_decide_unpack _). vm_compute. exact I. }
  intros s Hin. rewrite Forall_forall in H. destruct (H s Hin) as (H1 & H2 & H3 & H4).
  split; [|unfold user_range; lia]. apply (load_cstring (X := flat) pond_text _ _ (S (length s))); [done|lia|].
  rewrite H1, take_ge; [done|]. rewrite length_app. simpl. lia.
Qed.

(** Two frames, "O" above " O", and " *": three places that are not blank. *)
Lemma fish_runs_witness :
  ∃ f', fish_main pond_usys pond_vmem 0 134500000 134500004 134500008 134500009 pond_fish = Some (0, f') ∧
    shows f' (show_list (foldl push [] (frame_cells [79; 10; 32; 79] [32; 42]))).
Proof.
  apply (fish_runs pond_usys pond_vmem 0).
  all: try (unfold locals_at, local_at, user, user_range, pond_vmem; lia).
  - reflexivity.
  - unfold rst, rest. simpl. apply fmap_empty.
  - exact pond_lits.
  - assert (Forall (λ l, str l + Z.of_nat (length l) < pond_vmem ∨ pond_vmem + 4 ≤ str l) fish_lits) as H
      by (apply (bool_decide_unpack _); vm_compute; exact I).
    rewrite Forall_forall in H. exact H.
  - reflexivity.
  - reflexivity.
  - simpl. lia.
  - vm_compute frame_cells. repeat constructor; simpl; lia.
Defined.
End example.
