(* ===== verification/Emul.v ===== *)
(** * Running the programs under Linux (src/syscalls/ece391emulate.c)

    The programs can be linked with this file instead of ece391syscall.S, and then run under
    Linux: [ece391_execute] splits its command into an argument vector, [ece391_getargs] joins
    the vector again, and a directory is read entry by entry.  The C library and Linux are the
    class [Libc]; [K] is the process with its memory and the trap into Linux. *)

From Stdlib Require Import String.
From S2P Require Import Prelude Mem Lib Kstate Screen Parse User Support Client Fish.

(** ** The C library *)

(** A [DIR] is named by a number, NULL is [None]; [readdir] gives the address of the name.
    [spawn]: a child is forked, which executes the file at a path with an argument vector, or
    kills itself with signal 9; the result is what [wait] stores. *)
Class Libc (K : Usys) := {
  opendir : ust → option Z * ust;
  readdir : Z → ust → option Z * ust;
  closedir : Z → ust → ust;
  open_path : list Z → Z → ust → Z * ust;
  close_fd : Z → ust → ust;
  mmap_low : Z → ust → option Z * ust;
  spawn : Z → list Z → ust → Z * ust;
}.

Definition O_RDONLY : Z := 0.
Definition O_RDWR : Z := 2.

(** <sys/wait.h> *)
Definition WTERMSIG (status : Z) : Z := Z.land status 127.
Definition WIFEXITED (status : Z) : bool := WTERMSIG status =? 0.
Definition WEXITSTATUS (status : Z) : Z := Z.land (Z.shiftr status 8) 255.

(** A loop that only moves the pointer. *)
Definition scan_until `{US : Usys} (stop : Z → bool) (scan : Z) : prog Z :=
  ploop (λ scan, c ← peekb scan; mret (if stop c then inr scan else inl (scan + 1))) scan.

Section machine.
Variable (K : Usys).

(** The static variables; [dir_fd] and [mem_fd] start with -1. *)
Record emu := Emu {
  em_u : ust (Usys := K);
  dir : option Z;
  dir_fd : Z;
  mem_fd : Z;
}.

Definition set_u v e := Emu v (dir e) (dir_fd e) (mem_fd e).
Definition set_dir d fd e := Emu (em_u e) d fd (mem_fd e).
Definition set_mem_fd v e := Emu (em_u e) (dir e) (dir_fd e) v.

Definition emu_usys : Usys := {|
  ust := emu;
  umem e := umem (Usys := K) (em_u e);
  uxl e := uxl (Usys := K) (em_u e);
  uset m e := set_u (uset (Usys := K) m (em_u e)) e;
  int80 eax ebx ecx edx e :=
    match int80 (Usys := K) eax ebx ecx edx (em_u e) with
    | Some (r, u) => Some (r, set_u u e)
    | None => None
    end;
|}.
End machine.

(** ** The memory of a process *)

(** A process sees its own addresses. *)
Class HostMem (K : Usys) := {
  hm_mem : UsysMem (US := K);
  hm_flat u : uxl (Usys := K) u = flat;
}.

#[export] Instance emu_mem (K : Usys) (HM : HostMem K) : HostMem (emu_usys K).
Proof.
  destruct HM as [[H1 H2 H3 H4] H5]. constructor; [constructor|].
  - intros m e. apply H1.
  - intros m e. apply H2.
  - intros m m' [u d fd mfd]. unfold uset, emu_usys, set_u. simpl. f_equal. apply H3.
  - intros [u d fd mfd]. unfold uset, emu_usys, set_u. simpl. f_equal. apply H4.
  - intros e. apply H5.
Qed.

Section host.
Context {US : Usys} {HM : HostMem US}.
#[local] Existing Instance hm_mem.
Implicit Types (u : ust).

Definition word32 (a : Z) : Prop := 0 ≤ a < 4294967296.

(** A string in memory. *)
Definition bstr u (s : Z) (l : list Z) : Prop :=
  cstring (X := flat) (umem u) s l ∧ 0 ≤ s ∧ s + Z.of_nat (length l) < 4294967296.

(** Only the [n] bytes at [a] may differ. *)
Definition keep (a n : Z) u u' : Prop := ∀ b, word32 b → ¬ (a ≤ b < a + n) → uld8 u' b = uld8 u b.

Lemma uld8_flat u a : uld8 u a = ld8 (X := flat) (umem u) a.
Proof. unfold uld8. by rewrite hm_flat. Qed.

Lemma host_store u a v : word32 a → uld8 (ust8 a v u) a = u8 v ∧ keep a 1 u (ust8 a v u).
Proof.
  intros Ha. unfold ust8. split.
  - rewrite uld8_uset, hm_flat. by apply ld8_st8_eq.
  - intros b Hb Hn. rewrite uld8_uset, uld8_flat, hm_flat. apply (ld8_st8_ne (X := flat)).
    unfold word32, cell, flat, xlat in *. rewrite !u32_small by lia. lia.
Qed.

Lemma keep_trans a n u1 u2 u3 : keep a n u1 u2 → keep a n u2 u3 → keep a n u1 u3.
Proof. intros H1 H2 b Hb Hn. by rewrite H2, H1. Qed.

Lemma keep_mono a n a' n' u u' : keep a n u u' → a' ≤ a → a + n ≤ a' + n' → keep a' n' u u'.
Proof. intros H Ha Hn b Hb Hout. apply H; [done|lia]. Qed.

Lemma bstr_at u s l i : bstr u s l → (i ≤ length l)%nat → uld8 u (s + Z.of_nat i) = default 0 (l !! i).
Proof. intros [H _] Hi. rewrite uld8_flat. by apply (cstring_ld8 (X := flat) _ s). Qed.

Lemma bstr_intro u s l :
  0 ≤ s → s + Z.of_nat (length l) < 4294967296 → Forall (λ c, c ≠ 0) l →
  (∀ i, (i ≤ length l)%nat → uld8 u (s + Z.of_nat i) = default 0 (l !! i)) → bstr u s l.
Proof.
  intros Hs Hl Hnz H. split; [|done]. split.
  - intros i x Hx. rewrite <- uld8_flat, H by (apply lookup_lt_Some in Hx; lia). rewrite Hx. split; [done|].
    by eapply Forall_lookup_1 in Hnz.
  - rewrite <- uld8_flat, H by done. by rewrite lookup_ge_None_2.
Qed.

Lemma bstr_nonzero u s l : bstr u s l → Forall (λ c, c ≠ 0) l.
Proof. intros [H _]. by eapply cstring_nonzero. Qed.

Lemma bstr_keep u u' a n s l :
  keep a n u u' → (s + Z.of_nat (length l) < a ∨ a + n ≤ s) → bstr u s l → bstr u' s l.
Proof.
  intros Hk Hd Hs. pose proof Hs as (_ & H0 & Hl). apply bstr_intro; [done|done|by eapply bstr_nonzero|].
  intros i Hi. rewrite Hk by (unfold word32; lia). by apply (bstr_at u s l).
Qed.

Lemma bstr_app u s l1 l2 : bstr u s (l1 ++ l2) → bstr u (s + Z.of_nat (length l1)) l2.
Proof.
  intros (H & H0 & Hl). rewrite length_app in Hl. split; [by apply (cstring_app (X := flat))|]. lia.
Qed.

(** The end of a string is cut off. *)
Lemma bstr_cut u s l1 c l2 :
  bstr u s (l1 ++ c :: l2) →
  let u' := ust8 (s + Z.of_nat (length l1)) 0 u in
  bstr u' s l1 ∧ bstr u' (s + Z.of_nat (length l1) + 1) l2.
Proof.
  intros H u'. pose proof H as (_ & H0 & Hl). rewrite length_app in Hl. simpl in Hl.
  destruct (host_store u (s + Z.of_nat (length l1)) 0) as [Hz Hk]; [unfold word32; lia|]. fold u' in Hz, Hk. split.
  - apply bstr_intro; [done|lia| |].
    + apply bstr_nonzero in H. by apply Forall_app in H as [H _].
    + intros i Hi. destruct (decide (i = length l1)) as [->|].
      * rewrite Hz. by rewrite lookup_ge_None_2.
      * rewrite (Hk (s + Z.of_nat i)) by (unfold word32; lia).
        rewrite (bstr_at u s _ i H) by (rewrite length_app; simpl; lia). by rewrite lookup_app_l by lia.
  - eapply bstr_keep; [exact Hk|lia|]. rewrite cons_middle, app_assoc in H. apply bstr_app in H.
    rewrite length_app in H. simpl in H. by replace (s + Z.of_nat (length l1) + 1) with (s + Z.of_nat (length l1 + 1)) by lia.
Qed.

(** Storing NUL at or after the end of a string. *)
Lemma bstr_zero u a s l :
  bstr u s l → word32 a → s + Z.of_nat (length l) ≤ a → bstr (ust8 a 0 u) s l.
Proof.
  intros Hs Ha Hle. destruct (host_store u a 0 Ha) as [Hz Hk].
  destruct (decide (s + Z.of_nat (length l) = a)) as [<-|]; [|eapply bstr_keep; [exact Hk|lia|done]].
  pose proof Hs as (_ & H0 & Hl). apply bstr_intro; [done|done|by eapply bstr_nonzero|].
  intros i Hi. destruct (decide (i = length l)) as [->|]; [rewrite Hz; by rewrite lookup_ge_None_2|].
  rewrite Hk by (unfold word32; lia). by apply (bstr_at u s l).
Qed.

(** ** Scanning *)

Lemma strlen_host u s l : bstr u s l → ece391_strlen s u = Some (Z.of_nat (length l), u).
Proof.
  intros (H & H0 & Hl). rewrite strlen_agrees, hm_flat, (strlen_cstring (X := flat) _ s l H) by lia. done.
Qed.

Lemma strcpy_host u d s l :
  bstr u s l → 0 ≤ d → d + Z.of_nat (length l) < 4294967296 →
  (d + Z.of_nat (length l) < s ∨ s + Z.of_nat (length l) < d) →
  ∃ u', ece391_strcpy d s u = Some ((), u') ∧ bstr u' d l ∧ keep d (Z.of_nat (length l) + 1) u u'.
Proof.
  intros (H & H0 & Hl) Hd Hdl Hsep. rewrite strcpy_agrees, hm_flat.
  destruct (strcpy_written (X := flat) (umem u) d s l H) as (m' & E & Hw); [lia| | |].
  - intros i j Hi Hj. unfold cell, flat, xlat. rewrite !u32_small by lia. lia.
  - intros i j Hi Hj. unfold cell, flat, xlat. rewrite !u32_small by lia. lia.
  - rewrite E. exists (uset m' u). split; [done|]. split.
    + split; [|lia]. rewrite umem_uset. eapply cstring_copy; [exact H| |exact Hw]. lia.
    + intros b Hb Hn. rewrite uld8_uset, hm_flat, uld8_flat. eapply written_other; [exact Hw|].
      intros (i & Hi & Ec). unfold cell, flat, xlat, word32 in *. rewrite !u32_small in Ec by lia. lia.
Qed.

Lemma scan_until_ok stop u s l :
  stop 0 = true → bstr u s l →
  ∃ w r, scan_until stop s u = Some (s + Z.of_nat (length w), u) ∧ l = w ++ r ∧
    Forall (λ c, stop c = false) w ∧ (∀ c, head r = Some c → stop c = true).
Proof.
  intros H0 Hs. unfold scan_until.
  edestruct (ploop_total (λ scan, c ← peekb scan; mret (if stop c then inr scan else inl (scan + 1)))
    (λ p u', u' = u ∧ ∃ w r, l = w ++ r ∧ p = s + Z.of_nat (length w) ∧ Forall (λ c, stop c = false) w)
    (λ p u', u' = u ∧ ∃ w r, l = w ++ r ∧ p = s + Z.of_nat (length w) ∧ Forall (λ c, stop c = false) w ∧
       ∀ c, head r = Some c → stop c = true)
    (λ p _, s + Z.of_nat (length l) - p) s u) as (p & u' & E & -> & w & r & -> & -> & Hw & Hr).
  - intros p u' (-> & w & r & -> & -> & Hw). rewrite length_app. split; [lia|]. rewrite peek_run.
    rewrite (bstr_at u s _ _ Hs) by (rewrite length_app; lia). rewrite lookup_app_r, Nat.sub_diag by lia.
    destruct r as [|c r]; simpl.
    + rewrite H0. eexists (inr _), _. split; [done|]. split; [done|]. exists w, []. by rewrite app_nil_r.
    + destruct (stop c) eqn:Ec.
      * eexists (inr _), _. split; [done|]. split; [done|]. exists w, (c :: r). split_and!; [done..|].
        by intros x [= ->].
      * eexists (inl _), _. split; [done|]. split; [|lia]. split; [done|]. exists (w ++ [c]), r.
        rewrite <- app_assoc, length_app. simpl. split_and!; [done|lia|]. apply Forall_app. split; [done|]. by constructor.
  - split; [done|]. exists [], l. simpl. split_and!; [done|lia|constructor].
  - destruct Hs as (_ & ? & ?). lia.
  - by exists w, r.
Qed.
End host.

Section emul.
Variable (K : Usys).
Context {LC : Libc K} {RO : Rodata} (junk start_esp : Z).
#[local] Instance E : Usys := emu_usys K.

(** A call of the C library. *)
Definition libc {A} (f : ust (Usys := K) → A * ust (Usys := K)) : prog A := λ e : emu K,
  let '(a, u) := f (em_u K e) in Some (a, set_u K u e).
Definition libc_ (f : ust (Usys := K) → ust (Usys := K)) : prog () := libc (λ u, ((), f u)).
Definition get : prog (emu K) := λ e : emu K, Some (e, e).
Definition put_dir (d : option Z) (fd : Z) : prog () := λ e : emu K, Some ((), set_dir K d fd e).
Definition put_mem_fd (fd : Z) : prog () := λ e : emu K, Some ((), set_mem_fd K fd e).

(** The wrappers turn every error of Linux into -1. *)
Definition linux_result (eax : Z) : Z := if 4294950912 <? eax then -1 else s32 eax.

Definition LINUX_CALL (number ebx ecx edx : Z) : prog Z :=
  eax ← int80 number (u32 ebx) (u32 ecx) (u32 edx); mret (linux_result eax).

Definition __ece391_read (fd buf nbytes : Z) : prog Z := LINUX_CALL SYS_READ fd buf nbytes.
Definition __ece391_write (fd buf nbytes : Z) : prog Z := LINUX_CALL SYS_WRITE fd buf nbytes.
Definition __ece391_close (fd : Z) : prog Z := LINUX_CALL SYS_CLOSE fd junk junk.

(** ** execute *)

(** A character that ends a word. *)
Definition word_end (c : Z) : bool := (c =? 0) || (c =? 32) || (c =? 10).

Definition scan_word : Z → prog Z := scan_until word_end.
Definition skip_blanks : Z → prog Z := scan_until (λ c, negb (c =? 32)).

(** A word at [scan]: it is the next argument, and is cut off. *)
Definition word_step (scan : Z) (args : list Z) : prog ((Z * list Z) + list Z) :=
  end_ ← scan_word scan;
  c ← peekb end_;
  if negb (c =? 0) then _ ← pokeb end_ 0; mret (inl (end_ + 1, args ++ [scan]))
  else mret (inl (end_, args ++ [scan])).

(** One round of [while (1)]: the arguments found so far are [args]. *)
Definition arg_step (st : Z * list Z) : prog ((Z * list Z) + list Z) :=
  let '(scan, args) := st in
  scan ← skip_blanks scan;
  c ← peekb scan;
  if (c =? 0) || (c =? 10) then _ ← pokeb scan 0; mret (inr args)
  else word_step scan args.

Definition parse_vector (buf : Z) : prog (list Z) :=
  scan ← scan_word (buf + 2);
  c ← peekb scan;
  if negb (c =? 0) then _ ← pokeb scan 0; ploop arg_step (scan + 1, [buf]) else mret [buf].

Definition wait_result (status : Z) : Z :=
  if WIFEXITED status then WEXITSTATUS status
  else if WTERMSIG status =? 9 then -1 else 256.

Definition ece391_execute (buf command : Z) : prog Z :=
  n ← ece391_strlen command;
  if 1023 <? n then mret (-1)
  else
    _ ← pokeb buf 46;
    _ ← pokeb (buf + 1) 47;
    _ ← ece391_strcpy (buf + 2) command;
    args ← parse_vector buf;
    status ← libc (spawn buf args);
    mret (wait_result status).

(** ** getargs *)

Definition argw (a : Z) : prog Z := λ e : emu K, Some (uld32 (US := E) e a, e).

(** [None]: the vector is done; [Some r]: the call returns [r]. *)
Definition getargs_step (argc : Z) (st : Z * Z * Z) : prog ((Z * Z * Z) + (Z * Z + Z)) :=
  let '(idx, buf, nbytes) := st in
  if idx <? argc then
    p ← argw (start_esp + 4 + 4 * idx);
    len ← ece391_strlen p;
    let len := s32 len in
    if nbytes <? len then mret (inr (inr (-1)))
    else
      _ ← ece391_strcpy buf p;
      let buf := buf + len in
      let nbytes := nbytes - len in
      let idx := idx + 1 in
      if argc <=? idx then mret (inr (inl (buf, nbytes)))
      else if nbytes <? 1 then mret (inr (inr (-1)))
      else _ ← pokeb buf 32; mret (inl (idx, buf + 1, nbytes - 1))
  else mret (inr (inl (buf, nbytes))).

Definition ece391_getargs (buf nbytes : Z) : prog Z :=
  argc ← argw start_esp;
  r ← ploop (getargs_step (s32 argc)) (1, buf, nbytes);
  match r with
  | inr r => mret r
  | inl (buf, nbytes) => if nbytes <? 1 then mret (-1) else _ ← pokeb buf 0; mret 0
  end.

(** ** Files and the directory *)

Definition ece391_open (filename : Z) : prog Z :=
  d ← ece391_strcmp filename (str (lit "."%string));
  if d =? 0 then
    h ← libc opendir;
    fd ← libc (open_path (lit "/dev/null"%string) O_RDONLY);
    _ ← put_dir h fd;
    mret fd
  else
    rval ← int80 SYS_OPEN (u32 filename) O_RDONLY (u32 junk);
    mret (linux_result rval).

(** The message of [perror] goes to a terminal that is no part of the state. *)
Definition ece391_vidmap (screen_start : Z) : prog Z :=
  e ← get;
  _ ← (if mem_fd K e =? -1 then
         fd ← libc (open_path (lit "/dev/mem"%string) O_RDWR); put_mem_fd fd
       else mret ());
  e ← get;
  r ← libc (mmap_low (mem_fd K e));
  match r with
  | None => mret (-1)
  | Some mem_image => _ ← pokew screen_start (mem_image + 753664); mret 0
  end.

(** Copying a name: the result is the value returned, or the pointers after its last byte. *)
Definition name_step (nbytes : Z) (st : Z * Z * Z) : prog ((Z * Z * Z) + (Z + Z * Z)) :=
  let '(to, from, copied) := st in
  c ← peekb from;
  if c =? 0 then mret (inr (inr (to, copied)))
  else
    _ ← pokeb to c;
    let copied := copied + 1 in
    if copied =? nbytes then mret (inr (inl nbytes))
    else if copied =? 32 then mret (inr (inl 32))
    else mret (inl (to + 1, from + 1, copied)).

Definition pad_step (nbytes : Z) (st : Z * Z) : prog ((Z * Z) + Z) :=
  let '(to, copied) := st in
  if (copied <? nbytes) && (copied <? 32) then _ ← pokeb to 0; mret (inl (to + 1, copied + 1))
  else mret (inr copied).

Definition copy_name (from buf nbytes : Z) : prog Z :=
  r ← ploop (name_step nbytes) (buf, from, 0);
  match r with
  | inl n => mret n
  | inr (to, copied) => ploop (pad_step nbytes) (to, copied)
  end.

(** The descriptor of the directory. *)
Definition is_dir (fd : Z) (e : emu K) : option Z :=
  match dir K e with Some h => if dir_fd K e =? fd then Some h else None | None => None end.

Definition ece391_read (fd buf nbytes : Z) : prog Z :=
  e ← get;
  match is_dir fd e with
  | None => __ece391_read fd buf nbytes
  | Some h =>
      de ← libc (readdir h);
      match de with
      | None => mret 0
      | Some d_name => copy_name d_name buf nbytes
      end
  end.

Definition ece391_write (fd buf nbytes : Z) : prog Z :=
  e ← get;
  match is_dir fd e with None => __ece391_write fd buf nbytes | Some _ => mret (-1) end.

Definition ece391_close (fd : Z) : prog Z :=
  e ← get;
  match is_dir fd e with
  | None => __ece391_close fd
  | Some h =>
      _ ← libc_ (closedir h);
      _ ← put_dir None (dir_fd K e);
      _ ← libc_ (close_fd (dir_fd K e));
      _ ← put_dir None (-1);
      mret 0
  end.

(** ** What execute does *)

Context {HM : HostMem K}.
Implicit Types (e : ust (Usys := E)).

(** The words of a command after its first one; [cur] is the word that is being read.  A
    newline where a word could start ends the command. *)
Fixpoint vec (cur : list Z) (l : list Z) : list (list Z) :=
  match l with
  | [] => match cur with [] => [] | _ => [cur] end
  | c :: l =>
      match cur with
      | [] => if c =? 32 then vec [] l else if c =? 10 then [] else vec [c] l
      | _ => if (c =? 32) || (c =? 10) then cur :: vec [] l else vec (cur ++ [c]) l
      end
  end.

(** The first word, and what follows the character that ends it. *)
Fixpoint first_word (l : list Z) : list Z * option (list Z) :=
  match l with
  | [] => ([], None)
  | c :: l => if word_end c then ([], Some l) else let '(w, r) := first_word l in (c :: w, r)
  end.

(** The argument vector: the path, and the other words. *)
Definition vector (l : list Z) : list (list Z) :=
  let '(w, r) := first_word l in (46 :: 47 :: w) :: default [] (vec [] <$> r).

Lemma vec_blanks w l : Forall (λ c, negb (c =? 32) = false) w → vec [] (w ++ l) = vec [] l.
Proof.
  induction 1 as [|c w Hc Hw IH]; [done|]. simpl. apply negb_false_iff in Hc. by rewrite Hc.
Qed.

Lemma vec_word cur w l :
  cur ≠ [] → Forall (λ c, word_end c = false) w → vec cur (w ++ l) = vec (cur ++ w) l.
Proof.
  intros Hc Hw. revert cur Hc. induction Hw as [|c w Hc Hw IH]; intros cur Hcur; [by rewrite app_nil_r|].
  simpl. destruct cur as [|x cur]; [done|]. unfold word_end in Hc.
  apply orb_false_iff in Hc as [[_ H1]%orb_false_iff H2]. rewrite H1, H2. simpl orb. cbv iota.
  rewrite IH by done. by rewrite <- app_assoc.
Qed.

Lemma first_word_app w r :
  Forall (λ c, word_end c = false) w → (∀ c, head r = Some c → word_end c = true) →
  first_word (w ++ r) = (w, match r with [] => None | _ :: r => Some r end).
Proof.
  intros Hw Hr. induction Hw as [|c w Hc Hw IH]; simpl.
  - destruct r as [|c r]; [done|]. simpl. by rewrite (Hr c eq_refl).
  - by rewrite Hc, IH.
Qed.

(** A word is at the front of what is left. *)
Lemma vec_front w r :
  w ≠ [] → Forall (λ c, word_end c = false) w → (∀ c, head r = Some c → word_end c = true) → Forall (λ c, c ≠ 0) r →
  vec [] (w ++ r) = w :: match r with [] => [] | _ :: r => vec [] r end.
Proof.
  intros Hne Hw Hr Hz. destruct w as [|c w]; [done|]. inversion Hw as [|?? Hc Hw']; subst. simpl.
  unfold word_end in Hc. apply orb_false_iff in Hc as [[_ H1]%orb_false_iff H2]. rewrite H1, H2.
  rewrite vec_word by done. destruct r as [|d r]; [done|]. specialize (Hr d eq_refl). inversion Hz; subst.
  unfold word_end in Hr. rewrite (proj2 (Z.eqb_neq d 0)) in Hr by done. simpl in *. by rewrite Hr.
Qed.

Lemma vec_length cur l : (length (vec cur l) ≤ length l + match cur with [] => 0 | _ => 1 end)%nat.
Proof.
  revert cur. induction l as [|c l IH]; intros cur; [by destruct cur|]. simpl. destruct cur as [|x cur].
  - destruct (c =? 32); [specialize (IH []); simpl in *; lia|]. destruct (c =? 10); [simpl; lia|].
    specialize (IH [c]). simpl in *. lia.
  - destruct ((c =? 32) || (c =? 10)); simpl; [specialize (IH []); simpl in *; lia|].
    specialize (IH (x :: cur ++ [c])). simpl in *. lia.
Qed.

(** The arguments found so far end before [scan], or at it when nothing is left. *)
Definition found e (scan : Z) (r : list Z) (p : Z) (w : list Z) : Prop :=
  bstr e p w ∧ (p + Z.of_nat (length w) < scan ∨ p + Z.of_nat (length w) = scan ∧ r = []).

(** The strings end at [a] or before. *)
Definition before e (a p : Z) (w : list Z) : Prop := bstr e p w ∧ p + Z.of_nat (length w) ≤ a.

Lemma word_step_ok e scan w r args done :
  bstr e scan (w ++ r) → w ≠ [] → Forall (λ c, word_end c = false) w → (∀ c, head r = Some c → word_end c = true) →
  Forall2 (before e scan) args done → scan_word scan e = Some (scan + Z.of_nat (length w), e) →
  ∃ scan' args' r' e', word_step scan args e = Some (inl (scan', args'), e') ∧
    keep scan (Z.of_nat (length (w ++ r)) + 1) e e' ∧ bstr e' scan' r' ∧ Forall2 (found e' scan' r') args' (done ++ [w]) ∧
    w :: vec [] r' = vec [] (w ++ r) ∧ (length r' < length (w ++ r))%nat ∧ scan ≤ scan' ∧
    scan' + Z.of_nat (length r') ≤ scan + Z.of_nat (length (w ++ r)).
Proof.
  intros Hs Hne Hw Hr Hold Escan. pose proof Hs as (_ & Hs0 & Hsl). rewrite length_app in *.
  assert (0 < Z.of_nat (length w)) by (destruct w; [done|simpl; lia]).
  pose proof (bstr_nonzero _ _ _ Hs) as Hz. apply Forall_app in Hz as [_ Hz]. rewrite (vec_front w r Hne Hw Hr Hz).
  unfold word_step. erewrite bind_run by exact Escan. rewrite peek_run.
  rewrite (bstr_at e scan _ _ Hs) by (rewrite length_app; lia). rewrite lookup_app_r, Nat.sub_diag by lia.
  destruct r as [|d r]; simpl.
  - exists (scan + Z.of_nat (length w)), (args ++ [scan]), [], e.
    split_and!; [done|done|exact (bstr_app e scan w [] Hs)| |done|simpl; lia|lia|simpl; lia]. apply Forall2_app.
    + eapply Forall2_impl; [exact Hold|]. intros p x [Hp Hle]. split; [done|]. left. lia.
    + constructor; [|constructor]. rewrite app_nil_r in Hs. split; [done|]. by right.
  - apply Forall_cons in Hz as [Hd0 Hz]. rewrite (proj2 (Z.eqb_neq d 0) Hd0). cbn [negb]. rewrite poke_run.
    simpl in Hsl. destruct (bstr_cut e scan w d r Hs) as [Hc1 Hc2].
    assert (word32 (scan + Z.of_nat (length w))) as Hw2 by (unfold word32; lia).
    eexists (scan + Z.of_nat (length w) + 1), (args ++ [scan]), r, _.
    split_and!; [done|eapply keep_mono; [apply (host_store e _ 0 Hw2)|lia..]|exact Hc2| |done|lia|lia|lia].
    apply Forall2_app.
    + eapply Forall2_impl; [exact Hold|]. intros p x [Hp Hle]. split; [apply bstr_zero; [done|done|lia]|]. left. lia.
    + constructor; [|constructor]. split; [exact Hc1|]. left. lia.
Qed.

Lemma arg_step_ok e scan args r done :
  bstr e scan r → Forall2 (found e scan r) args done →
  ∃ res e', arg_step (scan, args) e = Some (res, e') ∧ keep scan (Z.of_nat (length r) + 1) e e' ∧
    match res with
    | inr args' => Forall2 (bstr e') args' (done ++ vec [] r)
    | inl (scan', args') => ∃ r' done', bstr e' scan' r' ∧ Forall2 (found e' scan' r') args' done' ∧
        done' ++ vec [] r' = done ++ vec [] r ∧ (length r' < length r)%nat ∧ scan ≤ scan' ∧
        scan' + Z.of_nat (length r') ≤ scan + Z.of_nat (length r)
    end.
Proof.
  intros Hr Hf. pose proof Hr as (_ & Hs0 & Hsl).
  destruct (scan_until_ok (λ c, negb (c =? 32)) e scan r eq_refl Hr) as (b & r1 & E1 & -> & Hb & Hr1).
  pose proof (bstr_app _ _ _ _ Hr) as Hs1. rewrite (vec_blanks b r1 Hb). rewrite length_app in *.
  set (scan1 := scan + Z.of_nat (length b)) in *.
  assert (Forall2 (before e scan1) args done) as Hold.
  { eapply Forall2_impl; [exact Hf|]. intros p w [Hp Hd]. split; [done|]. lia. }
  assert (word32 scan1) as Hw1 by (unfold word32; lia).
  unfold arg_step. erewrite bind_run by exact E1. rewrite peek_run.
  assert (uld8 e scan1 = default 0 (head r1)) as ->.
  { pose proof (bstr_at e scan1 r1 0 Hs1 ltac:(lia)) as H. rewrite Z.add_0_r in H. rewrite H. by destruct r1. }
  pose proof (bstr_nonzero _ _ _ Hs1) as Hz.
  destruct ((default 0 (head r1) =? 0) || (default 0 (head r1) =? 10)) eqn:Hend.
  - assert (vec [] r1 = []) as ->.
    { destruct r1 as [|c r1]; [done|]. simpl in Hend |- *. apply Forall_cons in Hz as [Hc0 _].
      rewrite (proj2 (Z.eqb_neq c 0) Hc0) in Hend.
      simpl in Hend. specialize (Hr1 c eq_refl). rewrite negb_true_iff in Hr1. by rewrite Hr1, Hend. }
    rewrite poke_run. eexists (inr _), _. split; [done|]. split.
    + eapply keep_mono; [apply (host_store e scan1 0 Hw1)|lia..].
    + rewrite app_nil_r. eapply Forall2_impl; [exact Hold|]. intros p w [Hp Hle]. by apply bstr_zero.
  - destruct (scan_until_ok word_end e scan1 r1 eq_refl Hs1) as (w & r2 & E2 & -> & Hw & Hr2).
    assert (w ≠ []) as Hne.
    { intros ->. simpl in Hend, Hr1. destruct r2 as [|c r2]; [done|]. simpl in Hend. specialize (Hr1 c eq_refl).
      specialize (Hr2 c eq_refl). unfold word_end in Hr2. rewrite negb_true_iff in Hr1.
      apply orb_false_iff in Hend as [H1 H2]. by rewrite H1, H2, Hr1 in Hr2. }
    destruct (word_step_ok e scan1 w r2 args done Hs1 Hne Hw Hr2 Hold E2)
      as (scan' & args' & r' & e' & E' & K' & B' & F' & V' & L1 & L2 & L3).
    exists (inl (scan', args')), e'. split; [done|]. split; [eapply keep_mono; [exact K'|lia..]|].
    exists r', (done ++ [w]). split_and!; [done|done|by rewrite <- app_assoc, <- V'|lia|lia|lia].
Qed.

Lemma arg_loop_ok e scan args r done :
  bstr e scan r → Forall2 (found e scan r) args done →
  ∃ args' e', ploop arg_step (scan, args) e = Some (args', e') ∧ Forall2 (bstr e') args' (done ++ vec [] r) ∧
    keep scan (Z.of_nat (length r) + 1) e e'.
Proof.
  intros Hr Hf. pose proof Hr as (_ & Hs0 & Hsl).
  apply (ploop_ranked (US := E) arg_step
    (λ n '(scan1, args1) e1, ∃ r1 done1, n = Z.of_nat (length r1) ∧ bstr e1 scan1 r1 ∧
       Forall2 (found e1 scan1 r1) args1 done1 ∧ done1 ++ vec [] r1 = done ++ vec [] r ∧ scan ≤ scan1 ∧
       scan1 + Z.of_nat (length r1) ≤ scan + Z.of_nat (length r) ∧ keep scan (Z.of_nat (length r) + 1) e e1)
    (λ args' e', Forall2 (bstr e') args' (done ++ vec [] r) ∧ keep scan (Z.of_nat (length r) + 1) e e')
    (Z.of_nat (length r))); [| |lia].
  - intros n [scan1 args1] e1 (r1 & done1 & -> & H1 & F1 & Hd & Hle1 & Hle2 & K1). split; [lia|].
    destruct (arg_step_ok e1 scan1 args1 r1 done1 H1 F1) as (res & e2 & E2 & K2 & H2). exists res, e2. split; [done|].
    assert (keep scan (Z.of_nat (length r) + 1) e e2) as K12.
    { eapply keep_trans; [exact K1|]. eapply keep_mono; [exact K2|lia..]. }
    destruct res as [[scan2 args2]|args2]; [|by rewrite <- Hd].
    destruct H2 as (r2 & done2 & H2 & F2 & Hd2 & Hlt & Hle3 & Hle4). exists (Z.of_nat (length r2)). split; [lia|].
    exists r2, done2. split_and!; [done|done|done|congruence|lia|lia|done].
  - exists r, done. split_and!; (done || lia).
Qed.

(** The path and the command in the buffer become the vector. *)
Lemma parse_vector_ok e buf l :
  bstr e buf (46 :: 47 :: l) →
  ∃ args e', parse_vector buf e = Some (args, e') ∧ Forall2 (bstr e') args (vector l) ∧
    keep buf (Z.of_nat (length l) + 3) e e'.
Proof.
  intros Hb. pose proof Hb as (_ & H0 & Hl). simpl in Hl. pose proof (bstr_app e buf [46; 47] l Hb) as Hc. simpl in Hc.
  destruct (scan_until_ok word_end e (buf + 2) l eq_refl Hc) as (w & r & E1 & -> & Hw & Hr).
  pose proof (bstr_nonzero _ _ _ Hc) as Hz. apply Forall_app in Hz as [_ Hz]. rewrite length_app in *.
  unfold parse_vector, vector. rewrite (first_word_app w r Hw Hr). erewrite bind_run by exact E1. rewrite peek_run.
  rewrite (bstr_at e (buf + 2) _ _ Hc) by (rewrite length_app; lia). rewrite lookup_app_r, Nat.sub_diag by lia.
  destruct r as [|d r]; simpl.
  - eexists _, e. split; [done|]. split; [|done]. rewrite app_nil_r in Hb. by constructor.
  - apply Forall_cons in Hz as [Hd0 Hz]. rewrite (proj2 (Z.eqb_neq d 0) Hd0). cbn [negb]. rewrite poke_run.
    simpl in Hl. destruct (bstr_cut e buf (46 :: 47 :: w) d r Hb) as [Hc1 Hc2]. simpl in Hc1, Hc2.
    replace (buf + Z.of_nat (S (S (length w)))) with (buf + 2 + Z.of_nat (length w)) in Hc1, Hc2 by lia.
    destruct (arg_loop_ok _ _ [buf] r [46 :: 47 :: w] Hc2) as (args & e' & E2 & F2 & K2).
    { constructor; [|constructor]. split; [exact Hc1|]. simpl. lia. }
    exists args, e'. split; [exact E2|]. split; [exact F2|].
    eapply keep_trans; [eapply keep_mono; [apply (host_store e (buf + 2 + Z.of_nat (length w)) 0); unfold word32; lia|lia..]|].
    eapply keep_mono; [exact K2|lia..].
Qed.

Lemma first_word_length l r : snd (first_word l) = Some r → (length r < length l)%nat.
Proof.
  revert r. induction l as [|c l IH]; intros r; [done|]. simpl. destruct (word_end c); [intros [= <-]; lia|].
  destruct (first_word l) as [w o]. simpl in *. intros ->. specialize (IH r eq_refl). lia.
Qed.

Lemma vector_length l : (length (vector l) ≤ Nat.max 1 (length l))%nat.
Proof.
  unfold vector. pose proof (first_word_length l) as H. destruct (first_word l) as [w [r|]]; simpl in *; [|lia].
  specialize (H r eq_refl). pose proof (vec_length [] r). simpl in *. lia.
Qed.

(** The path in front of the command. *)
Lemma prefix_ok e command l buf :
  bstr e command l → 0 ≤ buf → buf + 3 + Z.of_nat (length l) ≤ 4294967296 →
  (command + Z.of_nat (length l) < buf ∨ buf + 3 + Z.of_nat (length l) ≤ command) →
  ∃ e', ece391_strcpy (US := E) (buf + 2) command (ust8 (US := E) (buf + 1) 47 (ust8 (US := E) buf 46 e)) = Some ((), e') ∧
    bstr e' buf (46 :: 47 :: l) ∧ keep buf (Z.of_nat (length l) + 3) e e'.
Proof.
  intros Hc H0 Hb Hd. pose proof Hc as (_ & Hc0 & Hcl).
  destruct (host_store e buf 46) as [V1 K1]; [unfold word32; lia|]. set (e1 := ust8 buf 46 e) in *.
  destruct (host_store e1 (buf + 1) 47) as [V2 K2]; [unfold word32; lia|]. set (e2 := ust8 (buf + 1) 47 e1) in *.
  assert (bstr e2 command l) as Hc2.
  { eapply bstr_keep; [exact K2|lia|]. eapply bstr_keep; [exact K1|lia|done]. }
  destruct (strcpy_host e2 (buf + 2) command l Hc2) as (e3 & E3 & B3 & K3); [lia..|].
  exists e3. split; [done|]. split.
  - apply bstr_intro; [done|simpl; lia| |].
    + constructor; [done|]. constructor; [done|]. by eapply bstr_nonzero.
    + intros [|[|i]] Hi; simpl.
      * rewrite Z.add_0_r, K3, K2, V1 by (unfold word32; lia). done.
      * change (Z.of_nat 1) with 1. rewrite K3, V2 by (unfold word32; lia). done.
      * replace (buf + Z.of_nat (S (S i))) with (buf + 2 + Z.of_nat i) by lia. apply (bstr_at e3 _ l); [done|].
        simpl in Hi. lia.
  - eapply keep_trans; [eapply keep_mono; [exact K1|lia..]|].
    eapply keep_trans; [eapply keep_mono; [exact K2|lia..]|]. eapply keep_mono; [exact K3|lia..].
Qed.

(** C19: [ece391_execute] under Linux: a command of at most 1023 bytes is copied behind "./",
    and the file it names is executed with the vector of the command's words, each a string in
    the buffer of 1026 bytes; nothing outside this buffer is written and the vector fits into
    its array of 1024 pointers.  A longer command is refused. *)
Theorem execute_splits e command l buf :
  bstr e command l → 0 ≤ buf → buf + 1026 ≤ 4294967296 →
  (command + Z.of_nat (length l) < buf ∨ buf + 1026 ≤ command) →
  if decide (length l ≤ 1023)%nat then
    ∃ args e1, Forall2 (bstr e1) args (vector l) ∧ (length args < 1024)%nat ∧ keep buf 1026 e e1 ∧
      ece391_execute buf command e =
        let '(status, u) := spawn buf args (em_u K e1) in Some (wait_result status, set_u K u e1)
  else ece391_execute buf command e = Some (-1, e).
Proof.
  intros Hc H0 Hb Hd. unfold ece391_execute. erewrite bind_run by (by apply strlen_host).
  case_decide as Hlen; [|by destruct (Z.ltb_spec 1023 (Z.of_nat (length l))); [|lia]].
  destruct (Z.ltb_spec 1023 (Z.of_nat (length l))); [lia|]. rewrite !poke_run.
  destruct (prefix_ok e command l buf Hc H0 ltac:(lia) ltac:(lia)) as (e2 & E2 & B2 & K2).
  erewrite bind_run by exact E2. destruct (parse_vector_ok e2 buf l B2) as (args & e3 & E3 & F3 & K3).
  erewrite bind_run by exact E3. exists args, e3. split_and!; [done| | |].
  - rewrite (Forall2_length _ _ _ F3). pose proof (vector_length l). lia.
  - eapply keep_trans; [eapply keep_mono; [exact K2|lia..]|]. eapply keep_mono; [exact K3|lia..].
  - unfold mbind, prog_bind, libc. by destruct (spawn buf args (em_u K e3)).
Qed.

(** ** What getargs does *)

Fixpoint join (ls : list (list Z)) : list Z :=
  match ls with [] => [] | [l] => l | l :: ls => l ++ 32 :: join ls end.

(** The vector on the stack: pointers [ps] to the strings [ls] after the name of the program,
    all of it outside the buffer. *)
Record argv_at e (ps : list Z) (ls : list (list Z)) (buf nbytes : Z) : Prop := {
  av_argc : uld32 (US := E) e start_esp = 1 + Z.of_nat (length ls);
  av_ptr i p : ps !! i = Some p → uld32 (US := E) e (start_esp + 8 + 4 * Z.of_nat i) = p;
  av_str : Forall2 (λ p l, bstr e p l ∧ (p + Z.of_nat (length l) < buf ∨ buf + nbytes ≤ p)) ps ls;
  av_stack : 0 ≤ start_esp ∧ start_esp + 8 + 4 * Z.of_nat (length ps) ≤ 4294967296;
  av_away : start_esp + 8 + 4 * Z.of_nat (length ps) ≤ buf ∨ buf + nbytes ≤ start_esp;
}.

Lemma keep_uld32 a n e e' b :
  keep a n e e' → 0 ≤ b → b + 4 ≤ 4294967296 → (b + 4 ≤ a ∨ a + n ≤ b) → uld32 (US := E) e' b = uld32 (US := E) e b.
Proof. intros Hk Hb Hb4 Hd. unfold uld32. rewrite !Hk by (unfold word32; lia). done. Qed.

Lemma argv_keep e e' ps ls buf nbytes : keep buf nbytes e e' → argv_at e ps ls buf nbytes → argv_at e' ps ls buf nbytes.
Proof.
  intros Hk [H1 H2 H3 H4 H5]. constructor; [| | |done|done].
  - rewrite (keep_uld32 buf nbytes e e'); [done|done|lia..].
  - intros i p Hp. pose proof (lookup_lt_Some _ _ _ Hp). rewrite (keep_uld32 buf nbytes e e'); [by apply H2|done|lia..].
  - eapply Forall2_impl; [exact H3|]. intros p l [Hp Hd]. split; [|done]. by eapply bstr_keep.
Qed.

(** The buffer starts with [pre]. *)
Definition starts e (buf : Z) (pre : list Z) : Prop :=
  ∀ (i : nat) c, pre !! i = Some c → uld8 (US := E) e (buf + Z.of_nat i) = c.

Lemma starts_keep e e' a n buf pre :
  keep a n e e' → 0 ≤ buf → buf + Z.of_nat (length pre) ≤ a → a ≤ 4294967296 → starts e buf pre → starts e' buf pre.
Proof.
  intros Hk Hb Ha Ha4 Hs i c Hc. pose proof (lookup_lt_Some _ _ _ Hc). rewrite Hk by (unfold word32; lia). by apply Hs.
Qed.

Lemma starts_app e buf pre l : starts e buf pre → bstr e (buf + Z.of_nat (length pre)) l → starts e buf (pre ++ l).
Proof.
  intros Hs Hl i c Hc. destruct (decide (i < length pre)%nat).
  - rewrite lookup_app_l in Hc by lia. by apply Hs.
  - rewrite lookup_app_r in Hc by lia. pose proof (lookup_lt_Some _ _ _ Hc).
    pose proof (bstr_at e _ l (i - length pre) Hl ltac:(lia)) as Hb. rewrite Hc in Hb. simpl in Hb. rewrite <- Hb. f_equal. lia.
Qed.

Lemma starts_snoc e buf pre c :
  starts e buf pre → uld8 (US := E) e (buf + Z.of_nat (length pre)) = c → starts e buf (pre ++ [c]).
Proof.
  intros Hs Hc i x Hx. apply lookup_snoc_Some in Hx as [[_ Hx]|[-> <-]]; [by apply Hs|done].
Qed.

(** One argument is copied. *)
Lemma getargs_copy e ps ls buf nbytes pre i p l n :
  argv_at e ps ls buf nbytes → 0 ≤ buf → buf + nbytes ≤ 4294967296 → starts e buf pre →
  ps !! i = Some p → ls !! i = Some l → n = Z.of_nat (length pre) → n + Z.of_nat (length l) < nbytes →
  nbytes < 2147483648 →
  ∃ e', argw (start_esp + 4 + 4 * (1 + Z.of_nat i)) e = Some (p, e) ∧
    ece391_strlen (US := E) p e = Some (Z.of_nat (length l), e) ∧
    ece391_strcpy (US := E) (buf + n) p e = Some ((), e') ∧ keep buf nbytes e e' ∧ starts e' buf (pre ++ l).
Proof.
  intros Ha H0 Hb Hs Hp Hl -> Hn Hnb. destruct (Forall2_lookup_lr _ _ _ _ _ _ (av_str _ _ _ _ _ Ha) Hp Hl) as [Hpl Hd].
  pose proof (av_ptr _ _ _ _ _ Ha i p Hp) as Ep.
  destruct (strcpy_host e (buf + Z.of_nat (length pre)) p l Hpl) as (e' & E' & B' & K'); [lia..|].
  exists e'. split_and!; [|by apply strlen_host|done|eapply keep_mono; [exact K'|lia..]|].
  - unfold argw. replace (start_esp + 4 + 4 * (1 + Z.of_nat i)) with (start_esp + 8 + 4 * Z.of_nat i) by lia. by rewrite Ep.
  - apply starts_app; [|done]. eapply starts_keep; [exact K'|done|lia|lia|done].
Qed.

Lemma join_cons l ls : join (l :: ls) = l ++ match ls with [] => [] | _ => 32 :: join ls end.
Proof. destruct ls; simpl; [by rewrite app_nil_r|done]. Qed.

Lemma join_nonzero ls : Forall (Forall (λ c, c ≠ 0)) ls → Forall (λ c, c ≠ 0) (join ls).
Proof.
  induction 1 as [|l ls Hl Hls IH]; [constructor|]. rewrite join_cons. apply Forall_app. split; [done|].
  destruct ls; [constructor|]. by constructor.
Qed.

(** The arguments from number [i] on are left, [pre] has been written. *)
Record joining e0 (ls : list (list Z)) (buf nbytes : Z) (i : nat) (pre : list Z) e : Prop := {
  jn_starts : starts e buf pre;
  jn_left : pre ++ join (drop i ls) = join ls;
  jn_keep : keep buf nbytes e0 e;
}.

Lemma getargs_step_ok e0 e ps ls buf nbytes i pre :
  argv_at e0 ps ls buf nbytes → 0 ≤ buf → buf + nbytes ≤ 4294967296 → nbytes < 2147483648 →
  Z.of_nat (length (join ls)) < nbytes → joining e0 ls buf nbytes i pre e →
  ∃ r e', getargs_step (1 + Z.of_nat (length ls))
      (1 + Z.of_nat i, buf + Z.of_nat (length pre), nbytes - Z.of_nat (length pre)) e = Some (r, e') ∧
    match r with
    | inl st => ∃ pre', st = (1 + Z.of_nat (S i), buf + Z.of_nat (length pre'), nbytes - Z.of_nat (length pre')) ∧
        (i < length ls)%nat ∧ joining e0 ls buf nbytes (S i) pre' e'
    | inr res => res = inl (buf + Z.of_nat (length (join ls)), nbytes - Z.of_nat (length (join ls))) ∧
        starts e' buf (join ls) ∧ keep buf nbytes e0 e'
    end.
Proof.
  intros Ha H0 Hb Hnb Hlen [Hs Hl Hk]. unfold getargs_step.
  destruct (Z.ltb_spec (1 + Z.of_nat i) (1 + Z.of_nat (length ls))) as [Hi|Hi].
  2:{ rewrite drop_ge in Hl by lia. simpl in Hl. rewrite app_nil_r in Hl. subst pre.
      eexists (inr _), e. split; [done|]. by split_and!. }
  destruct (lookup_lt_is_Some_2 ls i ltac:(lia)) as [l El]. rewrite (drop_S ls l i El), join_cons in Hl.
  destruct (lookup_lt_is_Some_2 ps i) as [p Ep]; [rewrite (Forall2_length _ _ _ (av_str _ _ _ _ _ Ha)); lia|].
  assert (Z.of_nat (length pre) + Z.of_nat (length l) +
    Z.of_nat (length (match drop (S i) ls with [] => [] | _ => 32 :: join (drop (S i) ls) end)) =
    Z.of_nat (length (join ls))) as Htot by (rewrite <- Hl, !length_app; lia).
  destruct (getargs_copy e ps ls buf nbytes pre i p l _ (argv_keep _ _ _ _ _ _ Hk Ha) H0 Hb Hs Ep El eq_refl ltac:(lia) Hnb)
    as (e1 & E1 & E2 & E3 & K1 & S1).
  erewrite bind_run by exact E1. erewrite bind_run by exact E2. rewrite s32_small by lia.
  destruct (Z.ltb_spec (nbytes - Z.of_nat (length pre)) (Z.of_nat (length l))); [lia|].
  erewrite bind_run by exact E3. pose proof (keep_trans _ _ _ _ _ Hk K1) as Hk1.
  destruct (Z.leb_spec (1 + Z.of_nat (length ls)) (1 + Z.of_nat i + 1)) as [Hlast|Hmore].
  - rewrite drop_ge in Hl by lia. rewrite app_nil_r in Hl. rewrite <- Hl, length_app in *.
    eexists (inr _), e1. split; [done|]. split_and!; [|done|done]. do 2 f_equal; lia.
  - destruct (drop (S i) ls) as [|l1 ls1] eqn:Ed; [apply (f_equal length) in Ed; rewrite length_drop in Ed; simpl in Ed; lia|].
    simpl in Htot. destruct (Z.ltb_spec (nbytes - Z.of_nat (length pre) - Z.of_nat (length l)) 1); [lia|].
    rewrite poke_run.
    destruct (host_store e1 (buf + Z.of_nat (length pre) + Z.of_nat (length l)) 32) as [V2 K2]; [unfold word32; lia|].
    set (e2 := ust8 _ 32 e1) in *. eexists (inl _), e2. split; [done|]. exists ((pre ++ l) ++ [32]).
    rewrite !length_app. simpl length. split; [f_equal; [f_equal|]; lia|]. split; [lia|]. constructor.
    + apply starts_snoc; [|by rewrite length_app, Nat2Z.inj_add, Z.add_assoc, V2].
      eapply starts_keep; [exact K2|done|rewrite length_app; lia|lia|done].
    + by rewrite Ed, <- !app_assoc.
    + eapply keep_trans; [exact Hk1|]. eapply keep_mono; [exact K2|lia..].
Qed.

(** [ece391_getargs] under Linux: when the program's arguments fit, they are put into the
    buffer as one string, separated by single spaces, and nothing else is written. *)
Theorem getargs_joins e ps ls buf nbytes :
  argv_at e ps ls buf nbytes → 0 ≤ buf → buf + nbytes ≤ 4294967296 → nbytes < 2147483648 →
  Z.of_nat (length ls) < 2147483647 → Z.of_nat (length (join ls)) < nbytes →
  ∃ e', ece391_getargs buf nbytes e = Some (0, e') ∧ bstr e' buf (join ls) ∧ keep buf nbytes e e'.
Proof.
  intros Ha H0 Hb Hnb Hls Hlen. unfold ece391_getargs, argw. erewrite bind_run by reflexivity.
  rewrite (av_argc _ _ _ _ _ Ha), s32_small by lia.
  destruct (ploop_ranked (US := E) (getargs_step (1 + Z.of_nat (length ls)))
    (λ n st e1, ∃ i pre, n = Z.of_nat (length ls) - Z.of_nat i ∧ (i ≤ length ls)%nat ∧
       st = (1 + Z.of_nat i, buf + Z.of_nat (length pre), nbytes - Z.of_nat (length pre)) ∧
       joining e ls buf nbytes i pre e1)
    (λ res e', res = inl (buf + Z.of_nat (length (join ls)), nbytes - Z.of_nat (length (join ls))) ∧
       starts e' buf (join ls) ∧ keep buf nbytes e e')
    (Z.of_nat (length ls)) (1, buf, nbytes) e) as (r & e1 & E1 & -> & S1 & K1).
  - intros n st e1 (i & pre & -> & Hi & -> & Hj). split; [lia|].
    destruct (getargs_step_ok e e1 ps ls buf nbytes i pre Ha H0 Hb Hnb Hlen Hj) as (r & e2 & E2 & H2).
    exists r, e2. split; [done|]. destruct r as [st|res]; [|done]. destruct H2 as (pre' & -> & Hlt & Hj').
    eexists. split; [|exists (S i), pre'; split_and!; [reflexivity|lia|done|done]]. lia.
  - exists 0%nat, []. split_and!; [lia|lia|simpl; do 2 f_equal; lia|]. by constructor.
  - lia.
  - erewrite bind_run by exact E1. cbv beta iota. destruct (Z.ltb_spec (nbytes - Z.of_nat (length (join ls))) 1); [lia|].
    rewrite poke_run. eexists. split; [done|].
    destruct (host_store e1 (buf + Z.of_nat (length (join ls))) 0) as [V2 K2]; [unfold word32; lia|]. split.
    + apply bstr_intro; [done|lia| |].
      * apply join_nonzero, Forall_lookup. intros i l Hl.
        destruct (Forall2_lookup_r _ _ _ _ _ (av_str _ _ _ _ _ Ha) Hl) as (p & _ & Hp & _). by eapply bstr_nonzero.
      * intros i Hi. destruct (decide (i = length (join ls))) as [->|]; [rewrite V2; by rewrite lookup_ge_None_2|].
        rewrite K2 by (unfold word32; lia). destruct (lookup_lt_is_Some_2 (join ls) i ltac:(lia)) as [c Hc].
        rewrite (S1 i c Hc). by rewrite Hc.
    + eapply keep_trans; [exact K1|]. eapply keep_mono; [exact K2|lia..].
Qed.

Lemma getargs_overruns e p l buf nbytes :
  argv_at e [p] [l] buf (nbytes + 1) → 0 ≤ buf → buf + nbytes + 1 ≤ 4294967296 → nbytes < 2147483648 →
  Z.of_nat (length l) = nbytes → ∃ e', ece391_getargs buf nbytes e = Some (-1, e') ∧ uld8 (US := E) e' (buf + nbytes) = 0.
Proof.
  intros Ha H0 Hb Hnb Hlen. unfold ece391_getargs, argw. erewrite bind_run by reflexivity.
  rewrite (av_argc _ _ _ _ _ Ha). simpl (1 + _). rewrite s32_small by lia.
  destruct (Forall2_lookup_lr _ _ _ 0 _ _ (av_str _ _ _ _ _ Ha) eq_refl eq_refl) as [Hpl Hd].
  pose proof (av_ptr _ _ _ _ _ Ha 0 p eq_refl) as Ep. simpl in Ep. rewrite Z.add_0_r in Ep.
  destruct (strcpy_host e buf p l Hpl) as (e' & E' & B' & K'); [lia..|].
  destruct (ploop_ranked (US := E) (getargs_step 2) (λ n st e1, n = 0 ∧ st = (1, buf, nbytes) ∧ e1 = e)
    (λ res e1, res = inl (buf + nbytes, 0) ∧ e1 = e') 0 (1, buf, nbytes) e) as (r & e1 & E1 & -> & ->); [|done|lia|].
  - intros n st e1 (-> & -> & ->). split; [done|]. unfold getargs_step. change (1 <? 2) with true. cbv iota.
    unfold argw. erewrite bind_run by reflexivity. replace (start_esp + 4 + 4 * 1) with (start_esp + 8) by lia. rewrite Ep.
    erewrite bind_run by (by apply strlen_host). rewrite s32_small, Hlen, Z.ltb_irrefl by lia.
    erewrite bind_run by exact E'. change (2 <=? 1 + 1) with true. cbv iota. eexists (inr _), e'. split; [done|]. by rewrite Z.sub_diag.
  - exists e'. split; [by erewrite bind_run by exact E1|]. pose proof (bstr_at e' buf l (length l) B' ltac:(lia)) as Hz.
    rewrite Hlen in Hz. rewrite Hz. by rewrite lookup_ge_None_2.
Qed.

(** ** Directories *)

(** What a directory entry is read as: the name, filled up with zeros. *)
Definition entry (l : list Z) (k : nat) : list Z := take k (l ++ replicate 32 0).

Lemma name_loop_ok e from l buf nbytes :
  bstr e from l → 0 ≤ buf → buf + 32 ≤ 4294967296 → 0 < nbytes →
  (from + Z.of_nat (length l) < buf ∨ buf + 32 ≤ from) →
  let k := Z.to_nat (Z.min nbytes 32) in
  ∃ r e', ploop (name_step nbytes) (buf, from, 0) e = Some (r, e') ∧ keep buf (Z.of_nat k) e e' ∧
    if decide (k ≤ length l)%nat then r = inl (Z.of_nat k) ∧ starts e' buf (take k l)
    else r = inr (buf + Z.of_nat (length l), Z.of_nat (length l)) ∧ starts e' buf l.
Proof.
  intros Hl H0 Hb Hn Hd k. pose proof Hl as (_ & Hf0 & Hfl).
  apply (ploop_ranked (US := E) (name_step nbytes)
    (λ n st e1, ∃ i : nat, n = Z.of_nat (length l) - Z.of_nat i ∧ (i ≤ length l)%nat ∧ (i < k)%nat ∧
       st = (buf + Z.of_nat i, from + Z.of_nat i, Z.of_nat i) ∧ starts e1 buf (take i l) ∧ keep buf (Z.of_nat k) e e1)
    (λ r e', keep buf (Z.of_nat k) e e' ∧
       if decide (k ≤ length l)%nat then r = inl (Z.of_nat k) ∧ starts e' buf (take k l)
       else r = inr (buf + Z.of_nat (length l), Z.of_nat (length l)) ∧ starts e' buf l)
    (Z.of_nat (length l))); [| |lia].
  - intros n st e1 (i & -> & Hi & Hik & -> & Hs & Hk). split; [lia|]. unfold name_step. rewrite peek_run.
    assert (bstr e1 from l) as Hl1 by (eapply bstr_keep; [exact Hk|lia|done]).
    rewrite (bstr_at e1 from l i Hl1 Hi). destruct (l !! i) as [c|] eqn:Ec.
    2:{ apply lookup_ge_None in Ec. assert (i = length l) as -> by lia. eexists (inr _), e1. split; [done|].
        split; [done|]. rewrite decide_False by lia. by rewrite take_ge in Hs by lia. }
    pose proof (bstr_nonzero _ _ _ Hl1) as Hz. pose proof (Forall_lookup_1 _ _ _ _ Hz Ec) as Hc0. simpl in Hc0.
    pose proof (lookup_lt_Some _ _ _ Ec) as Hilt.
    change (default 0 (Some c)) with c. rewrite (proj2 (Z.eqb_neq c 0) Hc0), poke_run.
    destruct (host_store e1 (buf + Z.of_nat i) c) as [V2 K2]; [unfold word32; lia|]. set (e2 := ust8 _ c e1) in *.
    assert (uld8 e2 (buf + Z.of_nat i) = c) as V2'.
    { rewrite V2. pose proof (bstr_at e1 from l i Hl1 Hi) as Hb1. rewrite Ec in Hb1. simpl in Hb1. rewrite <- Hb1, uld8_flat.
      apply u8_ld8. }
    assert (starts e2 buf (take (S i) l)) as Hs2.
    { rewrite (take_S_r l i c Ec). apply starts_snoc; [|by rewrite length_take, Nat.min_l by lia].
      eapply starts_keep; [exact K2|done|rewrite length_take; lia|lia|done]. }
    assert (keep buf (Z.of_nat k) e e2) as Hk2 by (eapply keep_trans; [exact Hk|eapply keep_mono; [exact K2|lia..]]).
    destruct (decide (S i = k)) as [Hlast|].
    + exists (inr (inl (Z.of_nat k))), e2. split.
      { destruct (Z.eqb_spec (Z.of_nat i + 1) nbytes); [|destruct (Z.eqb_spec (Z.of_nat i + 1) 32); [|lia]];
          unfold mret, prog_ret; repeat f_equal; lia. }
      split; [done|]. rewrite decide_True by lia. split; [done|]. by rewrite Hlast in Hs2.
    + destruct (Z.eqb_spec (Z.of_nat i + 1) nbytes); [lia|]. destruct (Z.eqb_spec (Z.of_nat i + 1) 32); [lia|].
      eexists (inl _), e2. split; [done|]. exists (Z.of_nat (length l) - Z.of_nat (S i)). split; [lia|].
      exists (S i). split_and!; [lia|lia|lia|do 2 f_equal; lia|done|done].
  - exists 0%nat. split_and!; [lia|lia|lia|do 2 f_equal; lia|by intros i c|done].
Qed.

Lemma pad_loop_ok e l buf nbytes :
  0 ≤ buf → buf + 32 ≤ 4294967296 → 0 < nbytes →
  let k := Z.to_nat (Z.min nbytes 32) in
  (length l < k)%nat → starts e buf l →
  ∃ r e', ploop (pad_step nbytes) (buf + Z.of_nat (length l), Z.of_nat (length l)) e = Some (r, e') ∧
    r = Z.of_nat k ∧ keep buf (Z.of_nat k) e e' ∧ starts e' buf (l ++ replicate (k - length l) 0).
Proof.
  intros H0 Hb Hn k Hlk Hs.
  apply (ploop_ranked (US := E) (pad_step nbytes)
    (λ n st e1, ∃ j : nat, n = Z.of_nat k - Z.of_nat (length l + j) ∧ (length l + j ≤ k)%nat ∧
       st = (buf + Z.of_nat (length l + j), Z.of_nat (length l + j)) ∧ keep buf (Z.of_nat k) e e1 ∧
       starts e1 buf (l ++ replicate j 0))
    _ (Z.of_nat k - Z.of_nat (length l))); [| |lia].
  - intros n st e1 (j & -> & Hj & -> & Hk & Hs1). split; [lia|]. unfold pad_step.
    destruct (decide (length l + j = k)%nat) as [Hlast|].
    + assert ((Z.of_nat (length l + j) <? nbytes) && (Z.of_nat (length l + j) <? 32) = false) as ->.
      { apply andb_false_iff. rewrite !Z.ltb_ge. lia. }
      eexists (inr _), e1. split; [done|]. split_and!; [by rewrite Hlast|done|].
      by replace (k - length l)%nat with j by lia.
    + rewrite !(proj2 (Z.ltb_lt _ _)) by lia. cbn [andb]. rewrite poke_run.
      destruct (host_store e1 (buf + Z.of_nat (length l + j)) 0) as [V2 K2]; [unfold word32; lia|].
      set (e2 := ust8 _ 0 e1) in *. eexists (inl _), e2. split; [done|].
      exists (Z.of_nat k - Z.of_nat (length l + S j)). split; [lia|]. exists (S j). split_and!; [lia|lia|f_equal; lia| |].
      * eapply keep_trans; [exact Hk|eapply keep_mono; [exact K2|lia..]].
      * rewrite replicate_S_end, app_assoc. apply starts_snoc.
        -- eapply starts_keep; [exact K2|done|rewrite length_app, length_replicate; lia|lia|done].
        -- by rewrite length_app, length_replicate.
  - exists 0%nat. rewrite app_nil_r, Nat.add_0_r. split_and!; (done || lia).
Qed.

(** Reading from the descriptor of the directory gives the next entry: its name filled up
    with zeros, or cut, to 32 bytes or to the number of bytes asked for, whichever is less;
    this number is the result, and no other byte is written. *)
Theorem directory_read e fd buf nbytes h d l u1 :
  is_dir fd e = Some h → readdir h (em_u K e) = (Some d, u1) → bstr (set_u K u1 e) d l →
  0 ≤ buf → buf + 32 ≤ 4294967296 → 0 < nbytes → (d + Z.of_nat (length l) < buf ∨ buf + 32 ≤ d) →
  ∃ e', ece391_read fd buf nbytes e = Some (Z.min nbytes 32, e') ∧
    starts e' buf (entry l (Z.to_nat (Z.min nbytes 32))) ∧ keep buf (Z.min nbytes 32) (set_u K u1 e) e'.
Proof.
  intros Hd Hrd Hl H0 Hb Hn Haway. set (k := Z.to_nat (Z.min nbytes 32)).
  assert (Z.min nbytes 32 = Z.of_nat k) as Ek by (unfold k; lia). rewrite Ek.
  unfold ece391_read. erewrite bind_run by reflexivity. rewrite Hd.
  erewrite bind_run by (unfold libc; rewrite Hrd; reflexivity). cbv beta iota. unfold copy_name, entry.
  destruct (name_loop_ok (set_u K u1 e) d l buf nbytes Hl H0 Hb Hn Haway) as (r & e1 & E1 & K1 & H1). fold k in K1, H1.
  erewrite bind_run by exact E1. destruct (decide (k ≤ length l)%nat) as [Hk|Hk].
  - destruct H1 as [-> H1]. exists e1. split; [done|]. by rewrite take_app_le.
  - destruct H1 as [-> H1]. destruct (pad_loop_ok e1 l buf nbytes H0 Hb Hn ltac:(fold k; lia) H1) as (r & e2 & E2 & -> & K2 & S2).
    fold k in E2, K2, S2. exists e2. split; [exact E2|]. split; [|by eapply keep_trans].
    rewrite take_app_ge, take_replicate by lia. by rewrite Nat.min_l by (unfold k; lia).
Qed.
End emul.

(** ** Example *)

#[export] Instance pond_host : HostMem pond_usys.
Proof. constructor; [constructor|]; try done. by intros []. Qed.

(** One directory entry, at 5000; a child that exits with 0. *)
#[export] Instance pond_libc : Libc pond_usys := {|
  opendir u := (Some 1, u);
  readdir _ u := (Some 5000, u);
  closedir _ u := u;
  open_path _ _ u := (3, u);
  close_fd _ u := u;
  mmap_low _ u := (Some 268435456, u);
  spawn _ _ u := (0, u);
|}.

(** A command at 1000, the vector at 3000, two strings. *)
Definition host_text : mem :=
  let m := put_bytes ∅ 1000 (lit "cat  a b"%string ++ [10; 0]) in
  let m := put_bytes m 5000 (lit "frame0.txt"%string ++ [0]) in
  let m := put_bytes m 5100 (lit "c"%string ++ [0]) in
  let m := st32 (X := flat) m 3000 3 in
  st32 (X := flat) (st32 (X := flat) m 3008 5000) 3012 5100.

Definition host_emu : emu pond_usys := Emu pond_usys (Pond host_text ∅) (Some 1) 3 (-1).

Lemma host_bstr s l :
  Forall (λ c, 0 < c < 256) l → 0 ≤ s → s + Z.of_nat (length l) < 4294967296 →
  load_bytes (X := flat) host_text s (Z.of_nat (S (length l))) = l ++ [0] → bstr (US := emu_usys pond_usys) host_emu s l.
Proof.
  intros Hl Hs Hn E. split; [|done]. apply (load_cstring (X := flat) host_text s l (S (length l)) Hl); [lia|].
  rewrite E, take_ge; [done|]. rewrite length_app. simpl. lia.
Qed.

Local Ltac in_text :=
  apply host_bstr; [apply (bool_decide_unpack _); vm_compute; exact I|lia|vm_compute; reflexivity|vm_compute; reflexivity].

Lemma host_command : bstr (US := emu_usys pond_usys) host_emu 1000 (lit "cat  a b"%string ++ [10]).
Proof. in_text. Qed.

Lemma host_name : bstr (US := emu_usys pond_usys) host_emu 5000 (lit "frame0.txt"%string).
Proof. in_text. Qed.

Lemma host_arg : bstr (US := emu_usys pond_usys) host_emu 5100 (lit "c"%string).
Proof. in_text. Qed.

Lemma execute_splits_witness :
  ∃ args e1, Forall2 (bstr (US := emu_usys pond_usys) e1) args
      [lit "./cat"%string; lit "a"%string; lit "b"%string] ∧ (length args < 1024)%nat ∧
    ece391_execute pond_usys 2000 1000 host_emu = Some (0, set_u pond_usys (em_u pond_usys e1) e1).
Proof.
  assert (1000 + Z.of_nat (length (lit "cat  a b"%string ++ [10])) < 2000 ∨ 2000 + 1026 ≤ 1000) as Hd
    by (left; vm_compute; reflexivity).
  pose proof (execute_splits pond_usys host_emu 1000 _ 2000 host_command ltac:(lia) ltac:(lia) Hd) as H.
  rewrite decide_True in H by (simpl; lia). destruct H as (args & e1 & H1 & H2 & _ & H3).
  exists args, e1. split; [exact H1|]. split; [exact H2|exact H3].
Defined.

Lemma getargs_joins_witness :
  ∃ e', ece391_getargs pond_usys 3000 6000 64 host_emu = Some (0, e') ∧
    bstr (US := emu_usys pond_usys) e' 6000 (lit "frame0.txt c"%string).
Proof.
  destruct (getargs_joins pond_usys 3000 host_emu [5000; 5100] [lit "frame0.txt"%string; lit "c"%string] 6000 64)
    as (e' & H1 & H2 & _); [|lia|lia|lia|simpl; lia|simpl; lia|exists e'; split; [exact H1|exact H2]].
  constructor.
  - vm_compute. reflexivity.
  - intros [|[|i]] p; simpl; [intros [= <-]|intros [= <-]|done]; vm_compute; reflexivity.
  - constructor; [split; [exact host_name|simpl; lia]|]. constructor; [split; [exact host_arg|simpl; lia]|constructor].
  - simpl. lia.
  - simpl. lia.
Defined.

Lemma directory_read_witness :
  ∃ e', ece391_read pond_usys 3 7000 32 host_emu = Some (32, e') ∧
    starts pond_usys e' 7000 (lit "frame0.txt"%string ++ replicate 22 0).
Proof.
  destruct (directory_read pond_usys host_emu 3 7000 32 1 5000 (lit "frame0.txt"%string) (em_u pond_usys host_emu))
    as (e' & H1 & H2 & _); [reflexivity|reflexivity|exact host_name|lia|lia|lia|simpl; lia|exists e'; split; [exact H1|exact H2]].
Defined.
