(* ===== verification/Grep.v ===== *)
(** * grep prints the lines that match

    ece391grep.c reads a file through a buffer of 1024 bytes, cuts it into lines in place, and
    keeps the beginning of a line that the buffer does not complete.  [grep_output] says what
    it should print; [grep_file] that [do_one_file] prints it. *)

From Stdlib Require Import String.
From S2P Require Import Prelude Mem Lib Kstate Screen User Support Client.

(** ** What grep should print *)

Fixpoint lines (text : list Z) : list (list Z) :=
  match text with
  | [] => [[]]
  | c :: text =>
      if c =? 10 then [] :: lines text
      else match lines text with l :: ls => (c :: l) :: ls | [] => [[c]] end
  end.

Definition contains (pat l : list Z) : bool :=
  existsb (λ i, bool_decide (pat `prefix_of` drop i l)) (seq 0 (length l)).

Definition grep_line (pat name l : list Z) : list Z :=
  if contains pat l then name ++ [58] ++ l ++ [10] else [].

Definition grep_output (pat name text : list Z) : list Z := concat (grep_line pat name <$> lines text).

(** Every line fits into the buffer. *)
Definition short (text : list Z) : Prop := Forall (λ l, (length l < 1024)%nat) (lines text).

Lemma lines_cons l t : 10 ∉ l → lines (l ++ 10 :: t) = l :: lines t.
Proof.
  induction l as [|c l IH]; intros Hl; [done|]. apply not_elem_of_cons in Hl as [Hc Hl]. simpl.
  destruct (Z.eqb_spec c 10); [done|]. by rewrite IH.
Qed.

Lemma lines_prefix l t : 10 ∉ l → ∃ h ls, lines t = h :: ls ∧ lines (l ++ t) = (l ++ h) :: ls.
Proof.
  induction l as [|c l IH]; intros Hl.
  - destruct t as [|c t]; [by exists [], []|]. simpl.
    case_test; [by eexists _, _|]. destruct (lines t); by eexists _, _.
  - apply not_elem_of_cons in Hl as [Hc Hl]. destruct (IH Hl) as (h & ls & E1 & E2). exists h, ls. split; [done|].
    simpl. rewrite E2. by destruct (Z.eqb_spec c 10).
Qed.

Lemma lines_one l : 10 ∉ l → lines l = [l].
Proof.
  intros Hl. destruct (lines_prefix l [] Hl) as (h & ls & E & E'). simpl in E. injection E as <- <-.
  by rewrite !app_nil_r in E'.
Qed.

(** A line is cut at its newline. *)
Lemma line_cut (b : list Z) : ∃ l, (10 ∉ l) ∧ (b = l ∨ ∃ b', b = l ++ 10 :: b').
Proof.
  induction b as [|c b (l & Hl & IH)]; [exists []; split; [apply not_elem_of_nil|by left]|].
  destruct (decide (c = 10)) as [->|Hc].
  - exists []. split; [apply not_elem_of_nil|]. right. by exists b.
  - exists (c :: l). split; [by apply not_elem_of_cons|].
    destruct IH as [->|[b' ->]]; [by left|right]. by exists b'.
Qed.

Lemma contains_spec pat l :
  contains pat l = true ↔ ∃ i, (i < length l)%nat ∧ pat `prefix_of` drop i l.
Proof.
  unfold contains. rewrite existsb_exists. split.
  - intros (i & Hi%in_seq & H%bool_decide_eq_true). exists i. split; [lia|done].
  - intros (i & Hi & H). exists i. rewrite in_seq, bool_decide_eq_true. split; [lia|done].
Qed.

Lemma output_cons pat name l t :
  10 ∉ l → grep_output pat name (l ++ 10 :: t) = grep_line pat name l ++ grep_output pat name t.
Proof. intros Hl. unfold grep_output. by rewrite lines_cons. Qed.

Lemma output_one pat name l : 10 ∉ l → grep_output pat name l = grep_line pat name l.
Proof. intros Hl. unfold grep_output. rewrite lines_one by done. apply app_nil_r. Qed.

Lemma short_tail l t : 10 ∉ l → short (l ++ 10 :: t) → short t.
Proof. intros Hl. unfold short. rewrite lines_cons by done. by intros [_ H]%Forall_cons. Qed.

Lemma short_line l t : 10 ∉ l → short (l ++ t) → (length l < 1024)%nat.
Proof.
  intros Hl. destruct (lines_prefix l t Hl) as (h & ls & _ & E). unfold short. rewrite E.
  intros [H _]%Forall_cons. rewrite length_app in H. lia.
Qed.

(** ** The program *)

Definition grep_lits : list (list Z) := [lit ":"%string; [10]].

Section grep.
Context {US : Usys} {UM : UsysMem} {RO : Rodata} {T : Tty} {FI : FileIO} (junk : Z).
Implicit Types (u : ust) (l : list Z).

(** The search string at [s], the file's name at [fname], the buffer [data]. *)
Context (pat name : list Z) (s fname data : Z).
Hypothesis Hpat : pat ≠ [] ∧ Forall (λ c, 0 < c < 128) pat.
Hypothesis Hdata : user_range data 1025.
Hypothesis Hs : s + Z.of_nat (length pat) < data ∨ data + 1025 ≤ s.
Hypothesis Hfname : fname + Z.of_nat (length name) < data ∨ data + 1025 ≤ fname.
Hypothesis Hlits : away grep_lits data 1025.

Record ctx u : Prop := {
  gc_live : live u;
  gc_s : ucstr u s pat;
  gc_fname : ucstr u fname name;
  gc_lits : lits grep_lits u;
}.

(** From [u] to [u'] the program wrote [out], changed only its buffer, and files that are
    being read stay where they are. *)
Record went (out : list Z) u u' : Prop := {
  gw_ctx : ctx u';
  gw_wrote : wrote out u u';
  gw_read : ∀ fd text pos, reading fd text pos u → reading fd text pos u';
}.

(** The bytes [l] are at [a]. *)
Definition bytes_at u (a : Z) l : Prop := ∀ i x, l !! i = Some x → uld8 u (a + Z.of_nat i) = x.

Lemma ctx_same u u' : ctx u → live u' → same_but data 1025 u u' → ctx u'.
Proof.
  intros [H1 H2 H3 H4] Hu S. constructor; [done|by eapply ucstr_same|by eapply ucstr_same|by eapply lits_same].
Qed.

Lemma went_refl u : ctx u → went [] u u.
Proof. intros Hu. constructor; [done|apply wrote_refl|done]. Qed.

Lemma went_trans l1 l2 u1 u2 u3 : went l1 u1 u2 → went l2 u2 u3 → went (l1 ++ l2) u1 u3.
Proof. intros [A1 A2 A3] [B1 B2 B3]. constructor; [done|by eapply wrote_trans|auto]. Qed.

Lemma bytes_same u u' a n b l :
  same_but a n u u' → bytes_at u b l → user_range b (Z.of_nat (length l)) →
  (b + Z.of_nat (length l) ≤ a ∨ a + n ≤ b) → bytes_at u' b l.
Proof.
  intros S H Hr Hd i x Hx. pose proof (lookup_lt_Some _ _ _ Hx). unfold user_range in Hr.
  rewrite S; [by apply H|unfold user; lia|lia].
Qed.

Lemma bytes_cstr u a l :
  bytes_at u a l → uld8 u (a + Z.of_nat (length l)) = 0 → Forall (λ c, 0 < c < 256) l →
  user_range a (Z.of_nat (length l) + 1) → ucstr u a l.
Proof.
  intros H H0 Hc Hr. split; [split|done]; [|exact H0].
  intros i x Hx. split; [by apply H|]. rewrite Forall_forall in Hc.
  specialize (Hc x (list_elem_of_lookup_2 _ _ _ Hx)). lia.
Qed.

Lemma bytes_app u a l1 l2 :
  bytes_at u a (l1 ++ l2) ↔ bytes_at u a l1 ∧ bytes_at u (a + Z.of_nat (length l1)) l2.
Proof.
  split.
  - intros H. split; intros i x Hx; [apply H; by apply lookup_app_l_Some|].
    replace (a + Z.of_nat (length l1) + Z.of_nat i) with (a + Z.of_nat (length l1 + i)) by lia.
    apply H. by rewrite lookup_app_r, Nat.add_comm, Nat.add_sub by lia.
  - intros [H1 H2] i x [Hx|[Hi Hx]]%lookup_app_Some; [by apply H1|].
    replace (a + Z.of_nat i) with (a + Z.of_nat (length l1) + Z.of_nat (i - length l1)) by lia. by apply H2.
Qed.

Lemma bytes_take u a l n : bytes_at u a l → bytes_at u a (take n l).
Proof. rewrite <- (take_drop n l) at 1. by intros [H _]%bytes_app. Qed.

(** Files are read on after output. *)
Lemma write_reading u a n u' fd text pos :
  live u → user_range a (Z.of_nat n + 1) →
  ((_ ← ece391_write 1 a (Z.of_nat n); mret ()) : prog ()) u = Some ((), u') →
  reading fd text pos u → reading fd text pos u'.
Proof.
  intros Hl Hn E Hrd. unfold ece391_write, user_range, mbind, prog_bind in *.
  destruct (decide (n = 0%nat)) as [->|Hne].
  - change (Z.of_nat 0) with 0 in *.
    rewrite (do_call_eq SYS_WRITE 1 a 0 u (-1) u) in E; [by injection E as <-|lia|lia|lia|by apply tty_write_none].
  - destruct (tty_write u a (Z.of_nat n) Hl) as (u1 & E1 & _); [lia|unfold user_range; lia|].
    rewrite (do_call_eq SYS_WRITE 1 a (Z.of_nat n) u (Z.of_nat n) u1) in E by (exact E1 || lia).
    injection E as <-. eapply (io_write u a (Z.of_nat n) u1); [done|lia|unfold user_range; lia|done|exact E1].
Qed.

(** Printing a string, storing into the buffer. *)
Lemma went_puts u a l :
  ctx u → ucstr u a l → ∃ u', ece391_fdputs 1 a u = Some ((), u') ∧ went l u u' ∧ same_but 0 0 u u'.
Proof.
  intros Hu Ha. destruct (fdputs_ok u a l (gc_live _ Hu) Ha) as (u' & E & (R & W & _) & S).
  exists u'. split; [exact E|]. split; [|exact S].
  constructor; [eapply ctx_same; [done|done|by apply same_none]|done|]. intros fd text pos.
  apply (write_reading u a (length l)); [apply Hu|apply Ha|].
  rewrite <- E. unfold ece391_fdputs, mbind, prog_bind. by rewrite (strlen_ok u a l Ha).
Qed.

Lemma went_poke u i v :
  ctx u → 0 ≤ i ≤ 1024 →
  let u' := ust8 (data + i) v u in
  went [] u u' ∧ same_but (data + i) 1 u u' ∧ uld8 u' (data + i) = u8 v.
Proof.
  intros Hu Hi u'. pose proof (gc_live _ Hu) as Hl. unfold user_range in Hdata.
  destruct (tty_store u (data + i) v Hl) as (R & W & _ & L & S); [unfold user; lia|]. fold u' in R, W, L, S.
  split_and!; [|done|done]. constructor; [|done|].
  - eapply ctx_same; [done|done|]. eapply same_but_mono; [exact S|lia].
  - intros fd text pos Hrd. apply (io_mem u _ (data + i) 1); [done|unfold user_range; lia| |done].
    apply unch_st8. exists 0. split; [lia|]. by rewrite Z.add_0_r.
Qed.

(** ** Finding the end of a line *)

Lemma line_end_ok u ls l b last :
  bytes_at u (data + ls) b → last = ls + Z.of_nat (length b) → (10 ∉ l) →
  (b = l ∨ ∃ b', b = l ++ 10 :: b') → 0 ≤ last - ls < 4294967296 →
  grep_line_end data last ls u = Some (ls + Z.of_nat (length l), u).
Proof.
  intros Hb -> Hl Hc Hlt. unfold grep_line_end.
  assert (length l ≤ length b)%nat as Hle by (destruct Hc as [->|[b' ->]]; rewrite ?length_app; lia).
  edestruct (ploop_total (λ e, if e <? ls + Z.of_nat (length b) then c ← peekb (data + e);
        mret (if c =? 10 then inr e else inl (e + 1)) else mret (inr e))
    (λ e u', u' = u ∧ ls ≤ e ≤ ls + Z.of_nat (length l))
    (λ e u', u' = u ∧ e = ls + Z.of_nat (length l)) (λ e _, ls + Z.of_nat (length b) - e) ls u)
    as (r & u' & E & -> & ->); [|split; [done|lia]|lia|exact E].
  intros e u' (-> & He). split; [lia|]. destruct (Z.ltb_spec e (ls + Z.of_nat (length b))) as [Hlt'|Hge].
  2:{ exists (inr e), u. split_and!; [done|done|]. lia. }
  unfold peekb, mbind, prog_bind. eexists _, u. split; [reflexivity|].
  assert (∀ j x, b !! j = Some x → e = ls + Z.of_nat j → uld8 u (data + e) = x) as Hx.
  { intros j x Hj ->. rewrite Z.add_assoc. by apply Hb. }
  destruct (decide (e = ls + Z.of_nat (length l))) as [Ee|Hne].
  - destruct Hc as [->|[b' ->]]; [lia|].
    rewrite (Hx (length l) 10); [done|by rewrite list_lookup_middle|done].
  - destruct (lookup_lt_is_Some_2 l (Z.to_nat (e - ls)) ltac:(lia)) as [x Hj].
    assert (x ≠ 10) by (intros ->; by apply Hl, (list_elem_of_lookup_2 _ _ _ Hj)).
    rewrite (Hx (Z.to_nat (e - ls)) x); [|destruct Hc as [->|[b' ->]]; [done|by apply lookup_app_l_Some]|lia].
    destruct (Z.eqb_spec x 10); [done|]. split_and!; (done || lia).
Qed.

(** ** Searching a line *)

Lemma prefix_nth (p l : list Z) :
  (∀ i, (i < length p)%nat → nth i l 0 = nth i p 0) → Forall (λ c, 0 < c) p → p `prefix_of` l.
Proof.
  revert l. induction p as [|c p IH]; intros l H Hp; [apply prefix_nil|].
  inversion Hp as [|?? Hc Hp']; subst. pose proof (H 0%nat ltac:(simpl; lia)) as H0. simpl in H0.
  destruct l as [|d l]; [simpl in H0; lia|]. simpl in H0. subst d. apply prefix_cons, IH; [|done].
  intros i Hi. apply (H (S i)). simpl. lia.
Qed.

Lemma prefix_nth_inv (p l : list Z) i : p `prefix_of` l → (i < length p)%nat → nth i l 0 = nth i p 0.
Proof. intros [k ->] Hi. by rewrite app_nth1. Qed.

Lemma strncmp_ok u a l :
  ucstr u a l → ucstr u s pat →
  ∃ d, ece391_strncmp a s (Z.of_nat (length pat)) u = Some (d, u) ∧ (d = 0 ↔ pat `prefix_of` l).
Proof.
  intros Ha Hq. destruct Hpat as [Hne Hpos]. unfold ece391_strncmp.
  assert (0 < Z.of_nat (length pat)) as Hlen by (destruct pat; [done|simpl; lia]).
  destruct (Z.eqb_spec (Z.of_nat (length pat)) 0); [lia|].
  assert (∀ i, (i < length pat)%nat → nth i pat 0 ≠ 0) as Hnz.
  { intros i Hi. destruct (lookup_lt_is_Some_2 pat i Hi) as [x Hx]. rewrite (nth_lookup_Some _ _ _ _ Hx).
    rewrite Forall_lookup in Hpos. specialize (Hpos i x Hx). simpl in Hpos. lia. }
  pose proof Ha as [_ Ra]. pose proof Hq as [_ Rq]. unfold user_range in Ra, Rq.
  edestruct (ploop_total (λ '(s1, s2, n), x ← peekb s1; y ← peekb s2;
       mret (if x =? y then if (x =? 0) || (u32 (n - 1) =? 0) then inr 0
               else inl (u32 (s1 + 1), u32 (s2 + 1), u32 (n - 1)) else inr (x - y)))
    (λ '(s1, s2, n) u', u' = u ∧ ∃ j, (j < length pat)%nat ∧ (j ≤ length l)%nat ∧ s1 = a + Z.of_nat j ∧ s2 = s + Z.of_nat j ∧
       n = Z.of_nat (length pat) - Z.of_nat j ∧ ∀ i, (i < j)%nat → nth i l 0 = nth i pat 0)
    (λ d u', u' = u ∧ (d = 0 ↔ pat `prefix_of` l)) (λ '(_, _, n) _, n) (a, s, Z.of_nat (length pat)) u)
    as (d & u' & E & -> & H); [| |lia|by exists d].
  2:{ split; [done|]. exists 0%nat. split_and!; lia. }
  intros [[s1 s2] n0] u' (-> & j & Hj & Hjl & -> & -> & -> & Heq). split; [lia|].
  unfold peekb, mbind, prog_bind. eexists _, u. split; [reflexivity|].
  rewrite (ucstr_byte u a l j Ha), (ucstr_byte u s pat j Hq) by lia. rewrite !u32_small by lia.
  destruct (Z.eqb_spec (nth j l 0) (nth j pat 0)) as [Ej|Nj].
  - assert (nth j l 0 ≠ 0) as Hjz by (rewrite Ej; by apply Hnz).
    assert (j < length l)%nat by (destruct (decide (j < length l)%nat); [done|]; rewrite nth_overflow in Hjz by lia; done).
    assert (∀ i, (i < S j)%nat → nth i l 0 = nth i pat 0) as Heq'.
    { intros i Hi. destruct (decide (i = j)) as [->|]; [done|]. apply Heq. lia. }
    destruct (Z.eqb_spec (nth j l 0) 0); [done|]. simpl.
    destruct (Z.eqb_spec (Z.of_nat (length pat) - Z.of_nat j - 1) 0).
    + split; [done|]. split; [|done]. intros _. apply prefix_nth; [intros i Hi; apply Heq'; lia|].
      eapply Forall_impl; [exact Hpos|]. simpl. lia.
    + split; [|lia]. split; [done|]. exists (S j). split_and!; try lia. exact Heq'.
  - split; [done|]. split; [lia|]. intros Hp. by pose proof (prefix_nth_inv _ _ j Hp Hj).
Qed.

(** The string that starts inside a string. *)
Lemma ucstr_drop u a l i : ucstr u a l → (i ≤ length l)%nat → ucstr u (a + Z.of_nat i) (drop i l).
Proof.
  intros [[H H0] Hr] Hi. split; [split|].
  - intros j x Hx. rewrite lookup_drop in Hx. rewrite <- Z.add_assoc, <- Nat2Z.inj_add. by apply H.
  - rewrite length_drop. by replace (a + Z.of_nat i + Z.of_nat (length l - i)) with (a + Z.of_nat (length l)) by lia.
  - unfold user_range in *. rewrite length_drop. lia.
Qed.

Lemma ucstr_kept u u' a l : same_but 0 0 u u' → ucstr u a l → ucstr u' a l.
Proof. intros S H. eapply ucstr_same; [exact S| |exact H]. destruct H as [_ H]. unfold user_range in H. lia. Qed.

(** Printing a line that matches. *)
Lemma hit_ok u a l :
  ctx u → ucstr u a l →
  ∃ u', (_ ← ece391_fdputs 1 fname; _ ← puts1 (lit ":"%string); _ ← ece391_fdputs 1 a; _ ← puts1 [10];
         mret (inr () : Z + ())) u = Some (inr (), u') ∧
    went (name ++ [58] ++ l ++ [10]) u u' ∧ same_but 0 0 u u'.
Proof.
  intros Hu Ha. unfold puts1.
  destruct (went_puts u fname name Hu (gc_fname _ Hu)) as (u1 & E1 & W1 & S1).
  destruct (went_puts u1 (str (lit ":"%string)) [58]) as (u2 & E2 & W2 & S2);
    [apply W1|apply (gc_lits _ (gw_ctx _ _ _ W1)); by apply (bool_decide_unpack _)|].
  destruct (went_puts u2 a l) as (u3 & E3 & W3 & S3); [apply W2|by eapply ucstr_kept, ucstr_kept|].
  destruct (went_puts u3 (str [10]) [10]) as (u4 & E4 & W4 & S4);
    [apply W3|apply (gc_lits _ (gw_ctx _ _ _ W3)); by apply (bool_decide_unpack _)|].
  exists u4. rewrite (bind_run _ _ _ _ _ E1), (bind_run _ _ _ _ _ E2), (bind_run _ _ _ _ _ E3), (bind_run _ _ _ _ _ E4).
  split; [done|]. split.
  - exact (went_trans _ _ _ _ _ W1 (went_trans _ _ _ _ _ W2 (went_trans _ _ _ _ _ W3 W4))).
  - eapply same_but_trans; [exact S1|]. eapply same_but_trans; [exact S2|]. by eapply same_but_trans.
Qed.

Lemma search_ok u ls l :
  ctx u → ucstr u (data + ls) l →
  ∃ u', grep_search s fname data (Z.of_nat (length pat)) ls (ls + Z.of_nat (length l)) u = Some ((), u') ∧
    went (grep_line pat name l) u u' ∧ same_but 0 0 u u'.
Proof.
  intros Hu Hl. pose proof (gc_s _ Hu) as Hsp. pose proof Hl as [_ Rl]. pose proof Hsp as [_ Rs].
  unfold user_range in Rl, Rs. destruct Hpat as [Hne Hpos].
  assert (0 < nth 0 pat 0 < 128) as H0.
  { destruct pat as [|c p]; [done|]. by inversion Hpos; subst. }
  unfold grep_search.
  match goal with |- context [ploop ?b ls u] => edestruct (ploop_total b
    (λ c u', u' = u ∧ ∃ i, c = ls + Z.of_nat i ∧ (i ≤ length l)%nat ∧
       ∀ j, (j < i)%nat → ¬ pat `prefix_of` drop j l)
    (λ _ u', went (grep_line pat name l) u u' ∧ same_but 0 0 u u')
    (λ c _, ls + Z.of_nat (length l) - c) ls u) as ([] & u' & E & H) end;
    [| |lia|by exists u'].
  2:{ split; [done|]. exists 0%nat. split_and!; [lia|lia|]. intros j Hj. lia. }
  intros c u' (-> & i & -> & Hi & Hno). split; [lia|].
  destruct (Z.ltb_spec (ls + Z.of_nat i) (ls + Z.of_nat (length l))) as [Hlt|Hge].
  2:{ exists (inr ()), u. split; [done|]. unfold grep_line.
    destruct (contains pat l) eqn:Ec; [|split; [by apply went_refl|done]].
    apply contains_spec in Ec as (j & Hj & Hp). exfalso. apply (Hno j); [lia|done]. }
  pose proof (ucstr_byte u s pat 0 Hsp ltac:(lia)) as B0. rewrite Z.add_0_r in B0.
  pose proof (ucstr_byte u (data + ls) l i Hl Hi) as Bi. rewrite <- Z.add_assoc in Bi.
  assert (s8 (nth 0 pat 0) = nth 0 pat 0) as E8 by (unfold s8; rewrite Z.mod_small; lia).
  rewrite !peek_run, B0, Bi, E8.
  assert (∀ u1, u1 = u → ¬ pat `prefix_of` drop i l → u1 = u ∧ (∃ i0, ls + Z.of_nat i + 1 = ls + Z.of_nat i0 ∧
    (i0 ≤ length l)%nat ∧ ∀ j, (j < i0)%nat → ¬ pat `prefix_of` drop j l)) as Hnext.
  { intros u1 -> Hn. split; [done|]. exists (S i). split_and!; [lia|lia|].
    intros j Hj. destruct (decide (j = i)) as [->|]; [done|]. apply Hno. lia. }
  destruct (Z.eqb_spec (nth 0 pat 0) (nth i l 0)) as [Ei|Ni].
  - rewrite u32_small by lia.
    destruct (strncmp_ok u (data + ls + Z.of_nat i) (drop i l)) as (d & Ed & Hd);
      [by apply ucstr_drop|done|]. rewrite <- Z.add_assoc in Ed.
    rewrite (bind_run _ _ _ _ _ Ed).
    destruct (Z.eqb_spec d 0) as [E0|N0].
    + destruct (hit_ok u (data + ls) l Hu Hl) as (u2 & E2 & W2 & S2).
      exists (inr ()), u2. split; [exact E2|]. unfold grep_line.
      rewrite (proj2 (contains_spec pat l)); [done|]. exists i. split; [lia|]. by apply Hd.
    + exists (inl (ls + Z.of_nat i + 1)), u. split; [done|]. split; [|lia]. apply Hnext; [done|].
      intros Hp%Hd. done.
  - exists (inl (ls + Z.of_nat i + 1)), u. split; [done|]. split; [|lia]. apply Hnext; [done|].
    intros Hp. apply Ni. pose proof (prefix_nth_inv _ _ 0 Hp) as Hq. rewrite nth_skipn, Nat.add_0_r in Hq.
    symmetry. apply Hq. destruct pat; [done|simpl; lia].
Qed.

(** ** Moving the beginning of a line to the front *)

Lemma strcpy_down u ls b :
  ctx u → ucstr u (data + ls) b → 1 ≤ ls → ls + Z.of_nat (length b) ≤ 1024 →
  ∃ u', ece391_strcpy data (data + ls) u = Some ((), u') ∧ went [] u u' ∧ bytes_at u' data b ∧
    same_but data (Z.of_nat (length b) + 1) u u'.
Proof.
  intros Hu Hb Hls Hle. pose proof Hdata as Hd. unfold user_range in Hd. unfold ece391_strcpy.
  match goal with |- context [ploop ?f _ u] => edestruct (ploop_total f
    (λ '(d, p) u', ∃ j, (j ≤ length b)%nat ∧ d = data + Z.of_nat j ∧ p = data + ls + Z.of_nat j ∧ went [] u u' ∧
       same_but data (Z.of_nat j) u u' ∧ bytes_at u' data (take j b))
    (λ _ u', went [] u u' ∧ bytes_at u' data b ∧ same_but data (Z.of_nat (length b) + 1) u u')
    (λ '(d, _) _, data + Z.of_nat (length b) - d) (data, data + ls) u) as ([] & u' & E & H) end;
    [| |lia|by exists u'].
  2:{ exists 0%nat. split_and!; [lia|lia|lia|by apply went_refl|done|]. intros i x. by rewrite take_0. }
  intros [d p] u1 (j & Hj & -> & -> & W & S & Hb1). split; [lia|]. rewrite peek_run, poke_run.
  pose proof (ucstr_byte u (data + ls) b j Hb Hj) as Bj.
  rewrite (S (data + ls + Z.of_nat j)), Bj by (unfold user; lia).
  destruct (went_poke u1 (Z.of_nat j) (nth j b 0) (gw_ctx _ _ _ W) ltac:(lia)) as (W2 & S2 & L2).
  set (u2 := ust8 _ _ u1) in *. pose proof (went_trans [] [] _ _ _ W W2) as W3. simpl in W3.
  assert (same_but data (Z.of_nat j + 1) u u2) as S3.
  { eapply same_but_trans; (eapply same_but_mono; [eassumption|lia]). }
  assert (bytes_at u2 data (take j b)) as Hb2.
  { eapply bytes_same; [exact S2|exact Hb1|..]; rewrite ?length_take; unfold user_range; lia. }
  eexists _, u2. split; [reflexivity|]. destruct Hb as [[Hbb _] _].
  destruct (decide (j = length b)) as [->|Hne].
  - rewrite nth_overflow by lia. simpl. split_and!; [done| |done]. by rewrite take_ge in Hb2 by lia.
  - destruct (lookup_lt_is_Some_2 b j ltac:(lia)) as [x Hx]. destruct (Hbb j x Hx) as [Hld Hx0].
    rewrite (nth_lookup_Some _ _ _ _ Hx) in *. destruct (Z.eqb_spec x 0); [done|].
    rewrite !u32_small by lia. split; [|lia]. exists (Datatypes.S j).
    split_and!; [lia|lia|lia|done|by replace (Z.of_nat (Datatypes.S j)) with (Z.of_nat j + 1) by lia|].
    rewrite (take_S_r _ _ _ Hx). apply bytes_app. split; [done|].
    rewrite length_take. intros [|i] y; [|done]. intros [= <-].
    rewrite Z.add_0_r. replace (length b `min` j)%nat with j by lia. rewrite Nat.min_l by lia. rewrite L2.
    apply u8_small. rewrite <- Hld. apply ld8_bound.
Qed.

(** ** The lines of a full buffer *)

Definition out (text : list Z) : list Z := grep_output pat name text.

(** What is in the buffer from [ls] on: [b], after which the file goes on with [rest]. *)
Record pending (rest : list Z) (last ls : Z) u b : Prop := {
  pd_ctx : ctx u;
  pd_bytes : bytes_at u (data + ls) b;
  pd_last : 0 ≤ ls ∧ ls + Z.of_nat (length b) = last;
  pd_chars : Forall (λ c, 0 < c < 256) b;
  pd_short : short (b ++ rest);
  pd_guard : uld8 u (data + 1024) ≠ 10;
}.

(** The line [l] is terminated in the buffer, and searched. *)
Lemma line_ok rest last ls u b l :
  pending rest last ls u b → last ≤ 1024 → (10 ∉ l) → (b = l ∨ ∃ b', b = l ++ 10 :: b') →
  let u1 := ust8 (data + (ls + Z.of_nat (length l))) 0 u in
  went [] u u1 ∧ ucstr u1 (data + ls) l ∧ uld8 u1 (data + 1024) ≠ 10 ∧
  same_but (data + (ls + Z.of_nat (length l))) 1 u u1.
Proof.
  intros [Hu Hb [Hls Hlast] Hc _ Hg] Hle Hl Hcut u1. pose proof Hdata as Hd. unfold user_range in Hd.
  assert (∃ t, b = l ++ t) as [t ->] by (destruct Hcut as [->|[b' ->]]; [exists []; by rewrite app_nil_r|eauto]).
  rewrite length_app in Hlast. apply bytes_app in Hb as [Hb _]. apply Forall_app in Hc as [Hc _].
  destruct (went_poke u (ls + Z.of_nat (length l)) 0 Hu ltac:(lia)) as (W & S & L). fold u1 in W, S, L.
  split_and!; [done| | |done].
  - apply bytes_cstr; [|by rewrite <- Z.add_assoc|done|unfold user_range; lia].
    eapply bytes_same; [exact S|done|unfold user_range; lia|lia].
  - destruct (decide (ls + Z.of_nat (length l) = 1024)) as [E|Hne]; [by rewrite <- E, L|].
    rewrite S; [done|unfold user; lia|lia].
Qed.

Lemma pending_nil rest u : ctx u → short rest → uld8 u (data + 1024) ≠ 10 → pending rest 0 0 u [].
Proof. intros. constructor; [done|by intros i x|simpl; lia|constructor|done|done]. Qed.

(** Where the loop over the lines stands: [o] is written, [b] still in the buffer. *)
Definition at_line (text rest : list Z) (last : Z) u0 ls u : Prop :=
  ∃ b o, pending rest last ls u b ∧ went o u0 u ∧ text = o ++ out (b ++ rest) ∧ ls ≤ last.

(** Where it ends: [tail] is at the front of the buffer. *)
Definition lines_done (text rest : list Z) (cnt : Z) u0 (r : Z) u : Prop :=
  ∃ tail o, r = Z.of_nat (length tail) ∧ went o u0 u ∧ text = o ++ out (tail ++ rest) ∧
    pending rest (Z.of_nat (length tail)) 0 u tail ∧ (length tail < 1024)%nat ∧ (cnt = 0 → tail = []).

(** The buffer ends inside a line, which is moved to the front. *)
Lemma line_moves text rest last cnt u0 o ls u b :
  pending rest last ls u b → last ≤ 1024 → went o u0 u → text = o ++ out (b ++ rest) → (10 ∉ b) →
  cnt ≠ 0 → ls ≠ 0 →
  ∃ u', ece391_strcpy data (data + ls) (ust8 (data + last) 0 u) = Some ((), u') ∧
    lines_done text rest cnt u0 (last - ls) u'.
Proof.
  intros Hp Hle W Ho Hb Hcnt Hls. pose proof Hdata as Hd. unfold user_range in Hd.
  destruct (line_ok rest last ls u b b Hp Hle Hb (or_introl eq_refl)) as (W1 & C1 & G1 & _).
  destruct Hp as [_ _ [Hls0 Hlast] Hc Hsh _]. rewrite Hlast in *.
  destruct (strcpy_down _ ls b (gw_ctx _ _ _ W1) C1 ltac:(lia) ltac:(lia)) as (u3 & E3 & W3 & B3 & S3).
  exists u3. split; [done|]. exists b, o. split_and!; [lia| |done| |lia|done].
  - pose proof (went_trans _ _ _ _ _ W (went_trans _ _ _ _ _ W1 W3)) as W4. by rewrite app_nil_r in W4.
  - constructor; [apply W3|by rewrite Z.add_0_r|lia|done|done|]. rewrite S3; [done|unfold user; lia|lia].
Qed.

(** A line is searched: one that ends in a newline, or the last of the file. *)
Lemma line_searched text rest last cnt u0 o ls u b l :
  pending rest last ls u b → last ≤ 1024 → went o u0 u → text = o ++ out (b ++ rest) → (10 ∉ l) →
  (b = l ∧ rest = [] ∨ ∃ b', b = l ++ 10 :: b') →
  let e := ls + Z.of_nat (length l) in
  ∃ u', grep_search s fname data (Z.of_nat (length pat)) ls e (ust8 (data + e) 0 u) = Some ((), u') ∧
    if last <=? e + 1 then lines_done text rest cnt u0 0 u' else at_line text rest last u0 (e + 1) u'.
Proof.
  intros Hp Hle W Ho Hl Hcut e. pose proof Hdata as Hd. unfold user_range in Hd.
  destruct (line_ok rest last ls u b l Hp Hle Hl ltac:(tauto)) as (W1 & C1 & G1 & S1).
  fold e in W1, C1, G1, S1. set (u2 := ust8 _ 0 u) in *.
  destruct (search_ok u2 ls l (gw_ctx _ _ _ W1) C1) as (u3 & E3 & W3 & S3). exists u3. split; [exact E3|].
  pose proof (went_trans _ _ _ _ _ W (went_trans [] _ _ _ _ W1 W3)) as W4.
  assert (uld8 u3 (data + 1024) ≠ 10) as G3 by (rewrite S3; [done|unfold user; lia|lia]).
  destruct Hp as [_ Hb [Hls0 Hlast] Hc Hsh _]. destruct Hcut as [[-> ->]|[b' ->]].
  - destruct (Z.leb_spec last (e + 1)); [|lia].
    exists [], (o ++ grep_line pat name l). split_and!; [done|exact W4| |apply pending_nil; [apply W3|by repeat constructor|done]|simpl; lia|done].
    rewrite Ho, app_nil_r. unfold out at 1. rewrite output_one by done. exact (eq_sym (app_nil_r _)).
  - rewrite <- app_assoc in Ho, Hsh. rewrite length_app in Hlast. simpl in Hlast.
    assert (text = (o ++ grep_line pat name l) ++ out (b' ++ rest)) as Ho'.
    { rewrite Ho. unfold out at 1. simpl. rewrite output_cons by done. by rewrite app_assoc. }
    pose proof (short_tail l (b' ++ rest) Hl Hsh) as Hsh'. destruct (Z.leb_spec last (e + 1)).
    + assert (b' = []) as -> by (destruct b'; [done|simpl in *; lia]).
      exists [], (o ++ grep_line pat name l). split_and!; [done|exact W4|done|apply pending_nil; [apply W3|done|done]|simpl; lia|done].
    + exists b', (o ++ grep_line pat name l). split_and!; [|exact W4|exact Ho'|lia].
      apply bytes_app in Hb as [_ Hb]. change (10 :: b') with ([10] ++ b') in Hb. apply bytes_app in Hb as [_ Hb].
      apply Forall_app in Hc as [_ Hc]. inversion Hc; subst. constructor; [apply W3| |lia|done|done|done].
      eapply bytes_same; [exact S3| |unfold user_range; lia|lia].
      replace (data + (e + 1)) with (data + ls + Z.of_nat (length l) + 1) by lia.
      eapply bytes_same; [exact S1|exact Hb|unfold user_range; simpl; lia|lia].
Qed.

Lemma lines_ok u b cnt rest :
  let last := Z.of_nat (length b) in
  pending rest last 0 u b → last ≤ 1024 → (rest ≠ [] → last = 1024 ∧ cnt ≠ 0) →
  ∃ r u', grep_lines s fname data (Z.of_nat (length pat)) cnt last u = Some (r, u') ∧
    lines_done (out (b ++ rest)) rest cnt u r u'.
Proof.
  intros last H0 Hle Hrest. unfold grep_lines. set (text := out (b ++ rest)).
  apply (ploop_total _ (at_line text rest last u) (lines_done text rest cnt u) (λ ls _, last - ls)); [| |lia].
  2:{ exists b, []. split_and!; [done|apply went_refl, H0|done|lia]. }
  clear H0. clearbody text. intros ls u1 (b1 & o & Hp & W & Ho & Hls). split; [lia|].
  destruct (line_cut b1) as (l & Hl & Hcut). pose proof Hp as [Hu Hb [Hls0 Hlast] Hc Hsh Hg].
  rewrite (bind_run _ _ _ _ _ (line_end_ok u1 ls l b1 last Hb ltac:(lia) Hl Hcut ltac:(lia))), peek_run.
  destruct (_ && _ && _) eqn:Hcond; rewrite poke_run.
  - apply andb_true_iff in Hcond as [[H10 Hcnt]%andb_true_iff Hls1].
    rewrite negb_true_iff, Z.eqb_neq in H10, Hcnt, Hls1. destruct Hcut as [<-|[b' ->]].
    + destruct (line_moves text rest last cnt u o ls u1 b1) as (u3 & E3 & H3); [done..|].
      rewrite Hlast, (bind_run _ _ _ _ _ E3). by eexists _, u3.
    + exfalso. apply H10. apply bytes_app in Hb as [_ Hb]. rewrite Z.add_assoc.
      rewrite <- (Z.add_0_r (_ + Z.of_nat (length l))). by apply (Hb 0%nat).
  - destruct (line_searched text rest last cnt u o ls u1 b1 l Hp Hle W Ho Hl) as (u3 & E3 & H3).
    { destruct Hcut as [<-|?]; [|by right]. left. split; [done|].
      destruct (decide (rest = [])) as [|Hr]; [done|]. destruct (Hrest Hr) as [E1024 Hcnt]. exfalso.
      rewrite Hlast, E1024, !andb_false_iff, !negb_false_iff, !Z.eqb_eq in Hcond.
      destruct Hcond as [[?|?]|?]; [done|done|]. pose proof (short_line b1 rest Hl Hsh). lia. }
    rewrite (bind_run _ _ _ _ _ E3). eexists _, u3. split; [reflexivity|].
    destruct (Z.leb_spec last (ls + Z.of_nat (length l) + 1)); [done|]. split; [done|lia].
Qed.

(** ** The file, block by block *)

Lemma ubytes_at u a n l : ubytes u a n = l → bytes_at u a l.
Proof.
  intros <- i x Hx. unfold ubytes, load_bytes in Hx. rewrite list_lookup_fmap in Hx.
  destruct (seqZ 0 n !! i) as [j|] eqn:Ej; [|done]. apply lookup_seqZ in Ej as [-> _]. injection Hx as <-. done.
Qed.

(** One read: the buffer has the old rest and the new bytes. *)
Lemma block_read u fd text pos tail :
  let last := Z.of_nat (length tail) in
  let cnt := Z.min (1024 - last) (Z.of_nat (length text) - pos) in
  pending (drop (Z.to_nat pos) text) last 0 u tail → (length tail < 1024)%nat → reading fd text pos u →
  Forall (λ c, 0 < c < 256) text →
  ∃ u' b, ece391_read fd (data + last) (1024 - last) u = Some (cnt, u') ∧ wrote [] u u' ∧
    reading fd text (pos + cnt) u' ∧ last + cnt = Z.of_nat (length b) ∧
    pending (drop (Z.to_nat (pos + cnt)) text) (Z.of_nat (length b)) 0 u' b ∧
    b ++ drop (Z.to_nat (pos + cnt)) text = tail ++ drop (Z.to_nat pos) text.
Proof.
  intros last cnt [Hu Hb [_ _] Hc Hsh Hg] Hlt Hrd Htext. pose proof Hdata as Hd. unfold user_range in Hd.
  destruct (reading_pos _ _ _ _ Hrd) as (Hfd & Hpos & Hlen). rewrite Z.add_0_r in Hb.
  destruct (read_file_ok u fd text pos (data + last) (1024 - last) (gc_live _ Hu) Hrd)
    as (u' & E & Hu' & W & Hrd' & S & Hby); [lia|unfold user_range; lia|]. fold cnt in E, Hrd', Hby.
  set (chunk := take (Z.to_nat cnt) (drop (Z.to_nat pos) text)) in *.
  assert (length chunk = Z.to_nat cnt) as Hch by (unfold chunk; rewrite length_take, length_drop; lia).
  assert (chunk ++ drop (Z.to_nat (pos + cnt)) text = drop (Z.to_nat pos) text) as Ech.
  { rewrite <- (take_drop (Z.to_nat cnt) (drop (Z.to_nat pos) text)), drop_drop. unfold chunk. do 2 f_equal. lia. }
  exists u', (tail ++ chunk). rewrite length_app, Hch, <- app_assoc, Ech. split_and!; [done..|lia| |done].
  constructor; [| |rewrite length_app; lia| |by rewrite <- app_assoc, Ech|].
  - eapply ctx_same; [done|done|]. eapply same_but_mono; [exact S|lia].
  - rewrite Z.add_0_r. apply bytes_app. split; [|by eapply ubytes_at].
    eapply bytes_same; [exact S|done|unfold user_range; lia|lia].
  - apply Forall_app. split; [done|]. by apply Forall_take, Forall_drop.
  - rewrite S; [done|unfold user; lia|lia].
Qed.

Lemma blocks_ok u fd text :
  ctx u → reading fd text 0 u → Forall (λ c, 0 < c < 256) text → short text → uld8 u (data + 1024) ≠ 10 →
  ∃ u', grep_blocks s fname data (Z.of_nat (length pat)) fd u = Some (0, u') ∧ ctx u' ∧
    wrote (out text) u u' ∧ ∃ pos, reading fd text pos u'.
Proof.
  intros Hu Hrd Hc Hsh Hg. unfold grep_blocks. destruct (reading_pos _ _ _ _ Hrd) as (_ & _ & Hlen).
  match goal with |- context [ploop ?f 0 u] => edestruct (ploop_ranked f
    (λ n last u', ∃ pos tail o, n = Z.of_nat (length text) - pos ∧ last = Z.of_nat (length tail) ∧
       reading fd text pos u' ∧ pending (drop (Z.to_nat pos) text) last 0 u' tail ∧ (length tail < 1024)%nat ∧
       wrote o u u' ∧ out text = o ++ out (tail ++ drop (Z.to_nat pos) text))
    (λ r u', r = 0 ∧ ctx u' ∧ wrote (out text) u u' ∧ ∃ pos, reading fd text pos u')
    (Z.of_nat (length text)) 0 u) as (r & u' & E & -> & H) end; [| |lia|by exists u'].
  2:{ exists 0, [], []. split_and!; [lia|done|done| |simpl; lia|apply wrote_refl|done]. by apply pending_nil. }
  clear Hrd. intros n last u1 (pos & tail & o & -> & -> & Hrd & Hp & Hlt & W & Ho).
  destruct (reading_pos _ _ _ _ Hrd) as (_ & Hpos & _). split; [lia|].
  destruct (block_read u1 fd text pos tail Hp Hlt Hrd Hc) as (u2 & b & E2 & W2 & Hrd2 & Hlast & Hp2 & Hb).
  set (cnt := Z.min _ _) in *. rewrite (bind_run _ _ _ _ _ E2). destruct (Z.eqb_spec cnt (-1)); [lia|].
  destruct (lines_ok u2 b cnt (drop (Z.to_nat (pos + cnt)) text) Hp2)
    as (r & u3 & E3 & tail' & o' & -> & W3 & Ho' & Hp3 & Hlt3 & H0);
    [lia| |].
  { intros Hne. assert (Z.to_nat (pos + cnt) < length text)%nat; [|lia].
    destruct (decide (Z.to_nat (pos + cnt) < length text)%nat); [done|]. by rewrite drop_ge in Hne by lia. }
  rewrite Hlast, (bind_run _ _ _ _ _ E3). eexists _, u3. split; [reflexivity|].
  pose proof (gw_read _ _ _ W3 _ _ _ Hrd2) as Hrd3.
  pose proof (wrote_trans _ _ _ _ _ W (wrote_trans [] _ _ _ _ W2 (gw_wrote _ _ _ W3))) as W4.
  rewrite <- Hb, Ho' in Ho. destruct (Z.eqb_spec cnt 0) as [E0|N0].
  - split_and!; [done|apply W3| |by eexists]. rewrite Ho, (H0 E0), drop_ge by lia.
    change (out ([] ++ [])) with ([] : list Z). by rewrite app_nil_r.
  - exists (Z.of_nat (length text) - (pos + cnt)). split; [lia|]. exists (pos + cnt), tail', (o ++ o').
    split_and!; [done|done|done|done|done|exact W4|]. by rewrite Ho, app_assoc.
Qed.

(** C11: grep finds the lines: for a text file whose lines fit into the buffer, [do_one_file]
    prints exactly the lines that contain the search string, in order, each behind the file's
    name and a colon, and returns 0, however the lines lie across the blocks it reads.  The
    byte behind the buffer, which the code reads before it has written it, must not be a
    newline. *)
Theorem grep_file u text :
  ctx u → named name text u → Forall (λ c, 0 < c < 256) text → short text → uld8 u (data + 1024) ≠ 10 →
  ∃ u', do_one_file junk s fname data u = Some (0, u') ∧ live u' ∧ wrote (grep_output pat name text) u u'.
Proof.
  intros Hu Hn Hc Hsh Hg. pose proof (gc_s _ Hu) as Hsp. pose proof (gc_fname _ Hu) as Hf.
  pose proof Hdata as Hd. pose proof Hsp as [_ Rs]. pose proof Hf as [_ Rf]. unfold user_range in Hd, Rs, Rf.
  unfold do_one_file. rewrite (bind_run _ _ _ _ _ (strlen_ok u s pat Hsp)).
  destruct (io_open u fname name text (u32 junk) (u32 junk) (gc_live _ Hu) Hf Hn) as (fd & u1 & E1 & Hu1 & W1 & Hrd & S1).
  destruct (reading_pos _ _ _ _ Hrd) as (Hfd & _ & _).
  assert (ece391_open junk fname u = Some (fd, u1)) as E1'.
  { unfold ece391_open, DO_CALL. rewrite (u32_small fname) by lia. rewrite (bind_run _ _ _ _ _ E1).
    by rewrite s32_small by lia. }
  rewrite (bind_run _ _ _ _ _ E1'). destruct (Z.eqb_spec fd (-1)); [lia|]. rewrite s32_small by lia.
  destruct (blocks_ok u1 fd text) as (u2 & E2 & Hu2 & W2 & pos & Hrd2); [|done|done|done| |].
  { eapply ctx_same; [done|done|by apply same_none]. }
  { rewrite S1; [done|unfold user; lia|lia]. }
  rewrite (bind_run _ _ _ _ _ E2). simpl (0 =? -1). cbv iota.
  destruct (io_close u2 fd text pos (u32 junk) (u32 junk) (gc_live _ Hu2) Hrd2) as (u3 & E3 & Hu3 & W3 & _).
  assert (ece391_close junk fd u2 = Some (0, u3)) as E3'.
  { unfold ece391_close, DO_CALL. rewrite (u32_small fd) by lia. by rewrite (bind_run _ _ _ _ _ E3). }
  rewrite (bind_run _ _ _ _ _ E3'). exists u3. split_and!; [done|done|].
  pose proof (wrote_trans [] _ _ _ _ W1 (wrote_trans _ [] _ _ _ W2 W3)) as W. rewrite app_nil_r in W. exact W.
Qed.
End grep.
