(* ===== verification/Ls.v ===== *)
(** * ls lists the directory

    [DirIO] is what a program may rely on when it reads a directory; [ls_lists] is proved
    against it. *)

From Stdlib Require Import String.
From S2P Require Import Prelude Mem Lib Kstate Screen User Support Client.

(** [directory names u]: the directory has the entries [names] and can be opened;
    [listing fd names u]: the next reads of descriptor [fd] deliver [names]. *)
Class DirIO `{T : Tty} := {
  directory : list (list Z) → ust → Prop;
  listing : Z → list (list Z) → ust → Prop;
  listing_ok u fd names : listing fd names u →
    0 ≤ fd < 8 ∧ (length names ≤ 63)%nat ∧ Forall (λ nm, (0 < length nm ≤ 32)%nat) names;
  io_opendir u s ecx edx names : live u → ucstr u s (lit "."%string) → directory names u →
    ∃ fd u', int80 SYS_OPEN s ecx edx u = Some (fd, u') ∧ live u' ∧ wrote [] u u' ∧
      listing fd names u' ∧ same_but 0 0 u u';
  io_readdir u fd nm names buf n : live u → listing fd (nm :: names) u → user_range buf 33 →
    0 ≤ n < 2147483648 →
    ∃ u', int80 SYS_READ fd buf n u = Some (Z.of_nat (length nm), u') ∧ live u' ∧ wrote [] u u' ∧
      listing fd names u' ∧ ucstr u' buf nm ∧ same_but buf 33 u u';
  io_readdir_end u fd buf n : live u → listing fd [] u → 0 ≤ n < 2147483648 →
    ∃ u', int80 SYS_READ fd buf n u = Some (0, u') ∧ live u' ∧ wrote [] u u';
  listing_write u buf n u' fd names : live u → 0 < n → user_range buf n → listing fd names u →
    int80 SYS_WRITE 1 buf n u = Some (n, u') → listing fd names u';
  listing_mem u m a n fd names : live u → user_range a n →
    unch (in_range (X := uxl u) a n) (umem u) m → listing fd names u → listing fd names (uset m u);
}.

Definition ls_note : list Z := lit "try to write..."%string ++ [10].
Definition ls_lits : list (list Z) := [lit "."%string; ls_note].

Definition ls_output (names : list (list Z)) : list Z := concat ((λ nm, ls_note ++ nm ++ [10]) <$> names).

Section ls.
Context {US : Usys} {UM : UsysMem} {RO : Rodata} {T : Tty} {DI : DirIO} (junk : Z).
Implicit Types (u : ust) (l : list Z).

(** Output of [n] bytes, with what the loop needs afterwards. *)
Lemma write_listing u buf n fd names :
  live u → 0 < n → user_range buf n → listing fd names u →
  ∃ u', ece391_write 1 buf n u = Some (n, u') ∧ live u' ∧ wrote (ubytes u buf n) u u' ∧
    listing fd names u' ∧ same_but 0 0 u u'.
Proof.
  intros Hu Hn Hr Hl. destruct (tty_write u buf n Hu Hn Hr) as (u' & E & R & W & _ & S).
  exists u'. split_and!; [|done|done|exact (listing_write u buf n u' fd names Hu Hn Hr Hl E)|done]. unfold user_range in Hr.
  unfold ece391_write. rewrite (do_call_eq SYS_WRITE 1 buf n u n u') by (exact E || lia).
  by rewrite s32_small by lia.
Qed.

Lemma puts_listing ls u l fd names :
  live u → lits ls u → l ∈ ls → l ≠ [] → listing fd names u →
  ∃ u', puts1 l u = Some ((), u') ∧ live u' ∧ wrote l u u' ∧ listing fd names u' ∧ same_but 0 0 u u'.
Proof.
  intros Hu Hls Hin Hne Hl. pose proof (Hls l Hin) as Hs. pose proof Hs as [Hc Hr].
  assert (0 < Z.of_nat (length l)) by (destruct l; [done|simpl; lia]). unfold user_range in Hr.
  destruct (write_listing u (str l) (Z.of_nat (length l)) fd names Hu) as (u' & E & R & W & L & S);
    [done|unfold user_range; lia|done|].
  exists u'. split_and!; [|done| |done|done].
  - unfold puts1, ece391_fdputs. rewrite (bind_run _ _ _ _ _ (strlen_ok u (str l) l Hs)).
    by rewrite (bind_run _ _ _ _ _ E).
  - unfold ubytes in W. by rewrite (cstring_load (X := uxl u)) in W.
Qed.

(** The name and the newline behind it are written at once. *)
Lemma ubytes_snoc u a l c :
  ubytes u a (Z.of_nat (length l)) = l → uld8 u (a + Z.of_nat (length l)) = c →
  ubytes u a (Z.of_nat (length l) + 1) = l ++ [c].
Proof.
  intros E <-. unfold ubytes, load_bytes in *. rewrite seqZ_app, fmap_app by lia. rewrite E. f_equal.
Qed.

(** One round of the loop. *)
Lemma ls_entry_ok u fd nm names buf :
  live u → lits ls_lits u → listing fd (nm :: names) u → user_range buf 33 → away ls_lits buf 33 →
  ∃ u', ls_body fd buf u = Some (inl (), u') ∧ live u' ∧ lits ls_lits u' ∧ listing fd names u' ∧
    wrote (ls_note ++ nm ++ [10]) u u'.
Proof.
  intros R1 L1 D1 Hr Ha. pose proof Hr as Hr'. unfold user_range in Hr'. unfold ls_body.
  destruct (listing_ok _ _ _ D1) as (Hfd & _ & [Hnm _]%Forall_cons).
  destruct (io_readdir u fd nm names buf 32 R1 D1 Hr ltac:(lia)) as (u2 & E2 & R2 & W2 & D2 & C2 & S2).
  set (cnt := Z.of_nat (length nm)) in *.
  assert (ece391_read fd buf 32 u = Some (cnt, u2)) as E2'.
  { unfold ece391_read. rewrite (do_call_eq SYS_READ fd buf 32 u cnt u2) by (exact E2 || lia).
    by rewrite s32_small by lia. }
  rewrite (bind_run _ _ _ _ _ E2'). destruct (Z.eqb_spec cnt 0); [lia|]. destruct (Z.eqb_spec cnt (-1)); [lia|].
  rewrite poke_run. destruct (tty_store u2 (buf + cnt) 10 R2) as (R3 & W3 & _ & B3 & S3); [unfold user; lia|].
  assert (listing fd names (ust8 (buf + cnt) 10 u2)) as D3.
  { apply (listing_mem u2 _ (buf + cnt) 1); [done|unfold user_range; lia| |done].
    apply unch_st8. exists 0. split; [lia|]. by rewrite Z.add_0_r. }
  set (u3 := ust8 (buf + cnt) 10 u2) in *.
  assert (lits ls_lits u3) as L3.
  { eapply lits_same; [|exact Ha|exact L1]. eapply same_but_trans; [exact S2|].
    eapply same_but_mono; [exact S3|lia]. }
  destruct (puts_listing ls_lits u3 ls_note fd names R3 L3) as (u4 & E4 & R4 & W4 & D4 & S4);
    [by apply (bool_decide_unpack _)|done|done|]. unfold ls_note in E4. rewrite (bind_run _ _ _ _ _ E4).
  destruct (write_listing u4 buf (cnt + 1) fd names R4) as (u5 & E5 & R5 & W5 & D5 & S5);
    [lia|unfold user_range; lia|done|]. rewrite (bind_run _ _ _ _ _ E5).
  assert (ubytes u4 buf (cnt + 1) = nm ++ [10]) as Eb; [apply ubytes_snoc; fold cnt|].
  - rewrite (ubytes_same u3 u4 0 0 buf cnt S4) by (unfold user_range; lia).
    rewrite (ubytes_same u2 u3 (buf + cnt) 1 buf cnt S3) by (unfold user_range; lia).
    unfold ubytes. by apply (cstring_load (X := uxl u2)), C2.
  - rewrite S4; [exact B3|unfold user; lia|lia].
  - rewrite Eb in W5. exists u5. destruct (Z.eqb_spec (cnt + 1) (-1)); [lia|].
    split_and!; [done|done|by eapply lits_kept, lits_kept|done|].
    exact (wrote_trans [] _ _ _ _ W2 (wrote_trans [] _ _ _ _ W3 (wrote_trans _ _ _ _ _ W4 W5))).
Qed.

Lemma ls_end_ok u fd buf :
  live u → listing fd [] u → user_range buf 33 →
  ∃ u', ls_body fd buf u = Some (inr 0, u') ∧ live u' ∧ wrote [] u u'.
Proof.
  intros R1 D1 Hr. unfold user_range in Hr. destruct (listing_ok _ _ _ D1) as (Hfd & _ & _).
  destruct (io_readdir_end u fd buf 32 R1 D1 ltac:(lia)) as (u2 & E2 & R2 & W2).
  assert (ece391_read fd buf 32 u = Some (0, u2)) as E2'.
  { unfold ece391_read. by rewrite (do_call_eq SYS_READ fd buf 32 u 0 u2) by (exact E2 || lia). }
  unfold ls_body. rewrite (bind_run _ _ _ _ _ E2'). by exists u2.
Qed.

Lemma ls_loop_ok u fd names buf :
  live u → lits ls_lits u → listing fd names u → user_range buf 33 → away ls_lits buf 33 →
  ∃ u', ls_loop fd buf u = Some (0, u') ∧ live u' ∧ wrote (ls_output names) u u'.
Proof.
  intros Hu Hlits Hl Hr Ha. unfold ls_loop.
  destruct (listing_ok _ _ _ Hl) as (_ & Hlen & _).
  destruct (ploop_ranked (λ _ : (), ls_body fd buf)
    (λ n _ u', ∃ ns o, n = Z.of_nat (length ns) ∧ live u' ∧ lits ls_lits u' ∧ listing fd ns u' ∧
       wrote o u u' ∧ ls_output names = o ++ ls_output ns)
    (λ r u', r = 0 ∧ live u' ∧ wrote (ls_output names) u u') (Z.of_nat (length names)) () u)
    as (r & u' & E & -> & H); [| |lia|by exists u'].
  2:{ exists names, []. split_and!; [done|done|done|done|apply wrote_refl|done]. }
  intros n [] u1 (ns & o & -> & R1 & L1 & D1 & W1 & Eo). split; [lia|]. destruct ns as [|nm ns].
  - destruct (ls_end_ok u1 fd buf R1 D1 Hr) as (u2 & E2 & R2 & W2).
    exists (inr 0), u2. split_and!; [done|done|done|]. rewrite Eo. exact (wrote_trans _ _ _ _ _ W1 W2).
  - destruct (ls_entry_ok u1 fd nm ns buf R1 L1 D1 Hr Ha) as (u2 & E2 & R2 & L2 & D2 & W2).
    exists (inl ()), u2. split; [done|]. exists (Z.of_nat (length ns)). split; [simpl; lia|].
    exists ns, (o ++ ls_note ++ nm ++ [10]). split_and!; [done|done|done|done|by eapply wrote_trans|].
    rewrite Eo. change (ls_output (nm :: ns)) with ((ls_note ++ nm ++ [10]) ++ ls_output ns). by rewrite app_assoc.
Qed.

(** C13: ls lists the directory: it prints every name once, in the order of the directory, each
    on a line behind the note "try to write...", and returns 0. *)
Theorem ls_lists u names buf :
  live u → lits ls_lits u → directory names u → user_range buf 33 → away ls_lits buf 33 →
  ∃ u', ls_main junk buf u = Some (0, u') ∧ live u' ∧ wrote (ls_output names) u u'.
Proof.
  intros Hu Hl Hd Hr Ha. assert (ucstr u (str (lit "."%string)) (lit "."%string)) as Hs
    by (apply Hl; by apply (bool_decide_unpack _)).
  destruct (io_opendir u _ (u32 junk) (u32 junk) names Hu Hs Hd) as (fd & u1 & E1 & R1 & W1 & D1 & S1).
  destruct (listing_ok _ _ _ D1) as (Hfd & _ & _). destruct Hs as [_ Rs]. unfold user_range in Rs.
  assert (ece391_open junk (str (lit "."%string)) u = Some (fd, u1)) as E1'.
  { unfold ece391_open, DO_CALL. rewrite (u32_small (str _)) by lia. rewrite (bind_run _ _ _ _ _ E1).
    by rewrite s32_small by lia. }
  unfold ls_main. rewrite (bind_run _ _ _ _ _ E1'). destruct (Z.eqb_spec fd (-1)); [lia|].
  destruct (ls_loop_ok u1 fd names buf R1) as (u2 & E2 & R2 & W2); [by eapply lits_kept|done..|].
  exists u2. split_and!; [done|done|]. exact (wrote_trans [] _ _ _ _ W1 W2).
Qed.
End ls.
