(* ===== verification/Conform.v ===== *)
(** * The kernel keeps its promises to the programs

    The trap of the programs' interface is the kernel's [syscall_entry], and the kernel is
    an instance of the class [Tty]: what the programs' theorems assume is proved here. *)

From Stdlib Require Import String.
From S2P Require Import Prelude Mem Lib Fs Paging Kstate Screen Terminal Keyboard.
From S2P Require Import Files Process Load User Support Client Ls.

Section conform.
Context {PT : Ports} {PL : PgLayout} {FL : FsLayout} {FR : Frames}.
Implicit Types (k : kernel).

#[export] Instance kernel_usys : Usys := {|
  ust := kernel;
  umem := pmem;
  uxl := kx;
  uset := set_mem;
  int80 := λ eax ebx ecx edx k,
    match syscall_entry eax ebx ecx edx k with Some (Ret v k) => Some (v, k) | _ => None end;
|}.

#[export] Instance kernel_usys_mem : UsysMem (US := kernel_usys).
Proof. constructor; try done. by intros []. Qed.

(** The locals of [syscall_open] and its callees. *)
Record open_locals k : Prop := {
  ol_tmp : kernel_local (local_at fr_tmp_dentry k) 64;
  ol_file : kernel_local (local_at fr_file_open k) 64;
  ol_dir : kernel_local (local_at fr_dir_open k) 64;
  ol_read : kernel_local (local_at fr_dir_read k) 64;
  ol_tmp_file : apart (local_at fr_file_open k) 64 (local_at fr_tmp_dentry k) 64;
  ol_tmp_dir : apart (local_at fr_dir_open k) 64 (local_at fr_tmp_dentry k) 64;
}.

(** A kernel that runs a program: its page is mapped to a frame above the kernel's, its
    screen is the one output goes to, its descriptors are in order. *)
Record runs k : Prop := {
  rn_map : ∃ p, 2 ≤ p ∧ mapped k (running_term_ptr (con k)) (Some p);
  rn_kbd : kbd_ok (con k);
  rn_fds : fds_ok (cur_pcb k);
  rn_fs : fs_kpage;
  rn_dir : num_dir_entries (X := kx k) (pmem k) ≤ 63;
  rn_loc : open_locals k;
}.

(** [l] is on the screen of the running terminal, and nothing on the others. *)
Definition printed (l : list Z) k k' : Prop :=
  let r := running_term_ptr (con k) in
  running_term_ptr (con k') = r ∧ screen_of k' r = puts_spec l (screen_of k r) ∧
  ∀ t, 0 ≤ t < 3 → t ≠ r → screen_of k' t = screen_of k t.

(** The line [l], which ends in a newline, was typed on the program's terminal, and that
    terminal is in view. *)
Definition line_typed (l : list Z) k : Prop :=
  running_term_ptr (con k) = viewing_term_ptr (con k) ∧ t_kbd_buf_ready (running k) = 1 ∧
  ∃ w, l = w ++ [10] ∧ take (S (length w)) (t_kbd_buf (viewing k)) = w ++ [10] ∧
    Forall (λ c, 0 ≤ c < 256 ∧ c ≠ 10) w ∧ (length w ≤ 127)%nat.

(** ** Addresses *)

Lemma user_cell k r p a :
  mapped k r (Some p) → user a → cell (X := kx k) a = p * _4M + (a - 134217728).
Proof.
  intros [Hl _ _ _ _ (f & fl & Hm)] Ha. unfold user in Ha. eapply mmu_xlat_ok; [done|done|].
  rewrite u32_small by lia.
  rewrite (amap_prog _ _ p); [|unfold _4M, _4K; Z.div_mod_to_equations; lia|done].
  f_equal. unfold _4M, _4K. Z.div_mod_to_equations. lia.
Qed.

Lemma runs_paged k : runs k → paged k.
Proof. intros [(p & _ & [Hl _ _ _ _ (f & fl & Hm)]) _ _ _ _ _]. split; [done|]. eauto. Qed.

(** Physical addresses outside the kernel's page. *)
Definition off_kernel (a : Z) : Prop := ¬ (4194304 ≤ a < 8388608).

Lemma off_kernel_agrees k k' P a n :
  runs k → kmmu k' = kmmu k → unch P (pmem k) (pmem k') → (∀ x, P x → off_kernel x) →
  kpage a n → agrees (X := kx k) (kx k') (pmem k) (pmem k') a n.
Proof.
  intros Hk Eu U HP Ha v Hv. assert (kx k' = kx k) as -> by (unfold kx; by rewrite Eu).
  eapply unch_ld8; [exact U|]. replace v with (a + (v - a)) by lia.
  rewrite (kpage_cell k a n) by (done || lia || by apply runs_paged).
  intros HPv. apply (HP _ HPv). destruct Ha. lia.
Qed.

(** What a call leaves alone: the address space, its stack and the file system; most calls
    also the processes. *)
Record steady k k' : Prop := {
  kp_mmu : kmmu k' = kmmu k;
  kp_esp : esp (kcpu k') = esp (kcpu k);
  kp_fsv : fsv k' = fsv k;
  kp_boot : agrees (X := kx k) (kx k') (pmem k) (pmem k') boot_block BLOCK_SIZE;
  kp_image : agrees (X := kx k) (kx k') (pmem k) (pmem k') fs_blocks IMAGE_SIZE;
}.

Record keeps k k' : Prop := {
  kp_steady :> steady k k';
  kp_prc : prc k' = prc k;
}.

Lemma steady_dir k k' : steady k k' →
  num_dir_entries (X := kx k') (pmem k') = num_dir_entries (X := kx k) (pmem k).
Proof. intros [_ _ _ H _]. by destruct (stable_stats (X := kx k) (kx k') (pmem k) (pmem k') H). Qed.

(** Steps that leave this alone keep a program running. *)
Lemma runs_steady k k' :
  runs k → steady k k' → kbd_ok (con k') → fds_ok (cur_pcb k') →
  (∃ p, 2 ≤ p ∧ mapped k' (running_term_ptr (con k')) (Some p)) → runs k'.
Proof.
  intros [_ _ _ Hfs Hd Hl] Hst Hkb Hf Hm. constructor; [done..| |].
  - by rewrite (steady_dir k k').
  - destruct Hl. unfold local_at in *. constructor; unfold local_at; by rewrite (kp_esp _ _ Hst).
Qed.

Lemma runs_step k k' :
  runs k → keeps k k' → kbd_ok (con k') →
  (∃ p, 2 ≤ p ∧ mapped k' (running_term_ptr (con k')) (Some p)) → runs k'.
Proof.
  intros Hk Hkp Hkb Hm. apply (runs_steady k); [done|apply Hkp|done| |done].
  unfold cur_pcb. rewrite (kp_prc _ _ Hkp). apply Hk.
Qed.

Lemma keeps_off k k' P :
  runs k → kmmu k' = kmmu k → esp (kcpu k') = esp (kcpu k) → prc k' = prc k → fsv k' = fsv k →
  unch P (pmem k) (pmem k') → (∀ x, P x → off_kernel x) → keeps k k'.
Proof.
  intros Hk Eu Ee Ep Ef U HP. constructor; [|done].
  constructor; [done..| |]; (eapply off_kernel_agrees; [done|done|exact U|done|apply Hk]).
Qed.

(** ** Stores *)

Lemma frame_low c t a : 0 ≤ t < 3 → in_frame (frame_of c t) a → a < 4194304.
Proof.
  intros Ht Ha. pose proof (frame_of_range c t Ht) as Hr. unfold in_frame, _4K in Ha.
  change VPAGE with 184 in Hr. lia.
Qed.

(** Memory from the kernel's page on does not show on a screen. *)
Lemma screen_high k k' P t :
  0 ≤ t < 3 → (∀ x, P x → 4194304 ≤ x) → unch P (pmem k) (pmem k') →
  frame_of (con k') t = frame_of (con k) t → t_cursor_x (term k' t) = t_cursor_x (term k t) →
  t_cursor_y (term k' t) = t_cursor_y (term k t) → screen_of k' t = screen_of k t.
Proof.
  intros Ht HP U Ef Ex Ey. unfold screen_of. rewrite Ef, Ex, Ey. f_equal.
  apply vcells_ext. intros i Hi. unfold vbyte. rewrite U; [done|]. intros Hx%HP.
  pose proof (frame_of_range (con k) t Ht) as Hr. change VPAGE with 184 in Hr. unfold _4K in *. lia.
Qed.

(** ** Writing *)

(** Output changes the cursor of one terminal, no line. *)
Lemma out_typed k r prog m d x y l :
  mapped k r prog → line_typed l k → line_typed l (out k r m d x y).
Proof.
  intros Hm (Hr & Hrdy & w & Hw). assert (con_ok (con k)) as Hc by apply Hm.
  assert (∀ t, 0 ≤ t < 3 → t_kbd_buf (term (out k r m d x y) t) = t_kbd_buf (term k t) ∧
    t_kbd_buf_ready (term (out k r m d x y) t) = t_kbd_buf_ready (term k t)) as H.
  { intros t Ht. unfold term. rewrite (con_term_out k r prog) by (done || lia).
    by case_decide as E; [rewrite <- ?E|]. }
  split_and!; [done| |exists w].
  - exact (eq_trans (proj2 (H _ (co_run _ Hc))) Hrdy).
  - destruct (H _ (co_view _ Hc)) as [E _].
    change (t_kbd_buf (viewing (out k r m d x y)) = t_kbd_buf (viewing k)) in E. by rewrite E.
Qed.

Lemma user_bytes_kept k k' r p P a n :
  mapped k r (Some p) → 2 ≤ p → kmmu k' = kmmu k → unch P (pmem k) (pmem k') →
  (∀ b, user b → P (cell (X := kx k) b) → a ≤ b < a + n) → same_but a n k k'.
Proof.
  intros Hm Hp Eu U HP b Hb Hn. unfold uld8. cbn [uxl umem kernel_usys].
  assert (kx k' = kx k) as -> by (unfold kx; by rewrite Eu).
  eapply unch_ld8; [exact U|]. intros Hx. by apply Hn, HP.
Qed.

(** Output of the kernel or of the program on the running terminal. *)
Lemma shows_runs k p l k' :
  runs k → 2 ≤ p → mapped k (running_term_ptr (con k)) (Some p) →
  shows k (running_term_ptr (con k)) (pmem k) (puts_spec l (screen_of k (running_term_ptr (con k)))) k' →
  runs k' ∧ printed l k k' ∧ (∀ l, line_typed l k → line_typed l k') ∧ same_but 0 0 k k' ∧ keeps k k'.
Proof.
  intros Hk Hp Hm Hw.
  assert (∀ x, in_frame (frame_of (con k) (running_term_ptr (con k))) x → x < 4194304) as Hfr.
  { intros x. apply frame_low, Hm. }
  destruct (shows_ok k _ _ _ k' Hm (puts_spec_ok _ _ (screen_of_ok _ _ _ Hm)) Hw) as (Hm' & Es & U).
  pose proof (λ t, shows_other k _ _ _ k' t Hm Hw) as Ho.
  destruct Hw as (m' & d' & -> & _ & _).
  assert (keeps k (out k (running_term_ptr (con k)) m' d'
    (sx (puts_spec l (screen_of k (running_term_ptr (con k)))))
    (sy (puts_spec l (screen_of k (running_term_ptr (con k))))))) as Hkp.
  { eapply keeps_off; try done. intros x Hx%Hfr. unfold off_kernel. lia. }
  split_and!; [|by split_and!|intros l'; by eapply out_typed| |done].
  - apply (runs_step k); [done|done|apply Hk|by exists p].
  - eapply user_bytes_kept; [done|done|done|exact U|]. intros b Hb Hx%Hfr.
    rewrite (user_cell k _ p) in Hx by done. unfold user, _4M, _4K in *. lia.
Qed.

Lemma terminal_write_runs k buf n :
  runs k → 0 < n → user_range buf n →
  ∃ k', terminal_write 1 buf n k = (n, k') ∧ runs k' ∧
    printed (load_bytes (X := kx k) (pmem k) buf n) k k' ∧
    (∀ l, line_typed l k → line_typed l k') ∧ same_but 0 0 k k' ∧ keeps k k'.
Proof.
  intros Hk Hn Hr. pose proof Hk as [(p & Hp & Hm) _ _ _ _ _]. unfold user_range in Hr.
  unfold terminal_write. destruct (Z.eqb_spec buf 0); [lia|]. destruct (Z.leb_spec n 0); [lia|]. simpl.
  eexists. split; [reflexivity|]. eapply shows_runs; [done|done|done|].
  apply (write_loop k _ (Some p) buf n Hm); [|lia]. intros i Hi Hx%frame_low; [|apply Hm].
  rewrite (user_cell k _ p) in Hx by (done || unfold user; lia). unfold _4M, _4K in *. lia.
Qed.

Lemma put_list_runs k l :
  runs k → let k' := put_list l k in
  runs k' ∧ printed l k k' ∧ (∀ l, line_typed l k → line_typed l k') ∧ same_but 0 0 k k' ∧ keeps k k'.
Proof.
  intros Hk. pose proof Hk as [(p & Hp & Hm) _ _ _ _ _].
  eapply shows_runs; [done|done|done|by eapply put_list_step].
Qed.

(** ** Reading a line *)

Lemma user_uniq k r p a n : mapped k r (Some p) → user_range a n → uniq_range (X := kx k) a n.
Proof.
  intros Hm Hr i j Hi Hj. unfold user_range in Hr.
  rewrite !(user_cell k r p) by (done || unfold user; lia). lia.
Qed.

(** What a program's buffer leads to. *)
Lemma user_in_range k r p a n x :
  mapped k r (Some p) → 2 ≤ p → user_range a n → in_range (X := kx k) a n x →
  8388608 ≤ x ∧ ∀ b, user b → cell (X := kx k) b = x → a ≤ b < a + n.
Proof.
  intros Hm Hp Hr (i & Hi & ->). unfold user_range in Hr.
  rewrite (user_cell k r p) by (done || unfold user; lia). split; [unfold _4M, _4K; lia|].
  intros b Hb. rewrite (user_cell k r p) by done. lia.
Qed.

Lemma store_runs k m a n :
  runs k → user_range a n → unch (in_range (X := kx k) a n) (pmem k) m →
  runs (set_mem m k) ∧ printed [] k (set_mem m k) ∧ keeps k (set_mem m k).
Proof.
  intros Hk Hr U. pose proof Hk as [(p & Hp & Hm) Hkb Hf _ _ _].
  assert (∀ x, in_range (X := kx k) a n x → 8388608 ≤ x) as Hx.
  { intros x Hin. by destruct (user_in_range k _ p a n x Hm Hp Hr Hin). }
  assert (keeps k (set_mem m k)) as Hkp.
  { eapply keeps_off; try done. intros x Hin%Hx. unfold off_kernel. lia. }
  split_and!; [| |done].
  - apply (runs_step k (set_mem m k)); [done|done|done|].
    exists p. split; [done|]. destruct Hm. by constructor.
  - split_and!; [done| |intros t Ht _];
      (eapply screen_high; [first [done|apply Hm]|intros x Hin; specialize (Hx x Hin); lia|exact U|done..]).
Qed.

Lemma ready_reset_mapped k r prog t :
  mapped k r prog → 0 ≤ t < 3 → mapped (upd_term t (set_t_ready 0) k) r prog.
Proof.
  intros [] Ht. constructor; try done. simpl.
  pose proof mp_con as []. apply con_ok_upd; [done|done|by constructor|simpl; auto..].
Qed.

Lemma read_runs k l buf n :
  runs k → line_typed l k → Z.of_nat (length l) ≤ n < 2147483648 → user_range buf n →
  ∃ k', syscall_read 0 buf n k = Some (Ret (Z.of_nat (length l)) k') ∧ runs k' ∧
    printed [] k k' ∧ load_bytes (X := kx k') (pmem k') buf (Z.of_nat (length l)) = l ∧
    same_but buf (Z.of_nat (length l)) k k' ∧ keeps k k'.
Proof.
  intros Hk (Hrun & Hrdy & w & -> & Hw & Hc & Hlen) Hn Hr.
  pose proof Hk as [(p & Hp & Hm) Hkb Hf _ _ _].
  rewrite length_app in *. simpl in Hn. unfold user_range in Hr.
  assert (Z.min n (Z.of_nat (length w) + 1) = Z.of_nat (length w) + 1) as Em by lia.
  destruct (terminal_read_line (sti k) 0 buf n w) as (m & E & Hl & U); try done; try lia.
  { rewrite Em. eapply (user_uniq k); [exact Hm|unfold user_range; lia]. }
  change (kx (sti k)) with (kx k) in *. change (pmem (sti k)) with (pmem k) in *. rewrite Em in *.
  replace (Z.of_nat (length w + length [10])) with (Z.of_nat (length w) + 1) by (simpl; lia).
  eexists. split.
  { unfold syscall_read. simpl. destruct (fo_stdin _ Hf) as [Eo Efl].
    change (cur_fd (sti k) 0) with (fd_of (cur_pcb k) 0). rewrite Efl, Eo. simpl. rewrite E. done. }
  set (k' := upd_term _ _ _).
  assert (∀ x, in_range (X := kx k) buf (Z.of_nat (length w) + 1) x → 8388608 ≤ x) as Hhi.
  { intros x Hx. by destruct (user_in_range k _ p buf (Z.of_nat (length w) + 1) x Hm Hp ltac:(unfold user_range; lia) Hx). }
  assert (mapped k' (running_term_ptr (con k)) (Some p)) as Hm'.
  { apply ready_reset_mapped; [|apply (mp_con _ _ _ Hm)]. destruct Hm. by constructor. }
  assert (∀ t, 0 ≤ t → t_cursor_x (term k' t) = t_cursor_x (term k t) ∧
    t_cursor_y (term k' t) = t_cursor_y (term k t)) as Hcur.
  { intros t Ht. unfold term. change (con k') with
      (con_upd_term (running_term_ptr (con k)) (set_t_ready 0) (con k)).
    rewrite con_term_upd; [|apply (mp_con _ _ _ Hm)|apply Hm|done]. by case_decide as Eq; [rewrite Eq|]. }
  assert (keeps k k') as Hkp.
  { eapply keeps_off; try done. intros x Hx%Hhi. unfold off_kernel. lia. }
  split_and!; [| | | |done].
  - apply (runs_step k k'); [done|done|done|by exists p].
  - split_and!; [done| |intros t Ht _]; (eapply screen_high; [first [done|apply Hm]|intros x Hx; specialize (Hhi x Hx); lia|exact U|done|..]);
      apply Hcur; first [lia|apply Hm].
  - change (load_bytes (X := kx k) m buf (Z.of_nat (length w) + 1) = w ++ [10]).
    rewrite Hl. apply take_ge. rewrite length_app. simpl. lia.
  - eapply (user_bytes_kept k k'); [exact Hm|done|done|exact U|]. intros b Hb Hx.
    destruct (user_in_range k _ p buf (Z.of_nat (length w) + 1) _ Hm Hp ltac:(unfold user_range; lia) Hx) as [_ H]. by apply H.
Qed.

(** ** The instance *)

(** Descriptor 1 is the terminal. *)
Lemma write_1 k buf n : fds_ok (cur_pcb k) → syscall_write 1 buf n k = Some (terminal_write 1 buf n k).
Proof.
  intros Hf. destruct (fo_stdout _ Hf) as [Eo Efl]. unfold syscall_write. simpl.
  change (cur_fd k 1) with (fd_of (cur_pcb k) 1). by rewrite Efl, Eo.
Qed.

Lemma printed_trans l1 l2 k1 k2 k3 : printed l1 k1 k2 → printed l2 k2 k3 → printed (l1 ++ l2) k1 k3.
Proof.
  intros (E1 & S1 & O1) (E2 & S2 & O2). rewrite E1 in *. split_and!; [done| |].
  - rewrite S2, S1. unfold puts_spec. by rewrite foldl_app.
  - intros t Ht Hne. by rewrite O2, O1.
Qed.

#[export] Program Instance kernel_tty : Tty (US := kernel_usys) := {|
  live := runs;
  typed := line_typed;
  wrote := printed;
|}.
Next Obligation. intros k. by split_and!. Qed.
Next Obligation. intros *. apply printed_trans. Qed.
Next Obligation.
  intros k a b Hk Ha Hb. pose proof Hk as [(p & Hp & Hm) _ _ _ _ _].
  change (cell (X := kx k) a = cell (X := kx k) b → a = b).
  rewrite !(user_cell k (running_term_ptr (con k)) p) by done. lia.
Qed.
Next Obligation.
  intros k m a n Hk Hr U. destruct (store_runs k m a n Hk Hr U) as (H1 & H2 & _).
  split_and!; [done|done|]. by intros l.
Qed.
Next Obligation.
  intros k buf n Hk Hn Hr. destruct (terminal_write_runs k buf n Hk Hn Hr) as (k' & E & H1 & H2 & H3 & H4 & _).
  exists k'. split; [|done]. unfold user_range in Hr. cbn. unfold syscall_entry.
  change (s32 SYS_WRITE) with 4. change (s32 1) with 1. rewrite (s32_small n) by lia. simpl.
  rewrite write_1 by apply Hk. by rewrite E.
Qed.
Next Obligation.
  intros k buf Hk. cbn. unfold syscall_entry.
  change (s32 SYS_WRITE) with 4. change (s32 1) with 1. change (s32 0) with 0. simpl.
  rewrite write_1 by apply Hk. unfold terminal_write. by rewrite orb_true_r.
Qed.
Next Obligation.
  intros k l buf n Hk Ht Hn Hr. destruct (read_runs k l buf n Hk Ht Hn Hr) as (k' & E & H1 & H2 & H3 & H4 & _).
  exists k'. split; [|done]. cbn. unfold syscall_entry.
  change (s32 SYS_READ) with 3. change (s32 0) with 0. rewrite (s32_small n) by lia. simpl.
  by rewrite E.
Qed.
(** ** Files *)

Lemma runs_open_env k s l :
  runs k → ucstr (US := kernel_usys) k s l → open_env k s l.
Proof.
  intros Hk [Hs Hr]. pose proof Hk as [(p & Hp & Hm) _ _ Hfs Hd [L1 L2 L3 _ A1 A2]].
  pose proof (runs_paged k Hk) as Hpg. unfold user_range in Hr.
  assert (∀ d n, kernel_local d n → uniq_range (X := kx k) d n ∧
    sep_range (X := kx k) d n boot_block BLOCK_SIZE ∧ image_sep (X := kx k) d n) as Hl.
  { intros d n. by apply kernel_local_seps. }
  constructor; [exact Hs|lia|lia|done|..].
  1-3: by split; apply Hl.
  1,2: apply kpage_sep; [done|apply L2 || apply L3|apply L1|done].
  intros i j Hi Hj. rewrite (kpage_cell k (local_at fr_tmp_dentry k) 64) by (done || apply L1).
  rewrite (user_cell k _ p) by (done || unfold user; lia).
  destruct L1 as [[? ?] _ _]. unfold _4M, _4K. lia.
Qed.

(** A call that writes locals of the kernel, apart from the file system, and nothing else. *)
Lemma scratch_runs k k' P :
  runs k → unch P (pmem k) (pmem k') → (∀ x, P x → 4194304 ≤ x < 8388608) →
  spares (X := kx k) P fs_blocks IMAGE_SIZE → spares (X := kx k) P boot_block BLOCK_SIZE →
  kmmu k' = kmmu k → esp (kcpu k') = esp (kcpu k) → fsv k' = fsv k → con k' = con k →
  fds_ok (cur_pcb k') →
  runs k' ∧ steady k k' ∧ same_but (US := kernel_usys) 0 0 k k' ∧ printed [] k k'.
Proof.
  intros Hk U Hs Si Sb Eu Ec Ef Eo Hf. pose proof Hk as [(p & Hp & Hm) Hkb _ _ _ _].
  assert (kx k' = kx k) as Ex by (unfold kx; by rewrite Eu).
  assert (steady k k') as Hst.
  { constructor; [done..| |]; rewrite Ex; (eapply spares_agrees; [exact U|done]). }
  split_and!; [|done| |].
  - apply (runs_steady k); [done|done|by rewrite Eo|done|]. exists p. split; [done|].
    rewrite Eo. destruct Hm. constructor; rewrite ?Eo, ?Eu; done.
  - eapply user_bytes_kept; [exact Hm|done|done|exact U|]. intros b Hb Hx%Hs.
    rewrite (user_cell k _ p) in Hx by done. unfold user, _4M, _4K in *. lia.
  - split_and!; [by rewrite Eo| |intros t Ht _]; unfold printed;
      (eapply screen_high; [first [done|apply Hm]|intros x Hx; specialize (Hs x Hx); lia|exact U|by rewrite Eo|..]);
      unfold term; by rewrite Eo.
Qed.

Lemma local_cells k d n x :
  runs k → kernel_local d n → in_range (X := kx k) d n x → 4194304 ≤ x < 8388608.
Proof.
  intros Hk [Hd _ _] (i & Hi & ->). rewrite (kpage_cell k d n) by (done || by apply runs_paged).
  destruct Hd. lia.
Qed.

(** What [open] leaves alone. *)
Lemma open_frame k k' s l :
  runs k → open_env k s l → unch (open_scratch k) (pmem k) (pmem k') → kmmu k' = kmmu k →
  kcpu k' = kcpu k → fsv k' = fsv k → con k' = con k → fds_ok (cur_pcb k') →
  runs k' ∧ steady k k' ∧ same_but (US := kernel_usys) 0 0 k k' ∧ printed [] k k'.
Proof.
  intros Hk Henv U Eu Ec Ef Eo Hf. pose proof Hk as [_ _ _ _ _ [L1 L2 L3 _ _ _]].
  apply (scratch_runs k k' (open_scratch k)); try done.
  - intros x [H|[H|H]]; (eapply local_cells; [done| |exact H]); done.
  - by eapply open_scratch_spares.
  - by eapply open_scratch_spares.
  - by rewrite Ec.
Qed.

(** A command that is not in the directory: the kernel says so, and the program goes on. *)
Lemma execute_missing_runs k ui n name args :
  runs k → exec_layout k → command k ui n name args → find_entry (X := kx k) (pmem k) name = None →
  ∃ k', syscall_execute ui k = Some (Ret (-1) k') ∧ runs k' ∧ printed msg_by_name k k' ∧
    same_but (US := kernel_usys) 0 0 k k'.
Proof.
  intros Hk HL HC Hfe. destruct (exec_parse k ui n name args HL HC) as (m & E & Hnm & _ & U).
  destruct (exec_scratch_spares k HL) as [Si Sb].
  pose proof (spares_agrees (X := kx k) _ _ _ _ _ U Sb) as Ab. pose proof (rn_dir _ Hk) as Hn.
  set (k1 := set_mem m (cli k)).
  destruct (scratch_runs k k1 (exec_scratch k)) as (R1 & _ & S1 & P1); try done.
  { destruct HL. intros x [H|[H|[H|H]]]; (eapply local_cells; [done| |exact H]); done. }
  { apply Hk. }
  destruct (put_list_runs k1 msg_by_name R1) as (R2 & P2 & _ & S2 & _).
  exists (put_list msg_by_name k1). split_and!; [|done|exact (printed_trans [] _ _ _ _ P1 P2)|].
  - rewrite (execute_rest k ui m) by (done || pose proof (cm_null _ _ _ _ _ HC); lia). fold k1.
    rewrite (exec_rest_missing k1 name).
    + by rewrite kprint_plain by (by apply (bool_decide_unpack _)).
    + by destruct HL; constructor.
    + done.
    + apply HC.
    + change (num_dir_entries (X := kx k) m ≤ 63).
      by destruct (stable_stats (X := kx k) _ _ _ Ab) as (-> & _ & _).
    + etransitivity; [apply (find_entry_agrees (X := kx k) _ _ _ Ab Hn)|done].
  - eapply same_but_trans; [exact S1|exact S2].
Qed.

(** The inode [ino] holds the bytes [data]. *)
Definition holds k (ino : Z) (data : list Z) : Prop :=
  fs_ok (X := kx k) (pmem k) (fsv k) ∧ readable (X := kx k) (pmem k) (fsv k) ino ∧
  data = file_slice (X := kx k) (pmem k) (fsv k) ino 0 (file_length (X := kx k) (pmem k) (fsv k) ino).

Definition file_named (name data : list Z) k : Prop :=
  ¬ busy_below k 8 ∧ ∃ i, find_entry (X := kx k) (pmem k) name = Some i ∧
    ld32 (X := kx k) (pmem k) (files i + 32) = REGULAR ∧
    holds k (ld32 (X := kx k) (pmem k) (files i + 36)) data.

Definition file_reading (fd : Z) (data : list Z) (pos : Z) k : Prop :=
  2 ≤ fd < 8 ∧ 0 ≤ pos ≤ Z.of_nat (length data) ∧
  ∃ ino, cur_fd k fd = FileEntry regular_file_ops ino pos IN_USE ∧ holds k ino data.

Lemma holds_steady k k' ino data : holds k ino data → steady k k' → holds k' ino data.
Proof.
  intros (Hok & Hrd & ->) [_ _ Ef Hb Hi]. unfold holds. rewrite Ef.
  destruct (readable_agrees (X := kx k) (kx k') _ _ _ _ Hi Hb Hok Hrd) as (Hrd' & El & Es).
  split_and!; [by eapply (stable_ok (X := kx k))|done|]. rewrite El, Es; [done|lia|lia].
Qed.

Lemma holds_length k ino data : holds k ino data →
  Z.of_nat (length data) = file_length (X := kx k) (pmem k) (fsv k) ino ∧
  Z.of_nat (length data) < 2147483648.
Proof.
  intros (_ & Hrd & ->). unfold file_slice. rewrite length_fmap, length_seqZ.
  pose proof (rd_small _ _ _ Hrd) as Hs. pose proof (ld32_bound (X := kx k) (pmem k)) as Hb.
  assert (0 ≤ file_length (X := kx k) (pmem k) (fsv k) ino) by apply Hb.
  unfold BLOCK_SIZE in Hs. split; [lia|]. Z.div_mod_to_equations. lia.
Qed.

Lemma slice_take k ino data pos n :
  holds k ino data → 0 ≤ pos → 0 ≤ n → pos + n ≤ Z.of_nat (length data) →
  file_slice (X := kx k) (pmem k) (fsv k) ino pos n = take (Z.to_nat n) (drop (Z.to_nat pos) data).
Proof.
  intros Hh Hp Hn Hle. destruct (holds_length k ino data Hh) as [El _]. rewrite El in Hle.
  destruct Hh as (_ & _ & ->). unfold file_slice. rewrite <- fmap_drop, <- fmap_take. apply list_eq. intros j.
  rewrite !list_lookup_fmap. destruct (decide (j < Z.to_nat n)%nat) as [Hj|Hj].
  - rewrite lookup_seqZ_lt, lookup_take_lt, lookup_drop, lookup_seqZ_lt by lia. simpl. f_equal. f_equal. lia.
  - by rewrite lookup_seqZ_ge, lookup_take_ge by lia.
Qed.

Lemma user_kpage_sep k r p a n b l :
  mapped k r (Some p) → 2 ≤ p → paged k → user_range a n → kpage b l → sep_range (X := kx k) a n b l.
Proof.
  intros Hm Hp Hpg Ha Hb i j Hi Hj. unfold user_range in Ha.
  rewrite (user_cell k r p), (kpage_cell k b l) by (done || unfold user; lia).
  destruct Hb. unfold _4M, _4K. lia.
Qed.

Lemma kpage_user_sep k r p a n b l :
  mapped k r (Some p) → 2 ≤ p → paged k → user_range a n → kpage b l → sep_range (X := kx k) b l a n.
Proof. intros Hm Hp Hpg Ha Hb i j Hi Hj E. by eapply (user_kpage_sep k r p a n b l). Qed.

(** What a read leaves alone: it changes a descriptor, the buffer, and at most locals. *)
Lemma fd_frame k fd e m P :
  runs k → 2 ≤ fd < 8 →
  flags e = IN_USE ∧ (op_ptr e = dir_ops ∨ op_ptr e = rtc_ops ∨ op_ptr e = regular_file_ops) →
  unch P (pmem k) m → (∀ x, P x → 4194304 ≤ x) →
  spares (X := kx k) P boot_block BLOCK_SIZE → spares (X := kx k) P fs_blocks IMAGE_SIZE →
  let k' := set_cur_fd fd e (set_mem m (sti k)) in
  runs k' ∧ steady k k' ∧ printed [] k k' ∧ cur_fd k' fd = e.
Proof.
  intros Hk Hfd He U HP Sb Si k'. pose proof Hk as [(p & Hp & Hm) Hkb Hf Hfs _ _].
  assert (cur_pcb k' = put_fd fd e (cur_pcb k)) as Ep by exact (cur_pcb_upd _ (set_mem m (sti k))).
  assert (steady k k') as Hst.
  { constructor; [done..| |]; (eapply spares_agrees; [exact U|done]). }
  split_and!; [|done| |].
  - apply (runs_steady k k'); [done|done|done| |].
    + rewrite Ep. apply fds_ok_put; [done|done|]. by right.
    + exists p. split; [done|]. destruct Hm. by constructor.
  - split_and!; [done| |intros t Ht _]; (eapply screen_high; [first [done|apply Hm]|exact HP|exact U|done..]).
  - unfold cur_fd. rewrite Ep, fd_of_put by (lia || apply Hf). by rewrite decide_True.
Qed.

(** A program's buffer. *)
Lemma user_spares k r p a n :
  mapped k r (Some p) → 2 ≤ p → paged k → fs_kpage → user_range a n →
  (∀ x, in_range (X := kx k) a n x → 4194304 ≤ x) ∧
  spares (X := kx k) (in_range (X := kx k) a n) boot_block BLOCK_SIZE ∧
  spares (X := kx k) (in_range (X := kx k) a n) fs_blocks IMAGE_SIZE.
Proof.
  intros Hm Hp Hpg Hfs Hr. split_and!.
  - intros x Hx. destruct (user_in_range k r p a n x Hm Hp Hr Hx). lia.
  - eapply sep_spares, user_kpage_sep; try done. apply Hfs.
  - eapply sep_spares, user_kpage_sep; try done. apply Hfs.
Qed.

Lemma user_same k k' r p a n P :
  mapped k r (Some p) → 2 ≤ p → user_range a n → kmmu k' = kmmu k → unch P (pmem k) (pmem k') →
  (∀ x, P x → in_range (X := kx k) a n x ∨ x < 8388608) → same_but (US := kernel_usys) a n k k'.
Proof.
  intros Hm Hp Hr Eu U HP. eapply (user_bytes_kept k k'); [exact Hm|done|done|exact U|]. intros b Hb Hx.
  destruct (HP _ Hx) as [Hin|Hlt].
  - destruct (user_in_range k r p a n _ Hm Hp Hr Hin) as [_ H0]. by apply H0.
  - rewrite (user_cell k r p) in Hlt by done. unfold user, _4M, _4K in *. lia.
Qed.

Lemma read_file_runs k fd data pos buf n :
  runs k → file_reading fd data pos k → 0 < n → user_range buf n →
  let cnt := Z.min n (Z.of_nat (length data) - pos) in
  ∃ k', syscall_read fd buf n k = Some (Ret cnt k') ∧ runs k' ∧ printed [] k k' ∧
    file_reading fd data (pos + cnt) k' ∧ same_but (US := kernel_usys) buf n k k' ∧
    load_bytes (X := kx k') (pmem k') buf cnt = take (Z.to_nat cnt) (drop (Z.to_nat pos) data).
Proof.
  intros Hk (Hfd & Hpos & ino & Efd & Hh) Hn Hr cnt. pose proof Hk as [(p & Hp & Hm) Hkb Hf Hfs _ _].
  pose proof (runs_paged k Hk) as Hpg. destruct (holds_length k ino data Hh) as [El Hlt].
  assert (n < 2147483648) by (unfold user_range in Hr; lia).
  destruct (syscall_read_at k fd ino pos buf n) as (m & E & Hl & U); try done;
    [apply Hh|apply Hh|lia|by eapply user_uniq|eapply user_kpage_sep; try done; apply Hfs..|].
  rewrite <- El in E, Hl. fold cnt in E, Hl. eexists. split; [exact E|].
  destruct (user_spares k _ p buf n Hm Hp Hpg Hfs Hr) as (Hx & Sb & Si).
  destruct (fd_frame k fd (FileEntry regular_file_ops ino (pos + cnt) IN_USE) m _ Hk Hfd
    ltac:(split; [done|by right; right]) U Hx Sb Si) as (R & St & P & Ef).
  split_and!; [done|done| | |].
  - split_and!; [lia..|]. exists ino. split; [done|by eapply holds_steady].
  - eapply (user_same k _ _ p buf n); [exact Hm|done|done|done|exact U|]. by left.
  - change (load_bytes (X := kx k) m buf cnt = take (Z.to_nat cnt) (drop (Z.to_nat pos) data)).
    rewrite Hl. apply slice_take; [done|lia..].
Qed.

Lemma open_file_runs k s name data :
  runs k → ucstr (US := kernel_usys) k s name → file_named name data k →
  ∃ fd k', syscall_open s k = Some (fd, k') ∧ runs k' ∧ printed [] k k' ∧
    file_reading fd data 0 k' ∧ same_but (US := kernel_usys) 0 0 k k'.
Proof.
  intros Hk Hs (Hfree & i & Hi & Ht & Hh). pose proof (runs_open_env k _ _ Hk Hs) as Henv.
  pose proof (syscall_open_ok k _ _ Henv) as H. rewrite Hi in H. destruct H as (fd & k' & H).
  destruct (H regular_file_ops ltac:(by rewrite Ht)) as (E & U & Eu & Ec & Ef & Eo & Hcase). clear H.
  destruct Hcase as [(_ & Hb & _)|(Hfd & _ & _ & Ep)]; [done|].
  set (e := FileEntry regular_file_ops _ 0 IN_USE) in *. pose proof (rn_fds _ Hk) as Hf.
  assert (cur_pcb k' = put_fd fd e (cur_pcb k)) as Ep'
    by (rewrite (cur_pcb_same _ _ Ep); apply cur_pcb_upd).
  destruct (open_frame k k' s name Hk Henv U Eu Ec Ef Eo) as (Hk' & Hst & Hsm & Hpr).
  { rewrite Ep'. apply fds_ok_put; [done|done|]. right. split; [done|]. by right; right. }
  exists fd, k'. split_and!; [done|done|done| |done]. split_and!; [lia|lia|lia|lia|].
  eexists. split; [|by eapply holds_steady].
  unfold cur_fd. rewrite Ep', fd_of_put by (lia || apply Hf). by rewrite decide_True.
Qed.

(** The current process has the argument [l]. *)
Definition has_argument (l : list Z) k : Prop :=
  cur_pcb_ptr (prc k) ≤ 8380416 ∧ l ≠ [] ∧ Forall (λ c, 0 < c < 256) l ∧
  length (p_args (cur_pcb k)) = 128%nat ∧ Forall (λ c, 0 ≤ c < 256) (p_args (cur_pcb k)) ∧
  ∃ rest, p_args (cur_pcb k) = l ++ 0 :: rest.

Lemma file_named_keeps k k' name data :
  runs k → keeps k k' → file_named name data k → file_named name data k'.
Proof.
  intros Hk Hkp (Hfree & i & Hi & Ht & Hh). pose proof (kp_boot _ _ Hkp) as Hb.
  assert (kx k' = kx k) as E by (unfold kx; by rewrite (kp_mmu _ _ Hkp)). rewrite E in *.
  pose proof (rn_dir _ Hk) as Hd. pose proof (find_entry_range _ _ _ Hi) as Hrg.
  assert (∀ o, 0 ≤ o ≤ 60 → ld32 (X := kx k) (pmem k') (files i + o) = ld32 (X := kx k) (pmem k) (files i + o)) as El.
  { intros o Ho. eapply agrees_ld32; [exact Hb|..]; unfold files, BLOCK_SIZE; lia. }
  split.
  - intros H. apply Hfree. intros j Hj. specialize (H j Hj). unfold cur_fd, cur_pcb in *. by rewrite (kp_prc _ _ Hkp) in H.
  - exists i. rewrite E, !El by lia. split_and!; [|done|].
    + rewrite <- Hi. by apply find_entry_agrees.
    + eapply holds_steady; [exact Hh|apply Hkp].
Qed.

Lemma getargs_runs k l buf n :
  runs k → has_argument l k → Z.of_nat (length l) < n ≤ 4096 → user_range buf n →
  ∃ k', syscall_getargs buf n k = Some (0, k') ∧ runs k' ∧ printed [] k k' ∧
    ucstr (US := kernel_usys) k' buf l ∧ same_but (US := kernel_usys) buf n k k' ∧ keeps k k' ∧
    ∀ l', line_typed l' k → line_typed l' k'.
Proof.
  intros Hk (Hp & Hne & Hc & Hl & Hb & rest & E) Hn Hr. pose proof Hk as [(p & Hp2 & Hm) _ _ _ _ _].
  destruct (getargs_ok buf n k) as (m & Ek & Hld & U); try done; try lia.
  - unfold user_range in Hr. lia.
  - by eapply user_uniq.
  - rewrite E. destruct l as [|c l]; [done|]. simpl. inversion Hc; subst. lia.
  - destruct (store_runs k m buf n Hk Hr U) as (R & P & K).
    exists (set_mem m k). split_and!; [done..| | |done|done].
    + split; [|unfold user_range in *; lia]. rewrite E, length_app in Hl. simpl in Hl. unfold ARG_LEN in Hld.
      apply (load_cstring _ _ _ (Z.to_nat (Z.min n 128))); [done|lia|].
      rewrite Z2Nat.id by lia. change (take (S (length l)) (load_bytes (X := kx k) m buf (Z.min n 128)) = l ++ [0]).
      rewrite Hld, E, take_take. replace (S (length l) `min` Z.to_nat n)%nat with (length l + 1)%nat by lia.
      by rewrite take_app_add.
    + destruct (user_store (US := kernel_usys) k m buf n) as (_ & _ & _ & S); done.
Qed.

Lemma file_reading_keeps k k' fd data pos : keeps k k' → file_reading fd data pos k → file_reading fd data pos k'.
Proof.
  intros Hkp (Hfd & Hpos & ino & Ef & Hh). split_and!; [lia..|].
  exists ino. split; [|eapply holds_steady; [exact Hh|apply Hkp]].
  unfold cur_fd, cur_pcb. by rewrite (kp_prc _ _ Hkp).
Qed.

(** What a successful [write] to the terminal keeps. *)
Lemma write_call_keeps k buf n k' :
  runs k → 0 < n → user_range buf n →
  int80 (Usys := kernel_usys) SYS_WRITE 1 buf n k = Some (n, k') → keeps k k'.
Proof.
  intros Hk Hn Hr E. destruct (terminal_write_runs k buf n Hk Hn Hr) as (k1 & E1 & _ & _ & _ & _ & Hkp).
  cbn in E. unfold syscall_entry in E. unfold user_range in Hr.
  change (s32 SYS_WRITE) with 4 in E. change (s32 1) with 1 in E. rewrite (s32_small n) in E by lia.
  simpl in E. rewrite write_1, E1 in E by apply Hk. simpl in E. by injection E as <-.
Qed.

(** Closing a descriptor in use. *)
Lemma close_runs k fd :
  runs k → 2 ≤ fd < 8 → flags (cur_fd k fd) ≠ FREE →
  let k' := set_cur_fd fd (set_flags FREE (cur_fd k fd)) k in
  syscall_close fd k = (0, k') ∧ runs k' ∧ steady k k' ∧ printed [] k k' ∧
  same_but (US := kernel_usys) 0 0 k k' ∧ cur_pcb k' = put_fd fd (set_flags FREE (cur_fd k fd)) (cur_pcb k).
Proof.
  intros Hk Hfd Hfl k'. pose proof Hk as [(p & Hp & Hm) Hkb Hf _ _ _].
  assert (cur_pcb k' = put_fd fd (set_flags FREE (cur_fd k fd)) (cur_pcb k)) as Ep by apply cur_pcb_upd.
  assert (steady k k') as Hst by (by constructor).
  split_and!; [|apply (runs_steady k); [done|done|done| |]|done|by split_and!|done|done].
  - unfold syscall_close. destruct (_ || _) eqn:E; [rewrite orb_true_iff, !Z.ltb_lt in E; lia|].
    by destruct (Z.eqb_spec (flags (cur_fd k fd)) FREE).
  - rewrite Ep. apply fds_ok_put; [done|lia|by left].
  - exists p. split; [done|]. destruct Hm. by constructor.
Qed.

#[export] Program Instance kernel_files : FileIO (T := kernel_tty) := {|
  named := file_named;
  reading := file_reading;
  argument := has_argument;
|}.
Next Obligation.
  intros k fd data pos (Hfd & Hpos & ino & _ & Hh). destruct (holds_length k ino data Hh). lia.
Qed.
Next Obligation.
  intros k l buf n edx Hk Ha Hn Hr. destruct (getargs_runs k l buf n Hk Ha Hn Hr) as (k' & E & R & P & C & S & K & T).
  exists k'. split; [|split_and!; [done..| |exact T]; intros name data; by apply file_named_keeps].
  cbn. unfold syscall_entry. change (s32 SYS_GETARGS) with 7. rewrite (s32_small n) by lia. simpl. by rewrite E.
Qed.
Next Obligation.
  intros k s name data ecx edx Hk Hs Hn. destruct (open_file_runs k s name data Hk Hs Hn) as (fd & k' & E & H).
  exists fd, k'. split; [|exact H]. cbn. unfold syscall_entry. change (s32 SYS_OPEN) with 5. simpl. by rewrite E.
Qed.
Next Obligation.
  intros k fd data pos buf n Hk Hrd Hn Hr. destruct (read_file_runs k fd data pos buf n Hk Hrd Hn Hr) as (k' & E & H).
  exists k'. split; [|exact H]. cbn. unfold syscall_entry. unfold user_range in Hr.
  change (s32 SYS_READ) with 3. destruct Hrd as [Hfd _].
  rewrite (s32_small fd), (s32_small n) by lia. simpl. by rewrite E.
Qed.
Next Obligation.
  intros k buf n k' fd data pos Hk Hn Hr Hrd E. eapply file_reading_keeps; [|exact Hrd].
  by eapply write_call_keeps.
Qed.
Next Obligation.
  intros k m a n fd data pos Hk Hr U. destruct (store_runs k m a n Hk Hr U) as (_ & _ & Hkp).
  by apply file_reading_keeps.
Qed.
Next Obligation.
  intros k fd data pos ecx edx Hk (Hfd & _ & ino & Ef & _).
  destruct (close_runs k fd Hk Hfd) as (E & R & _ & P & S & _); [by rewrite Ef|].
  eexists. split_and!; [|exact R|exact P|exact S].
  cbn. unfold syscall_entry. change (s32 SYS_CLOSE) with 6. rewrite (s32_small fd) by lia. simpl. by rewrite E.
Qed.

(** ** The directory *)

Definition names_from k (pos : Z) : list (list Z) :=
  entry_name (X := kx k) (pmem k) <$> seqZ pos (num_dir_entries (X := kx k) (pmem k) - pos).

Definition proper_names (names : list (list Z)) : Prop := Forall (λ nm, nm ≠ []) names.

Definition dir_named (names : list (list Z)) k : Prop :=
  ¬ busy_below k 8 ∧ names = names_from k 0 ∧ proper_names names ∧
  ∃ i, find_entry (X := kx k) (pmem k) (lit "."%string) = Some i ∧ ld32 (X := kx k) (pmem k) (files i + 32) = DIR.

Definition dir_listing (fd : Z) (names : list (list Z)) k : Prop :=
  2 ≤ fd < 8 ∧ num_dir_entries (X := kx k) (pmem k) ≤ 63 ∧ proper_names names ∧
  ∃ ino pos, cur_fd k fd = FileEntry dir_ops ino pos IN_USE ∧
    0 ≤ pos ≤ num_dir_entries (X := kx k) (pmem k) ∧ names = names_from k pos.

Lemma entry_name_len `{X : Xlat} m i : (length (entry_name m i) ≤ 32)%nat.
Proof.
  assert (∀ l : list Z, length (until_nul l) ≤ length l)%nat as H.
  { induction l as [|x l IH]; [done|]. simpl. case_test; simpl; lia. }
  etransitivity; [apply H|]. by rewrite length_load_bytes.
Qed.

Lemma names_steady k k' pos : runs k → steady k k' → 0 ≤ pos → names_from k' pos = names_from k pos.
Proof.
  intros Hk Hst Hpos. unfold names_from. rewrite (steady_dir k k' Hst). apply list_fmap_ext.
  intros j x Hx%lookup_seqZ. assert (kx k' = kx k) as E by (unfold kx; by rewrite (kp_mmu _ _ Hst)).
  pose proof (kp_boot _ _ Hst) as Hb. rewrite E in *.
  apply entry_name_agrees; [done|apply Hk|lia].
Qed.

Lemma names_from_cons k pos :
  0 ≤ pos < num_dir_entries (X := kx k) (pmem k) →
  names_from k pos = entry_name (X := kx k) (pmem k) pos :: names_from k (pos + 1).
Proof.
  intros Hp. unfold names_from. rewrite seqZ_cons by lia. simpl. do 3 f_equal; lia.
Qed.

Lemma listing_keeps k k' fd names : runs k → keeps k k' → dir_listing fd names k → dir_listing fd names k'.
Proof.
  intros Hk Hkp (Hfd & Hn & Hpr & ino & pos & Ef & Hpos & ->). pose proof (kp_steady _ _ Hkp) as Hst.
  unfold dir_listing. rewrite (steady_dir k k' Hst). split_and!; [lia..|done|].
  exists ino, pos. split_and!; [|lia|lia|symmetry; apply names_steady; [done|done|lia]].
  unfold cur_fd, cur_pcb. by rewrite (kp_prc _ _ Hkp).
Qed.

(** [syscall_read] of a directory. *)
Lemma syscall_read_dir k fd ino pos buf n :
  cur_fd k fd = FileEntry dir_ops ino pos IN_USE → 2 ≤ fd < 8 →
  syscall_read fd buf n k =
    let '(v, e, m) := dir_read (X := kx k) (pmem k) (FileEntry dir_ops ino pos IN_USE) buf n (local_at fr_dir_read k) in
    Some (Ret v (set_cur_fd fd e (set_mem m (sti k)))).
Proof.
  intros Ef Hfd. unfold syscall_read. change (cur_fd (sti k) fd) with (cur_fd k fd). rewrite Ef.
  destruct (Z.leb_spec 8 fd); [lia|]. destruct (Z.ltb_spec fd 0); [lia|].
  destruct (Z.eqb_spec fd 1); [lia|]. simpl. change (cur_fd (sti k) fd) with (cur_fd k fd). by rewrite Ef.
Qed.

Lemma readdir_runs k fd nm names buf n :
  runs k → dir_listing fd (nm :: names) k → user_range buf 33 →
  ∃ k', syscall_read fd buf n k = Some (Ret (Z.of_nat (length nm)) k') ∧ runs k' ∧ printed [] k k' ∧
    dir_listing fd names k' ∧ ucstr (US := kernel_usys) k' buf nm ∧ same_but (US := kernel_usys) buf 33 k k'.
Proof.
  intros Hk (Hfd & Hn & Hpr & ino & pos & Ef & Hpos & En) Hr. pose proof Hk as [(p & Hp & Hm) _ _ Hfs _ [_ _ _ L _ _]].
  pose proof (runs_paged k Hk) as Hpg. set (num := num_dir_entries (X := kx k) (pmem k)) in *.
  assert (pos < num) as Hlt.
  { destruct (decide (pos < num)); [done|]. unfold names_from in En. fold num in En. by rewrite seqZ_nil in En by lia. }
  rewrite names_from_cons in En by lia. injection En as -> ->.
  destruct (kernel_local_seps k _ _ Hpg Hfs L) as (Lu & Lb & Li).
  set (d := local_at fr_dir_read k) in *.
  pose proof (dir_read_entry (X := kx k) (pmem k) (FileEntry dir_ops ino pos IN_USE) buf n d) as H. simpl in H. fold num in H.
  destruct (Z.ltb_spec pos num); [|lia].
  destruct H as (m & E & Hc & U); [lia|done|eapply sep_range_mono; [exact Lb|lia|unfold BLOCK_SIZE; lia]|
    by eapply user_uniq|eapply user_kpage_sep; try done; apply L|].
  rewrite (syscall_read_dir k fd ino pos) by done. fold d. rewrite E. unfold set_file_pos. cbn [op_ptr inode flags].
  eexists. split; [reflexivity|].
  destruct (user_spares k _ p buf 33 Hm Hp Hpg Hfs Hr) as (Hx & Sb & Si).
  assert (∀ x, in_range (X := kx k) d 64 x → 4194304 ≤ x < 8388608) as Hd.
  { intros x (i & Hi & ->). rewrite (kpage_cell k d 64) by (done || apply L). destruct L as [[? ?] _ _]. lia. }
  destruct (fd_frame k fd (FileEntry dir_ops ino (pos + 1) IN_USE) m _ Hk Hfd ltac:(split; [done|by left]) U)
    as (R & St & P & Ef').
  { intros x [Hin|Hin]; [by apply Hx|]. apply Hd in Hin. lia. }
  { intros j Hj [Hin|Hin]; [by apply (Sb j)|]. by apply (sep_spares (X := kx k) _ _ _ _ Lb j). }
  { intros j Hj [Hin|Hin]; [by apply (Si j)|]. by apply (image_spares (X := kx k) _ _ Li j). }
  split_and!; [done|done| | |].
  - unfold dir_listing. rewrite (steady_dir k _ St). inversion Hpr; subst. split_and!; [lia|lia|lia|done|].
    exists ino, (pos + 1). split_and!; [done|lia|fold num; lia|]. symmetry. apply names_steady; [done|done|lia].
  - split; [exact Hc|]. unfold user_range in *. pose proof (entry_name_len (X := kx k) (pmem k) pos). lia.
  - eapply (user_same k _ _ p buf 33); [exact Hm|done|done|done|exact U|].
    intros x [Hin|Hin]; [by left|right; by apply Hd].
Qed.

Lemma readdir_end_runs k fd buf n :
  runs k → dir_listing fd [] k →
  ∃ k', syscall_read fd buf n k = Some (Ret 0 k') ∧ runs k' ∧ printed [] k k'.
Proof.
  intros Hk (Hfd & Hn & _ & ino & pos & Ef & Hpos & En).
  assert (pos = num_dir_entries (X := kx k) (pmem k)) as Ep.
  { destruct (decide (pos < num_dir_entries (X := kx k) (pmem k))); [|lia]. by rewrite names_from_cons in En by lia. }
  rewrite (syscall_read_dir k fd ino pos) by done. unfold dir_read. cbn [file_pos].
  destruct (Z.leb_spec (num_dir_entries (X := kx k) (pmem k)) pos); [|lia].
  eexists. split; [reflexivity|].
  destruct (fd_frame k fd (FileEntry dir_ops ino pos IN_USE) (pmem k) (λ _, False) Hk Hfd) as (R & _ & P & _);
    [split; [done|by left]|apply unch_refl|done|by intros j Hj []|by intros j Hj []|done].
Qed.

Lemma opendir_runs k s names :
  runs k → ucstr (US := kernel_usys) k s (lit "."%string) → dir_named names k →
  ∃ fd k', syscall_open s k = Some (fd, k') ∧ runs k' ∧ printed [] k k' ∧
    dir_listing fd names k' ∧ same_but (US := kernel_usys) 0 0 k k'.
Proof.
  intros Hk Hs (Hfree & -> & Hpr & i & Hi & Ht). pose proof (runs_open_env k _ _ Hk Hs) as Henv.
  pose proof (syscall_open_ok k _ _ Henv) as H. rewrite Hi in H. destruct H as (fd & k' & H).
  destruct (H dir_ops ltac:(by rewrite Ht)) as (E & U & Eu & Ec & Ef & Eo & Hcase). clear H.
  destruct Hcase as [(_ & Hb & _)|(Hfd & _ & _ & Ep)]; [done|].
  set (e := FileEntry dir_ops _ 0 IN_USE) in *. pose proof (rn_fds _ Hk) as Hf.
  assert (cur_pcb k' = put_fd fd e (cur_pcb k)) as Ep' by (rewrite (cur_pcb_same _ _ Ep); apply cur_pcb_upd).
  destruct (open_frame k k' s _ Hk Henv U Eu Ec Ef Eo) as (Hk' & Hst & Hsm & Hpr').
  { rewrite Ep'. apply fds_ok_put; [done|done|]. right. split; [done|]. by left. }
  exists fd, k'. split_and!; [done|done|done| |done]. unfold dir_listing. rewrite (steady_dir k k' Hst).
  pose proof (rn_dir _ Hk). pose proof (find_entry_range _ _ _ Hi). split_and!; [lia|lia|lia|done|].
  eexists _, 0. split_and!; [|lia|lia|symmetry; by apply names_steady].
  unfold cur_fd. rewrite Ep', fd_of_put by (lia || apply Hf). by rewrite decide_True.
Qed.

#[export] Program Instance kernel_dirs : DirIO (T := kernel_tty) := {|
  directory := dir_named;
  listing := dir_listing;
|}.
Next Obligation.
  intros k fd names (Hfd & Hn & Hpr & ino & pos & _ & Hpos & ->). split_and!; [lia|lia| |].
  - unfold names_from. rewrite length_fmap, length_seqZ. lia.
  - apply Forall_forall. intros nm Hin. pose proof (proj1 (Forall_forall _ _) Hpr nm Hin) as Hne.
    apply list_elem_of_fmap in Hin as (i & -> & _). split; [|apply entry_name_len].
    destruct (entry_name _ i); [done|simpl; lia].
Qed.
Next Obligation.
  intros k s ecx edx names Hk Hs Hd. destruct (opendir_runs k s names Hk Hs Hd) as (fd & k' & E & H).
  exists fd, k'. split; [|exact H]. cbn. unfold syscall_entry. change (s32 SYS_OPEN) with 5. simpl. by rewrite E.
Qed.
Next Obligation.
  intros k fd nm names buf n Hk Hl Hr Hn. destruct (readdir_runs k fd nm names buf n Hk Hl Hr) as (k' & E & H).
  exists k'. split; [|exact H]. destruct Hl as [Hfd _]. cbn. unfold syscall_entry. change (s32 SYS_READ) with 3.
  rewrite (s32_small fd), (s32_small n) by lia. simpl. by rewrite E.
Qed.
Next Obligation.
  intros k fd buf n Hk Hl Hn. destruct (readdir_end_runs k fd buf n Hk Hl) as (k' & E & H).
  exists k'. split; [|exact H]. destruct Hl as [Hfd _]. cbn. unfold syscall_entry. change (s32 SYS_READ) with 3.
  rewrite (s32_small fd), (s32_small n) by lia. simpl. by rewrite E.
Qed.
Next Obligation.
  intros k buf n k' fd names Hk Hn Hr Hl E. eapply listing_keeps; [exact Hk| |exact Hl].
  by eapply write_call_keeps.
Qed.
Next Obligation.
  intros k m a n fd names Hk Hr U. destruct (store_runs k m a n Hk Hr U) as (_ & _ & Hkp). by apply listing_keeps.
Qed.
End conform.
