(* ===== verification/Guard.v ===== *)
(** * The descriptor calls and the kernel's memory

    [read] stores through the buffer it is given and checks neither its address nor its end.
    In this development PCBs and kernel globals are values of their own and not bytes of the
    memory such a store reaches, so that this file has to say when they cannot be reached: for
    a buffer inside the program's page, no descriptor call changes a byte of the kernel's page,
    which holds the PCBs and the globals, except for the local of [dir_read]. *)

From S2P Require Import Prelude Mem Lib Fs Paging Kstate Screen Terminal Rtc Keyboard Files Process.
From S2P Require Import Load User Client Conform.

(** ** What the routines write *)

Section writes.
Context {X : Xlat} {FL : FsLayout}.
Implicit Types (m : mem).

Lemma in_range_at d n a i : 0 ≤ i < n → u32 a = u32 (d + i) → in_range d n (cell a).
Proof. intros Hi E. exists i. split; [done|]. by apply cell_eq. Qed.

Section copy.
Context (m : mem) (d n : Z).

(** [k] bytes have been copied; nothing but the destination was written. *)
Definition moved (k : Z) (st : Z * Z * mem) : Prop :=
  let '(_, edi, m') := st in 0 ≤ k ≤ n ∧ u32 edi = u32 (d + k) ∧ unch (in_range d n) m m'.

Lemma moved_step k esi edi m1 m2 w esi' :
  moved k (esi, edi, m1) → 0 ≤ w → k + w ≤ n → unch (in_range d n) m1 m2 → moved (k + w) (esi', u32 (edi + w), m2).
Proof.
  intros (Hk & E & U) Hw Hn U'. split_and!; [lia|lia| |by eapply unch_trans].
  by rewrite u32_idem, <- u32_add_l, E, u32_add_l, Z.add_assoc.
Qed.

Lemma moved_store k esi edi m1 v j :
  moved k (esi, edi, m1) → 0 ≤ j → k + j < n → ∀ m2, unch (in_range d n) m1 m2 → unch (in_range d n) m1 (st8 m2 (edi + j) v).
Proof.
  intros (Hk & E & _) Hj Hn m2 U. eapply unch_trans; [exact U|]. apply unch_st8.
  apply (in_range_at d n (edi + j) (k + j)); [lia|]. by rewrite <- u32_add_l, E, u32_add_l, Z.add_assoc.
Qed.

Lemma memcpy_unch s : 0 ≤ n → unch (in_range d n) m (memcpy m d s n).
Proof.
  intros Hn. unfold memcpy.
  assert (∃ k esi edi m1, memcpy_top (s, d, n, m) = (esi, edi, n - k, m1) ∧ moved k (esi, edi, m1)) as
    (k & esi & edi & m1 & -> & H1).
  { unfold memcpy_top.
    apply (while_n_pres _ _ (λ st, ∃ k esi edi m', st = (esi, edi, n - k, m') ∧ moved k (esi, edi, m'))).
    - intros ? (k & esi & edi & m' & -> & Hk) Hc. exists (k + 1). do 3 eexists. split; [by rewrite Z.sub_add_distr|].
      assert (k < n) by (destruct Hk as (? & _); unfold nz in Hc; destruct (Z.eqb_spec (n - k) 0); [done|lia]).
      eapply moved_step; [exact Hk|lia|lia|]. rewrite <- (Z.add_0_r edi).
      eapply moved_store; [exact Hk|lia|lia|apply unch_refl].
    - exists 0. do 3 eexists. rewrite Z.sub_0_r. split; [done|]. split_and!; [lia|lia|by rewrite Z.add_0_r|apply unch_refl]. }
  assert (0 ≤ k ≤ n) as Hk by apply H1. change (Z.land (n - k) 3) with (Z.land (n - k) (Z.ones 2)).
  rewrite Z.land_ones, Z.shiftr_div_pow2 by lia. change (2 ^ 2) with 4.
  pose proof (Z.div_mod (n - k) 4 ltac:(lia)). pose proof (Z.mod_pos_bound (n - k) 4 ltac:(lia)).
  assert (moved (k + 4 * ((n - k) / 4)) (movsl ((n - k) / 4) esi edi m1)) as H2.
  { unfold movsl. apply (for_up_inv _ (λ i st, moved (k + 4 * i) st)); [lia|by rewrite Z.mul_0_r, Z.add_0_r|].
    intros i [[esi1 edi1] m2] Hi Hst. replace (k + 4 * (i + 1)) with (k + 4 * i + 4) by lia.
    eapply moved_step; [exact Hst|lia|lia|]. unfold st32. rewrite <- (Z.add_0_r edi1) at 1.
    repeat (eapply moved_store; [exact Hst|lia|lia|]). apply unch_refl. }
  destruct (movsl _ esi edi m1) as [[esi2 edi2] m2].
  assert (moved (k + 4 * ((n - k) / 4) + (n - k) mod 4) (movsb 1 ((n - k) mod 4) esi2 edi2 m2)) as H3.
  { unfold movsb. apply (for_up_inv _ (λ i st, moved (k + 4 * ((n - k) / 4) + i) st)); [lia|by rewrite Z.add_0_r|].
    intros i [[esi1 edi1] m3] Hi Hst. rewrite Z.add_assoc.
    eapply moved_step; [exact Hst|lia|lia|]. rewrite <- (Z.add_0_r edi1).
    eapply moved_store; [exact Hst|lia|lia|apply unch_refl]. }
  destruct (movsb _ _ _ _ _) as [[? ?] m3]. apply H3.
Qed.
End copy.

(** A further piece of the buffer. *)
Lemma piece_unch m m1 buf n c s l :
  unch (in_range buf n) m m1 → 0 ≤ c → 0 ≤ l → c + l ≤ n → unch (in_range buf n) m (memcpy m1 (buf + c) s l).
Proof.
  intros U Hc Hl Hn. eapply unch_trans; [exact U|]. eapply unch_mono; [|by apply memcpy_unch].
  intros p (i & Hi & ->). exists (c + i). split; [lia|]. f_equal. lia.
Qed.

Lemma read_blocks_unch m g ino buf n b o b' o' :
  0 ≤ o < BLOCK_SIZE → 0 ≤ o' < BLOCK_SIZE → b ≤ b' →
  0 ≤ b' * BLOCK_SIZE + o' - (b * BLOCK_SIZE + o) ≤ n → n < 4294967296 →
  unch (in_range buf n) m (read_blocks m g ino buf b o b' o').
Proof.
  intros Ho Ho' Hb Hn Hmax. unfold read_blocks. destruct (Z.eqb_spec b' b) as [->|Hne].
  - rewrite Z.eqb_refl. cbn [negb]. rewrite u32_small by (unfold BLOCK_SIZE in *; lia).
    unfold for_up. replace (Z.to_nat (b - (b + 1))) with 0%nat by lia. simpl. rewrite <- (Z.add_0_r buf) at 2.
    apply piece_unch; [apply unch_refl|lia|lia|lia].
  - rewrite (proj2 (Z.eqb_neq b b')) by done. cbn [negb]. rewrite u32_small by (unfold BLOCK_SIZE in *; lia).
    match goal with |- context [for_up ?bd ?lo ?hi ?a] =>
      assert (∃ m2, for_up bd lo hi a = (buf + ((b' - b) * BLOCK_SIZE - o), m2) ∧ unch (in_range buf n) m m2)
        as (m2 & -> & U2) end.
    { apply (for_up_inv _ (λ i st, ∃ m2, st = (buf + ((i - b) * BLOCK_SIZE - o), m2) ∧ unch (in_range buf n) m m2)); [lia| |].
      - eexists. split; [f_equal; lia|]. rewrite <- (Z.add_0_r buf) at 2.
        apply piece_unch; [apply unch_refl|unfold BLOCK_SIZE in *; lia..].
      - intros i ? Hi (m2 & -> & U2). eexists. split; [f_equal; unfold BLOCK_SIZE; lia|].
        apply piece_unch; [done|unfold BLOCK_SIZE in *; nia..]. }
    apply piece_unch; [done|unfold BLOCK_SIZE in *; nia..].
Qed.

(** Whatever the image holds, a read writes only the buffer. *)
Lemma read_data_unch m g ino offset buf n :
  0 ≤ n < 2147483648 → unch (in_range buf n) m (snd (read_data m g ino offset buf n)).
Proof.
  intros Hn. unfold read_data, MAX_FILES. destruct (_ || _); [apply unch_refl|].
  assert (0 ≤ inode_length m (inode_addr g ino)) by apply ld32_bound.
  set (len := inode_length _ _) in *.
  destruct (Z.leb_spec len offset); [apply unch_refl|]. destruct (Z.ltb_spec offset 0); [apply unch_refl|]. simpl.
  destruct (Z.leb_spec 63 (offset / BLOCK_SIZE)) as [|Hb]; [apply unch_refl|].
  pose proof (Z.div_mod offset BLOCK_SIZE ltac:(unfold BLOCK_SIZE; lia)).
  pose proof (Z.mod_pos_bound offset BLOCK_SIZE ltac:(unfold BLOCK_SIZE; lia)).
  rewrite (u32_small (offset + n)) by (unfold BLOCK_SIZE in *; lia).
  set (en := if len <=? offset + n then len else offset + n).
  assert (offset ≤ en ≤ offset + n) as He by (unfold en; destruct (Z.leb_spec len (offset + n)); lia). clearbody en.
  destruct (63 <=? en / BLOCK_SIZE); [apply unch_refl|]. destruct (find_up _ _ _); [apply unch_refl|]. simpl.
  pose proof (Z.div_mod en BLOCK_SIZE ltac:(unfold BLOCK_SIZE; lia)).
  pose proof (Z.mod_pos_bound en BLOCK_SIZE ltac:(unfold BLOCK_SIZE; lia)).
  apply read_blocks_unch; [lia|lia|apply Z.div_le_mono; unfold BLOCK_SIZE; lia|lia|lia].
Qed.

Lemma file_read_unch m g e buf n v e' m' :
  0 ≤ n < 2147483648 → file_read m g e buf n = (v, e', m') → unch (in_range buf n) m m'.
Proof.
  intros Hn. unfold file_read. pose proof (read_data_unch m g (inode e) (file_pos e) buf n Hn) as H.
  destruct (read_data _ _ _ _ _ _) as [r m1]. by destruct (negb _); intros [= _ _ <-].
Qed.

(** The entry of a directory goes to the local, its name to the buffer. *)
Lemma dir_read_unch m e buf n d v e' m' :
  num_dir_entries m ≤ 63 → uniq_range d 64 → sep_range d 64 boot_block BLOCK_SIZE → uniq_range buf 33 →
  dir_read m e buf n d = (v, e', m') → unch (λ p, in_range buf 33 p ∨ in_range d 64 p) m m'.
Proof.
  intros Hd Hu Hs Hub. unfold dir_read. destruct (Z.leb_spec (num_dir_entries m) (file_pos e)); [by intros [= _ _ <-]|].
  assert (∃ r m1, read_dentry_by_index m (file_pos e) d = (r, m1) ∧ unch (in_range d 64) m m1) as (r & m1 & -> & U1).
  { destruct (Z.ltb_spec (file_pos e) 0) as [Hneg|Hp].
    - exists (-1), m. unfold read_dentry_by_index. by rewrite (proj2 (Z.ltb_lt _ _) Hneg).
    - destruct (read_dentry_by_index_ok m (file_pos e) d) as (m1 & E & _ & _ & _ & U); [lia|done| |by eauto].
      unfold files. rewrite <- Z.add_assoc, <- (Z.add_0_r d). eapply sep_sub; [exact Hs|unfold BLOCK_SIZE; lia..]. }
  pose proof (memset_written m1 buf 0 33 ltac:(lia) Hub) as [_ U2].
  set (m2 := memset m1 buf 0 33) in *.
  assert (unch (λ p, in_range buf 33 p ∨ in_range d 64 p) m m2) as U.
  { eapply unch_trans; (eapply unch_mono; [|eassumption]); tauto. }
  match goal with |- context [while_n ?c ?b ?f ?a] => assert (∃ i m3, while_n c b f a = (i, m3) ∧ 0 ≤ i ∧
    unch (λ p, in_range buf 33 p ∨ in_range d 64 p) m m3) as (i & m3 & -> & _ & U3) end; [|by intros [= _ _ <-]].
  apply (while_n_pres _ _ (λ st, ∃ i m3, st = (i, m3) ∧ 0 ≤ i ∧ unch (λ p, in_range buf 33 p ∨ in_range d 64 p) m m3)).
  - intros ? (i & m3 & -> & Hi & U3) [Hc _]%andb_true_iff. apply Z.ltb_lt in Hc. unfold FILENAME_MAX_CHAR in Hc.
    eexists _, _. split; [reflexivity|]. split; [lia|]. eapply unch_trans; [exact U3|]. apply unch_st8. left. exists i. split; [lia|done].
  - by exists 0, m2.
Qed.
End writes.

(** ** The calls *)

Section calls.
Context {PT : Ports} {PL : PgLayout} {FL : FsLayout} {FR : Frames}.
Implicit Types (k : kernel).

Lemma kbd_copy_unch fuel i buf n k :
  0 ≤ i → ∃ v m, kbd_copy fuel i buf n k = (v, set_mem m k) ∧ unch (in_range (X := kx k) buf n) (pmem k) m.
Proof.
  revert i k. induction fuel as [|fuel IH]; intros i k Hi; simpl.
  { exists i, (pmem k). split; [by destruct k|apply unch_refl]. }
  destruct (Z.ltb_spec i n) as [Hn|]; simpl; [|exists i, (pmem k); split; [by destruct k|apply unch_refl]].
  case_match; [|exists i, (pmem k); split; [by destruct k|apply unch_refl]].
  assert (unch (in_range (X := kx k) buf n) (pmem k) (st8 (X := kx k) (pmem k) (buf + i) (kbd_load i k))) as U.
  { apply unch_st8. by exists i. }
  case_match; [by eexists _, _|].
  destruct (IH (i + 1) (poke (buf + i) (kbd_load i k) k) ltac:(lia)) as (v & m & -> & U').
  exists v, m. split; [done|]. by eapply unch_trans.
Qed.

Lemma terminal_read_unch fd buf n k v k' :
  terminal_read fd buf n k = Some (v, k') → unch (in_range (X := kx k) buf n) (pmem k) (pmem k').
Proof.
  unfold terminal_read, read_from_kbd_buf_to_buf. destruct (_ || _); [intros [= _ <-]; apply unch_refl|].
  destruct (negb _); [done|].
  destruct (kbd_copy_unch (Z.to_nat KBD_BUF_SIZE) 0 buf n k ltac:(lia)) as (w & m & -> & U). by intros [= _ <-].
Qed.

(** What a read through a descriptor may write: the buffer, and the local of [dir_read]. *)
Lemma do_read_unch t ops k fd buf n o :
  runs k → 0 ≤ n < 2147483648 → user_range buf (Z.max n 33) → fs_init_ops t = Some ops →
  do_read (op_read ops) fd buf n k = Some o →
  unch (λ p, in_range (X := kx k) buf (Z.max n 33) p ∨ in_range (X := kx k) (local_at fr_dir_read k) 64 p)
    (pmem k) (pmem (outcome_k o)).
Proof.
  intros Hk Hn Hr Ht. pose proof Hk as [(p & Hp & Hm) _ _ Hfs Hd Hloc].
  assert (∀ j x, j ≤ Z.max n 33 → in_range (X := kx k) buf j x → in_range (X := kx k) buf (Z.max n 33) x) as Hsub.
  { intros j x Hj. by apply in_range_mono. }
  destruct t; simpl in Ht; simplify_eq; simpl.
  - destruct (dir_read _ _ _ _ _) as [[v e] m] eqn:E. intros [= <-]. simpl.
    destruct (kernel_local_seps k _ _ (runs_paged k Hk) Hfs (ol_read _ Hloc)) as (U & B & _).
    eapply unch_mono; [|eapply (dir_read_unch (X := kx k)); [exact Hd|exact U|exact B| |exact E]].
    + intros x [H|H]; [left; by apply (Hsub 33); [lia|]|by right].
    + eapply user_uniq; [exact Hm|unfold user_range in *; lia].
  - destruct (file_read _ _ _ _ _) as [[v e] m] eqn:E. intros [= <-]. simpl.
    eapply unch_mono; [|eapply (file_read_unch (X := kx k)); [exact Hn|exact E]]. intros x H. left. by apply (Hsub n); [lia|].
  - intros [= <-]. apply unch_refl.
  - destruct (terminal_read fd buf n k) as [[v k']|] eqn:E; intros [= <-]; [|apply unch_refl].
    eapply unch_mono; [|by eapply terminal_read_unch]. intros x H. left. by apply (Hsub n); [lia|].
  - destruct (terminal_read fd buf n k) as [[v k']|] eqn:E; intros [= <-]; [|apply unch_refl].
    eapply unch_mono; [|by eapply terminal_read_unch]. intros x H. left. by apply (Hsub n); [lia|].
Qed.

(** Output goes to the screens, below the kernel's page. *)
Lemma do_write_unch t ops k fd buf n v k' :
  runs k → 0 ≤ n → user_range buf n → fs_init_ops t = Some ops →
  do_write (op_write ops) fd buf n k = Some (v, k') → unch (λ p, p < 4194304) (pmem k) (pmem k').
Proof.
  intros Hk Hn Hr Ht. pose proof Hk as [(p & Hp & Hm) _ _ _ _ _].
  assert (∀ v' k'', terminal_write fd buf n k = (v', k'') → unch (λ p, p < 4194304) (pmem k) (pmem k'')) as Htw.
  { intros v' k''. unfold terminal_write. destruct (_ || _) eqn:Ez; [intros [= _ <-]; apply unch_refl|].
    apply orb_false_iff in Ez as [_ Ez%Z.leb_gt]. intros [= _ <-]. unfold user_range in Hr.
    pose proof (write_loop k _ (Some p) buf n Hm) as Hw.
    destruct (shows_ok k _ _ _ _ Hm (puts_spec_ok _ _ (screen_of_ok _ _ _ Hm)) (Hw
      ltac:(intros i Hi Hx%frame_low; [rewrite (user_cell k _ p) in Hx by (done || unfold user; lia);
        unfold _4M, _4K in *; lia|apply Hm]) n ltac:(lia))) as (_ & _ & U).
    eapply unch_mono; [|exact U]. intros x Hx. eapply frame_low; [apply Hm|exact Hx]. }
  destruct t; simpl in Ht; simplify_eq; simpl.
  - intros [= _ <-]. apply unch_refl.
  - intros [= _ <-]. apply unch_refl.
  - unfold rtc_write. destruct (_ || _); [intros [= _ <-]; apply unch_refl|].
    destruct (set_frequency_io (s32 (ld32 (X := kx k) (pmem k) buf)) k) as [d Hd].
    destruct (set_frequency _ k) as [w k1]. simpl in Hd. subst. intros [= _ <-]. apply unch_refl.
  - intros [= E]. by eapply Htw.
  - intros [= E]. by eapply Htw.
Qed.

(** No byte of the kernel's page has changed, apart from those of [P]. *)
Definition kernel_kept (P : Z → Prop) k k' : Prop :=
  ∀ x, 4194304 ≤ x < 8388608 → ¬ P x → pmem k' !! x = pmem k !! x.

Lemma close_kept fd k : kernel_kept (λ _, False) k (snd (syscall_close fd k)).
Proof. intros x _ _. unfold syscall_close. by repeat case_match. Qed.

Lemma runs_sti k : runs k → runs (sti k).
Proof.
  intros [(p & Hp & []) H2 H3 H4 H5 []]. constructor; [|done..|by constructor].
  exists p. split; [done|]. by constructor.
Qed.

(** C23: on a process with a well-formed descriptor table and for a buffer inside the program's
    page, [read], [write] and [close] are defined for every descriptor: a call never goes through
    an operation table that was not set.  They keep the table well-formed and leave the pid map,
    the current process and the PCBs of all others alone; and no byte of the kernel's page, where
    PCBs and globals are, is written through the buffer: [read] changes there at most the local
    of [dir_read], [write] and [close] nothing.  (A buffer elsewhere is not refused: with the
    address of a PCB the real kernel overwrites it.) *)
Theorem descriptor_calls_safe k fd buf n :
  runs k → 0 ≤ n < 2147483648 → user_range buf (Z.max n 33) →
  (∃ o, syscall_read fd buf n k = Some o ∧
     fds_ok (cur_pcb (outcome_k o)) ∧ own_pcb_only k (outcome_k o) ∧
     kernel_kept (in_range (X := kx k) (local_at fr_dir_read k) 64) k (outcome_k o)) ∧
  (∃ v k', syscall_write fd buf n k = Some (v, k') ∧
     fds_ok (cur_pcb k') ∧ own_pcb_only k k' ∧ kernel_kept (λ _, False) k k') ∧
  fds_ok (cur_pcb (snd (syscall_close fd k))) ∧ own_pcb_only k (snd (syscall_close fd k)) ∧
  kernel_kept (λ _, False) k (snd (syscall_close fd k)).
Proof.
  intros Hk Hn Hr. pose proof Hk as [(p & Hp & Hm) _ Hok _ _ _].
  destruct (descriptor_calls_defined k fd buf n Hok) as ((o & Er & R1 & R2) & (v & k' & Ew & W1 & W2) & C1 & C2).
  split; [|split; [|split_and!; [done|done|by apply close_kept]]].
  - exists o. split_and!; [done..|]. intros x Hx Hl. revert Er. unfold syscall_read.
    change (cur_fd (sti k) fd) with (cur_fd k fd).
    repeat (case_match; [intros [= <-]; done|]). destruct (fs_init_ops _) as [ops|] eqn:Eo; [|done]. intros E.
    apply (do_read_unch (op_ptr (cur_fd k fd)) _ (sti k)) in E; [|by apply runs_sti|done|done|done].
    apply E. intros [Hb|Hb]; [|by apply Hl].
    destruct (user_in_range k _ p buf (Z.max n 33) x Hm Hp Hr Hb). lia.
  - exists v, k'. split_and!; [done..|]. intros x Hx _. revert Ew. unfold syscall_write.
    repeat (case_match; [intros [= _ <-]; done|]). destruct (fs_init_ops _) as [ops|] eqn:Eo; [|done]. intros E.
    apply (do_write_unch (op_ptr (cur_fd k fd))) in E; [|done|lia|unfold user_range in *; lia|done]. apply E. lia.
Qed.
End calls.
