(* ===== verification/Sigtest.v ===== *)
(** * The signal test (src/syscalls/ece391sigtest.c)

    The program installs handlers when it is asked to, reads a name and then stores through a
    null pointer; its handler for the fault would redirect the pointer.  The kernel answers
    [set_handler] with -1 and has no signals, so the store ends the program.  A page fault is
    an outcome of its own here, apart from a result and from a run that does not end: every
    access that [main] and the handlers make themselves checks that each byte has a page, and
    the first that has none is the address of the fault.  (The support library's own reads, of
    the strings it is given, are those of User.v and are not checked.) *)

From Stdlib Require Import String.
From S2P Require Import Prelude Mem Lib Fs Paging Kstate Screen Terminal Files Process User Support Client.
From S2P Require Import Fish Conform.

(** enum signums *)
Definition SEGFAULT : Z := 1.
Definition ALARM : Z := 3.
Definition SYS_SET_HANDLER : Z := 9.

Section sigtest.
Context {US : Usys} {RO : Rodata} (junk : Z).
(** The addresses of the static variables and of the handlers. *)
Context (charbuf badbuf segfault alarm : Z).

Definition ece391_set_handler (signum handler : Z) : prog Z := DO_CALL SYS_SET_HANDLER signum handler junk.

(** A run ends with a result or in a page fault at an address. *)
Inductive run (A : Type) : Type := Done (a : A) | Fault (addr : Z).
#[global] Arguments Done {A} _.
#[global] Arguments Fault {A} _.

Definition fprog (A : Type) : Type := ust → option (run A * ust).

#[global] Instance fprog_ret : MRet fprog := λ A a u, Some (Done a, u).
#[global] Instance fprog_bind : MBind fprog := λ A B f p u,
  match p u with
  | Some (Done a, u) => f a u
  | Some (Fault x, u) => Some (Fault x, u)
  | None => None
  end.

(** A call of the library or of the kernel. *)
Definition call {A} (p : prog A) : fprog A := λ u,
  match p u with Some (a, u) => Some (Done a, u) | None => None end.

(** No page maps the address: it has no physical cell. *)
Definition unmapped (a : Z) (u : ust) : bool := cell (X := uxl u) a <? 0.

(** An access to [n] bytes at [a]. *)
Definition touch (a n : Z) : fprog () := λ u,
  match find_up (λ i, unmapped (a + i) u) 0 n with
  | Some i => Some (Fault (u32 (a + i)), u)
  | None => Some (Done (), u)
  end.

Definition load8 (a : Z) : fprog Z := _ ← touch a 1; call (peekb a).
Definition load32 (a : Z) : fprog Z := _ ← touch a 4; call (λ u, Some (uld32 u a, u)).
Definition store (a v : Z) : fprog () := _ ← touch a 1; call (pokeb a v).
Definition store32 (a v : Z) : fprog () := _ ← touch a 4; call (pokew a v).

Definition put_signum (signum : Z) : prog () :=
  puts1 ((if signum =? 0 then lit "0"%string else if signum =? 1 then lit "1"%string
          else if signum =? 2 then lit "2"%string else if signum =? 3 then lit "3"%string
          else lit "invalid"%string) ++ [10]).

(** [arg] is the address of the parameter [signum]: the saved EAX is seven words above it. *)
Definition segfault_sighandler (arg buf : Z) : fprog () :=
  _ ← call (puts1 (lit "Segfault signal handler called, signum: "%string));
  signum ← load32 arg;
  _ ← call (put_signum (s32 signum));
  _ ← call (puts1 (lit "Press enter to continue..."%string ++ [10]));
  _ ← call (ece391_read 0 buf 1);
  _ ← store32 badbuf charbuf;
  _ ← store32 (arg + 28) charbuf;
  call (puts1 (lit "Signal handler returning"%string ++ [10])).

Definition alarm_sighandler (signum : Z) : fprog () :=
  _ ← call (puts1 (lit "Alarm signal handler called, signum: "%string)); call (put_signum signum).

Definition sigtest_install : prog () :=
  _ ← puts1 (lit "Installing signal handlers"%string ++ [10]);
  _ ← ece391_set_handler SEGFAULT segfault;
  _ ← ece391_set_handler ALARM alarm;
  mret ().

(** [main] after the name has been read: [cnt] bytes of it. *)
Definition sigtest_greet (buf cnt : Z) : fprog Z :=
  bad ← load32 badbuf;
  _ ← store bad 1;
  _ ← store (buf + cnt) 0;
  _ ← call (puts1 (lit "Hello, "%string));
  _ ← call (ece391_fdputs 1 buf);
  c ← load8 charbuf;
  _ ← call (if c =? 1 then puts1 (lit "success"%string ++ [10]) else puts1 (lit "failure"%string ++ [10]));
  mret 0.

Definition sigtest_main (buf : Z) : fprog Z :=
  r ← call (ece391_getargs junk buf 1024);
  if negb (r =? 0) then _ ← call (puts1 (lit "could not read argument"%string ++ [10])); mret 3
  else
    c ← load8 buf;
    _ ← (if c =? 49 then call sigtest_install else mret ());
    _ ← call (puts1 (lit "Hi, what's your name? "%string));
    cnt ← call (ece391_read 0 buf 1023);
    if cnt =? -1 then _ ← call (puts1 (lit "Can't read name from keyboard."%string ++ [10])); mret 3
    else sigtest_greet buf cnt.

Lemma call_bind {A B} (p : prog A) (f : A → fprog B) u a u' :
  p u = Some (a, u') → (call p ≫= f) u = f a u'.
Proof. intros E. unfold mbind, fprog_bind, call. by rewrite E. Qed.

Lemma call_ret {A} (p : prog A) u a u' : p u = Some (a, u') → call p u = Some (Done a, u').
Proof. intros E. unfold call. by rewrite E. Qed.

Lemma done_bind {A B} (p : fprog A) (f : A → fprog B) u a u' :
  p u = Some (Done a, u') → (p ≫= f) u = f a u'.
Proof. intros E. unfold mbind, fprog_bind. by rewrite E. Qed.

Lemma fault_bind {A B} (p : fprog A) (f : A → fprog B) u x u' :
  p u = Some (Fault x, u') → (p ≫= f) u = Some (Fault x, u').
Proof. intros E. unfold mbind, fprog_bind. by rewrite E. Qed.

Lemma touch_mapped u a n :
  (∀ i, 0 ≤ i < n → unmapped (a + i) u = false) → touch a n u = Some (Done (), u).
Proof. intros H. unfold touch. by rewrite (proj2 (find_up_None _ 0 n) H). Qed.

Lemma touch_unmapped u a n :
  0 < n → 0 ≤ a < 4294967296 → unmapped a u = true → touch a n u = Some (Fault a, u).
Proof.
  intros Hn Ha H. unfold touch. rewrite (proj2 (find_up_Some _ 0 n 0)).
  - by rewrite Z.add_0_r, u32_small by lia.
  - rewrite Z.add_0_r. split_and!; [lia|lia|done|lia].
Qed.
End sigtest.

(** ** A system without signals *)

(** [set_handler] does nothing, the program's page is mapped and no page is mapped at 0. *)
Class NoSignals `{T : Tty} := {
  ns_handler u ebx ecx edx : live u → ∃ v, int80 SYS_SET_HANDLER ebx ecx edx u = Some (v, u);
  ns_user u a : live u → user a → unmapped a u = false;
  ns_null u : live u → unmapped 0 u = true;
}.

Section faults.
Context {US : Usys} {UM : UsysMem} {RO : Rodata} {T : Tty} {FI : FileIO} {NS : NoSignals} (junk : Z).
Context (charbuf badbuf segfault alarm : Z).
Implicit Types (u : ust).

Definition install_text : list Z := lit "Installing signal handlers"%string ++ [10].
Definition sigtest_lits : list (list Z) := [install_text; lit "Hi, what's your name? "%string].

Lemma install_ok u :
  live u → lits sigtest_lits u →
  ∃ u', sigtest_install junk segfault alarm u = Some ((), u') ∧ ran install_text u u' ∧ same_but 0 0 u u'.
Proof.
  intros Hu Hl. unfold sigtest_install.
  destruct (puts1_ok sigtest_lits u install_text Hu Hl ltac:(by left)) as (u1 & E1 & R1 & S1 & _).
  erewrite bind_run by exact E1. exists u1. split; [|done].
  assert (∀ a b, ∃ v, ece391_set_handler junk a b u1 = Some (v, u1)) as Hh.
  { intros a b. destruct (ns_handler u1 (u32 a) (u32 b) (u32 junk)) as [v Ev]; [apply R1|].
    exists (s32 v). unfold ece391_set_handler, DO_CALL. by erewrite bind_run by exact Ev. }
  destruct (Hh SEGFAULT segfault) as [v1 Ev1]. destruct (Hh ALARM alarm) as [v2 Ev2].
  erewrite bind_run by exact Ev1. by erewrite bind_run by exact Ev2.
Qed.

Lemma maybe_call (b : bool) u u' :
  (if b then sigtest_install junk segfault alarm else mret ()) u = Some ((), u') →
  (if b then call (sigtest_install junk segfault alarm) else mret ()) u = Some (Done (), u').
Proof. destruct b; [apply call_ret|]. by intros [= <-]. Qed.

(** Whether it was asked for or not, the installation changes nothing but the screen. *)
Lemma maybe_install_ok u (b : bool) :
  live u → lits sigtest_lits u →
  ∃ u', (if b then sigtest_install junk segfault alarm else mret ()) u = Some ((), u') ∧
    ran (if b then install_text else []) u u' ∧ same_but 0 0 u u'.
Proof.
  intros Hu Hl. destruct b; [by apply install_ok|]. exists u. split_and!; [done|by apply ran_refl|done].
Qed.

Lemma load8_user u a : live u → user a → load8 a u = Some (Done (uld8 u a), u).
Proof.
  intros Hu Ha. unfold load8. erewrite done_bind; [by apply call_ret|].
  apply touch_mapped. intros i Hi. replace (a + i) with a by lia. by apply ns_user.
Qed.

Lemma load32_user u a : live u → user_range a 4 → load32 a u = Some (Done (uld32 u a), u).
Proof.
  intros Hu Ha. unfold user_range in Ha. unfold load32. erewrite done_bind; [by apply call_ret|].
  apply touch_mapped. intros i Hi. apply ns_user; [done|unfold user; lia].
Qed.

Lemma store_null u v : live u → store 0 v u = Some (Fault 0, u).
Proof. intros Hu. apply fault_bind. apply touch_unmapped; [lia|lia|by apply ns_null]. Qed.

(** C18: on a system without signals the signal test, with or without its handlers, prints its
    question, reads the name into its buffer and then faults at address 0, its store through the
    null pointer: at that point nothing more has been printed, no byte outside the buffer has
    changed, and behind the name the buffer still holds the argument (the name has not been
    terminated). *)
Theorem sigtest_faults u arg l buf :
  live u → argument arg u → (length arg < 1024)%nat → typed l u → (length l ≤ 1022)%nat → Forall (λ c, 0 < c < 256) l →
  lits sigtest_lits u → away sigtest_lits buf 1024 → user_range buf 1024 →
  user_range badbuf 4 → (badbuf + 4 ≤ buf ∨ buf + 1024 ≤ badbuf) → uld32 u badbuf = 0 →
  ∃ u', sigtest_main junk charbuf badbuf segfault alarm buf u = Some (Fault 0, u') ∧ live u' ∧
    wrote ((if decide (head arg = Some 49) then install_text else []) ++ lit "Hi, what's your name? "%string) u u' ∧
    ubytes u' buf (Z.of_nat (length l)) = l ∧
    (∀ i, (length l ≤ i ≤ length arg)%nat → uld8 u' (buf + Z.of_nat i) = nth i arg 0) ∧
    same_but buf 1024 u u'.
Proof.
  intros Hu Ha Halen Ht Hlen Hc Hl Haw Hr Hbr Hbd Hb0.
  destruct (getargs_call junk u arg buf 1024 Hu Ha ltac:(lia) Hr) as (u0 & E0 & Hu0 & W0 & Hs & S0 & _ & T0).
  assert ((uld8 u0 buf =? 49) = bool_decide (head arg = Some 49)) as Eb.
  { pose proof (ucstr_byte u0 buf arg 0 Hs ltac:(lia)) as H. rewrite Z.add_0_r in H. rewrite H.
    destruct arg as [|c arg]; [reflexivity|]. simpl. case_bool_decide; destruct (Z.eqb_spec c 49); congruence. }
  assert (lits sigtest_lits u0) as Hl0 by (by eapply lits_same).
  destruct (maybe_install_ok u0 (bool_decide (head arg = Some 49)) Hu0 Hl0) as (u1 & E1 & (Hu1 & W1 & T1) & S1).
  assert (lits sigtest_lits u1) as Hl1 by (by eapply lits_kept).
  destruct (puts1_ok sigtest_lits u1 (lit "Hi, what's your name? "%string) Hu1 Hl1) as (u2 & E2 & (Hu2 & W2 & T2) & S2 & _);
    [by right; left|].
  assert (user_range buf 1023) as Hr' by (unfold user_range in *; lia).
  destruct (tty_read u2 l buf 1023 Hu2 (T2 _ (T1 _ (T0 _ Ht))) ltac:(lia) Hr') as (u3 & E3 & Hu3 & W3 & B3 & S3).
  assert (ece391_read 0 buf 1023 u2 = Some (Z.of_nat (length l), u3)) as E3'.
  { unfold user_range in Hr'. unfold ece391_read. erewrite do_call_eq by (exact E3 || lia). by rewrite s32_small by lia. }
  assert (uld32 u3 badbuf = 0) as Hb3.
  { rewrite <- Hb0. unfold uld32. unfold user_range in Hr, Hbr.
    rewrite !(S3 _), !(S2 _), !(S1 _), !(S0 _) by (unfold user; lia). done. }
  exists u3. unfold user_range in Hr. split_and!; [|done| |done| |].
  - unfold sigtest_main. erewrite call_bind by exact E0. cbn [negb Z.eqb].
    erewrite done_bind by (apply load8_user; [done|unfold user; lia]). rewrite Eb.
    erewrite done_bind by (apply maybe_call; exact E1).
    erewrite call_bind by exact E2. erewrite call_bind by exact E3'.
    destruct (Z.eqb_spec (Z.of_nat (length l)) (-1)); [lia|]. unfold sigtest_greet.
    erewrite done_bind by (by apply load32_user). rewrite Hb3.
    by erewrite fault_bind by (by apply store_null).
  - pose proof (wrote_trans _ _ _ _ _ W0 (wrote_trans _ _ _ _ _ W1 (wrote_trans _ _ _ _ _ W2 W3))) as W.
    rewrite app_nil_r in W. by case_bool_decide; case_decide.
  - intros i Hi. rewrite S3, S2, S1 by (unfold user; lia). apply ucstr_byte; [done|lia].
  - intros b Hb Hn. rewrite S3, S2, S1, S0 by (done || lia). done.
Qed.
End faults.

(** The kernel is such a system. *)
#[export] Instance kernel_no_signals `{PT : Ports, PL : PgLayout, FL : FsLayout, FR : Frames} : NoSignals (T := kernel_tty).
Proof.
  constructor.
  - intros k ebx ecx edx _. by exists (-1).
  - intros k a Hk Ha. pose proof Hk as [(p & Hp & Hm) _ _ _ _ _]. unfold unmapped. apply Z.ltb_ge.
    change (0 ≤ cell (X := kx k) a). rewrite (user_cell k _ p) by done. unfold user, _4M, _4K in *. lia.
  - intros k [(p & _ & [Hlay _ _ _ _ (f & fl & Hm)]) _ _ _ _ _]. unfold unmapped. apply Z.ltb_lt.
    change (mmu_xlat (kmmu k) 0 < 0). unfold mmu_xlat. rewrite (translate_ok _ _ _ 0 Hlay Hm) by lia. done.
Qed.
