(* ===== verification/Syserr.v ===== *)
(** * The system-call test program on the kernel

    ece391syserr.c calls the system calls with bad arguments and prints whether they answer
    as they should.  Here it runs on the kernel: its trap is [syscall_entry], and every test
    passes. *)

From Stdlib Require Import String.
From S2P Require Import Prelude Mem Lib Fs Paging Kstate Screen Terminal Keyboard.
From S2P Require Import Files Process Load User Client Conform.

Section syserr.
Context {US : Usys} {RO : Rodata} (junk : Z).

Definition NEG_FD : Z := -1073741823.
Definition BIG_FD : Z := 1073741823.
Definition BIG_NUM : Z := 1073741823.
Definition NEG_NUM : Z := -1073741823.

Definition line (s : string) : list Z := lit s ++ [10].

(** The other registers hold whatever they held. *)
Definition call_sys (num : Z) : prog Z := DO_CALL (u32 num) junk junk junk.

(** [if (-1 != call) { fail = 2; ece391_fdputs (1, msg); }] *)
Definition expect_error (call : prog Z) (msg : string) (fail : Z) : prog Z :=
  r ← call; if r =? -1 then mret fail else _ ← puts1 (line msg); mret 2.

(** The end of a test: the message for the value of [fail], which is returned. *)
Definition verdict (pass failed : string) (fail : Z) : prog Z :=
  _ ← puts1 (line (if nz fail then failed else pass)); mret fail.

Definition err_neg_fd (buf : Z) : prog Z :=
  fail ← expect_error (ece391_read NEG_FD buf 31) "read fail" 0;
  fail ← expect_error (ece391_write NEG_FD buf 31) "write fail" fail;
  fail ← expect_error (ece391_close junk NEG_FD) "close fail" fail;
  verdict "err_neg_fd: PASS" "err_neg_fd: FAIL" fail.

Definition err_big_fd (buf : Z) : prog Z :=
  fail ← expect_error (ece391_read BIG_FD buf 31) "read fail" 0;
  fail ← expect_error (ece391_write BIG_FD buf 31) "write fail" fail;
  fail ← expect_error (ece391_close junk BIG_FD) "close fail" fail;
  verdict "err_big_fd: PASS" "err_big_fd: FAIL" fail.

Definition err_open_lots : prog Z :=
  cnt ← ploop (λ '(i, cnt), if i <? 7 then
      r ← ece391_open junk (str (lit "."));
      mret (inl (i + 1, if r =? -1 then cnt + 1 else cnt))
    else mret (inr cnt)) (0, 0);
  _ ← ploop (λ i, if i <? 8 then _ ← ece391_close junk i; mret (inl (i + 1)) else mret (inr ())) 2;
  if cnt =? 1 then _ ← puts1 (line "err_open_lots: PASS"); mret 0
  else _ ← puts1 (line "err_open_lots: FAIL"); mret 2.

Definition err_open : prog Z :=
  fail ← expect_error (ece391_open junk (str (lit "helloo"))) "'helloo' fail" 0;
  fail ← expect_error (ece391_open junk (str (lit "shel"))) "'shel' fail" fail;
  fail ← expect_error (ece391_open junk (str [])) "empty string fail" fail;
  verdict "err_open: PASS" "err_open: FAIL" fail.

(** A loop of checks over descriptors. *)
Definition each_fd (lo : Z) (call : Z → prog Z) (msg : string) (fail : Z) : prog Z :=
  ploop (λ '(i, fail), if i <? 8 then
      fail ← expect_error (call i) msg fail; mret (inl (i + 1, fail))
    else mret (inr fail)) (lo, fail).

Definition err_unopened (buf : Z) : prog Z :=
  fail ← each_fd 0 (ece391_close junk) "close unopened or invalid fd fail" 0;
  fail ← each_fd 2 (λ i, ece391_read i buf 31) "read from unopened fd fail" fail;
  fail ← each_fd 2 (λ i, ece391_write i buf 31) "write to unopened fd fail" fail;
  verdict "err_unopened: PASS" "err_unopened: FAIL" fail.

Definition err_vidmap : prog Z :=
  fail ← expect_error (ece391_vidmap junk 0) "Null pointer fail" 0;
  fail ← expect_error (ece391_vidmap junk 4194304) "Kernel pointer fail fail" fail;
  verdict "err_vidmap: PASS" "err_vidmap: FAIL" fail.

Definition err_stdin_out (buf : Z) : prog Z :=
  fail ← expect_error (ece391_write 0 buf 31) "write to stdin fail" 0;
  fail ← expect_error (ece391_read 1 buf 31) "read from stdout fail" fail;
  verdict "err_stdin_out: PASS" "err_stdin_out: FAIL" fail.

Definition err_syscall_num : prog Z :=
  fail ← expect_error (call_sys BIG_NUM) "syscall 0 fail" 0;
  fail ← expect_error (call_sys NEG_NUM) "big num syscall fail" fail;
  fail ← expect_error (call_sys 0) "neg num syscall fail" fail;
  verdict "err_syscall_num: PASS" "err_syscall_num: FAIL" fail.

(** [bufs] is the 32-byte array of the tests that have one. *)
Definition err_all (bufs : Z) : prog Z :=
  f1 ← err_neg_fd bufs;
  f2 ← err_big_fd bufs;
  f3 ← err_open_lots;
  f4 ← err_open;
  f5 ← err_unopened bufs;
  f6 ← err_vidmap;
  f7 ← err_stdin_out bufs;
  f8 ← err_syscall_num;
  let fail := f1 + f2 + f3 + f4 + f5 + f6 + f7 + f8 in
  _ ← puts1 ([10] ++ line (if nz fail then "Overall Tests: FAIL" else "Overall Tests: PASS"));
  mret fail.

Definition syserr_select (bufs select : Z) : prog Z :=
  if select =? 0 then err_all bufs
  else if select =? 1 then err_neg_fd bufs
  else if select =? 2 then err_big_fd bufs
  else if select =? 3 then err_open_lots
  else if select =? 4 then err_open
  else if select =? 5 then err_unopened bufs
  else if select =? 6 then err_vidmap
  else if select =? 7 then err_stdin_out bufs
  else if select =? 8 then err_syscall_num
  else _ ← puts1 (lit "Invalid test number. Choose from tests 1-8 or 0"); mret 0.

Definition syserr_main (buf bufs : Z) : prog Z :=
  _ ← puts1 (lit "Choose from tests 1-8. 0 to run all: ");
  cnt ← ece391_read 0 buf 127;
  if cnt =? -1 then _ ← puts1 (line "Can't read test #"); mret 2
  else c ← peekb buf; syserr_select bufs (c - 48).
End syserr.

(** ** The tests pass *)

Section passes.
Context {PT : Ports} {PL : PgLayout} {FL : FsLayout} {FR : Frames} {RO : Rodata} (junk : Z).
Implicit Types (k : kernel).

Definition prompt : list Z := lit "Choose from tests 1-8. 0 to run all: ".
Definition overall : list Z := [10] ++ line "Overall Tests: PASS".

(** Names that are not in the file system. *)
Definition absent : list (list Z) := [lit "helloo"; lit "shel"; []].

(** The literals the tests use when they pass. *)
Definition syserr_lits : list (list Z) := absent ++
  [prompt; lit "."; overall; line "err_neg_fd: PASS";
   line "err_big_fd: PASS"; line "err_open_lots: PASS"; line "err_open: PASS";
   line "err_unopened: PASS"; line "err_vidmap: PASS"; line "err_stdin_out: PASS";
   line "err_syscall_num: PASS"].

(** The file system the tests assume: a directory ".", and none of the three names. *)
Record ready k : Prop := {
  rd_runs : runs k;
  rd_lits : lits syserr_lits k;
  rd_dot : ∃ i, find_entry (X := kx k) (pmem k) (lit ".") = Some i ∧
             ld32 (X := kx k) (pmem k) (files i + 32) = DIR;
  rd_none : ∀ l, l ∈ absent → find_entry (X := kx k) (pmem k) l = None;
}.

(** Of the six descriptors of files, those below [n] are open. *)
Definition opened (n : Z) k : Prop := ∀ j, 2 ≤ j < 8 → flags (cur_fd k j) = FREE ↔ n ≤ j.

Definition good k : Prop := ready k ∧ opened 2 k.

(** In a good state the program returns [v], has printed [out], and the state is good. *)
Definition tr {A} (p : prog A) (v : A) (out : list Z) : Prop :=
  ∀ k, good k → ∃ k', p k = Some (v, k') ∧ good k' ∧ printed out k k'.

Lemma tr_bind {A B} (p : prog A) (f : A → prog B) a b o1 o2 :
  tr p a o1 → tr (f a) b o2 → tr (p ≫= f) b (o1 ++ o2).
Proof.
  intros H1 H2 k Hk. destruct (H1 k Hk) as (k1 & E1 & G1 & P1). destruct (H2 k1 G1) as (k2 & E2 & G2 & P2).
  exists k2. split_and!; [|done|by eapply printed_trans]. unfold mbind, prog_bind. by rewrite E1.
Qed.

Lemma tr_ret {A} (v : A) : tr (mret v) v [].
Proof. intros k Hk. exists k. split_and!; [done|done|by split_and!]. Qed.

Lemma tr_expect call msg fail out : tr call (-1) out → tr (expect_error call msg fail) fail out.
Proof.
  intros H k Hk. destruct (H k Hk) as (k' & E & H'). exists k'. split; [|done].
  unfold expect_error, mbind, prog_bind. by rewrite E.
Qed.

(** ** Printing *)

Lemma find_entry_keeps k k' l :
  runs k → steady k k' → find_entry (X := kx k') (pmem k') l = find_entry (X := kx k) (pmem k) l.
Proof.
  intros Hk Hkp. pose proof (kp_boot _ _ Hkp) as Hb.
  assert (kx k' = kx k) as E by (unfold kx; by rewrite (kp_mmu _ _ Hkp)). rewrite E in *.
  apply find_entry_agrees; [done|apply Hk].
Qed.

Lemma ready_steady k k' :
  ready k → runs k' → same_but 0 0 k k' → steady k k' → ready k'.
Proof.
  intros [Hk Hl (i & Hi & Ht) Hn] Hk' Hs Hkp.
  constructor; [done|by eapply lits_kept| |].
  - exists i. rewrite (find_entry_keeps k k') by done. split; [done|]. rewrite <- Ht.
    apply find_entry_range in Hi. pose proof (rn_dir _ Hk).
    eapply agrees_ld32; [apply Hkp|..]; unfold files, BLOCK_SIZE; lia.
  - intros l Hin. rewrite (find_entry_keeps k k') by done. by apply Hn.
Qed.

Lemma good_keeps k k' : good k → runs k' → same_but 0 0 k k' → keeps k k' → good k'.
Proof.
  intros [Hr Ho] Hk' Hs Hkp. split; [by eapply ready_steady; [..|apply Hkp]|].
  intros j Hj. unfold cur_fd, cur_pcb. rewrite (kp_prc _ _ Hkp). by apply Ho.
Qed.

Lemma puts_good k l :
  l ∈ syserr_lits → good k →
  ∃ k', puts1 l k = Some ((), k') ∧ good k' ∧ printed l k k' ∧ ∀ w, line_typed w k → line_typed w k'.
Proof.
  intros Hin Hk. pose proof Hk as [Hr Ho]. pose proof (rd_runs _ Hr) as Hk'.
  destruct (rd_lits _ Hr l Hin) as [Hs Hrg]. unfold puts1, ece391_fdputs, mbind, prog_bind.
  rewrite (strlen_ok (US := kernel_usys) k (str l) l) by done.
  destruct (decide (l = [])) as [->|Hne].
  - exists k. split_and!; [|done|done|done..]. unfold ece391_write, user_range in *.
    by erewrite (do_call_eq (US := kernel_usys)); [|lia..|simpl; lia|by apply (tty_write_none (Tty := kernel_tty))].
  - assert (0 < Z.of_nat (length l)) by (destruct l; [done|simpl; lia]).
    unfold user_range in Hrg.
    destruct (terminal_write_runs k (str l) (Z.of_nat (length l)) Hk') as (k' & E & R & P & Ty & S & K);
      [done|unfold user_range; lia|].
    rewrite (cstring_load (X := kx k) (pmem k) (str l) l Hs) in P.
    exists k'. split_and!; [|by eapply good_keeps|done..].
    unfold ece391_write. erewrite (do_call_eq (US := kernel_usys)); [done|lia..|]. cbn. unfold syscall_entry.
    change (s32 SYS_WRITE) with 4. change (s32 1) with 1. rewrite (s32_small (Z.of_nat (length l))) by lia.
    simpl. rewrite write_1 by apply Hk'. by rewrite E.
Qed.

Lemma tr_puts l : l ∈ syserr_lits → tr (puts1 l) () l.
Proof. intros Hin k Hk. destruct (puts_good k l Hin Hk) as (k' & ? & ? & ? & _). by exists k'. Qed.

Lemma tr_verdict pass failed : line pass ∈ syserr_lits → tr (verdict pass failed 0) 0 (line pass).
Proof.
  intros Hin. rewrite <- (app_nil_r (line pass)). unfold verdict.
  eapply tr_bind; [by apply tr_puts|apply tr_ret].
Qed.

(** ** Calls that fail *)

Lemma do_call_ret n a b c k v k' :
  syscall_entry n (u32 a) (u32 b) (u32 c) k = Some (Ret v k') →
  DO_CALL n a b c k = Some (s32 v, k').
Proof. intros E. unfold DO_CALL, mbind, prog_bind. cbn. by rewrite E. Qed.

Lemma s32_u32 z : -2147483648 ≤ z < 2147483648 → s32 (u32 z) = z.
Proof. intros. unfold s32, u32. rewrite Zplus_mod_idemp_l. by apply s32_small. Qed.

Lemma printed_refl k : printed [] k k.
Proof. by split_and!. Qed.

Lemma good_sti k : good k → good (sti k) ∧ printed [] k (sti k).
Proof.
  intros Hk. pose proof Hk as [[Hr _ _ _] _]. split; [|by split_and!].
  assert (keeps k (sti k)) as Hkp by (by repeat constructor).
  eapply good_keeps; [exact Hk| |done|done]. eapply runs_step; [done|done|apply Hr|].
  destruct (rn_map _ Hr) as (p & Hp & []). exists p. by split; [|constructor].
Qed.

Lemma free_slot k fd : good k → 2 ≤ fd < 8 → flags (cur_fd k fd) = FREE.
Proof. intros [_ Ho] Hfd. apply Ho; lia. Qed.

Lemma tr_read_bad fd buf n : -2147483648 ≤ fd < 2147483648 → fd ≠ 0 → tr (ece391_read fd buf n) (-1) [].
Proof.
  intros Hr Hfd k Hk. exists (sti k). destruct (good_sti k Hk) as [Hg Hp]. split_and!; [|done|done].
  unfold ece391_read. rewrite (do_call_ret _ _ _ _ _ (-1) (sti k)); [done|]. unfold syscall_entry. cbv zeta. rewrite (s32_u32 fd) by done.
  change (s32 SYS_READ) with 3. simpl. unfold syscall_read.
  destruct (_ || _) eqn:E; [done|]. rewrite !orb_false_iff, Z.leb_gt, Z.ltb_ge, Z.eqb_neq in E.
  by rewrite (free_slot (sti k)) by (done || lia).
Qed.

Lemma tr_write_bad fd buf n : -2147483648 ≤ fd < 2147483648 → fd ≠ 1 → tr (ece391_write fd buf n) (-1) [].
Proof.
  intros Hr Hfd k Hk. exists k. split_and!; [|done|apply printed_refl].
  unfold ece391_write. rewrite (do_call_ret _ _ _ _ _ (-1) k); [done|]. unfold syscall_entry. cbv zeta. rewrite (s32_u32 fd) by done.
  change (s32 SYS_WRITE) with 4. simpl. unfold syscall_write.
  destruct (_ || _) eqn:E; [done|]. rewrite !orb_false_iff, Z.leb_gt, Z.leb_gt in E.
  by rewrite (free_slot k) by (done || lia).
Qed.

Lemma tr_close_bad fd : -2147483648 ≤ fd < 2147483648 → tr (ece391_close junk fd) (-1) [].
Proof.
  intros Hr k Hk. exists k. split_and!; [|done|apply printed_refl].
  unfold ece391_close. rewrite (do_call_ret _ _ _ _ _ (-1) k); [done|]. unfold syscall_entry. cbv zeta. rewrite (s32_u32 fd) by done.
  change (s32 SYS_CLOSE) with 6. simpl. unfold syscall_close.
  destruct (_ || _) eqn:E; [done|]. rewrite !orb_false_iff, Z.ltb_ge, Z.ltb_ge in E.
  by rewrite (free_slot k) by (done || lia).
Qed.

Lemma tr_bad_number num :
  -2147483648 ≤ num < 2147483648 → num ≤ 0 ∨ 10 < num → tr (call_sys junk num) (-1) [].
Proof.
  intros Hr Hn k Hk. exists k. split_and!; [|done|apply printed_refl].
  unfold call_sys. rewrite (do_call_ret _ _ _ _ _ (-1) k); [done|]. unfold syscall_entry. cbv zeta. rewrite s32_u32 by done.
  destruct (_ || _) eqn:E; [done|]. rewrite orb_false_iff, Z.leb_gt, Z.ltb_ge in E. lia.
Qed.

Lemma tr_each lo call msg fail :
  (∀ i, lo ≤ i < 8 → tr (call i) (-1) []) → lo ≤ 8 → -100 < lo → tr (each_fd lo call msg fail) fail [].
Proof.
  intros Hc Hlo Hb k Hk. unfold each_fd.
  edestruct (ploop_total (US := kernel_usys) (λ '(i, fail), if i <? 8 then
      fail ← expect_error (call i) msg fail; mret (inl (i + 1, fail)) else mret (inr fail))
    (λ '(i, f) k', lo ≤ i ≤ 8 ∧ f = fail ∧ good k' ∧ printed [] k k')
    (λ r k', r = fail ∧ good k' ∧ printed [] k k') (λ '(i, _) _, 8 - i) (lo, fail) k)
    as (r & k' & E & -> & H); [|split_and!; (done || lia || apply printed_refl)|lia|by exists k'].
  intros [i f] k1 (Hi & -> & Hg & Hp). split; [lia|]. destruct (Z.ltb_spec i 8) as [Hlt|Hge].
  - destruct (tr_expect _ msg fail _ (Hc i ltac:(lia)) k1 Hg) as (k2 & E2 & Hg2 & Hp2).
    exists (inl (i + 1, fail)), k2. unfold mbind, prog_bind. rewrite E2.
    split; [done|]. split_and!; [lia|lia|done|done|exact (printed_trans [] [] _ _ _ Hp Hp2)|lia].
  - by exists (inr fail), k1.
Qed.

Lemma tr_vidmap_null : tr (ece391_vidmap junk 0) (-1) [].
Proof.
  intros k Hk. exists k. split_and!; [|done|apply printed_refl].
  unfold ece391_vidmap. by rewrite (do_call_ret _ _ _ _ _ (-1) k).
Qed.

(** The kernel prints a message of its own. *)
Lemma tr_vidmap_kernel : tr (ece391_vidmap junk 4194304) (-1) msg_vidmap.
Proof.
  intros k Hk. pose proof Hk as [[Hr _ _ _] _].
  destruct (put_list_runs k msg_vidmap Hr) as (R & P & _ & S & K).
  exists (put_list msg_vidmap k). split_and!; [|by eapply good_keeps|done].
  unfold ece391_vidmap. rewrite (do_call_ret _ _ _ _ _ (-1) (put_list msg_vidmap k)); [done|].
  unfold syscall_entry. cbv zeta. change (s32 SYS_VIDMAP) with 8. simpl. unfold syscall_vidmap.
  change (u32 4194304) with 4194304. simpl.
  rewrite kprint_plain by (by apply (bool_decide_unpack _)). done.
Qed.

(** ** Opening *)

Lemma tr_open_missing l :
  l ∈ absent → tr (ece391_open junk (str l)) (-1) [].
Proof.
  intros Hin k Hk. exists k. split_and!; [|done|apply printed_refl].
  pose proof Hk as [[Hr Hl _ Hn] _].
  assert (ucstr (US := kernel_usys) k (str l) l) as Hs by (apply Hl, elem_of_app; by left).
  pose proof (syscall_open_ok k (str l) l (runs_open_env k _ l Hr Hs)) as H. rewrite (Hn l Hin) in H.
  unfold ece391_open. rewrite (do_call_ret _ _ _ _ _ (-1) k); [done|].
  unfold syscall_entry. cbv zeta. change (s32 SYS_OPEN) with 5. simpl.
  rewrite u32_small by (destruct Hs as [_ Hs]; unfold user_range in Hs; lia). by rewrite H.
Qed.

(** A call of [open] on the directory takes the next descriptor, while there is one. *)
Lemma open_dot k n :
  ready k → opened n k → 2 ≤ n ≤ 8 →
  ∃ r k', ece391_open junk (str (lit ".")) k = Some (r, k') ∧ ready k' ∧ printed [] k k' ∧
    if n =? 8 then r = -1 ∧ opened 8 k' else r = n ∧ opened (n + 1) k'.
Proof.
  intros Hr Ho Hn. pose proof Hr as [Hk Hl (i & Hi & Ht) _].
  assert (ucstr (US := kernel_usys) k (str (lit ".")) (lit ".")) as Hs
    by (apply Hl; by apply (bool_decide_unpack _)).
  pose proof (runs_open_env k _ _ Hk Hs) as Henv.
  pose proof (syscall_open_ok k _ _ Henv) as H. rewrite Hi in H. destruct H as (r & k' & H).
  destruct (H dir_ops ltac:(by rewrite Ht)) as (E & U & Eu & Ec & Ef & Eo & Hcase). clear H.
  set (e := FileEntry dir_ops (ld32 (X := kx k) (pmem k) (files i + 36)) 0 IN_USE) in *.
  assert (fds_ok (cur_pcb k') ∧ if n =? 8 then r = -1 ∧ opened 8 k' else r = n ∧ opened (n + 1) k')
    as [Hf Hres].
  { destruct Hcase as [(-> & Hb & Ep)|(Hrr & Hfr & Hb & Ep)].
    - assert (n = 8) as -> by (destruct (decide (n = 8)); [done|];
        exfalso; apply (Hb n); [lia|apply Ho; lia]).
      split; [rewrite (cur_pcb_same k) by done; apply Hk|]. split; [done|].
      intros j Hj. unfold cur_fd. rewrite (cur_pcb_same k) by done. by apply Ho.
    - assert (r = n) as -> by (apply Ho in Hfr; [|lia]; destruct (decide (n < r)); [|lia];
        exfalso; apply (Hb n); [lia|apply Ho; lia]).
      assert (cur_pcb k' = put_fd n e (cur_pcb k)) as Ep'
        by (rewrite (cur_pcb_same _ _ Ep); apply cur_pcb_upd).
      pose proof (rn_fds _ Hk) as Hf. split.
      + rewrite Ep'. apply fds_ok_put; [done|lia|]. right. split; [done|by left].
      + destruct (Z.eqb_spec n 8); [lia|]. split; [done|]. intros j Hj. unfold cur_fd.
        rewrite Ep', fd_of_put by (lia || apply Hf). case_decide as Ej; [subst j|].
        * split; [done|lia].
        * etransitivity; [by apply Ho|]. lia. }
  destruct (open_frame k k' _ _ Hk Henv U Eu Ec Ef Eo Hf) as (Hk' & Hst & Hsm & Hpr).
  exists r, k'. split_and!; [|by eapply ready_steady|done|done].
  unfold ece391_open. rewrite (do_call_ret _ _ _ _ _ r k').
  - rewrite s32_small; [done|]. destruct (n =? 8); lia.
  - unfold syscall_entry. cbv zeta. change (s32 SYS_OPEN) with 5. simpl.
    rewrite u32_small by (destruct Hs as [_ Hs]; unfold user_range in Hs; lia). by rewrite E.
Qed.

(** Descriptors below [n] have been closed again. *)
Definition closed (n : Z) k : Prop := ∀ j, 2 ≤ j < 8 → flags (cur_fd k j) = FREE ↔ j < n.

Lemma close_next k n :
  ready k → closed n k → 2 ≤ n < 8 →
  ∃ k', ece391_close junk n k = Some (0, k') ∧ ready k' ∧ closed (n + 1) k' ∧ printed [] k k'.
Proof.
  intros Hr Hc Hn. pose proof Hr as [Hk _ _ _].
  destruct (close_runs k n Hk Hn) as (E & Hk' & Hst & Hpr & Hsm & Ep).
  { intros Ef. apply Hc in Ef; lia. }
  eexists. split_and!; [|by eapply ready_steady| |exact Hpr].
  - unfold ece391_close. rewrite (do_call_ret _ _ _ _ _ 0 (set_cur_fd n (set_flags FREE (cur_fd k n)) k)); [done|].
    unfold syscall_entry. cbv zeta. rewrite (s32_u32 n) by lia. change (s32 SYS_CLOSE) with 6. simpl. by rewrite E.
  - intros j Hj. unfold cur_fd at 1. rewrite Ep, fd_of_put by (lia || apply Hk). case_decide as Ej.
    + subst j. split; [lia|done].
    + etransitivity; [by apply Hc|]. lia.
Qed.

Lemma opens_loop k :
  good k →
  ∃ k', ploop (US := kernel_usys) (λ '(i, cnt), if i <? 7 then
      r ← ece391_open junk (str (lit "."));
      mret (inl (i + 1, if r =? -1 then cnt + 1 else cnt))
    else mret (inr cnt)) (0, 0) k = Some (1, k') ∧ ready k' ∧ opened 8 k' ∧ printed [] k k'.
Proof.
  intros [Hr Ho].
  edestruct (ploop_total (US := kernel_usys) (λ '(i, cnt), if i <? 7 then
      r ← ece391_open junk (str (lit "."));
      mret (inl (i + 1, if r =? -1 then cnt + 1 else cnt)) else mret (inr cnt))
    (λ '(i, cnt) k', 0 ≤ i ≤ 7 ∧ cnt = Z.max 0 (i - 6) ∧ ready k' ∧ opened (Z.min (i + 2) 8) k' ∧
       printed [] k k')
    (λ r k', r = 1 ∧ ready k' ∧ opened 8 k' ∧ printed [] k k') (λ '(i, _) _, 7 - i) (0, 0) k)
    as (r & k' & E & -> & H); [|split_and!; (done || lia || apply printed_refl)|lia|by exists k'].
  intros [i cnt] k1 (Hi & -> & Hr1 & Ho1 & Hp1). split; [lia|]. destruct (Z.ltb_spec i 7) as [Hlt|Hge].
  - destruct (open_dot k1 (Z.min (i + 2) 8) Hr1 Ho1 ltac:(lia)) as (r & k2 & E2 & Hr2 & Hp2 & Hres).
    eexists _, k2. unfold mbind, prog_bind. rewrite E2. split; [reflexivity|].
    pose proof (printed_trans [] [] _ _ _ Hp1 Hp2) as Hp. simpl in Hp.
    destruct (Z.eqb_spec (Z.min (i + 2) 8) 8) as [E8|E8]; destruct Hres as [-> Ho2].
    + rewrite Z.eqb_refl. split_and!; [lia..|done| |done|lia].
      by replace (Z.min (i + 1 + 2) 8) with 8 by lia.
    + destruct (Z.eqb_spec (Z.min (i + 2) 8) (-1)); [lia|]. split_and!; [lia..|done| |done|lia].
      by replace (Z.min (i + 1 + 2) 8) with (Z.min (i + 2) 8 + 1) by lia.
  - eexists (inr _), k1. split; [reflexivity|]. split_and!; [lia|done| |done].
    by replace (Z.min (i + 2) 8) with 8 in Ho1 by lia.
Qed.

Lemma closes_loop k :
  ready k → opened 8 k →
  ∃ k', ploop (US := kernel_usys) (λ i, if i <? 8 then _ ← ece391_close junk i; mret (inl (i + 1))
    else mret (inr ())) 2 k = Some ((), k') ∧ good k' ∧ printed [] k k'.
Proof.
  intros Hr Ho.
  edestruct (ploop_total (US := kernel_usys) (λ i, if i <? 8 then _ ← ece391_close junk i; mret (inl (i + 1))
      else mret (inr ()))
    (λ i k', 2 ≤ i ≤ 8 ∧ ready k' ∧ closed i k' ∧ printed [] k k')
    (λ r k', good k' ∧ printed [] k k') (λ i _, 8 - i) 2 k) as ([] & k' & E & H).
  - intros i k1 (Hi & Hr1 & Hc1 & Hp1). split; [lia|]. destruct (Z.ltb_spec i 8) as [Hlt|Hge].
    + destruct (close_next k1 i Hr1 Hc1 ltac:(lia)) as (k2 & E2 & Hr2 & Hc2 & Hp2).
      exists (inl (i + 1)), k2. unfold mbind, prog_bind. rewrite E2. split; [reflexivity|].
      split_and!; [lia|lia|done|done|exact (printed_trans [] [] _ _ _ Hp1 Hp2)|lia].
    + exists (inr ()), k1. split; [reflexivity|]. split; [|done]. split; [done|].
      intros j Hj. etransitivity; [by apply Hc1|]. lia.
  - split_and!; [lia|lia|done| |apply printed_refl]. intros j Hj. etransitivity; [by apply Ho|]. lia.
  - lia.
  - by exists k'.
Qed.

Lemma tr_open_lots : tr (err_open_lots junk) 0 (line "err_open_lots: PASS").
Proof.
  intros k Hk. destruct (opens_loop k Hk) as (k1 & E1 & R1 & O1 & P1).
  destruct (closes_loop k1 R1 O1) as (k2 & E2 & G2 & P2).
  destruct (tr_puts (line "err_open_lots: PASS") ltac:(by apply (bool_decide_unpack _)) k2 G2)
    as (k3 & E3 & G3 & P3).
  exists k3. split_and!; [|done|].
  - unfold err_open_lots, mbind, prog_bind. unfold mbind, prog_bind in E1, E2. rewrite E1, E2. simpl.
    by rewrite E3.
  - exact (printed_trans [] _ _ _ _ P1 (printed_trans [] _ _ _ _ P2 P3)).
Qed.

(** ** The tests *)

Local Ltac a_lit := by apply (bool_decide_unpack _).

(** Three failing calls and the verdict. *)
Lemma tr_three c1 c2 c3 m1 m2 m3 pass failed :
  tr c1 (-1) [] → tr c2 (-1) [] → tr c3 (-1) [] → line pass ∈ syserr_lits →
  tr (fail ← expect_error c1 m1 0; fail ← expect_error c2 m2 fail; fail ← expect_error c3 m3 fail;
      verdict pass failed fail) 0 (line pass).
Proof.
  intros H1 H2 H3 Hin. apply (tr_bind _ _ 0 0 []); [by apply tr_expect|].
  apply (tr_bind _ _ 0 0 []); [by apply tr_expect|]. apply (tr_bind _ _ 0 0 []); [by apply tr_expect|].
  by apply tr_verdict.
Qed.

Lemma tr_neg_fd buf : tr (err_neg_fd junk buf) 0 (line "err_neg_fd: PASS").
Proof. apply tr_three; [by apply tr_read_bad|by apply tr_write_bad|by apply tr_close_bad|a_lit]. Qed.

Lemma tr_big_fd buf : tr (err_big_fd junk buf) 0 (line "err_big_fd: PASS").
Proof. apply tr_three; [by apply tr_read_bad|by apply tr_write_bad|by apply tr_close_bad|a_lit]. Qed.

Lemma tr_open : tr (err_open junk) 0 (line "err_open: PASS").
Proof. apply tr_three; [apply tr_open_missing; a_lit..|a_lit]. Qed.

Lemma tr_syscall_num : tr (err_syscall_num junk) 0 (line "err_syscall_num: PASS").
Proof. apply tr_three; [apply tr_bad_number; unfold BIG_NUM, NEG_NUM; lia..|a_lit]. Qed.

Lemma tr_unopened buf : tr (err_unopened junk buf) 0 (line "err_unopened: PASS").
Proof.
  apply (tr_bind _ _ 0 0 []); [apply tr_each; [|lia..]; intros i Hi; apply tr_close_bad; lia|].
  apply (tr_bind _ _ 0 0 []); [apply tr_each; [|lia..]; intros i Hi; apply tr_read_bad; lia|].
  apply (tr_bind _ _ 0 0 []); [apply tr_each; [|lia..]; intros i Hi; apply tr_write_bad; lia|].
  apply tr_verdict. a_lit.
Qed.

Lemma tr_vidmap : tr (err_vidmap junk) 0 (msg_vidmap ++ line "err_vidmap: PASS").
Proof.
  apply (tr_bind _ _ 0 0 []); [apply tr_expect, tr_vidmap_null|].
  apply (tr_bind _ _ 0 0 msg_vidmap (line "err_vidmap: PASS")); [apply tr_expect, tr_vidmap_kernel|].
  apply tr_verdict. a_lit.
Qed.

Lemma tr_stdin_out buf : tr (err_stdin_out buf) 0 (line "err_stdin_out: PASS").
Proof.
  apply (tr_bind _ _ 0 0 []); [by apply tr_expect, tr_write_bad|].
  apply (tr_bind _ _ 0 0 []); [by apply tr_expect, tr_read_bad|]. apply tr_verdict. a_lit.
Qed.

(** What the tests print. *)
Definition test_output : list (list Z) :=
  [line "err_neg_fd: PASS"; line "err_big_fd: PASS"; line "err_open_lots: PASS";
   line "err_open: PASS"; line "err_unopened: PASS"; msg_vidmap ++ line "err_vidmap: PASS";
   line "err_stdin_out: PASS"; line "err_syscall_num: PASS"].

Definition select_output (select : Z) : list Z :=
  if select =? 0 then concat test_output ++ overall else nth (Z.to_nat (select - 1)) test_output [].

Lemma tr_all bufs : tr (err_all junk bufs) 0 (concat test_output ++ overall).
Proof.
  unfold err_all, test_output.
  generalize (tr_neg_fd bufs), (tr_big_fd bufs), tr_open_lots, tr_open, (tr_unopened bufs), tr_vidmap,
    (tr_stdin_out bufs), tr_syscall_num.
  generalize (line "err_neg_fd: PASS"), (line "err_big_fd: PASS"), (line "err_open_lots: PASS"),
    (line "err_open: PASS"), (line "err_unopened: PASS"), (msg_vidmap ++ line "err_vidmap: PASS"),
    (line "err_stdin_out: PASS"), (line "err_syscall_num: PASS").
  intros o1 o2 o3 o4 o5 o6 o7 o8 H1 H2 H3 H4 H5 H6 H7 H8. cbn [concat]. rewrite <- !app_assoc, app_nil_l.
  apply (tr_bind _ _ _ _ _ _ H1), (tr_bind _ _ _ _ _ _ H2), (tr_bind _ _ _ _ _ _ H3),
    (tr_bind _ _ _ _ _ _ H4), (tr_bind _ _ _ _ _ _ H5), (tr_bind _ _ _ _ _ _ H6),
    (tr_bind _ _ _ _ _ _ H7), (tr_bind _ _ _ _ _ _ H8).
  rewrite <- (app_nil_r overall).
  apply (tr_bind _ _ () 0 overall []); [apply tr_puts; a_lit|apply tr_ret].
Qed.

Lemma tr_select bufs select :
  0 ≤ select ≤ 8 → tr (syserr_select junk bufs select) 0 (select_output select).
Proof.
  intros Hs. assert (select = 0 ∨ select = 1 ∨ select = 2 ∨ select = 3 ∨ select = 4 ∨ select = 5 ∨
    select = 6 ∨ select = 7 ∨ select = 8) as [->|[->|[->|[->|[->|[->|[->|[->| ->]]]]]]]] by lia.
  - exact (tr_all bufs).
  - exact (tr_neg_fd bufs).
  - exact (tr_big_fd bufs).
  - exact tr_open_lots.
  - exact tr_open.
  - exact (tr_unopened bufs).
  - exact tr_vidmap.
  - exact (tr_stdin_out bufs).
  - exact tr_syscall_num.
Qed.

(** Reading the number of a test. *)
Lemma read_select k buf w :
  good k → line_typed w k → (length w ≤ 127)%nat → user_range buf 127 → away syserr_lits buf 127 →
  ∃ k', ece391_read 0 buf 127 k = Some (Z.of_nat (length w), k') ∧ good k' ∧ printed [] k k' ∧
    load_bytes (X := kx k') (pmem k') buf (Z.of_nat (length w)) = w.
Proof.
  intros Hg Ht Hl Hr Ha. pose proof Hg as [[Hk Hlit Hdot Hno] Ho].
  destruct (read_runs k w buf 127 Hk Ht ltac:(lia) Hr) as (k' & E & R & P & L & S & K).
  exists k'. split_and!; [| |done|done].
  - unfold ece391_read. rewrite (do_call_ret _ _ _ _ _ (Z.of_nat (length w)) k').
    + by rewrite s32_small by lia.
    + unfold syscall_entry. cbv zeta. change (s32 SYS_READ) with 3. change (s32 (u32 0)) with 0.
      change (s32 (u32 127)) with 127. simpl. unfold user_range in Hr. by rewrite u32_small by lia.
  - split; [|intros j Hj; unfold cur_fd, cur_pcb; rewrite (kp_prc _ _ K); by apply Ho].
    constructor; [done| | |].
    + eapply lits_same; [|exact Ha|exact Hlit].
      eapply same_but_mono; [exact S|]. intros b Hb. lia.
    + destruct Hdot as (i & Hi & Hti). exists i.
      rewrite (find_entry_keeps k k') by (done || apply K). split; [done|]. rewrite <- Hti.
      apply find_entry_range in Hi. pose proof (rn_dir _ Hk).
      eapply agrees_ld32; [apply K|..]; unfold files, BLOCK_SIZE; lia.
    + intros l Hin. rewrite (find_entry_keeps k k') by (done || apply K). by apply Hno.
Qed.

(** C10: the system passes its own tests: on a kernel that runs the test program, with a
    directory "." and no file of the three names the tests use, typing a digit from 0 to 8
    makes the program print that the chosen tests (for 0, all eight and the summary) passed,
    and return 0.  The only other output is the kernel's message for the bad [vidmap]. *)
Theorem syserr_passes k c w buf bufs :
  good k → line_typed (c :: w) k → (length w ≤ 126)%nat → 48 ≤ c ≤ 56 →
  user_range buf 127 → away syserr_lits buf 127 →
  ∃ k', syserr_main junk buf bufs k = Some (0, k') ∧ good k' ∧
    printed (prompt ++ select_output (c - 48)) k k'.
Proof.
  intros Hg Ht Hl Hc Hr Ha. unfold syserr_main, mbind, prog_bind.
  destruct (puts_good k prompt ltac:(a_lit) Hg) as (k1 & E1 & G1 & P1 & T1).
  unfold prompt in E1. rewrite E1.
  destruct (read_select k1 buf (c :: w) G1 (T1 _ Ht) ltac:(simpl; lia) Hr Ha) as (k2 & E2 & G2 & P2 & L2).
  rewrite E2. destruct (Z.eqb_spec (Z.of_nat (length (c :: w))) (-1)); [lia|].
  assert (uld8 (US := kernel_usys) k2 buf = c) as Ec.
  { apply (f_equal (λ l, l !! 0%nat)) in L2. unfold load_bytes in L2.
    rewrite list_lookup_fmap, lookup_seqZ_lt in L2 by (simpl; lia). simpl in L2.
    injection L2 as L2. by rewrite Z.add_0_r in L2. }
  unfold peekb. rewrite Ec.
  destruct (tr_select bufs (c - 48) ltac:(lia) k2 G2) as (k3 & E3 & G3 & P3).
  exists k3. split_and!; [done|done|].
  exact (printed_trans _ _ _ _ _ P1 (printed_trans [] _ _ _ _ P2 P3)).
Qed.
End passes.
