(* ===== verification/Demo.v ===== *)
(** * Concrete states

    A small machine on which the theorems about system calls, processes and the
    scheduler are applied: the kernel's data lie in its identity-mapped 4 MB page, the
    file system holds a directory, a text file and a program called "shell". *)

From Stdlib Require Import String.
From S2P Require Import Prelude Mem Lib Fs Paging Kstate Pc Screen Terminal Pic Rtc Keyboard.
From S2P Require Import Files Process Parse Sched Exec Load System Idt.

#[local] Existing Instance demo_pg.
#[local] Existing Instance no_ports.

#[local] Instance demo_fs : FsLayout := {| fs_blocks := 5242880; boot_block := 6291456 |}.

#[local] Instance demo_frames : Frames :=
  {| fr_tmp_dentry := 100; fr_file_open := 200; fr_dir_open := 300; fr_dir_read := 400;
     fr_first_four_bytes := 404; fr_the_file_dentry := 500; fr_args := 700;
     fr_file_name := 760; fr_halt := 1000; fr_base_shell := 1200; str_shell := 6500000;
     past_args := λ _ _, 0 |}.

(** The words of the image: the boot block in both places it is kept, the inodes of
    "shell" (40 bytes in data block 0) and "abc" (5 bytes in data block 1), the blocks,
    and the string literals. *)
Definition system_words : list (Z * Z) :=
  [ (6291456, 3); (6291460, 3); (6291464, 2);
    (6291456 + 64, 46); (6291456 + 96, 1); (6291456 + 100, 0);
    (6291456 + 128, 97 + 256 * 98 + 65536 * 99); (6291456 + 160, 2); (6291456 + 164, 1);
    (6291456 + 192, 115 + 256 * 104 + 65536 * 101 + 16777216 * 108); (6291456 + 196, 108);
    (6291456 + 224, 2); (6291456 + 228, 2);
    (5242880 + 2 * 4096, 5); (5242880 + 2 * 4096 + 4, 1);
    (5242880 + 3 * 4096, 40); (5242880 + 3 * 4096 + 4, 0);
    (5242880 + 4 * 4096, 127 + 256 * 69 + 65536 * 76 + 16777216 * 70);
    (5242880 + 4 * 4096 + 24, 134512700);
    (5242880 + 5 * 4096, 104 + 256 * 101 + 65536 * 108 + 16777216 * 108);
    (5242880 + 5 * 4096 + 4, 111);
    (6500000, 115 + 256 * 104 + 65536 * 101 + 16777216 * 108); (6500004, 108);
    (6600000, 97 + 256 * 98 + 65536 * 99) ].

Definition system_mem : mem := foldl (λ m '(a, v), st32 (X := flat) m a v) ∅ system_words.

(** The state in which the first timer interrupt arrives. *)
Definition booted : kernel :=
  set_fsv (FsVars (5242880 + 4096) (5242880 + 4 * 4096))
    (set_cpu (Cpu 8388000 8388100 true) (set_mem system_mem demo_kernel)).

Lemma booted_at_boot : at_boot booted.
Proof.
  constructor; [exact demo_con_ok| |reflexivity|reflexivity].
  intros t Ht. assert (t = 0 ∨ t = 1 ∨ t = 2) as [->|[->| ->]] by lia; reflexivity.
Qed.

Definition starts_b (o : option outcome) : bool :=
  match o with Some (Iret _ _ _) => true | _ => false end.

Lemma starts_intro r : starts_b r = true → ∃ eip sp k, r = Some (Iret eip sp k).
Proof. destruct r as [[]|]; try done. intros _. by eexists _, _, _. Qed.

(** The first tick starts a shell. *)
Lemma first_tick : starts_b (pit_int_handler booted) = true.
Proof. vm_compute. reflexivity. Qed.

Lemma first_tick_step eip sp k : pit_int_handler booted = Some (Iret eip sp k) → kstep booted k.
Proof.
  intros E. change k with (outcome_k (Iret eip sp k)). apply ks_tick; [done|].
  intros _. by eexists _, _, _.
Qed.

(** Terminal 0 runs the first shell, which executes another program. *)
Definition shell_procs : procs :=
  Procs 0 (get_pcb_ptr 0) [1; 0; 0; 0; 0; 0]
    {[ get_pcb_ptr 0 := new_pcb (-1) 0 (replicate 128 0) pcb_zero ]} KERNEL_DS (stack_top 0).

Definition in_shell : kernel :=
  set_prc shell_procs (set_mmu (setup_paging_and_flush_tlb 0 (kmmu booted)) booted).

Definition in_shell_sys : sys := Sys 0 (<[0 := [Task 0 0 0]]> (λ _, [])).

Lemma three_cases t : 0 ≤ t < 3 → t = 0 ∨ t = 1 ∨ t = 2.
Proof. lia. Qed.

Lemma in_shell_refines : refines in_shell in_shell_sys.
Proof.
  split; [constructor|].
  - split; [reflexivity|simpl; lia].
  - split; [reflexivity|]. intros t [-> | [-> | ->]]%three_cases; split; reflexivity.
  - reflexivity.
  - intros i Hi. change (stk_pids (s_stk in_shell_sys)) with [0]. rewrite list_elem_of_singleton.
    assert (i = 0 ∨ i = 1 ∨ i = 2 ∨ i = 3 ∨ i = 4 ∨ i = 5) as
      [->|[->|[->|[->|[->| ->]]]]] by lia; vm_compute; intuition discriminate.
  - intros i. change (stk_pids (s_stk in_shell_sys)) with [0].
    intros ->%list_elem_of_singleton. lia.
  - change (stk_pids (s_stk in_shell_sys)) with [0]. apply NoDup_singleton.
  - intros t [-> | [-> | ->]]%three_cases; reflexivity.
  - intros t [-> | [-> | ->]]%three_cases; vm_compute; auto.
  - intros _. reflexivity.
  - intros i. change (stk_pids (s_stk in_shell_sys)) with [0].
    intros ->%list_elem_of_singleton. reflexivity.
  - intros _. reflexivity.
Qed.

Lemma in_shell_con : con_ok (con in_shell).
Proof. exact demo_con_ok. Qed.

Definition shell_amap : amap := set_prog (Some 2) boot_amap.

Lemma in_shell_mmu : mmu_ok (kmmu in_shell) shell_amap shell_amap.
Proof. apply (setup_paging_ok _ boot_amap boot_amap 0 demo_mmu_ok); lia. Qed.

Lemma in_shell_pcbs q : length (pcb_fds (get_pcb (prc in_shell) q)) = 8%nat.
Proof.
  assert (map_Forall (λ _ p, length (pcb_fds p) = 8%nat) (pcbs shell_procs)) as H
    by (apply (bool_decide_unpack _); vm_compute; exact I).
  change (prc in_shell) with shell_procs.
  unfold get_pcb. destruct (pcbs shell_procs !! q) eqn:E; [|done]. by apply (H _ _ E).
Qed.

Lemma in_shell_execute : starts_b (syscall_execute str_shell in_shell) = true.
Proof. vm_compute. reflexivity. Qed.

(** ** Processes *)

Lemma kernel_step_simulates_witness :
  ∃ eip sp k S, pit_int_handler booted = Some (Iret eip sp k) ∧ sstep (sys_boot 0) S ∧ refines k S.
Proof.
  destruct (starts_intro _ first_tick) as (eip & sp & k & E).
  destruct (kernel_step_simulates booted k (sys_boot 0)) as (S & H1 & H2).
  - exact (boot_refines booted booted_at_boot).
  - exact (first_tick_step _ _ _ E).
  - exists eip, sp, k, S. exact (conj E (conj H1 H2)).
Defined.

Lemma reachable_processes_ok_witness :
  ∃ eip sp k, pit_int_handler booted = Some (Iret eip sp k) ∧ pids_ok k.
Proof.
  destruct (starts_intro _ first_tick) as (eip & sp & k & E).
  exists eip, sp, k. split; [exact E|].
  apply (reachable_processes_ok booted k booted_at_boot).
  exact (ks_more _ _ _ (ks_refl booted) (first_tick_step _ _ _ E)).
Defined.

Lemma execute_halt_roundtrip_witness :
  ∃ eip sp k1 k2 r ra, syscall_execute str_shell in_shell = Some (Iret eip sp k1) ∧
    syscall_halt 7 k1 = Some (Resume r ra k2) ∧ cur_pid (prc k2) = 0.
Proof.
  destruct (starts_intro _ in_shell_execute) as (eip & sp & k1 & E).
  destruct (execute_halt_roundtrip str_shell 7 in_shell in_shell_sys eip sp k1
    shell_amap shell_amap (pmem k1) in_shell_refines ltac:(discriminate) in_shell_con in_shell_mmu
    in_shell_pcbs E) as (k2 & H & _ & _ & Hc & _).
  exists eip, sp, k1, k2, (halt_status 7). eexists. split; [exact E|]. split; [|exact Hc].
  etransitivity; [|exact H]. destruct k1; reflexivity.
Defined.

(** The shell waits in [execute] for the program with pid 1. *)
Definition child_procs : procs :=
  Procs 1 (get_pcb_ptr 1) [1; 1; 0; 0; 0; 0]
    (<[ get_pcb_ptr 1 := new_pcb 0 1 (replicate 128 0) pcb_zero ]>
       {[ get_pcb_ptr 0 := set_p_regs 8388000 8388100 (new_pcb (-1) 0 (replicate 128 0) pcb_zero) ]})
    KERNEL_DS (stack_top 1).

Definition in_child : kernel :=
  set_prc child_procs (set_mmu (setup_paging_and_flush_tlb 1 (kmmu booted)) booted).

Definition in_child_sys : sys := Sys 0 (<[0 := [Task 1 0 0; Task 0 8388000 8388100]]> (λ _, [])).

Lemma in_child_refines : refines in_child in_child_sys.
Proof.
  assert (stk_pids (s_stk in_child_sys) = [1; 0]) as Es by done.
  assert (∀ i, i ∈ [1; 0] → i = 1 ∨ i = 0) as Hs.
  { intros i. rewrite elem_of_cons, list_elem_of_singleton. tauto. }
  split; [constructor|]; rewrite ?Es.
  - split; [reflexivity|simpl; lia].
  - split; [reflexivity|]. intros t [-> | [-> | ->]]%three_cases; split; reflexivity.
  - reflexivity.
  - intros i Hi. rewrite elem_of_cons, list_elem_of_singleton.
    assert (i = 0 ∨ i = 1 ∨ i = 2 ∨ i = 3 ∨ i = 4 ∨ i = 5) as
      [->|[->|[->|[->|[->| ->]]]]] by lia; vm_compute; intuition discriminate.
  - intros i [-> | ->]%Hs; lia.
  - by apply (bool_decide_unpack _).
  - intros t [-> | [-> | ->]]%three_cases; reflexivity.
  - intros t [-> | [-> | ->]]%three_cases; vm_compute; auto.
  - intros _. reflexivity.
  - intros i [-> | ->]%Hs; reflexivity.
  - intros _. reflexivity.
Qed.

Lemma halt_resumes_parent_witness :
  ∃ k' ra, syscall_halt 255 in_child = Some (Resume 256 ra k') ∧ cur_pid (prc k') = 0.
Proof.
  destruct (halt_resumes_parent 255 in_child in_child_sys (Task 1 0 0) (Task 0 8388000 8388100) []
    (set_prog (Some 3) boot_amap) (set_prog (Some 3) boot_amap))
    as (k' & H & Hc & _).
  - exact in_child_refines.
  - reflexivity.
  - exact demo_con_ok.
  - apply (setup_paging_ok _ boot_amap boot_amap 1 demo_mmu_ok); lia.
  - reflexivity.
  - exists k'. eexists. exact (conj H Hc).
Defined.

Lemma pid_alloc_lowest_witness : decord_process 1 (use_pid 1 1 in_shell) = Some (0, in_shell).
Proof.
  pose proof (pid_alloc_lowest in_shell ltac:(reflexivity)
    ltac:(repeat first [apply Forall_nil_2 | apply Forall_cons_2; [lia|]])) as H.
  change (record_process in_shell) with (1, use_pid 1 1 in_shell) in H. cbv beta iota in H.
  destruct H as [(H & _)|(_ & _ & _ & _ & H)]; [discriminate|exact H].
Defined.

Lemma pcb_areas_disjoint_witness :
  get_pcb_ptr 0 + _8K ≤ get_pcb_ptr 5 ∨ get_pcb_ptr 5 + _8K ≤ get_pcb_ptr 0.
Proof. apply (pcb_areas_disjoint 0 5); [lia..|discriminate]. Defined.

(** ** The scheduler *)

(** A process on each terminal. *)
Definition three_procs : procs :=
  Procs 0 (get_pcb_ptr 0) [1; 1; 1; 0; 0; 0]
    (<[ get_pcb_ptr 2 := new_pcb (-1) 2 (replicate 128 0) pcb_zero ]>
      (<[ get_pcb_ptr 1 := new_pcb (-1) 1 (replicate 128 0) pcb_zero ]>
        {[ get_pcb_ptr 0 := new_pcb (-1) 0 (replicate 128 0) pcb_zero ]}))
    KERNEL_DS (stack_top 0).

Definition three_shells : kernel :=
  set_prc three_procs (set_mmu (setup_paging_and_flush_tlb 0 (kmmu booted))
    (set_con (con_upd_term 2 (set_t_pid 2) (con_upd_term 1 (set_t_pid 1) demo_con)) booted)).

Lemma three_shells_inv : tick_inv three_shells.
Proof.
  constructor.
  - exists (Some 2). constructor; [exact demo_layout_ok| |].
    + repeat (apply con_ok_set_pid; [|lia]). exact demo_con_ok.
    + exists shell_amap, shell_amap. split; [exact in_shell_mmu|reflexivity].
  - constructor.
    + intros t [-> | [-> | ->]]%three_cases; right; vm_compute; intuition discriminate.
    + intros s t [-> | [-> | ->]]%three_cases [-> | [-> | ->]]%three_cases; try done; discriminate.
    + intros _. reflexivity.
Qed.

Lemma tick_keeps_contexts_witness :
  ∃ k', pit_int_handler three_shells = Some (Ret 0 k') ∧ running_term_ptr (con k') = 1.
Proof.
  destruct (tick_keeps_contexts three_shells three_shells_inv ltac:(discriminate))
    as (k' & E & Hr & _).
  exists k'. exact (conj E Hr).
Defined.

Lemma three_ticks_return_witness :
  ∃ k1 k2 k3, pit_int_handler three_shells = Some (Ret 0 k1) ∧
    pit_int_handler k1 = Some (Ret 0 k2) ∧ pit_int_handler k2 = Some (Ret 0 k3) ∧
    running_term_ptr (con k3) = 0.
Proof.
  destruct (three_ticks_return three_shells three_shells_inv) as (k1 & k2 & k3 & E1 & E2 & E3 & _ & Hr & _).
  - intros t [-> | [-> | ->]]%three_cases; discriminate.
  - exists k1, k2, k3. exact (conj E1 (conj E2 (conj E3 Hr))).
Defined.

(** ** Descriptors *)

(** The kernel's page is where it seems to be. *)
Lemma shell_cell v : 4194304 ≤ v < 8388608 → cell (X := kx in_shell) v = v.
Proof. apply (kernel_page_cell _ shell_amap shell_amap); [exact demo_layout_ok|exact in_shell_mmu]. Qed.

Lemma shell_uniq d n : 4194304 ≤ d → d + n ≤ 8388608 → uniq_range (X := kx in_shell) d n.
Proof. intros ?? i j ??. rewrite !shell_cell by lia. lia. Qed.

Lemma shell_sep d n s l :
  4194304 ≤ d → d + n ≤ 8388608 → 4194304 ≤ s → s + l ≤ 8388608 → d + n ≤ s ∨ s + l ≤ d →
  sep_range (X := kx in_shell) d n s l.
Proof. intros ???? ? i j ??. rewrite !shell_cell by lia. lia. Qed.

Ltac in_page :=
  match goal with
  | |- uniq_range _ _ => apply shell_uniq; clear; vm_compute; intuition discriminate
  | |- image_sep _ _ => unfold image_sep; in_page
  | |- sep_range _ _ _ _ => apply shell_sep; clear; vm_compute; intuition discriminate
  end.

Lemma shell_local d : 8387000 ≤ d → d + 64 ≤ 8388608 → local_ok in_shell d.
Proof.
  intros ??. constructor; [apply shell_uniq; lia|apply shell_sep; change BLOCK_SIZE with 4096; simpl; lia|].
  apply shell_sep; change IMAGE_SIZE with 507904; simpl; lia.
Qed.

Definition abc : list Z := [97; 98; 99].

Lemma shell_open_env : open_env in_shell 6600000 abc.
Proof.
  constructor; [|discriminate|simpl; lia|vm_compute; discriminate|..|in_page|in_page|in_page].
  - split; [|vm_compute; reflexivity].
    intros [|[|[|i]]] x Hx; [injection Hx as <-; split; [vm_compute; reflexivity|discriminate]..|discriminate].
  - apply shell_local; vm_compute; discriminate.
  - apply shell_local; vm_compute; discriminate.
  - apply shell_local; vm_compute; discriminate.
Qed.

Lemma shell_find_abc : find_entry (X := kx in_shell) (pmem in_shell) abc = Some 1.
Proof. vm_compute. reflexivity. Qed.

Lemma shell_fds_ok : fds_ok (cur_pcb in_shell).
Proof. apply (new_pcb_fds (-1) 0 (replicate 128 0) pcb_zero). reflexivity. Qed.

Lemma open_lowest_free_witness :
  ∃ r k', syscall_open 6600000 in_shell = Some (r, k') ∧ kmmu k' = kmmu in_shell.
Proof.
  destruct (open_lowest_free in_shell 6600000 abc 1 regular_file_ops shell_open_env shell_find_abc)
    as (r & k' & E & _ & Hm & _).
  - vm_compute. reflexivity.
  - exists r, k'. exact (conj E Hm).
Defined.

Lemma shell_fs_ok : fs_ok (X := kx in_shell) (pmem in_shell) (fsv in_shell).
Proof. constructor; vm_compute; intuition discriminate. Qed.

Lemma shell_readable : readable (X := kx in_shell) (pmem in_shell) (fsv in_shell) 1.
Proof.
  constructor; [vm_compute; intuition discriminate..|]. intros j Hj.
  assert (file_length (X := kx in_shell) (pmem in_shell) (fsv in_shell) 1 / BLOCK_SIZE = 0) as E
    by (vm_compute; reflexivity).
  replace j with 0 by lia. vm_compute. reflexivity.
Qed.

Lemma open_read_close_witness :
  ∃ fd k1 k2, syscall_open 6600000 in_shell = Some (fd, k1) ∧
    syscall_read fd 6700000 3 k1 = Some (Ret 3 k2) ∧ fst (syscall_close fd k2) = 0.
Proof.
  assert (Z.min 3 (file_length (X := kx in_shell) (pmem in_shell) (fsv in_shell)
    (ld32 (X := kx in_shell) (pmem in_shell) (files 1 + 36))) = 3) as Ec by (vm_compute; reflexivity).
  assert (ld32 (X := kx in_shell) (pmem in_shell) (files 1 + 36) = 1) as Ei by (vm_compute; reflexivity).
  destruct (open_read_close in_shell 6600000 abc 1 6700000 3) as (fd & k1 & k2 & E1 & E2 & _ & _ & E3 & _).
  - exact shell_open_env.
  - exact shell_find_abc.
  - vm_compute. reflexivity.
  - exact shell_fds_ok.
  - intros H. apply (H 2); [lia|vm_compute; reflexivity].
  - exact shell_fs_ok.
  - rewrite Ei. exact shell_readable.
  - lia.
  - in_page.
  - in_page.
  - in_page.
  - exists fd, k1, k2.
    exact (conj E1 (conj (eq_trans E2 (f_equal (λ c, Some (Ret c k2)) Ec)) E3)).
Defined.

(** A process with an argument. *)
Definition with_args : kernel := upd_cur (set_p_args ([97; 98] ++ replicate 126 0)) in_shell.

Lemma kx_upd_cur f (k : kernel) : kx (upd_cur f k) = kx k.
Proof. reflexivity. Qed.

Lemma getargs_copies_witness :
  ∃ m, syscall_getargs 6700000 16 with_args = Some (0, set_mem m with_args) ∧
    load_bytes (X := kx with_args) m 6700000 16 = [97; 98] ++ replicate 14 0.
Proof.
  pose proof (getargs_copies 6700000 16 with_args) as H.
  assert (p_args (cur_pcb with_args) = [97; 98] ++ replicate 126 0) as E by (vm_compute; reflexivity).
  rewrite E in H. destruct H as (m & E1 & E2 & _).
  - discriminate.
  - lia.
  - vm_compute. discriminate.
  - reflexivity.
  - apply (bool_decide_unpack _). vm_compute. exact I.
  - unfold with_args. rewrite kx_upd_cur. in_page.
  - exists m. exact (conj E1 E2).
Defined.

(** ** The command line " cat ab" in the flat address space *)

Definition cat_line : mem :=
  st32 (X := flat) (st32 (X := flat) ∅ 100 (32 + 256 * 99 + 65536 * 97 + 16777216 * 116))
    104 (32 + 256 * 97 + 65536 * 98).

Lemma parse_args_splits_witness :
  ∃ m', parse_args (X := flat) cat_line 100 200 300 = Some (0, m') ∧
    cstring (X := flat) m' 200 [99; 97; 116] ∧ cstring (X := flat) m' 300 [97; 98].
Proof.
  destruct (parse_args_splits (X := flat) cat_line 100 200 300 1 [99; 97; 116] (Some [97; 98]))
    as (m' & E & H1 & H2 & _).
  - split; [|reflexivity].
    intros [|[|[|[|[|[|[|i]]]]]]] x Hx;
      [injection Hx as <-; split; [reflexivity|discriminate]..|discriminate].
  - lia.
  - simpl. lia.
  - by apply (bool_decide_unpack _).
  - discriminate.
  - simpl. lia.
  - simpl. lia.
  - simpl. lia.
  - apply flat_uniq. lia.
  - apply flat_uniq. lia.
  - apply flat_sep; simpl; lia.
  - apply flat_sep; simpl; lia.
  - apply flat_sep; simpl; lia.
  - exists m'. exact (conj E (conj H1 H2)).
Defined.

(** ** execute from the shell *)

Definition shell_name : list Z := [115; 104; 101; 108; 108].

Lemma shell_layout : exec_layout in_shell.
Proof.
  constructor; [split; [exact demo_layout_ok|exists shell_amap, shell_amap; exact in_shell_mmu]|..];
    try (constructor; vm_compute; intuition discriminate); vm_compute; intuition discriminate.
Qed.

Lemma shell_command : command in_shell str_shell 0 shell_name None.
Proof.
  constructor; [|done|simpl; lia|by apply (bool_decide_unpack _)|done|simpl; lia..|in_page|in_page].
  split; [|vm_compute; reflexivity].
  intros [|[|[|[|[|i]]]]] x Hx;
    [injection Hx as <-; split; [vm_compute; reflexivity|discriminate]..|discriminate].
Qed.

Lemma shell_find : find_entry (X := kx in_shell) (pmem in_shell) shell_name = Some 2.
Proof. vm_compute. reflexivity. Qed.

Lemma shell_ino : ld32 (X := kx in_shell) (pmem in_shell) (files 2 + 36) = 2.
Proof. vm_compute. reflexivity. Qed.

Lemma shell_program_readable : readable (X := kx in_shell) (pmem in_shell) (fsv in_shell) 2.
Proof.
  constructor; [vm_compute; intuition discriminate..|]. intros j Hj.
  assert (file_length (X := kx in_shell) (pmem in_shell) (fsv in_shell) 2 / BLOCK_SIZE = 0) as E
    by (vm_compute; reflexivity).
  replace j with 0 by lia. vm_compute. reflexivity.
Qed.

Lemma shell_cur_ok : cur_ok in_shell.
Proof. intros _. split; [|split; [|reflexivity]]; vm_compute; intuition discriminate. Qed.

Lemma execute_loads_program_witness :
  ∃ eip k', syscall_execute str_shell in_shell = Some (Iret eip 138412028 k') ∧
    load_bytes (X := kx k') (pmem k') PROGRAM_VIR_ADDR 4 = elf_bytes.
Proof.
  pose proof (execute_loads_program in_shell str_shell 0 shell_name None 2 shell_layout shell_command
    shell_cur_ok) as H. cbv zeta in H. rewrite shell_ino in H.
  destruct H as (pid & m & k' & _ & _ & _ & _ & E & _ & Hb).
  - vm_compute. discriminate.
  - exact shell_find.
  - constructor; vm_compute; intuition discriminate.
  - exact shell_program_readable.
  - vm_compute. discriminate.
  - vm_compute. reflexivity.
  - intros H. specialize (H 5 ltac:(lia)). apply H. reflexivity.
  - exists (file_word (X := kx in_shell) (pmem in_shell) (fsv in_shell) 2 24), k'.
    split; [exact E|]. apply (f_equal (take 4)) in Hb.
    assert (file_length (X := kx in_shell) (pmem in_shell) (fsv in_shell) 2 = 40) as El
      by (vm_compute; reflexivity).
    rewrite El in Hb. unfold load_bytes at 1 in Hb. rewrite <- fmap_take in Hb.
    unfold load_bytes. etransitivity; [exact Hb|]. vm_compute. reflexivity.
Defined.

Lemma abc_command : command in_shell 6600000 0 abc None.
Proof.
  constructor; [|done|simpl; lia|by apply (bool_decide_unpack _)|done|simpl; lia..|in_page|in_page].
  apply shell_open_env.
Qed.


Lemma vidmap_own_screen_witness :
  let '(r, k') := syscall_vidmap 134217744 in_shell in
  r = 0 ∧ translate (kmmu k') FISH_MAP = Some 753664.
Proof.
  pose proof (vidmap_own_screen in_shell shell_amap shell_amap 2 134217744 demo_layout_ok in_shell_con
    in_shell_mmu ltac:(reflexivity) ltac:(lia)) as H.
  destruct (syscall_vidmap 134217744 in_shell) as [r k'].
  rewrite bool_decide_eq_true_2 in H by (vm_compute; intuition discriminate).
  destruct H as (Hr & _ & Ht & _). split; [exact Hr|].
  specialize (Ht 0 ltac:(unfold _4K; lia)). rewrite Z.add_0_r in Ht. exact Ht.
Defined.

(** ** Vectors and exceptions *)

#[local] Instance demo_entries : EntryAddrs := λ _, 4194816.

Lemma idt_init_gates_witness :
  deliver (idt (idt_init (IdtState (replicate 256 0) false))) 14 None = Some 4194816 ∧
  deliver (idt (idt_init (IdtState (replicate 256 0) false))) 14 (Some 3) = None.
Proof.
  destruct (idt_init_gates (IdtState (replicate 256 0) false) 14) as (H1 & H2 & _).
  - reflexivity.
  - apply (bool_decide_unpack _). vm_compute. exact I.
  - intros e. unfold entry_addr, demo_entries. lia.
  - lia.
  - split; [exact H1|exact H2].
Defined.

Lemma in_child_mapped : mapped in_child (running_term_ptr (con in_child)) (Some 3).
Proof.
  constructor; [exact demo_layout_ok|exact demo_con_ok|vm_compute; intuition discriminate|reflexivity..|].
  eexists _, _. apply (setup_paging_ok _ boot_amap boot_amap 1 demo_mmu_ok); lia.
Qed.

Lemma exception_ends_program_witness :
  ∃ h ra k', (e_page_fault, h) ∈ excp_handlers 12345 ∧ h in_child = Some (Resume 256 ra k') ∧
    cur_pid (prc k') = 0.
Proof.
  destruct (exception_ends_program 12345 14 e_page_fault in_child in_child_sys (Task 1 0 0)
    (Task 0 8388000 8388100) [] (Some 3)) as (h & ra & k' & Hin & E & Hc & _).
  - exact in_child_refines.
  - reflexivity.
  - exact in_child_mapped.
  - reflexivity.
  - reflexivity.
  - exists h, ra, k'. exact (conj Hin (conj E Hc)).
Defined.
