(* ===== verification/Progdemo.v ===== *)
(** * Programs on a concrete kernel

    The small machine of Demo.v with the literals of the programs in the page of the running
    process and a line typed on its terminal; the theorems about programs are applied to it. *)

From Stdlib Require Import String.
From S2P Require Import Prelude Mem Lib Fs Paging Kstate Screen Terminal Keyboard.
From S2P Require Import Files Process Load User Support Client Grep Ls Conform Guard Sigtest Syserr Demo.

#[local] Existing Instance demo_pg.
#[local] Existing Instance no_ports.
#[local] Existing Instance demo_fs.
#[local] Existing Instance demo_frames.

(** Each literal has 128 bytes of the program's page. *)
Definition demo_lits : list (list Z) := hello_lits ++ counter_lits ++ syserr_lits ++
  shell_lits ++ grep_lits ++ ls_lits ++ sigtest_lits ++ [lit "ell"%string; abc].

#[local] Instance demo_rodata : Rodata := λ l,
  134300000 + 128 * Z.of_nat (default 0%nat (fst <$> list_find (l =.) demo_lits)).

(** The page is the frame at 8 MB. *)
Definition demo_text : mem :=
  foldl (λ m l, put_bytes m (str l - 134217728 + 8388608) (l ++ [0])) system_mem demo_lits.

(** The line [l] is typed, and the process has the argument "abc". *)
Definition demo_prog (l : list Z) : kernel :=
  set_mem demo_text (set_con
    (con_upd_term 0 (λ t, set_t_ready 1 (set_t_kbd_buf (l ++ replicate (128 - length l) 0) t)) demo_con)
    (upd_cur (set_p_args (abc ++ replicate 125 0)) in_shell)).

Lemma demo_prog_con l : (length l ≤ 128)%nat → con_ok (con (demo_prog l)).
Proof.
  intros Hl. apply con_ok_upd; [exact demo_con_ok|lia|by constructor|vm_compute; intuition discriminate| |].
  - cbn [t_kbd_buf set_t_ready set_t_kbd_buf]. rewrite length_app, length_replicate. lia.
  - vm_compute. intuition discriminate.
Qed.

Lemma kmmu_loaded m c f (k : kernel) : kmmu (set_mem m (set_con c (upd_cur f k))) = kmmu k.
Proof. reflexivity. Qed.

Lemma con_loaded m c (k : kernel) : con (set_mem m (set_con c k)) = c.
Proof. reflexivity. Qed.

Lemma demo_prog_mapped l : (length l ≤ 128)%nat → mapped (demo_prog l) 0 (Some 2).
Proof.
  intros Hl. constructor; [exact demo_layout_ok|by apply demo_prog_con|lia|reflexivity|reflexivity|].
  assert (kmmu (demo_prog l) = kmmu in_shell) as -> by apply kmmu_loaded.
  assert (frame_of (con (demo_prog l)) 0 = vid shell_amap) as ->
    by (unfold demo_prog; rewrite con_loaded; reflexivity).
  eexists _, _. exact in_shell_mmu.
Qed.

Lemma cur_pcb_loaded m c f (k : kernel) : cur_pcb (set_mem m (set_con c (upd_cur f k))) = f (cur_pcb k).
Proof. exact (cur_pcb_upd f k). Qed.

Lemma demo_prog_pcb l : cur_pcb (demo_prog l) = set_p_args (abc ++ replicate 125 0) (cur_pcb in_shell).
Proof. apply cur_pcb_loaded. Qed.

Lemma fds_ok_args a p : fds_ok p → fds_ok (set_p_args a p).
Proof. intros []. by constructor. Qed.

Lemma kx_upd m c f (k : kernel) : kx (set_mem m (set_con c (upd_cur f k))) = kx k.
Proof. reflexivity. Qed.

Lemma kx_loaded l : kx (demo_prog l) = kx in_shell.
Proof. apply kx_upd. Qed.

Lemma demo_prog_runs l : (length l ≤ 128)%nat → runs (demo_prog l).
Proof.
  intros Hl. constructor.
  - exists 2. split; [lia|]. exact (demo_prog_mapped l Hl).
  - reflexivity.
  - rewrite demo_prog_pcb. exact (fds_ok_args _ _ shell_fds_ok).
  - constructor; vm_compute; intuition discriminate.
  - rewrite kx_loaded. change (pmem (demo_prog l)) with demo_text. vm_compute. discriminate.
  - constructor; try (constructor; vm_compute; intuition discriminate); vm_compute; intuition discriminate.
Qed.

Definition lit_ok (s : list Z) : Prop :=
  load_bytes (X := kx in_shell) demo_text (str s) (Z.of_nat (S (length s))) = s ++ [0] ∧
  Forall (λ c, 0 < c < 256) s ∧ 134217728 ≤ str s ∧ str s + Z.of_nat (length s) + 1 ≤ 138412032.

Lemma demo_lits_ok : Forall lit_ok demo_lits.
Proof. apply (bool_decide_unpack _). vm_compute. exact I. Qed.

Lemma demo_prog_lits l ls : ls ⊆ demo_lits → lits (US := kernel_usys) ls (demo_prog l).
Proof.
  intros Hs s Hin. pose proof (proj1 (Forall_forall _ _) demo_lits_ok s (Hs s Hin)) as (H1 & H2 & H3 & H4).
  split; [|unfold user_range; lia]. change (cstring (X := kx (demo_prog l)) (pmem (demo_prog l)) (str s) s).
  rewrite kx_loaded. apply (load_cstring _ _ _ (S (length s))); [done|lia|].
  change (pmem (demo_prog l)) with demo_text. rewrite H1. apply take_ge. rewrite length_app. simpl. lia.
Qed.

Lemma away_bool ls a n :
  forallb (λ l, (str l + Z.of_nat (length l) <? a) || (a + n <=? str l)) ls = true → away ls a n.
Proof.
  intros H l Hin. rewrite forallb_forall in H. specialize (H l (proj1 (list_elem_of_In _ _) Hin)).
  apply orb_true_iff in H as [H%Z.ltb_lt|H%Z.leb_le]; lia.
Qed.

Lemma demo_prog_typed w :
  Forall (λ c, 0 ≤ c < 256 ∧ c ≠ 10) w → (length w ≤ 127)%nat → line_typed (w ++ [10]) (demo_prog (w ++ [10])).
Proof.
  intros Hc Hl. split_and!; [reflexivity|reflexivity|]. exists w. split_and!; [done| |done|done].
  change (t_kbd_buf (viewing (demo_prog (w ++ [10])))) with
    ((w ++ [10]) ++ replicate (128 - length (w ++ [10])) 0).
  rewrite take_app_le by (rewrite length_app; simpl; lia). apply take_ge. rewrite length_app. simpl. lia.
Qed.

Lemma demo_prog_argument l : has_argument abc (demo_prog l).
Proof.
  unfold has_argument. rewrite demo_prog_pcb.
  split_and!; [vm_compute; discriminate|discriminate|by apply (bool_decide_unpack _)|vm_compute; reflexivity|
    apply (bool_decide_unpack _); vm_compute; exact I|].
  exists (replicate 124 0). vm_compute. reflexivity.
Qed.

(** ** The programs *)

Definition my_name : list Z := [109; 101].

Lemma hello_greets_witness :
  ∃ k', hello_main (US := kernel_usys) 134250000 (demo_prog (my_name ++ [10])) = Some (0, k') ∧
    printed (lit "Hi, what's your name? "%string ++ lit "Hello, "%string ++ my_name ++ [10])
      (demo_prog (my_name ++ [10])) k'.
Proof.
  destruct (hello_greets (US := kernel_usys) (T := kernel_tty) (demo_prog (my_name ++ [10]))
    (my_name ++ [10]) 134250000) as (k' & E & _ & H).
  - apply demo_prog_runs. simpl. lia.
  - apply demo_prog_lits. by apply (bool_decide_unpack _).
  - apply demo_prog_typed; [by apply (bool_decide_unpack _)|simpl; lia].
  - simpl. lia.
  - by apply (bool_decide_unpack _).
  - unfold user_range. lia.
  - apply away_bool. vm_compute. reflexivity.
  - exists k'. exact (conj E H).
Defined.

(** What a program writes leaves the address space and the file system alone. *)
Lemma steady_refl k : steady k k.
Proof. constructor; try done; by intros a. Qed.

Lemma steady_trans k1 k2 k3 : steady k1 k2 → steady k2 k3 → steady k1 k3.
Proof.
  intros [A1 A2 A3 A4 A5] [B1 B2 B3 B4 B5]. constructor; [congruence..| |]; intros a Ha; rewrite ?B4, ?B5 by done; auto.
Qed.

#[local] Program Instance steady_tty : Tty (US := kernel_usys) := {|
  live := runs;
  typed := line_typed;
  wrote := λ l k k', printed l k k' ∧ steady k k';
  tty_cells := tty_cells (Tty := kernel_tty);
  tty_write_none := tty_write_none (Tty := kernel_tty);
|}.
Next Obligation. intros k. split; [by split_and!|apply steady_refl]. Qed.
Next Obligation. intros l1 l2 k1 k2 k3 [A1 A2] [B1 B2]. split; [by eapply printed_trans|by eapply steady_trans]. Qed.
Next Obligation.
  intros k m a n Hk Hr U. destruct (store_runs k m a n Hk Hr U) as (H1 & H2 & [H3 _]).
  split_and!; [done|done|done|]. by intros l.
Qed.
Next Obligation.
  intros k buf n Hk Hn Hr. destruct (terminal_write_runs k buf n Hk Hn Hr) as (k' & E & H1 & H2 & H3 & H4 & [H5 _]).
  exists k'. split; [|done]. unfold user_range in Hr. cbn. unfold syscall_entry.
  change (s32 SYS_WRITE) with 4. change (s32 1) with 1. rewrite (s32_small n) by lia. simpl.
  rewrite write_1 by apply Hk. by rewrite E.
Qed.
Next Obligation.
  intros k l buf n Hk Ht Hn Hr. destruct (read_runs k l buf n Hk Ht Hn Hr) as (k' & E & H1 & H2 & H3 & H4 & [H5 _]).
  exists k'. split; [|done]. cbn. unfold syscall_entry.
  change (s32 SYS_READ) with 3. change (s32 0) with 0. rewrite (s32_small n) by lia. simpl.
  by rewrite E.
Qed.

(** A word that is no command, in the buffer of the shell. *)
Definition xyz : list Z := [120; 121; 122].

Lemma xyz_refused k :
  runs k → steady (demo_prog (xyz ++ [10])) k → ucstr (US := kernel_usys) k 134250000 xyz →
  ∃ k', int80 (Usys := kernel_usys) SYS_EXECUTE 134250000 (u32 0) (u32 0) k = Some (-1, k') ∧
    runs k' ∧ printed msg_by_name k k' ∧ same_but (US := kernel_usys) 0 0 k k'.
Proof.
  intros Hk Hst [Hs _]. pose proof Hk as [(p & Hp & Hm) _ _ Hfs _ _].
  assert (exec_layout k) as HL.
  { constructor; [by apply runs_paged|done|..]; unfold local_at; rewrite (kp_esp _ _ Hst);
      try (constructor; vm_compute; intuition discriminate); vm_compute; intuition discriminate. }
  destruct (execute_missing_runs k 134250000 0 xyz None) as (k' & E & H).
  - done.
  - exact HL.
  - pose proof HL as []. constructor; try (done || simpl; lia); [by apply (bool_decide_unpack _)|..];
      (eapply kpage_user_sep; [done|done|by apply runs_paged|unfold user_range; simpl; lia|by apply kl_page]).
  - rewrite (find_entry_keeps (demo_prog (xyz ++ [10])) k _ (demo_prog_runs (xyz ++ [10]) ltac:(simpl; lia)) Hst).
    rewrite kx_loaded. change (pmem (demo_prog (xyz ++ [10]))) with demo_text. vm_compute. reflexivity.
  - exists k'. split; [|exact H]. cbn. unfold syscall_entry. change (s32 SYS_EXECUTE) with 2. simpl. by rewrite E.
Qed.

(** Unknown commands are refused, "exit" is obeyed. *)
Lemma shell_obeys_witness :
  (∃ k', shell_step (US := kernel_usys) 0 134250000 (demo_prog (lit "exit"%string ++ [10])) = Some (inr 0, k') ∧
    printed (lit "391OS> "%string) (demo_prog (lit "exit"%string ++ [10])) k') ∧
  ∃ k', shell_step (US := kernel_usys) 0 134250000 (demo_prog (xyz ++ [10])) = Some (inl (), k') ∧
    printed (lit "391OS> "%string ++ msg_by_name ++ lit "no such command"%string ++ [10])
      (demo_prog (xyz ++ [10])) k'.
Proof.
  split.
  - destruct (shell_obeys (US := kernel_usys) (T := kernel_tty) 0 (demo_prog (lit "exit"%string ++ [10]))
      (lit "exit"%string) 134250000) as (k' & _ & H & _ & _ & E & _).
    + apply demo_prog_runs. simpl. lia.
    + apply demo_prog_lits. by apply (bool_decide_unpack _).
    + apply demo_prog_typed; [by apply (bool_decide_unpack _)|simpl; lia].
    + simpl. lia.
    + by apply (bool_decide_unpack _).
    + unfold user_range. lia.
    + apply away_bool. vm_compute. reflexivity.
    + exists k'. exact (conj (E eq_refl) H).
  - destruct (shell_obeys (US := kernel_usys) (T := steady_tty) 0 (demo_prog (xyz ++ [10])) xyz 134250000)
      as (k1 & R1 & [P1 S1] & C1 & L1 & _ & _ & E).
    + apply demo_prog_runs. simpl. lia.
    + apply demo_prog_lits. by apply (bool_decide_unpack _).
    + apply demo_prog_typed; [by apply (bool_decide_unpack _)|simpl; lia].
    + simpl. lia.
    + by apply (bool_decide_unpack _).
    + unfold user_range. lia.
    + apply away_bool. vm_compute. reflexivity.
    + destruct (xyz_refused k1 R1 S1 C1) as (k2 & E2 & R2 & P2 & S2). rewrite E2 in E.
      destruct E as (k3 & E3 & _ & [P3 _] & _); [discriminate|discriminate|exact R2|by eapply lits_kept|].
      exists k3. split; [exact E3|]. exact (printed_trans _ _ _ _ _ P1 (printed_trans _ _ _ _ _ P2 P3)).
Defined.

Lemma counter_counts_witness :
  ∃ k' ls, counter_main (US := kernel_usys) 134250000 (demo_prog [48; 10]) = Some (0, k') ∧
    numerals (seqZ 1 100) ls ∧
    printed (counter_prompt ++ concat ((λ l, l ++ [10]) <$> ls)) (demo_prog [48; 10]) k'.
Proof.
  destruct (counter_counts (US := kernel_usys) (T := kernel_tty) (demo_prog [48; 10]) 48 134250000)
    as (k' & ls & E & _ & Hn & H).
  - apply demo_prog_runs. simpl. lia.
  - apply demo_prog_lits. by apply (bool_decide_unpack _).
  - apply (demo_prog_typed [48]); [by apply (bool_decide_unpack _)|simpl; lia].
  - lia.
  - unfold user_range. lia.
  - apply away_bool. vm_compute. reflexivity.
  - exists k', ls. exact (conj E (conj Hn H)).
Defined.

Lemma itoa_agrees_witness :
  ece391_itoa (US := kernel_usys) 391 134250000 10 (demo_prog []) =
  itoa (X := uxl (demo_prog [] : ust (Usys := kernel_usys))) (umem (demo_prog [] : ust (Usys := kernel_usys)))
    391 134250000 10 ≫= λ m, Some ((), uset m (demo_prog [] : ust (Usys := kernel_usys))).
Proof. exact (itoa_agrees (US := kernel_usys) 391 134250000 10 (demo_prog [])). Defined.

Lemma syserr_passes_witness :
  ∃ k', syserr_main (US := kernel_usys) 0 134250000 134251000 (demo_prog [48; 10]) = Some (0, k') ∧
    printed (prompt ++ select_output 0) (demo_prog [48; 10]) k'.
Proof.
  destruct (syserr_passes 0 (demo_prog [48; 10]) 48 [10] 134250000 134251000) as (k' & E & _ & H).
  - split.
    + constructor; [apply demo_prog_runs; simpl; lia|apply demo_prog_lits; by apply (bool_decide_unpack _)|..].
      * exists 0. split; vm_compute; reflexivity.
      * apply Forall_forall. apply (bool_decide_unpack _). vm_compute. exact I.
    + intros j Hj. change (demo_prog [48; 10]) with (demo_prog [48; 10]).
      assert (j = 2 ∨ j = 3 ∨ j = 4 ∨ j = 5 ∨ j = 6 ∨ j = 7) as [->|[->|[->|[->|[->| ->]]]]] by lia;
        (split; [lia|intros _; vm_compute; reflexivity]).
  - apply (demo_prog_typed [48]); [by apply (bool_decide_unpack _)|simpl; lia].
  - simpl. lia.
  - lia.
  - unfold user_range. lia.
  - apply away_bool. vm_compute. reflexivity.
  - exists k'. exact (conj E H).
Defined.

(** The file "abc" of the image. *)
Lemma demo_file_named : file_named abc (lit "hello"%string) (demo_prog []).
Proof.
  split; [intros Hb; apply (Hb 2); [lia|vm_compute; reflexivity]|].
  exists 1. split_and!; [vm_compute; reflexivity|vm_compute; reflexivity|].
  assert (ld32 (X := kx (demo_prog [])) (pmem (demo_prog [])) (files 1 + 36) = 1) as -> by (vm_compute; reflexivity).
  split_and!; [constructor; vm_compute; intuition discriminate| |vm_compute; reflexivity].
  constructor; [vm_compute; intuition discriminate..|]. intros j Hj.
  assert (file_length (X := kx (demo_prog [])) (pmem (demo_prog [])) (fsv (demo_prog [])) 1 / BLOCK_SIZE = 0) as Ej
    by (vm_compute; reflexivity).
  replace j with 0 by lia. vm_compute. reflexivity.
Qed.

Lemma grep_file_witness :
  ∃ k', do_one_file (US := kernel_usys) 0 (str (lit "ell"%string)) (str abc) 134250000 (demo_prog []) = Some (0, k') ∧
    printed (lit "abc:hello"%string ++ [10]) (demo_prog []) k'.
Proof.
  destruct (grep_file (US := kernel_usys) (T := kernel_tty) (FI := kernel_files) 0 (lit "ell"%string) abc
    (str (lit "ell"%string)) (str abc) 134250000) with (u := demo_prog []) (text := lit "hello"%string)
    as (k' & E & _ & H).
  - split; [discriminate|by apply (bool_decide_unpack _)].
  - unfold user_range. lia.
  - right. vm_compute. discriminate.
  - right. vm_compute. discriminate.
  - apply away_bool. vm_compute. reflexivity.
  - assert (lits (US := kernel_usys) demo_lits (demo_prog [])) as Hl by by apply demo_prog_lits.
    constructor; [apply demo_prog_runs; simpl; lia|apply Hl; by apply (bool_decide_unpack _)..|].
    apply demo_prog_lits. by apply (bool_decide_unpack _).
  - exact demo_file_named.
  - by apply (bool_decide_unpack _).
  - by apply (bool_decide_unpack _).
  - vm_compute. discriminate.
  - exists k'. exact (conj E H).
Defined.

Lemma ls_lists_witness :
  ∃ k', ls_main (US := kernel_usys) 0 134250000 (demo_prog []) = Some (0, k') ∧
    printed (ls_output [lit "."%string; abc; lit "shell"%string]) (demo_prog []) k'.
Proof.
  destruct (ls_lists (US := kernel_usys) (T := kernel_tty) (DI := kernel_dirs) 0 (demo_prog [])
    [lit "."%string; abc; lit "shell"%string] 134250000) as (k' & E & _ & H).
  - apply demo_prog_runs. simpl. lia.
  - apply demo_prog_lits. by apply (bool_decide_unpack _).
  - split_and!; [intros Hb; apply (Hb 2); [lia|vm_compute; reflexivity]|vm_compute; reflexivity|by repeat constructor|].
    exists 0. split; vm_compute; reflexivity.
  - unfold user_range. lia.
  - apply away_bool. vm_compute. reflexivity.
  - exists k'. exact (conj E H).
Defined.

Lemma cat_prints_witness :
  ∃ k', cat_main (US := kernel_usys) 0 134250000 (demo_prog []) = Some (0, k') ∧
    printed (lit "hello"%string) (demo_prog []) k'.
Proof.
  destruct (cat_prints (US := kernel_usys) (T := kernel_tty) (FI := kernel_files) 0 (demo_prog []) abc
    (lit "hello"%string) 134250000) as (k' & E & _ & H).
  - apply demo_prog_runs. simpl. lia.
  - apply demo_prog_argument.
  - simpl. lia.
  - exact demo_file_named.
  - unfold user_range. lia.
  - exists k'. exact (conj E H).
Defined.

Lemma sigtest_faults_witness :
  ∃ k', sigtest_main (US := kernel_usys) 0 134260004 134260000 134230000 134231000 134250000 (demo_prog (my_name ++ [10])) = Some (Fault 0, k') ∧
    printed (lit "Hi, what's your name? "%string) (demo_prog (my_name ++ [10])) k'.
Proof.
  destruct (sigtest_faults (US := kernel_usys) (T := kernel_tty) (FI := kernel_files) 0 134260004 134260000 134230000 134231000
    (demo_prog (my_name ++ [10])) abc (my_name ++ [10]) 134250000) as (k' & E & _ & H & _).
  - apply demo_prog_runs. simpl. lia.
  - apply demo_prog_argument.
  - simpl. lia.
  - apply demo_prog_typed; [by apply (bool_decide_unpack _)|simpl; lia].
  - simpl. lia.
  - by apply (bool_decide_unpack _).
  - apply demo_prog_lits. by apply (bool_decide_unpack _).
  - apply away_bool. vm_compute. reflexivity.
  - unfold user_range. lia.
  - unfold user_range. lia.
  - lia.
  - vm_compute. reflexivity.
  - exists k'. exact (conj E H).
Defined.

(** A read from the keyboard into the program's page. *)
Lemma descriptor_calls_safe_witness :
  ∃ o, syscall_read 0 134250000 100 (demo_prog (my_name ++ [10])) = Some o ∧ fds_ok (cur_pcb (outcome_k o)) ∧
    kernel_kept (in_range (X := kx (demo_prog (my_name ++ [10]))) (local_at fr_dir_read (demo_prog (my_name ++ [10]))) 64)
      (demo_prog (my_name ++ [10])) (outcome_k o).
Proof.
  destruct (descriptor_calls_safe (demo_prog (my_name ++ [10])) 0 134250000 100
    (demo_prog_runs (my_name ++ [10]) ltac:(simpl; lia)) ltac:(lia) ltac:(unfold user_range; lia))
    as [(o & E & H & _ & K) _].
  exists o. exact (conj E (conj H K)).
Defined.
